(* ===== verification/_CoqProject ===== *)
-Q . S2P
Prelude.v
Prog.v
Compose.v
Slot.v
Topology.v
TopologyFacts.v
Scheduler.v
SchedulerFacts.v
Strings.v
Base64.v
Runtime.v
RuntimeFacts.v
Cri.v
CriFacts.v
Api.v
WorkerEnv.v
SnapshotStore.v
SnapshotStoreFacts.v
Manager.v
ManagerFacts.v
TopologyApply.v
WorkerFiles.v
Url.v
Json.v
ApiJson.v
WorkerServer.v
WorkerClient.v
WorkerHttp.v
WorkerOnCri.v
WorkerProcess.v
WorkerProcessFacts.v
WorkerConcurrency.v
AgentApi.v
Host.v
Snapshotters.v
SnapshottersFacts.v
Cgroup.v
GVisor.v
HostFacts.v
GVisorFacts.v
WorkerOnGVisor.v
KataData.v
Vmm.v
Guest.v
Kata.v
KataParts.v
KataFacts.v
KataCheckpoint.v
KataMerge.v
WorkerOnKata.v
KataHost.v
WorkerProgram.v
Kube.v
Controller.v
Workload.v
WorkloadFacts.v
PoolController.v
PoolControllerFacts.v
PoolStatusFacts.v
SandboxController.v
SandboxControllerFacts.v
SandboxLiveness.v
SnapshotController.v
SnapshotControllerFacts.v
ControllerManager.v
FleetFacts.v
FleetRunning.v
FleetRuns.v
GoClient.v
GoClientFacts.v
