(* ===== verification/Prelude.v ===== *)
(** * SandboxFleet: a verified model of the fleet's control and data path

    SandboxFleet runs sandboxes (containers or micro-VMs) in the Slots of Worker Pods. Three
    controllers drive it from Kubernetes objects; a Worker process in each Pod owns the Slots
    and the container runtime; snapshots of running sandboxes go to an object store.

    ** How the parts interact

    A user creates a [Sandbox]. The Sandbox controller asks the Scheduler for a Slot, tells the
    Worker over HTTP to reserve it and to start (or restore) the Sandbox there, and on deletion
    stops it, releases the Slot and the assignment, and removes the finalizer. The Pool
    controller plans the Slots of every Worker template, pushes the layout to the Workers,
    sizes their StatefulSet and feeds what the Workers report to the Scheduler. The Snapshot
    controller asks a Worker to save a running Sandbox and to upload it. A Worker is the HTTP
    server, the Slot manager behind it, and the runtime, snapshotter and store it calls.

    ** Modelling

    Pure code is a Gallina function. Code that calls out is an effect tree ([Prog]): it returns, or
    makes one call and continues with the answer, about which nothing is assumed. So a theorem about
    a tree holds for every failure of what it calls; [wp] speaks of the final history and result,
    [wpg] of every single call and the history before it, and [run] executes a tree on a concrete
    model; [wpe] speaks of a tree whose calls are answered by an environment that is known only as a
    relation, such as a file system where every call may fail. An operation that runs under a lock
    is one tree on the state that the lock protects. A Go panic is an error result or [None]. Code
    outside the repository (Kubernetes quantities and condition helpers, zstd, the random source,
    the object store, the TOML reader and the JSON of third-party types) is a type class of
    operations with the laws the code relies on, and each such class has an instance in the
    witnesses. An int32 is a [Z] with [wrap32]; a Go map is a [gmap]; where Go's map order can show,
    the order is a parameter.

    ** Files

    - [Prelude]: errors, results, int32, strings; tactics and the hint database [fleet].
      [Prog]: effect trees and their program logics; [Compose]: serving the calls of one component
      by another, and the runs of a tree. [Strings], [Base64], [Url], [Json]: what the
      code uses of Go's strings, path, base64, net/url and encoding/json packages.
    - [Slot], [Topology], [TopologyFacts] (internal/slot): Slots, resource arithmetic and the
      planner [PlanTopology]. Theorems: ids stay unique and within int32, a busy Slot is never dropped
      and free ones go from the highest id, an unblocked plan is exact and stable, the search for
      a free id terminates.
    - [Scheduler], [SchedulerFacts] (internal/scheduler): the in-memory scheduler and its three
      strategies. Theorems: it refines an abstract table of exclusive leases, two Sandboxes never
      own one Slot, capacity is exact, the order of map iteration does not matter, a restart
      restores the table.
    - [Runtime], [RuntimeFacts] (internal/runtime): the runtime interface, confinement of file
      paths and the shell protocol for files. [Cri], [CriFacts] (internal/runtime/cri): the
      runtime over containerd. Theorems: creation is all or nothing, what a successful deletion
      means, a listing gives back what creation recorded, the resource arithmetic is exact.
      [SnapshotStore], [SnapshotStoreFacts]
      (internal/snapshotstore): uploads, downloads and deletes.
    - [Api], [ApiJson] (internal/workerapi): requests and results with their JSON.
      [WorkerEnv]: the calls a Worker makes. [Manager], [ManagerFacts], [TopologyApply],
      [WorkerFiles] (internal/worker): the Slot manager. Theorems: the invariant of a Slot, no
      runtime is lost, isolation of Sandboxes, release frees after deletion, outcomes of
      snapshots and restores, topology changes are atomic and exact.
    - [WorkerServer], [WorkerClient], [WorkerHttp] (internal/worker/httpapi): the HTTP server and
      client. Theorems: a client call composed with the server is one call of the manager with
      the same arguments and answer, and a request touches only the Slot its path names.
    - [WorkerProcess], [WorkerProcessFacts] (cmd/worker): start-up, the server over the manager,
      and the states a Worker can reach by requests that do not overlap. Theorems: when a Worker
      starts, that all its Slots stay well formed, that no request disturbs another Slot.
      [WorkerConcurrency]: requests that overlap - each looks its Slot up and works on it later,
      under its lock, and the topology may change in between. Theorems: that a runtime which the
      table holds is never forgotten, and the one way in which a new one can be lost; that requests
      which do not overlap are such an interleaving.
      [WorkerOnCri]: the Worker over the CRI runtime - what a release leaves in containerd, what a
      recovery puts into the Slots of a manager that has them.
    - [AgentApi] (the messages of the Kata agent and the OCI runtime specification) and [Host]:
      everything the adapters ask of a host - commands, files, mounts, network, processes, sockets,
      containerd - as effects. [Snapshotters], [SnapshottersFacts], [Cgroup] (internal/snapshotter):
      names, the address plan of restored guests, overlay options, the list of containers kept with
      a checkpoint, cgroups. Theorems: addresses of different Slots differ, overlay options and the
      list of containers are read back as they were written.
    - [GVisor] (gvisor.go, gvisor_image_linux.go, gvisor_restore_network_linux.go): checkpoints and
      restores with runsc. [HostFacts]: what an adapter holds on the host, counted from the history
      of its calls, shared by both adapters. [GVisorFacts]: a restore is all or nothing and boots
      the containers in order, a checkpoint carries what its restore needs, what a deletion means.
      [WorkerOnGVisor]: the Worker over it - a released Slot leaves no container.
    - [KataData], [Vmm], [Guest], [Kata] (the kata files of internal/snapshotter, and
      internal/runtime/kata with ch and overlay): records and requests, the monitor's API and the
      merge of memory images, the agent and the shared directory of a guest, and the adapter that
      boots, checkpoints, restores and deletes micro-VMs. [KataParts], [KataFacts]: a cold boot and
      a restore are all or nothing, what the clean-up of a sandbox and the teardown of a machine
      destroy and ask for. [KataCheckpoint]: the machine of the request's record is snapshotted
      while its guest stands still, and taken down only when its checkpoint is complete; its
      identity stays that of its first boot through all generations. [KataMerge]: a merged image is
      the base with the data of the delta over it. [WorkerOnKata]: the Worker over it - a released
      Slot leaves no machine whose record could be read. [KataHost]: a concrete host with files and
      processes, on which the adapter runs and the findings about it are shown. [WorkerProgram]
      (newRuntime and criPreDelete of cmd/worker): the Slot manager over either adapter, and what a
      deletion means on the host that is underneath.
    - [Kube] (api/v1alpha1), [Controller], [SandboxController], [SnapshotController],
      [PoolController], [Workload] (internal/controller): the objects, and the reconcilers as
      trees over the API server, the Scheduler and the Worker client. The files with suffix
      [Facts] and [SandboxLiveness] hold their theorems: what may be written or called, and after
      what; that a Sandbox runs after three runs against a cluster that cooperates; what the
      Scheduler and the status are told.

    - [ControllerManager] (cmd/controller-manager): the three reconcilers with the Scheduler, the
      resolver and the Worker client they share, and the fleet they run in: one Worker is modelled
      down to its host; the API server and the other Workers answer as they like. [FleetFacts]:
      when a run of the Sandbox controller removes the finalizer, the Scheduler has forgotten the
      Sandbox, its Slot is free, and the deletion of its runtime was carried out below the Worker -
      what that amounts to for each kind of runtime is [deletion_carried_out] of [WorkerProgram].
      [FleetRunning]: when a run reports Running, its last call of a Worker was the start or the
      restore of that Sandbox, and the Slot runs for it. [FleetRuns]: the life of one Sandbox on a
      concrete fleet, from its object to its machine and back.
    - [GoClient], [GoClientFacts] (clients/go): the client library. Theorems: what a fork asks for,
      and after what; waiting ends.

    ** Bounds and fuel

    [nextFreeID_loop] has one unit of fuel more than there are used ids, which
    [next_free_id_terminates] proves enough. The polling loops of the SDK have one unit per poll;
    [waiting_ends] proves that they are undecided only while the context lets them wait. The
    retries of [recover_attempts], [stop_attempts] and [create_carrier] and the passes of
    [move_procs] are counted as in the code. [poll_until] pauses once more than its limit allows
    intervals, after which the code's deadline has passed. [copy_sparse] has as many rounds as the
    file has bytes, and [copy_rounds_enough] proves that it never runs out of them; [copy_region]
    reads one chunk per step. [skip_spaces] and [Fields_from] have the length of their text. All
    other loops run over lists.

    ** Not modelled

    Of the controller manager's program, the metrics, the health probes, leader election, the
    registration of schemes and the queues are left out: a run of a reconciler is one request that
    a queue hands to it. Deep copies and the agent's protocol are generated or third-party code;
    the stubs for systems other than Linux only return an error. Not modelled are the API server's
    validation, log messages, listening and shutdown, the interleaving of single calls of two locked
    operations other than as an order of the operations, a slot state outside the seven (no peer
    sends one), the panic of a thread that cannot return to its network namespace, and timeouts and
    contexts other than as errors of a call. That a killed process dies and an unmounted file system is gone is the kernel's part:
    the theorems about the host say what was asked of it. *)

From stdpp Require Export prelude gmap strings sorting pretty.

(** ** Scopes, hint databases and automation *)

Declare Scope fleet_scope.
Delimit Scope fleet_scope with fleet.
#[global] Open Scope fleet_scope.

Create HintDb fleet discriminated.

(** [deex] names the witness of every existential hypothesis after its binder. *)
Ltac deex :=
  repeat match goal with
  | H : exists name : _, _ |- _ => let x := fresh name in destruct H as [x H]
  | H : _ /\ _ |- _ => destruct H
  end.

(** [case_all] splits every match, in the goal or in a hypothesis. *)
Ltac case_all :=
  repeat match goal with
  | H : context [match ?x with _ => _ end] |- _ => destruct x eqn:?; try done
  | |- context [match ?x with _ => _ end] => destruct x eqn:?; try done
  end.

(** ** Go values *)

(** An [error] value. [Sentinel] is a package-level [errors.New]: two sentinels are the same
    error exactly when they are the same variable, and the program's sentinel texts are
    pairwise distinct. [Plain] is an error without a chain (an [errors.New] or [fmt.Errorf]
    built on the spot, or the error of code that is not part of the repository); [Wrapf] is
    [fmt.Errorf] with one [%w] verb, its rendered text and the error it wraps, and [Wrapf2]
    the one with two. [KubeNotFound] is
    an API-server error for which [apierrors.IsNotFound] holds, [GrpcNotFound] an error whose
    gRPC status code is NotFound, and [WorkerAPIError] the [*httpapi.Error] of
    internal/worker/httpapi/client.go. *)
Inductive error :=
  | Sentinel (text : string)
  | Plain (text : string)
  | Wrapf (text : string) (wrapped : error)
  | Wrapf2 (text : string) (wrapped1 wrapped2 : error)
  | KubeNotFound (text : string)
  | GrpcNotFound (text : string)
  | WorkerAPIError (status : Z) (code message : string).

(** A call that returns [(T, error)] where [T] is the zero value whenever the error is not
    nil; a call that returns only an [error] gives [option error]. *)
Inductive result (A : Type) :=
  | Ok (a : A)
  | Err (e : error).
Arguments Ok {A} _.
Arguments Err {A} _.

Definition is_ok {A} (r : result A) : bool :=
  match r with Ok _ => true | Err _ => false end.

#[export] Instance result_ret : MRet result := fun A a => Ok a.
#[export] Instance result_bind : MBind result := fun A B f r =>
  match r with Ok a => f a | Err e => Err e end.
#[export] Instance result_fmap : FMap result := fun A B f r =>
  match r with Ok a => Ok (f a) | Err e => Err e end.

#[export] Instance error_eq_dec : EqDecision error.
Proof. solve_decision. Defined.
#[export] Instance result_eq_dec {A} `{EqDecision A} : EqDecision (result A).
Proof. solve_decision. Defined.

Definition itoa (z : Z) : string := pretty z.

(** Decimal width of Go's [int32]: two's-complement wrap-around. *)
Definition int32_min : Z := - 2 ^ 31.
Definition int32_max : Z := 2 ^ 31 - 1.
Definition wrap32 (z : Z) : Z := (z + 2 ^ 31) mod 2 ^ 32 - 2 ^ 31.
Definition in_int32 (z : Z) : Prop := (int32_min <= z <= int32_max)%Z.

Definition in_int64 (z : Z) : Prop := (- 2 ^ 63 <= z <= 2 ^ 63 - 1)%Z.

Lemma wrap32_id z : in_int32 z -> wrap32 z = z.
Proof. unfold in_int32, wrap32, int32_min, int32_max. intros. rewrite Z.mod_small; lia. Qed.

Lemma wrap32_range z : in_int32 (wrap32 z).
Proof.
  unfold in_int32, wrap32, int32_min, int32_max.
  pose proof (Z.mod_pos_bound (z + 2 ^ 31) (2 ^ 32) ltac:(lia)). lia.
Qed.
#[export] Hint Resolve wrap32_range : fleet.

(** [len(x)] converted to int32 is exact for every slice shorter than 2^31. *)
Lemma wrap32_length {A} (l : list A) :
  (Z.of_nat (length l) <= int32_max)%Z -> wrap32 (Z.of_nat (length l)) = Z.of_nat (length l).
Proof. intros. apply wrap32_id. unfold in_int32, int32_min in *. lia. Qed.

(** ** Strings: Go compares them bytewise *)

Definition string_le (s1 s2 : string) : Prop := String.leb s1 s2 = true.
#[export] Instance string_le_dec : RelDecision string_le :=
  fun s1 s2 => bool_eq_dec (String.leb s1 s2) true.

Lemma string_compare_trans_lt s1 : forall s2 s3,
  String.compare s1 s2 = Lt -> String.compare s2 s3 = Lt -> String.compare s1 s3 = Lt.
Proof.
  induction s1 as [|a s1 IH]; intros [|b s2] [|c s3]; simpl; try done.
  unfold Ascii.compare.
  destruct (N.compare_spec (Ascii.N_of_ascii a) (Ascii.N_of_ascii b)) as [Hab|Hab|Hab],
    (N.compare_spec (Ascii.N_of_ascii b) (Ascii.N_of_ascii c)) as [Hbc|Hbc|Hbc]; try done;
    intros H1 H2.
  - rewrite Hab, Hbc, N.compare_refl. eauto.
  - rewrite Hab. apply N.compare_lt_iff in Hbc. by rewrite Hbc.
  - rewrite <- Hbc. apply N.compare_lt_iff in Hab. by rewrite Hab.
  - assert (Hac : (Ascii.N_of_ascii a < Ascii.N_of_ascii c)%N) by lia.
    apply N.compare_lt_iff in Hac. by rewrite Hac.
Qed.

Lemma string_compare_eq s1 s2 : String.compare s1 s2 = Eq <-> s1 = s2.
Proof. split; [apply String.compare_eq_iff | intros ->; induction s2; simpl; [done|]].
  unfold Ascii.compare. by rewrite N.compare_refl. Qed.

Lemma string_compare_refl s : String.compare s s = Eq.
Proof. by apply string_compare_eq. Qed.

Lemma string_le_alt s1 s2 : string_le s1 s2 <-> String.compare s1 s2 <> Gt.
Proof. unfold string_le, String.leb. by destruct (String.compare s1 s2). Qed.

#[export] Instance string_le_total : Total string_le.
Proof. intros s1 s2. apply String.leb_total. Qed.

#[export] Instance string_le_antisym : AntiSymm (=) string_le.
Proof. intros s1 s2. apply String.leb_antisym. Qed.

#[export] Instance string_le_trans : Transitive string_le.
Proof.
  intros s1 s2 s3. rewrite !string_le_alt.
  destruct (String.compare s1 s2) eqn:E12; [|destruct (String.compare s2 s3) eqn:E23|]; try done.
  - apply string_compare_eq in E12 as ->. done.
  - apply string_compare_eq in E23 as ->. congruence.
  - rewrite (string_compare_trans_lt _ _ _ E12 E23). done.
Qed.

(** [strings.Join]. *)
Fixpoint strings_Join (l : list string) (sep : string) : string :=
  match l with
  | [] => ""
  | [s] => s
  | s :: rest => s +:+ sep +:+ strings_Join rest sep
  end.

(** [%q] on the ASCII strings the program prints with it (names, UIDs, paths): quotes around
    the text, backslash escapes for the quote and the backslash. *)
Fixpoint quote_body (s : string) : string :=
  match s with
  | EmptyString => ""
  | String c rest =>
      if bool_decide (c = Ascii.ascii_of_nat 34) then
        String (Ascii.ascii_of_nat 92) (String c (quote_body rest))
      else if bool_decide (c = Ascii.ascii_of_nat 92) then
        String c (String c (quote_body rest))
      else String c (quote_body rest)
  end.
Definition quote (s : string) : string :=
  String (Ascii.ascii_of_nat 34) (quote_body s +:+ String (Ascii.ascii_of_nat 34) "").

(** ** Errors *)

(** [err.Error()]. *)
Definition error_text (e : error) : string :=
  match e with
  | Sentinel t | Plain t | KubeNotFound t | GrpcNotFound t | Wrapf t _ | Wrapf2 t _ _ => t
  | WorkerAPIError status code message =>
      "worker API " +:+ code +:+ " (" +:+ itoa status +:+ "): " +:+ message
  end.

(** [errors.Is(err, target)] for a sentinel [target]: the error itself or one it wraps. *)
Fixpoint errors_Is (e : error) (target : string) : bool :=
  match e with
  | Sentinel t => bool_decide (t = target)
  | Wrapf _ e' => errors_Is e' target
  | Wrapf2 _ e1 e2 => errors_Is e1 target || errors_Is e2 target
  | _ => false
  end.

(** [fmt.Errorf("<prefix>: %w", err)]. *)
Definition wrap_prefix (prefix : string) (e : error) : error :=
  Wrapf (prefix +:+ ": " +:+ error_text e) e.

(** [fmt.Errorf("%w: <detail>", sentinel)]. *)
Definition wrap_sentinel (sentinel detail : string) : error :=
  Wrapf (sentinel +:+ ": " +:+ detail) (Sentinel sentinel).

Lemma errors_Is_wrap_sentinel s d t :
  errors_Is (wrap_sentinel s d) t = bool_decide (s = t).
Proof. done. Qed.

Lemma errors_Is_wrap_prefix p e t : errors_Is (wrap_prefix p e) t = errors_Is e t.
Proof. done. Qed.
#[export] Hint Rewrite errors_Is_wrap_sentinel errors_Is_wrap_prefix : fleet.

(** ** Maps *)

(** Copying a map entry by entry, in any order, copies it. *)
Lemma map_fold_insert_id `{Countable K} {A} (m : gmap K A) :
  map_fold (fun k v out => <[k := v]> out) ∅ m = m.
Proof.
  apply (map_fold_weak_ind (fun r m' => r = m')); [done|].
  by intros k v m' r Hk ->.
Qed.

(** ** Comparison functions

    A three-way comparison that is antisymmetric and transitive, and whose equality is a
    congruence. Lexicographic combination keeps these laws. *)

Class Comparing {A} (cmp : A -> A -> comparison) : Prop := {
  cmp_opp x y : cmp y x = CompOpp (cmp x y);
  cmp_lt_trans x y z : cmp x y = Lt -> cmp y z = Lt -> cmp x z = Lt;
  cmp_eq_l x y z : cmp x y = Eq -> cmp x z = cmp y z;
}.

Arguments cmp_opp {A} cmp {_} x y.
Arguments cmp_lt_trans {A} cmp {_} x y z _ _.
Arguments cmp_eq_l {A} cmp {_} x y z _.

#[export] Instance Z_comparing : Comparing Z.compare.
Proof.
  split; intros x y; [by rewrite Z.compare_antisym|intros z; rewrite !Z.compare_lt_iff; lia|].
  by intros z ->%Z.compare_eq_iff.
Qed.

#[export] Instance string_comparing : Comparing String.compare.
Proof.
  split.
  - intros s1 s2. apply String.compare_antisym.
  - apply string_compare_trans_lt.
  - by intros s1 s2 s3 ->%string_compare_eq.
Qed.

Definition lex {A} (cmp1 cmp2 : A -> A -> comparison) (x y : A) : comparison :=
  match cmp1 x y with Eq => cmp2 x y | c => c end.
Definition on {A B} (f : A -> B) (cmp : B -> B -> comparison) (x y : A) : comparison :=
  cmp (f x) (f y).

#[export] Instance on_comparing {A B} (f : A -> B) cmp : Comparing cmp -> Comparing (on f cmp).
Proof.
  intros Hc. unfold on. split; intros x y.
  - apply (cmp_opp cmp).
  - intros z. apply (cmp_lt_trans cmp).
  - intros z. apply (cmp_eq_l cmp).
Qed.

Lemma cmp_eq_r {A} (cmp : A -> A -> comparison) `{!Comparing cmp} x y z :
  cmp x y = Eq -> cmp z x = cmp z y.
Proof. intros H. rewrite (cmp_opp cmp x z), (cmp_opp cmp y z). f_equal. by apply cmp_eq_l. Qed.

#[export] Instance lex_comparing {A} (cmp1 cmp2 : A -> A -> comparison) :
  Comparing cmp1 -> Comparing cmp2 -> Comparing (lex cmp1 cmp2).
Proof.
  intros H1 H2. unfold lex. split; intros x y.
  - rewrite (cmp_opp cmp1 x y), (cmp_opp cmp2 x y). by destruct (cmp1 x y).
  - intros z. destruct (cmp1 x y) eqn:Exy; try done; destruct (cmp1 y z) eqn:Eyz; try done;
      intros Hxy Hyz.
    + rewrite (cmp_eq_l cmp1 _ _ _ Exy), Eyz. by eapply cmp_lt_trans.
    + by rewrite (cmp_eq_l cmp1 _ _ _ Exy), Eyz.
    + by rewrite <- (cmp_eq_r cmp1 _ _ _ Eyz), Exy.
    + by rewrite (cmp_lt_trans cmp1 _ _ _ Exy Eyz).
  - intros z. destruct (cmp1 x y) eqn:Exy; try done. intros E2.
    by rewrite (cmp_eq_l cmp1 _ _ _ Exy), (cmp_eq_l cmp2 _ _ _ E2).
Qed.

Section Least.
Context {A : Type} (cmp : A -> A -> comparison) `{!Comparing cmp}.

Lemma cmp_refl x : cmp x x = Eq.
Proof using All. pose proof (cmp_opp cmp x x) as H. by destruct (cmp x x). Qed.

Lemma cmp_le_trans x y z : cmp x y <> Gt -> cmp y z <> Gt -> cmp x z <> Gt.
Proof using All.
  destruct (cmp x y) eqn:Exy; try done; intros _; destruct (cmp y z) eqn:Eyz; try done; intros _.
  - rewrite (cmp_eq_l cmp _ _ _ Exy). congruence.
  - rewrite (cmp_eq_l cmp _ _ _ Exy). congruence.
  - rewrite <- (cmp_eq_r cmp _ _ _ Eyz). congruence.
  - rewrite (cmp_lt_trans cmp _ _ _ Exy Eyz). congruence.
Qed.

Lemma cmp_lt_gt x y : cmp x y = Lt <-> cmp y x = Gt.
Proof using All. rewrite (cmp_opp cmp x y). by destruct (cmp x y). Qed.

Definition least_step (best c : A) : A := match cmp c best with Lt => c | _ => best end.

Lemma least_step_le best c : cmp (least_step best c) best <> Gt /\ cmp (least_step best c) c <> Gt.
Proof using All.
  unfold least_step. destruct (cmp c best) eqn:E; rewrite ?cmp_refl.
  - rewrite (cmp_opp cmp c best), E. done.
  - by rewrite E.
  - rewrite (cmp_opp cmp c best), E. done.
Qed.

(** A left-to-right scan for the least element finds an element of the list below all. *)
Lemma foldl_least rest : forall first,
  let best := foldl least_step first rest in
  best ∈ first :: rest /\ forall c, c ∈ first :: rest -> cmp best c <> Gt.
Proof using All.
  induction rest as [|x rest IH]; intros first; simpl.
  { split; [left|]. intros c ->%list_elem_of_singleton. by rewrite cmp_refl. }
  destruct (IH (least_step first x)) as [Hin Hle].
  destruct (least_step_le first x) as [H1 H2]. split.
  - unfold least_step in *. destruct (cmp x first); set_solver.
  - assert (Hb := Hle (least_step first x) ltac:(left)).
    intros c [->|[->|Hc]%elem_of_cons]%elem_of_cons.
    + by eapply cmp_le_trans.
    + by eapply cmp_le_trans.
    + apply Hle. by right.
Qed.
End Least.
