(* ===== verification/Prog.v ===== *)
(** * Effectful Go code as effect trees

    A handler that calls other components (a container runtime, the Kubernetes API, an object
    store, a Worker over HTTP) is a finite tree: it returns, or it performs one call and
    continues with the call's answer. Nothing is assumed about the answers, so a property
    proved of a tree holds for every behaviour of the components it calls, including every
    failure. [wp] is the program logic: a postcondition on the trace of calls and on the
    result, for every sequence of answers. [run] executes a tree against a concrete model of
    the called components. *)

From S2P Require Import Prelude.

(** The calls of a component and the type of each call's answer. *)
Class Effect (E : Type) := answer : E -> Type.

Section Prog.
Context {E : Type} `{EF : !Effect E}.

Inductive prog (A : Type) : Type :=
  | Ret (a : A)
  | Call (e : E) (k : answer e -> prog A).
Arguments Ret {A} _.
Arguments Call {A} _ _.

(** One call with its answer, and the calls made so far, oldest first. *)
Definition event : Type := sigT (fun e : E => answer e).
Definition trace : Type := list event.

(** The calls of a trace, without their answers. *)
Definition calls (tr : trace) : list E := projT1 <$> tr.

Fixpoint bind {A B} (f : A -> prog B) (p : prog A) : prog B :=
  match p with
  | Ret a => f a
  | Call e k => Call e (fun r => bind f (k r))
  end.

Definition trigger (e : E) : prog (answer e) := Call e (fun r => Ret r).

(** Weakest precondition: [Q] holds of the final trace and result whatever is answered. *)
Fixpoint wp {A} (p : prog A) (Q : trace -> A -> Prop) (tr : trace) : Prop :=
  match p with
  | Ret a => Q tr a
  | Call e k => forall r : answer e, wp (k r) Q (tr ++ [existT e r])
  end.

Definition always {A} (p : prog A) (Q : trace -> A -> Prop) : Prop := wp p Q [].

Lemma wp_mono {A} (p : prog A) (Q R : trace -> A -> Prop) tr :
  wp p Q tr -> (forall t a, Q t a -> R t a) -> wp p R tr.
Proof. revert tr. induction p; simpl; eauto. Qed.

Lemma wp_conj {A} (p : prog A) (Q R : trace -> A -> Prop) tr :
  wp p Q tr -> wp p R tr -> wp p (fun t a => Q t a /\ R t a) tr.
Proof. revert tr. induction p; simpl; eauto. Qed.

Lemma wp_true {A} (p : prog A) tr : wp p (fun _ _ => True) tr.
Proof. revert tr. induction p; simpl; eauto. Qed.

Lemma wp_bind {A B} (p : prog A) (f : A -> prog B) Q tr :
  wp (bind f p) Q tr <-> wp p (fun t a => wp (f a) Q t) tr.
Proof.
  revert tr. induction p as [a|e k IH]; simpl; intros tr; [done|].
  split; intros H r; by apply IH.
Qed.

(** What a tree does later does not depend on the calls already recorded. *)
Lemma wp_frame {A} (p : prog A) (Q : trace -> A -> Prop) tr :
  wp p Q tr <-> wp p (fun t a => Q (tr ++ t) a) [].
Proof.
  enough (G : forall tr0, wp p Q (tr ++ tr0) <-> wp p (fun t a => Q (tr ++ t) a) tr0).
  { specialize (G []). by rewrite app_nil_r in G. }
  induction p as [a|e k IH]; simpl; intros tr0; [done|].
  split; intros H r; specialize (H r).
  - apply IH. by rewrite app_assoc.
  - rewrite <- app_assoc. by apply IH.
Qed.

(** A hypothesis about neither the run nor its answer may be assumed first. *)
Lemma wp_imp {A} (P : Prop) (p : prog A) (Q : trace -> A -> Prop) tr : (P -> wp p Q tr) -> wp p (fun t a => P -> Q t a) tr.
Proof. revert tr. induction p as [a|e k IH]; simpl; intros tr HP; [done|]. intros r. apply IH. intros H. by apply HP. Qed.

#[export] Instance wp_proper A : Proper ((=) ==>
  pointwise_relation _ (pointwise_relation _ iff) ==> (=) ==> iff) (@wp A).
Proof.
  intros p ? <- Q R HQR tr ? <-.
  split; intros H; eapply wp_mono; try exact H; intros; by apply HQR.
Qed.

(** Guarded calls: every call [e] is made with a history [tr] for which [G tr e] holds, and [Q]
    holds at the end. The logic of what a component may do, and when. *)
Fixpoint wpg {A} (G : trace -> E -> Prop) (p : prog A) (Q : trace -> A -> Prop) (tr : trace) : Prop :=
  match p with
  | Ret a => Q tr a
  | Call e k => G tr e /\ forall r : answer e, wpg G (k r) Q (tr ++ [existT e r])
  end.

Definition safe {A} (G : trace -> E -> Prop) (p : prog A) : Prop := wpg G p (fun _ _ => True) [].

Lemma wpg_ret {A} G (a : A) (Q : trace -> A -> Prop) tr : Q tr a -> wpg G (Ret a) Q tr.
Proof. done. Qed.

Lemma wpg_call {A} G e (k : answer e -> prog A) Q tr :
  G tr e -> (forall r, wpg G (k r) Q (tr ++ [existT e r])) -> wpg G (Call e k) Q tr.
Proof. done. Qed.

Lemma wpg_mono {A} G (p : prog A) (Q R : trace -> A -> Prop) tr :
  wpg G p Q tr -> (forall t a, Q t a -> R t a) -> wpg G p R tr.
Proof. revert tr. induction p; simpl; intros tr; [eauto|]. intros [HG Hk] HQ. eauto. Qed.

Lemma wpg_bind {A B} G (p : prog A) (f : A -> prog B) Q tr :
  wpg G (bind f p) Q tr <-> wpg G p (fun t a => wpg G (f a) Q t) tr.
Proof.
  revert tr. induction p as [a|e k IH]; simpl; intros tr; [done|].
  split; intros [HG H]; (split; [done|]); intros r; by apply IH.
Qed.

(** What holds of every call holds of each event of a finished run, given the events before. *)
Lemma wpg_history {A} G (p : prog A) Q tr :
  wpg G p Q tr ->
  wp p (fun t a => Q t a /\ exists s, t = tr ++ s /\
    forall pre e r post, s = pre ++ existT e r :: post -> G (tr ++ pre) e) tr.
Proof.
  revert tr. induction p as [a|e k IH]; simpl; intros tr.
  - intros HQ. split; [done|]. exists []. rewrite app_nil_r. split; [done|]. by intros [] ? ? ?.
  - intros [HG Hk] r. eapply wp_mono; [apply IH, Hk|]. intros t a [HQ (s & -> & Hs)]. split; [done|].
    exists (existT e r :: s). rewrite <- app_assoc. split; [done|].
    intros [|x pre] e' r' post Heq; simpl in Heq.
    + assert (e = e') as <-; [|by rewrite app_nil_r].
      apply (f_equal (fun l => projT1 <$> head l)) in Heq. simpl in Heq. congruence.
    + pose proof (f_equal (fun l => default x (head l)) Heq) as Hx.
      pose proof (f_equal tail Heq) as Hs'. simpl in Hx, Hs'. subst x.
      specialize (Hs pre e' r' post Hs'). by rewrite <- app_assoc in Hs.
Qed.

(** Guards may be weakened, and the trace only grows. *)
Lemma wpg_guard {A} (G G' : trace -> E -> Prop) (p : prog A) (Q : trace -> A -> Prop) tr :
  wpg G p Q tr -> (forall t e, G t e -> G' t e) -> wpg G' p Q tr.
Proof. intros H HG. revert tr H. induction p; simpl; intros tr; [done|]. intros [? ?]. eauto. Qed.

Lemma wpg_extends {A} G (p : prog A) (Q : trace -> A -> Prop) tr :
  wpg G p Q tr -> wpg G p (fun t a => Q t a /\ tr `prefix_of` t) tr.
Proof.
  revert tr. induction p as [a|e k IH]; simpl; intros tr; [done|]. intros [HG Hk]. split; [done|].
  intros r. eapply wpg_mono; [apply IH, Hk|]. intros t a [HQ Ht]. split; [done|].
  etransitivity; [by eexists|exact Ht].
Qed.

Lemma wpg_from {A} G (p : prog A) (Q : trace -> A -> Prop) tr :
  wpg G p Q tr -> wpg (fun t e => G t e /\ tr `prefix_of` t) p Q tr.
Proof.
  revert tr. induction p as [a|e k IH]; simpl; intros tr; [done|]. intros [HG Hk]. split; [done|].
  intros r. eapply wpg_guard; [apply IH, Hk|]. intros t e' [HG' Ht]. split; [done|].
  etransitivity; [by eexists|exact Ht].
Qed.

Lemma wpg_wp {A} G (p : prog A) (Q : trace -> A -> Prop) tr : wpg G p Q tr -> wp p Q tr.
Proof. revert tr. induction p; simpl; intros tr; [done|]. intros [_ ?] ?. eauto. Qed.

(** A part that makes none of the calls [f] records leaves the record as it is. *)
Lemma wpg_silent {A X} (f : event -> option X) G (p : prog A) (Q : trace -> A -> Prop) tr :
  (forall t e r, G t e -> f (existT e r) = None) -> wpg G p Q tr ->
  wpg (fun t e => G t e /\ omap f t = omap f tr) p (fun t a => Q t a /\ omap f t = omap f tr) tr.
Proof.
  intros Hf. revert tr. induction p as [a|e k IH]; simpl; intros tr; [done|]. intros [HG Hk]. split; [done|].
  intros r. assert (Hr : omap f (tr ++ [existT e r]) = omap f tr).
  { rewrite omap_app. cbn. by rewrite (Hf _ _ _ HG), app_nil_r. }
  rewrite <- Hr. by apply IH.
Qed.

(** Execution against a model of the callees: a state and an answering function. *)
Section Run.
Context {S : Type} (h : S -> forall e : E, S * answer e).

Fixpoint run {A} (p : prog A) (s : S) (tr : trace) : S * trace * A :=
  match p with
  | Ret a => (s, tr, a)
  | Call e k => let '(s', r) := h s e in run (k r) s' (tr ++ [existT e r])
  end.

(** Every execution satisfies what [wp] promises. *)
Lemma wp_run {A} (p : prog A) Q s tr :
  wp p Q tr -> let '(_, t, a) := run p s tr in Q t a.
Proof.
  revert s tr. induction p as [a|e k IH]; simpl; intros s tr H; [done|].
  destruct (h s e) as [s' r]. by apply IH.
Qed.

Lemma run_bind {A B} (p : prog A) (f : A -> prog B) s tr :
  run (bind f p) s tr = let '(s', tr', a) := run p s tr in run (f a) s' tr'.
Proof.
  revert s tr. induction p as [a|e k IH]; simpl; intros s tr; [done|].
  by destruct (h s e) as [s' r].
Qed.
End Run.

(** A loop over a list, left to right, threading a state. *)
Fixpoint foldM {A S} (f : S -> A -> prog S) (s : S) (l : list A) : prog S :=
  match l with
  | [] => Ret s
  | x :: l' => bind (fun s' => foldM f s' l') (f s x)
  end.

(** Loop rule: an invariant on the elements done, the trace and the state. *)
Lemma wp_foldM {A S} (f : S -> A -> prog S) (I : list A -> trace -> S -> Prop) l :
  forall s tr done,
  I done tr s ->
  (forall pre x t s0, I pre t s0 -> x ∈ l -> wp (f s0 x) (fun t' s' => I (pre ++ [x]) t' s') t) ->
  wp (foldM f s l) (fun t s' => I (done ++ l) t s') tr.
Proof.
  induction l as [|x l IH]; simpl; intros s tr dn H0 Hstep.
  { by rewrite app_nil_r. }
  apply wp_bind. eapply wp_mono; [apply Hstep; [done|left]|].
  intros t a Ha. simpl in *.
  replace (dn ++ x :: l) with ((dn ++ [x]) ++ l) by (by rewrite <- app_assoc).
  apply IH; [done|]. intros. apply Hstep; [done|]. by right.
Qed.

Lemma wpg_foldM {A S} G (f : S -> A -> prog S) (I : list A -> trace -> S -> Prop) l :
  forall s tr done,
  I done tr s ->
  (forall pre x t s0, I pre t s0 -> x ∈ l -> wpg G (f s0 x) (fun t' s' => I (pre ++ [x]) t' s') t) ->
  wpg G (foldM f s l) (fun t s' => I (done ++ l) t s') tr.
Proof.
  induction l as [|x l IH]; simpl; intros s tr dn H0 Hstep.
  { by rewrite app_nil_r. }
  apply wpg_bind. eapply wpg_mono; [apply Hstep; [done|left]|].
  intros t a Ha. simpl in *.
  replace (dn ++ x :: l) with ((dn ++ [x]) ++ l) by (by rewrite <- app_assoc).
  apply IH; [done|]. intros. apply Hstep; [done|]. by right.
Qed.

(** A loop whose body is safe is safe. *)
Lemma wpg_loop {A S} G (f : S -> A -> prog S) l s tr :
  (forall s0 x t, x ∈ l -> wpg G (f s0 x) (fun _ _ => True) t) ->
  wpg G (foldM f s l) (fun _ _ => True) tr.
Proof. intros H. apply (wpg_foldM G f (fun _ _ _ => True) l s tr []); eauto. Qed.
End Prog.

Arguments prog E {EF} A.
Arguments Ret {E EF A} _.
Arguments Call {E EF A} _ _.
Arguments event E {EF}.
Arguments trace E {EF}.

#[export] Instance prog_ret {E} `{Effect E} : MRet (prog E) := fun A a => Ret a.
#[export] Instance prog_bind {E} `{Effect E} : MBind (prog E) := fun A B f p => bind f p.

Lemma wp_mbind {E} `{EF : !Effect E} {A B} (p : prog E A) (f : A -> prog E B) Q tr :
  wp (p ≫= f) Q tr <-> wp p (fun t a => wp (f a) Q t) tr.
Proof. apply wp_bind. Qed.

(** A component implemented by another: every call of [p] is replaced by the tree that serves
    it. *)
Fixpoint interp {E1 E2 A} `{EF1 : !Effect E1} `{EF2 : !Effect E2}
    (h : forall e : E1, prog E2 (answer e)) (p : prog E1 A) : prog E2 A :=
  match p with
  | Ret a => Ret a
  | Call e k => bind (fun r => interp h (k r)) (h e)
  end.

#[export] Hint Resolve wp_true : fleet.

(** Unfold one step of every goal about a concrete tree. *)
Ltac wp_step :=
  repeat (match goal with
  | |- always _ _ => unfold always
  | |- wp (Ret _) _ _ => cbn [wp]
  | |- wp (Call _ _) _ _ => cbn [wp]; intros ?
  | |- wp (mret _) _ _ => unfold mret, prog_ret; cbn [wp]
  | |- wp (mbind _ _) _ _ => unfold mbind, prog_bind
  | |- wp (bind _ (trigger _)) _ _ => cbn [bind trigger wp]; intros ?
  | |- wp (bind _ (Call _ _)) _ _ => cbn [bind wp]; intros ?
  | |- wp (bind _ (Ret _)) _ _ => cbn [bind]
  | |- wp (trigger _) _ _ => cbn [trigger wp]; intros ?
  end).

(** [wp_split] also splits the matches and conditionals the tree branches on. *)
Ltac wp_split :=
  repeat (wp_step; match goal with
  | |- wp (match ?x with _ => _ end) _ _ => destruct x eqn:?
  | |- wp (bind _ (match ?x with _ => _ end)) _ _ => destruct x eqn:?
  end); wp_step.

(** ** Calls that can fail

    [let! x := p in k] continues with the value of [p], or returns its error; [check! p in k]
    is the same for a call that answers only an error. [call! x := p in k] continues with
    whatever [p] gives. *)

Section Fallible.
Context {E : Type} `{EF : !Effect E}.

Definition try_bind {A B} (p : prog E (result A)) (k : A -> prog E (result B)) :
    prog E (result B) :=
  bind (fun r => match r with Ok a => k a | Err e => Ret (Err e) end) p.

Definition check_bind {B} (p : prog E (option error)) (k : prog E (result B)) : prog E (result B) :=
  bind (fun r => match r with None => k | Some e => Ret (Err e) end) p.

(** [fmt.Errorf(...)] around the error of a call. *)
Definition on_error {A} (f : error -> error) (p : prog E (result A)) : prog E (result A) :=
  bind (fun r => match r with Ok a => Ret (Ok a) | Err e => Ret (Err (f e)) end) p.
Definition on_failure (f : error -> error) (p : prog E (option error)) : prog E (option error) :=
  bind (fun r => match r with Some e => Ret (Some (f e)) | None => Ret None end) p.

(** The error of a call as a result without a value. *)
Definition as_result (p : prog E (option error)) : prog E (result unit) := check_bind p (Ret (Ok tt)).

(** [defer]: run [d] when [p] has returned. *)
Definition deferred {A B} (d : prog E B) (p : prog E A) : prog E A :=
  bind (fun a => bind (fun _ => Ret a) d) p.

Lemma wp_try_bind {A B} (p : prog E (result A)) (k : A -> prog E (result B)) Q tr :
  wp (try_bind p k) Q tr <->
  wp p (fun t r => match r with Ok a => wp (k a) Q t | Err e => Q t (Err e) end) tr.
Proof.
  unfold try_bind. rewrite wp_bind. apply wp_proper; [done| |done]. by intros t [a|e].
Qed.

Lemma wp_check_bind {B} (p : prog E (option error)) (k : prog E (result B)) Q tr :
  wp (check_bind p k) Q tr <->
  wp p (fun t r => match r with None => wp k Q t | Some e => Q t (Err e) end) tr.
Proof.
  unfold check_bind. rewrite wp_bind. apply wp_proper; [done| |done]. by intros t [e|].
Qed.

Lemma wp_on_error {A} f (p : prog E (result A)) Q tr :
  wp (on_error f p) Q tr <->
  wp p (fun t r => match r with Ok a => Q t (Ok a) | Err e => Q t (Err (f e)) end) tr.
Proof.
  unfold on_error. rewrite wp_bind. apply wp_proper; [done| |done]. by intros t [a|e].
Qed.

Lemma wp_on_failure f (p : prog E (option error)) Q tr :
  wp (on_failure f p) Q tr <-> wp p (fun t r => match r with None => Q t None | Some e => Q t (Some (f e)) end) tr.
Proof.
  unfold on_failure. rewrite wp_bind. apply wp_proper; [done| |done]. by intros t [e|].
Qed.

Lemma wp_deferred {A B} (d : prog E B) (p : prog E A) Q tr :
  wp (deferred d p) Q tr <-> wp p (fun t a => wp d (fun t' _ => Q t' a) t) tr.
Proof.
  unfold deferred. rewrite wp_bind. apply wp_proper; [done| |done]. intros t a. by rewrite wp_bind.
Qed.
End Fallible.

(** The same for guarded calls; a guard that computes to [True] is dropped. *)
Ltac wpg_step :=
  repeat (match goal with
  | |- safe _ _ => unfold safe
  | |- wpg _ (Ret _) _ _ => apply wpg_ret; cbv beta
  | |- wpg _ (Call _ _) _ _ => apply wpg_call; [try exact I|intros ?; cbv beta]
  | |- wpg _ (trigger _) _ _ => unfold trigger
  | |- wpg _ (try_bind _ _) _ _ => unfold try_bind
  | |- wpg _ (check_bind _ _) _ _ => unfold check_bind
  | |- wpg _ (on_error _ _) _ _ => unfold on_error
  | |- wpg _ (on_failure _ _) _ _ => unfold on_failure
  | |- wpg _ (as_result _) _ _ => unfold as_result
  | |- wpg _ (bind _ _) _ _ => apply wpg_bind; cbv beta
  | |- wpg _ (match ?x with _ => _ end) _ _ => destruct x eqn:?
  end; cbv beta zeta).

(** [wpg_auto] also opens the definitions it meets; a file with a rule for one of its loops
    redefines [wpg_hook] to apply it. *)
Ltac wpg_hook := fail.
Ltac wpg_auto :=
  repeat (progress wpg_step || wpg_hook || match goal with
  | |- wpg _ ?p _ _ => let h := get_head p in unfold h; cbv beta zeta
  end).

(** Membership of a call in a concrete history. *)
Ltac find_event :=
  cbn [app];
  first [ assumption
        | apply list_elem_of_here
        | apply list_elem_of_further; find_event
        | apply elem_of_app; right; find_event
        | apply elem_of_app; left; find_event ].
Ltac in_trace := try find_event.

(** The history at the start is a prefix of a history reached from it. *)
Ltac grows := solve [repeat first [reflexivity | assumption | apply prefix_app_r]].

Notation "'let!' x ':=' p 'in' k" := (try_bind p (fun x => k))
  (at level 200, x name, p at level 100, k at level 200, right associativity) : fleet_scope.
Notation "'call!' x ':=' p 'in' k" := (bind (fun x => k) p)
  (at level 200, x name, p at level 100, k at level 200, right associativity) : fleet_scope.
Notation "'check!' p 'in' k" := (check_bind p k)
  (at level 200, p at level 100, k at level 200, right associativity) : fleet_scope.
