(* ===== verification/Compose.v ===== *)
(** * Composing components

    A component that calls another is a tree over the other's operations; serving each of those
    operations by a tree of its own gives the two as one. [interpS] threads the state of the
    component that serves. The rules carry a property of the caller, proved for arbitrary answers,
    to the composition, through a relation between the calls of the caller and those of the
    component below. [returns] are the runs of a tree, for reachability. *)

From S2P Require Import Prelude Prog.

(** Calls to two components. *)
#[export] Instance sum_effect {E1 E2} `{!Effect E1, !Effect E2} : Effect (E1 + E2) := fun e =>
  match e with inl e => answer e | inr e => answer e end.

Section Interp.
Context {E1 E2 : Type} `{EF1 : !Effect E1} `{EF2 : !Effect E2}.

Lemma wp_interp {A} (h : forall e : E1, prog E2 (answer e)) (R : trace E1 -> trace E2 -> Prop)
    (p : prog E1 A) (Q : trace E1 -> A -> Prop) t1 t2 :
  (forall e t1 t2, R t1 t2 -> wp (h e) (fun t2' r => R (t1 ++ [existT e r]) t2') t2) ->
  wp p Q t1 -> R t1 t2 ->
  wp (interp h p) (fun t2' a => exists t1', R t1' t2' /\ Q t1' a) t2.
Proof.
  intros Hh. revert t1 t2. induction p as [a|e k IH]; intros t1 t2; cbn [interp wp]; [eauto|].
  intros Hk HR. apply wp_bind. eapply wp_mono; [by apply Hh|]. intros t2' r HR'. by apply (IH r (t1 ++ [existT e r])).
Qed.

Section State.
Context {S : Type} (h : forall e : E1, S -> prog E2 (S * answer e)).

Fixpoint interpS {A} (p : prog E1 A) (s : S) : prog E2 (S * A) :=
  match p with
  | Ret a => Ret (s, a)
  | Call e k => bind (fun sr => interpS (k sr.2) sr.1) (h e s)
  end.

(** [I] relates the state and the two histories; the operations of the callee keep it for every
    call the caller may make. *)
Lemma wpg_interpS {A} (I : S -> trace E1 -> trace E2 -> Prop) G (p : prog E1 A) (Q : trace E1 -> A -> Prop) s t1 t2 :
  (forall e s t1 t2, G t1 e -> I s t1 t2 -> wp (h e s) (fun t2' sr => I sr.1 (t1 ++ [existT e sr.2]) t2') t2) ->
  wpg G p Q t1 -> I s t1 t2 ->
  wp (interpS p s) (fun t2' sa => exists t1', I sa.1 t1' t2' /\ Q t1' sa.2) t2.
Proof.
  intros Hh. revert s t1 t2. induction p as [a|e k IH]; intros s t1 t2; cbn [interpS wp wpg]; [eauto|].
  intros [HG Hk] HI. apply wp_bind. eapply wp_mono; [by apply Hh|].
  intros t2' [s' r] HI'. by apply (IH r s' (t1 ++ [existT e r])).
Qed.

(** The same composition, which also keeps the caller's own history. *)
Definition logged (e : E1) (s : S * trace E1) : prog E2 ((S * trace E1) * answer e) :=
  bind (fun r => Ret ((r.1, s.2 ++ [existT e r.2]), r.2)) (h e s.1).
End State.

Lemma wp_logged {S A} (h : forall e : E1, S -> prog E2 (S * answer e)) (p : prog E1 A) (Q : trace E2 -> S * A -> Prop) s log t :
  wp (interpS (logged h) p (s, log)) (fun t r => Q t (r.1.1, r.2)) t <-> wp (interpS h p s) Q t.
Proof.
  revert s log t. induction p as [a|e k IH]; intros s log t; cbn [interpS wp]; [done|]. unfold logged. cbn [fst snd].
  rewrite !wp_bind. split; intros H; (eapply wp_mono; [exact H|]); intros t' [s' r]; cbn [wp fst snd]; apply IH.
Qed.

(** The rule of [wpg_interpS], of the history that was kept. *)
Lemma wpg_logged {S A} (h : forall e : E1, S -> prog E2 (S * answer e)) (I : S -> trace E1 -> trace E2 -> Prop) G
    (p : prog E1 A) (Q : trace E1 -> A -> Prop) s t1 t2 :
  (forall e s t1 t2, G t1 e -> I s t1 t2 -> wp (h e s) (fun t2' sr => I sr.1 (t1 ++ [existT e sr.2]) t2') t2) ->
  wpg G p Q t1 -> I s t1 t2 ->
  wp (interpS (logged h) p (s, t1)) (fun t2' r => I r.1.1 r.1.2 t2' /\ Q r.1.2 r.2) t2.
Proof.
  intros Hh. revert s t1 t2. induction p as [a|e k IH]; intros s t1 t2; cbn [interpS wp wpg]; [done|].
  intros [HG Hk] HI. unfold logged. cbn [fst snd]. rewrite !wp_bind. eapply wp_mono; [by apply Hh|].
  intros t2' [s' r] HI'. cbn [wp fst snd]. by apply (IH r s' (t1 ++ [existT e r])).
Qed.
End Interp.

(** A caller about which nothing is known but what it establishes. *)
Lemma wp_wpg {E} `{EF : !Effect E} {A} (p : prog E A) (Q : trace E -> A -> Prop) tr :
  wp p Q tr -> wpg (fun _ _ => True) p Q tr.
Proof. revert tr. induction p as [a|e k IH]; intros tr; cbn [wp wpg]; [done|]. intros Hk. split; [done|]. eauto. Qed.

(** The trace only grows. *)
Lemma wp_prefix {E} `{!Effect E} {A} (p : prog E A) tr : wp p (fun t _ => tr `prefix_of` t) tr.
Proof.
  apply (wpg_wp (fun _ _ => True)). eapply wpg_mono; [apply wpg_extends, wp_wpg, wp_true|]. by intros t a [_ ?].
Qed.

(** What a component below establishes whenever a call of the caller has an answer that matters. *)
Lemma wp_interp_marks {E1 E2} `{EF1 : !Effect E1} `{EF2 : !Effect E2} {A X} (h : forall e : E1, prog E2 (answer e))
    (mark : event E1 -> option X) (P : X -> trace E2 -> Prop) (p : prog E1 A) Q t0 :
  (forall x t t', t `prefix_of` t' -> P x t -> P x t') ->
  (forall e t, wp (h e) (fun t' r => forall x, mark (existT e r) = Some x -> P x t') t) ->
  wp p Q [] ->
  wp (interp h p) (fun t2 a => exists t1, Q t1 a /\ forall x, x ∈ omap mark t1 -> P x t2) t0.
Proof.
  intros Hmono Hh Hp. set (R := fun (t1 : trace E1) (t2 : trace E2) => forall x, x ∈ omap mark t1 -> P x t2).
  eapply wp_mono; [apply (wp_interp h R p Q [] t0); [|exact Hp|by intros x ?%elem_of_nil]|].
  2: { intros t a (t1 & HR & HQ). by exists t1. }
  intros e t1 t2 HR. eapply wp_mono; [apply wp_conj; [apply wp_prefix|apply Hh]|]. cbv beta.
  intros t2' r [Hpre Hnew] x. rewrite omap_app, elem_of_app. cbn [omap list_omap]. intros [Hold|Hin].
  - eapply Hmono; [exact Hpre|by apply HR].
  - destruct (mark (existT e r)) as [y|] eqn:Hm; [|by apply elem_of_nil in Hin].
    apply list_elem_of_singleton in Hin as ->. by apply Hnew.
Qed.

(** A component whose calls are calls of another under a different name: [view] finds them again in
    a history of the other. *)
Lemma wp_embed {E1 E2} `{EF1 : !Effect E1} `{EF2 : !Effect E2} {A} (f : forall e : E1, prog E2 (answer e))
    (view : trace E2 -> trace E1) (p : prog E1 A) Q t :
  (forall e t, wp (f e) (fun t' r => view t' = view t ++ [existT e r]) t) ->
  wp p Q (view t) -> wp (interp f p) (fun t' a => Q (view t') a) t.
Proof.
  intros Hf. revert t. induction p as [a|e k IH]; intros t; cbn [interp wp]; [done|]. intros Hk. apply wp_bind.
  eapply wp_mono; [apply Hf|]. cbv beta. intros t' r Ht. apply IH. rewrite Ht. apply Hk.
Qed.

(** ** A component over one of two *)

Section Left.
Context {E1 E2 : Type} `{EF1 : !Effect E1} `{EF2 : !Effect E2}.

Definition lift_left {A} (p : prog E1 A) : prog (E1 + E2) A := interp (fun e => trigger (inl e : E1 + E2)) p.

Definition left_event (ev : event (E1 + E2)) : option (event E1) :=
  match ev with
  | existT e r =>
      match e as e return answer e -> option (event E1) with
      | inl e => fun r => Some (existT e r)
      | inr _ => fun _ => None
      end r
  end.
Definition left_part (t : trace (E1 + E2)) : trace E1 := omap left_event t.

Lemma left_part_snoc t (ev : event (E1 + E2)) : left_part (t ++ [ev]) = left_part t ++ option_list (left_event ev).
Proof. unfold left_part. rewrite omap_app. cbn. by destruct (left_event ev). Qed.

Lemma wp_lift_left {A} (p : prog E1 A) (Q : trace E1 -> A -> Prop) t :
  wp p Q (left_part t) -> wp (lift_left p) (fun t' a => Q (left_part t') a) t.
Proof. apply (wp_embed _ left_part). intros e t'. unfold trigger. cbn [wp]. intros r. by rewrite left_part_snoc. Qed.

Definition lift_right {A} (p : prog E2 A) : prog (E1 + E2) A := interp (fun e => trigger (inr e : E1 + E2)) p.

Definition right_event (ev : event (E1 + E2)) : option (event E2) :=
  match ev with
  | existT e r =>
      match e as e return answer e -> option (event E2) with
      | inl _ => fun _ => None
      | inr e => fun r => Some (existT e r)
      end r
  end.
Definition right_part (t : trace (E1 + E2)) : trace E2 := omap right_event t.

Lemma right_part_snoc t (ev : event (E1 + E2)) : right_part (t ++ [ev]) = right_part t ++ option_list (right_event ev).
Proof. unfold right_part. rewrite omap_app. cbn. by destruct (right_event ev). Qed.

Lemma wp_lift_right {A} (p : prog E2 A) (Q : trace E2 -> A -> Prop) t :
  wp p Q (right_part t) -> wp (lift_right p) (fun t' a => Q (right_part t') a) t.
Proof. apply (wp_embed _ right_part). intros e t'. unfold trigger. cbn [wp]. intros r. by rewrite right_part_snoc. Qed.

(** The part of one component makes no calls of the other. *)
Lemma lift_left_right {A} (p : prog E1 A) t : wp (lift_left p) (fun t' _ => right_part t' = right_part t) t.
Proof.
  enough (G : forall R, right_part t = R -> wp (lift_left p) (fun t' _ => right_part t' = R) t) by by apply G.
  intros R. revert t. induction p as [a|e k IH]; intros t Ht; [done|].
  unfold lift_left. cbn [interp]. apply wp_bind. unfold trigger. cbn [wp]. intros r.
  apply IH. by rewrite right_part_snoc, app_nil_r.
Qed.

Lemma left_part_prefix t t' : t `prefix_of` t' -> left_part t `prefix_of` left_part t'.
Proof. intros [s ->]. unfold left_part. rewrite omap_app. by eexists. Qed.
Lemma right_part_prefix t t' : t `prefix_of` t' -> right_part t `prefix_of` right_part t'.
Proof. intros [s ->]. unfold right_part. rewrite omap_app. by eexists. Qed.
End Left.

(** Two trees take turns: [true] is a call of the first. What is left of them at the end of the
    schedule is the answer. *)
Section Interleave.
Context {E : Type} `{EF : !Effect E} {S : Type} (h : S -> forall e : E, S * answer e).

Definition step {A} (p : prog E A) (s : S) : S * prog E A :=
  match p with
  | Ret a => (s, Ret a)
  | Call e k => let '(s', r) := h s e in (s', k r)
  end.
Fixpoint interleave {A B} (schedule : list bool) (p : prog E A) (q : prog E B) (s : S) : S * prog E A * prog E B :=
  match schedule with
  | [] => (s, p, q)
  | true :: rest => let '(s', p') := step p s in interleave rest p' q s'
  | false :: rest => let '(s', q') := step q s in interleave rest p q' s'
  end.
End Interleave.

(** ** Runs *)

Section Returns.
Context {E : Type} `{EF : !Effect E}.

(** [p] may make the calls [t], get those answers, and end with [a]. *)
Inductive returns {A} : prog E A -> trace E -> A -> Prop :=
  | returns_ret a : returns (Ret a) [] a
  | returns_call e k r t a : returns (k r) t a -> returns (Call e k) (existT e r :: t) a.

Lemma wp_returns {A} (p : prog E A) Q t a tr : wp p Q tr -> returns p t a -> Q (tr ++ t) a.
Proof.
  intros Hwp Hret. revert tr Hwp. induction Hret as [a|e k r t a _ IH]; intros tr Hwp; cbn [wp] in Hwp.
  - by rewrite app_nil_r.
  - specialize (IH _ (Hwp r)). by rewrite <- app_assoc in IH.
Qed.

Lemma wp_returned {A} (p : prog E A) tr : wp p (fun t a => exists t', t = tr ++ t' /\ returns p t' a) tr.
Proof.
  revert tr. induction p as [a|e k IH]; intros tr; cbn [wp].
  - exists []. rewrite app_nil_r. split; [done|constructor].
  - intros r. eapply wp_mono; [apply IH|]. cbv beta. intros t a (t' & -> & Hret). exists (existT e r :: t').
    rewrite <- app_assoc. split; [done|by constructor].
Qed.

(** The run against a model of the callees is one of them. *)
Lemma run_returns {A S} (h : S -> forall e : E, S * answer e) (p : prog E A) s tr :
  exists t, (run h p s tr).1.2 = tr ++ t /\ returns p t (run h p s tr).2.
Proof.
  revert s tr. induction p as [a|e k IH]; intros s tr; cbn [run].
  - exists []. rewrite app_nil_r. split; [done|constructor].
  - destruct (h s e) as [s' r]. destruct (IH r s' (tr ++ [existT e r])) as (t & Ht & Hr).
    exists (existT e r :: t). rewrite Ht, <- app_assoc. split; [done|by constructor].
Qed.
End Returns.

(** ** An environment that is partly known

    [env s e r s'] says that a callee in state [s] may answer [e] with [r] and then be in [s']; [wpe]
    speaks of every run against such a callee. *)

Section Environment.
Context {E : Type} `{EF : !Effect E} {S : Type} (env : S -> forall e : E, answer e -> S -> Prop).

Fixpoint wpe {A} (p : prog E A) (Q : S -> A -> Prop) (s : S) : Prop :=
  match p with
  | Ret a => Q s a
  | Call e k => forall r s', env s e r s' -> wpe (k r) Q s'
  end.

Lemma wpe_mono {A} (p : prog E A) (Q R : S -> A -> Prop) s : wpe p Q s -> (forall s' a, Q s' a -> R s' a) -> wpe p R s.
Proof. revert s. induction p; cbn; eauto. Qed.

Lemma wpe_bind {A B} (p : prog E A) (f : A -> prog E B) Q s :
  wpe (bind f p) Q s <-> wpe p (fun s' a => wpe (f a) Q s') s.
Proof. revert s. induction p as [a|e k IH]; cbn; intros s; [done|]. split; intros H r s' Henv; by apply IH, H. Qed.

(** The first part establishes what the rest starts from. *)
Lemma wpe_seq {A B} (p : prog E A) (f : A -> prog E B) (R : S -> A -> Prop) Q s :
  wpe p R s -> (forall s' a, R s' a -> wpe (f a) Q s') -> wpe (bind f p) Q s.
Proof. intros Hp Hf. apply wpe_bind. by eapply wpe_mono. Qed.

Lemma wpe_deferred {A B} (d : prog E B) (p : prog E A) Q s :
  wpe (deferred d p) Q s <-> wpe p (fun s' a => wpe d (fun s'' _ => Q s'' a) s') s.
Proof.
  unfold deferred. rewrite wpe_bind. split; intros H; (eapply wpe_mono; [exact H|]); intros s' a; by rewrite wpe_bind.
Qed.

Lemma wpe_on_failure f (p : prog E (option error)) Q s :
  wpe (on_failure f p) Q s <-> wpe p (fun s' r => match r with None => Q s' None | Some e => Q s' (Some (f e)) end) s.
Proof.
  unfold on_failure. rewrite wpe_bind. split; intros H; (eapply wpe_mono; [exact H|]); by intros s' [e|].
Qed.

Lemma wpe_on_error {A} f (p : prog E (result A)) Q s :
  wpe (on_error f p) Q s <-> wpe p (fun s' r => match r with Ok a => Q s' (Ok a) | Err e => Q s' (Err (f e)) end) s.
Proof.
  unfold on_error. rewrite wpe_bind. split; intros H; (eapply wpe_mono; [exact H|]); by intros s' [a|e].
Qed.

(** A callee that behaves as the environment says. *)
Lemma wpe_run {A} (h : S -> forall e : E, S * answer e) (p : prog E A) Q s tr :
  (forall s e, env s e (h s e).2 (h s e).1) -> wpe p Q s -> let '(s', _, a) := run h p s tr in Q s' a.
Proof.
  intros Hh. revert s tr. induction p as [a|e k IH]; cbn; intros s tr Hp; [done|].
  specialize (Hh s e). destruct (h s e) as [s' r]. by apply IH, Hp.
Qed.
End Environment.
