(* ===== verification/Slot.v ===== *)
(** * Slots and their resources (internal/slot)

    The data shared by the Worker, the Scheduler and the Pool controller: slot states, slot
    configurations with their resource budgets, and the resource arithmetic of
    internal/slot/config.go. Quantities are Kubernetes' [resource.Quantity], which is not part
    of the repository: [QuantityApi] lists the operations the code calls and [QuantityLaws]
    what it relies on. *)

From S2P Require Import Prelude.

(** ** Slot states and the report shared between a Worker and the Scheduler *)

(* go: internal/slot/slot.go 5-15 State *)
Inductive State :=
  | StateFree
  | StateReserved
  | StateStarting
  | StateRunning
  | StateStopping
  | StateCleaning
  | StateFailed.

#[export] Instance State_eq_dec : EqDecision State.
Proof. solve_decision. Defined.

(* go: internal/slot/slot.go 5-15 State *)
Definition State_string (s : State) : string :=
  match s with
  | StateFree => "Free"
  | StateReserved => "Reserved"
  | StateStarting => "Starting"
  | StateRunning => "Running"
  | StateStopping => "Stopping"
  | StateCleaning => "Cleaning"
  | StateFailed => "Failed"
  end.

(** [types.UID] and sandbox names are strings; a slot id is an int32, kept as [Z]. *)
Abbreviation UID := string (only parsing).

(* go: internal/slot/slot.go 17-23 Info *)
Record Info := mkInfo {
  info_ID : Z;
  info_Profile : string;
  info_State : State;
  info_SandboxUID : UID;
}.

#[export] Instance Info_eq_dec : EqDecision Info.
Proof. solve_decision. Defined.

Definition set_info_State (s : State) (i : Info) : Info :=
  mkInfo (info_ID i) (info_Profile i) s (info_SandboxUID i).
Definition set_info_SandboxUID (u : UID) (i : Info) : Info :=
  mkInfo (info_ID i) (info_Profile i) (info_State i) u.
Definition set_info_Profile (p : string) (i : Info) : Info :=
  mkInfo (info_ID i) p (info_State i) (info_SandboxUID i).

(** ** Quantities *)

Class QuantityApi := {
  Quantity : Type;
  q_zero : Quantity;
  q_cmp : Quantity -> Quantity -> comparison;
  q_add : Quantity -> Quantity -> Quantity;
  q_is_zero : Quantity -> bool;
}.

(** What the code relies on: [Cmp] is a total order with zero neutral for [Add], and adding
    a quantity on both sides keeps the order. *)
Class QuantityLaws (QA : QuantityApi) : Prop := {
  q_cmp_refl q : q_cmp q q = Eq;
  q_cmp_le_trans q1 q2 q3 : q_cmp q1 q2 <> Gt -> q_cmp q2 q3 <> Gt -> q_cmp q1 q3 <> Gt;
  q_cmp_flip q1 q2 : q_cmp q2 q1 = CompOpp (q_cmp q1 q2);
  q_is_zero_cmp q : q_is_zero q = true <-> q_cmp q q_zero = Eq;
  q_add_mono q1 q1' q2 q2' :
    q_cmp q1 q1' <> Gt -> q_cmp q2 q2' <> Gt -> q_cmp (q_add q1 q2) (q_add q1' q2') <> Gt;
  q_add_zero_r q : q_cmp (q_add q q_zero) q = Eq;
  q_add_zero_l q : q_cmp (q_add q_zero q) q = Eq;
}.

(** Quantities as integers (milli-units), for the concrete instances. *)
Definition ZQuantity : QuantityApi := {|
  Quantity := Z;
  q_zero := 0%Z;
  q_cmp := Z.compare;
  q_add := Z.add;
  q_is_zero := fun q => Z.eqb q 0;
|}.

Lemma ZQuantityLaws : QuantityLaws ZQuantity.
Proof.
  constructor; simpl; intros.
  - apply Z.compare_refl.
  - rewrite !Z.compare_ngt_iff in *. lia.
  - by rewrite Z.compare_antisym.
  - rewrite Z.eqb_eq, Z.compare_eq_iff. lia.
  - rewrite !Z.compare_ngt_iff in *. lia.
  - rewrite Z.add_0_r. apply Z.compare_refl.
  - apply Z.compare_refl.
Qed.

Section Resources.
Context {QA : QuantityApi}.

(** [corev1.ResourceList]; a nil map and an empty one are the same list of resources. *)
Definition ResourceList : Type := gmap string Quantity.

(** [corev1.ResourceRequirements]. *)
Record ResourceRequirements := mkResources {
  rr_Requests : gmap string Quantity;
  rr_Limits : gmap string Quantity;
  rr_Claims : list string;
}.

Definition no_resources : ResourceRequirements := mkResources ∅ ∅ [].

(** One Slot on a Worker. *)
(* go: internal/slot/config.go 11-16 Config *)
Record Config := mkConfig {
  cfg_ID : Z;
  cfg_Profile : string;
  cfg_Resources : ResourceRequirements;
}.

(* go: internal/slot/config.go 247-256 cloneResourceList *)
Definition cloneResourceList (l : gmap string Quantity) : gmap string Quantity :=
  if decide (size l = 0) then ∅
  else map_fold (fun name quantity out => <[name := quantity]> out) ∅ l.

(** [Claims] is not copied. *)
(* go: internal/slot/config.go 240-245 cloneResources *)
Definition cloneResources (r : ResourceRequirements) : ResourceRequirements :=
  mkResources (cloneResourceList (rr_Requests r)) (cloneResourceList (rr_Limits r)) [].

(* go: internal/slot/config.go 220-238 addResourceList *)
Definition addResourceList (base add : gmap string Quantity) : gmap string Quantity :=
  if decide (size add = 0) then base
  else map_fold (fun name quantity result =>
         match result !! name with
         | None => <[name := quantity]> result
         | Some current => <[name := q_add current quantity]> result
         end) base add.

(* go: internal/slot/config.go 142-150 SumResources *)
Definition SumResources (configs : list Config) : ResourceRequirements :=
  foldl (fun sum cfg =>
    mkResources (addResourceList (rr_Requests sum) (rr_Requests (cfg_Resources cfg)))
                (addResourceList (rr_Limits sum) (rr_Limits (cfg_Resources cfg)))
                (rr_Claims sum)) no_resources configs.

(* go: internal/slot/config.go 204-218 resourceListCovers *)
Definition resourceListCovers (have need : gmap string Quantity) : bool :=
  forallb (fun '(name, required) =>
    match have !! name with
    | None => q_is_zero required
    | Some available => match q_cmp available required with Lt => false | _ => true end
    end) (map_to_list need).

(* go: internal/slot/config.go 152-155 ResourcesEnough *)
Definition ResourcesEnough (have need : ResourceRequirements) : bool :=
  resourceListCovers (rr_Requests have) (rr_Requests need) &&
  resourceListCovers (rr_Limits have) (rr_Limits need).

(** ** Laws of the resource arithmetic *)

Lemma cloneResourceList_id l : cloneResourceList l = l.
Proof.
  unfold cloneResourceList. case_decide as Hs.
  - by apply map_size_empty_inv in Hs.
  - apply map_fold_insert_id.
Qed.

Lemma cloneResources_id r : rr_Claims r = [] -> cloneResources r = r.
Proof.
  intros Hc. unfold cloneResources. rewrite !cloneResourceList_id, <- Hc.
  by destruct r.
Qed.

Lemma cloneResources_idem r : cloneResources (cloneResources r) = cloneResources r.
Proof. by apply cloneResources_id. Qed.

(** Pointwise sum of two optional quantities. *)
Definition add_opt (a b : option Quantity) : option Quantity := union_with (fun x y => Some (q_add x y)) a b.

Lemma lookup_addResourceList base add name :
  addResourceList base add !! name = add_opt (base !! name) (add !! name).
Proof.
  unfold addResourceList. case_decide as Hs.
  { apply map_size_empty_inv in Hs as ->. rewrite lookup_empty.
    unfold add_opt. by destruct (base !! name). }
  clear Hs.
  apply (map_fold_weak_ind (fun r m => forall n, r !! n = add_opt (base !! n) (m !! n))).
  - intros n. rewrite lookup_empty. unfold add_opt. by destruct (base !! n).
  - intros k q m r Hk IH n. specialize (IH n) as IHn.
    pose proof (IH k) as IHk. rewrite Hk in IHk.
    destruct (r !! k) as [c|] eqn:Hr; destruct (decide (k = n)) as [<-|Hne];
      rewrite ?lookup_insert_eq, ?lookup_insert_ne by done; rewrite ?IHn; try done.
    + unfold add_opt in *. destruct (base !! k); simpl in *; by simplify_eq.
    + unfold add_opt in *. destruct (base !! k); simpl in *; by simplify_eq.
Qed.

Lemma resourceListCovers_spec have need :
  resourceListCovers have need = true <->
  forall name required, need !! name = Some required ->
    match have !! name with
    | None => q_is_zero required = true
    | Some available => q_cmp available required <> Lt
    end.
Proof.
  unfold resourceListCovers. rewrite forallb_forall. split.
  - intros H name required Hn.
    specialize (H (name, required)). rewrite <- list_elem_of_In, elem_of_map_to_list in H.
    specialize (H Hn). simpl in H. destruct (have !! name); [|done].
    by destruct (q_cmp _ _).
  - intros H [name required] Hin. rewrite <- list_elem_of_In, elem_of_map_to_list in Hin.
    specialize (H _ _ Hin). simpl. destruct (have !! name); [|done].
    by destruct (q_cmp _ _).
Qed.
End Resources.

Arguments no_resources {QA}.
