(* ===== verification/Topology.v ===== *)
(** * Slot topology planning (internal/slot/config.go)

    [PlanTopology] turns the Slots a Worker template has into the Slots its spec asks for,
    keeping ids, never dropping a busy Slot, and reusing free ids. A Go map is a [gmap]; the
    order in which Go visits a map never shows here (the code sorts what it collects). The
    result is [None] where the code panics (a slice bound taken from a negative count). *)

From S2P Require Import Prelude Slot.

Section Topology.
Context {QA : QuantityApi}.

(** Plan: the Slot layout, and why it could not be reached when it is [Blocked]. *)
(* go: internal/slot/config.go 24-29 TopologyPlan *)
Record TopologyPlan := mkPlan {
  plan_Slots : list Config;
  plan_Blocked : bool;
  plan_Reason : string;
}.

Definition cfg_le (c1 c2 : Config) : Prop := (cfg_ID c1 <= cfg_ID c2)%Z.
#[export] Instance cfg_le_dec : RelDecision cfg_le.
Proof. intros c1 c2. unfold cfg_le. apply _. Defined.

(** [sort.Slice] by id. *)
Definition sort_configs (l : list Config) : list Config := merge_sort cfg_le l.

(** [sort.Strings]. *)
Definition sort_strings (l : list string) : list string := merge_sort string_le l.

(* go: internal/slot/config.go 157-167 groupByProfile *)
Definition groupByProfile (current : list Config) : gmap string (list Config) :=
  sort_configs <$>
    foldl (fun byProfile cfg =>
      <[cfg_Profile cfg := default [] (byProfile !! cfg_Profile cfg) ++ [cfg]]> byProfile)
      ∅ current.

(** The names of [order] without repetitions, then the other profiles of [counts] and of
    the existing Slots. The two loops over the maps do not record what they add in [seen]. *)
(* go: internal/slot/config.go 169-192 orderedProfiles *)
Definition orderedProfiles (order : list string) (counts : gmap string Z)
    (byProfile : gmap string (list Config)) : list string :=
  let '(seen, names) := foldl (fun '(seen, names) profile =>
      if decide (profile ∈ seen) then (seen, names)
      else ({[profile]} ∪ seen, names ++ [profile])) ((∅ : gset string), []) order in
  let extras :=
    filter (fun profile => profile ∉ seen) (map_to_list counts).*1 ++
    filter (fun profile => profile ∉ seen) (map_to_list byProfile).*1 in
  names ++ sort_strings extras.

(** One [for] iteration per unit of fuel; the result is the id and the new [*maxID]. *)
(* go: internal/slot/config.go 194-202 nextFreeID *)
Fixpoint nextFreeID_loop (fuel : nat) (used : gset Z) (maxID id : Z) : option (Z * Z) :=
  match fuel with
  | O => None
  | S fuel =>
      if (id <=? maxID)%Z then
        if decide (id ∈ used) then nextFreeID_loop fuel used maxID (wrap32 (id + 1))
        else Some (id, maxID)
      else let maxID' := wrap32 (maxID + 1) in Some (maxID', maxID')
  end.

(* go: internal/slot/config.go 194-202 nextFreeID *)
Definition nextFreeID (used : gset Z) (maxID : Z) : option (Z * Z) :=
  nextFreeID_loop (S (size used)) used maxID 0.

(** The variables [PlanTopology] updates while it walks the profiles. *)
(* go: internal/slot/config.go 47-61 PlanTopology *)
Record plan_state := mkPlanState {
  ps_byProfile : gmap string (list Config);
  ps_usedIDs : gset Z;
  ps_maxID : Z;
  ps_next : list Config;
  ps_reasons : list string;
}.

(** Scale-down of one profile: the loop over [existing[desired:]]. *)
(* go: internal/slot/config.go 77-84 PlanTopology *)
Definition drop_extra (profile : string) (busy : gmap Z bool)
    (st : list Config * gset Z * list string) (cfg : Config)
    : list Config * gset Z * list string :=
  let '(keep, used, reasons) := st in
  if default false (busy !! cfg_ID cfg) then
    (keep ++ [cfg], used,
     reasons ++ ["slot " +:+ itoa (cfg_ID cfg) +:+ " (" +:+ profile +:+ ") is busy"])
  else (keep, used ∖ {[cfg_ID cfg]}, reasons).

(** Scale-up of one profile: [missing] new Slots. *)
(* go: internal/slot/config.go 92-100 PlanTopology *)
Fixpoint add_missing (missing : nat) (profile : string) (resources : ResourceRequirements)
    (st : list Config * gset Z * Z) : option (list Config * gset Z * Z) :=
  match missing with
  | O => Some st
  | S missing =>
      let '(next, used, maxID) := st in
      '(id, maxID) ← nextFreeID used maxID;
      add_missing missing profile resources
        (next ++ [mkConfig id profile (cloneResources resources)], {[id]} ∪ used, maxID)
  end.

(** The body of the loop over the profiles. Appending to [existing[:desired]] writes into the
    array [byProfile[profile]] points to, so that slice now starts with [keep]. *)
(* go: internal/slot/config.go 63-101 PlanTopology *)
Definition plan_profile (counts : gmap string Z) (profiles : gmap string ResourceRequirements)
    (busy : gmap Z bool) (st : plan_state) (profile : string) : option plan_state :=
  let 'mkPlanState byProfile used maxID next reasons := st in
  let desired := default 0%Z (counts !! profile) in
  let existing := default [] (byProfile !! profile) in
  let len := wrap32 (Z.of_nat (length existing)) in
  if bool_decide (profiles !! profile = None) && (desired >? 0)%Z then
    Some (mkPlanState byProfile used maxID (next ++ existing)
            (reasons ++ ["unknown slot profile " +:+ quote profile]))
  else if (len >? desired)%Z then
    if (desired <? 0)%Z then None
    else
      let '(keep, used', reasons') :=
        foldl (drop_extra profile busy) (take (Z.to_nat desired) existing, used, reasons)
          (drop (Z.to_nat desired) existing) in
      let keep := sort_configs keep in
      Some (mkPlanState (<[profile := keep ++ drop (length keep) existing]> byProfile)
              used' maxID (next ++ keep) reasons')
  else
    let resources := default no_resources (profiles !! profile) in
    '(next', used', maxID') ←
      add_missing (Z.to_nat (wrap32 (desired - len))) profile resources
        (next ++ existing, used, maxID);
    Some (mkPlanState byProfile used' maxID' next' reasons).

Fixpoint plan_profiles (counts : gmap string Z) (profiles : gmap string ResourceRequirements)
    (busy : gmap Z bool) (st : plan_state) (names : list string) : option plan_state :=
  match names with
  | [] => Some st
  | profile :: names =>
      st' ← plan_profile counts profiles busy st profile;
      plan_profiles counts profiles busy st' names
  end.

Definition max_id (current : list Config) : Z :=
  foldl (fun maxID cfg => if (cfg_ID cfg >? maxID)%Z then cfg_ID cfg else maxID) (-1)%Z current.

Definition initial_plan_state (current : list Config) : plan_state :=
  mkPlanState (groupByProfile current) (list_to_set (cfg_ID <$> current)) (max_id current) [] [].

(* go: internal/slot/config.go 31-109 PlanTopology *)
Definition PlanTopology (current : list Config) (counts : gmap string Z)
    (profiles : gmap string ResourceRequirements) (busy : gmap Z bool)
    (profileOrder : list string) : option TopologyPlan :=
  let st := initial_plan_state current in
  let names := orderedProfiles profileOrder counts (ps_byProfile st) in
  st' ← plan_profiles counts profiles busy st names;
  let next := sort_configs (ps_next st') in
  let blocked := bool_decide (ps_reasons st' <> []) in
  Some (mkPlan next blocked
          (if blocked then strings_Join (ps_reasons st') "; " else "")).

(* go: internal/slot/config.go 111-125 KeepExistingSlots *)
Definition KeepExistingSlots (current proposed : list Config) : list Config :=
  let existing : gset Z := list_to_set (cfg_ID <$> current) in
  filter (fun cfg => cfg_ID cfg ∈ existing) proposed.

(* go: internal/slot/config.go 127-140 CountNewSlots *)
Definition CountNewSlots (current proposed : list Config) : nat :=
  let existing : gset Z := list_to_set (cfg_ID <$> current) in
  length (filter (fun cfg => cfg_ID cfg ∉ existing) proposed).
End Topology.

(** ** The repository's own unit tests (internal/slot/config_test.go), evaluated *)

Module TopologyTests.
#[local] Existing Instance ZQuantity.
Definition c (id : Z) (p : string) : Config := mkConfig id p no_resources.
Definition profs : gmap string ResourceRequirements :=
  {["small" := no_resources; "large" := no_resources]}.
Definition ids (r : option TopologyPlan) : option (list (Z * string) * bool) :=
  p ← r; Some ((fun s => (cfg_ID s, cfg_Profile s)) <$> plan_Slots p, plan_Blocked p).

Example removes_highest_free_ids :
  ids (PlanTopology [c 0 "small"; c 1 "small"; c 2 "large"] {["small" := 1%Z; "large" := 1%Z]}
         profs ∅ ["small"; "large"])
  = Some ([(0%Z, "small"); (2%Z, "large")], false).
Proof. vm_compute. reflexivity. Qed.

Example fills_holes :
  ids (PlanTopology [c 0 "small"; c 2 "large"] {["small" := 2%Z; "large" := 1%Z]}
         profs ∅ ["small"; "large"])
  = Some ([(0%Z, "small"); (1%Z, "small"); (2%Z, "large")], false).
Proof. vm_compute. reflexivity. Qed.

Example blocks_busy_removal :
  ids (PlanTopology [c 0 "small"; c 1 "small"] {["small" := 1%Z]}
         {["small" := no_resources]} {[1%Z := true]} ["small"])
  = Some ([(0%Z, "small"); (1%Z, "small")], true).
Proof. vm_compute. reflexivity. Qed.

Example creates_from_empty_in_order :
  ids (PlanTopology [] {["small" := 2%Z; "large" := 1%Z]} profs ∅ ["small"; "large"])
  = Some ([(0%Z, "small"); (1%Z, "small"); (2%Z, "large")], false).
Proof. vm_compute. reflexivity. Qed.
End TopologyTests.
