(* ===== verification/TopologyFacts.v ===== *)
(** * Correctness of the topology planner

    The plan keeps ids unique and inside int32, never drops a busy Slot, drops free Slots
    from the highest id down, and when it is not blocked gives every profile exactly the
    requested number of Slots. [plan_inv] is the invariant of the loop over the profiles. *)

From S2P Require Import Prelude Slot Topology.

Section Lists.
Context {A : Type}.

Lemma filter_none (P : A -> Prop) `{!forall x, Decision (P x)} (l : list A) :
  (forall x, x ∈ l -> ¬ P x) -> filter P l = [].
Proof.
  induction l as [|x l IH]; intros Hl; [done|]. rewrite filter_cons_False; [|apply Hl; left].
  apply IH. intros y Hy. apply Hl. by right.
Qed.

Lemma filter_all (P : A -> Prop) `{!forall x, Decision (P x)} (l : list A) :
  (forall x, x ∈ l -> P x) -> filter P l = l.
Proof.
  induction l as [|x l IH]; intros Hl; [done|]. rewrite filter_cons_True; [|apply Hl; left].
  f_equal. apply IH. intros y Hy. apply Hl. by right.
Qed.

Lemma bind_filter_Permutation (f : A -> string) (names : list string) (l : list A) :
  NoDup names -> (forall x, x ∈ l -> f x ∈ names) ->
  (names ≫= fun p => filter (fun x => f x = p) l) ≡ₚ l.
Proof.
  revert l. induction names as [|p names IH]; intros l Hnd Hin.
  { destruct l as [|x l]; [done|]. specialize (Hin x ltac:(left)). by apply elem_of_nil in Hin. }
  apply NoDup_cons in Hnd as [Hp Hnd]. cbn [mbind list_bind].
  transitivity (filter (fun x => f x = p) l ++ filter (fun x => ¬ f x = p) l);
    [|apply filter_app_complement].
  apply Permutation_app_head.
  transitivity (names ≫= fun q => filter (fun x => f x = q) (filter (fun x => ¬ f x = p) l)).
  - apply reflexive_eq. clear IH Hnd Hin. induction names as [|q names IHn]; [done|].
    apply not_elem_of_cons in Hp as [Hpq Hp]. cbn. f_equal; [|by apply IHn].
    rewrite list_filter_filter. apply list_filter_iff. naive_solver.
  - apply IH; [done|].
    intros x [Hne Hx]%list_elem_of_filter. specialize (Hin x Hx). set_solver.
Qed.
End Lists.

(** ** [nextFreeID]: the lowest unused id, within the loop's fuel *)

Lemma initial_segment_size (used : gset Z) id :
  (0 <= id)%Z -> (forall j, (0 <= j < id)%Z -> j ∈ used) -> (id <= Z.of_nat (size used))%Z.
Proof.
  intros Hid Hsub.
  assert (Hl : length (seqZ 0 id) <= length (elements used)).
  { apply submseteq_length, NoDup_submseteq; [apply NoDup_seqZ|].
    intros x Hx%elem_of_seqZ. apply elem_of_elements, Hsub. lia. }
  rewrite length_seqZ in Hl. unfold size, set_size. simpl. lia.
Qed.

Lemma nextFreeID_loop_spec fuel (used : gset Z) maxID : forall id,
  (forall u, u ∈ used -> u <= maxID)%Z -> (-1 <= maxID <= int32_max)%Z ->
  (Z.of_nat (size used) < int32_max)%Z ->
  (0 <= id)%Z -> (forall j, (0 <= j < id)%Z -> j ∈ used) ->
  (Z.of_nat (size used) < Z.of_nat fuel + id)%Z ->
  exists id' max', nextFreeID_loop fuel used maxID id = Some (id', max') /\
    (0 <= id' <= max')%Z /\ (maxID <= max' <= int32_max)%Z /\ id' ∉ used /\
    forall j, (0 <= j < id')%Z -> j ∈ used.
Proof.
  induction fuel as [|fuel IH]; intros id Hmax Hrange Hsize Hid Hsub Hfuel;
    pose proof (initial_segment_size used id Hid Hsub) as Hseg; [lia|].
  cbn [nextFreeID_loop]. destruct (Z.leb_spec id maxID) as [Hle|Hgt].
  - case_decide as Hin; [|exists id, maxID; repeat split; (done || lia)].
    assert (Hsub' : forall j, (0 <= j < id + 1)%Z -> j ∈ used).
    { intros j Hj. destruct (decide (j = id)) as [->|]; [done|]. apply Hsub. lia. }
    pose proof (initial_segment_size used (id + 1) ltac:(lia) Hsub') as Hseg'.
    rewrite wrap32_id by (unfold in_int32, int32_min; lia).
    apply IH; try done; lia.
  - assert (id = maxID + 1)%Z as ->.
    { destruct (decide (id = 0)%Z) as [->|]; [lia|].
      specialize (Hmax (id - 1)%Z (Hsub (id - 1)%Z ltac:(lia))). lia. }
    rewrite wrap32_id by (unfold in_int32, int32_min; lia).
    exists (maxID + 1)%Z, (maxID + 1)%Z. repeat split; try done; try lia.
    intros Hin%Hmax. lia.
Qed.

Lemma nextFreeID_spec (used : gset Z) maxID :
  (forall u, u ∈ used -> u <= maxID)%Z -> (-1 <= maxID <= int32_max)%Z ->
  (Z.of_nat (size used) < int32_max)%Z ->
  exists id' max', nextFreeID used maxID = Some (id', max') /\
    (0 <= id' <= max')%Z /\ (maxID <= max' <= int32_max)%Z /\ id' ∉ used /\
    forall j, (0 <= j < id')%Z -> j ∈ used.
Proof. intros. apply nextFreeID_loop_spec; try done; lia. Qed.

(** The maximum changes only to become the id that is returned. *)
Lemma nextFreeID_loop_max fuel (used : gset Z) maxID : forall id id' max',
  nextFreeID_loop fuel used maxID id = Some (id', max') -> max' = maxID \/ max' = id'.
Proof.
  induction fuel as [|fuel IH]; intros id id' max'; cbn [nextFreeID_loop]; [done|].
  destruct (id <=? maxID)%Z; [case_decide; [apply IH|]|]; intros [= <- <-]; tauto.
Qed.

Section Planner.
Context {QA : QuantityApi}.

Abbreviation ids l := (cfg_ID <$> l).

Lemma sort_configs_Permutation l : sort_configs l ≡ₚ l.
Proof. apply merge_sort_Permutation. Qed.

#[export] Instance cfg_le_total : Total cfg_le.
Proof. intros c1 c2. unfold cfg_le. lia. Qed.
#[export] Instance cfg_le_trans : Transitive cfg_le.
Proof. intros c1 c2 c3. unfold cfg_le. lia. Qed.

Lemma sort_configs_sorted l : StronglySorted cfg_le (sort_configs l).
Proof. apply StronglySorted_merge_sort; apply _. Qed.

Lemma elem_of_sort_configs c l : c ∈ sort_configs l <-> c ∈ l.
Proof. by rewrite sort_configs_Permutation. Qed.

(** ** Grouping and ordering of the profiles *)

Lemma groupByProfile_lookup current p :
  default [] (groupByProfile current !! p) =
    sort_configs (filter (fun c => cfg_Profile c = p) current).
Proof.
  unfold groupByProfile. rewrite lookup_fmap.
  enough (G : forall m : gmap string (list Config), default [] (foldl (fun byProfile cfg =>
      <[cfg_Profile cfg := default [] (byProfile !! cfg_Profile cfg) ++ [cfg]]> byProfile)
      m current !! p) = default [] (m !! p) ++ filter (fun c => cfg_Profile c = p) current).
  { specialize (G ∅). rewrite lookup_empty in G. simpl in G. rewrite <- G.
    set (m := foldl _ _ _). by destruct (m !! p). }
  induction current as [|c l IH]; intros m; simpl; [by rewrite app_nil_r|].
  rewrite IH, filter_cons. destruct (decide (cfg_Profile c = p)) as [->|Hne].
  - rewrite lookup_insert_eq. simpl. by rewrite <- app_assoc.
  - by rewrite lookup_insert_ne.
Qed.

Lemma groupByProfile_dom current p :
  is_Some (groupByProfile current !! p) <-> exists c, c ∈ current /\ cfg_Profile c = p.
Proof.
  unfold groupByProfile. rewrite lookup_fmap, fmap_is_Some.
  enough (G : forall m : gmap string (list Config), is_Some (foldl (fun byProfile cfg =>
      <[cfg_Profile cfg := default [] (byProfile !! cfg_Profile cfg) ++ [cfg]]> byProfile)
      m current !! p) <-> is_Some (m !! p) \/ exists c, c ∈ current /\ cfg_Profile c = p).
  { rewrite G, lookup_empty. split; [intros [[? ?]|?]; done | by right]. }
  induction current as [|c l IH]; intros m; simpl.
  { set_solver. }
  rewrite IH, lookup_insert_is_Some'. set_solver.
Qed.

Lemma orderedProfiles_order order names0 seen0 :
  (forall p, p ∈ seen0 <-> p ∈ names0) -> NoDup names0 ->
  let '(seen, names) := foldl (fun '(seen, names) profile =>
      if decide (profile ∈ seen) then (seen, names)
      else ({[profile]} ∪ seen, names ++ [profile])) ((seen0 : gset string), names0) order in
  (forall p, p ∈ seen <-> p ∈ names) /\ (forall p, p ∈ names <-> p ∈ names0 \/ p ∈ order) /\
  NoDup names.
Proof.
  revert names0 seen0. induction order as [|q order IH]; intros names0 seen0 Hs Hnd; simpl.
  { set_solver. }
  case_decide as Hq.
  - specialize (IH names0 seen0 Hs Hnd). destruct (foldl _ _ _). set_solver.
  - specialize (IH (names0 ++ [q]) ({[q]} ∪ seen0)). destruct (foldl _ _ _).
    destruct IH as (H1 & H2 & H3).
    { set_solver. }
    { apply NoDup_app. split; [done|]. split; [set_solver | apply NoDup_singleton]. }
    set_solver.
Qed.

Lemma orderedProfiles_spec order counts byProfile :
  let names := orderedProfiles order counts byProfile in
  (forall p, p ∈ names <-> p ∈ order \/ is_Some (counts !! p) \/ is_Some (byProfile !! p)) /\
  ((forall p, is_Some (counts !! p) -> p ∈ order) -> NoDup names).
Proof.
  cbv zeta. unfold orderedProfiles.
  pose proof (orderedProfiles_order order [] ∅ ltac:(set_solver) ltac:(constructor)) as H.
  destruct (foldl _ _ _) as [seen names]. destruct H as (Hs & Hn & Hnd).
  assert (Hkeys : forall {A} (m : gmap string A) p, p ∈ (map_to_list m).*1 <-> is_Some (m !! p)).
  { intros A m p. rewrite list_elem_of_fmap. split.
    - intros ([k v] & -> & Hkv%elem_of_map_to_list). simpl. by exists v.
    - intros [v Hv]. exists (p, v). by rewrite elem_of_map_to_list. }
  split.
  - intros p. unfold sort_strings. rewrite elem_of_app, merge_sort_Permutation, elem_of_app,
      !list_elem_of_filter, !Hkeys.
    destruct (decide (p ∈ seen)); set_solver.
  - intros Hsub. apply NoDup_app. split; [done|]. unfold sort_strings. split.
    + intros p Hp. rewrite merge_sort_Permutation, elem_of_app, !list_elem_of_filter. set_solver.
    + rewrite merge_sort_Permutation.
      rewrite (filter_none _ (map_to_list counts).*1). 2: {
        intros p Hp. apply Hkeys in Hp. set_solver. }
      simpl. apply NoDup_filter, NoDup_fst_map_to_list.
Qed.

(** ** The two inner loops *)

Lemma foldl_drop_extra profile busy l : forall keep used reasons,
  foldl (drop_extra profile busy) (keep, used, reasons) l =
    (keep ++ filter (fun c => default false (busy !! cfg_ID c) = true) l,
     used ∖ list_to_set (ids (filter (fun c => default false (busy !! cfg_ID c) = false) l)),
     reasons ++ ((fun c => "slot " +:+ itoa (cfg_ID c) +:+ " (" +:+ profile +:+ ") is busy")
                 <$> filter (fun c => default false (busy !! cfg_ID c) = true) l)).
Proof.
  induction l as [|c l IH]; intros keep used reasons; simpl.
  { rewrite !app_nil_r. do 2 f_equal. set_solver. }
  rewrite !filter_cons. destruct (default false (busy !! cfg_ID c)) eqn:Hb; simpl;
    rewrite IH, <- ?app_assoc; simpl; [done|]. do 2 f_equal. set_solver.
Qed.

(** What the planner knows about ids: the used ones are those of the Slots it holds. *)
Record id_inv (held : list Config) (used : gset Z) (maxID : Z) (room : Z) : Prop := {
  ii_used : used = list_to_set (ids held);
  ii_nodup : NoDup (ids held);
  ii_max : forall u, u ∈ used -> (u <= maxID)%Z;
  ii_range : (-1 <= maxID <= int32_max)%Z;
  ii_room : (0 <= room)%Z /\ (Z.of_nat (length held) + room < int32_max)%Z;
}.

Lemma id_inv_size held used maxID room :
  id_inv held used maxID room -> Z.of_nat (size used) = Z.of_nat (length held).
Proof.
  intros [-> Hnd _ _ _]. rewrite size_list_to_set by done. by rewrite length_fmap.
Qed.

Lemma id_inv_Permutation held held' used maxID room :
  held ≡ₚ held' -> id_inv held used maxID room -> id_inv held' used maxID room.
Proof.
  intros Hp [-> Hnd Hmax Hr Hroom]. split; try done.
  - apply list_to_set_perm_L. by rewrite Hp.
  - by rewrite <- Hp.
  - by rewrite <- Hp.
Qed.

(** Dropping Slots frees their ids. *)
Lemma id_inv_drop held dropped used maxID room :
  id_inv (held ++ dropped) used maxID room ->
  id_inv held (used ∖ list_to_set (ids dropped)) maxID room.
Proof.
  intros [-> Hnd Hmax Hr Hroom]. rewrite fmap_app in *.
  apply NoDup_app in Hnd as (Hh & Hdis & Hd). rewrite length_app in Hroom.
  split; try done; [set_solver|set_solver|lia].
Qed.

Lemma add_missing_spec n profile resources : forall next rest used maxID room,
  id_inv (next ++ rest) used maxID (Z.of_nat n + room) -> (0 <= room)%Z ->
  exists new used' maxID',
    add_missing n profile resources (next, used, maxID) = Some (next ++ new, used', maxID') /\
    id_inv ((next ++ new) ++ rest) used' maxID' room /\ length new = n /\
    forall c, c ∈ new -> cfg_Profile c = profile /\ cfg_Resources c = cloneResources resources /\
      cfg_ID c ∉ used /\ (0 <= cfg_ID c)%Z.
Proof.
  induction n as [|n IH]; intros next rest used maxID room Hinv Hroom.
  { exists [], used, maxID. rewrite app_nil_r. set_solver. }
  pose proof (id_inv_size _ _ _ _ Hinv) as Hsize. destruct Hinv as [Hu Hnd Hmax Hr [_ Hrm]].
  destruct (nextFreeID_spec used maxID) as (id & maxID' & Heq & Hid & Hm & Hfresh & _);
    [done|done|lia|].
  cbn [add_missing]. rewrite Heq. cbn [mbind option_bind].
  destruct (IH (next ++ [mkConfig id profile (cloneResources resources)]) rest
               ({[id]} ∪ used) maxID' room) as (new & used' & mx & Hadd & Hinv' & Hlen & Hnew).
  - split.
    + rewrite Hu, !fmap_app, !list_to_set_app_L. simpl. set_solver.
    + rewrite Hu in Hfresh. rewrite elem_of_list_to_set in Hfresh.
      assert (Hp : ids ((next ++ [mkConfig id profile (cloneResources resources)]) ++ rest)
                     ≡ₚ id :: ids (next ++ rest)).
      { rewrite !fmap_app. simpl. solve_Permutation. }
      rewrite Hp. by apply NoDup_cons.
    + intros u [->%elem_of_singleton|Hin%Hmax]%elem_of_union; lia.
    + lia.
    + rewrite !length_app in *. simpl. lia.
  - done.
  - exists (mkConfig id profile (cloneResources resources) :: new), used', mx.
    rewrite Hadd. set (c0 := mkConfig id profile _) in *.
    replace (next ++ c0 :: new) with ((next ++ [c0]) ++ new) by (by rewrite <- app_assoc).
    split_and!; try done; [simpl; lia|].
    intros c [->|Hc]%elem_of_cons; [simpl; split_and!; (done || lia)|].
    specialize (Hnew c Hc). set_solver.
Qed.

(** Sorted with distinct ids: the first Slots have strictly lower ids than the others. *)
Lemma sorted_take_drop_lt n (l : list Config) x y :
  StronglySorted cfg_le l -> NoDup (ids l) -> x ∈ take n l -> y ∈ drop n l ->
  (cfg_ID x < cfg_ID y)%Z.
Proof.
  intros Hs Hnd Hx Hy. rewrite <- (take_drop n l) in Hs, Hnd.
  rewrite fmap_app in Hnd. apply NoDup_app in Hnd as (_ & Hdis & _).
  assert (cfg_le x y) as Hle by (eapply StronglySorted_app_1_elem_of; eauto).
  assert (cfg_ID x <> cfg_ID y).
  { intros Heq. eapply (Hdis (cfg_ID x)); apply list_elem_of_fmap; eauto. }
  unfold cfg_le in Hle. lia.
Qed.

Lemma filter_length_app_le (P : Config -> Prop) `{!forall x, Decision (P x)} l1 l2 n :
  n <= length (filter P l1) -> n <= length (filter P (l1 ++ l2)).
Proof. rewrite filter_app, length_app. lia. Qed.

(** ** The loop over the profiles *)

Section Loop.
Context (current : list Config) (counts : gmap string Z)
        (profiles : gmap string ResourceRequirements) (busy : gmap Z bool).

Definition desired (p : string) : Z := default 0%Z (counts !! p).
Definition is_busy (c : Config) : Prop := default false (busy !! cfg_ID c) = true.
#[export] Instance is_busy_dec c : Decision (is_busy c).
Proof. unfold is_busy. apply _. Defined.

Definition pend (st : plan_state) (rest : list string) : list Config :=
  rest ≫= fun p => default [] (ps_byProfile st !! p).

Definition total_desired (rest : list string) : Z := foldr (fun p n => desired p + n)%Z 0%Z rest.

(** A Slot the plan adds: its profile is known and asked for, its budget the profile's. *)
Definition is_new (c : Config) : Prop :=
  exists r, profiles !! cfg_Profile c = Some r /\ cfg_Resources c = cloneResources r /\
    (0 < desired (cfg_Profile c))%Z /\ (0 <= cfg_ID c)%Z.

(** [c] is dropped only when it is free and the wanted number of Slots of its profile is
    kept below it. *)
Definition droppable (c : Config) (next : list Config) : Prop :=
  ¬ is_busy c /\ (desired (cfg_Profile c) <=
    Z.of_nat (length (filter (fun c' => cfg_Profile c' = cfg_Profile c /\
                                        (cfg_ID c' < cfg_ID c)%Z) next)))%Z.

Record plan_inv (visited rest : list string) (st : plan_state) : Prop := {
  pi_ids : id_inv (ps_next st ++ pend st rest) (ps_usedIDs st) (ps_maxID st)
             (total_desired rest);
  pi_rest : forall p, p ∈ rest ->
    default [] (ps_byProfile st !! p) = default [] (groupByProfile current !! p);
  pi_visited : forall c, c ∈ ps_next st -> cfg_Profile c ∈ visited;
  pi_origin : forall c, c ∈ ps_next st -> c ∈ current \/ is_new c;
  pi_kept : forall c, c ∈ current -> cfg_Profile c ∈ visited ->
    c ∈ ps_next st \/ droppable c (ps_next st);
  pi_count : ps_reasons st = [] -> forall p, p ∈ visited ->
    Z.of_nat (length (filter (fun c => cfg_Profile c = p) (ps_next st))) = desired p;
}.

Context (Hcounts : forall p, (0 <= desired p <= int32_max)%Z).

Lemma total_desired_nonneg rest : (0 <= total_desired rest)%Z.
Proof using Hcounts. induction rest as [|p r IH]; simpl; [done|]. specialize (Hcounts p). lia. Qed.

Lemma droppable_app c next more : droppable c next -> droppable c (next ++ more).
Proof using Type.
  intros [Hb Hd]. split; [done|]. rewrite filter_app, length_app. lia.
Qed.

Lemma pend_cons st p rest :
  pend st (p :: rest) = default [] (ps_byProfile st !! p) ++ pend st rest.
Proof using Type. done. Qed.

Lemma id_inv_room held used maxID room room' :
  id_inv held used maxID room -> (0 <= room' <= room)%Z -> id_inv held used maxID room'.
Proof using Type. intros [? ? ? ? [? ?]] ?. split; try done. lia. Qed.

Lemma pend_insert st rest p l used m next rs :
  p ∉ rest -> pend (mkPlanState (<[p := l]> (ps_byProfile st)) used m next rs) rest = pend st rest.
Proof using Type.
  intros Hp. unfold pend. simpl. induction rest as [|q rest IH]; [done|].
  apply not_elem_of_cons in Hp as [Hpq Hp]. cbn. f_equal; [by rewrite lookup_insert_ne | by apply IH].
Qed.

Lemma group_elem p c :
  c ∈ default [] (groupByProfile current !! p) <-> cfg_Profile c = p /\ c ∈ current.
Proof using Type. by rewrite groupByProfile_lookup, elem_of_sort_configs, list_elem_of_filter. Qed.

(** One profile processed, [more] being the Slots it contributes. *)
Lemma plan_inv_step visited p rest st st' more :
  plan_inv visited (p :: rest) st -> p ∉ visited ->
  ps_next st' = ps_next st ++ more ->
  id_inv (ps_next st' ++ pend st' rest) (ps_usedIDs st') (ps_maxID st') (total_desired rest) ->
  (forall q, q ∈ rest -> default [] (ps_byProfile st' !! q) = default [] (ps_byProfile st !! q)) ->
  (forall c, c ∈ more -> cfg_Profile c = p /\ (c ∈ current \/ is_new c)) ->
  (forall c, c ∈ current -> cfg_Profile c = p -> c ∈ more \/ droppable c more) ->
  (ps_reasons st' = [] -> ps_reasons st = [] /\ Z.of_nat (length more) = desired p) ->
  plan_inv (visited ++ [p]) rest st'.
Proof using Hcounts.
  intros [Hids Hrest Hvis Horig Hkept Hcount] Hp Hnext Hids' Hby Hmore Hdrop Hreas.
  split; rewrite ?Hnext.
  - by rewrite <- Hnext.
  - intros q Hq. rewrite Hby by done. apply Hrest. by right.
  - set_solver.
  - set_solver.
  - intros c Hc [Hv|Hv%list_elem_of_singleton]%elem_of_app.
    + destruct (Hkept c Hc Hv) as [?|?]; [set_solver|]. right. by apply droppable_app.
    + destruct (Hdrop c Hc Hv) as [?|[Hb Hd]]; [set_solver|].
      right. split; [done|]. rewrite filter_app, length_app. lia.
  - intros Hr q [Hq| ->%list_elem_of_singleton]%elem_of_app; destruct (Hreas Hr) as [Hr0 Hlen];
      rewrite filter_app, length_app.
    + rewrite (filter_none _ more). 2: { intros c Hc <-. apply Hmore in Hc as [<- _]. done. }
      simpl. rewrite Nat.add_0_r. by apply Hcount.
    + rewrite (filter_none _ (ps_next st)), (filter_all _ more); [done| |].
      * intros c Hc. by apply Hmore.
      * intros c Hc <-. by apply Hp, Hvis.
Qed.

(** Unknown profile: its Slots stay as they are. *)
Lemma plan_unknown visited p rest st :
  plan_inv visited (p :: rest) st -> p ∉ visited ->
  plan_inv (visited ++ [p]) rest
    (mkPlanState (ps_byProfile st) (ps_usedIDs st) (ps_maxID st)
       (ps_next st ++ default [] (ps_byProfile st !! p))
       (ps_reasons st ++ ["unknown slot profile " +:+ quote p])).
Proof using Hcounts.
  intros Hinv Hp. pose proof Hinv as [Hids Hrest _ _ _ _].
  assert (Hex : default [] (ps_byProfile st !! p) = default [] (groupByProfile current !! p))
    by (apply Hrest; left).
  eapply plan_inv_step; [exact Hinv|done|simpl; reflexivity|simpl| | | |]; simpl.
  - rewrite pend_cons, app_assoc in Hids. eapply id_inv_room; [exact Hids|].
    simpl. pose proof (Hcounts p). pose proof (total_desired_nonneg rest). lia.
  - done.
  - intros c. rewrite Hex, group_elem. naive_solver.
  - intros c Hc Hcp. left. by rewrite Hex, group_elem.
  - by intros [? ?]%app_nil.
Qed.

(** Scale-down: the lowest [desired] Slots and the busy ones stay. *)
Lemma plan_down visited p rest st :
  plan_inv visited (p :: rest) st -> p ∉ visited -> p ∉ rest ->
  let existing := default [] (ps_byProfile st !! p) in
  let low := take (Z.to_nat (desired p)) existing in
  let high := drop (Z.to_nat (desired p)) existing in
  let kept := filter (fun c => default false (busy !! cfg_ID c) = true) high in
  let dropped := filter (fun c => default false (busy !! cfg_ID c) = false) high in
  (desired p < Z.of_nat (length existing))%Z ->
  forall l, plan_inv (visited ++ [p]) rest
    (mkPlanState (<[p := l]> (ps_byProfile st))
       (ps_usedIDs st ∖ list_to_set (ids dropped)) (ps_maxID st)
       (ps_next st ++ sort_configs (low ++ kept))
       (ps_reasons st ++ ((fun c => "slot " +:+ itoa (cfg_ID c) +:+ " (" +:+ p +:+ ") is busy")
                          <$> kept))).
Proof using Hcounts.
  intros Hinv Hp Hpr existing low high kept dropped Hlen l.
  pose proof Hinv as [Hids Hrest _ _ _ _].
  assert (Hex : existing = default [] (groupByProfile current !! p)) by (apply Hrest; left).
  assert (Hsplit : existing ≡ₚ (low ++ kept) ++ dropped).
  { rewrite <- (take_drop (Z.to_nat (desired p)) existing) at 1. rewrite <- app_assoc.
    apply Permutation_app_head. subst kept dropped. fold high.
    rewrite <- (filter_app_complement (fun c => default false (busy !! cfg_ID c) = true) high) at 1.
    apply Permutation_app_head, reflexive_eq, list_filter_iff.
    intros c. by destruct (default false _). }
  assert (Hheld : ps_next st ++ pend st (p :: rest) ≡ₚ
            (ps_next st ++ sort_configs (low ++ kept)) ++ pend st rest ++ dropped).
  { rewrite pend_cons. fold existing. rewrite Hsplit, sort_configs_Permutation.
    solve_Permutation. }
  eapply plan_inv_step; [exact Hinv|done|simpl; reflexivity|simpl| | | |]; simpl.
  - rewrite pend_insert by done. eapply id_inv_Permutation in Hids; [|exact Hheld].
    rewrite app_assoc in Hids. apply id_inv_drop in Hids.
    eapply id_inv_room; [exact Hids|].
    simpl. pose proof (Hcounts p). pose proof (total_desired_nonneg rest). lia.
  - intros q Hq. rewrite lookup_insert_ne; [done|]. by intros ->.
  - intros c. rewrite elem_of_sort_configs. intros Hc.
    assert (Hc' : c ∈ existing) by (rewrite Hsplit; set_solver).
    rewrite Hex, group_elem in Hc'. naive_solver.
  - intros c Hc Hcp. assert (Hc' : c ∈ existing) by (by rewrite Hex, group_elem).
    pose proof Hc' as Hc''. rewrite Hsplit in Hc''. apply elem_of_app in Hc'' as [Hk|Hd].
    { left. by rewrite elem_of_sort_configs. }
    right. subst dropped. apply list_elem_of_filter in Hd as [Hb Hd].
    split; [unfold is_busy; by rewrite Hb|].
    rewrite sort_configs_Permutation, filter_app, length_app, (filter_all _ low).
    + subst low. rewrite length_take. rewrite Hcp. pose proof (Hcounts p). lia.
    + intros c' Hlow.
      assert (He : existing = sort_configs (filter (fun c => cfg_Profile c = p) current))
        by (by rewrite Hex, groupByProfile_lookup).
      split.
      * assert (Hin : c' ∈ existing) by (rewrite Hsplit; set_solver).
        rewrite Hex, group_elem in Hin. naive_solver.
      * eapply (sorted_take_drop_lt (Z.to_nat (desired p)) existing); try done.
        { rewrite He. apply sort_configs_sorted. }
        destruct Hids as [_ Hnd _ _ _]. rewrite fmap_app in Hnd.
        apply NoDup_app in Hnd as (_ & _ & Hnd). rewrite pend_cons, fmap_app in Hnd.
        by apply NoDup_app in Hnd as [? _].
  - intros [Hr Hk]%app_nil. apply fmap_nil_inv in Hk. split; [done|].
    rewrite sort_configs_Permutation, Hk, app_nil_r. subst low. rewrite length_take.
    pose proof (Hcounts p). lia.
Qed.

(** Scale-up: everything stays and the missing Slots are added. *)
Lemma plan_up visited p rest st :
  plan_inv visited (p :: rest) st -> p ∉ visited -> p ∉ rest ->
  let existing := default [] (ps_byProfile st !! p) in
  (Z.of_nat (length existing) <= desired p)%Z ->
  (profiles !! p = None -> desired p = 0%Z) ->
  exists next' used' maxID',
    add_missing (Z.to_nat (desired p - Z.of_nat (length existing))) p
      (default no_resources (profiles !! p))
      (ps_next st ++ existing, ps_usedIDs st, ps_maxID st) = Some (next', used', maxID') /\
    plan_inv (visited ++ [p]) rest
      (mkPlanState (ps_byProfile st) used' maxID' next' (ps_reasons st)).
Proof using Hcounts.
  intros Hinv Hp Hpr existing Hlen Hknown.
  pose proof Hinv as [Hids Hrest _ _ _ _].
  assert (Hex : existing = default [] (groupByProfile current !! p)) by (apply Hrest; left).
  rewrite pend_cons, app_assoc in Hids. fold existing in Hids.
  pose proof (Hcounts p). pose proof (total_desired_nonneg rest).
  destruct (add_missing_spec (Z.to_nat (desired p - Z.of_nat (length existing))) p
              (default no_resources (profiles !! p)) (ps_next st ++ existing) (pend st rest)
              (ps_usedIDs st) (ps_maxID st) (total_desired rest))
    as (new & used' & maxID' & Hadd & Hids' & Hnew & Hall).
  { eapply id_inv_room; [exact Hids|]. simpl. lia. }
  { done. }
  eexists _, _, _. split; [exact Hadd|].
  eapply (plan_inv_step _ _ _ _ _ (existing ++ new)); [exact Hinv|done|simpl|simpl| | | |]; simpl.
  - by rewrite app_assoc.
  - done.
  - done.
  - intros c [Hc|Hc]%elem_of_app.
    + rewrite Hex, group_elem in Hc. naive_solver.
    + pose proof (Hall c Hc) as (Hcp & Hr & Hfresh & Hid0). split; [done|]. right.
      unfold is_new. rewrite Hcp.
      assert (0 < desired p)%Z. { destruct new; [set_solver|]. simpl in Hnew. lia. }
      destruct (profiles !! p) as [r|] eqn:Hr'; [|specialize (Hknown eq_refl); lia].
      exists r. by rewrite Hr.
  - intros c Hc Hcp. left. apply elem_of_app. left. by rewrite Hex, group_elem.
  - intros Hr. split; [done|]. rewrite length_app. lia.
Qed.

(** One iteration never panics and keeps the invariant. *)
Lemma plan_profile_inv visited p rest st :
  plan_inv visited (p :: rest) st -> p ∉ visited -> p ∉ rest ->
  exists st', plan_profile counts profiles busy st p = Some st' /\
    plan_inv (visited ++ [p]) rest st'.
Proof using Hcounts.
  intros Hinv Hp Hpr. pose proof Hinv as [Hids _ _ _ _ _].
  destruct st as [byProfile used maxID next reasons]. cbn [plan_profile].
  fold (desired p). set (existing := default [] (byProfile !! p)).
  assert (Hlen : wrap32 (Z.of_nat (length existing)) = Z.of_nat (length existing)).
  { apply wrap32_length. destruct Hids as [_ _ _ _ [Hr Hroom]].
    rewrite pend_cons, !length_app in Hroom. simpl in Hroom. fold existing in Hroom.
    pose proof (Hcounts p). pose proof (total_desired_nonneg rest). simpl in *. lia. }
  rewrite Hlen. destruct (_ && _) eqn:Hunk.
  { eexists. split; [reflexivity|]. by apply (plan_unknown visited p rest _ Hinv). }
  destruct (Z.gtb_spec (Z.of_nat (length existing)) (desired p)) as [Hgt|Hle].
  - destruct (Z.ltb_spec (desired p) 0); [pose proof (Hcounts p); lia|].
    rewrite foldl_drop_extra. eexists. split; [reflexivity|].
    by apply (plan_down visited p rest _ Hinv).
  - rewrite wrap32_id.
    2: { pose proof (Hcounts p). unfold in_int32, int32_min, int32_max in *. lia. }
    destruct (plan_up visited p rest _ Hinv Hp Hpr) as (next' & used' & maxID' & Hadd & Hinv').
    { done. }
    { intros Hn. rewrite bool_decide_true in Hunk by done. simpl in Hunk.
      pose proof (Hcounts p). rewrite Z.gtb_ltb in Hunk. apply Z.ltb_ge in Hunk. lia. }
    simpl in Hadd. fold existing in Hadd. rewrite Hadd. eexists. split; [reflexivity|]. done.
Qed.

Lemma plan_profiles_inv rest : forall visited st,
  plan_inv visited rest st -> NoDup (visited ++ rest) ->
  exists st', plan_profiles counts profiles busy st rest = Some st' /\
    plan_inv (visited ++ rest) [] st'.
Proof using Hcounts.
  induction rest as [|p rest IH]; intros visited st Hinv Hnd.
  { exists st. by rewrite app_nil_r. }
  pose proof Hnd as Hnd'. apply NoDup_app in Hnd' as (_ & Hdis & Hnd2).
  apply NoDup_cons in Hnd2 as [Hpr _].
  destruct (plan_profile_inv visited p rest st Hinv) as (st1 & Hstep & Hinv1); [|done|].
  { intros Hp. apply (Hdis p Hp). left. }
  cbn. rewrite Hstep. cbn.
  destruct (IH (visited ++ [p]) st1 Hinv1) as (st2 & Hrun & Hinv2).
  { by rewrite <- app_assoc. }
  exists st2. by rewrite Hrun, <- app_assoc in *.
Qed.
End Loop.

Lemma max_id_spec current : forall m0, (-1 <= m0 <= int32_max)%Z ->
  (forall c, c ∈ current -> (cfg_ID c <= int32_max)%Z) ->
  let m := foldl (fun maxID cfg => if (cfg_ID cfg >? maxID)%Z then cfg_ID cfg else maxID) m0 current in
  (m0 <= m <= int32_max)%Z /\ forall c, c ∈ current -> (cfg_ID c <= m)%Z.
Proof.
  induction current as [|c l IH]; intros m0 Hm0 Hb; simpl; [split; [lia|set_solver]|].
  assert (Hbl : forall c', c' ∈ l -> (cfg_ID c' <= int32_max)%Z) by set_solver.
  assert (Hc : (cfg_ID c <= int32_max)%Z) by set_solver.
  destruct (Z.gtb_spec (cfg_ID c) m0).
  - destruct (IH (cfg_ID c)) as [? Hall]; [lia|done|].
    split; [lia|]. intros c' [->|?]%elem_of_cons; [lia|by apply Hall].
  - destruct (IH m0) as [? Hall]; [lia|done|].
    split; [lia|]. intros c' [->|?]%elem_of_cons; [lia|by apply Hall].
Qed.

(** ** The plan as a whole *)

(** Inputs the Pool controller builds: distinct int32 ids, non-negative counts, every counted
    profile in the template order, and fewer than 2^31 - 1 Slots recorded and wanted in all. *)
Record plan_input (current : list Config) (counts : gmap string Z) (order : list string) : Prop := {
  in_nodup : NoDup (ids current);
  in_range : forall c, c ∈ current -> (cfg_ID c <= int32_max)%Z;
  in_counts : forall p, (0 <= desired counts p <= int32_max)%Z;
  in_order : forall p, is_Some (counts !! p) -> p ∈ order;
  in_room : (Z.of_nat (length current) +
    total_desired counts (orderedProfiles order counts (groupByProfile current)) < int32_max)%Z;
}.

Lemma pend_initial current order counts :
  plan_input current counts order ->
  pend (initial_plan_state current)
    (orderedProfiles order counts (groupByProfile current)) ≡ₚ current.
Proof.
  intros Hin. pose proof (orderedProfiles_spec order counts (groupByProfile current)) as [Hel Hnd].
  specialize (Hnd (in_order _ _ _ Hin)).
  etransitivity; [|apply (bind_filter_Permutation cfg_Profile _ current Hnd)].
  - unfold pend. simpl. clear Hel Hnd Hin.
    induction (orderedProfiles _ _ _) as [|p names IH]; [done|].
    cbn. rewrite IH. apply Permutation_app_tail.
    by rewrite groupByProfile_lookup, sort_configs_Permutation.
  - intros c Hc. apply Hel. right. right. apply groupByProfile_dom. eauto.
Qed.

Lemma initial_plan_inv current counts profiles busy order :
  plan_input current counts order ->
  plan_inv current counts profiles busy [] (orderedProfiles order counts (groupByProfile current))
    (initial_plan_state current).
Proof.
  intros Hin. pose proof (pend_initial current order counts Hin) as Hp.
  destruct Hin as [Hnd Hr Hc Ho Hroom].
  destruct (max_id_spec current (-1)) as [Hm Hmax]; [unfold int32_max; lia|done|].
  split; simpl; try set_solver.
  eapply id_inv_Permutation; [symmetry; exact Hp|].
  split; simpl; try done.
  - intros u [c [-> Hc']]%elem_of_list_to_set%list_elem_of_fmap. by apply Hmax.
  - split; [|done]. by apply total_desired_nonneg.
Qed.

(** Everything the loop invariant says of the final state, for the returned plan. *)
Lemma PlanTopology_spec current counts profiles busy order :
  plan_input current counts order ->
  exists plan, PlanTopology current counts profiles busy order = Some plan /\
    NoDup (ids (plan_Slots plan)) /\
    StronglySorted cfg_le (plan_Slots plan) /\
    (forall c, c ∈ plan_Slots plan -> (cfg_ID c <= int32_max)%Z) /\
    (forall c, c ∈ plan_Slots plan -> c ∈ current \/ is_new counts profiles c) /\
    (forall c, c ∈ current -> c ∈ plan_Slots plan \/ droppable counts busy c (plan_Slots plan)) /\
    (plan_Blocked plan = false -> forall p,
      Z.of_nat (length (filter (fun c => cfg_Profile c = p) (plan_Slots plan))) = desired counts p).
Proof.
  intros Hin. pose proof (initial_plan_inv current counts profiles busy order Hin) as H0.
  pose proof (orderedProfiles_spec order counts (groupByProfile current)) as [Hel Hnd].
  specialize (Hnd (in_order _ _ _ Hin)).
  destruct (plan_profiles_inv _ _ _ _ (in_counts _ _ _ Hin) _ _ _ H0 Hnd) as (st & Hrun & Hinv).
  unfold PlanTopology. cbn [ps_byProfile initial_plan_state] in *. rewrite Hrun. cbn.
  eexists. split; [reflexivity|]. cbn.
  destruct Hinv as [Hids _ Hvis Horig Hkept Hcount]. rewrite app_nil_l in *.
  unfold pend in Hids. cbn in Hids. rewrite app_nil_r in Hids.
  destruct Hids as [Hu Hndi Hmax Hrange _].
  assert (Hvisited : forall c, c ∈ current -> cfg_Profile c ∈ orderedProfiles order counts (groupByProfile current)).
  { intros c Hc. apply Hel. right. right. apply groupByProfile_dom. eauto. }
  split_and!.
  - by rewrite sort_configs_Permutation.
  - apply sort_configs_sorted.
  - intros c. rewrite elem_of_sort_configs. intros Hc.
    assert (cfg_ID c <= ps_maxID st)%Z; [|lia].
    apply Hmax. rewrite Hu. apply elem_of_list_to_set, list_elem_of_fmap. eauto.
  - intros c. rewrite elem_of_sort_configs. apply Horig.
  - intros c Hc. rewrite elem_of_sort_configs. destruct (Hkept c Hc (Hvisited c Hc)) as [?|[Hb Hd]];
      [by left|right]. split; [done|]. by rewrite sort_configs_Permutation.
  - intros Hb p. apply bool_decide_eq_false, dec_stable in Hb.
    rewrite sort_configs_Permutation.
    destruct (decide (p ∈ orderedProfiles order counts (groupByProfile current))) as [Hp|Hp];
      [by apply Hcount|].
    rewrite filter_none. 2: { intros c Hc <-. by apply Hp, Hvis. }
    unfold desired. destruct (counts !! p) eqn:Hcp; [|done].
    destruct Hp. apply Hel. right. left. by rewrite Hcp.
Qed.

(** ** Planning again *)

Lemma NoDup_ids_inj (l : list Config) c1 c2 :
  NoDup (ids l) -> c1 ∈ l -> c2 ∈ l -> cfg_ID c1 = cfg_ID c2 -> c1 = c2.
Proof.
  intros Hnd H1 H2 Heq. apply list_elem_of_lookup in H1 as [i Hi], H2 as [j Hj].
  assert (i = j) as ->; [|congruence].
  eapply (NoDup_lookup _ _ _ (cfg_ID c1)); [exact Hnd| |];
    rewrite list_lookup_fmap, ?Hi, ?Hj; simpl; congruence.
Qed.

Lemma sorted_ids_unique (l1 l2 : list Config) :
  NoDup (ids l1) -> StronglySorted cfg_le l1 -> StronglySorted cfg_le l2 -> l1 ≡ₚ l2 -> l1 = l2.
Proof.
  intros Hnd Hs1 Hs2 Hp. apply (StronglySorted_unique_strong cfg_le); try done.
  intros x y Hx Hy H1 H2. apply (NoDup_ids_inj l1); [done|done|by rewrite Hp|].
  unfold cfg_le in *. lia.
Qed.

(** A layout that already has the wanted count of every profile is left as it is. *)
Lemma plan_profiles_stable counts profiles busy names : forall st,
  (forall p, (0 <= desired counts p <= int32_max)%Z) ->
  (forall p, p ∈ names ->
    Z.of_nat (length (default [] (ps_byProfile st !! p))) = desired counts p) ->
  exists reasons, plan_profiles counts profiles busy st names =
    Some (mkPlanState (ps_byProfile st) (ps_usedIDs st) (ps_maxID st)
            (ps_next st ++ pend st names) reasons).
Proof.
  induction names as [|p names IH]; intros st Hc Hlen.
  { exists (ps_reasons st). unfold pend. cbn. rewrite app_nil_r. by destruct st. }
  assert (Hp : exists rs, plan_profile counts profiles busy st p =
    Some (mkPlanState (ps_byProfile st) (ps_usedIDs st) (ps_maxID st)
            (ps_next st ++ default [] (ps_byProfile st !! p)) rs)).
  { specialize (Hlen p ltac:(left)). specialize (Hc p).
    destruct st as [byP used maxID next reasons]. cbn [ps_byProfile] in Hlen.
    cbn [plan_profile ps_byProfile ps_usedIDs ps_maxID ps_next]. fold (desired counts p).
    rewrite wrap32_length, Hlen by lia. destruct (_ && _); [by eexists|].
    destruct (Z.gtb_spec (desired counts p) (desired counts p)); [lia|].
    rewrite Z.sub_diag. simpl. by eexists. }
  destruct Hp as [rs Hp]. cbn [plan_profiles]. rewrite Hp. cbn [mbind option_bind].
  destruct (IH (mkPlanState (ps_byProfile st) (ps_usedIDs st) (ps_maxID st)
                  (ps_next st ++ default [] (ps_byProfile st !! p)) rs) Hc) as [rs' Hrun].
  { intros q Hq. apply Hlen. by right. }
  exists rs'. rewrite Hrun, pend_cons. cbn. by rewrite <- app_assoc.
Qed.

(** ** Properties of the planner *)

(** C18. [nextFreeID] terminates: one iteration more than there are used ids is enough for its
    loop, and it returns the least id that is not used, raising the maximum only to make room
    for it, without overflow. *)
Theorem next_free_id_terminates (used : gset Z) maxID
  (Hused : forall u, u ∈ used -> (u <= maxID)%Z) (Hmax : (-1 <= maxID <= int32_max)%Z)
  (Hsize : (Z.of_nat (size used) < int32_max)%Z) :
  exists id max', nextFreeID_loop (S (size used)) used maxID 0 = Some (id, max') /\
    (0 <= id)%Z /\ id ∉ used /\ (forall j, (0 <= j < id)%Z -> j ∈ used) /\
    max' = Z.max maxID id /\ (max' <= int32_max)%Z.
Proof.
  destruct (nextFreeID_spec used maxID Hused Hmax Hsize) as (id & max' & Hr & Hid & Hm & Hfree & Hleast).
  exists id, max'. apply nextFreeID_loop_max in Hr as Hor. split_and!; (done || lia).
Qed.

(** C17. Given a recorded layout with distinct ids that do not exceed the largest int32, counts from 0
    to that number, a template order that covers the counted profiles, and fewer than 2^31 - 1 Slots,
    the recorded and the wanted ones taken together, [PlanTopology] returns a plan (it does not panic
    or loop), its Slots have pairwise distinct ids, none above the largest int32, and they are sorted
    by id. Without that room, an id could wrap around. *)
Theorem plan_ids_unique current counts profiles busy order
  (Hin : plan_input current counts order) :
  exists plan, PlanTopology current counts profiles busy order = Some plan /\
    NoDup (cfg_ID <$> plan_Slots plan) /\ StronglySorted cfg_le (plan_Slots plan) /\
    forall c, c ∈ plan_Slots plan -> (cfg_ID c <= int32_max)%Z.
Proof.
  destruct (PlanTopology_spec current counts profiles busy order Hin) as (plan & ? & ? & ? & ? & _).
  eauto.
Qed.

(** A Slot that is running something is never dropped, and a free one is dropped only
    when the wanted number of Slots of its profile survives below its id: scale-down removes
    the highest free ids first. *)
Theorem plan_drops_highest_free current counts profiles busy order plan c
  (Hin : plan_input current counts order)
  (Hplan : PlanTopology current counts profiles busy order = Some plan)
  (Hc : c ∈ current) (Hgone : c ∉ plan_Slots plan) :
  default false (busy !! cfg_ID c) = false /\
  (desired counts (cfg_Profile c) <=
    Z.of_nat (length (filter (fun c' => cfg_Profile c' = cfg_Profile c /\
                                        (cfg_ID c' < cfg_ID c)%Z) (plan_Slots plan))))%Z.
Proof.
  destruct (PlanTopology_spec current counts profiles busy order Hin)
    as (plan' & Hplan' & _ & _ & _ & _ & Hkept & _). simplify_eq.
  destruct (Hkept c Hc) as [?|[Hb Hd]]; [done|]. split; [|done].
  unfold is_busy in Hb. by destruct (default false _).
Qed.

(** Every Slot of the plan either is an existing Slot, unchanged, or is a new Slot of a
    known profile that the spec asks for, with that profile's resources and a non-negative
    id. *)
Theorem plan_slots_origin current counts profiles busy order plan c
  (Hin : plan_input current counts order)
  (Hplan : PlanTopology current counts profiles busy order = Some plan)
  (Hc : c ∈ plan_Slots plan) :
  c ∈ current \/
  exists r, profiles !! cfg_Profile c = Some r /\ cfg_Resources c = cloneResources r /\
    (0 < default 0 (counts !! cfg_Profile c))%Z /\ (0 <= cfg_ID c)%Z.
Proof.
  destruct (PlanTopology_spec current counts profiles busy order Hin)
    as (plan' & Hplan' & _ & _ & _ & Horig & _). simplify_eq. by apply Horig.
Qed.

(** A plan that is not blocked has, for every profile, exactly the number of Slots the
    counts ask for, and none of a profile they do not name. *)
Theorem plan_unblocked_exact current counts profiles busy order plan p
  (Hin : plan_input current counts order)
  (Hplan : PlanTopology current counts profiles busy order = Some plan)
  (Hb : plan_Blocked plan = false) :
  Z.of_nat (length (filter (fun c => cfg_Profile c = p) (plan_Slots plan))) =
    default 0%Z (counts !! p).
Proof.
  destruct (PlanTopology_spec current counts profiles busy order Hin)
    as (plan' & Hplan' & _ & _ & _ & _ & _ & Hcount). simplify_eq. by apply Hcount.
Qed.

(** Planning converges: planning again from an unblocked plan, whatever has become busy
    since, returns the same Slots. *)
Theorem plan_idempotent current counts profiles busy busy' order plan
  (Hin : plan_input current counts order)
  (Hplan : PlanTopology current counts profiles busy order = Some plan)
  (Hb : plan_Blocked plan = false) :
  exists plan', PlanTopology (plan_Slots plan) counts profiles busy' order = Some plan' /\
    plan_Slots plan' = plan_Slots plan.
Proof.
  destruct (PlanTopology_spec current counts profiles busy order Hin)
    as (plan0 & Hplan' & Hnd & Hs & Hr & _ & _ & Hcount).
  assert (plan0 = plan) as -> by congruence.
  pose proof (orderedProfiles_spec order counts (groupByProfile (plan_Slots plan))) as [Hel Hndn].
  specialize (Hndn (in_order _ _ _ Hin)).
  assert (Hgroup : forall p, default [] (groupByProfile (plan_Slots plan) !! p) ≡ₚ
            filter (fun c => cfg_Profile c = p) (plan_Slots plan)).
  { intros p. by rewrite groupByProfile_lookup, sort_configs_Permutation. }
  destruct (plan_profiles_stable counts profiles busy'
              (orderedProfiles order counts (groupByProfile (plan_Slots plan)))
              (initial_plan_state (plan_Slots plan))) as [rs Hrun].
  { apply (in_counts _ _ _ Hin). }
  { intros p _. cbn. by rewrite Hgroup, Hcount. }
  unfold PlanTopology. cbn [ps_byProfile initial_plan_state] in *. rewrite Hrun.
  cbn [mbind option_bind]. eexists. split; [reflexivity|]. cbn [plan_Slots ps_next app]. symmetry.
  apply sorted_ids_unique; [done|done|apply sort_configs_sorted|].
  rewrite sort_configs_Permutation. symmetry.
  etransitivity; [|apply (bind_filter_Permutation cfg_Profile _ _ Hndn)].
  - unfold pend. cbn. clear Hrun Hel Hndn.
    induction (orderedProfiles _ _ _) as [|p names IH]; [done|].
    cbn. by rewrite IH, Hgroup.
  - intros c Hc. apply Hel. right. right. apply groupByProfile_dom. eauto.
Qed.

(** [KeepExistingSlots] keeps exactly the proposed Slots whose id exists, in order, and
    [CountNewSlots] counts the others: their numbers add up to the proposal, and the
    headroom check is skipped exactly when nothing would be cut. *)
Theorem keep_existing_complement (current proposed : list Config) :
  length (KeepExistingSlots current proposed) + CountNewSlots current proposed =
    length proposed /\
  (CountNewSlots current proposed = 0 <-> KeepExistingSlots current proposed = proposed) /\
  forall c, c ∈ KeepExistingSlots current proposed <->
    c ∈ proposed /\ exists c', c' ∈ current /\ cfg_ID c' = cfg_ID c.
Proof.
  unfold KeepExistingSlots, CountNewSlots.
  set (E := list_to_set (cfg_ID <$> current) : gset Z).
  assert (Hsum : length (filter (fun c => cfg_ID c ∈ E) proposed) +
                 length (filter (fun c => cfg_ID c ∉ E) proposed) = length proposed).
  { rewrite <- length_app. apply Permutation_length, filter_app_complement. }
  split_and!; [done| |].
  - split; intros H.
    + apply filter_all. intros c Hc. apply dec_stable. intros Hn.
      apply nil_length_inv in H. apply (not_elem_of_nil c). rewrite <- H.
      by apply list_elem_of_filter.
    + rewrite H in Hsum. lia.
  - intros c. rewrite list_elem_of_filter. unfold E.
    rewrite elem_of_list_to_set, list_elem_of_fmap. naive_solver.
Qed.

(** The hypotheses of [plan_input], decided by evaluation. *)
Lemma plan_input_intro current counts order :
  bool_decide (NoDup (ids current)) = true ->
  forallb (fun c => cfg_ID c <=? int32_max)%Z current = true ->
  forallb (fun '(p, n) => (0 <=? n) && (n <=? int32_max) && bool_decide (p ∈ order))%Z
    (map_to_list counts) = true ->
  (Z.of_nat (length current) +
    total_desired counts (orderedProfiles order counts (groupByProfile current)) <? int32_max)%Z
    = true ->
  plan_input current counts order.
Proof.
  intros H1 H2 H3 H4. rewrite forallb_forall in H2, H3.
  assert (Hc : forall p n, counts !! p = Some n -> (0 <= n <= int32_max)%Z /\ p ∈ order).
  { intros p n Hp. specialize (H3 (p, n)).
    rewrite <- list_elem_of_In, elem_of_map_to_list in H3. specialize (H3 Hp). simpl in H3.
    apply andb_true_iff in H3 as [[?%Z.leb_le ?%Z.leb_le]%andb_true_iff ?%bool_decide_eq_true].
    done. }
  split.
  - by apply bool_decide_eq_true in H1.
  - intros c Hin. apply Z.leb_le, H2. by apply list_elem_of_In.
  - intros p. unfold desired. destruct (counts !! p) eqn:Hp; simpl.
    + by apply (Hc p z).
    + unfold int32_max. lia.
  - intros p [n Hp]. by apply (Hc p n).
  - by apply Z.ltb_lt.
Qed.
End Planner.

(** ** Concrete inputs *)

Module TopologyWitness.
Import TopologyTests.
#[local] Existing Instance ZQuantity.

Definition current := [c 0 "small"; c 1 "small"; c 2 "large"].
Definition counts : gmap string Z := {["small" := 1%Z; "large" := 2%Z]}.
Definition order := ["small"; "large"].
Definition planned : TopologyPlan := mkPlan [c 0 "small"; c 1 "large"; c 2 "large"] false "".

Lemma input_ok : plan_input current counts order.
Proof. by apply plan_input_intro; vm_compute. Qed.

Lemma next_free_id_terminates_witness :
  exists id max', nextFreeID_loop (S (size ({[0; 2]}%Z : gset Z))) {[0; 2]}%Z 2 0 = Some (id, max') /\
    (0 <= id)%Z /\ id ∉ ({[0; 2]} : gset Z)%Z /\ (forall j, (0 <= j < id)%Z -> j ∈ ({[0; 2]} : gset Z)%Z) /\
    max' = Z.max 2 id /\ (max' <= int32_max)%Z.
Proof.
  apply (next_free_id_terminates {[0; 2]}%Z 2); [set_solver by lia|by unfold int32_max; lia|by vm_compute].
Defined.

Lemma plan_ids_unique_witness :
  exists plan, PlanTopology current counts profs ∅ order = Some plan /\
    NoDup (cfg_ID <$> plan_Slots plan) /\ StronglySorted cfg_le (plan_Slots plan) /\
    forall c, c ∈ plan_Slots plan -> (cfg_ID c <= int32_max)%Z.
Proof. exact (plan_ids_unique current counts profs ∅ order input_ok). Defined.

Lemma plan_drops_highest_free_witness :
  default false ((∅ : gmap Z bool) !! 1%Z) = false /\
  (desired counts "small" <=
    Z.of_nat (length (filter (fun c' => cfg_Profile c' = "small" /\ (cfg_ID c' < 1)%Z)
                        (plan_Slots planned))))%Z.
Proof.
  apply (plan_drops_highest_free current counts profs ∅ order planned (c 1 "small")).
  - exact input_ok.
  - vm_compute. reflexivity.
  - unfold current. set_solver.
  - unfold planned, c. cbn. rewrite !elem_of_cons. intros [?|[?|[?|?]]]; set_solver.
Defined.

Lemma plan_slots_origin_witness :
  c 1 "large" ∈ current \/
  exists r, profs !! "large" = Some r /\ no_resources = cloneResources r /\
    (0 < default 0 (counts !! "large"))%Z /\ (0 <= 1)%Z.
Proof.
  apply (plan_slots_origin current counts profs ∅ order planned (c 1 "large")).
  - exact input_ok.
  - vm_compute. reflexivity.
  - set_solver.
Defined.

Lemma plan_unblocked_exact_witness :
  Z.of_nat (length (filter (fun c => cfg_Profile c = "large") (plan_Slots planned))) = 2%Z.
Proof.
  apply (plan_unblocked_exact current counts profs ∅ order planned "large").
  - exact input_ok.
  - vm_compute. reflexivity.
  - reflexivity.
Defined.

Lemma plan_idempotent_witness :
  exists plan', PlanTopology (plan_Slots planned) counts profs {[0%Z := true]} order = Some plan' /\
    plan_Slots plan' = plan_Slots planned.
Proof.
  apply (plan_idempotent current counts profs ∅ {[0%Z := true]} order planned).
  - exact input_ok.
  - vm_compute. reflexivity.
  - reflexivity.
Defined.

(** Without the template order, a profile that is both counted and present is planned
    twice: the result holds the same Slot two times (the extra loops of [orderedProfiles]
    do not consult each other). *)
Theorem plan_duplicates_without_order :
  exists plan, PlanTopology [c 0 "small"] {["small" := 1%Z]} profs ∅ [] = Some plan /\
    plan_Slots plan = [c 0 "small"; c 0 "small"].
Proof. eexists. split; vm_compute; reflexivity. Qed.
End TopologyWitness.
