(* ===== verification/Scheduler.v ===== *)
(** * The Slot Scheduler (internal/scheduler)

    The in-memory scheduler behind the [Scheduler] interface: the Workers the Pool controller
    reports, the assignment of each Sandbox, and the strategies that choose among free Slots.
    Each operation runs under the scheduler's lock, so it is one atomic function on the state.
    A strategy is a type class, as it is an interface in the code; what [Assign] needs of it
    is [StrategyLaws], proved for the three strategies of the repository. *)

From S2P Require Import Prelude Slot.

(* go: internal/scheduler/types.go 13-13 ErrNoCapacity *)
Definition ErrNoCapacity : error := Sentinel "no available slot".
(* go: internal/scheduler/types.go 14-14 ErrAssignmentConflict *)
Definition ErrAssignmentConflict : error := Sentinel "assignment conflicts with slot ownership".
(* go: internal/scheduler/types.go 15-15 ErrInvalidSlotProfile *)
Definition ErrInvalidSlotProfile : error := Sentinel "invalid slot profile".

(* go: internal/scheduler/types.go 19-23 WorkerKey *)
Record WorkerKey := mkWorkerKey {
  wk_Namespace : string;
  wk_Pool : string;
  wk_Name : string;
}.

#[export] Instance WorkerKey_eq_dec : EqDecision WorkerKey.
Proof. solve_decision. Defined.
#[export] Instance WorkerKey_countable : Countable WorkerKey.
Proof.
  refine (inj_countable' (fun k => (wk_Namespace k, wk_Pool k, wk_Name k))
            (fun '(ns, pool, name) => mkWorkerKey ns pool name) _).
  by intros [].
Defined.

(* go: internal/scheduler/types.go 25-31 WorkerState *)
Record WorkerState := mkWorkerState {
  ws_Key : WorkerKey;
  ws_Healthy : bool;
  ws_LastObserved : Z;
  ws_Slots : gmap Z Info;
}.

(* go: internal/scheduler/types.go 33-41 Assignment *)
Record Assignment := mkAssignment {
  as_SandboxUID : UID;
  as_Namespace : string;
  as_Name : string;
  as_Worker : WorkerKey;
  as_SlotID : Z;
  as_SlotProfile : string;
}.

#[export] Instance Assignment_eq_dec : EqDecision Assignment.
Proof. solve_decision. Defined.

(* go: internal/scheduler/types.go 43-49 AssignRequest *)
Record AssignRequest := mkAssignRequest {
  rq_SandboxUID : UID;
  rq_Namespace : string;
  rq_Name : string;
  rq_Pool : string;
  rq_SlotProfile : string;
}.

(* go: internal/scheduler/types.go 51-60 Candidate *)
Record Candidate := mkCandidate {
  cd_Worker : WorkerKey;
  cd_SlotID : Z;
  cd_Profile : string;
  cd_FreeSlots : Z;
  cd_BusySlots : Z;
}.

#[export] Instance Candidate_eq_dec : EqDecision Candidate.
Proof. solve_decision. Defined.

(** ** Strategies *)

(** [G] is the strategy's own state (the generator of [RandomStrategy]). *)
(* go: internal/scheduler/types.go 62-66 Strategy *)
Class Strategy (G : Type) := {
  strategy_Name : string;
  Select : G -> AssignRequest -> list Candidate -> G * result Candidate;
}.

(** What the scheduler relies on: a strategy picks one of the candidates it is given. *)
Class StrategyLaws (G : Type) `{Strategy G} : Prop := {
  select_some g req cands : cands <> [] ->
    exists g' c, Select g req cands = (g', Ok c) /\ c ∈ cands;
  select_none g req : Select g req [] = (g, Err ErrNoCapacity);
}.

(* go: internal/scheduler/stable.go 5-16 StableStrategy.Select *)
Definition StableStrategy_Select (g : unit) (_ : AssignRequest) (candidates : list Candidate)
    : unit * result Candidate :=
  match candidates with
  | [] => (g, Err ErrNoCapacity)
  | c :: _ => (g, Ok c)
  end.

(** Go's [<] on strings. *)
Definition string_lt (s1 s2 : string) : bool := String.ltb s1 s2.

(* go: internal/scheduler/binpack.go 25-41 binPackBetter *)
Definition binPackBetter (a b : Candidate) : bool :=
  let aBusy := (cd_BusySlots a >? 0)%Z in
  let bBusy := (cd_BusySlots b >? 0)%Z in
  if negb (eqb aBusy bBusy) then aBusy
  else if aBusy && negb (cd_FreeSlots a =? cd_FreeSlots b)%Z then
    (cd_FreeSlots a <? cd_FreeSlots b)%Z
  else if negb (bool_decide (wk_Name (cd_Worker a) = wk_Name (cd_Worker b))) then
    string_lt (wk_Name (cd_Worker a)) (wk_Name (cd_Worker b))
  else (cd_SlotID a <? cd_SlotID b)%Z.

(* go: internal/scheduler/binpack.go 12-23 BinPackStrategy.Select *)
Definition BinPackStrategy_Select (g : unit) (_ : AssignRequest) (candidates : list Candidate)
    : unit * result Candidate :=
  match candidates with
  | [] => (g, Err ErrNoCapacity)
  | first :: rest =>
      (g, Ok (foldl (fun best c => if binPackBetter c best then c else best) first rest))
  end.

(** The two stateless strategies are told apart by a wrapper type for their (unit) state. *)
Inductive StableStrategy := mkStable.
Inductive BinPackStrategy := mkBinPack.

(* go: internal/scheduler/stable.go 7-9 StableStrategy.Name *)
#[export] Instance StableStrategy_strategy : Strategy StableStrategy := {|
  strategy_Name := "stable";
  Select g req cands := (g, (StableStrategy_Select tt req cands).2);
|}.

(* go: internal/scheduler/binpack.go 8-10 BinPackStrategy.Name *)
#[export] Instance BinPackStrategy_strategy : Strategy BinPackStrategy := {|
  strategy_Name := "binpack";
  Select g req cands := (g, (BinPackStrategy_Select tt req cands).2);
|}.

(** [math/rand]: a generator and [Intn], which returns an index below its argument. *)
Class RandSource (G : Type) := {
  Intn : G -> nat -> nat * G;
  Intn_bound g n : 0 < n -> (Intn g n).1 < n;
}.

Inductive RandomStrategy (G : Type) := mkRandom (g : G).
Arguments mkRandom {G} g.

(* go: internal/scheduler/random.go 23-32 RandomStrategy.Select *)
#[export] Instance RandomStrategy_strategy {G} `{RandSource G} : Strategy (RandomStrategy G) := {|
  strategy_Name := "random";
  Select s _ candidates :=
    match candidates with
    | [] => (s, Err ErrNoCapacity)
    | _ =>
        let '(mkRandom g) := s in
        let '(i, g') := Intn g (length candidates) in
        match candidates !! i with
        | Some c => (mkRandom g', Ok c)
        | None => (mkRandom g', Err (Plain "index out of range"))
        end
    end;
|}.

(** ** The scheduler *)

Section Scheduler.
Context {G : Type} `{Strategy G}.

(* go: internal/scheduler/scheduler.go 13-18 memoryScheduler *)
Record memoryScheduler := mkScheduler {
  workers : gmap WorkerKey WorkerState;
  assignments : gmap UID Assignment;
  strategy : G;
}.

Definition set_workers (f : gmap WorkerKey WorkerState -> gmap WorkerKey WorkerState)
    (s : memoryScheduler) : memoryScheduler :=
  mkScheduler (f (workers s)) (assignments s) (strategy s).
Definition set_assignments (f : gmap UID Assignment -> gmap UID Assignment)
    (s : memoryScheduler) : memoryScheduler :=
  mkScheduler (workers s) (f (assignments s)) (strategy s).
Definition set_strategy (g : G) (s : memoryScheduler) : memoryScheduler :=
  mkScheduler (workers s) (assignments s) g.
Definition set_ws_Slots (f : gmap Z Info -> gmap Z Info) (w : WorkerState) : WorkerState :=
  mkWorkerState (ws_Key w) (ws_Healthy w) (ws_LastObserved w) (f (ws_Slots w)).

(** A scheduler with a strategy; [New_nil] is one without. *)
(* go: internal/scheduler/scheduler.go 20-29 New *)
Definition New (strategy : G) : memoryScheduler := mkScheduler ∅ ∅ strategy.

(* go: internal/scheduler/scheduler.go 218-224 cloneSlots *)
Definition cloneSlots (slots : gmap Z Info) : gmap Z Info :=
  map_fold (fun id info out => <[id := info]> out) ∅ slots.

(** One iteration of the loop of [UpdateWorker] over the assignments. *)
(* go: internal/scheduler/scheduler.go 38-48 UpdateWorker *)
Definition reserve_assigned (key : WorkerKey) (slots : gmap Z Info)
    (entry : UID * Assignment) : gmap Z Info :=
  let '(sandboxUID, assignment) := entry in
  if decide (as_Worker assignment <> key) then slots
  else match slots !! as_SlotID assignment with
       | Some slotInfo =>
           if decide (info_State slotInfo = StateFree) then
             <[as_SlotID assignment :=
                 set_info_SandboxUID sandboxUID (set_info_State StateReserved slotInfo)]> slots
           else slots
       | None => slots
       end.

(** [order] is the order in which Go's map iteration visits the assignments. *)
(* go: internal/scheduler/scheduler.go 31-50 UpdateWorker *)
Definition UpdateWorker_in (order : list (UID * Assignment)) (state : WorkerState)
    (s : memoryScheduler) : memoryScheduler :=
  let slots := foldl (reserve_assigned (ws_Key state)) (cloneSlots (ws_Slots state)) order in
  set_workers (insert (ws_Key state) (set_ws_Slots (fun _ => slots) state)) s.

(* go: internal/scheduler/scheduler.go 31-50 UpdateWorker *)
Definition UpdateWorker (state : WorkerState) (s : memoryScheduler) : memoryScheduler :=
  UpdateWorker_in (map_to_list (assignments s)) state s.

(* go: internal/scheduler/scheduler.go 52-56 RemoveWorker *)
Definition RemoveWorker (key : WorkerKey) (s : memoryScheduler) : memoryScheduler :=
  set_workers (delete key) s.

Definition name_le (k1 k2 : WorkerKey) : Prop := string_le (wk_Name k1) (wk_Name k2).
#[export] Instance name_le_dec : RelDecision name_le.
Proof. intros k1 k2. unfold name_le. apply _. Defined.

(* go: internal/scheduler/scheduler.go 183-194 sortedWorkers *)
Definition sortedWorkers (s : memoryScheduler) (namespace pool : string) : list WorkerKey :=
  merge_sort name_le
    (filter (fun key => wk_Namespace key = namespace /\ wk_Pool key = pool)
       (map_to_list (workers s)).*1).

(* go: internal/scheduler/scheduler.go 196-203 sortedSlotIDs *)
Definition sortedSlotIDs (slots : gmap Z Info) : list Z :=
  merge_sort Z.le (map_to_list slots).*1.

(* go: internal/scheduler/scheduler.go 205-216 countWorkerSlots *)
Definition countWorkerSlots (slots : gmap Z Info) (profile : string) : Z * Z :=
  foldl (fun '(freeMatching, busy) '(_, info) =>
    if decide (info_State info <> StateFree) then (freeMatching, busy + 1)%Z
    else if decide (info_Profile info = profile) then (freeMatching + 1, busy)%Z
    else (freeMatching, busy)) (0, 0)%Z (map_to_list slots).

(** The candidates of one Worker. *)
(* go: internal/scheduler/scheduler.go 70-92 Assign *)
Definition worker_candidates (profile : string) (key : WorkerKey) (worker : WorkerState)
    : list Candidate :=
  if negb (ws_Healthy worker) then []
  else
    let '(freeMatching, busy) := countWorkerSlots (ws_Slots worker) profile in
    sortedSlotIDs (ws_Slots worker) ≫= fun slotID =>
      match ws_Slots worker !! slotID with
      | None => []
      | Some slotInfo =>
          if decide (info_State slotInfo <> StateFree) then []
          else if decide (info_Profile slotInfo <> profile) then []
          else [mkCandidate key slotID profile freeMatching busy]
      end.

(* go: internal/scheduler/scheduler.go 69-92 Assign *)
Definition candidates (s : memoryScheduler) (req : AssignRequest) : list Candidate :=
  sortedWorkers s (rq_Namespace req) (rq_Pool req) ≫= fun key =>
    match workers s !! key with
    | None => []
    | Some worker => worker_candidates (rq_SlotProfile req) key worker
    end.

(** [None]: the strategy returned a Worker the scheduler does not know, and dereferencing it
    panics. *)
(* go: internal/scheduler/scheduler.go 58-119 Assign *)
Definition Assign (req : AssignRequest) (s : memoryScheduler)
    : option (memoryScheduler * result Assignment) :=
  match assignments s !! rq_SandboxUID req with
  | Some assignment => Some (s, Ok assignment)
  | None =>
      if decide (rq_SlotProfile req = "") then Some (s, Err ErrInvalidSlotProfile)
      else
        let cands := candidates s req in
        if decide (cands = []) then Some (s, Err ErrNoCapacity)
        else
          let '(g, choice) := Select (strategy s) req cands in
          let s := set_strategy g s in
          match choice with
          | Err err => Some (s, Err err)
          | Ok selected =>
              worker ← workers s !! cd_Worker selected;
              let slotInfo :=
                default (mkInfo 0 "" StateFree "") (ws_Slots worker !! cd_SlotID selected) in
              let slotInfo :=
                set_info_SandboxUID (rq_SandboxUID req) (set_info_State StateReserved slotInfo) in
              let worker := set_ws_Slots (insert (cd_SlotID selected) slotInfo) worker in
              let assignment := mkAssignment (rq_SandboxUID req) (rq_Namespace req) (rq_Name req)
                                  (cd_Worker selected) (cd_SlotID selected) (rq_SlotProfile req) in
              Some (set_assignments (insert (rq_SandboxUID req) assignment)
                      (set_workers (insert (cd_Worker selected) worker) s), Ok assignment)
          end
  end.

Definition restore_conflict_uid (uid : UID) : error :=
  wrap_sentinel (error_text ErrAssignmentConflict)
    ("sandbox " +:+ quote uid +:+ " already has another assignment").
Definition restore_conflict_slot (a : Assignment) (owner : UID) : error :=
  wrap_sentinel (error_text ErrAssignmentConflict)
    ("slot " +:+ itoa (as_SlotID a) +:+ " on " +:+ quote (wk_Name (as_Worker a)) +:+
     " is owned by " +:+ quote owner).

(* go: internal/scheduler/scheduler.go 121-148 Restore *)
Definition Restore (assignment : Assignment) (s : memoryScheduler)
    : memoryScheduler * option error :=
  match assignments s !! as_SandboxUID assignment with
  | Some current =>
      if decide (current = assignment) then (s, None)
      else (s, Some (restore_conflict_uid (as_SandboxUID assignment)))
  | None =>
      let record := set_assignments (insert (as_SandboxUID assignment) assignment) in
      match workers s !! as_Worker assignment with
      | None => (record s, None)
      | Some worker =>
          match ws_Slots worker !! as_SlotID assignment with
          | None => (record s, None)
          | Some slotInfo =>
              if decide (info_State slotInfo <> StateFree /\
                         info_SandboxUID slotInfo <> as_SandboxUID assignment) then
                (s, Some (restore_conflict_slot assignment (info_SandboxUID slotInfo)))
              else
                let slotInfo := set_info_State StateReserved slotInfo in
                let slotInfo := set_info_SandboxUID (as_SandboxUID assignment) slotInfo in
                let slotInfo := if decide (as_SlotProfile assignment <> "")
                                then set_info_Profile (as_SlotProfile assignment) slotInfo
                                else slotInfo in
                let worker := set_ws_Slots (insert (as_SlotID assignment) slotInfo) worker in
                (record (set_workers (insert (as_Worker assignment) worker) s), None)
          end
      end
  end.

(** [Release] always returns nil. *)
(* go: internal/scheduler/scheduler.go 150-174 Release *)
Definition Release (sandboxUID : UID) (s : memoryScheduler) : memoryScheduler :=
  match assignments s !! sandboxUID with
  | None => s
  | Some assignment =>
      let s := set_assignments (delete sandboxUID) s in
      match workers s !! as_Worker assignment with
      | None => s
      | Some worker =>
          match ws_Slots worker !! as_SlotID assignment with
          | None => s
          | Some slotInfo =>
              if decide (info_SandboxUID slotInfo <> sandboxUID) then s
              else
                let slotInfo := set_info_SandboxUID "" (set_info_State StateFree slotInfo) in
                let worker := set_ws_Slots (insert (as_SlotID assignment) slotInfo) worker in
                set_workers (insert (as_Worker assignment) worker) s
          end
      end
  end.

(* go: internal/scheduler/scheduler.go 176-181 Get *)
Definition Get (sandboxUID : UID) (s : memoryScheduler) : option Assignment :=
  assignments s !! sandboxUID.

(** The operations of the [Scheduler] interface that change its state, as labels. *)
(* go: internal/scheduler/types.go 68-75 Scheduler *)
Inductive sched_op :=
  | OpUpdateWorker (state : WorkerState)
  | OpRemoveWorker (key : WorkerKey)
  | OpAssign (req : AssignRequest)
  | OpRestore (assignment : Assignment)
  | OpRelease (sandboxUID : UID).

Definition sched_step (s : memoryScheduler) (op : sched_op) : option memoryScheduler :=
  match op with
  | OpUpdateWorker state => Some (UpdateWorker state s)
  | OpRemoveWorker key => Some (RemoveWorker key s)
  | OpAssign req => fst <$> Assign req s
  | OpRestore assignment => Some (fst (Restore assignment s))
  | OpRelease uid => Some (Release uid s)
  end.
End Scheduler.

Arguments memoryScheduler : clear implicits.

(** Without a strategy, a scheduler packs. *)
(* go: internal/scheduler/scheduler.go 20-24 New *)
Definition New_nil : memoryScheduler BinPackStrategy := New mkBinPack.

(** ** The repository's own unit tests (internal/scheduler/*_test.go), evaluated *)

Module SchedulerTests.
Definition free_slots (profile : string) (ids : list Z) : gmap Z Info :=
  list_to_map ((fun id => (id, mkInfo id profile StateFree "")) <$> ids).
Definition worker (ns pool name profile : string) (ids : list Z) : WorkerState :=
  mkWorkerState (mkWorkerKey ns pool name) true 0 (free_slots profile ids).
Definition req (uid : UID) (profile : string) : AssignRequest :=
  mkAssignRequest uid "ns" "sandbox" "pool" profile.
Definition where_ (r : option (memoryScheduler StableStrategy * result Assignment)) :=
  '(_, res) ← r; match res with Ok a => Some (wk_Name (as_Worker a), as_SlotID a) | _ => None end.
Definition two_workers : memoryScheduler StableStrategy :=
  UpdateWorker (worker "ns" "pool" "worker-a" "small" [2; 0]%Z)
    (UpdateWorker (worker "ns" "pool" "worker-b" "small" [1; 0]%Z) (New mkStable)).

Example assign_uses_stable_order : where_ (Assign (req "sandbox-1" "small") two_workers)
  = Some ("worker-a", 0%Z).
Proof. vm_compute. reflexivity. Qed.

Example assign_rejects_missing_profile :
  snd <$> Assign (req "sandbox-1" "") two_workers = Some (Err ErrInvalidSlotProfile).
Proof. vm_compute. reflexivity. Qed.

Definition restored : memoryScheduler StableStrategy :=
  (Restore (mkAssignment "sandbox-1" "ns" "sandbox" (mkWorkerKey "ns" "pool" "worker") 0 "small")
     (New mkStable)).1.

Example restore_before_worker_discovery :
  snd <$> Assign (req "sandbox-2" "small")
            (UpdateWorker (worker "ns" "pool" "worker" "small" [0%Z]) restored)
  = Some (Err ErrNoCapacity).
Proof. vm_compute. reflexivity. Qed.

Definition fork_workers : memoryScheduler BinPackStrategy :=
  UpdateWorker (worker "ns" "pool" "fork-pool-primary-worker-0" "small" [0; 1]%Z)
    (UpdateWorker (worker "ns" "pool" "fork-pool-secondary-worker-0" "small" [0%Z]) (New mkBinPack)).

Example binpack_fills_primary_before_secondary :
  (s1 ← Assign (req "parent" "small") fork_workers;
   s2 ← Assign (req "child" "small") s1.1;
   s3 ← Assign (req "grandchild" "small") s2.1;
   Some ((fun r => match r with Ok a => wk_Name (as_Worker a) | Err _ => "" end)
         <$> [s1.2; s2.2; s3.2]))
  = Some ["fork-pool-primary-worker-0"; "fork-pool-primary-worker-0"; "fork-pool-secondary-worker-0"].
Proof. vm_compute. reflexivity. Qed.
End SchedulerTests.
