(* ===== verification/SchedulerFacts.v ===== *)
(** * Correctness of the Slot Scheduler

    No two Sandboxes are assigned the same Slot of the same Worker, an assigned Slot is never
    offered again, [Assign] succeeds exactly when a matching free Slot of a healthy Worker
    exists, and the state is a refinement of an abstract lease table. [sched_inv] is the
    invariant; the one operation that needs a side condition to keep it is [Restore]. *)

From S2P Require Import Prelude Slot Scheduler.

(** ** Strategies *)

#[export] Instance StableStrategy_laws : StrategyLaws StableStrategy.
Proof.
  split; [|done]. intros g req [|c cands] Hne; [done|].
  exists g, c. split; [done|left].
Qed.

Lemma foldl_best_elem (better : Candidate -> Candidate -> bool) rest : forall first,
  foldl (fun best c => if better c best then c else best) first rest ∈ first :: rest.
Proof.
  induction rest as [|c rest IH]; intros first; simpl; [left|].
  specialize (IH (if better c first then c else first)).
  destruct (better c first); set_solver.
Qed.

#[export] Instance BinPackStrategy_laws : StrategyLaws BinPackStrategy.
Proof.
  split; [|done]. intros g req [|c cands] Hne; [done|].
  eexists _, _. split; [reflexivity|]. apply foldl_best_elem.
Qed.

#[export] Instance RandomStrategy_laws {G} `{RandSource G} : StrategyLaws (RandomStrategy G).
Proof.
  split; [|done]. intros [g] req [|c cands] Hne; [done|]. cbn [Select RandomStrategy_strategy].
  pose proof (Intn_bound g (length (c :: cands)) ltac:(simpl; lia)) as Hb.
  destruct (Intn g (length (c :: cands))) as [i g'] eqn:Hi. simpl in Hb.
  destruct ((c :: cands) !! i) as [x|] eqn:Hx.
  - exists (mkRandom g'), x. split; [done|]. by eapply list_elem_of_lookup_2.
  - apply lookup_ge_None in Hx. simpl in Hx. lia.
Qed.

(** [binPackBetter] compares, in this order: in-use Workers first, the tighter fit among
    in-use Workers, the Worker name, the slot id. *)

Definition idle_first (c : Candidate) : Z := if (cd_BusySlots c >? 0)%Z then 0%Z else 1%Z.
Definition fit (c : Candidate) : Z := if (cd_BusySlots c >? 0)%Z then cd_FreeSlots c else 0%Z.

Definition binpack_compare : Candidate -> Candidate -> comparison :=
  lex (on idle_first Z.compare) (lex (on fit Z.compare)
    (lex (on (fun c => wk_Name (cd_Worker c)) String.compare) (on cd_SlotID Z.compare))).

#[export] Instance binpack_comparing : Comparing binpack_compare.
Proof. unfold binpack_compare. apply _. Qed.

Lemma binPackBetter_compare a b :
  binPackBetter a b = match binpack_compare a b with Lt => true | _ => false end.
Proof.
  unfold binPackBetter, binpack_compare, lex, on, idle_first, fit.
  destruct (cd_BusySlots a >? 0)%Z, (cd_BusySlots b >? 0)%Z; cbn [negb eqb andb]; try done.
  - unfold Z.ltb. rewrite Z.eqb_compare.
    destruct (cd_FreeSlots a ?= cd_FreeSlots b)%Z eqn:E; try done.
    case_bool_decide as Hn; cbn [negb].
    + rewrite Hn, string_compare_refl. done.
    + unfold string_lt, String.ltb. destruct (String.compare _ _) eqn:Es; try done.
      by apply string_compare_eq in Es.
  - unfold Z.ltb. rewrite Z.compare_refl.
    case_bool_decide as Hn; cbn [negb].
    + rewrite Hn, string_compare_refl. done.
    + unfold string_lt, String.ltb. destruct (String.compare _ _) eqn:Es; try done.
      by apply string_compare_eq in Es.
Qed.

Lemma binpack_step_least best c :
  (if binPackBetter c best then c else best) = least_step binpack_compare best c.
Proof. unfold least_step. rewrite binPackBetter_compare. by destruct (binpack_compare c best). Qed.

Lemma BinPack_Select_spec g req c cands :
  exists best, BinPackStrategy_Select g req (c :: cands) = (g, Ok best) /\
    best ∈ c :: cands /\ forall c', c' ∈ c :: cands -> binpack_compare best c' <> Gt.
Proof.
  eexists. split; [reflexivity|].
  assert (Hf : forall l x, foldl (fun best c => if binPackBetter c best then c else best) x l =
                           foldl (least_step binpack_compare) x l).
  { induction l as [|y l IH]; intros x; simpl; [done|]. by rewrite IH, binpack_step_least. }
  rewrite Hf. apply foldl_least. apply _.
Qed.

Lemma binpack_compare_eq a b :
  binpack_compare a b = Eq ->
  wk_Name (cd_Worker a) = wk_Name (cd_Worker b) /\ cd_SlotID a = cd_SlotID b.
Proof.
  unfold binpack_compare, lex, on.
  destruct (_ ?= _)%Z; try done. destruct (_ ?= _)%Z; try done.
  destruct (String.compare _ _) eqn:Es; try done. apply string_compare_eq in Es.
  by intros ->%Z.compare_eq_iff.
Qed.

(** ** The abstract lease table

    A lease gives one Slot of one Worker to one Sandbox. This is what the scheduler promises:
    leases are exclusive, a Sandbox has at most one, and a lease ends only by its release. *)

Definition location : Type := WorkerKey * Z.
Definition lease_table : Type := gmap UID location.

Definition exclusive (m : gmap UID (WorkerKey * Z)) : Prop :=
  forall u1 u2 loc, m !! u1 = Some loc -> m !! u2 = Some loc -> u1 = u2.

Inductive lease_step : gmap UID (WorkerKey * Z) -> gmap UID (WorkerKey * Z) -> Prop :=
  | lease_stutter m : lease_step m m
  | lease_take m u loc :
      m !! u = None -> (forall u', m !! u' <> Some loc) -> lease_step m (<[u := loc]> m)
  | lease_end m u : lease_step m (delete u m).

Lemma lease_step_exclusive m m' : exclusive m -> lease_step m m' -> exclusive m'.
Proof.
  intros Hex Hs. revert Hex.
  destruct Hs as [m0|m0 u loc Hu Hloc|m0 u]; intros Hex; [done| |]; intros u1 u2 l H1 H2.
  - apply lookup_insert_Some in H1 as [[<- <-]|[Hn1 H1]], H2 as [[<- Heq]|[Hn2 H2]]; try done.
    + by destruct (Hloc u2).
    + subst. by destruct (Hloc u1).
    + by eapply Hex.
  - apply lookup_delete_Some in H1 as [_ H1], H2 as [_ H2]. by eapply Hex.
Qed.

Section Scheduler.
Context {G : Type} `{Strategy G}.

Definition leases (s : memoryScheduler G) : gmap UID (WorkerKey * Z) :=
  (fun a => (as_Worker a, as_SlotID a)) <$> assignments s.

Lemma leases_lookup s u loc :
  leases s !! u = Some loc <->
  exists a, assignments s !! u = Some a /\ as_Worker a = loc.1 /\ as_SlotID a = loc.2.
Proof.
  unfold leases. rewrite lookup_fmap, fmap_Some. destruct loc as [k id]. simpl.
  split; intros [a Ha]; exists a; destruct Ha as [H1 H2]; [by simplify_eq|].
  by destruct H2 as [-> ->].
Qed.

(** ** The invariant *)

Record sched_inv (s : memoryScheduler G) : Prop := {
  si_uid : forall u a, assignments s !! u = Some a -> as_SandboxUID a = u;
  si_exclusive : exclusive (leases s);
  (** an assigned Slot is not offered: in the scheduler's view of its Worker it is not Free *)
  si_held : forall u a w i, assignments s !! u = Some a -> workers s !! as_Worker a = Some w ->
    ws_Slots w !! as_SlotID a = Some i -> info_State i <> StateFree;
}.

Lemma sched_inv_New g : sched_inv (New g).
Proof. split; unfold leases; simpl; intros *; rewrite ?fmap_empty; try (by rewrite lookup_empty).
  intros u2 loc. by rewrite lookup_empty.
Qed.

Lemma leases_insert s u a :
  leases (set_assignments (insert u a) s) = <[u := (as_Worker a, as_SlotID a)]> (leases s).
Proof. unfold leases. simpl. by rewrite fmap_insert. Qed.

Lemma leases_delete s u : leases (set_assignments (delete u) s) = delete u (leases s).
Proof. unfold leases. simpl. by rewrite fmap_delete. Qed.

(** ** [UpdateWorker] *)

Lemma cloneSlots_id slots : cloneSlots slots = slots.
Proof. apply map_fold_insert_id. Qed.

Lemma reserve_assigned_lookup key slots u a id :
  reserve_assigned key slots (u, a) !! id =
    if decide (as_Worker a = key /\ as_SlotID a = id) then
      (fun i => if decide (info_State i = StateFree)
                then set_info_SandboxUID u (set_info_State StateReserved i) else i) <$> slots !! id
    else slots !! id.
Proof.
  unfold reserve_assigned.
  destruct (decide (as_Worker a <> key)) as [Hk|Hk].
  { rewrite decide_False by naive_solver. done. }
  apply dec_stable in Hk.
  destruct (decide (as_SlotID a = id)) as [<-|Hid].
  - rewrite decide_True by done. destruct (slots !! as_SlotID a) as [i|] eqn:Hi; simpl.
    + destruct (decide (info_State i = StateFree)); [by rewrite lookup_insert_eq|done].
    + by rewrite Hi.
  - rewrite decide_False by naive_solver. destruct (slots !! as_SlotID a) as [i|]; [|done].
    destruct (decide (info_State i = StateFree)); [by rewrite lookup_insert_ne|done].
Qed.

(** A reserved Slot stays reserved through the rest of the loop. *)
Lemma foldl_reserve_stable key order : forall slots id,
  (forall u a, (u, a) ∈ order -> ¬ (as_Worker a = key /\ as_SlotID a = id)) ->
  foldl (reserve_assigned key) slots order !! id = slots !! id.
Proof.
  induction order as [|[u a] order IH]; intros slots id Hn; cbn [foldl]; [done|].
  rewrite IH, reserve_assigned_lookup, decide_False; [done| |].
  - apply (Hn u a). left.
  - intros u' a' Hin. apply (Hn u' a'). by right.
Qed.

Definition reserve_info (u : UID) (i : Info) : Info :=
  if decide (info_State i = StateFree)
  then set_info_SandboxUID u (set_info_State StateReserved i) else i.

(** With exclusive leases the loop reserves, for each assignment, its own Slot. *)
Lemma foldl_reserve_hit key order : forall slots id u a,
  NoDup order.*1 -> (u, a) ∈ order -> as_Worker a = key -> as_SlotID a = id ->
  (forall u' a', (u', a') ∈ order -> as_Worker a' = key -> as_SlotID a' = id -> u' = u) ->
  foldl (reserve_assigned key) slots order !! id = reserve_info u <$> slots !! id.
Proof.
  induction order as [|[u0 a0] order IH]; intros slots id u a Hnd Hin Hk Hid Huniq;
    [by apply elem_of_nil in Hin|]. cbn [foldl].
  cbn [fmap list_fmap fst] in Hnd. apply NoDup_cons in Hnd as [Hfresh Hnd]. apply elem_of_cons in Hin as [Heq|Hin].
  - simplify_eq. rewrite foldl_reserve_stable, reserve_assigned_lookup, decide_True; try done.
    intros u' a' Hin' [Hk' Hid'].
    assert (u' = u0) as -> by (eapply Huniq; [by right|done|done]).
    apply Hfresh, list_elem_of_fmap. by exists (u0, a').
  - rewrite (IH _ id u a Hnd Hin Hk Hid), reserve_assigned_lookup, decide_False; [done| |].
    + intros [Hk0 Hid0]. assert (u0 = u) as -> by (eapply Huniq; [by left|done|done]).
      apply Hfresh, list_elem_of_fmap. by exists (u, a).
    + intros u' a' Hin'. apply Huniq. by right.
Qed.

Lemma assignments_exclusive s u u' a a' :
  exclusive (leases s) -> assignments s !! u = Some a -> assignments s !! u' = Some a' ->
  as_Worker a = as_Worker a' -> as_SlotID a = as_SlotID a' -> u = u'.
Proof.
  intros Hex H1 H2 Hw Hid. apply (Hex u u' (as_Worker a, as_SlotID a)); apply leases_lookup; eauto.
Qed.

(** The Slots a Worker has after [UpdateWorker]: as reported, except that a Slot reported free
    is reserved for the Sandbox it is assigned to. *)
Lemma UpdateWorker_slots order state s id :
  exclusive (leases s) -> order ≡ₚ map_to_list (assignments s) ->
  foldl (reserve_assigned (ws_Key state)) (cloneSlots (ws_Slots state)) order !! id =
    ws_Slots state !! id
  \/ exists u a, assignments s !! u = Some a /\ as_Worker a = ws_Key state /\ as_SlotID a = id /\
    foldl (reserve_assigned (ws_Key state)) (cloneSlots (ws_Slots state)) order !! id =
      reserve_info u <$> ws_Slots state !! id.
Proof.
  intros Hex Hord. rewrite cloneSlots_id.
  assert (Hin : forall u a, (u, a) ∈ order <-> assignments s !! u = Some a).
  { intros u a. by rewrite Hord, elem_of_map_to_list. }
  destruct (decide (Exists (fun e => as_Worker e.2 = ws_Key state /\ as_SlotID e.2 = id) order))
    as [HE|HE].
  - right. apply Exists_exists in HE as ([u a] & Hua & Hk & Hid). simpl in *.
    exists u, a. split_and!; [by apply Hin|done|done|].
    apply (foldl_reserve_hit _ _ _ _ _ a); try done.
    + rewrite Hord. apply NoDup_fst_map_to_list.
    + intros u' a' Hin' Hk' Hid'. apply Hin in Hin', Hua.
      apply (assignments_exclusive s u' u a' a); first [done|congruence].
  - left. rewrite foldl_reserve_stable; [done|].
    intros u a Hua Hc. apply HE, Exists_exists. by exists (u, a).
Qed.

(** ** The candidates *)

(** Slot [id] of Worker [key] can be given to the request: the Worker is healthy and of the
    requested namespace and pool, the Slot is free and of the requested profile. *)
Definition schedulable (s : memoryScheduler G) (req : AssignRequest) (key : WorkerKey) (id : Z)
    : Prop :=
  wk_Namespace key = rq_Namespace req /\ wk_Pool key = rq_Pool req /\
  exists w i, workers s !! key = Some w /\ ws_Healthy w = true /\
    ws_Slots w !! id = Some i /\ info_State i = StateFree /\ info_Profile i = rq_SlotProfile req.

Lemma elem_of_sortedWorkers (s : memoryScheduler G) ns pool key :
  key ∈ sortedWorkers s ns pool <->
  wk_Namespace key = ns /\ wk_Pool key = pool /\ is_Some (workers s !! key).
Proof.
  unfold sortedWorkers. rewrite merge_sort_Permutation, list_elem_of_filter, list_elem_of_fmap.
  split.
  - intros [[-> ->] [[k w] [-> Hin]]]. apply elem_of_map_to_list in Hin. simpl. eauto.
  - intros (-> & -> & [w Hw]). split; [done|]. exists (key, w). by rewrite elem_of_map_to_list.
Qed.

Lemma elem_of_sortedSlotIDs slots id : id ∈ sortedSlotIDs slots <-> is_Some (slots !! id).
Proof.
  unfold sortedSlotIDs. rewrite merge_sort_Permutation, list_elem_of_fmap. split.
  - intros [[k i] [-> Hin]]. apply elem_of_map_to_list in Hin. eauto.
  - intros [i Hi]. exists (id, i). by rewrite elem_of_map_to_list.
Qed.

Lemma elem_of_worker_candidates profile key w c :
  c ∈ worker_candidates profile key w <->
  ws_Healthy w = true /\ (exists i, ws_Slots w !! cd_SlotID c = Some i /\
    info_State i = StateFree /\ info_Profile i = profile) /\
  c = mkCandidate key (cd_SlotID c) profile (countWorkerSlots (ws_Slots w) profile).1
        (countWorkerSlots (ws_Slots w) profile).2.
Proof.
  unfold worker_candidates. destruct (ws_Healthy w); cbn [negb].
  2:{ split; [by intros ?%elem_of_nil|by intros [? _]]. }
  destruct (countWorkerSlots _ _) as [free busy]. cbn [fst snd].
  rewrite list_elem_of_bind. split.
  - intros [id [Hin Hid]]. apply elem_of_sortedSlotIDs in Hid as [i Hi]. rewrite Hi in Hin.
    destruct (decide (info_State i <> StateFree)) as [|Hf]; [by apply elem_of_nil in Hin|].
    destruct (decide (info_Profile i <> profile)) as [|Hp]; [by apply elem_of_nil in Hin|].
    apply list_elem_of_singleton in Hin as ->. apply dec_stable in Hf, Hp. simpl. eauto 6.
  - intros (_ & [i (Hi & Hf & Hp)] & Hc). exists (cd_SlotID c). rewrite Hi.
    rewrite elem_of_sortedSlotIDs, Hi. split; [|done].
    rewrite decide_False by tauto. rewrite decide_False by tauto. by apply list_elem_of_singleton.
Qed.

Lemma elem_of_candidates (s : memoryScheduler G) req c :
  c ∈ candidates s req -> schedulable s req (cd_Worker c) (cd_SlotID c).
Proof.
  unfold candidates. rewrite list_elem_of_bind. intros [key [Hin Hk]].
  apply elem_of_sortedWorkers in Hk as (Hns & Hpool & [w Hw]). rewrite Hw in Hin.
  apply elem_of_worker_candidates in Hin as (Hh & [i (Hi & Hf & Hp)] & ->). simpl in *.
  split_and!; [done|done|]. exists w, i. done.
Qed.

Lemma candidates_complete (s : memoryScheduler G) req key id :
  schedulable s req key id ->
  exists c, c ∈ candidates s req /\ cd_Worker c = key /\ cd_SlotID c = id.
Proof.
  intros (Hns & Hpool & w & i & Hw & Hh & Hi & Hf & Hp).
  eexists (mkCandidate key id (rq_SlotProfile req) _ _). split_and!; [|done|done].
  unfold candidates. rewrite list_elem_of_bind. exists key. rewrite Hw. split.
  - apply elem_of_worker_candidates. split_and!; [done|by exists i|reflexivity].
  - apply elem_of_sortedWorkers. by rewrite Hw.
Qed.

(** ** [Assign] *)

Definition granted (req : AssignRequest) (key : WorkerKey) (id : Z) : Assignment :=
  mkAssignment (rq_SandboxUID req) (rq_Namespace req) (rq_Name req) key id (rq_SlotProfile req).

(** The state after Slot [id] of [key] is given to the Sandbox of [req]. *)
Definition after_grant (req : AssignRequest) (key : WorkerKey) (id : Z) (g : G)
    (s : memoryScheduler G) : memoryScheduler G :=
  mkScheduler
    (alter (set_ws_Slots (alter (fun i => set_info_SandboxUID (rq_SandboxUID req)
       (set_info_State StateReserved i)) id)) key (workers s))
    (<[rq_SandboxUID req := granted req key id]> (assignments s)) g.

Lemma set_ws_Slots_insert_alter (f : Info -> Info) id w i :
  ws_Slots w !! id = Some i ->
  set_ws_Slots (insert id (f i)) w = set_ws_Slots (alter f id) w.
Proof.
  intros Hi. destruct w as [k h l slots]. unfold set_ws_Slots. simpl in *. f_equal.
  apply map_eq. intros j. destruct (decide (j = id)) as [->|Hj].
  - by rewrite lookup_insert_eq, lookup_alter_eq, Hi.
  - by rewrite lookup_insert_ne, lookup_alter_ne.
Qed.

Lemma alter_insert_same `{Countable K} {A} (f : A -> A) k (m : gmap K A) v :
  m !! k = Some v -> <[k := f v]> m = alter f k m.
Proof.
  intros Hv. apply map_eq. intros j. destruct (decide (j = k)) as [->|Hj].
  - by rewrite lookup_insert_eq, lookup_alter_eq, Hv.
  - by rewrite lookup_insert_ne, lookup_alter_ne.
Qed.

(** The two outcomes of [Assign] for a Sandbox without an assignment. *)
Lemma Assign_cases `{!StrategyLaws G} req (s : memoryScheduler G) :
  assignments s !! rq_SandboxUID req = None -> rq_SlotProfile req <> "" ->
  (Assign req s = Some (s, Err ErrNoCapacity) /\ forall key id, ¬ schedulable s req key id) \/
  exists key id g, schedulable s req key id /\
    Assign req s = Some (after_grant req key id g s, Ok (granted req key id)).
Proof.
  intros Ha Hp. unfold Assign. rewrite Ha, decide_False by done.
  destruct (decide (candidates s req = [])) as [Hc|Hc].
  { left. split; [done|]. intros key id (c & Hin & _)%candidates_complete.
    rewrite Hc in Hin. by apply elem_of_nil in Hin. }
  right. destruct (select_some (strategy s) req (candidates s req) Hc) as (g & c & Hsel & Hin).
  apply elem_of_candidates in Hin as Hs. exists (cd_Worker c), (cd_SlotID c), g. split; [done|].
  rewrite Hsel. destruct Hs as (_ & _ & w & i & Hw & _ & Hi & _). simpl. rewrite Hw. simpl.
  rewrite Hi. simpl. unfold after_grant, granted, set_assignments, set_workers, set_strategy.
  simpl. f_equal. f_equal. f_equal.
  rewrite (set_ws_Slots_insert_alter (fun j => set_info_SandboxUID _ (set_info_State StateReserved j))
             _ _ i Hi).
  by apply alter_insert_same.
Qed.

(** A successful [Assign] gives the Sandbox one Slot that was free, of the requested
    profile, on a healthy Worker of the requested namespace and pool, marks exactly that Slot
    Reserved for the Sandbox, records the assignment under the Sandbox's UID and changes nothing
    else; a Sandbox that already has an assignment gets the same one back and nothing changes. *)
Theorem assign_grants_one_free_slot `{!StrategyLaws G} req (s s' : memoryScheduler G) a :
  Assign req s = Some (s', Ok a) ->
  match assignments s !! rq_SandboxUID req with
  | Some old => a = old /\ s' = s
  | None => exists key id, a = granted req key id /\ schedulable s req key id /\
      s' = after_grant req key id (strategy s') s
  end.
Proof.
  intros HA. destruct (assignments s !! rq_SandboxUID req) as [old|] eqn:Ho.
  { unfold Assign in HA. rewrite Ho in HA. by simplify_eq. }
  destruct (decide (rq_SlotProfile req = "")) as [Hp|Hp].
  { unfold Assign in HA. by rewrite Ho, decide_True in HA. }
  destruct (Assign_cases req s Ho Hp) as [[HN _]|(key & id & g & Hs & HG)]; [congruence|].
  rewrite HG in HA. simplify_eq. by exists key, id.
Qed.

(** [Assign] has capacity exactly when some Slot can be given to the request: for a Sandbox
    without an assignment and a non-empty profile it succeeds if and only if a schedulable Slot
    exists, and otherwise it returns [ErrNoCapacity] and leaves the scheduler unchanged. It
    never panics and never loses a free Slot to the strategy's choice. *)
Theorem assign_capacity_exact `{!StrategyLaws G} req (s : memoryScheduler G) :
  assignments s !! rq_SandboxUID req = None -> rq_SlotProfile req <> "" ->
  ((exists s' a, Assign req s = Some (s', Ok a)) <-> (exists key id, schedulable s req key id)) /\
  ((forall key id, ¬ schedulable s req key id) -> Assign req s = Some (s, Err ErrNoCapacity)).
Proof.
  intros Ha Hp. destruct (Assign_cases req s Ha Hp) as [[HN Hno]|(key & id & g & Hs & HG)].
  - split; [|done]. split; [intros (s' & a & HA); congruence|].
    intros (key & id & Hs). by destruct (Hno key id).
  - split; [split; eauto|]. intros Hno. by destruct (Hno key id).
Qed.

(** ** Every operation keeps the invariant and refines the lease table *)

(** [Restore] is given a persisted assignment. It refuses a Slot that it sees held by another Sandbox;
    it has nothing to check where it does not see the Slot, or sees it reported for this Sandbox. *)
Definition restore_unchecked (s : memoryScheduler G) (a : Assignment) : Prop :=
  forall w i, workers s !! as_Worker a = Some w -> ws_Slots w !! as_SlotID a = Some i ->
    info_SandboxUID i = as_SandboxUID a.

(** There, no other Sandbox may be recorded on the Slot. *)
Definition restore_sound (s : memoryScheduler G) (op : sched_op) : Prop :=
  match op with
  | OpRestore a => restore_unchecked s a -> forall u a', assignments s !! u = Some a' ->
      as_Worker a' = as_Worker a -> as_SlotID a' = as_SlotID a -> u = as_SandboxUID a
  | _ => True
  end.

Lemma leases_same_assignments (s s' : memoryScheduler G) :
  assignments s' = assignments s -> leases s' = leases s.
Proof. unfold leases. by intros ->. Qed.

Lemma reserve_info_busy u i : info_State (reserve_info u i) <> StateFree.
Proof. unfold reserve_info. by destruct (decide _). Qed.

Lemma UpdateWorker_inv state (s : memoryScheduler G) :
  sched_inv s -> sched_inv (UpdateWorker state s).
Proof.
  intros [Hu Hex Hh]. split; [done|done|]. intros u a w i Ha Hw Hi.
  unfold UpdateWorker, UpdateWorker_in, set_workers in *. cbn [workers assignments] in *.
  apply lookup_insert_Some in Hw as [[Hk <-]|[Hk Hw]]; [|by eapply Hh].
  cbn [ws_Slots set_ws_Slots] in Hi. rewrite cloneSlots_id in Hi.
  rewrite (foldl_reserve_hit _ _ _ _ u a) in Hi.
  - apply fmap_Some in Hi as (i0 & _ & ->). apply reserve_info_busy.
  - apply NoDup_fst_map_to_list.
  - by apply elem_of_map_to_list.
  - done.
  - done.
  - intros u' a' Hin Hk' Hid'. apply elem_of_map_to_list in Hin.
    apply (assignments_exclusive s u' u a' a); first [done|congruence].
Qed.

Lemma grant_inv req key id g (s : memoryScheduler G) :
  sched_inv s -> assignments s !! rq_SandboxUID req = None -> schedulable s req key id ->
  sched_inv (after_grant req key id g s) /\
  lease_step (leases s) (leases (after_grant req key id g s)).
Proof.
  intros Hinv Hnone (_ & _ & w & i & Hw & _ & Hi & Hf & _).
  assert (Hl : leases (after_grant req key id g s) = <[rq_SandboxUID req := (key, id)]> (leases s)).
  { unfold leases. simpl. by rewrite fmap_insert. }
  assert (Hstep : lease_step (leases s) (leases (after_grant req key id g s))).
  { rewrite Hl. constructor; [unfold leases; by rewrite lookup_fmap, Hnone|].
    intros u' (a & Ha & Hwk & Hid)%leases_lookup. simpl in *. subst.
    by apply (si_held s Hinv u' a w i Ha). }
  split; [|done]. split.
  - intros u a Ha. simpl in Ha.
    apply lookup_insert_Some in Ha as [[<- <-]|[_ Ha]]; [done|by apply (si_uid s Hinv)].
  - eapply lease_step_exclusive; [apply (si_exclusive s Hinv)|done].
  - intros u a w' i' Ha Hw' Hi'. simpl in *.
    rewrite lookup_alter_Some in Hw'. destruct Hw' as [(Hk & w0 & Hw0 & ->)|[Hk Hw']].
    + rewrite <- Hk in Hw0. assert (w0 = w) as -> by congruence. simpl in Hi'.
      rewrite lookup_alter_Some in Hi'. destruct Hi' as [(Hid & i0 & _ & ->)|[Hid Hi']]; [done|].
      apply lookup_insert_Some in Ha as [[_ <-]|[_ Ha]]; [done|].
      eapply (si_held s Hinv u a w); [done|by rewrite <- Hk|done].
    + apply lookup_insert_Some in Ha as [[_ <-]|[_ Ha]]; [done|].
      by eapply (si_held s Hinv).
Qed.

(** A Slot that [Restore] records is nobody else's: it is seen Free, or the persisted state is sound. *)
Lemma Restore_slot_free a (s : memoryScheduler G) u a' :
  sched_inv s -> restore_sound s (OpRestore a) -> (Restore a s).2 = None -> assignments s !! as_SandboxUID a = None ->
  assignments s !! u = Some a' -> as_Worker a' = as_Worker a -> as_SlotID a' = as_SlotID a -> False.
Proof.
  intros Hinv Hsound Hr Hnone Hu Hwk Hid.
  assert (Hunchecked : ~ restore_unchecked s a).
  { intros Hun. rewrite (Hsound Hun u a' Hu Hwk Hid) in Hu. congruence. }
  unfold Restore in Hr. rewrite Hnone in Hr.
  destruct (workers s !! as_Worker a) as [w|] eqn:Hw; [|apply Hunchecked; intros w i; congruence].
  destruct (ws_Slots w !! as_SlotID a) as [i|] eqn:Hi; [|apply Hunchecked; intros w' i Hw' Hi'; congruence].
  destruct (decide _) as [|Hc]; [done|].
  assert (Hf : info_State i <> StateFree) by (eapply (si_held s Hinv u a' w i); congruence).
  apply Hunchecked. intros w' i' Hw' Hi'. assert (i' = i) as -> by congruence.
  destruct (decide (info_SandboxUID i = as_SandboxUID a)); [done|]. by destruct Hc.
Qed.

Lemma Restore_refused a (s : memoryScheduler G) err : (Restore a s).2 = Some err -> (Restore a s).1 = s.
Proof. unfold Restore. cbv zeta. by repeat case_match. Qed.

Lemma Restore_inv a (s : memoryScheduler G) :
  sched_inv s -> restore_sound s (OpRestore a) ->
  sched_inv (Restore a s).1 /\ lease_step (leases s) (leases (Restore a s).1).
Proof.
  intros Hinv Hsound. destruct ((Restore a s).2) as [err|] eqn:Hr.
  { rewrite (Restore_refused a s err Hr). split; [done|constructor]. }
  pose proof (Restore_slot_free a s) as Hfree. unfold Restore in Hr |- *.
  destruct (assignments s !! as_SandboxUID a) as [cur|] eqn:Hcur.
  { destruct (decide (cur = a)); split; first [done|constructor]. }
  assert (Hex : lease_step (leases s) (<[as_SandboxUID a := (as_Worker a, as_SlotID a)]> (leases s))).
  { constructor; [unfold leases; by rewrite lookup_fmap, Hcur|].
    intros u' (a' & Ha' & Hwk & Hid)%leases_lookup. simpl in *.
    apply (Hfree u' a' Hinv Hsound); try done. unfold Restore. by rewrite Hcur. }
  clear Hfree.
  assert (Hexcl : exclusive (<[as_SandboxUID a := (as_Worker a, as_SlotID a)]> (leases s))).
  { eapply lease_step_exclusive; [apply (si_exclusive s Hinv)|done]. }
  assert (Huid : forall u b, <[as_SandboxUID a := a]> (assignments s) !! u = Some b ->
                             as_SandboxUID b = u).
  { intros u b Hb. apply lookup_insert_Some in Hb as [[<- <-]|[_ Hb]]; [done|].
    by apply (si_uid s Hinv). }
  destruct (workers s !! as_Worker a) as [w|] eqn:Hw;
    [destruct (ws_Slots w !! as_SlotID a) as [i|] eqn:Hi; [destruct (decide _) as [|Hc]|]|].
  - split; [done|constructor].
  - cbv zeta. cbn [fst]. rewrite leases_insert. split; [|done].
    split; [done|by rewrite leases_insert|].
    intros u b w' i' Hb Hw' Hi'. simpl in Hb, Hw'.
    apply lookup_insert_Some in Hw' as [[Hk <-]|[Hk Hw']]; simpl in Hi'.
    + apply lookup_insert_Some in Hi' as [[Hid <-]|[Hid Hi']].
      { by destruct (decide (as_SlotProfile a <> "")). }
      apply lookup_insert_Some in Hb as [[_ <-]|[_ Hb]]; [done|].
      eapply (si_held s Hinv u b w); [done|by rewrite <- Hk|done].
    + apply lookup_insert_Some in Hb as [[_ <-]|[_ Hb]]; [done|]. by eapply (si_held s Hinv).
  - cbv zeta. cbn [fst]. rewrite leases_insert. split; [|done]. split; [done|by rewrite leases_insert|].
    intros u b w' i' Hb Hw' Hi'. simpl in Hb, Hw'.
    apply lookup_insert_Some in Hb as [[_ <-]|[_ Hb]]; [congruence|]. by eapply (si_held s Hinv).
  - cbv zeta. cbn [fst]. rewrite leases_insert. split; [|done]. split; [done|by rewrite leases_insert|].
    intros u b w' i' Hb Hw' Hi'. simpl in Hb, Hw'.
    apply lookup_insert_Some in Hb as [[_ <-]|[_ Hb]]; [congruence|]. by eapply (si_held s Hinv).
Qed.

Lemma Release_assignments u (s : memoryScheduler G) :
  assignments (Release u s) = delete u (assignments s).
Proof.
  unfold Release. destruct (assignments s !! u) as [a|] eqn:Ha; [|by rewrite delete_id].
  cbn [workers set_assignments]. repeat case_match; done.
Qed.

Lemma Release_inv u (s : memoryScheduler G) :
  sched_inv s -> sched_inv (Release u s) /\ leases (Release u s) = delete u (leases s).
Proof.
  intros Hinv.
  assert (Hl : leases (Release u s) = delete u (leases s)).
  { unfold leases. by rewrite Release_assignments, fmap_delete. }
  split; [|done]. split.
  - intros u' a'. rewrite Release_assignments. intros [_ Ha]%lookup_delete_Some.
    by apply (si_uid s Hinv).
  - rewrite Hl. eapply lease_step_exclusive; [apply (si_exclusive s Hinv)|constructor].
  - intros u' a' w' i'. rewrite Release_assignments. intros [Hu Ha']%lookup_delete_Some.
    unfold Release. destruct (assignments s !! u) as [a|] eqn:Ha; [|exact (si_held s Hinv u' a' w' i' Ha')].
    cbn [workers set_assignments].
    destruct (workers s !! as_Worker a) as [w|] eqn:Hw; [|exact (si_held s Hinv u' a' w' i' Ha')].
    destruct (ws_Slots w !! as_SlotID a) as [i|] eqn:Hi; [|exact (si_held s Hinv u' a' w' i' Ha')].
    destruct (decide _) as [|_]; [exact (si_held s Hinv u' a' w' i' Ha')|]. simpl.
    intros [[Hk <-]|[_ Hw']]%lookup_insert_Some; [|exact (si_held s Hinv u' a' w' i' Ha' Hw')]. simpl.
    intros [[Hid <-]|[_ Hi']]%lookup_insert_Some.
    + destruct Hu. apply (assignments_exclusive s u u' a a'); try done. apply (si_exclusive s Hinv).
    + eapply (si_held s Hinv u' a' w); [done|by rewrite <- Hk|done].
Qed.

Lemma sched_step_spec `{!StrategyLaws G} (s : memoryScheduler G) op :
  sched_inv s -> restore_sound s op ->
  exists s', sched_step s op = Some s' /\ sched_inv s' /\ lease_step (leases s) (leases s') /\
    match op with
    | OpUpdateWorker _ | OpRemoveWorker _ => leases s' = leases s
    | OpRelease uid => leases s' = delete uid (leases s)
    | _ => True
    end.
Proof.
  intros Hinv Hsound. destruct op as [state|key|req|a|u]; cbn [sched_step].
  - eexists. split_and!; [done|by apply UpdateWorker_inv|constructor|done].
  - eexists. split_and!; [done| |constructor|done].
    destruct Hinv as [Hu Hex Hh]. split; [done|done|].
    intros u a w i Ha Hw Hi. simpl in *. apply lookup_delete_Some in Hw as [_ Hw]. by eapply Hh.
  - destruct (assignments s !! rq_SandboxUID req) as [old|] eqn:Ho.
    { exists s. unfold Assign. rewrite Ho. split_and!; first [done|constructor]. }
    destruct (decide (rq_SlotProfile req = "")) as [Hp|Hp].
    { exists s. unfold Assign. rewrite Ho, decide_True by done.
      split_and!; first [done|constructor]. }
    destruct (Assign_cases req s Ho Hp) as [[HN _]|(key & id & g & Hs & HG)].
    + exists s. rewrite HN. split_and!; first [done|constructor].
    + eexists. rewrite HG. destruct (grant_inv req key id g s) as [H1 H2]; [done..|].
      split_and!; done.
  - eexists. destruct (Restore_inv a s) as [H1 H2]; [done..|]. split_and!; done.
  - eexists. destruct (Release_inv u s Hinv) as [H1 H2]. split_and!; [done|done| |done].
    rewrite H2. constructor.
Qed.

(** C2. Every operation of the scheduler refines the abstract lease table: from a state that
    satisfies the invariant it terminates without panicking in a state that satisfies it again,
    and the leases it changes are at most one lease taken by a Sandbox that had none, of a Slot
    nobody leased, or one lease ended. [UpdateWorker] and [RemoveWorker] never change a lease.
    [Restore] needs, only where it does not see the Slot or sees it reported for this Sandbox, that
    no other Sandbox is recorded on that Slot ([restore_sound]). *)
Theorem scheduler_refines_leases `{!StrategyLaws G} (s : memoryScheduler G) op :
  sched_inv s -> restore_sound s op ->
  exists s', sched_step s op = Some s' /\ sched_inv s' /\ lease_step (leases s) (leases s') /\
    match op with
    | OpUpdateWorker _ | OpRemoveWorker _ => leases s' = leases s
    | OpRelease uid => leases s' = delete uid (leases s)
    | _ => True
    end.
Proof. apply sched_step_spec. Qed.

(** The states the scheduler reaches from [New], each [Restore] being sound. *)
Inductive sched_reachable (g : G) : memoryScheduler G -> Prop :=
  | reach_New : sched_reachable g (New g)
  | reach_step s op s' : sched_reachable g s -> restore_sound s op ->
      sched_step s op = Some s' -> sched_reachable g s'.

Lemma reachable_inv `{!StrategyLaws G} g s : sched_reachable g s -> sched_inv s.
Proof.
  induction 1 as [|s op s' _ IH Hs Hstep]; [apply sched_inv_New|].
  destruct (sched_step_spec s op) as (s'' & Hs' & Hinv & _); [done..|]. by simplify_eq.
Qed.

(** C1. Exclusive ownership: in every state that the scheduler reaches from its start by operations of
    any arguments, provided only that a [Restore] of a Slot which it does not see, or sees reported
    for this Sandbox, names a Slot that no other Sandbox is recorded on ([restore_sound]; the code has
    nothing to check there), two Sandboxes never hold the same Slot of the same Worker, an assigned
    Slot is not schedulable for anybody, and no operation, sound or not, panics. *)
Theorem exclusive_ownership `{!StrategyLaws G} g s :
  sched_reachable g s ->
  (forall u1 u2 a1 a2, Get u1 s = Some a1 -> Get u2 s = Some a2 ->
     as_Worker a1 = as_Worker a2 -> as_SlotID a1 = as_SlotID a2 -> u1 = u2) /\
  (forall u a req, Get u s = Some a -> ¬ schedulable s req (as_Worker a) (as_SlotID a)) /\
  (forall op, sched_step s op <> None).
Proof.
  intros Hinv%reachable_inv. split_and!.
  - intros u1 u2 a1 a2 H1 H2. apply (assignments_exclusive s); [apply (si_exclusive s Hinv)|done..].
  - intros u a req Ha (_ & _ & w & i & Hw & _ & Hi & Hf & _). by apply (si_held s Hinv u a w i).
  - intros op Hnone. destruct op as [| | |a|]; try done.
    by destruct (sched_step_spec s (OpAssign req) Hinv I) as (s' & Hs' & _); congruence.
Qed.

(** After [Release] of a Sandbox whose Worker still reports the Slot under the Sandbox's
    UID, the Slot is free again and the same request can be given it: the Slot is schedulable
    for a request of its Worker's namespace and pool and of the Slot's profile, if the Worker is
    healthy. *)
Theorem release_makes_schedulable (s : memoryScheduler G) u a w i req :
  Get u s = Some a -> workers s !! as_Worker a = Some w -> ws_Slots w !! as_SlotID a = Some i ->
  info_SandboxUID i = u -> ws_Healthy w = true ->
  rq_Namespace req = wk_Namespace (as_Worker a) -> rq_Pool req = wk_Pool (as_Worker a) ->
  rq_SlotProfile req = info_Profile i ->
  Get u (Release u s) = None /\ schedulable (Release u s) req (as_Worker a) (as_SlotID a).
Proof.
  intros Ha Hw Hi Hui Hh Hns Hp Hpr. split.
  { unfold Get. rewrite Release_assignments. apply lookup_delete_eq. }
  unfold Get in Ha. unfold schedulable, Release. rewrite Ha. cbn [workers set_assignments].
  rewrite Hw, Hi, decide_False by tauto. split_and!; [done|done|].
  eexists _, _. cbn [workers set_workers ws_Slots set_ws_Slots].
  rewrite !lookup_insert_eq. cbn [ws_Slots set_ws_Slots]. split_and!; [done|done|by simpl; rewrite lookup_insert_eq|done|done].
Qed.

Lemma UpdateWorker_slot_determined order1 order2 key slots (s : memoryScheduler G) :
  exclusive (leases s) -> order1 ≡ₚ map_to_list (assignments s) ->
  order2 ≡ₚ map_to_list (assignments s) ->
  foldl (reserve_assigned key) slots order1 = foldl (reserve_assigned key) slots order2.
Proof.
  intros Hex Ho1 Ho2. apply map_eq. intros id.
  destruct (decide (Exists (fun e => as_Worker e.2 = key /\ as_SlotID e.2 = id)
              (map_to_list (assignments s)))) as [HE|HE].
  - apply Exists_exists in HE as ([u a] & Hua & Hk & Hid). simpl in *.
    assert (Hhit : forall order, order ≡ₚ map_to_list (assignments s) ->
      foldl (reserve_assigned key) slots order !! id = reserve_info u <$> slots !! id).
    { intros order Ho. apply (foldl_reserve_hit _ _ _ _ u a); try done.
      - rewrite Ho. apply NoDup_fst_map_to_list.
      - by rewrite Ho.
      - intros u' a' Hin Hk' Hid'. rewrite Ho in Hin. apply elem_of_map_to_list in Hin, Hua.
        apply (assignments_exclusive s u' u a' a); first [done|congruence]. }
    by rewrite !Hhit.
  - assert (Hno : forall order, order ≡ₚ map_to_list (assignments s) ->
      foldl (reserve_assigned key) slots order !! id = slots !! id).
    { intros order Ho. apply foldl_reserve_stable. intros u a Hua Hc. rewrite Ho in Hua.
      apply HE, Exists_exists. by exists (u, a). }
    by rewrite !Hno.
Qed.

(** [UpdateWorker] loops over the assignments in Go's random map order, and the order does
    not matter: with exclusive leases every order gives the same state. *)
Theorem update_worker_order_irrelevant order state (s : memoryScheduler G) :
  sched_inv s -> order ≡ₚ map_to_list (assignments s) ->
  UpdateWorker_in order state s = UpdateWorker state s.
Proof.
  intros Hinv Ho. unfold UpdateWorker, UpdateWorker_in.
  by rewrite (UpdateWorker_slot_determined order (map_to_list (assignments s)) _ _ s
                (si_exclusive s Hinv)).
Qed.

(** ** Restart *)

Definition restore_all (g : G) (persisted : list Assignment) : memoryScheduler G * list error :=
  foldl (fun '(s, errs) a => let '(s', e) := Restore a s in (s', errs ++ option_list e))
    (New g, []) persisted.

Lemma restore_all_spec g (l : list (UID * Assignment)) :
  NoDup l.*1 -> Forall (fun e => as_SandboxUID e.2 = e.1) l ->
  restore_all g l.*2 = (mkScheduler ∅ (list_to_map l) g, []).
Proof.
  revert l. refine (rev_ind _ _ _); [done|]. intros [u a] l IH Hnd Hf.
  rewrite fmap_app in Hnd. apply NoDup_app in Hnd as (Hnd & Hfresh & _).
  apply Forall_app in Hf as [Hf Hu]. apply Forall_cons in Hu as [Hu _].
  simpl in Hu. subst u.
  unfold restore_all. rewrite fmap_app, foldl_app. fold (restore_all g l.*2).
  rewrite IH by done. cbn [fmap list_fmap foldl snd]. unfold Restore. cbn [assignments workers].
  rewrite (proj1 (not_elem_of_list_to_map l (as_SandboxUID a))).
  - rewrite lookup_empty. simpl. f_equal. unfold set_assignments. simpl. f_equal.
    rewrite list_to_map_snoc; [done|]. intros Hin. apply (Hfresh _ Hin). by left.
  - intros Hin. apply (Hfresh _ Hin). by left.
Qed.

(** Restart: restoring the persisted assignments of a lease-table-respecting scheduler into
    an empty one, in any order and before any Worker is discovered, fails for none of them and
    rebuilds exactly the same assignments, and the Workers reported afterwards get the same
    reservations as before the restart. *)
Theorem restart_restores (g : G) (s : memoryScheduler G) persisted state :
  sched_inv s -> persisted ≡ₚ map_to_list (assignments s) ->
  (restore_all g persisted.*2).2 = [] /\
  assignments (restore_all g persisted.*2).1 = assignments s /\
  workers (UpdateWorker state (restore_all g persisted.*2).1) !! ws_Key state =
    workers (UpdateWorker state s) !! ws_Key state.
Proof.
  intros Hinv Hp. rewrite restore_all_spec.
  - cbn [fst snd assignments].
    assert (Hm : assignments s = list_to_map persisted) by (by apply list_to_map_flip).
    rewrite <- Hm.
    split_and!; [done|done|]. unfold UpdateWorker, UpdateWorker_in, set_workers.
    cbn [workers assignments]. by rewrite !lookup_insert_eq.
  - rewrite Hp. apply NoDup_fst_map_to_list.
  - rewrite Hp. apply Forall_forall. intros [u a] Hin%elem_of_map_to_list.
    by apply (si_uid s Hinv).
Qed.
End Scheduler.

(** ** The bin-packing choice *)

(** [BinPackStrategy] chooses the least candidate of a total order, whatever the order it
    is given them in: with distinct (Worker name, Slot) pairs every permutation of the
    candidates gives the same choice, that choice beats every other candidate, an idle Worker
    is chosen only when no in-use Worker has a free Slot, and among in-use Workers the choice
    has the fewest free Slots. *)
Theorem binpack_chooses_least g req cands :
  cands <> [] ->
  (forall a b, a ∈ cands -> b ∈ cands -> wk_Name (cd_Worker a) = wk_Name (cd_Worker b) ->
     cd_SlotID a = cd_SlotID b -> a = b) ->
  exists best, best ∈ cands /\
    (forall cands', cands' ≡ₚ cands -> BinPackStrategy_Select g req cands' = (g, Ok best)) /\
    (forall c, c ∈ cands -> c <> best -> binPackBetter best c = true) /\
    (forall c, c ∈ cands -> (0 < cd_BusySlots c)%Z ->
       (0 < cd_BusySlots best)%Z /\ (cd_FreeSlots best <= cd_FreeSlots c)%Z).
Proof.
  intros Hne Hdist.
  assert (Hsel : forall l, l ≡ₚ cands -> exists best, BinPackStrategy_Select g req l = (g, Ok best) /\
    best ∈ cands /\ forall c', c' ∈ cands -> binpack_compare best c' <> Gt).
  { intros [|c l] Hl; [by apply Permutation_nil_l in Hl; subst|].
    destruct (BinPack_Select_spec g req c l) as (best & H1 & H2 & H3).
    exists best. split; [done|]. split; [by rewrite <- Hl|]. intros c' Hc'. apply H3. by rewrite Hl. }
  destruct (Hsel cands) as (best & _ & Hin & Hle); [done|]. exists best. split; [done|].
  assert (Heq : forall c, c ∈ cands -> binpack_compare best c = Eq -> c = best).
  { intros c Hc [Hn Hi]%binpack_compare_eq. by apply Hdist. }
  split_and!.
  - intros l Hl. destruct (Hsel l Hl) as (b & -> & Hb & Hbl). f_equal. f_equal. apply Heq; [done|].
    specialize (Hbl best Hin). specialize (Hle b Hb).
    rewrite (cmp_opp binpack_compare best b) in Hbl. by destruct (binpack_compare best b).
  - intros c Hc Hcb. rewrite binPackBetter_compare. specialize (Hle c Hc).
    destruct (binpack_compare best c) eqn:E; [by apply Heq in E|done|done].
  - intros c Hc Hbusy. specialize (Hle c Hc). revert Hle.
    unfold binpack_compare, lex, on, idle_first, fit.
    rewrite (proj2 (Z.gtb_lt (cd_BusySlots c) 0)) by lia.
    destruct (cd_BusySlots best >? 0)%Z eqn:Eb; cbn [Z.compare]; [|done].
    apply Z.gtb_lt in Eb. intros Hle. split; [lia|].
    destruct (cd_FreeSlots best ?= cd_FreeSlots c)%Z eqn:E; try done; apply Z.compare_le_iff; congruence.
Qed.

Module SchedulerWitness.
Import SchedulerTests.

Definition k : WorkerKey := mkWorkerKey "ns" "pool" "worker".
Definition one_worker : memoryScheduler StableStrategy :=
  UpdateWorker (worker "ns" "pool" "worker" "small" [0; 1]%Z) (New mkStable).
Definition r1 : AssignRequest := req "sandbox-1" "small".
Definition held : memoryScheduler StableStrategy :=
  default one_worker (fst <$> Assign r1 one_worker).
Definition a1 : Assignment := mkAssignment "sandbox-1" "ns" "sandbox" k 0 "small".

(** A concrete state and the one-lease table it holds. *)
Lemma held_reachable : sched_reachable mkStable held.
Proof.
  apply (reach_step _ one_worker (OpAssign r1)); [|done|by vm_compute].
  by apply (reach_step _ (New mkStable) (OpUpdateWorker (worker "ns" "pool" "worker" "small" [0; 1]%Z)));
    [constructor|done|].
Qed.
Lemma held_inv : sched_inv held.
Proof. apply (reachable_inv mkStable), held_reachable. Qed.
Lemma held_get : Get "sandbox-1" held = Some a1.
Proof. by vm_compute. Qed.

Lemma assign_grants_one_free_slot_witness :
  exists key id, a1 = granted r1 key id /\ schedulable one_worker r1 key id /\
    held = after_grant r1 key id (strategy held) one_worker.
Proof. apply (assign_grants_one_free_slot r1 one_worker held a1). by vm_compute. Defined.

Lemma assign_capacity_exact_witness :
  ((exists s' a, Assign r1 one_worker = Some (s', Ok a)) <->
     (exists key id, schedulable one_worker r1 key id)) /\
  ((forall key id, ¬ schedulable one_worker r1 key id) ->
     Assign r1 one_worker = Some (one_worker, Err ErrNoCapacity)).
Proof. apply (assign_capacity_exact r1 one_worker); by vm_compute. Defined.

Lemma scheduler_refines_leases_witness :
  exists s', sched_step held (OpRelease "sandbox-1") = Some s' /\ sched_inv s' /\
    lease_step (leases held) (leases s') /\ leases s' = delete "sandbox-1" (leases held).
Proof. apply (scheduler_refines_leases held (OpRelease "sandbox-1")); [apply held_inv|done]. Defined.

Lemma exclusive_ownership_witness :
  Get "sandbox-1" held = Some a1 /\ ¬ schedulable held r1 (as_Worker a1) (as_SlotID a1).
Proof.
  split; [apply held_get|].
  exact (proj1 (proj2 (exclusive_ownership mkStable held held_reachable)) "sandbox-1" a1 r1 held_get).
Defined.

Lemma release_makes_schedulable_witness :
  Get "sandbox-1" (Release "sandbox-1" held) = None /\
  schedulable (Release "sandbox-1" held) r1 k 0%Z.
Proof.
  eapply (release_makes_schedulable held "sandbox-1" a1 _ _ r1);
    [apply held_get|by vm_compute|by vm_compute|by vm_compute|by vm_compute|by vm_compute..].
Defined.

Lemma update_worker_order_irrelevant_witness :
  UpdateWorker_in [("sandbox-1", a1)] (worker "ns" "pool" "worker" "small" [0]%Z) held =
  UpdateWorker (worker "ns" "pool" "worker" "small" [0]%Z) held.
Proof.
  apply (update_worker_order_irrelevant [("sandbox-1", a1)]); [apply held_inv|].
  replace (map_to_list (assignments held)) with [("sandbox-1", a1)] by (by vm_compute). done.
Defined.

Lemma restart_restores_witness :
  (restore_all mkStable [a1]).2 = [] /\
  assignments (restore_all mkStable [a1]).1 = assignments held /\
  workers (UpdateWorker (worker "ns" "pool" "worker" "small" [0]%Z) (restore_all mkStable [a1]).1) !! k =
    workers (UpdateWorker (worker "ns" "pool" "worker" "small" [0]%Z) held) !! k.
Proof.
  apply (restart_restores mkStable held [("sandbox-1", a1)]
           (worker "ns" "pool" "worker" "small" [0]%Z)); [apply held_inv|].
  replace (map_to_list (assignments held)) with [("sandbox-1", a1)] by (by vm_compute). done.
Defined.

Definition idle_candidate : Candidate := mkCandidate (mkWorkerKey "ns" "pool" "a") 0 "small" 1 0.
Definition used_candidate : Candidate := mkCandidate (mkWorkerKey "ns" "pool" "b") 0 "small" 2 1.

Lemma binpack_chooses_least_witness :
  exists best, best ∈ [idle_candidate; used_candidate] /\
    (forall cands', cands' ≡ₚ [idle_candidate; used_candidate] ->
       BinPackStrategy_Select tt r1 cands' = (tt, Ok best)) /\
    (forall c, c ∈ [idle_candidate; used_candidate] -> c <> best -> binPackBetter best c = true) /\
    (forall c, c ∈ [idle_candidate; used_candidate] -> (0 < cd_BusySlots c)%Z ->
       (0 < cd_BusySlots best)%Z /\ (cd_FreeSlots best <= cd_FreeSlots c)%Z).
Proof.
  apply (binpack_chooses_least tt r1 [idle_candidate; used_candidate]); [done|].
  intros a b. rewrite !elem_of_cons, !elem_of_nil.
  intros [->|[->|[]]] [->|[->|[]]]; by vm_compute.
Defined.

(** [Restore] does not check the Slot of a Worker it has not seen yet: two different
    Sandboxes persisted on the same Slot are both restored without an error, and the Slot has
    two owners until one is released. (With the Worker known the second one is rejected.) *)
Theorem restore_double_books_unknown_worker :
  let a2 := mkAssignment "sandbox-2" "ns" "other" k 0 "small" in
  let '(s1, e1) := Restore a1 (New mkStable) in
  let '(s2, e2) := Restore a2 s1 in
  e1 = None /\ e2 = None /\ Get "sandbox-1" s2 = Some a1 /\ Get "sandbox-2" s2 = Some a2 /\
  (Restore a2 (Restore a1 one_worker).1).2 = Some (restore_conflict_slot a2 "sandbox-1").
Proof. by vm_compute. Qed.
End SchedulerWitness.
