(* ===== verification/Strings.v ===== *)
(** * Go's strings and path packages

    The functions of the Go standard library the program calls on strings and slash-separated
    paths, as executable definitions on byte strings, with the lemmas the components share:
    splitting and joining are inverse, cleaning a clean path changes nothing. *)

From Stdlib Require Export Ascii.
From S2P Require Import Prelude.

(** ** Characters *)

Definition slash : ascii := "/"%char.
Definition newline : ascii := Ascii.ascii_of_nat 10.
Definition carriage_return : ascii := Ascii.ascii_of_nat 13.
Definition tab : ascii := Ascii.ascii_of_nat 9.
Definition backslash : ascii := Ascii.ascii_of_nat 92.
Definition nl : string := String newline "".

Definition of_bytes (l : list nat) : string :=
  String.string_of_list_ascii (map Ascii.ascii_of_nat l).

(** ** Package strings *)

(** [strings.HasPrefix(s, p)]. *)
Definition HasPrefix (s p : string) : bool := String.prefix p s.

(** The bytes of [s] after its first [n]. *)
Fixpoint drop_bytes (n : nat) (s : string) : string :=
  match n, s with
  | O, _ => s
  | S n', String _ s' => drop_bytes n' s'
  | S _, EmptyString => ""
  end.

Fixpoint take_bytes (n : nat) (s : string) : string :=
  match n, s with
  | O, _ => ""
  | S n', String c s' => String c (take_bytes n' s')
  | S _, EmptyString => ""
  end.

(** [strings.HasSuffix(s, suffix)]. *)
Definition HasSuffix (s suffix : string) : bool :=
  (String.length suffix <=? String.length s) &&
  bool_decide (drop_bytes (String.length s - String.length suffix) s = suffix).

(** [strings.TrimPrefix], [strings.TrimSuffix]. *)
Definition TrimPrefix (s p : string) : string :=
  if HasPrefix s p then drop_bytes (String.length p) s else s.
Definition TrimSuffix (s suffix : string) : string :=
  if HasSuffix s suffix then take_bytes (String.length s - String.length suffix) s else s.

(** [strings.Contains(s, sub)]. *)
Fixpoint Contains (s sub : string) : bool :=
  String.prefix sub s ||
  match s with EmptyString => false | String _ s' => Contains s' sub end.

Fixpoint has_char (c : ascii) (s : string) : bool :=
  match s with
  | EmptyString => false
  | String d s' => bool_decide (c = d) || has_char c s'
  end.

(** [strings.Split(s, sep)] for a separator of one byte. *)
Fixpoint Split (sep : ascii) (s : string) : list string :=
  match s with
  | EmptyString => [""]
  | String c s' =>
      if bool_decide (c = sep) then "" :: Split sep s'
      else match Split sep s' with
           | [] => [String c ""]
           | first :: rest => String c first :: rest
           end
  end.

(** [strings.Cut(s, sep)] for a separator of one byte; [strings.SplitN(s, sep, 2)] has two
    parts exactly when the separator occurs, and then they are these. *)
Fixpoint Cut (sep : ascii) (s : string) : option (string * string) :=
  match s with
  | EmptyString => None
  | String c s' =>
      if bool_decide (c = sep) then Some ("", s')
      else '(before, after) ← Cut sep s'; Some (String c before, after)
  end.

(** [strings.LastIndex(s, sub)], [None] for -1. *)
Fixpoint LastIndex (s sub : string) : option nat :=
  match s with
  | EmptyString => if String.prefix sub "" then Some 0 else None
  | String _ s' =>
      match LastIndex s' sub with
      | Some i => Some (S i)
      | None => if String.prefix sub s then Some 0 else None
      end
  end.

(** [strings.Map] with a function that deletes or keeps a byte. *)
Fixpoint filter_bytes (keep : ascii -> bool) (s : string) : string :=
  match s with
  | EmptyString => ""
  | String c s' => if keep c then String c (filter_bytes keep s') else filter_bytes keep s'
  end.

(** The UTF-8 encodings of the characters of [unicode.IsSpace]. *)
Definition spaces : list string :=
  of_bytes <$> [[9]; [10]; [11]; [12]; [13]; [32]; [194; 133]; [194; 160]; [225; 154; 128];
    [226; 128; 128]; [226; 128; 129]; [226; 128; 130]; [226; 128; 131]; [226; 128; 132];
    [226; 128; 133]; [226; 128; 134]; [226; 128; 135]; [226; 128; 136]; [226; 128; 137];
    [226; 128; 138]; [226; 128; 168]; [226; 128; 169]; [226; 128; 175]; [226; 129; 159];
    [227; 128; 128]].

Fixpoint trim_left (fuel : nat) (s : string) : string :=
  match fuel with
  | O => s
  | S fuel' =>
      match List.find (fun sp => HasPrefix s sp) spaces with
      | Some sp => trim_left fuel' (TrimPrefix s sp)
      | None => s
      end
  end.

Fixpoint trim_right (fuel : nat) (s : string) : string :=
  match fuel with
  | O => s
  | S fuel' =>
      match List.find (fun sp => HasSuffix s sp) spaces with
      | Some sp => trim_right fuel' (TrimSuffix s sp)
      | None => s
      end
  end.

(** [strings.TrimSpace]; every step removes a byte, so the length is enough fuel. *)
Definition TrimSpace (s : string) : string :=
  let s := trim_left (String.length s) s in trim_right (String.length s) s.

(** [strings.TrimRight(s, cutset)] for a cutset of one byte. *)
Fixpoint TrimRight (c : ascii) (s : string) : string :=
  match s with
  | EmptyString => ""
  | String d s' =>
      match TrimRight c s' with
      | EmptyString => if bool_decide (d = c) then "" else String d ""
      | rest => String d rest
      end
  end.

(** ** Package strconv *)

Definition digit_value (c : ascii) : Z := Z.of_nat (Ascii.nat_of_ascii c) - 48.
Definition is_digit (c : ascii) : bool :=
  (0 <=? digit_value c)%Z && (digit_value c <=? 9)%Z.

Fixpoint all_digits (s : string) : bool :=
  match s with EmptyString => true | String c s' => is_digit c && all_digits s' end.

(** The number the leading digits of [s] denote, after [acc]. *)
Fixpoint parse_digits (s : string) (acc : Z) : Z :=
  match s with
  | String c s' => if is_digit c then parse_digits s' (acc * 10 + digit_value c)%Z else acc
  | EmptyString => acc
  end.

(** An optional sign and the text after it. *)
Definition parse_sign (s : string) : bool * string :=
  match s with
  | String c s' =>
      if bool_decide (c = "-"%char) then (true, s')
      else if bool_decide (c = "+"%char) then (false, s')
      else (false, s)
  | EmptyString => (false, s)
  end.

(** [strconv.ParseInt(s, 10, bits)], [None] for an error. *)
Definition ParseInt (s : string) (bits : Z) : option Z :=
  let '(negative, body) := parse_sign s in
  if bool_decide (body = "") || negb (all_digits body) then None
  else
    let n := parse_digits body 0 in
    let n := if negative then (- n)%Z else n in
    if ((- 2 ^ (bits - 1) <=? n) && (n <=? 2 ^ (bits - 1) - 1))%Z then Some n else None.

(** ** Package path *)

(** One path component of [path.Clean], which keeps the components so far in reverse. *)
Definition clean_step (rooted : bool) (acc : list string) (c : string) : list string :=
  if bool_decide (c = "") || bool_decide (c = ".") then acc
  else if bool_decide (c = "..") then
    match acc with
    | [] => if rooted then [] else [".."]
    | last :: rest => if bool_decide (last = "..") then ".." :: acc else rest
    end
  else c :: acc.

Definition clean_components (rooted : bool) (p : string) : list string :=
  reverse (foldl (clean_step rooted) [] (Split slash p)).

(** [path.Clean]. *)
Definition Clean (p : string) : string :=
  let rooted := HasPrefix p "/" in
  let body := strings_Join (clean_components rooted p) "/" in
  if rooted then String slash body else if bool_decide (body = "") then "." else body.

(** [path.Join]. *)
Definition path_Join (elems : list string) : string :=
  match filter (fun e => e <> "") elems with
  | [] => ""
  | es => Clean (strings_Join es "/")
  end.

(** [path.Base]. *)
Definition path_Base (p : string) : string :=
  if bool_decide (p = "") then "."
  else
    let p := TrimRight slash p in
    let p := default "" (last (Split slash p)) in
    if bool_decide (p = "") then "/" else p.

(** ** Lemmas *)

Lemma string_app_nil_r s : s +:+ "" = s.
Proof. induction s as [|c s IH]; [done|]. change (String c (s +:+ "") = String c s). by rewrite IH. Qed.

Lemma string_app_cons c s t : String c s +:+ t = String c (s +:+ t).
Proof. done. Qed.

Lemma string_app_assoc s t u : s +:+ (t +:+ u) = (s +:+ t) +:+ u.
Proof.
  induction s as [|c s IH]; [done|]. rewrite !string_app_cons. by rewrite IH.
Qed.

Lemma length_app_string s t : String.length (s +:+ t) = String.length s + String.length t.
Proof. induction s as [|c s IH]; [done|]. rewrite string_app_cons. simpl. by rewrite IH. Qed.

Lemma drop_bytes_app s t : drop_bytes (String.length s) (s +:+ t) = t.
Proof. induction s as [|c s IH]; [done|]. rewrite string_app_cons. done. Qed.

Lemma take_bytes_app s t : take_bytes (String.length s) (s +:+ t) = s.
Proof.
  induction s as [|c s IH]; [by destruct t|]. rewrite string_app_cons. simpl. by rewrite IH.
Qed.

Lemma take_bytes_all n s : String.length s <= n -> take_bytes n s = s.
Proof.
  revert s. induction n as [|n IH]; intros [|c s] Hs; simpl in *; try done; [lia|].
  by rewrite IH by lia.
Qed.

Lemma HasPrefix_app p s : HasPrefix (p +:+ s) p = true.
Proof.
  unfold HasPrefix. induction p as [|c p IH]; [by destruct s|]. rewrite string_app_cons. simpl.
  by destruct (ascii_dec c c).
Qed.

Lemma HasPrefix_true s p : HasPrefix s p = true -> exists t, s = p +:+ t.
Proof.
  unfold HasPrefix. revert s. induction p as [|c p IH]; intros s.
  - intros _. by exists s.
  - destruct s as [|d s]; simpl; [done|]. destruct (ascii_dec c d) as [->|]; [|done].
    intros (t & ->)%IH. by exists t.
Qed.

Lemma HasSuffix_app s t : HasSuffix (s +:+ t) t = true.
Proof.
  unfold HasSuffix. rewrite length_app_string.
  replace (String.length s + String.length t - String.length t) with (String.length s) by lia.
  rewrite drop_bytes_app, bool_decide_true by done. rewrite andb_true_r. apply Nat.leb_le. lia.
Qed.

Lemma TrimSuffix_app s t : TrimSuffix (s +:+ t) t = s.
Proof.
  unfold TrimSuffix. rewrite HasSuffix_app, length_app_string.
  replace (String.length s + String.length t - String.length t) with (String.length s) by lia.
  apply take_bytes_app.
Qed.

Lemma HasSuffix_true s t : HasSuffix s t = true -> exists u, s = u +:+ t.
Proof.
  unfold HasSuffix. rewrite andb_true_iff, bool_decide_eq_true.
  assert (Hd : forall n u, exists v, u = v +:+ drop_bytes n u).
  { induction n as [|n IH]; intros u; [by exists ""|]. destruct u as [|c u]; [by exists ""|].
    simpl. destruct (IH u) as [v Hv]. exists (String c v). rewrite string_app_cons. by f_equal. }
  intros [_ Ht]. destruct (Hd (String.length s - String.length t) s) as [v Hv].
  exists v. by rewrite Ht in Hv.
Qed.

Lemma TrimPrefix_app p s : TrimPrefix (p +:+ s) p = s.
Proof. unfold TrimPrefix. rewrite HasPrefix_app. apply drop_bytes_app. Qed.

Lemma has_char_app c s t : has_char c (s +:+ t) = has_char c s || has_char c t.
Proof.
  induction s as [|d s IH]; [done|]. rewrite string_app_cons. simpl. by rewrite IH, orb_assoc.
Qed.

Lemma Split_nonempty sep s : Split sep s <> [].
Proof. destruct s; simpl; [done|]. case_bool_decide; [done|]. by destruct (Split sep s). Qed.

Lemma Split_no_sep sep s : Forall (fun c => has_char sep c = false) (Split sep s).
Proof.
  induction s as [|c s IH]; simpl; [by repeat constructor|].
  case_bool_decide as Hc; [by constructor|].
  destruct (Split sep s) as [|first rest]; inversion_clear IH; constructor; simpl; try done;
    by rewrite bool_decide_false.
Qed.

Lemma Split_single sep s : has_char sep s = false -> Split sep s = [s].
Proof.
  induction s as [|c s IH]; simpl; [done|]. intros [Hc Hs]%orb_false_elim.
  rewrite bool_decide_false; [by rewrite IH|]. intros ->. by rewrite bool_decide_true in Hc.
Qed.

Lemma Split_app sep a s :
  has_char sep a = false -> Split sep (a +:+ String sep s) = a :: Split sep s.
Proof.
  induction a as [|c a IH]; intros Ha.
  - change (Split sep (String sep s) = "" :: Split sep s). simpl. by rewrite bool_decide_true.
  - simpl in Ha. apply orb_false_elim in Ha as [Hc Ha].
    change (Split sep (String c (a +:+ String sep s)) = String c a :: Split sep s). cbn [Split].
    rewrite bool_decide_false; [by rewrite IH|]. intros ->. by rewrite bool_decide_true in Hc.
Qed.

Lemma Split_snoc sep s : Split sep (s +:+ String sep "") = Split sep s ++ [""].
Proof.
  induction s as [|c s IH]; [simpl; by rewrite bool_decide_true|].
  rewrite string_app_cons. cbn [Split]. rewrite IH. case_bool_decide; [done|].
  destruct (Split sep s) as [|a l] eqn:E; [by destruct (Split_nonempty sep s)|done].
Qed.

(** Splitting what was joined gives the parts back, when no part holds the separator. *)
Lemma Split_Join sep l :
  l <> [] -> Forall (fun c => has_char sep c = false) l ->
  Split sep (strings_Join l (String sep "")) = l.
Proof.
  induction l as [|a [|b l] IH]; intros Hne Hl; [done| |].
  - apply Forall_cons in Hl as [Hl _]. by apply Split_single.
  - apply Forall_cons in Hl as [Ha Hl].
    change (strings_Join (a :: b :: l) (String sep "")) with
      (a +:+ String sep (strings_Join (b :: l) (String sep ""))).
    rewrite Split_app by done. f_equal. by apply IH.
Qed.

Lemma Join_Split sep s : strings_Join (Split sep s) (String sep "") = s.
Proof.
  induction s as [|c s IH]; [done|]. simpl. case_bool_decide as Hc.
  - subst. destruct (Split sep s) as [|a l] eqn:E; [by destruct (Split_nonempty sep s)|].
    change (String sep (strings_Join (a :: l) (String sep "")) = String sep s). by rewrite IH.
  - destruct (Split sep s) as [|a l] eqn:E; [by destruct (Split_nonempty sep s)|].
    destruct l as [|b l]; simpl in *; [by subst|].
    change (String c (a +:+ String sep "" +:+ strings_Join (b :: l) (String sep "")) = String c s).
    f_equal. exact IH.
Qed.

Lemma Cut_Some sep s before after :
  Cut sep s = Some (before, after) <->
  s = before +:+ String sep after /\ has_char sep before = false.
Proof.
  revert before. induction s as [|c s IH]; intros before; simpl.
  { split; [done|]. intros [Hs _]. by destruct before. }
  case_bool_decide as Hc.
  - subst. split.
    + intros [= <- <-]. done.
    + intros [Hs Hb]. destruct before as [|d before].
      * change (String sep s = String sep after) in Hs. by simplify_eq.
      * rewrite string_app_cons in Hs. simplify_eq. simpl in Hb. by rewrite bool_decide_true in Hb.
  - split.
    + intros ([b a] & Hcut & [= <- <-])%bind_Some. apply IH in Hcut as [-> Hb].
      rewrite string_app_cons. split; [done|]. simpl. by rewrite bool_decide_false.
    + intros [Hs Hb]. destruct before as [|d before].
      * change (String c s = String sep after) in Hs. by simplify_eq.
      * rewrite string_app_cons in Hs. simplify_eq. simpl in Hb.
        apply orb_false_elim in Hb as [_ Hb]. apply bind_Some. exists (before, after).
        split; [|done]. by apply IH.
Qed.

(** *** Clean paths *)

(** A component [path.Clean] keeps as it is. *)
Definition plain_component (c : string) : Prop :=
  c <> "" /\ c <> "." /\ c <> ".." /\ has_char slash c = false.
#[export] Instance plain_component_dec c : Decision (plain_component c).
Proof. unfold plain_component. apply _. Defined.

Lemma clean_step_plain rooted acc c :
  c <> "" -> c <> "." -> c <> ".." -> clean_step rooted acc c = c :: acc.
Proof. intros. unfold clean_step. by rewrite !bool_decide_false. Qed.

Lemma clean_fold_plain rooted l : forall acc,
  Forall plain_component l -> foldl (clean_step rooted) acc l = reverse l ++ acc.
Proof.
  induction l as [|c l IH]; intros acc Hl; [done|]. apply Forall_cons in Hl as [(H1 & H2 & H3 & _) Hl].
  cbn [foldl]. rewrite clean_step_plain, IH by done. by rewrite reverse_cons, <- app_assoc.
Qed.

(** What the components of a cleaned path look like: a run of dot-dots that only an
    unrooted path can have, then plain components. *)
Lemma clean_fold_shape rooted l : forall acc,
  Forall (fun c => has_char slash c = false) l ->
  (exists ps ds, acc = ps ++ ds /\ Forall plain_component ps /\ Forall (fun d => d = "..") ds /\
     (rooted = true -> ds = [])) ->
  exists ps ds, foldl (clean_step rooted) acc l = ps ++ ds /\ Forall plain_component ps /\
    Forall (fun d => d = "..") ds /\ (rooted = true -> ds = []).
Proof.
  induction l as [|c l IH]; intros acc Hl Hacc; [done|]. cbn [foldl].
  apply Forall_cons in Hl as [Hc Hl]. apply IH; [done|].
  destruct Hacc as (ps & ds & -> & Hps & Hds & Hr). unfold clean_step.
  destruct (bool_decide (c = "") || bool_decide (c = ".")) eqn:E; [by exists ps, ds|].
  apply orb_false_elim in E as [E1%bool_decide_eq_false E2%bool_decide_eq_false].
  case_bool_decide as E3.
  - destruct ps as [|p ps].
    + destruct ds as [|d ds]; simpl.
      * destruct rooted; [by exists [], []|]. exists [], [".."]. split_and!; try done.
        by repeat constructor.
      * apply Forall_cons in Hds as [-> Hds]. rewrite bool_decide_true by done.
        exists [], (".." :: ".." :: ds). split_and!; try done; [by repeat constructor|].
        intros Ht. by apply Hr in Ht.
    + apply Forall_cons in Hps as [(_ & _ & Hp & _) Hps]. simpl. rewrite bool_decide_false by done.
      by exists ps, ds.
  - exists (c :: ps), ds. split_and!; try done. by constructor.
Qed.

Lemma Clean_plain_absolute l :
  Forall plain_component l -> Clean (String slash (strings_Join l "/")) = String slash (strings_Join l "/").
Proof.
  intros Hl. unfold Clean.
  assert (Hr : HasPrefix (String slash (strings_Join l "/")) "/" = true)
    by (apply (HasPrefix_app "/")).
  rewrite Hr. f_equal. f_equal. unfold clean_components.
  cbn [Split]. rewrite bool_decide_true by done.
  change (reverse (foldl (clean_step true) [] (Split slash (strings_Join l "/"))) = l).
  destruct l as [|a l]; [done|]. rewrite Split_Join; [|done|].
  - rewrite clean_fold_plain by done. by rewrite app_nil_r, reverse_involutive.
  - eapply Forall_impl; [exact Hl|]. by intros c (_ & _ & _ & Hc).
Qed.

(** *** Decimal numbers *)

Lemma pretty_N_char_digit x :
  (x < 10)%N -> is_digit (pretty_N_char x) = true /\ digit_value (pretty_N_char x) = Z.of_N x.
Proof.
  intros Hx.
  assert (H : forallb (fun n => let x := N.of_nat n in
      is_digit (pretty_N_char x) && (digit_value (pretty_N_char x) =? Z.of_N x)%Z) (seq 0 10) = true)
    by (vm_compute; reflexivity).
  rewrite forallb_forall in H. specialize (H (N.to_nat x)). rewrite in_seq in H.
  specialize (H ltac:(lia)). rewrite N2Nat.id in H. simpl in H.
  apply andb_true_iff in H as [H1 H2%Z.eqb_eq]. done.
Qed.

Lemma pretty_N_go_digits x : forall s, all_digits s = true ->
  all_digits (pretty_N_go x s) = true /\
  parse_digits (pretty_N_go x s) 0 = parse_digits s (Z.of_N x).
Proof.
  induction (N.lt_wf_0 x) as [x _ IH]; intros s Hs.
  destruct (decide (0 < x)%N) as [Hx|Hx].
  - rewrite pretty_N_go_step by done.
    destruct (pretty_N_char_digit (x mod 10)) as [Hd Hv]; [by apply N.mod_lt|].
    destruct (IH (x / 10)%N (N.div_lt x 10 Hx eq_refl) (String (pretty_N_char (x mod 10)) s))
      as [IH1 IH2]; [simpl; by rewrite Hd|].
    split; [done|]. rewrite IH2. simpl. rewrite Hd, Hv.
    f_equal. rewrite (N.div_mod x 10) at 3 by done. lia.
  - assert (x = 0)%N as -> by lia. by rewrite pretty_N_go_0.
Qed.

Lemma itoa_nonneg n :
  (0 <= n)%Z -> all_digits (itoa n) = true /\ itoa n <> "" /\ parse_digits (itoa n) 0 = n.
Proof.
  intros Hn. destruct n as [|p|p]; [by vm_compute| |lia].
  change (itoa (Z.pos p)) with (pretty (N.pos p)). unfold pretty, pretty_N.
  rewrite decide_False by done.
  destruct (pretty_N_go_digits (N.pos p) "") as [H1 H2]; [done|].
  split_and!; [done| |done]. intros He. rewrite He in H2. done.
Qed.

Lemma pretty_N_go_length k x s : (x < 10 ^ N.of_nat k)%N -> String.length (pretty_N_go x s) <= k + String.length s.
Proof.
  revert x s. induction k as [|k IH]; intros x s Hx.
  - replace x with 0%N by (cbn in Hx; lia). by rewrite pretty_N_go_0.
  - destruct (N.eq_dec x 0%N) as [->|Hne]; [rewrite pretty_N_go_0; lia|]. rewrite pretty_N_go_step by lia.
    etrans; [apply IH|cbn; lia]. rewrite Nat2N.inj_succ, N.pow_succ_r' in Hx. apply N.Div0.div_lt_upper_bound. lia.
Qed.
Lemma itoa_length k n : (0 <= n < 10 ^ Z.of_nat (S k))%Z -> (Z.of_nat (String.length (itoa n)) <= Z.of_nat (S k))%Z.
Proof.
  intros Hn. destruct n as [|p|p]; [|change (itoa (Z.pos p)) with (pretty (N.pos p))|lia].
  { change (String.length (itoa 0)) with 1. lia. }
  unfold pretty, pretty_N. rewrite decide_False by done.
  pose proof (pretty_N_go_length (S k) (N.pos p) "") as H. rewrite Nat.add_0_r in H. apply inj_le, H.
  apply N2Z.inj_lt. rewrite N2Z.inj_pow, nat_N_Z. lia.
Qed.

Lemma all_digits_no_char c s : is_digit c = false -> all_digits s = true -> has_char c s = false.
Proof.
  intros Hc. induction s as [|d s IH]; [done|]. cbn [all_digits has_char].
  intros [Hd Hs]%andb_true_iff. rewrite IH by done. rewrite bool_decide_false; [done|].
  intros ->. congruence.
Qed.

(** A slot id is a plain path component. *)
Lemma itoa_plain n : (0 <= n)%Z -> plain_component (itoa n).
Proof.
  intros Hn. destruct (itoa_nonneg n Hn) as (Hd & Hne & _).
  split_and!; [done| | |by apply all_digits_no_char]; intros He; rewrite He in Hd; by vm_compute in Hd.
Qed.

Lemma parse_sign_digits s : all_digits s = true -> parse_sign s = (false, s).
Proof.
  destruct s as [|c s]; [done|]. simpl. intros [Hc _]%andb_true_iff.
  rewrite !bool_decide_false; [done|intros ->; by vm_compute in Hc..].
Qed.

Lemma ParseInt_itoa n bits :
  (0 <= n)%Z -> (n <= 2 ^ (bits - 1) - 1)%Z -> ParseInt (itoa n) bits = Some n.
Proof.
  intros Hn Hb. destruct (itoa_nonneg n Hn) as (Hd & Hne & Hp).
  unfold ParseInt. rewrite parse_sign_digits, bool_decide_false, Hd, Hp by done. simpl.
  assert (0 <= 2 ^ (bits - 1))%Z by (apply Z.pow_nonneg; lia).
  rewrite (proj2 (Z.leb_le _ _)) by lia. by rewrite (proj2 (Z.leb_le _ _)) by lia.
Qed.

(** *** Trimming *)

Fixpoint last_char (s : string) : option ascii :=
  match s with
  | EmptyString => None
  | String c "" => Some c
  | String _ s' => last_char s'
  end.
Definition first_char (s : string) : option ascii :=
  match s with EmptyString => None | String c _ => Some c end.

Lemma last_char_app s t : t <> "" -> last_char (s +:+ t) = last_char t.
Proof.
  intros Ht. induction s as [|c s IH]; [done|]. rewrite string_app_cons. simpl.
  destruct (s +:+ t) eqn:E; [|by rewrite <- IH]. by destruct s, t.
Qed.

(** A character that neither starts nor ends the encoding of a space. *)
Definition not_space (c : ascii) : bool :=
  forallb (fun sp => negb (bool_decide (first_char sp = Some c)) &&
                     negb (bool_decide (last_char sp = Some c))) spaces.

Lemma not_space_spec c sp :
  not_space c = true -> sp ∈ spaces -> first_char sp <> Some c /\ last_char sp <> Some c /\ sp <> "".
Proof.
  unfold not_space. rewrite forallb_forall. intros H Hin. specialize (H sp).
  rewrite <- list_elem_of_In, andb_true_iff, !negb_true_iff, !bool_decide_eq_false in H.
  destruct (H Hin) as [H1 H2]. split_and!; [done|done|].
  assert (Hs : forallb (fun sp => negb (bool_decide (sp = ""))) spaces = true)
    by (vm_compute; reflexivity).
  rewrite forallb_forall in Hs. specialize (Hs sp).
  rewrite <- list_elem_of_In, negb_true_iff, bool_decide_eq_false in Hs. by apply Hs.
Qed.

Lemma find_none {A} (f : A -> bool) l : (forall x, x ∈ l -> f x = false) -> List.find f l = None.
Proof.
  induction l as [|x l IH]; intros Hl; simpl; [done|]. rewrite (Hl x) by left.
  apply IH. intros y Hy. apply Hl. by right.
Qed.

Lemma no_space_prefix c s sp :
  not_space c = true -> sp ∈ spaces -> HasPrefix (String c s) sp = false.
Proof.
  intros Hc Hin. destruct (not_space_spec c sp Hc Hin) as (H1 & _ & Hne).
  destruct (HasPrefix _ _) eqn:Hp; [|done]. apply HasPrefix_true in Hp as [t Ht].
  destruct sp as [|d sp]; [done|]. rewrite string_app_cons in Ht. simplify_eq.
Qed.

Lemma no_space_suffix c s sp :
  not_space c = true -> last_char s = Some c -> sp ∈ spaces -> HasSuffix s sp = false.
Proof.
  intros Hc Hl Hin. destruct (not_space_spec c sp Hc Hin) as (_ & H2 & Hne).
  destruct (HasSuffix _ _) eqn:Hp; [|done]. apply HasSuffix_true in Hp as [t ->].
  by rewrite last_char_app in Hl.
Qed.

Lemma trim_left_id fuel c s : not_space c = true -> trim_left fuel (String c s) = String c s.
Proof.
  intros Hc. destruct fuel; [done|]. cbn [trim_left].
  rewrite find_none; [done|]. intros sp Hin. by apply no_space_prefix.
Qed.

Lemma trim_right_id fuel c s :
  not_space c = true -> last_char s = Some c -> trim_right fuel s = s.
Proof.
  intros Hc Hl. destruct fuel; [done|]. cbn [trim_right].
  rewrite find_none; [done|]. intros sp Hin. by apply (no_space_suffix c).
Qed.

Lemma TrimSpace_id c d s :
  not_space c = true -> not_space d = true -> last_char (String c s) = Some d ->
  TrimSpace (String c s) = String c s.
Proof.
  intros Hc Hd Hl. unfold TrimSpace. rewrite trim_left_id by done. by apply (trim_right_id _ d).
Qed.

Lemma HasSuffix_nl_other s sp :
  sp ∈ spaces -> HasSuffix (s +:+ nl) sp = true -> sp = nl.
Proof.
  intros Hin Hs. apply HasSuffix_true in Hs as [t Ht].
  assert (Hl : last_char (s +:+ nl) = Some newline) by by rewrite last_char_app.
  assert (H : forallb (fun sp => bool_decide (sp = nl) || negb (bool_decide (last_char sp = Some newline)))
                spaces = true) by (vm_compute; reflexivity).
  rewrite forallb_forall in H. specialize (H sp). rewrite <- list_elem_of_In in H.
  specialize (H Hin). apply orb_true_iff in H as [H%bool_decide_eq_true|H]; [done|].
  apply negb_true_iff, bool_decide_eq_false in H. rewrite Ht in Hl.
  destruct (decide (sp = "")) as [->|Hne]; [by vm_compute in Hin; set_solver|].
  by rewrite last_char_app in Hl.
Qed.

(** A line without white space at its ends. *)
Lemma TrimSpace_line c d s :
  not_space c = true -> not_space d = true -> last_char (String c s) = Some d ->
  TrimSpace (String c s +:+ nl) = String c s.
Proof.
  intros Hc Hd Hl. unfold TrimSpace. rewrite string_app_cons, trim_left_id by done.
  rewrite <- string_app_cons. rewrite length_app_string. cbn [String.length nl].
  rewrite Nat.add_comm. cbn [Nat.add trim_right].
  destruct (List.find _ _) as [sp|] eqn:Hf.
  - apply List.find_some in Hf as [Hin Hs]. apply list_elem_of_In in Hin.
    apply HasSuffix_nl_other in Hs as ->; [|done]. rewrite TrimSuffix_app.
    exact (trim_right_id (S (String.length s)) d (String c s) Hd Hl).
  - exfalso. eapply List.find_none in Hf; [|apply list_elem_of_In; right; by left].
    change (HasSuffix (String c s +:+ nl) nl = false) in Hf. by rewrite HasSuffix_app in Hf.
Qed.

(** *** The last occurrence *)

Lemma LastIndex_app w t sub i :
  LastIndex t sub = Some i -> LastIndex (w +:+ t) sub = Some (String.length w + i).
Proof.
  intros Hi. induction w as [|c w IH]; [done|]. rewrite string_app_cons. cbn [LastIndex].
  by rewrite IH.
Qed.

Lemma LastIndex_no_char s c sub :
  has_char c s = false -> LastIndex s (String c sub) = None.
Proof.
  induction s as [|d s IH]; intros Hs; [done|]. simpl in Hs. apply orb_false_elim in Hs as [Hd Hs].
  apply bool_decide_eq_false in Hd. cbn [LastIndex]. rewrite IH by done. cbn [String.prefix].
  by destruct (ascii_dec c d).
Qed.

Lemma has_char_filter c keep s : keep c = false -> has_char c (filter_bytes keep s) = false.
Proof.
  intros Hc. induction s as [|d s IH]; simpl; [done|]. destruct (keep d) eqn:Hd; [|done].
  simpl. rewrite IH, bool_decide_false; [done|]. by intros ->; rewrite Hc in Hd.
Qed.

Lemma all_digits_last s c :
  all_digits s = true -> last_char s = Some c -> is_digit c = true.
Proof.
  induction s as [|d s IH]; [done|]. simpl. intros [Hd Hs]%andb_true_iff.
  destruct s; [by intros [= <-]|by apply IH].
Qed.

Lemma last_char_Some s : s <> "" -> exists c, last_char s = Some c.
Proof.
  induction s as [|d s IH]; [done|]. intros _. simpl. destruct s; [by exists d|by apply IH].
Qed.

Lemma is_digit_not_space c : is_digit c = true -> not_space c = true.
Proof.
  intros Hc. destruct c as [[] [] [] [] [] [] [] []]; first [by vm_compute|by vm_compute in Hc].
Qed.
