(* ===== verification/Base64.v ===== *)
(** * Go's encoding/base64 (StdEncoding)

    [EncodeToString] and [DecodeString] on byte strings: groups of three bytes, four digits of
    six bits, padding. Decoding what was encoded gives the bytes back. *)

From S2P Require Import Prelude Strings.
#[local] Open Scope N_scope.
#[local] Ltac Zify.zify_post_hook ::= Z.to_euclidean_division_equations.

Definition alphabet : string := "ABCDEFGHIJKLMNOPQRSTUVWXYZabcdefghijklmnopqrstuvwxyz0123456789+/".
Definition pad : ascii := "="%char.

Fixpoint index_char (c : ascii) (s : string) : option N :=
  match s with
  | EmptyString => None
  | String d s' => if bool_decide (c = d) then Some 0 else N.succ <$> index_char c s'
  end.

Definition digit (d : N) : ascii := default pad (String.get (N.to_nat d) alphabet).
Definition undigit (c : ascii) : option N := index_char c alphabet.

Definition byte (v : N) : ascii := Ascii.ascii_of_N (v mod 256).
Definition value (c : ascii) : N := Ascii.N_of_ascii c.

(** The four digits of a 24-bit group. *)
Definition d1 (v : N) : ascii := digit (v / 262144).
Definition d2 (v : N) : ascii := digit (v / 4096 mod 64).
Definition d3 (v : N) : ascii := digit (v / 64 mod 64).
Definition d4 (v : N) : ascii := digit (v mod 64).

Fixpoint EncodeToString (s : string) : string :=
  match s with
  | EmptyString => ""
  | String a EmptyString =>
      let v := value a * 65536 in String (d1 v) (String (d2 v) (String pad (String pad "")))
  | String a (String b EmptyString) =>
      let v := value a * 65536 + value b * 256 in
      String (d1 v) (String (d2 v) (String (d3 v) (String pad "")))
  | String a (String b (String c rest)) =>
      let v := value a * 65536 + value b * 256 + value c in
      String (d1 v) (String (d2 v) (String (d3 v) (String (d4 v) (EncodeToString rest))))
  end.

Fixpoint decode_groups (s : string) : option string :=
  match s with
  | EmptyString => Some ""
  | String c1 (String c2 (String c3 (String c4 rest))) =>
      x1 ← undigit c1; x2 ← undigit c2;
      if bool_decide (c3 = pad) then
        if bool_decide (c4 = pad /\ rest = "") then
          let v := x1 * 262144 + x2 * 4096 in Some (String (byte (v / 65536)) "")
        else None
      else
        x3 ← undigit c3;
        if bool_decide (c4 = pad) then
          if bool_decide (rest = "") then
            let v := x1 * 262144 + x2 * 4096 + x3 * 64 in
            Some (String (byte (v / 65536)) (String (byte (v / 256)) ""))
          else None
        else
          x4 ← undigit c4;
          tail ← decode_groups rest;
          let v := x1 * 262144 + x2 * 4096 + x3 * 64 + x4 in
          Some (String (byte (v / 65536)) (String (byte (v / 256)) (String (byte v) tail)))
  | _ => None
  end.

Definition not_newline (c : ascii) : bool :=
  negb (bool_decide (c = newline)) && negb (bool_decide (c = carriage_return)).

(** The decoder skips line breaks. *)
Definition DecodeString (s : string) : result string :=
  match decode_groups (filter_bytes not_newline s) with
  | Some data => Ok data
  | None => Err (Plain "illegal base64 data")
  end.

(** ** Round trip *)

Lemma undigit_digit d : d < 64 -> undigit (digit d) = Some d.
Proof.
  intros Hd.
  assert (H : forallb (fun n => bool_decide (undigit (digit (N.of_nat n)) = Some (N.of_nat n)))
                (seq 0 64) = true) by (vm_compute; reflexivity).
  rewrite forallb_forall in H. specialize (H (N.to_nat d)). rewrite in_seq in H.
  specialize (H ltac:(lia)). apply bool_decide_eq_true in H. by rewrite N2Nat.id in H.
Qed.

Lemma digit_not_pad d : d < 64 -> digit d <> pad.
Proof. intros Hd%undigit_digit Hp. rewrite Hp in Hd. vm_compute in Hd. done. Qed.

Lemma digit_not_newline d : d < 64 -> not_newline (digit d) = true.
Proof.
  intros Hd%undigit_digit. unfold not_newline.
  rewrite !bool_decide_false; [done|intros Hp; rewrite Hp in Hd; by vm_compute in Hd..].
Qed.

Lemma value_lt c : value c < 256.
Proof. apply Ascii.N_ascii_bounded. Qed.

Lemma byte_value c v : v mod 256 = value c -> byte v = c.
Proof. intros Hv. unfold byte. rewrite Hv. apply Ascii.ascii_N_embedding. Qed.

#[export] Hint Resolve digit_not_pad digit_not_newline undigit_digit value_lt : fleet.

Section Group.
Context (v : N) (Hv : v < 16777216).
Lemma d1_lt : v / 262144 < 64. Proof using Hv. lia. Qed.
Lemma d2_lt : v / 4096 mod 64 < 64. Proof. clear Hv. lia. Qed.
Lemma d3_lt : v / 64 mod 64 < 64. Proof. clear Hv. lia. Qed.
Lemma d4_lt : v mod 64 < 64. Proof. clear Hv. lia. Qed.
Lemma group_digits :
  v / 262144 * 262144 + v / 4096 mod 64 * 4096 + v / 64 mod 64 * 64 + v mod 64 = v.
Proof. clear Hv. lia. Qed.
End Group.

#[local] Ltac digit_bound :=
  solve [eauto using d1_lt, d2_lt, d3_lt, d4_lt].

(** Induction over a string three bytes at a time. *)
Lemma string_ind3 (P : string -> Prop) :
  P "" -> (forall a, P (String a "")) -> (forall a b, P (String a (String b ""))) ->
  (forall a b c s, P s -> P (String a (String b (String c s)))) -> forall s, P s.
Proof.
  intros H0 H1 H2 H3. fix IH 1. intros [|a [|b [|c s]]]; [apply H0|apply H1|apply H2|].
  apply H3, IH.
Qed.

Lemma decode_encode s : decode_groups (EncodeToString s) = Some s.
Proof.
  induction s as [|a|a b|a b c s IH] using string_ind3; [done|..]; cbn [EncodeToString];
    pose proof (value_lt a); try pose proof (value_lt b); try pose proof (value_lt c).
  - set (v := value a * 65536). assert (Hv : v < 16777216) by lia.
    cbn [decode_groups]. unfold d1, d2.
    rewrite !undigit_digit by digit_bound. cbn [mbind option_bind].
    rewrite !bool_decide_true by done. repeat f_equal. apply byte_value.
    pose proof (group_digits v). lia.
  - set (v := value a * 65536 + value b * 256). assert (Hv : v < 16777216) by lia.
    cbn [decode_groups]. unfold d1, d2, d3.
    rewrite !undigit_digit by digit_bound.
    cbn [mbind option_bind]. rewrite bool_decide_false by (apply digit_not_pad; digit_bound).
    rewrite !bool_decide_true by done.
    pose proof (group_digits v). repeat f_equal; apply byte_value; lia.
  - set (v := value a * 65536 + value b * 256 + value c). assert (Hv : v < 16777216) by lia.
    cbn [decode_groups]. unfold d1, d2, d3, d4.
    rewrite !undigit_digit by digit_bound.
    cbn [mbind option_bind]. rewrite !bool_decide_false
      by (apply digit_not_pad; digit_bound).
    rewrite IH. cbn [mbind option_bind]. rewrite group_digits.
    repeat f_equal; apply byte_value; lia.
Qed.

Lemma encode_no_newline s : filter_bytes not_newline (EncodeToString s) = EncodeToString s.
Proof.
  induction s as [|a|a b|a b c s IH] using string_ind3; [done|..]; cbn [EncodeToString];
    pose proof (value_lt a); try pose proof (value_lt b); try pose proof (value_lt c);
    cbn [filter_bytes]; unfold d1, d2, d3, d4;
    rewrite ?digit_not_newline by (first [digit_bound|apply d1_lt; lia]).
  - by replace (not_newline pad) with true by done.
  - by replace (not_newline pad) with true by done.
  - by rewrite IH.
Qed.

Lemma DecodeString_lines s wrapped :
  filter_bytes not_newline wrapped = EncodeToString s -> DecodeString wrapped = Ok s.
Proof. intros Hw. unfold DecodeString. by rewrite Hw, decode_encode. Qed.

(** ** Length *)

Lemma EncodeToString_length s : String.length (EncodeToString s) = (4 * ((String.length s + 2) / 3))%nat.
Proof.
  enough (H : forall n s, (String.length s < n)%nat -> String.length (EncodeToString s) = (4 * ((String.length s + 2) / 3))%nat)
    by (apply (H (S (String.length s))); lia).
  clear s. induction n as [|n IH]; intros s Hn; [lia|].
  destruct s as [|a [|b [|c rest]]]; [done..|]. cbn [EncodeToString String.length] in *.
  rewrite (IH rest) by lia. replace (S (S (S (String.length rest))) + 2)%nat with (1 * 3 + (String.length rest + 2))%nat by lia.
  rewrite Nat.div_add_l by done. lia.
Qed.
