(* ===== verification/Runtime.v ===== *)
(** * The runtime interface and the sandbox file access (internal/runtime)

    The data a Worker exchanges with a container runtime, the file-path policy of files.go and
    the shell-based file access of files_shell.go. Every backend reaches a sandbox's files by
    running [sh] inside it; the transport ([exec]) is a parameter. *)

From S2P Require Import Prelude Prog Strings Base64 Slot.

(* go: internal/runtime/runtime.go ErrNotFound *)
Definition ErrNotFound : error := Sentinel "runtime object not found".

(** [SandboxIdentity] has the same three fields in internal/runtime and internal/workerapi. *)
(* go: internal/runtime/runtime.go SandboxIdentity *)
Record SandboxIdentity := mkIdentity {
  id_Namespace : string;
  id_Name : string;
  id_UID : UID;
}.

#[export] Instance SandboxIdentity_eq_dec : EqDecision SandboxIdentity.
Proof. solve_decision. Defined.

Definition no_identity : SandboxIdentity := mkIdentity "" "" "".

(* go: internal/runtime/runtime.go EnvironmentVariable *)
Record EnvironmentVariable := mkEnv {
  env_Name : string;
  env_Value : string;
}.

(* go: internal/runtime/runtime.go ContainerConfig *)
Record ContainerConfig := mkContainerConfig {
  cc_Image : string;
  cc_Command : list string;
  cc_Args : list string;
  cc_Env : list EnvironmentVariable;
}.

(* go: internal/runtime/runtime.go CreateRequest *)
Record CreateRequest `{QuantityApi} := mkCreateRequest {
  cr_Identity : SandboxIdentity;
  cr_SlotID : Z;
  cr_Resources : ResourceRequirements;
  cr_Container : ContainerConfig;
}.

(* go: internal/runtime/runtime.go ID *)
Record ID := mkID { id_Value : string }.

#[export] Instance ID_eq_dec : EqDecision ID.
Proof. solve_decision. Defined.

(** The runtime's own state of a sandbox; any other text is [RtOther]. *)
(* go: internal/runtime/runtime.go 43-50 State *)
Inductive RuntimeState :=
  | RtCreated
  | RtRunning
  | RtStopped
  | RtUnknown
  | RtOther (text : string).

#[export] Instance RuntimeState_eq_dec : EqDecision RuntimeState.
Proof. solve_decision. Defined.

(* go: internal/runtime/runtime.go Status *)
Record Status := mkStatus {
  st_State : RuntimeState;
  st_ExitCode : Z;
  st_Message : string;
}.

(* go: internal/runtime/runtime.go Info *)
Record RuntimeInfo := mkRuntimeInfo {
  ri_ID : ID;
  ri_Identity : SandboxIdentity;
  ri_SlotID : Z;
  ri_Status : Status;
}.

(** A [time.Duration] in nanoseconds. *)
Definition Second : Z := 1000000000.

(* go: internal/runtime/runtime.go ExecRequest *)
Record ExecRequest := mkExecRequest {
  ex_Command : list string;
  ex_Timeout : Z;
}.

(* go: internal/runtime/runtime.go ExecResult *)
Record ExecResult := mkExecResult {
  xr_ExitCode : Z;
  xr_Stdout : string;
  xr_Stderr : string;
}.

(* go: internal/runtime/files.go DefaultFilesRoot *)
Definition DefaultFilesRoot : string := "/app".
(* go: internal/runtime/files.go MaxFileBytes *)
Definition MaxFileBytes : Z := 2 ^ 20.
(* go: internal/runtime/files.go FileTypeFile *)
Definition FileTypeFile : string := "file".
(* go: internal/runtime/files.go FileTypeDirectory *)
Definition FileTypeDirectory : string := "directory".

(* go: internal/runtime/files.go FileEntry *)
Record FileEntry := mkFileEntry {
  fe_Name : string;
  fe_Type : string;
}.

#[export] Instance FileEntry_eq_dec : EqDecision FileEntry.
Proof. solve_decision. Defined.

(** [len(data)]. *)
Definition len (data : string) : Z := Z.of_nat (String.length data).

(** ** Paths (files.go) *)

(* go: internal/runtime/files.go ResolveUnderRoot *)
Definition ResolveUnderRoot (filesRoot rel : string) : result string :=
  let stripped := TrimSpace rel in
  if bool_decide (stripped = "") then Err (Plain "path must not be empty")
  else
    let normalized := TrimPrefix (Clean stripped) "/" in
    if bool_decide (normalized = "..") || HasPrefix normalized "../" then
      Err (Plain "path escapes files root")
    else if existsb (fun part => bool_decide (part = "..")) (Split slash normalized) then
      Err (Plain "path escapes files root")
    else if bool_decide (normalized = ".") || bool_decide (normalized = "") then Ok filesRoot
    else Ok (path_Join [filesRoot; normalized]).

Definition not_plain (name : string) : error :=
  Plain ("write path " +:+ quote name +:+ " is not a plain filename").

(* go: internal/runtime/files.go ValidateWriteName *)
Definition ValidateWriteName (name : string) : option error :=
  if bool_decide (TrimSpace name = "") then Some (Plain "write path must not be empty")
  else
    let base := path_Base name in
    if bool_decide (base = ".") || bool_decide (base = "..") || bool_decide (base = "/") ||
       negb (bool_decide (base = name)) then Some (not_plain name)
    else if Contains name "/" || Contains name (String backslash "") then Some (not_plain name)
    else None.

(** ** Shell-based file access (files_shell.go) *)

(** The text of a Go raw string, with each of its double quotes written as a backquote (a raw
    string cannot hold one). *)
Fixpoint raw (s : string) : string :=
  match s with
  | EmptyString => ""
  | String c s' => String (if bool_decide (c = "`"%char) then Ascii.ascii_of_nat 34 else c) (raw s')
  end.

Definition read_script : string := raw "
set -e
f=`$1`
n=$(wc -c < `$f` | tr -d ' \t\n')
if [ `$n` = 0 ]; then
  printf 'READ_VERIFY bytes=0\n'
  exit 0
fi
base64 `$f`
printf 'READ_VERIFY bytes=%s\n' `$n`
".

Definition write_script : string := raw "mkdir -p `$(dirname -- `$1`)` || exit 1
printf %s `$2` | base64 -d > `$1` || exit 1
got=$(wc -c < `$1` | tr -d ' \t\n')
echo `WRITE_VERIFY path=$1 want=$3 got=$got`
test `$got` = `$3`
".

Definition list_script : string := raw "
if [ ! -d `$1` ]; then
  echo `not a directory` >&2
  exit 2
fi
ls -1A `$1` 2>/dev/null | while IFS= read -r name; do
  [ -n `$name` ] || continue
  if [ -d `$1/$name` ]; then
    printf 'directory\t%s\n' `$name`
  else
    printf 'file\t%s\n' `$name`
  fi
done
".

Definition exists_script : string := raw "if [ -e `$1` ]; then echo 1; else echo 0; fi".

Definition trailer : string := "READ_VERIFY bytes=".

(** [fmt.Sscanf(meta, trailer + "%d", &n)]: white space but no line break may come before the
    number, which has an optional sign and must fit an int64; [None] leaves [n] unset. *)
Fixpoint skip_spaces (fuel : nat) (s : string) : string :=
  match fuel with
  | O => s
  | S fuel' =>
      match List.find (fun sp => HasPrefix s sp && negb (bool_decide (sp = nl))) spaces with
      | Some sp => skip_spaces fuel' (TrimPrefix s sp)
      | None => s
      end
  end.
Definition scan_int (s : string) : option Z :=
  let '(negative, body) := parse_sign (skip_spaces (String.length s) s) in
  match body with
  | String c _ =>
      if is_digit c then
        let n := parse_digits body 0 in
        let n := if negative then (- n)%Z else n in
        if (- 2 ^ 63 <=? n)%Z && (n <=? 2 ^ 63 - 1)%Z then Some n else None
      else None
  | EmptyString => None
  end.

(** [stdout] without its trailer, and the size the trailer announces, -1 without one. *)
(* go: internal/runtime/files_shell.go 41-47 ReadFileVia *)
Definition split_trailer (stdout : string) : string * Z :=
  match LastIndex stdout trailer with
  | Some i =>
      let meta := TrimSpace (drop_bytes i stdout) in
      (take_bytes i stdout, default (-1)%Z (scan_int (TrimPrefix meta trailer)))
  | None => (stdout, (-1)%Z)
  end.

Section Via.
Context {E : Type} `{EF : !Effect E} (exec : ExecRequest -> prog E (result ExecResult)).

Definition read_request (absPath : string) : ExecRequest :=
  mkExecRequest ["sh"; "-c"; read_script; "read"; absPath] (60 * Second).
Definition write_request (absPath encoded want : string) : ExecRequest :=
  mkExecRequest ["sh"; "-c"; write_script; "write"; absPath; encoded; want] (60 * Second).

Definition exit_error (verb absPath : string) (r : ExecResult) : error :=
  Plain (verb +:+ " " +:+ quote absPath +:+ ": exit " +:+ itoa (xr_ExitCode r) +:+ " stderr=" +:+
         TrimSpace (xr_Stderr r)).

(** What [ReadFileVia] does with the output of the script. *)
(* go: internal/runtime/files_shell.go 38-74 ReadFileVia *)
Definition decode_read (absPath : string) (r : ExecResult) : result string :=
  if negb (xr_ExitCode r =? 0)%Z then Err (exit_error "read" absPath r)
  else
    let '(stdout, wantBytes) := split_trailer (xr_Stdout r) in
    let encoded := filter_bytes not_newline stdout in
    if bool_decide (encoded = "") then
      if (wantBytes =? 0)%Z then Ok ""
      else if (0 <? wantBytes)%Z then
        Err (Plain ("read " +:+ quote absPath +:+ ": empty stdout but guest file has " +:+
                    itoa wantBytes +:+ " bytes (agent stream drained too early?)"))
      else Err (Plain ("read " +:+ quote absPath +:+
                       ": empty stdout (agent stream drained too early?)"))
    else
      match DecodeString encoded with
      | Err err => Err (wrap_prefix "decode file content" err)
      | Ok data =>
          if (0 <=? wantBytes)%Z && negb (len data =? wantBytes)%Z then
            Err (Plain ("read " +:+ quote absPath +:+ ": decoded " +:+ itoa (len data) +:+
                        " bytes, guest wc=" +:+ itoa wantBytes))
          else if (MaxFileBytes <? len data)%Z then
            Err (Plain ("file exceeds " +:+ itoa MaxFileBytes +:+ " bytes"))
          else Ok data
      end.

(* go: internal/runtime/files_shell.go ReadFileVia *)
Definition ReadFileVia (absPath : string) : prog E (result string) :=
  result ← exec (read_request absPath);
  match result with
  | Err err => Ret (Err err)
  | Ok r => Ret (decode_read absPath r)
  end.

(* go: internal/runtime/files_shell.go WriteFileVia *)
Definition WriteFileVia (absPath content : string) : prog E (option error) :=
  if (MaxFileBytes <? len content)%Z then
    Ret (Some (Plain ("content exceeds " +:+ itoa MaxFileBytes +:+ " bytes")))
  else
    let encoded := EncodeToString content in
    let want := itoa (len content) in
    result ← exec (write_request absPath encoded want);
    match result with
    | Err err => Ret (Some err)
    | Ok r =>
        if negb (xr_ExitCode r =? 0)%Z then
          Ret (Some (Plain ("write " +:+ quote absPath +:+ ": exit " +:+ itoa (xr_ExitCode r) +:+
                      " stdout=" +:+ TrimSpace (xr_Stdout r) +:+
                      " stderr=" +:+ TrimSpace (xr_Stderr r))))
        else Ret None
    end.

(* go: internal/runtime/files_shell.go 133-148 ListFilesVia *)
Definition parse_list (stdout : string) : list FileEntry :=
  omap (fun line =>
    if bool_decide (line = "") then None
    else match Cut tab line with
         | None => None
         | Some (kind, name) =>
             if bool_decide (name = "") then None
             else if negb (bool_decide (kind = FileTypeFile)) &&
                     negb (bool_decide (kind = FileTypeDirectory)) then None
             else Some (mkFileEntry name kind)
         end)
    (Split newline (TrimSuffix stdout nl)).

(* go: internal/runtime/files_shell.go ListFilesVia *)
Definition ListFilesVia (absPath : string) : prog E (result (list FileEntry)) :=
  result ← exec (mkExecRequest ["sh"; "-c"; list_script; "list"; absPath] (30 * Second));
  match result with
  | Err err => Ret (Err err)
  | Ok r =>
      if negb (xr_ExitCode r =? 0)%Z then Ret (Err (exit_error "list" absPath r))
      else Ret (Ok (parse_list (xr_Stdout r)))
  end.

(* go: internal/runtime/files_shell.go FileExistsVia *)
Definition FileExistsVia (absPath : string) : prog E (result bool) :=
  result ← exec (mkExecRequest ["sh"; "-c"; exists_script; "exists"; absPath] (30 * Second));
  match result with
  | Err err => Ret (Err err)
  | Ok r =>
      if negb (xr_ExitCode r =? 0)%Z then Ret (Err (exit_error "exists" absPath r))
      else Ret (Ok (bool_decide (TrimSpace (xr_Stdout r) = "1")))
  end.
End Via.
