(* ===== verification/RuntimeFacts.v ===== *)
(** * Correctness of the sandbox file access

    Reads and lists never leave the files root and writes name a plain file in it; a file
    written through the shell and read back has the same bytes, as long as its base64 fits into one
    argument of a command; a truncated or lost stream is
    an error, never a short file. *)

From S2P Require Import Prelude Prog Strings Base64 Slot Runtime.

(** ** Paths *)

Lemma TrimPrefix_none s p : HasPrefix s p = false -> TrimPrefix s p = s.
Proof. unfold TrimPrefix. by intros ->. Qed.

Lemma has_char_Join c l sep :
  Forall (fun x => has_char c x = false) l -> has_char c sep = false ->
  has_char c (strings_Join l sep) = false.
Proof.
  intros Hl Hs. induction l as [|a [|b l] IH]; [done|by apply Forall_cons in Hl as [? _]|].
  apply Forall_cons in Hl as [Ha Hl].
  change (has_char c (a +:+ (sep +:+ strings_Join (b :: l) sep)) = false).
  by rewrite !has_char_app, Ha, Hs, IH.
Qed.

Lemma Join_cons_slash ds rest :
  rest <> [] -> strings_Join (ds :: rest) "/" = ds +:+ String slash (strings_Join rest "/").
Proof. by destruct rest. Qed.

(** The components of [path.Clean p], unless [p] is unrooted and cleans to dots. *)
Lemma Clean_shape p :
  (exists l, Clean p = String slash (strings_Join l "/") /\ Forall plain_component l) \/
  Clean p = "." \/
  (exists n l, Clean p = strings_Join (replicate n ".." ++ l) "/" /\
     Forall plain_component l /\ replicate n ".." ++ l <> []).
Proof.
  unfold Clean. set (rooted := HasPrefix p "/").
  destruct (clean_fold_shape rooted (Split slash p) []) as (ps & ds & Hf & Hps & Hds & Hr).
  { apply Split_no_sep. }
  { by exists [], []. }
  assert (Hc : clean_components rooted p = replicate (length ds) ".." ++ reverse ps).
  { unfold clean_components. rewrite Hf, reverse_app. f_equal.
    clear -Hds. induction Hds as [|d ds -> Hds IH]; [done|]. rewrite reverse_cons, IH. simpl.
    clear. induction ds as [|d ds IH]; [done|]. simpl. by rewrite IH. }
  rewrite Hc. apply Forall_reverse in Hps. destruct rooted.
  { left. exists (reverse ps). by rewrite Hr. }
  right. case_bool_decide as Hb; [by left|]. right.
  exists (length ds), (reverse ps). split_and!; [done|done|]. intros He. by rewrite He in Hb.
Qed.

Lemma plain_join_escapes l :
  Forall plain_component l ->
  strings_Join l "/" <> ".." /\ HasPrefix (strings_Join l "/") "../" = false /\
  strings_Join l "/" <> "." /\
  existsb (fun part => bool_decide (part = "..")) (Split slash (strings_Join l "/")) = false.
Proof.
  intros Hl. destruct l as [|a l]; [by split_and!|].
  apply Forall_cons in Hl as [(H1 & H2 & H3 & H4) Hl].
  assert (Hex : existsb (fun part => bool_decide (part = "..")) (a :: l) = false).
  { simpl. rewrite bool_decide_false by done. simpl.
    clear -Hl. induction Hl as [|b l (_ & _ & Hb & _) Hl IH]; simpl; [done|].
    by rewrite bool_decide_false. }
  assert (Hs : Split slash (strings_Join (a :: l) "/") = a :: l).
  { apply Split_Join; [done|]. constructor; [done|]. eapply Forall_impl; [exact Hl|].
    by intros c (_ & _ & _ & Hc). }
  split_and!.
  - intros He. rewrite He in Hs. vm_compute in Hs. simplify_eq.
  - destruct (HasPrefix _ _) eqn:Hp; [|done]. apply HasPrefix_true in Hp as [t Ht].
    rewrite Ht in Hs. change ("../" +:+ t) with (".." +:+ String slash t) in Hs.
    rewrite Split_app in Hs by done. simplify_eq.
  - intros He. rewrite He in Hs. vm_compute in Hs. simplify_eq.
  - by rewrite Hs.
Qed.

Lemma Join_empty l : Forall plain_component l -> strings_Join l "/" = "" -> l = [].
Proof.
  destruct l as [|a [|b l]]; [done| |]; intros Hl; apply Forall_cons in Hl as [(H1 & _) _];
    simpl; [done|]. destruct a; done.
Qed.

Lemma path_Join_plain root l :
  Forall plain_component root -> root <> [] -> Forall plain_component l -> l <> [] ->
  path_Join [String slash (strings_Join root "/"); strings_Join l "/"] =
  String slash (strings_Join (root ++ l) "/").
Proof.
  intros Hroot Hnr Hl Hnl. unfold path_Join.
  rewrite filter_cons_True by done. rewrite filter_cons_True by (intros He; by apply Join_empty in He).
  rewrite filter_nil. cbn [strings_Join].
  assert (Hj : strings_Join root "/" +:+ "/" +:+ strings_Join l "/" = strings_Join (root ++ l) "/").
  { clear Hroot Hl. induction root as [|a [|b root] IH]; [done| |].
    - by destruct l.
    - change ((a +:+ ("/" +:+ strings_Join (b :: root) "/")) +:+ ("/" +:+ strings_Join l "/") =
              a +:+ ("/" +:+ strings_Join ((b :: root) ++ l) "/")).
      rewrite <- IH by done. by rewrite <- !string_app_assoc. }
  rewrite string_app_cons, Hj. apply Clean_plain_absolute. by apply Forall_app.
Qed.

Lemma HasPrefix_slash_Join a l :
  a <> "" -> has_char slash a = false -> HasPrefix (strings_Join (a :: l) "/") "/" = false.
Proof.
  intros Ha Hs. destruct a as [|c a]; [done|]. simpl in Hs.
  apply orb_false_elim in Hs as [Hc%bool_decide_eq_false _].
  assert (Hj : exists t, strings_Join (String c a :: l) "/" = String c t).
  { destruct l; [by exists a|]. eexists. cbn [strings_Join]. apply string_app_cons. }
  destruct Hj as [t ->]. unfold HasPrefix. change (String.prefix (String slash "") (String c t) = false).
  cbn [String.prefix]. by destruct (ascii_dec slash c).
Qed.

(** C39. Reads and lists are confined to the files root: whatever path a client sends,
    [ResolveUnderRoot] returns the root itself or the root followed by plain components - no
    component is empty, a dot, a dot-dot or holds a slash - so the resolved path cannot leave
    the root. *)
Theorem resolve_confined root rel p :
  Forall plain_component root -> root <> [] ->
  ResolveUnderRoot (String slash (strings_Join root "/")) rel = Ok p ->
  exists l, Forall plain_component l /\ p = String slash (strings_Join (root ++ l) "/").
Proof.
  intros Hroot Hne. unfold ResolveUnderRoot.
  case_bool_decide as Hs; [done|].
  destruct (bool_decide _ || _) eqn:E1; [done|].
  destruct (existsb _ _) eqn:E2; [done|].
  apply orb_false_elim in E1 as [E1 E1'].
  destruct (Clean_shape (TrimSpace rel)) as [(l & Hc & Hl)|[Hc|(n & l & Hc & Hl & Hnl)]];
    rewrite Hc in *.
  - change (TrimPrefix (String slash (strings_Join l "/")) "/") with
      (TrimPrefix ("/" +:+ strings_Join l "/") "/") in *. rewrite TrimPrefix_app in *.
    destruct (bool_decide (strings_Join l "/" = ".") || _) eqn:E3; intros [= <-].
    + exists []. by rewrite app_nil_r.
    + exists l. split; [done|]. apply path_Join_plain; try done. by intros ->.
  - intros [= <-]. exists []. by rewrite app_nil_r.
  - destruct n as [|n].
    + simpl in Hnl, E1, E1', E2 |- *. destruct l as [|a l]; [done|].
      assert (Hp : HasPrefix (strings_Join (a :: l) "/") "/" = false).
      { apply Forall_cons in Hl as [(Ha & _ & _ & Hs') _]. by apply HasPrefix_slash_Join. }
      rewrite (TrimPrefix_none _ _ Hp) in *.
      destruct (bool_decide _ || _) eqn:E3; intros [= <-].
      * exists []. by rewrite app_nil_r.
      * exists (a :: l). split; [done|]. exact (path_Join_plain root (a :: l) Hroot Hne Hl Hnl).
    + exfalso. change (replicate (S n) ".." ++ l) with (".." :: (replicate n ".." ++ l)) in *.
      rewrite TrimPrefix_none in E1, E1' by (by apply HasPrefix_slash_Join).
      destruct (replicate n ".." ++ l) as [|b rest].
      { by rewrite bool_decide_true in E1. }
      assert (Hj : strings_Join (".." :: b :: rest) "/" = "../" +:+ strings_Join (b :: rest) "/")
        by done.
      by rewrite Hj, HasPrefix_app in E1'.
Qed.

Lemma Contains_char s c : Contains s (String c "") = has_char c s.
Proof.
  induction s as [|d s IH]; [done|]. cbn [Contains has_char]. rewrite IH. cbn [String.prefix].
  destruct (ascii_dec c d) as [->|Hc].
  - rewrite bool_decide_true by done. by destruct s.
  - by rewrite bool_decide_false.
Qed.

Lemma TrimRight_none c s : has_char c s = false -> TrimRight c s = s.
Proof.
  induction s as [|d s IH]; [done|]. simpl. intros [Hc%bool_decide_eq_false Hs]%orb_false_elim.
  rewrite IH by done. destruct s; [by rewrite bool_decide_false|done].
Qed.

Lemma path_Base_plain name : name <> "" -> has_char slash name = false -> path_Base name = name.
Proof.
  intros Hne Hs. unfold path_Base. rewrite bool_decide_false by done.
  rewrite TrimRight_none, Split_single by done. simpl. by rewrite bool_decide_false.
Qed.

(** A path with a slash is never its own base, except the root. *)
Lemma last_Split_no_slash s : has_char slash (default "" (last (Split slash s))) = false.
Proof.
  pose proof (Split_no_sep slash s) as Hf.
  destruct (last (Split slash s)) as [x|] eqn:Hl; [|done]. simpl.
  apply last_Some_elem_of in Hl. rewrite Forall_forall in Hf. by apply Hf.
Qed.

Lemma path_Base_slash name : path_Base name = name -> name <> "/" -> has_char slash name = false.
Proof.
  unfold path_Base. case_bool_decide; [by intros <-|].
  case_bool_decide; [by intros <-|]. intros <- _. apply last_Split_no_slash.
Qed.

(** A write names one plain file: [ValidateWriteName] accepts exactly the names that are not
    blank, are neither a dot nor a dot-dot and hold no slash and no backslash, and then the
    path written is the root followed by that one name. *)
Theorem write_name_plain name :
  (ValidateWriteName name = None <->
     TrimSpace name <> "" /\ name <> "." /\ name <> ".." /\
     has_char slash name = false /\ has_char backslash name = false) /\
  (ValidateWriteName name = None ->
     path_Join [DefaultFilesRoot; name] = DefaultFilesRoot +:+ String slash name).
Proof.
  assert (Hiff : ValidateWriteName name = None <->
     TrimSpace name <> "" /\ name <> "." /\ name <> ".." /\
     has_char slash name = false /\ has_char backslash name = false).
  { unfold ValidateWriteName. rewrite !Contains_char. fold slash. case_bool_decide as Ht.
    { split; [done|]. by intros [? _]. }
    assert (Hne : name <> "") by (intros ->; done).
    split.
    - destruct (_ || _) eqn:E1; [done|]. destruct (has_char slash name || _) eqn:E2; [done|].
      rewrite !orb_false_iff, negb_false_iff, !bool_decide_eq_false, bool_decide_eq_true in E1.
      rewrite !orb_false_iff in E2. destruct E1 as [[[H1 H2] H3] H4]. rewrite H4 in *. tauto.
    - intros (_ & H1 & H2 & H3 & H4). rewrite path_Base_plain by done.
      rewrite H3, H4, (bool_decide_true (name = name)) by done.
      rewrite !bool_decide_false; [done| |done|done]. intros ->. by vm_compute in H3. }
  split; [done|]. intros (Ht & H1 & H2 & H3 & H4)%Hiff.
  assert (Hne : name <> "") by (intros ->; done).
  apply (path_Join_plain ["app"] [name]); [by repeat constructor|done|by repeat constructor|done].
Qed.

(** ** Reading and writing through the shell *)

Lemma scan_itoa n : (0 <= n < 2 ^ 63)%Z -> scan_int (itoa n) = Some n.
Proof.
  intros Hn. destruct (itoa_nonneg n) as (Hd & Hne & Hp); [lia|]. unfold scan_int.
  destruct (itoa n) as [|c s] eqn:Es; [done|].
  assert (Hc : is_digit c = true) by (by apply andb_true_iff in Hd as [? _]).
  assert (Hskip : skip_spaces (String.length (String c s)) (String c s) = String c s).
  { cbn [String.length skip_spaces]. rewrite find_none; [done|]. intros sp Hin.
    rewrite no_space_prefix; [done|by apply is_digit_not_space|done]. }
  rewrite Hskip, parse_sign_digits, Hc, Hp by done.
  rewrite (proj2 (Z.leb_le _ _)) by lia. by rewrite (proj2 (Z.leb_le _ _)) by lia.
Qed.

Definition framed (wrapped : string) (n : Z) : string := wrapped +:+ (trailer +:+ itoa n) +:+ nl.

Lemma digits_no_R s : all_digits s = true -> has_char "R" s = false.
Proof.
  induction s as [|c s IH]; [done|]. simpl. intros [Hc Hd]%andb_true_iff.
  rewrite IH, bool_decide_false; [done| |done]. intros <-. by vm_compute in Hc.
Qed.

Lemma LastIndex_trailer n :
  (0 <= n)%Z -> LastIndex ((trailer +:+ itoa n) +:+ nl) trailer = Some 0.
Proof.
  intros Hn. destruct (itoa_nonneg n Hn) as (Hd & _ & _). rewrite <- string_app_assoc.
  assert (Ht : LastIndex (itoa n +:+ nl) trailer = None).
  { apply LastIndex_no_char. by rewrite has_char_app, digits_no_R. }
  revert Ht. generalize (itoa n +:+ nl). clear. intros t. unfold trailer.
  intros Ht. repeat rewrite string_app_cons. change ("" +:+ t) with t.
  cbn [LastIndex]. rewrite Ht. simpl. by destruct t.
Qed.

Lemma split_trailer_framed wrapped n :
  (0 <= n < 2 ^ 63)%Z -> split_trailer (framed wrapped n) = (wrapped, n).
Proof.
  intros Hn. destruct (itoa_nonneg n) as (Hd & Hne & _); [lia|].
  unfold split_trailer, framed.
  rewrite (LastIndex_app wrapped _ _ 0) by (apply LastIndex_trailer; lia).
  rewrite Nat.add_0_r, drop_bytes_app, take_bytes_app. f_equal.
  destruct (last_char_Some (itoa n) Hne) as [c Hc].
  assert (Ht : TrimSpace ((trailer +:+ itoa n) +:+ nl) = trailer +:+ itoa n).
  { change (trailer +:+ itoa n) with (String "R" (drop_bytes 1 trailer +:+ itoa n)).
    apply (TrimSpace_line _ c); [done|by eapply is_digit_not_space, all_digits_last|].
    change (last_char (trailer +:+ itoa n) = Some c). by rewrite last_char_app. }
  by rewrite Ht, TrimPrefix_app, scan_itoa.
Qed.

Lemma filter_bytes_idem keep s : filter_bytes keep (filter_bytes keep s) = filter_bytes keep s.
Proof.
  induction s as [|c s IH]; simpl; [done|]. destruct (keep c) eqn:Hc; [|done]. simpl. by rewrite Hc, IH.
Qed.

(** A read that succeeds is complete: whatever bytes the sandbox's stream delivered, the
    data returned is at most [MaxFileBytes] long, and when the stream announced a size (0 or
    more) exactly that many bytes are returned. A lost or truncated stream is an error. *)
Theorem read_is_complete absPath r data :
  decode_read absPath r = Ok data ->
  xr_ExitCode r = 0%Z /\ (len data <= MaxFileBytes)%Z /\
  let '(stdout, announced) := split_trailer (xr_Stdout r) in
  ((0 <= announced)%Z -> len data = announced) /\
  ((announced < 0)%Z -> DecodeString stdout = Ok data).
Proof.
  unfold decode_read. destruct (xr_ExitCode r =? 0)%Z eqn:He; [|done]. cbn [negb].
  apply Z.eqb_eq in He. destruct (split_trailer _) as [stdout want]. case_bool_decide as Hempty.
  - destruct (want =? 0)%Z eqn:Hw; [|by destruct (0 <? want)%Z]. apply Z.eqb_eq in Hw as ->.
    intros [= <-]. split_and!; [done|done|done|lia].
  - destruct (DecodeString _) as [d|e] eqn:Hdec; [|done].
    destruct ((0 <=? want)%Z && negb (len d =? want)%Z) eqn:Hlen; [done|].
    destruct (MaxFileBytes <? len d)%Z eqn:Hmax; [done|]. intros [= <-].
    apply Z.ltb_ge in Hmax. split_and!; [done|done| |].
    + intros Hw. apply Z.leb_le in Hw. rewrite Hw in Hlen. simpl in Hlen.
      by apply negb_false_iff, Z.eqb_eq in Hlen.
    + intros Hw. revert Hdec. unfold DecodeString. by rewrite filter_bytes_idem.
Qed.

(** *** Round trip

    [GuestShell] states what the two scripts do in the sandbox's own shell, for a transport
    [exec] run against a model of the sandbox: the write script decodes its second argument
    into a file that can be written, the read script prints the file in base64, wrapped into
    lines in some way, and then its size. It says so only of commands that Linux starts: each
    argument, with the NUL that ends it, has at most MAX_ARG_STRLEN bytes. *)

Definition MAX_ARG_STRLEN : Z := 2 ^ 17.
Definition can_start (req : ExecRequest) : Prop := Forall (fun arg => (len arg < MAX_ARG_STRLEN)%Z) (ex_Command req).
(** The longest content whose base64 is such an argument. *)
Definition max_written : Z := 98301.

Lemma read_can_start path : (len path < MAX_ARG_STRLEN)%Z -> can_start (read_request path).
Proof. intros Hp. unfold can_start. cbn [ex_Command read_request]. repeat constructor; done. Qed.

Lemma itoa_short n : (0 <= n <= MaxFileBytes)%Z -> (len (itoa n) < MAX_ARG_STRLEN)%Z.
Proof.
  intros Hn. eapply Z.le_lt_trans; [apply (itoa_length 6)|done]. unfold MaxFileBytes in Hn. cbn. lia.
Qed.

Lemma write_can_start path content :
  (len path < MAX_ARG_STRLEN)%Z -> (len content <= MaxFileBytes)%Z ->
  can_start (write_request path (EncodeToString content) (itoa (len content))) <-> (len content <= max_written)%Z.
Proof.
  intros Hp Hc. pose proof (itoa_short (len content) ltac:(unfold len in *; lia)) as Hi. unfold can_start, max_written.
  cbn [ex_Command write_request]. rewrite !Forall_cons, Forall_nil.
  assert (Hl : (len (EncodeToString content) < MAX_ARG_STRLEN)%Z <-> (len content <= 98301)%Z).
  { unfold MAX_ARG_STRLEN, len. rewrite EncodeToString_length, Nat2Z.inj_mul, Nat2Z.inj_div. Z.to_euclidean_division_equations. lia. }
  rewrite Hl. split; [by intros (_ & _ & _ & _ & _ & ? & _)|]. intros. split_and!; done.
Qed.

Section RoundTrip.
Context {E : Type} `{EF : !Effect E} (exec : ExecRequest -> prog E (result ExecResult)).
Context {S : Type} (h : S -> forall e : E, S * answer e) (file : S -> string -> option string).
Context (writable : S -> string -> string -> Prop).

Class GuestShell : Prop := {
  shell_write s path encoded content want tr :
    can_start (write_request path encoded want) -> writable s path content ->
    DecodeString encoded = Ok content -> want = itoa (len content) ->
    exists s' tr' out, run h (exec (write_request path encoded want)) s tr =
      (s', tr', Ok (mkExecResult 0 out "")) /\ file s' path = Some content;
  shell_read s path content tr :
    can_start (read_request path) -> file s path = Some content ->
    exists s' tr' wrapped, run h (exec (read_request path)) s tr =
      (s', tr', Ok (mkExecResult 0 (framed wrapped (len content)) "")) /\
      filter_bytes not_newline wrapped = EncodeToString content /\
      file s' path = Some content;
}.

Lemma EncodeToString_empty s : EncodeToString s = "" -> s = "".
Proof. destruct s as [|a [|b [|c s]]]; done. Qed.

Lemma decode_read_framed path wrapped content :
  (len content <= MaxFileBytes)%Z -> filter_bytes not_newline wrapped = EncodeToString content ->
  decode_read path (mkExecResult 0 (framed wrapped (len content)) "") = Ok content.
Proof.
  intros Hmax Hw. unfold decode_read. cbn [xr_ExitCode xr_Stdout Z.eqb negb].
  rewrite split_trailer_framed, Hw by (unfold MaxFileBytes, len in *; lia).
  case_bool_decide as He.
  { apply EncodeToString_empty in He as ->. done. }
  rewrite (DecodeString_lines content) by apply encode_no_newline.
  rewrite Z.eqb_refl, andb_false_r. by rewrite (proj2 (Z.ltb_ge _ _)).
Qed.

(** C40. A file written through the shell and read back through the shell has the bytes that
    were written, for every content of at most 98301 bytes: the base64 framing, the line breaks
    the sandbox's [base64] adds and the size trailer lose nothing, and the base64 still fits into
    one argument of a command on Linux. [WriteFileVia] also takes longer contents, up to
    [MaxFileBytes], of which this says nothing. *)
Theorem write_read_roundtrip `{!GuestShell} s path content tr :
  (len path < MAX_ARG_STRLEN)%Z -> (len content <= max_written)%Z -> writable s path content ->
  (run h (w ← WriteFileVia exec path content;
          r ← ReadFileVia exec path; Ret (w, r)) s tr).2 = (None, Ok content).
Proof.
  intros Hpath Hlen Hwr. assert (Hmax : (len content <= MaxFileBytes)%Z) by (unfold max_written, MaxFileBytes in *; lia).
  unfold mbind, prog_bind. rewrite run_bind. unfold WriteFileVia.
  rewrite (proj2 (Z.ltb_ge _ _)) by done. unfold mbind, prog_bind. rewrite run_bind.
  destruct (shell_write s path (EncodeToString content) content (itoa (len content)) tr)
    as (s1 & tr1 & out & -> & Hf); [by apply write_can_start|done| |done|].
  { apply DecodeString_lines, encode_no_newline. }
  cbn [xr_ExitCode Z.eqb negb run]. rewrite run_bind. unfold ReadFileVia.
  unfold mbind, prog_bind. rewrite run_bind.
  destruct (shell_read s1 path content tr1 (read_can_start _ Hpath) Hf) as (s2 & tr2 & wrapped & -> & Hw & _).
  cbn [run snd]. by rewrite decode_read_framed.
Qed.
End RoundTrip.

(** ** Concrete instances *)

Module RuntimeWitness.
Lemma resolve_confined_witness :
  ResolveUnderRoot DefaultFilesRoot "logs/../data//x.txt" = Ok "/app/data/x.txt" /\
  exists l, Forall plain_component l /\ "/app/data/x.txt" = String slash (strings_Join (["app"] ++ l) "/").
Proof.
  split; [by vm_compute|].
  apply (resolve_confined ["app"] "logs/../data//x.txt"); [by repeat constructor|done|by vm_compute].
Defined.

Definition hello : ExecResult := mkExecResult 0 (framed ("aGVs" +:+ nl +:+ "bG8=" +:+ nl) 5) "".

Lemma read_is_complete_witness :
  decode_read "/app/x" hello = Ok "hello" /\ (len "hello" <= MaxFileBytes)%Z.
Proof.
  split; [by vm_compute|].
  exact (proj1 (proj2 (read_is_complete "/app/x" hello "hello" ltac:(by vm_compute)))).
Defined.

(** A sandbox on Linux whose shell runs the two scripts on a map of files. *)
#[export] Instance guest_effect : Effect ExecRequest := fun _ => result ExecResult.
Definition guest_exec (req : ExecRequest) : prog ExecRequest (result ExecResult) := trigger req.
Definition guest_run (s : gmap string string) (req : ExecRequest) :
    gmap string string * result ExecResult :=
  let failed := (s, Ok (mkExecResult 1 "" "failed")) in
  if negb (bool_decide (can_start req)) then (s, Err (Plain "argument list too long"))
  else match ex_Command req with
  | [_; _; _; _; path; encoded; want] =>
      match DecodeString encoded with
      | Ok content =>
          if bool_decide (want = itoa (len content)) then
            (<[path := content]> s, Ok (mkExecResult 0 "" ""))
          else failed
      | Err _ => failed
      end
  | [_; _; _; _; path] =>
      match s !! path with
      | Some content =>
          (s, Ok (mkExecResult 0 (framed (EncodeToString content) (len content)) ""))
      | None => failed
      end
  | _ => failed
  end.

#[export] Instance guest_shell : GuestShell guest_exec guest_run (fun s p => s !! p) (fun _ _ _ => True).
Proof.
  split.
  - intros s path encoded content want tr Hs _ Hd ->. eexists _, _, _. split.
    + unfold guest_exec, trigger. cbn [run]. unfold guest_run at 1. rewrite bool_decide_true by done. cbn [negb ex_Command write_request].
      rewrite Hd, bool_decide_true by done. reflexivity.
    + apply lookup_insert_eq.
  - intros s path content tr Hs Hf. eexists _, _, (EncodeToString content). split_and!.
    + unfold guest_exec, trigger. cbn [run]. unfold guest_run at 1. rewrite bool_decide_true by done. cbn [negb ex_Command read_request].
      rewrite Hf. reflexivity.
    + apply encode_no_newline.
    + done.
Qed.

Lemma write_read_roundtrip_witness :
  (run guest_run (w ← WriteFileVia guest_exec "/app/x" "hello";
                  r ← ReadFileVia guest_exec "/app/x"; Ret (w, r)) ∅ []).2 = (None, Ok "hello").
Proof.
  apply (write_read_roundtrip guest_exec guest_run (fun s p => s !! p) (fun _ _ _ => True) ∅ "/app/x" "hello" []); by vm_compute.
Defined.

(** The content travels in one argument: where Linux starts the command, a file between 98302 bytes
    and [MaxFileBytes] is accepted and never written. *)
Theorem long_contents_are_not_written s content :
  (max_written < len content <= MaxFileBytes)%Z ->
  run guest_run (WriteFileVia guest_exec "/app/x" content) s [] =
    (s, [existT (write_request "/app/x" (EncodeToString content) (itoa (len content))) (Err (Plain "argument list too long"))],
     Some (Plain "argument list too long")).
Proof.
  intros [Hlong Hmax]. unfold WriteFileVia. rewrite (proj2 (Z.ltb_ge _ _)) by done. unfold mbind, prog_bind, guest_exec, trigger.
  cbn [bind run]. unfold guest_run at 1. rewrite bool_decide_false; [done|]. rewrite write_can_start; [lia|by vm_compute|done].
Qed.
End RuntimeWitness.
