(* ===== verification/Cri.v ===== *)
(** * The CRI runtime (internal/runtime/cri)

    The implementation of the runtime interface over containerd's CRI: pod sandboxes and
    containers. The gRPC services it calls are effects with arbitrary answers. *)

From S2P Require Import Prelude Prog Strings Slot Runtime.

(* go: internal/runtime/cri/runtime.go 21-27 labelSandboxUID *)
Definition labelSandboxUID : string := "sandboxfleet.io/sandbox-uid".
(* go: internal/runtime/cri/runtime.go 21-27 labelSandboxNamespace *)
Definition labelSandboxNamespace : string := "sandboxfleet.io/sandbox-namespace".
(* go: internal/runtime/cri/runtime.go 21-27 labelSandboxName *)
Definition labelSandboxName : string := "sandboxfleet.io/sandbox-name".
(* go: internal/runtime/cri/runtime.go 21-27 labelWorker *)
Definition labelWorker : string := "sandboxfleet.io/worker".
(* go: internal/runtime/cri/runtime.go 21-27 labelSlotID *)
Definition labelSlotID : string := "sandboxfleet.io/slot-id".

Definition Millisecond : Z := 1000000.

(** [cpu.MilliValue()] and [memory.Value()], as int64. *)
Class QuantityValues (QA : QuantityApi) := {
  MilliValue : Quantity -> Z;
  Value : Quantity -> Z;
}.

(** Two's-complement int64, and Go's division, which truncates. *)
Definition int64 (z : Z) : Z := (z + 2 ^ 63) mod 2 ^ 64 - 2 ^ 63.
Definition go_div (a b : Z) : Z := Z.quot a b.

(** [errors.Is(err, ErrNotFound) || status.Code(err) == codes.NotFound]; the status of a
    wrapped error is that of the error it wraps. *)
Fixpoint status_NotFound (err : error) : bool :=
  match err with
  | GrpcNotFound _ => true
  | Wrapf _ e => status_NotFound e
  | Wrapf2 _ e1 e2 => status_NotFound e1 || status_NotFound e2
  | _ => false
  end.

(* go: internal/runtime/cri/runtime.go isNotFound *)
Definition isNotFound (err : error) : bool := errors_Is err (error_text ErrNotFound) || status_NotFound err.

(** A call that may find nothing to do: [err != nil && !isNotFound(err)]. *)
Definition real_error (err : option error) : option error :=
  match err with
  | Some e => if isNotFound e then None else Some e
  | None => None
  end.

(** ** Messages of the CRI *)

(** [PodSandboxConfig]: name, namespace, uid, labels. *)
Record PodSandboxConfig := mkPodSandboxConfig {
  pc_Name : string;
  pc_Namespace : string;
  pc_Uid : string;
  pc_Labels : gmap string string;
}.

(** [LinuxContainerResources]; a field that is not set is 0. *)
Record LinuxContainerResources := mkLinuxResources {
  lr_CpuPeriod : Z;
  lr_CpuQuota : Z;
  lr_CpuShares : Z;
  lr_MemoryLimitInBytes : Z;
}.

Record CriContainerConfig := mkCriContainer {
  co_Name : string;
  co_Image : string;
  co_Command : list string;
  co_Args : list string;
  co_Envs : list (string * string);
  co_Labels : gmap string string;
  co_Resources : LinuxContainerResources;
}.

Inductive ContainerState :=
  | CONTAINER_CREATED
  | CONTAINER_RUNNING
  | CONTAINER_EXITED
  | CONTAINER_UNKNOWN.

Record ContainerStatus := mkContainerStatus {
  cst_State : ContainerState;
  cst_ExitCode : Z;
  cst_Message : string;
}.

(** The calls: the runtime and image services, the [PreDelete] hook, and the wait between two
    attempts, which answers the context's error when it ends first. A list of containers answers
    their ids, a list of pod sandboxes their ids and labels. *)
Inductive CriE :=
  | PullImage (image : string)
  | RunPodSandbox (config : PodSandboxConfig) (runtimeHandler : string)
  | StopPodSandbox (id : string)
  | RemovePodSandbox (id : string)
  | CreateContainer (podSandboxID : string) (sandbox : PodSandboxConfig) (config : CriContainerConfig)
  | StartContainer (id : string)
  | StopContainer (id : string) (timeout : Z)
  | RemoveContainer (id : string)
  | ListContainers (podSandboxID : string)
  | ContainerStatusOf (id : string)
  | ListPodSandbox (selector : gmap string string)
  | ExecSync (id : string) (cmd : list string) (timeout : Z)
  | PreDelete (podSandboxID : string)
  | WaitOrDone (duration : Z).

#[export] Instance CriE_effect : Effect CriE := fun e =>
  match e with
  | PullImage _ | RunPodSandbox _ _ => result string
  | StopPodSandbox _ | RemovePodSandbox _ | CreateContainer _ _ _ => option error
  | StartContainer _ | StopContainer _ _ | RemoveContainer _ => option error
  | ListContainers _ => result (list string)
  | ContainerStatusOf _ => result (option ContainerStatus)
  | ListPodSandbox _ => result (list (string * gmap string string))
  | ExecSync _ _ _ => result ExecResult
  | PreDelete _ => unit
  | WaitOrDone _ => option error
  end.

Section Cri.
Context {QA : QuantityApi} {QV : QuantityValues QA}.

(** [cf_PreDelete] tells whether the hook is set. *)
(* go: internal/runtime/cri/runtime.go Config *)
Record CriConfig := mkCriConfig {
  cf_Endpoint : string;
  cf_WorkerName : string;
  cf_RuntimeHandler : string;
  cf_Resources : ResourceRequirements;
  cf_PreDelete : bool;
}.

(* go: internal/runtime/cri/runtime.go linuxResources *)
Definition linuxResources (r : ResourceRequirements) : LinuxContainerResources :=
  let shares := match rr_Requests r !! "cpu" with
                | Some cpu => let shares := go_div (int64 (MilliValue cpu * 1024)) 1000 in
                              if (shares <? 2)%Z then 2%Z else shares
                | None => 0%Z
                end in
  let '(period, quota) := match rr_Limits r !! "cpu" with
                          | Some cpu => (100000%Z, go_div (int64 (MilliValue cpu * 100000)) 1000)
                          | None => (0%Z, 0%Z)
                          end in
  let memory := match rr_Limits r !! "memory" with Some memory => Value memory | None => 0%Z end in
  mkLinuxResources period quota shares memory.

(* go: internal/runtime/cri/runtime.go containerStatus *)
Definition containerStatus (current : option ContainerStatus) : Status :=
  match current with
  | None => mkStatus RtUnknown 0 ""
  | Some c =>
      mkStatus (match cst_State c with
                | CONTAINER_CREATED => RtCreated
                | CONTAINER_RUNNING => RtRunning
                | CONTAINER_EXITED => RtStopped
                | CONTAINER_UNKNOWN => RtUnknown
                end) (cst_ExitCode c) (cst_Message c)
  end.

(** What a pod sandbox remembers of the request it was created for. *)
(* go: internal/runtime/cri/runtime.go 83-89 Runtime.Create *)
Definition sandbox_labels (config : CriConfig) (req : CreateRequest) : gmap string string :=
  list_to_map [(labelSandboxUID, id_UID (cr_Identity req)); (labelSandboxNamespace, id_Namespace (cr_Identity req));
               (labelSandboxName, id_Name (cr_Identity req)); (labelWorker, cf_WorkerName config);
               (labelSlotID, itoa (cr_SlotID req))].

(* go: internal/runtime/cri/runtime.go 90-98 Runtime.Create *)
Definition pod_config (config : CriConfig) (req : CreateRequest) : PodSandboxConfig :=
  mkPodSandboxConfig (id_Name (cr_Identity req)) (id_Namespace (cr_Identity req)) (id_UID (cr_Identity req))
    (sandbox_labels config req).

(* go: internal/runtime/cri/runtime.go 107-133 Runtime.Create *)
Definition container_config (config : CriConfig) (req : CreateRequest) (imageRef : string) : CriContainerConfig :=
  let container := cr_Container req in
  let resources := if bool_decide (rr_Requests (cr_Resources req) = ∅) && bool_decide (rr_Limits (cr_Resources req) = ∅)
                   then cf_Resources config else cr_Resources req in
  mkCriContainer (id_Name (cr_Identity req))
    (if bool_decide (imageRef = "") then cc_Image container else imageRef)
    (cc_Command container) (cc_Args container)
    ((fun variable => (env_Name variable, env_Value variable)) <$> cc_Env container)
    (sandbox_labels config req) (linuxResources resources).

(* go: internal/runtime/cri/runtime.go Runtime.Create *)
Definition Create (config : CriConfig) (req : CreateRequest) : prog CriE (result ID) :=
  let image := cc_Image (cr_Container req) in
  let! imageRef := on_error (wrap_prefix ("pull image " +:+ quote image)) (trigger (PullImage image)) in
  let! pod := on_error (wrap_prefix "create pod sandbox")
    (trigger (RunPodSandbox (pod_config config req) (cf_RuntimeHandler config))) in
  call! created := trigger (CreateContainer pod (pod_config config req) (container_config config req imageRef)) in
  match created : option error with
  | Some err =>
      call! _ := trigger (StopPodSandbox pod) in
      call! _ := trigger (RemovePodSandbox pod) in
      Ret (Err (wrap_prefix "create container" err))
  | None => Ret (Ok (mkID pod))
  end.

(** The containers of a pod sandbox; one without containers is not found. *)
(* go: internal/runtime/cri/runtime.go Runtime.containerIDs *)
Definition containerIDs (id : ID) : prog CriE (result (list string)) :=
  let! containers := on_error (wrap_prefix "list containers") (trigger (ListContainers (id_Value id))) in
  if bool_decide (containers = []) then Ret (Err (wrap_sentinel (error_text ErrNotFound) "sandbox container"))
  else Ret (Ok containers).

(** The callers index the list at 0, which [containerIDs] never leaves empty. *)
Definition first_container (containers : list string) : result string :=
  match containers with
  | c :: _ => Ok c
  | [] => Err (Plain "index out of range")
  end.

Fixpoint start_containers (containers : list string) : prog CriE (option error) :=
  match containers with
  | [] => Ret None
  | c :: rest =>
      call! err := trigger (StartContainer c) in
      match err : option error with
      | Some err => Ret (Some (wrap_prefix "start container" err))
      | None => start_containers rest
      end
  end.

(* go: internal/runtime/cri/runtime.go Runtime.Start *)
Definition Start (id : ID) : prog CriE (option error) :=
  call! listed := containerIDs id in
  match listed with
  | Err err => Ret (Some err)
  | Ok containers => start_containers containers
  end.

Fixpoint stop_containers (containers : list string) : prog CriE (option error) :=
  match containers with
  | [] => Ret None
  | c :: rest =>
      call! err := trigger (StopContainer c 10) in
      match real_error err with
      | Some err => Ret (Some (wrap_prefix "stop container" err))
      | None => stop_containers rest
      end
  end.

(** The containers of the pod sandbox, none when it has none; another error of the call. *)
Definition containers_or_none (id : ID) : prog CriE (result (list string)) :=
  call! listed := containerIDs id in
  match listed with
  | Ok containers => Ret (Ok containers)
  | Err err => Ret (if isNotFound err then Ok [] else Err err)
  end.

(* go: internal/runtime/cri/runtime.go Runtime.Stop *)
Definition Stop (id : ID) : prog CriE (option error) :=
  call! listed := containers_or_none id in
  match listed with
  | Err err => Ret (Some err)
  | Ok containers => stop_containers containers
  end.

(* go: internal/runtime/cri/runtime.go Runtime.podContainersGone *)
Definition podContainersGone (podSandboxID : string) : prog CriE (result bool) :=
  call! listed := trigger (ListContainers podSandboxID) in
  match listed : result (list string) with
  | Err err => Ret (if isNotFound err then Ok true else Err err)
  | Ok containers => Ret (Ok (bool_decide (containers = [])))
  end.

Definition pre_delete (config : CriConfig) (podSandboxID : string) : prog CriE unit :=
  if cf_PreDelete config then trigger (PreDelete podSandboxID) else Ret tt.

(** The loop of [teardownPodSandbox] with [attempts] iterations left, [first] in the first one:
    the last error of [StopPodSandbox], or the error of the context. *)
(* go: internal/runtime/cri/runtime.go 196-215 Runtime.teardownPodSandbox *)
Fixpoint stop_attempts (config : CriConfig) (podSandboxID : string) (attempts : nat) (first : bool)
    (last : option error) : prog CriE (result (option error)) :=
  match attempts with
  | O => Ret (Ok last)
  | S attempts =>
      check! (if first then Ret None
              else
                call! done := trigger (WaitOrDone (200 * Millisecond)) in
                match done : option error with
                | Some err => Ret (Some err)
                | None => call! _ := pre_delete config podSandboxID in Ret None
                end) in
      call! err := trigger (StopPodSandbox podSandboxID) in
      match real_error err with
      | None => Ret (Ok None)
      | Some err => stop_attempts config podSandboxID attempts false (Some err)
      end
  end.

(* go: internal/runtime/cri/runtime.go Runtime.teardownPodSandbox *)
Definition teardownPodSandbox (config : CriConfig) (podSandboxID : string) : prog CriE (option error) :=
  call! stopped := stop_attempts config podSandboxID 5 true None in
  match stopped with
  | Err err => Ret (Some err)
  | Ok last =>
      call! remErr := trigger (RemovePodSandbox podSandboxID) in
      match real_error remErr with
      | None => Ret None
      | Some remErr =>
          let last := default remErr last in
          call! gone := podContainersGone podSandboxID in
          match gone with
          | Ok true => Ret None
          | _ => Ret (Some (wrap_prefix "stop/remove pod sandbox" last))
          end
      end
  end.

Fixpoint remove_containers (containers : list string) : prog CriE (option error) :=
  match containers with
  | [] => Ret None
  | c :: rest =>
      call! stopErr := trigger (StopContainer c 10) in
      match real_error stopErr with
      | Some err => Ret (Some (wrap_prefix "stop container before removal" err))
      | None =>
          call! removeErr := trigger (RemoveContainer c) in
          match real_error removeErr with
          | Some err => Ret (Some (wrap_prefix "remove container" err))
          | None => remove_containers rest
          end
      end
  end.

(* go: internal/runtime/cri/runtime.go Runtime.Delete *)
Definition Delete (config : CriConfig) (id : ID) : prog CriE (option error) :=
  call! listed := containers_or_none id in
  match listed with
  | Err err => Ret (Some err)
  | Ok containers =>
      call! removed := remove_containers containers in
      match removed with
      | Some err => Ret (Some err)
      | None =>
          call! _ := pre_delete config (id_Value id) in
          teardownPodSandbox config (id_Value id)
      end
  end.

(* go: internal/runtime/cri/runtime.go Runtime.Status *)
Definition Runtime_Status (id : ID) : prog CriE (result Status) :=
  let! containers := containerIDs id in
  match first_container containers with
  | Err err => Ret (Err err)
  | Ok c =>
      let! status := on_error (wrap_prefix "get container status") (trigger (ContainerStatusOf c)) in
      Ret (Ok (containerStatus status))
  end.

(** One pod sandbox of the Worker, with what its labels say. *)
(* go: internal/runtime/cri/runtime.go 270-287 Runtime.List *)
Definition list_item (item : string * gmap string string) : prog CriE (result RuntimeInfo) :=
  let '(id, labels) := item in
  let label name := default "" (labels !! name) in
  match ParseInt (label labelSlotID) 32 with
  | None => Ret (Err (wrap_prefix ("runtime " +:+ quote id +:+ " has invalid slot label")
                        (Plain ("parsing " +:+ quote (label labelSlotID)))))
  | Some slotID =>
      let identity := mkIdentity (label labelSandboxNamespace) (label labelSandboxName) (label labelSandboxUID) in
      call! current := Runtime_Status (mkID id) in
      Ret (Ok (mkRuntimeInfo (mkID id) identity slotID
                 (match current with Ok status => status | Err _ => mkStatus RtCreated 0 "" end)))
  end.

Fixpoint list_items (items : list (string * gmap string string)) : prog CriE (result (list RuntimeInfo)) :=
  match items with
  | [] => Ret (Ok [])
  | item :: rest =>
      let! info := list_item item in
      let! infos := list_items rest in
      Ret (Ok (info :: infos))
  end.

(* go: internal/runtime/cri/runtime.go Runtime.List *)
Definition List_ (config : CriConfig) : prog CriE (result (list RuntimeInfo)) :=
  let! items := on_error (wrap_prefix "list pod sandboxes")
    (trigger (ListPodSandbox {[labelWorker := cf_WorkerName config]})) in
  list_items items.

(** The seconds of a duration are truncated. *)
(* go: internal/runtime/cri/runtime.go Runtime.Exec *)
Definition Exec (id : ID) (req : ExecRequest) : prog CriE (result ExecResult) :=
  if bool_decide (ex_Command req = []) then Ret (Err (Plain "exec command is required"))
  else
    let! containers := containerIDs id in
    let timeout := if (ex_Timeout req <=? 0)%Z then 30%Z else go_div (ex_Timeout req) Second in
    match first_container containers with
    | Err err => Ret (Err err)
    | Ok c => on_error (wrap_prefix "exec in container") (trigger (ExecSync c (ex_Command req) timeout))
    end.

(* go: internal/runtime/cri/runtime.go Runtime.PrimaryContainerID *)
Definition PrimaryContainerID (id : ID) : prog CriE (result string) :=
  let! containers := containerIDs id in Ret (first_container containers).

(* go: internal/runtime/cri/files.go Runtime.ReadFile *)
Definition ReadFile (id : ID) (absPath : string) : prog CriE (result string) := ReadFileVia (Exec id) absPath.
(* go: internal/runtime/cri/files.go Runtime.WriteFile *)
Definition WriteFile (id : ID) (absPath content : string) : prog CriE (option error) := WriteFileVia (Exec id) absPath content.
(* go: internal/runtime/cri/files.go Runtime.ListFiles *)
Definition ListFiles (id : ID) (absPath : string) : prog CriE (result (list FileEntry)) := ListFilesVia (Exec id) absPath.
(* go: internal/runtime/cri/files.go Runtime.FileExists *)
Definition FileExists (id : ID) (absPath : string) : prog CriE (result bool) := FileExistsVia (Exec id) absPath.
End Cri.
