(* ===== verification/CriFacts.v ===== *)
(** * Correctness of the CRI runtime

    What a pod sandbox remembers, what creation leaves behind, what a successful deletion means,
    and the bounds of the resource arithmetic; for every answer of containerd. *)

From S2P Require Import Prelude Prog Compose Strings Slot Runtime Cri.

Section CriFacts.
Context {QA : QuantityApi} {QV : QuantityValues QA}.
Implicit Types (tr : trace CriE) (e : CriE).

(** The pod sandboxes containerd made. *)
Definition pod_made (ev : event CriE) : option string :=
  match ev with
  | existT e r =>
      match e as e return answer e -> option string with
      | RunPodSandbox _ _ => fun r : result string => match r with Ok pod => Some pod | Err _ => None end
      | _ => fun _ => None
      end r
  end.
Definition pods_made tr : list string := omap pod_made tr.

(** ** Creation *)

(** The pod sandbox was asked to stop and to go. *)
Definition torn_down pod tr : Prop :=
  (exists r, existT (P := answer) (StopPodSandbox pod) r ∈ tr) /\
  (exists r, existT (P := answer) (RemovePodSandbox pod) r ∈ tr).

(** C24. A creation is all or nothing: when [Create] returns an id, it is that of the only pod
    sandbox containerd made for it, with the labels of the request, and its container was made;
    when it fails, every pod sandbox containerd made for it was asked to stop and to be removed. *)
Theorem create_outcome config req :
  always (Create config req) (fun t r =>
    match r with
    | Ok id =>
        pods_made t = [id_Value id] /\
        existT (P := answer) (RunPodSandbox (pod_config config req) (cf_RuntimeHandler config)) (Ok (id_Value id)) ∈ t /\
        exists imageRef, existT (P := answer) (CreateContainer (id_Value id) (pod_config config req)
          (container_config config req imageRef)) None ∈ t
    | Err _ => forall pod, pod ∈ pods_made t -> torn_down pod t
    end).
Proof.
  unfold always. apply (wpg_wp (fun _ _ => True)). unfold Create. wpg_step; try exact I; cbn;
    [|split; [done|split; [in_trace|eexists; in_trace]]| |]; intros pod Hin; [|by apply not_elem_of_nil in Hin..].
  apply list_elem_of_singleton in Hin as ->. split; eexists; in_trace.
Qed.

(** ** Deletion *)

(** containerd did away with a container, a pod sandbox: it said so, or that it knows none. *)
Definition container_gone c tr : Prop :=
  exists r, existT (P := answer) (RemoveContainer c) r ∈ tr /\ real_error r = None.
Definition pod_gone pod tr : Prop :=
  (exists r, existT (P := answer) (RemovePodSandbox pod) r ∈ tr /\ real_error r = None) \/
  existT (P := answer) (ListContainers pod) (Ok []) ∈ tr \/
  (exists err, existT (P := answer) (ListContainers pod) (Err err) ∈ tr /\ isNotFound err = true).

Lemma remove_containers_wp containers tr :
  wpg (fun _ e => match e with StopContainer _ _ | RemoveContainer _ => True | _ => False end)
    (remove_containers containers)
    (fun t r => tr `prefix_of` t /\ (r = None -> Forall (fun c => container_gone c t) containers)) tr.
Proof.
  revert tr. induction containers as [|c rest IH]; intros tr; cbn [remove_containers]; wpg_step.
  - split; [done|]. constructor.
  - split; [by apply prefix_app_r|done].
  - split; [by do 2 apply prefix_app_r|done].
  - eapply wpg_mono; [apply IH|]. intros t res [Hp Hr]. split; [etransitivity; [|done]; by do 2 apply prefix_app_r|].
    intros ->. constructor; [|by apply Hr].
    eexists. split; [eapply elem_of_prefix; [|exact Hp]; in_trace|done].
Qed.

(** What a call says about the loops of the deletion: the containers the first listing gives, and
    the attempts to stop the pod sandbox. *)
Definition listed (ev : event CriE) : option (list string) :=
  match ev with
  | existT e r =>
      match e as e return answer e -> option (list string) with
      | ListContainers _ => fun r : result (list string) => match r with Ok l => Some l | Err _ => None end
      | _ => fun _ => None
      end r
  end.
Definition pod_stop (ev : event CriE) : option string :=
  match ev with existT (StopPodSandbox pod) _ => Some pod | _ => None end.
Definition pod_stops tr : list string := omap pod_stop tr.

Lemma pod_stops_snoc tr (ev : event CriE) :
  pod_stops (tr ++ [ev]) = pod_stops tr ++ option_list (pod_stop ev).
Proof. unfold pod_stops. rewrite omap_app. cbn. by destruct (pod_stop ev). Qed.

Lemma stop_attempts_wp config pod attempts first last tr :
  wpg (fun _ _ => True) (stop_attempts config pod attempts first last)
    (fun t _ => length (pod_stops t) <= length (pod_stops tr) + attempts) tr.
Proof.
  revert first last tr. induction attempts as [|n IH]; intros first last tr; cbn [stop_attempts]; unfold pre_delete; wpg_step;
    rewrite ?pod_stops_snoc, ?length_app; cbn; try exact I; try lia;
    (eapply wpg_mono; [apply IH|]; intros t ?; cbv beta; rewrite !pod_stops_snoc, !length_app; cbn; lia).
Qed.

Lemma teardown_wp config pod tr :
  wpg (fun _ _ => True) (teardownPodSandbox config pod)
    (fun t r => length (pod_stops t) <= length (pod_stops tr) + 5 /\ (r = None -> pod_gone pod t)) tr.
Proof.
  unfold teardownPodSandbox, podContainersGone. apply wpg_bind.
  eapply wpg_mono; [apply stop_attempts_wp|]. cbv beta. intros t stopped Hn.
  wpg_step; try exact I; rewrite ?pod_stops_snoc, ?length_app; cbn; (split; [lia|]); try done; intros _.
  - apply bool_decide_eq_true in Heqb as ->. right. left. in_trace.
  - right. right. eexists. split; [in_trace|by destruct (isNotFound e0)].
  - left. eexists. split; [in_trace|done].
Qed.

Lemma containers_or_none_wp id tr :
  wpg (fun _ _ => True) (containers_or_none id)
    (fun t r => exists ev, t = tr ++ [ev] /\ pod_stop ev = None /\
      forall containers, listed ev = Some containers -> r = Ok containers) tr.
Proof.
  unfold containers_or_none, containerIDs. wpg_step; try exact I.
  all: subst; eexists; (split; [done|]); (split; [done|]); cbn; intros containers [= <-].
  all: repeat match goal with H : bool_decide _ = _ |- _ => apply bool_decide_eq_true in H; subst end; simplify_eq; try done.
Qed.

Lemma container_gone_prefix c tr tr' : tr `prefix_of` tr' -> container_gone c tr -> container_gone c tr'.
Proof. intros Hp (r & Hin & Hr). exists r. split; [by eapply elem_of_prefix|done]. Qed.

Lemma pod_gone_prefix pod tr tr' : tr `prefix_of` tr' -> pod_gone pod tr -> pod_gone pod tr'.
Proof.
  intros Hp [(r & Hin & Hr)|[Hin|(err & Hin & Hr)]];
    [left; exists r|right; left|right; right; exists err]; try split; try done; by eapply elem_of_prefix.
Qed.

Lemma remove_containers_quiet containers tr :
  wpg (fun _ _ => True) (remove_containers containers)
    (fun t r => tr `prefix_of` t /\ pod_stops t = pod_stops tr /\
      (r = None -> Forall (fun c => container_gone c t) containers)) tr.
Proof.
  eapply wpg_guard; [eapply wpg_mono|done].
  - apply (wpg_silent pod_stop); [|apply remove_containers_wp]. by intros t [] r.
  - intros t r [[? ?] ?]. done.
Qed.

Lemma Delete_wp config id :
  wp (Delete config id) (fun t r =>
    length (pod_stops t) <= 5 /\
    (r = None -> pod_gone (id_Value id) t /\
      forall containers, head t ≫= listed = Some containers -> Forall (fun c => container_gone c t) containers)) [].
Proof.
  apply (wpg_wp (fun _ _ => True)). unfold Delete, pre_delete.
  apply wpg_bind. eapply wpg_mono; [apply containers_or_none_wp|]. intros ? r (ev & -> & Hev & Hlist). cbn [app].
  destruct r as [containers|err]; [|wpg_step; cbn; rewrite Hev; cbn; split; [lia|done]].
  apply wpg_bind. eapply wpg_mono; [apply remove_containers_quiet|]. intros t r (Hp & Hs & Hgone).
  assert (Hh : head t = Some ev) by (destruct Hp as [? ->]; done).
  assert (Hn : length (pod_stops t) = 0) by (rewrite Hs; unfold pod_stops; cbn; by rewrite Hev).
  destruct r as [err|]; [apply wpg_ret; split; [lia|done]|]. apply wpg_bind.
  eapply (wpg_mono _ _ (fun t' _ => t `prefix_of` t' /\ length (pod_stops t') = 0)).
  { destruct (cf_PreDelete config); wpg_step; try exact I; rewrite ?pod_stops_snoc, ?length_app;
      split; try done; [by apply prefix_app_r|by rewrite Hn]. }
  intros t' ? [Hp' Hn']. eapply wpg_mono; [apply wpg_extends, teardown_wp|].
  intros t2 r [[Hle Hpod] Hp2]. split; [lia|]. intros ->. split; [by apply Hpod|]. intros listing Hl.
  destruct Hp' as [s' ->], Hp2 as [s2 ->]. rewrite !head_app, Hh in Hl. cbn in Hl.
  apply Hlist in Hl as [= ->]. eapply Forall_impl; [by apply Hgone|]. intros c. apply container_gone_prefix.
  by do 2 apply prefix_app_r.
Qed.

(** What a deletion does, for every answer of containerd: it asks at most five times to stop
    the pod sandbox; and when it reports success, containerd removed every container it had
    listed, and the pod sandbox (or said that it knows none, or lists no container of it). *)
Theorem delete_outcome config id :
  always (Delete config id) (fun t r =>
    length (pod_stops t) <= 5 /\
    (r = None -> pod_gone (id_Value id) t /\
      forall containers, head t ≫= listed = Some containers -> Forall (fun c => container_gone c t) containers)).
Proof. apply Delete_wp. Qed.

(** ** Listing *)

(** The pod sandboxes the runtime made, as containerd reports them: their ids, with the labels of
    the requests they were made for. *)
Definition made_for config (pods : list (string * CreateRequest)) : list (string * gmap string string) :=
  (fun pod => (pod.1, sandbox_labels config pod.2)) <$> pods.

(** [item] is how containerd lists the pod sandbox that a [Create] for [req] made in some run of it:
    its id, with the labels it was made with. *)
Definition created config (pod : string * CreateRequest) (item : string * gmap string string) : Prop :=
  exists t pc handler, returns (Create config pod.2) t (Ok (mkID pod.1)) /\
    existT (P := answer) (RunPodSandbox pc handler) (Ok pod.1) ∈ t /\ item = (pod.1, pc_Labels pc).

Lemma Create_config config req tr :
  wpg (fun _ e => match e with RunPodSandbox pc _ => pc = pod_config config req | _ => True end) (Create config req) (fun _ _ => True) tr.
Proof. unfold Create. by wpg_step. Qed.

Lemma created_labels config pod item : created config pod item -> item = (pod.1, sandbox_labels config pod.2).
Proof.
  intros (t & pc & handler & Hret & Hin & ->).
  pose proof (wp_returns _ _ _ _ _ (wpg_history _ _ _ _ (Create_config config pod.2 [])) Hret) as (_ & s & Hs & Hall).
  cbn in Hs. subst s. apply list_elem_of_split in Hin as (pre & post & ->). by rewrite (Hall pre _ _ post eq_refl).
Qed.

Lemma made_for_created config pods items : Forall2 (created config) pods items -> items = made_for config pods.
Proof. induction 1 as [|pod item pods items Hc _ IH]; [done|]. cbn. by rewrite IH, (created_labels _ _ _ Hc). Qed.

(** What is known of the container of a pod sandbox: the state of its first container, or, when the
    containers or that state cannot be read, or there is none, that it was created. *)
Definition container_known (pod : string) (t : trace CriE) (st : Status) : Prop :=
  (exists c rest cs, existT (P := answer) (ListContainers pod) (Ok (c :: rest)) ∈ t /\
     existT (P := answer) (ContainerStatusOf c) (Ok cs) ∈ t /\ st = containerStatus cs) \/
  st = mkStatus RtCreated 0 "" /\
    ((exists err, existT (P := answer) (ListContainers pod) (Err err) ∈ t) \/
     existT (P := answer) (ListContainers pod) (Ok []) ∈ t \/
     exists c rest err, existT (P := answer) (ListContainers pod) (Ok (c :: rest)) ∈ t /\
       existT (P := answer) (ContainerStatusOf c) (Err err) ∈ t).

(** An entry of the listing is about this pod sandbox, the Sandbox and Slot of its request, and what
    was answered about its container. *)
Definition describes (t : trace CriE) (pod : string * CreateRequest) (info : RuntimeInfo) : Prop :=
  ri_ID info = mkID pod.1 /\ ri_Identity info = cr_Identity pod.2 /\ ri_SlotID info = cr_SlotID pod.2 /\
  container_known pod.1 t (ri_Status info).

Lemma describes_prefix t t' pod info : t `prefix_of` t' -> describes t pod info -> describes t' pod info.
Proof.
  intros Hp (? & ? & ? & Hk). split_and!; try done. unfold container_known in *.
  destruct Hk as [(c & rest & cs & ? & ? & ?)|[? [(err & ?)|[?|(c & rest & err & ? & ?)]]]].
  - left. exists c, rest, cs. eauto using elem_of_prefix.
  - right. split; [done|]. left. exists err. eauto using elem_of_prefix.
  - right. split; [done|]. right. left. eauto using elem_of_prefix.
  - right. split; [done|]. right. right. exists c, rest, err. eauto using elem_of_prefix.
Qed.

Lemma label_slot config req : default "" (sandbox_labels config req !! labelSlotID) = itoa (cr_SlotID req).
Proof. done. Qed.

Lemma Status_known pod tr :
  wp (Runtime_Status (mkID pod)) (fun t r =>
    container_known pod t (match r with Ok status => status | Err _ => mkStatus RtCreated 0 "" end)) tr.
Proof.
  apply (wpg_wp (fun _ _ => True)). unfold Runtime_Status, containerIDs, first_container. wpg_step; try exact I; simplify_eq/=.
  all: repeat match goal with H : bool_decide _ = true |- _ => apply bool_decide_eq_true in H; subst end.
  all: unfold container_known; cbn [id_Value].
  all: repeat match goal with H : match ?l with _ => _ end = _ |- _ => destruct l; simplify_eq/= end.
  all: first
    [ by left; eexists _, _, _; split_and!; [in_trace|in_trace|]
    | by right; split; [|right; right; eexists _, _, _; split; in_trace]
    | by right; split; [|right; left; in_trace]
    | by right; split; [|left; eexists; in_trace] ].
Qed.

Lemma list_item_wp config pod tr :
  (0 <= cr_SlotID pod.2 <= int32_max)%Z ->
  wp (list_item (pod.1, sandbox_labels config pod.2)) (fun t r => exists info, r = Ok info /\ describes t pod info) tr.
Proof.
  intros Hs. unfold list_item. cbv zeta.
  rewrite label_slot. unfold int32_max in Hs. rewrite ParseInt_itoa by lia.
  apply wp_bind. eapply wp_mono; [apply Status_known|]. intros t current Hk. eexists. split; [done|].
  split; [done|]. split; [|done]. cbn. by destruct (cr_Identity pod.2).
Qed.

Lemma list_items_wp config pods tr :
  Forall (fun pod => (0 <= cr_SlotID pod.2 <= int32_max)%Z) pods ->
  wp (list_items (made_for config pods)) (fun t r => exists infos, r = Ok infos /\ Forall2 (describes t) pods infos) tr.
Proof.
  intros Hs. revert tr. induction Hs as [|pod pods Hpod _ IH]; intros tr.
  { exists []. by split. }
  cbn [made_for fmap list_fmap list_items]. apply wp_try_bind. eapply wp_mono; [by apply list_item_wp|].
  intros t ? (info & -> & Hinfo). apply wp_try_bind. eapply wp_mono; [apply wp_conj; [apply wp_prefix|apply IH]|].
  intros t' ? (Hp & infos & -> & Hinfos). exists (info :: infos). split; [done|]. constructor; [by eapply describes_prefix|done].
Qed.

(** The answer of the first call, when it lists pod sandboxes. *)
Definition pods_listed (ev : event CriE) : option (list (string * gmap string string)) :=
  match ev with
  | existT e r =>
      match e as e return answer e -> option (list (string * gmap string string)) with
      | ListPodSandbox _ => fun r : result (list (string * gmap string string)) =>
          match r with Ok l => Some l | Err _ => None end
      | _ => fun _ => None
      end r
  end.

Lemma List_survives config pods :
  Forall (fun pod => (0 <= cr_SlotID pod.2 <= int32_max)%Z) pods ->
  wp (List_ config) (fun t r =>
    head t ≫= pods_listed = Some (made_for config pods) ->
    exists infos, r = Ok infos /\ Forall2 (describes t) pods infos) [].
Proof.
  intros Hs. unfold List_. apply wp_try_bind, wp_on_error. unfold trigger. cbn [wp app]. intros [items|err]; [|done].
  destruct (decide (items = made_for config pods)) as [->|Hne].
  - eapply wp_mono; [by apply list_items_wp|]. done.
  - eapply wp_mono; [apply wp_prefix|]. intros t r [s ->]. cbn. intros [= ?]. done.
Qed.

(** C8. A listing gives back what creation recorded: for whatever pod sandboxes runs of [Create] made for
    requests whose Slots are int32 numbers from 0 on, a later [List] that containerd answers with
    those pod sandboxes, each with the labels its [Create] gave it, succeeds and finds each with the identity and the Slot of its request, and with the state that containerd
    gives for its first container, a container whose state cannot be read counting as created -
    whatever becomes of the calls in between; and each carries the labels that [List] selects by. *)
Theorem listing_restores_requests config pods items :
  Forall (fun pod => (0 <= cr_SlotID pod.2 <= int32_max)%Z) pods ->
  Forall2 (created config) pods items ->
  Forall (fun item => forall name value,
    ({[labelWorker := cf_WorkerName config]} : gmap string string) !! name = Some value -> item.2 !! name = Some value)
    items /\
  always (List_ config) (fun t r =>
    head t ≫= pods_listed = Some items ->
    exists infos, r = Ok infos /\ Forall2 (describes t) pods infos).
Proof.
  intros Hs ->%made_for_created. split; [|by apply List_survives].
  apply Forall_fmap, Forall_true. intros pod name value [<- <-]%lookup_singleton_Some. done.
Qed.

(** ** Resources and timeouts *)

Lemma int64_id z : (- 2 ^ 63 <= z < 2 ^ 63)%Z -> int64 z = z.
Proof. intros H. unfold int64. rewrite Z.mod_small; lia. Qed.

Lemma go_div_exact a b : (0 < b)%Z -> (0 <= a)%Z -> (a * b < 2 ^ 63)%Z -> go_div (int64 (a * b)) b = a.
Proof. intros. unfold go_div. rewrite int64_id by nia. apply Z.quot_mul. lia. Qed.

Lemma shares_div m : (2 <= m < 2 ^ 53)%Z ->
  go_div (int64 (m * 1024)) 1000 = (m * 1024 / 1000)%Z /\ (2 <= m * 1024 / 1000)%Z.
Proof.
  intros. unfold go_div. rewrite int64_id, Z.quot_div_nonneg by lia. split; [done|].
  apply Z.div_le_lower_bound; lia.
Qed.

(** The kernel's view of a container's budget. CPU shares are set exactly when CPU is
    requested, and are then at least the kernel's minimum of 2, wrap-around included; a CPU limit
    of [m] millicores, as long as [m * 100000] is an int64, is the exact quota of [100 m]
    microseconds in a period of 100000; without a limit there is neither; and the memory limit is
    the one asked for. *)
Theorem linux_resources_exact r :
  let lr := linuxResources r in
  (match rr_Requests r !! "cpu" with
   | None => lr_CpuShares lr = 0
   | Some cpu => 2 <= lr_CpuShares lr /\
       ((2 <= MilliValue cpu < 2 ^ 53) -> lr_CpuShares lr = MilliValue cpu * 1024 / 1000)
   end /\
   match rr_Limits r !! "cpu" with
   | None => lr_CpuPeriod lr = 0 /\ lr_CpuQuota lr = 0
   | Some cpu => lr_CpuPeriod lr = 100000 /\
       (0 <= MilliValue cpu -> MilliValue cpu * 100000 < 2 ^ 63 -> lr_CpuQuota lr = 100 * MilliValue cpu)
   end /\
   lr_MemoryLimitInBytes lr = match rr_Limits r !! "memory" with Some memory => Value memory | None => 0 end)%Z.
Proof.
  unfold linuxResources. split; [|split].
  - destruct (rr_Requests r !! "cpu") as [cpu|]; destruct (rr_Limits r !! "cpu"); cbn; try done.
    all: split; [destruct (Z.ltb_spec (go_div (int64 (MilliValue cpu * 1024)) 1000) 2); lia|].
    all: intros Hm; apply shares_div in Hm as [-> Hm]; by rewrite (proj2 (Z.ltb_ge _ _)).
  - destruct (rr_Limits r !! "cpu") as [cpu|]; cbn; split; try done. intros H0 Hm.
    replace (MilliValue cpu * 100000)%Z with (100 * MilliValue cpu * 1000)%Z in * by lia. apply go_div_exact; lia.
  - by destruct (rr_Limits r !! "cpu"), (rr_Limits r !! "memory").
Qed.
End CriFacts.

(** ** Concrete runs *)
Module CriWitness.
#[local] Existing Instance ZQuantity.

#[local] Instance values : QuantityValues ZQuantity := {| MilliValue := fun q => q; Value := fun q => q |}.

(** Two requests, and the pod sandboxes made for them. *)
Definition config : CriConfig := mkCriConfig "unix:///run/containerd.sock" "worker-0" "runsc" (mkResources ∅ ∅ []) false.
Definition request name slotID : CreateRequest :=
  mkCreateRequest _ (mkIdentity "default" name ("uid-" +:+ name)) slotID (mkResources ∅ ∅ []) (mkContainerConfig "image" [] [] []).
Definition pods : list (string * CreateRequest) := [("pod-a", request "a" 0); ("pod-b", request "b" 12)].

Lemma both_created : Forall2 (created config) pods (made_for config pods).
Proof.
  assert (Hone : forall name n, created config ("pod-" +:+ name, request name n) ("pod-" +:+ name, sandbox_labels config (request name n))).
  { intros name n. eexists _, _, _. split; [|split].
    - refine (returns_call (PullImage "image") _ (Ok "image") _ _ _). cbn [bind].
      refine (returns_call (RunPodSandbox _ _) _ (Ok ("pod-" +:+ name)) _ _ _). cbn [bind].
      refine (returns_call (CreateContainer _ _ _) _ None _ _ _). apply returns_ret.
    - right. left.
    - done. }
  constructor; [apply (Hone "a")|]. constructor; [apply (Hone "b")|constructor].
Qed.

Lemma listing_restores_requests_witness :
  always (List_ config) (fun t r =>
    head t ≫= pods_listed = Some (made_for config pods) ->
    exists infos, r = Ok infos /\ Forall2 (describes t) pods infos).
Proof.
  refine (proj2 (listing_restores_requests config pods (made_for config pods) _ both_created)).
  repeat (apply Forall_cons; split; [vm_compute; split; discriminate|]). apply Forall_nil_2.
Defined.

(** containerd with the two pod sandboxes, one container each, running. *)
Definition containerd (s : unit) (e : CriE) : unit * answer e :=
  (s, match e as e return answer e with
      | PullImage _ => Ok "image"
      | RunPodSandbox _ _ => Ok "pod-c"
      | StopPodSandbox _ | RemovePodSandbox _ | CreateContainer _ _ _ | StartContainer _ | StopContainer _ _ | RemoveContainer _ => None
      | ListContainers pod => Ok ["container-of-" +:+ pod]
      | ContainerStatusOf _ => Ok (Some (mkContainerStatus CONTAINER_RUNNING 0 ""))
      | ListPodSandbox _ => Ok (made_for config pods)
      | ExecSync _ _ timeout => Ok (mkExecResult timeout "" "")
      | PreDelete _ => tt
      | WaitOrDone _ => None
      end).

Example list_finds_both :
  (run containerd (List_ config) tt []).2 =
  Ok [mkRuntimeInfo (mkID "pod-a") (cr_Identity (request "a" 0)) 0 (mkStatus RtRunning 0 "");
      mkRuntimeInfo (mkID "pod-b") (cr_Identity (request "b" 12)) 12 (mkStatus RtRunning 0 "")].
Proof. vm_compute. reflexivity. Qed.

(** A timeout of 500 ms is truncated to 0 seconds, which containerd reads as no timeout. *)
Example subsecond_timeout_is_none :
  (run containerd (Exec (mkID "pod-a") (mkExecRequest ["true"] (500 * Millisecond))) tt []).1.2 =
  [existT (P := answer) (ListContainers "pod-a") (Ok ["container-of-pod-a"]);
   existT (P := answer) (ExecSync "container-of-pod-a" ["true"] 0) (Ok (mkExecResult 0 "" ""))].
Proof. vm_compute. reflexivity. Qed.
End CriWitness.
