(* ===== verification/Api.v ===== *)
(** * The custom resources (api/v1alpha1) and the Worker API types (internal/workerapi)

    Sandbox, SandboxPool and SandboxSnapshot as the controllers see them, and the requests,
    results and errors the Worker's HTTP API carries. Validation the API server does from the
    kubebuilder markers is not part of these definitions. *)

From S2P Require Import Prelude Strings Slot Runtime.

(** [corev1.EnvVar]; [ev_ValueFrom] is the name of the source kind, if any. *)
Record EnvVar := mkEnvVar {
  ev_Name : string;
  ev_Value : string;
  ev_ValueFrom : option string;
}.

#[export] Instance EnvVar_eq_dec : EqDecision EnvVar.
Proof. solve_decision. Defined.

(* go: api/v1alpha1/sandbox_types.go ContainerSpec *)
Record ContainerSpec := mkContainerSpec {
  cs_Image : string;
  cs_Command : list string;
  cs_Args : list string;
  cs_Env : list EnvVar;
}.

#[export] Instance ContainerSpec_eq_dec : EqDecision ContainerSpec.
Proof. solve_decision. Defined.

Definition no_container : ContainerSpec := mkContainerSpec "" [] [] [].

(** ** Worker API errors *)

(* go: internal/workerapi/types.go ErrInvalidRequest *)
Definition ErrInvalidRequest : string := "invalid request".
(* go: internal/workerapi/types.go ErrSlotNotFound *)
Definition ErrSlotNotFound : string := "slot not found".
(* go: internal/workerapi/types.go ErrSandboxNotFound *)
Definition ErrSandboxNotFound : string := "sandbox not found".
(* go: internal/workerapi/types.go ErrSlotConflict *)
Definition ErrSlotConflict : string := "slot belongs to another sandbox".
(* go: internal/workerapi/types.go ErrSlotConfigInvalid *)
Definition ErrSlotConfigInvalid : string := "slot config update rejected".
(* go: internal/workerapi/types.go ErrSnapshotLoad *)
Definition ErrSnapshotLoad : string := "snapshot load failed".

(** ** Worker API requests and results *)

(* go: internal/workerapi/types.go SandboxSlotRef *)
Record SandboxSlotRef := mkRef {
  ref_SlotID : Z;
  ref_Identity : SandboxIdentity;
}.

(* go: internal/workerapi/types.go StartSandboxRequest *)
Record StartSandboxRequest := mkStart {
  sr_SlotID : Z;
  sr_Identity : SandboxIdentity;
  sr_Container : ContainerSpec;
}.

(* go: internal/workerapi/types.go SandboxInfo *)
Record SandboxInfo := mkSandboxInfo {
  si_Identity : SandboxIdentity;
  si_SlotID : Z;
  si_State : State;
}.

(* go: internal/workerapi/types.go ExecSandboxRequest *)
Record ExecSandboxRequest := mkExecSandbox {
  er_SlotID : Z;
  er_Identity : SandboxIdentity;
  er_Command : list string;
  er_TimeoutSeconds : Z;
}.

(* go: internal/workerapi/files.go SandboxFileRequest *)
Record SandboxFileRequest := mkFileRequest {
  fr_SlotID : Z;
  fr_Identity : SandboxIdentity;
  fr_Path : string;
}.

(* go: internal/workerapi/snapshot.go ObjectStorageConfig *)
Record ObjectStorageConfig := mkObjectStorage {
  os_Endpoint : string;
  os_Bucket : string;
  os_Region : string;
  os_AccessKeyID : string;
  os_SecretAccessKey : string;
  os_UsePathStyle : bool;
}.

(* go: internal/workerapi/snapshot.go CreateSnapshotRequest *)
Record CreateSnapshotRequest := mkCreateSnapshot {
  cq_SlotID : Z;
  cq_Identity : SandboxIdentity;
  cq_StoragePath : string;
  cq_Storage : ObjectStorageConfig;
  cq_Runtime : string;
  cq_Pool : string;
  cq_Container : ContainerSpec;
}.

(* go: internal/workerapi/snapshot.go CreateSnapshotResult *)
Record CreateSnapshotResult := mkSnapshotResult {
  cs_StoragePath : string;
  cs_SnapshotFiles : list string;
  cs_Digest : string;
  cs_SizeBytes : Z;
  cs_FormatVersion : string;
  cs_Runtime : string;
}.

(* go: internal/workerapi/snapshot.go RestoreFromSnapshotRequest *)
Record RestoreFromSnapshotRequest := mkRestore {
  rs_SlotID : Z;
  rs_Identity : SandboxIdentity;
  rs_StoragePath : string;
  rs_Storage : ObjectStorageConfig;
  rs_Runtime : string;
}.

(* go: internal/workerapi/snapshot.go DeleteSnapshotObjectsRequest *)
Record DeleteSnapshotObjectsRequest := mkDeleteObjects {
  do_StoragePath : string;
  do_SnapshotFiles : list string;
  do_Storage : ObjectStorageConfig;
}.
