(* ===== verification/WorkerEnv.v ===== *)
(** * What a Worker calls

    The effects of the Worker: the container runtime behind internal/runtime.Runtime, the
    memory snapshotters, the local file system and clock, and the S3 client. A call's answer is
    arbitrary, so the theorems about the Worker hold for every behaviour of these components.
    [ZstdApi] and [ManifestJson] are the compressor and the JSON codec (third-party and
    reflective code) the snapshot store uses. *)

From S2P Require Import Prelude Prog Strings Slot Runtime Api.

(** ** Snapshotters *)

(** One memory checkpoint/restore adapter; [sn_SaveTeardown] is [None] when the adapter does
    not implement the optional interface. *)
(* go: internal/snapshotter/snapshotter.go 12-31 Snapshotter *)
Record Snapshotter := mkSnapshotter {
  sn_Name : string;
  sn_FormatVersion : string;
  sn_SaveTeardown : option bool;
}.

(* go: internal/snapshotter/snapshotter.go SaveRequest *)
Record SaveRequest := mkSaveRequest {
  sv_ID : ID;
  sv_DestDir : string;
  sv_ContainerID : string;
  sv_AppContainerName : string;
  sv_AppImage : string;
}.

(* go: internal/snapshotter/snapshotter.go LoadRequest *)
Record LoadRequest := mkLoadRequest {
  ld_SourceDir : string;
  ld_Identity : SandboxIdentity;
  ld_SlotID : Z;
  ld_AppImage : string;
}.

(** A nil registry is [None]; a handler may be registered with a nil snapshotter. *)
(* go: internal/snapshotter/snapshotter.go Registry *)
Definition Registry : Type := option (gmap string (option Snapshotter)).

(* go: internal/snapshotter/snapshotter.go NewRegistry *)
Definition NewRegistry (entries : gmap string (option Snapshotter)) : Registry :=
  Some (map_fold (fun k v out => <[k := v]> out) ∅ entries).

(* go: internal/snapshotter/snapshotter.go Registry.For *)
Definition For (r : Registry) (handler : string) : result Snapshotter :=
  match r with
  | None => Err (Plain "snapshotter registry is nil")
  | Some byHandler =>
      match byHandler !! handler with
      | Some (Some s) => Ok s
      | _ => Err (Plain ("no snapshotter for runtimeHandler " +:+ quote handler))
      end
  end.

(* go: internal/snapshotter/snapshotter.go IsRestoredID *)
Definition IsRestoredID (id : ID) : bool :=
  HasPrefix (id_Value id) "runsc:" || HasPrefix (id_Value id) "kata:".

(** ** The S3 client *)

(* go: internal/snapshotstore/s3.go S3Config *)
Record S3Config := mkS3Config {
  s3_Endpoint : string;
  s3_Bucket : string;
  s3_Region : string;
  s3_AccessKeyID : string;
  s3_SecretAccessKey : string;
  s3_UsePathStyle : bool;
}.

(** [s3.Options], as far as [NewS3] sets them. *)
Record S3Options := mkS3Options {
  so_Region : string;
  so_AccessKeyID : string;
  so_SecretAccessKey : string;
  so_UsePathStyle : bool;
  so_BaseEndpoint : option string;
}.

(** ** Effects *)

Section Env.
Context {QA : QuantityApi}.

Inductive WorkerE :=
  (* the container runtime *)
  | RtCreate (req : CreateRequest)
  | RtStart (id : ID)
  | RtStop (id : ID)
  | RtDelete (id : ID)
  | RtStatus (id : ID)
  | RtList
  | RtExec (id : ID) (req : ExecRequest)
  | RtReadFile (id : ID) (absPath : string)
  | RtWriteFile (id : ID) (absPath content : string)
  | RtListFiles (id : ID) (absPath : string)
  | RtFileExists (id : ID) (absPath : string)
  | RtPrimaryContainerID (id : ID)
  (* a snapshotter *)
  | SnSave (s : Snapshotter) (req : SaveRequest)
  | SnLoad (s : Snapshotter) (req : LoadRequest)
  | SnDeleteRestored (s : Snapshotter) (id : ID)
  | SnExecRestored (s : Snapshotter) (id : ID) (req : ExecRequest)
  (* local files: opening a file answers with the bytes that reading it gives *)
  | OsMkdirTemp (pattern : string)
  | OsRemoveAll (path : string)
  | OsMkdirAll (path : string)
  | OsReadDir (path : string)
  | OsOpen (path : string)
  | OsCreateTemp (pattern : string)
  | OsRemove (path : string)
  | ZstdNewWriter (tmp : string)
  | IoCopy (dst data : string)
  | ZstdClose (tmp : string)
  | OsSeek (tmp : string)
  | OsStat (tmp : string)
  | ZstdNewReader
  | OsOpenFile (path : string)
  (* object storage: a body read from the store may fail halfway *)
  | S3PutObject (client : S3Options) (bucket key body : string) (size : Z)
  | S3GetObject (client : S3Options) (bucket key : string)
  | S3DeleteObject (client : S3Options) (bucket key : string)
  | TimeNow.

(** An entry of [os.ReadDir]: its name and whether it is a regular file. *)
#[export] Instance WorkerE_effect : Effect WorkerE := fun e =>
  match e with
  | RtCreate _ => result ID
  | RtStart _ | RtStop _ | RtDelete _ | RtWriteFile _ _ _ => option error
  | RtStatus _ => result Status
  | RtList => result (list RuntimeInfo)
  | RtExec _ _ | SnExecRestored _ _ _ => result ExecResult
  | RtReadFile _ _ => result string
  | RtListFiles _ _ => result (list FileEntry)
  | RtFileExists _ _ => result bool
  | RtPrimaryContainerID _ => result string
  | SnSave _ _ | SnDeleteRestored _ _ => option error
  | SnLoad _ _ => result ID
  | OsMkdirTemp _ | OsCreateTemp _ | OsOpen _ => result string
  | OsRemoveAll _ | OsRemove _ | OsMkdirAll _ | OsOpenFile _ => option error
  | OsReadDir _ => result (list (string * bool))
  | ZstdNewWriter _ | IoCopy _ _ | ZstdClose _ | OsSeek _ | ZstdNewReader => option error
  | OsStat _ => result Z
  | S3PutObject _ _ _ _ _ | S3DeleteObject _ _ _ => option error
  | S3GetObject _ _ _ => result (result string)
  | TimeNow => Z
  end.
End Env.

Arguments WorkerE {QA}.
