(* ===== verification/SnapshotStore.v ===== *)
(** * The snapshot store (internal/snapshotstore)

    A snapshot is one prefix of an object store: manifest.json and one zstd-compressed object
    per file. [BlobStorage] is the interface the store is written against; [S3Store] is its
    implementation over the S3 client. Closing a file handle answers nothing the code looks at
    and is not modelled. *)

From S2P Require Import Prelude Prog Strings Slot Runtime Api WorkerEnv.

(* go: internal/snapshotstore/store.go ManifestFileName *)
Definition ManifestFileName : string := "manifest.json".
(* go: internal/snapshotstore/store.go zstdSuffix *)
Definition zstdSuffix : string := ".zstd".

(* go: internal/snapshotstore/store.go SourceSandbox *)
Record SourceSandbox := mkSource {
  src_Namespace : string;
  src_Name : string;
  src_UID : string;
}.

(** [CreatedAt] in nanoseconds; 0 is the zero [time.Time]. *)
(* go: internal/snapshotstore/store.go Manifest *)
Record Manifest := mkManifest {
  mf_RuntimeHandler : string;
  mf_FormatVersion : string;
  mf_SnapshotFiles : list string;
  mf_SourceSandbox : SourceSandbox;
  mf_PoolRef : string;
  mf_Container : ContainerSpec;
  mf_CreatedAt : Z;
}.

Definition no_manifest : Manifest := mkManifest "" "" [] (mkSource "" "" "") "" no_container 0.

(** encoding/json on [Manifest], and the zstd codec. *)
Class ManifestJson := {
  json_Marshal : Manifest -> result string;
  json_Unmarshal : string -> result Manifest;
}.
Class ManifestJsonLaws `{ManifestJson} : Prop := {
  json_roundtrip m : exists raw, json_Marshal m = Ok raw /\ json_Unmarshal raw = Ok m;
}.

Class ZstdApi := {
  zstd_compress : string -> string;
  zstd_decompress : string -> result string;
}.
Class ZstdLaws `{ZstdApi} : Prop := {
  zstd_roundtrip data : zstd_decompress (zstd_compress data) = Ok data;
}.

(** [filepath.Join] on Unix. *)
Definition filepath_Join (elems : list string) : string := path_Join elems.

(* go: internal/snapshotstore/store.go normalizeStoragePath *)
Definition normalizeStoragePath (path : string) : string :=
  let path := TrimSpace path in
  let path := TrimPrefix path "/" in
  if negb (bool_decide (path = "")) && negb (HasSuffix path "/") then path +:+ "/" else path.

(* go: internal/snapshotstore/store.go validateFileName *)
Definition validateFileName (name : string) : option error :=
  if bool_decide (name = "") || Contains name "/" || Contains name ".." then
    Some (Plain ("invalid snapshot file name " +:+ quote name))
  else None.

Section Store.
Context {QA : QuantityApi} `{ManifestJson} `{ZstdApi}.

(** ** Blob storage *)

(* go: internal/snapshotstore/store.go BlobStorage *)
Record BlobStorage := mkBlobStorage {
  bs_Put : string -> string -> Z -> prog WorkerE (option error);
  bs_Get : string -> prog WorkerE (result (result string));
  bs_Delete : string -> prog WorkerE (option error);
}.

(* go: internal/snapshotstore/s3.go S3Store *)
Record S3Store := mkS3Store {
  s3_client : S3Options;
  s3_bucket : string;
}.

(* go: internal/snapshotstore/s3.go NewS3 *)
Definition NewS3 (cfg : S3Config) : result S3Store :=
  if bool_decide (s3_Bucket cfg = "") then Err (Plain "s3 bucket is required")
  else
    let region := if bool_decide (s3_Region cfg = "") then "us-east-1" else s3_Region cfg in
    let has_endpoint := negb (bool_decide (s3_Endpoint cfg = "")) in
    Ok (mkS3Store
          (mkS3Options region (s3_AccessKeyID cfg) (s3_SecretAccessKey cfg)
             (s3_UsePathStyle cfg || has_endpoint)
             (if has_endpoint then Some (s3_Endpoint cfg) else None))
          (s3_Bucket cfg)).

(* go: internal/snapshotstore/s3.go S3Store.Put *)
Definition S3Store_Put (s : S3Store) (key body : string) (size : Z) : prog WorkerE (option error) :=
  on_failure (wrap_prefix ("s3 put " +:+ quote key))
    (trigger (S3PutObject (s3_client s) (s3_bucket s) key body size)).

(* go: internal/snapshotstore/s3.go S3Store.Get *)
Definition S3Store_Get (s : S3Store) (key : string) : prog WorkerE (result (result string)) :=
  on_error (wrap_prefix ("s3 get " +:+ quote key))
    (trigger (S3GetObject (s3_client s) (s3_bucket s) key)).

(* go: internal/snapshotstore/s3.go S3Store.Delete *)
Definition S3Store_Delete (s : S3Store) (key : string) : prog WorkerE (option error) :=
  on_failure (wrap_prefix ("s3 delete " +:+ quote key))
    (trigger (S3DeleteObject (s3_client s) (s3_bucket s) key)).

Definition S3Store_blobs (s : S3Store) : BlobStorage :=
  mkBlobStorage (S3Store_Put s) (S3Store_Get s) (S3Store_Delete s).

(** ** zstd.go *)

(** The body of [uploadZstdFile] between creating and removing the temporary file. *)
(* go: internal/snapshotstore/zstd.go 30-55 SnapshotStorage.uploadZstdFile *)
Definition upload_compressed (s : BlobStorage) (key src tmpName : string) : prog WorkerE (result Z) :=
  check! trigger (ZstdNewWriter tmpName) in
  check! trigger (IoCopy tmpName src) in
  let logical := len src in
  check! trigger (ZstdClose tmpName) in
  check! trigger (OsSeek tmpName) in
  let! size := trigger (OsStat tmpName) in
  check! bs_Put s key (zstd_compress src) size in
  Ret (Ok logical).

(* go: internal/snapshotstore/zstd.go SnapshotStorage.uploadZstdFile *)
Definition uploadZstdFile (s : BlobStorage) (key localPath : string) : prog WorkerE (result Z) :=
  let! src := trigger (OsOpen localPath) in
  let! tmpName := trigger (OsCreateTemp "sandboxfleet-zstd-*") in
  deferred (trigger (OsRemove tmpName)) (upload_compressed s key src tmpName).

(* go: internal/snapshotstore/zstd.go SnapshotStorage.downloadZstdFile *)
Definition downloadZstdFile (s : BlobStorage) (key destPath : string) : prog WorkerE (option error) :=
  r ← bs_Get s key;
  match r with
  | Err err => Ret (Some err)
  | Ok body =>
      zr ← trigger ZstdNewReader;
      match zr with
      | Some err => Ret (Some (wrap_prefix "open zstd" err))
      | None =>
          out ← trigger (OsOpenFile destPath);
          match out with
          | Some err => Ret (Some err)
          | None =>
              match body ≫= zstd_decompress with
              | Err err => Ret (Some err)
              | Ok data => trigger (IoCopy destPath data)
              end
          end
      end
  end.

(** ** store.go *)

(* go: internal/snapshotstore/store.go listRegularFiles *)
Definition listRegularFiles (dir : string) : prog WorkerE (result (list string)) :=
  let! entries := trigger (OsReadDir dir) in
  Ret (Ok (merge_sort string_le
             (filter (fun e => e.2 = true /\ e.1 <> ManifestFileName) entries).*1)).

(** The upload loop; [Err] also carries nothing of the partial total, which every caller drops. *)
(* go: internal/snapshotstore/store.go 79-87 SnapshotStorage.Upload *)
Fixpoint upload_files (s : BlobStorage) (prefix localDir : string) (files : list string) (total : Z)
    : prog WorkerE (result Z) :=
  match files with
  | [] => Ret (Ok total)
  | name :: rest =>
      let! n := on_error (wrap_prefix ("upload " +:+ name))
                  (uploadZstdFile s (prefix +:+ name +:+ zstdSuffix)
                     (filepath_Join [localDir; name])) in
      upload_files s prefix localDir rest (total + n)%Z
  end.

Definition set_mf_SnapshotFiles (files : list string) (m : Manifest) : Manifest :=
  mkManifest (mf_RuntimeHandler m) (mf_FormatVersion m) files (mf_SourceSandbox m) (mf_PoolRef m)
    (mf_Container m) (mf_CreatedAt m).
Definition set_mf_CreatedAt (t : Z) (m : Manifest) : Manifest :=
  mkManifest (mf_RuntimeHandler m) (mf_FormatVersion m) (mf_SnapshotFiles m) (mf_SourceSandbox m)
    (mf_PoolRef m) (mf_Container m) t.

(* go: internal/snapshotstore/store.go 75-77 SnapshotStorage.Upload *)
Definition stamp (m : Manifest) : prog WorkerE Manifest :=
  if (mf_CreatedAt m =? 0)%Z then now ← trigger TimeNow; Ret (set_mf_CreatedAt now m) else Ret m.

(* go: internal/snapshotstore/store.go SnapshotStorage.Upload *)
Definition Upload (s : BlobStorage) (storagePath localDir : string) (manifest : Manifest)
    : prog WorkerE (result Z) :=
  let prefix := normalizeStoragePath storagePath in
  let! files := listRegularFiles localDir in
  if bool_decide (files = []) then
    Ret (Err (Plain ("checkpoint dir " +:+ quote localDir +:+ " has no files to upload")))
  else
    manifest ← stamp (set_mf_SnapshotFiles files manifest);
    let! total := upload_files s prefix localDir files 0 in
    match json_Marshal manifest with
    | Err err => Ret (Err err)
    | Ok raw =>
        check! on_failure (wrap_prefix "upload manifest")
                 (bs_Put s (prefix +:+ ManifestFileName) raw (len raw)) in
        Ret (Ok total)
    end.

(* go: internal/snapshotstore/store.go SnapshotStorage.GetManifest *)
Definition GetManifest (s : BlobStorage) (storagePath : string) : prog WorkerE (result Manifest) :=
  let prefix := normalizeStoragePath storagePath in
  let! body := on_error (wrap_prefix "get manifest") (bs_Get s (prefix +:+ ManifestFileName)) in
  match body with
  | Err err => Ret (Err err)
  | Ok raw =>
      match json_Unmarshal raw with
      | Err err => Ret (Err (wrap_prefix "parse manifest" err))
      | Ok manifest => Ret (Ok manifest)
      end
  end.

(* go: internal/snapshotstore/store.go 114-122 SnapshotStorage.Download *)
Fixpoint download_files (s : BlobStorage) (prefix localDir : string) (files : list string)
    : prog WorkerE (option error) :=
  match files with
  | [] => Ret None
  | name :: rest =>
      match validateFileName name with
      | Some err => Ret (Some err)
      | None =>
          let dest := filepath_Join [localDir; name] in
          r ← downloadZstdFile s (prefix +:+ name +:+ zstdSuffix) dest;
          match r with
          | Some err => Ret (Some (wrap_prefix ("download " +:+ name) err))
          | None => download_files s prefix localDir rest
          end
      end
  end.

(* go: internal/snapshotstore/store.go SnapshotStorage.Download *)
Definition Download (s : BlobStorage) (storagePath localDir : string)
    : prog WorkerE (result Manifest) :=
  let prefix := normalizeStoragePath storagePath in
  check! trigger (OsMkdirAll localDir) in
  let! manifest := GetManifest s prefix in
  if bool_decide (mf_SnapshotFiles manifest = []) then
    Ret (Err (Plain ("manifest at " +:+ quote prefix +:+ " lists no snapshotFiles")))
  else
    check! download_files s prefix localDir (mf_SnapshotFiles manifest) in
    Ret (Ok manifest).

Definition first_error (first next : option error) : option error :=
  match first with Some _ => first | None => next end.

(* go: internal/snapshotstore/store.go 155-163 SnapshotStorage.Delete *)
Fixpoint delete_files (s : BlobStorage) (prefix : string) (files : list string)
    (firstErr : option error) : prog WorkerE (option error) :=
  match files with
  | [] => Ret firstErr
  | name :: rest =>
      match validateFileName name with
      | Some _ => delete_files s prefix rest firstErr
      | None =>
          err ← bs_Delete s (prefix +:+ name +:+ zstdSuffix);
          delete_files s prefix rest (first_error firstErr err)
      end
  end.

(** The files to delete: the given ones, or the manifest's when none are given. *)
(* go: internal/snapshotstore/store.go 149-154 SnapshotStorage.Delete *)
Definition files_to_delete (s : BlobStorage) (prefix : string) (snapshotFiles : list string)
    : prog WorkerE (list string) :=
  if bool_decide (snapshotFiles = []) then
    manifest ← GetManifest s prefix;
    Ret (match manifest with Ok m => mf_SnapshotFiles m | Err _ => [] end)
  else Ret snapshotFiles.

(* go: internal/snapshotstore/store.go SnapshotStorage.Delete *)
Definition Delete (s : BlobStorage) (storagePath : string) (snapshotFiles : list string)
    : prog WorkerE (option error) :=
  let prefix := normalizeStoragePath storagePath in
  files ← files_to_delete s prefix snapshotFiles;
  firstErr ← delete_files s prefix files None;
  err ← bs_Delete s (prefix +:+ ManifestFileName);
  Ret (first_error firstErr err).
End Store.
