(* ===== verification/SnapshotStoreFacts.v ===== *)
(** * Correctness of the snapshot store

    The manifest is uploaded last, after every file it lists, so a reader never finds a
    half-uploaded snapshot; a download writes only inside its directory; a delete reaches every
    object it is given, whatever fails on the way. *)

From S2P Require Import Prelude Prog Compose Strings Slot Runtime RuntimeFacts Api WorkerEnv SnapshotStore.

Section Facts.
Context {QA : QuantityApi} `{ManifestJson} `{ZstdApi}.
Context (st : S3Store).

(** ** Traces *)

(** The uploads of a trace: key and outcome, oldest first. *)
Definition put_of (ev : event WorkerE) : option (string * option error) :=
  match ev with
  | existT (S3PutObject _ _ key _ _) r => Some (key, r)
  | _ => None
  end.
Definition puts (tr : trace WorkerE) : list (string * option error) := omap put_of tr.

(** The deletions of a trace. *)
Definition delete_of (ev : event WorkerE) : option (string * option error) :=
  match ev with
  | existT (S3DeleteObject _ _ key) r => Some (key, r)
  | _ => None
  end.
Definition deletes (tr : trace WorkerE) : list (string * option error) := omap delete_of tr.

(** The local files a trace opens for writing. *)
Definition opened_of (ev : event WorkerE) : option string :=
  match ev with
  | existT (OsOpenFile path) _ => Some path
  | _ => None
  end.
Definition opened (tr : trace WorkerE) : list string := omap opened_of tr.

Lemma puts_app tr1 tr2 : puts (tr1 ++ tr2) = puts tr1 ++ puts tr2.
Proof. apply omap_app. Qed.
Lemma deletes_app tr1 tr2 : deletes (tr1 ++ tr2) = deletes tr1 ++ deletes tr2.
Proof. apply omap_app. Qed.
Lemma opened_app tr1 tr2 : opened (tr1 ++ tr2) = opened tr1 ++ opened tr2.
Proof. apply omap_app. Qed.

Definition object_key (prefix name : string) : string := prefix +:+ name +:+ zstdSuffix.
Definition uploaded (prefix : string) (names : list string) : list (string * option error) :=
  (fun name => (object_key prefix name, None)) <$> names.

Ltac store_step :=
  repeat first
    [ progress rewrite ?wp_check_bind, ?wp_try_bind, ?wp_on_error, ?wp_on_failure, ?wp_deferred
    | progress wp_step
    | progress cbn [bs_Put bs_Get bs_Delete S3Store_blobs]
    | progress unfold S3Store_Put, S3Store_Get, S3Store_Delete
    | progress rewrite ?wp_bind ].
Ltac store_split :=
  store_step;
  repeat (match goal with
          | |- match ?r with _ => _ end => destruct r
          | |- wp (match ?r with _ => _ end) _ _ => destruct r eqn:?
          end; store_step).
Ltac traces :=
  rewrite ?puts_app, ?deletes_app, ?opened_app; cbn; rewrite ?app_nil_r.

(** A file of the directory went into its object, whole. *)
Definition stored (prefix localDir name : string) (tr : trace WorkerE) : Prop :=
  exists content size,
    existT (P := answer) (OsOpen (filepath_Join [localDir; name])) (Ok content) ∈ tr /\
    existT (P := answer) (S3PutObject (s3_client st) (s3_bucket st) (object_key prefix name) (zstd_compress content) size) None ∈ tr.

Lemma stored_prefix prefix localDir name tr tr' : tr `prefix_of` tr' -> stored prefix localDir name tr -> stored prefix localDir name tr'.
Proof. intros Hp (c & z & ? & ?). exists c, z. eauto using elem_of_prefix. Qed.

(** One file: its object is put, or the call fails before or at the put. *)
Definition put_outcome (tr tr' : trace WorkerE) (key : string) (ok : bool) : Prop :=
  if ok then puts tr' = puts tr ++ [(key, None)]
  else puts tr' = puts tr \/ exists e, puts tr' = puts tr ++ [(key, Some e)].

Lemma wp_uploadZstdFile prefix localDir name tr :
  wp (uploadZstdFile (S3Store_blobs st) (object_key prefix name) (filepath_Join [localDir; name]))
    (fun tr' r => put_outcome tr tr' (object_key prefix name) (is_ok r) /\ (is_ok r = true -> stored prefix localDir name tr')) tr.
Proof.
  unfold uploadZstdFile, upload_compressed.
  store_split; intros; unfold put_outcome; cbn [is_ok]; traces; (split; [by eauto|]); try done.
  intros _. eexists _, _. split; in_trace.
Qed.

(** The loop uploads a prefix of the files, and all of them if it succeeds. *)
Lemma wp_upload_files prefix localDir files : forall total tr,
  wp (upload_files (S3Store_blobs st) prefix localDir files total)
    (fun tr' r => exists done rest, files = done ++ rest /\ Forall (fun name => stored prefix localDir name tr') done /\
       match r with
       | Ok _ => rest = [] /\ puts tr' = puts tr ++ uploaded prefix done
       | Err _ => exists name rest', rest = name :: rest' /\
           (puts tr' = puts tr ++ uploaded prefix done \/
            exists e, puts tr' = puts tr ++ uploaded prefix done ++ [(object_key prefix name, Some e)])
       end) tr.
Proof.
  induction files as [|name files IH]; intros total tr; cbn [upload_files].
  { store_step. exists [], []. split_and!; [done|done|done|]. cbn. by rewrite app_nil_r. }
  store_step. eapply wp_mono; [apply (wp_uploadZstdFile prefix localDir name)|]. intros t [n|e] [Hput Hst].
  - eapply wp_mono; [apply wp_conj; [apply wp_prefix|apply IH]|]. intros t' r (Hp & dn & rest & -> & Hall & Hr). exists (name :: dn), rest.
    split; [done|]. simpl in Hput. rewrite Hput in Hr. cbn [uploaded fmap list_fmap].
    split. { constructor; [eapply stored_prefix; [exact Hp|by apply Hst]|exact Hall]. }
    destruct r as [tot|e]; destruct Hr as [H1 H2].
    + split; [done|]. by rewrite H2, <- app_assoc.
    + destruct H2 as (rest' & -> & [H2|[e' H2]]); eexists _, _; split; [done| |done|];
        rewrite H2, <- !app_assoc; [by left|right; eauto].
  - exists [], (name :: files). split; [done|]. split; [done|]. exists name, files. split; [done|].
    simpl in Hput. cbn. rewrite app_nil_r. exact Hput.
Qed.

(** The objects an upload of [files] may have put, by its outcome: those of a first part [dn] of the files, then
    nothing, or the failed put of the next file or of the manifest, or the manifest. *)
Definition upload_trace (prefix : string) (files : list string) (tr : trace WorkerE) (r : result Z) : Prop :=
  exists dn rest last, files = dn ++ rest /\ puts tr = uploaded prefix dn ++ last /\
    match last with
    | [] => is_ok r = false
    | [(key, Some _)] => is_ok r = false /\
        key = match rest with
              | [] => prefix +:+ ManifestFileName
              | name :: _ => object_key prefix name
              end
    | [(key, None)] =>
        is_ok r = true /\ rest = [] /\ key = prefix +:+ ManifestFileName
    | _ => False
    end.

(** The manifest that lists [files] was put. *)
Definition manifest_put (prefix : string) (files : list string) (tr : trace WorkerE) : Prop :=
  exists m raw, mf_SnapshotFiles m = files /\ json_Marshal m = Ok raw /\
    existT (P := answer) (S3PutObject (s3_client st) (s3_bucket st) (prefix +:+ ManifestFileName) raw (len raw)) None ∈ tr.

Definition upload_rest (s : BlobStorage) (prefix localDir : string) (files : list string)
    (m : Manifest) : prog WorkerE (result Z) :=
  let! total := upload_files s prefix localDir files 0 in
  match json_Marshal m with
  | Err err => Ret (Err err)
  | Ok raw =>
      check! on_failure (wrap_prefix "upload manifest")
               (bs_Put s (prefix +:+ ManifestFileName) raw (len raw)) in
      Ret (Ok total)
  end.

Definition uploaded_whole (prefix localDir : string) (files : list string) (tr : trace WorkerE) : Prop :=
  Forall (fun name => stored prefix localDir name tr) files /\ manifest_put prefix files tr.

Lemma wp_upload_rest prefix localDir files m tr :
  puts tr = [] -> mf_SnapshotFiles m = files ->
  wp (upload_rest (S3Store_blobs st) prefix localDir files m) (fun tr' r =>
    upload_trace prefix files tr' r /\ (is_ok r = true -> uploaded_whole prefix localDir files tr')) tr.
Proof.
  intros Htr Hm. unfold upload_rest, upload_trace.
  store_step. eapply wp_mono; [apply wp_upload_files|].
  intros t [tot|e] (dn & rest & Hf & Hall & Hr); rewrite Htr in Hr.
  - destruct Hr as [-> Hr]. rewrite app_nil_r in Hf. subst dn.
    destruct (json_Marshal m) as [raw|err] eqn:Hraw; store_step.
    + destruct r as [e|]; store_step; (split; [|try done]).
      * exists files, [], [(prefix +:+ ManifestFileName, Some e)]. rewrite app_nil_r. traces. by rewrite Hr.
      * exists files, [], [(prefix +:+ ManifestFileName, None)]. rewrite app_nil_r. traces. by rewrite Hr.
      * intros _. split; [|exists m, raw; split_and!; [done|done|in_trace]].
        eapply Forall_impl; [exact Hall|]. intros name. apply stored_prefix. by eexists.
    + split; [|done]. exists files, [], []. by rewrite Hr, !app_nil_r.
  - split; [|done]. destruct Hr as (name & rest' & -> & [Hr|[e' Hr]]).
    + exists dn, (name :: rest'), []. by rewrite Hr, app_nil_r.
    + exists dn, (name :: rest'), [(object_key prefix name, Some e')]. by rewrite Hr.
Qed.

(** What a checkpoint directory holds for an upload. *)
Definition checkpoint_files (entries : list (string * bool)) : list string :=
  merge_sort string_le (filter (fun e => e.2 = true /\ e.1 <> ManifestFileName) entries).*1.

(** C22. The manifest is written last: whatever the file system and the object store answer, [Upload]
    first lists its directory, and without a listing, or with no regular file in it, it fails and puts nothing.
    Else it puts the objects of a first part of the listed files, in their order and each
    successfully, then at most one more: the object of the next file, whose put failed, or, only when
    every listed file was put, the manifest; and it succeeds exactly when the put of the manifest
    does. Then each listed file was read and its compressed content put under its key, and the
    manifest that was put lists exactly these files. A restore therefore never finds a manifest
    whose files are missing. *)
Theorem upload_manifest_last storagePath localDir manifest :
  let prefix := normalizeStoragePath storagePath in
  always (Upload (S3Store_blobs st) storagePath localDir manifest) (fun tr r =>
    exists listed, head tr = Some (existT (P := answer) (OsReadDir localDir) listed) /\
      match listed with
      | Err _ => puts tr = [] /\ is_ok r = false
      | Ok entries =>
          let files := checkpoint_files entries in
          (files = [] -> puts tr = [] /\ is_ok r = false) /\ upload_trace prefix files tr r /\
          (is_ok r = true -> uploaded_whole prefix localDir files tr)
      end).
Proof.
  intros prefix. unfold always, Upload, listRegularFiles, stamp. fold prefix. rewrite !wp_try_bind. wp_step.
  destruct r as [entries|e]; wp_step; [|by eexists].
  change (merge_sort _ _) with (checkpoint_files entries). set (files := checkpoint_files entries).
  case_bool_decide as Hfiles; wp_step.
  { eexists. split; [done|]. cbv beta iota zeta. assert (checkpoint_files entries = []) as -> by exact Hfiles. split_and!; [done| |done]. by exists [], [], []. }
  rewrite wp_bind. assert (Hgo : forall m t, puts t = [] -> mf_SnapshotFiles m = files -> 
      head t = Some (existT (P := answer) (OsReadDir localDir) (Ok entries)) ->
      wp (upload_rest (S3Store_blobs st) prefix localDir files m) (fun tr r =>
        exists listed, head tr = Some (existT (P := answer) (OsReadDir localDir) listed) /\
          match listed with
          | Err _ => puts tr = [] /\ is_ok r = false
          | Ok entries =>
              let files := checkpoint_files entries in
              (files = [] -> puts tr = [] /\ is_ok r = false) /\ upload_trace prefix files tr r /\
              (is_ok r = true -> uploaded_whole prefix localDir files tr)
          end) t).
  { intros m t Ht Hm Hh. eapply wp_mono; [apply wp_conj; [apply wp_prefix|by apply wp_upload_rest]|].
    intros t' r [[s ->] Hr]. exists (Ok entries). split; [by rewrite head_app, Hh|]. by split; [intros ?|]. }
  destruct (mf_CreatedAt _ =? 0)%Z; wp_step; by apply Hgo.
Qed.

(** ** Delete *)

Lemma wp_delete_files prefix files : forall first tr,
  wp (delete_files (S3Store_blobs st) prefix files first)
    (fun tr' r => exists answers,
       deletes tr' = deletes tr ++ zip (object_key prefix <$> filter (fun n => validateFileName n = None) files) answers /\
       length answers = length (filter (fun n => validateFileName n = None) files) /\
       (r = None <-> first = None /\ Forall (fun a => a = None) answers)) tr.
Proof.
  induction files as [|name files IH]; intros first tr; cbn [delete_files].
  { store_step. exists []. rewrite app_nil_r. split_and!; [done|done|]. by split; [|intros []]. }
  destruct (validateFileName name) as [e|] eqn:Hv.
  { rewrite filter_cons_False by (by rewrite Hv). apply IH. }
  rewrite filter_cons_True by done. store_step.
  destruct r as [err|]; (eapply wp_mono; [apply IH|]);
    intros t' r' (answers & Hd & Hlen & Hr); eexists (_ :: answers);
    (split_and!; [rewrite Hd; traces; by rewrite <- app_assoc|simpl; by rewrite Hlen|]);
    rewrite Hr, Forall_cons; destruct first; simpl; naive_solver.
Qed.

Lemma wp_GetManifest path tr :
  wp (GetManifest (S3Store_blobs st) path)
    (fun tr' _ => deletes tr' = deletes tr /\ opened tr' = opened tr /\ puts tr' = puts tr) tr.
Proof.
  unfold GetManifest. store_split; split_and!; by traces.
Qed.

(** A delete reaches everything: [Delete] asks for the deletion of every valid name it was
    given (or, given none, of those the manifest lists) and then of the manifest itself, whatever
    the store answers on the way, and it returns no error exactly when every one of these
    deletions succeeded. A snapshot's finalizer is therefore kept while an object is left. *)
Theorem delete_reaches_all storagePath snapshotFiles :
  let prefix := normalizeStoragePath storagePath in
  always (Delete (S3Store_blobs st) storagePath snapshotFiles)
    (fun tr r => exists files answers last,
       let names := filter (fun n => validateFileName n = None) files in
       (snapshotFiles <> [] -> files = snapshotFiles) /\
       deletes tr = zip (object_key prefix <$> names) answers ++ [(prefix +:+ ManifestFileName, last)] /\
       length answers = length names /\
       (r = None <-> Forall (fun a => a = None) answers /\ last = None)).
Proof.
  intros prefix. unfold always, Delete. fold prefix. rewrite wp_mbind.
  eapply wp_mono with (Q := fun tr files =>
    (snapshotFiles <> [] -> files = snapshotFiles) /\ deletes tr = []).
  { unfold files_to_delete. case_bool_decide as He; store_step; [|done].
    eapply wp_mono; [apply wp_GetManifest|]. intros t m (Hd & _ & _). by split. }
  intros t files (Hf & Ht). rewrite wp_mbind. eapply wp_mono; [apply wp_delete_files|].
  intros t' first (answers & Hd & Hlen & Hr). rewrite Ht in Hd. store_step.
  destruct r as [err|]; store_step; eexists files, answers, _;
    (split_and!; [done|traces; by rewrite Hd|done|]);
    destruct first; simpl; naive_solver.
Qed.

(** A manifest was read on the trace. *)
Definition manifest_read (tr : trace WorkerE) : Prop :=
  exists client bucket key body, existT (S3GetObject client bucket key) (Ok body) ∈ tr.

(** The cleanup of a failed upload deletes no file. [CreateSnapshot] cleans up with an empty
    file list, and [Delete] then learns the files from the manifest; but an upload that failed
    never wrote its manifest (C12), and when no manifest can be read [Delete] asks only for the
    deletion of the manifest itself: the objects already uploaded stay in the store. *)
Theorem cleanup_without_manifest storagePath :
  always (Delete (S3Store_blobs st) storagePath [])
    (fun tr r => ¬ manifest_read tr ->
       exists last, deletes tr = [(normalizeStoragePath storagePath +:+ ManifestFileName, last)]).
Proof.
  unfold always, Delete, files_to_delete. rewrite bool_decide_true by done. rewrite !wp_mbind.
  eapply wp_mono with (Q := fun tr r => deletes tr = [] /\ (manifest_read tr \/ is_ok r = false)).
  { unfold GetManifest. store_split; (split; [by traces|]); try (by right);
      left; eexists _, _, _, _; apply elem_of_app; right; by left. }
  intros t [m|e] [Hd Hm]; wp_step; rewrite ?wp_bind.
  - destruct Hm as [Hm|]; [|done]. eapply wp_mono with (Q := fun tr _ => manifest_read tr).
    + rewrite wp_frame. eapply wp_mono; [apply wp_true|]. intros t' _ _.
      destruct Hm as (c & b & k & body & Hm). exists c, b, k, body. apply elem_of_app. by left.
    + intros t' first Hm'. store_split; intros Hno; destruct Hno;
      destruct Hm' as (c & b & k & body & Hm'); exists c, b, k, body; apply elem_of_app; by left.
  - cbn [delete_files]. store_split; intros Hno; eexists; traces; by rewrite Hd.
Qed.

(** ** Download *)

Lemma validateFileName_None name :
  validateFileName name = None ->
  name <> "" /\ has_char slash name = false /\ Contains name ".." = false.
Proof.
  unfold validateFileName. destruct (_ || _) eqn:E; [done|]. intros _.
  rewrite !orb_false_iff, bool_decide_eq_false in E. destruct E as [[H1 H2] H3].
  rewrite <- Contains_char. done.
Qed.

(** The content of the object at [key], decompressed, was written to the file at [dest]. *)
Definition fetched (key dest : string) (tr : trace WorkerE) : Prop :=
  exists body raw data,
    existT (P := answer) (S3GetObject (s3_client st) (s3_bucket st) key) (Ok body) ∈ tr /\
    body = Ok raw /\ zstd_decompress raw = Ok data /\
    existT (P := answer) (OsOpenFile dest) None ∈ tr /\ existT (P := answer) (IoCopy dest data) None ∈ tr.

Lemma fetched_prefix key dest tr tr' : tr `prefix_of` tr' -> fetched key dest tr -> fetched key dest tr'.
Proof. intros Hp (b & raw & d & ? & ? & ? & ? & ?). exists b, raw, d. eauto 10 using elem_of_prefix. Qed.

Lemma wp_downloadZstdFile key dest tr :
  wp (downloadZstdFile (S3Store_blobs st) key dest)
    (fun tr' r => puts tr' = puts tr /\
       (opened tr' = opened tr ++ [dest] \/ (opened tr' = opened tr /\ r <> None)) /\
       (r = None -> fetched key dest tr')) tr.
Proof.
  unfold downloadZstdFile. store_split; traces; (split; [done|]); (split; [naive_solver|]); try done.
  unfold downloadZstdFile. store_split; intros; traces; try naive_solver. subst.
  destruct a as [raw|]; [|by simplify_eq/=]. eexists (Ok raw), raw, _. split_and!; [in_trace|done|eassumption|in_trace|in_trace].
Qed.

Lemma wp_download_files prefix localDir files : forall tr,
  wp (download_files (S3Store_blobs st) prefix localDir files)
    (fun tr' r => exists names, names `prefix_of` files /\
       opened tr' = opened tr ++ ((fun n => filepath_Join [localDir; n]) <$> names) /\
       Forall (fun n => validateFileName n = None) names /\
       puts tr' = puts tr /\
       (r = None -> names = files /\ Forall (fun n => fetched (object_key prefix n) (filepath_Join [localDir; n]) tr') files)) tr.
Proof.
  induction files as [|name files IH]; intros tr; cbn [download_files].
  { store_step. exists []. rewrite app_nil_r. by split_and!. }
  destruct (validateFileName name) as [e|] eqn:Hv.
  { store_step. exists []. rewrite app_nil_r. split_and!; try done. apply prefix_nil. }
  store_step. eapply wp_mono; [apply wp_downloadZstdFile|].
  intros t r (Hp & Ho & Hf). destruct r as [e|]; store_step.
  - destruct Ho as [Ho|[Ho _]].
    + exists [name]. split_and!; [by exists files|done|by repeat constructor|done|done].
    + exists []. rewrite app_nil_r. split_and!; try done. apply prefix_nil.
  - destruct Ho as [Ho|[_ []]]; [|done]. eapply wp_mono; [apply wp_conj; [apply wp_prefix|apply IH]|].
    intros t' r (Hext & names & Hpre & Ho' & Hval & Hp' & Hr). exists (name :: names). split_and!.
    + by apply prefix_cons.
    + rewrite Ho', Ho, <- app_assoc. done.
    + by constructor.
    + by rewrite Hp', Hp.
    + intros Hn. destruct (Hr Hn) as [-> Hall]. split; [done|]. constructor; [|done].
      eapply fetched_prefix; [exact Hext|by apply Hf].
Qed.

(** The manifest [m] was read from the object store. *)
Definition manifest_fetched (storagePath : string) (m : Manifest) (tr : trace WorkerE) : Prop :=
  exists body raw, existT (P := answer) (S3GetObject (s3_client st) (s3_bucket st)
      (normalizeStoragePath storagePath +:+ ManifestFileName)) (Ok body) ∈ tr /\
    body = Ok raw /\ json_Unmarshal raw = Ok m.

Lemma manifest_fetched_prefix storagePath m tr tr' :
  tr `prefix_of` tr' -> manifest_fetched storagePath m tr -> manifest_fetched storagePath m tr'.
Proof. intros Hp (b & raw & ? & ? & ?). exists b, raw. eauto using elem_of_prefix. Qed.

Lemma wp_GetManifest_fetched path tr :
  wp (GetManifest (S3Store_blobs st) path) (fun tr' r => forall m, r = Ok m -> manifest_fetched path m tr') tr.
Proof.
  unfold GetManifest. store_split; intros m' [= <-]. eexists _, _. split_and!; [in_trace|done|done].
Qed.

(** A file in the directory [String slash (strings_Join dir "/")]. *)
Lemma filepath_Join_plain dir name :
  Forall plain_component dir -> dir <> [] -> validateFileName name = None -> name <> "." ->
  filepath_Join [String slash (strings_Join dir "/"); name] =
    String slash (strings_Join (dir ++ [name]) "/").
Proof.
  intros Hdir Hne (Hn & Hs & Hdd)%validateFileName_None Hdot.
  apply (path_Join_plain dir [name]); [done|done| |done]. repeat constructor; try done.
  intros ->. by vm_compute in Hdd.
Qed.

Lemma filepath_Join_dot dir :
  Forall plain_component dir -> dir <> [] ->
  filepath_Join [String slash (strings_Join dir "/"); "."] = String slash (strings_Join dir "/").
Proof.
  intros Hdir Hne. unfold filepath_Join, path_Join.
  rewrite filter_cons_True by done. rewrite filter_cons_True by done. rewrite filter_nil.
  cbn [strings_Join]. rewrite string_app_cons.
  assert (Hj : strings_Join dir "/" +:+ "/" +:+ "." = strings_Join (dir ++ ["."]) "/").
  { clear Hdir. induction dir as [|a [|b dir] IH]; [done|done|].
    change ((a +:+ ("/" +:+ strings_Join (b :: dir) "/")) +:+ ("/" +:+ ".") =
            a +:+ ("/" +:+ strings_Join ((b :: dir) ++ ["."]) "/")).
    rewrite <- IH by done. by rewrite <- !string_app_assoc. }
  rewrite Hj. unfold Clean.
  assert (Hr : HasPrefix (String slash (strings_Join (dir ++ ["."]) "/")) "/" = true)
    by (apply (HasPrefix_app "/")).
  rewrite Hr. f_equal. f_equal. unfold clean_components. cbn [Split]. rewrite bool_decide_true by done.
  change (reverse (foldl (clean_step true) [] (Split slash (strings_Join (dir ++ ["."]) "/"))) = dir).
  rewrite Split_Join.
  - rewrite foldl_app, (clean_fold_plain true dir) by done. change (reverse (reverse dir ++ []) = dir). by rewrite app_nil_r, reverse_involutive.
  - by destruct dir.
  - apply Forall_app. split; [|by repeat constructor].
    eapply Forall_impl; [exact Hdir|]. by intros c (_ & _ & _ & Hc).
Qed.

(** C23. A download is confined and complete: into an absolute clean directory, [Download]
    opens for writing only files directly in that directory (or the directory's own path, for a
    listed name that is a dot), and uploads nothing; and it returns a manifest only when that is the
    parsed manifest of the snapshot, it lists at least one file, the files opened are exactly those it lists,
    in its order, and of each of them the object was read, decompressed, and written to its file,
    every step successfully. A name in a manifest cannot lead out of the directory. *)
Theorem download_confined storagePath dir :
  Forall plain_component dir -> dir <> [] ->
  let localDir := String slash (strings_Join dir "/") in
  let prefix := normalizeStoragePath storagePath in
  always (Download (S3Store_blobs st) storagePath localDir)
    (fun tr r => puts tr = [] /\
       (forall path, path ∈ opened tr -> path = localDir \/
          exists name, has_char slash name = false /\
            path = String slash (strings_Join (dir ++ [name]) "/")) /\
       match r with
       | Ok m => manifest_fetched prefix m tr /\ mf_SnapshotFiles m <> [] /\
           opened tr = (fun n => filepath_Join [localDir; n]) <$> mf_SnapshotFiles m /\
           Forall (fun n => fetched (object_key prefix n) (filepath_Join [localDir; n]) tr) (mf_SnapshotFiles m)
       | Err _ => True
       end).
Proof.
  intros Hdir Hne localDir prefix. unfold always, Download. fold prefix. rewrite wp_check_bind. wp_step.
  destruct r as [e|]; wp_step; [split_and!; [done| |done]; intros p Hp; by apply elem_of_nil in Hp|].
  rewrite wp_try_bind. eapply wp_mono; [apply wp_conj; [apply wp_GetManifest_fetched|apply wp_GetManifest]|].
  intros t [m|e] (Hm' & _ & Ho & Hp).
  2:{ rewrite Hp, Ho. split_and!; [done| |done]. intros p Hin. by apply elem_of_nil in Hin. }
  case_bool_decide as Hm; wp_step.
  { rewrite Hp, Ho. split_and!; [done| |done]. intros p Hin. by apply elem_of_nil in Hin. }
  rewrite wp_check_bind. eapply wp_mono; [apply wp_conj; [apply wp_prefix|apply wp_download_files]|].
  intros t' r (Hext & names & Hpre & Ho' & Hval & Hp' & Hr). rewrite Ho in Ho'. cbn in Ho'.
  assert (Hconf : forall path, path ∈ opened t' -> path = localDir \/
      exists name, has_char slash name = false /\
        path = String slash (strings_Join (dir ++ [name]) "/")).
  { intros path. rewrite Ho'. intros (name & -> & Hin)%list_elem_of_fmap.
    rewrite Forall_forall in Hval. specialize (Hval name Hin).
    destruct (decide (name = ".")) as [->|Hdot].
    - left. by apply filepath_Join_dot.
    - right. exists name. split; [by apply validateFileName_None|]. by apply filepath_Join_plain. }
  destruct r as [e|]; cbn [is_ok]; wp_step; rewrite Hp', Hp.
  - by split_and!.
  - destruct (Hr eq_refl) as [-> Hall]. split_and!; [done|done| |done|by rewrite Ho'|done].
    eapply manifest_fetched_prefix; [exact Hext|by apply Hm'].
Qed.
End Facts.
Module StoreWitness.
#[local] Existing Instance ZQuantity.
#[local] Instance json : ManifestJson := {|
  json_Marshal := fun _ => Ok "{}";
  json_Unmarshal := fun _ => Ok no_manifest;
|}.
#[local] Instance zstd : ZstdApi := {|
  zstd_compress := fun data => data;
  zstd_decompress := fun data => Ok data;
|}.

Definition st : S3Store := mkS3Store (mkS3Options "us-east-1" "" "" false None) "bucket".

Lemma download_confined_witness :
  let localDir := String slash (strings_Join ["tmp"; "restore"; "checkpoint"] "/") in
  always (Download (S3Store_blobs st) "snapshots/a" localDir)
    (fun tr r => puts tr = [] /\
       (forall path, path ∈ opened tr -> path = localDir \/
          exists name, has_char slash name = false /\
            path = String slash (strings_Join (["tmp"; "restore"; "checkpoint"] ++ [name]) "/")) /\
       match r with
       | Ok m => manifest_fetched st "snapshots/a/" m tr /\ mf_SnapshotFiles m <> [] /\
           opened tr = (fun n => filepath_Join [localDir; n]) <$> mf_SnapshotFiles m /\
           Forall (fun n => fetched st (object_key "snapshots/a/" n) (filepath_Join [localDir; n]) tr) (mf_SnapshotFiles m)
       | Err _ => True
       end).
Proof.
  apply (download_confined st "snapshots/a" ["tmp"; "restore"; "checkpoint"]);
    [by repeat constructor|done].
Defined.

(** The path is normalized once for the upload and twice for the manifest of a download, and
    [normalizeStoragePath] is not idempotent: under a path that starts with two slashes a
    snapshot is uploaded that a restore looks for elsewhere. *)
Theorem double_slash_path_unreadable :
  normalizeStoragePath "//a" = "/a/" /\ normalizeStoragePath (normalizeStoragePath "//a") = "a/".
Proof. by vm_compute. Qed.
End StoreWitness.
