(* ===== verification/Manager.v ===== *)
(** * The Worker's Slot manager (internal/worker)

    A [SlotManager] maps slot ids to managed Slots through pointers: [sm_slots] holds addresses
    into [sm_heap], so that a Slot survives a topology change with its identity and a request
    that already holds a pointer keeps using it. A request runs in two atomic parts: [getSlot]
    under the manager's lock, then a critical section under the Slot's own lock, one [*_locked]
    definition per operation; while it holds the Slot it calls the runtime, the snapshotter and
    the object store ([WorkerE]). *)

From S2P Require Import Prelude Prog Strings Slot Runtime Api WorkerEnv SnapshotStore.

(* go: internal/worker/types.go 9-15 Config *)
Record WorkerConfig `{QuantityApi} := mkWorkerConfig {
  wc_Name : string;
  wc_Namespace : string;
  wc_Pool : string;
  wc_Slots : list Config;
  (** [Runtime.CRI.RuntimeHandler], when the CRI configuration is set *)
  wc_RuntimeHandler : option string;
}.

(** [context.Context] carries nothing the Worker looks at. *)

Section Manager.
Context {QA : QuantityApi} `{ManifestJson} `{ZstdApi}.

(** [equality.Semantic.DeepEqual] on resource requirements. *)
Context (DeepEqual : ResourceRequirements -> ResourceRequirements -> bool).

(* go: internal/worker/manager.go 27-40 managedSlot *)
Record managedSlot := mkSlot {
  ms_id : Z;
  ms_profile : string;
  ms_resources : ResourceRequirements;
  ms_state : State;
  ms_sandbox : SandboxIdentity;
  ms_runtimeRef : option ID;
  ms_restored : bool;
  ms_restoreDir : string;
}.

Definition set_state (s : State) (m : managedSlot) : managedSlot :=
  mkSlot (ms_id m) (ms_profile m) (ms_resources m) s (ms_sandbox m) (ms_runtimeRef m)
    (ms_restored m) (ms_restoreDir m).
Definition set_sandbox (i : SandboxIdentity) (m : managedSlot) : managedSlot :=
  mkSlot (ms_id m) (ms_profile m) (ms_resources m) (ms_state m) i (ms_runtimeRef m)
    (ms_restored m) (ms_restoreDir m).
Definition set_runtimeRef (r : option ID) (m : managedSlot) : managedSlot :=
  mkSlot (ms_id m) (ms_profile m) (ms_resources m) (ms_state m) (ms_sandbox m) r
    (ms_restored m) (ms_restoreDir m).
Definition set_restored (b : bool) (m : managedSlot) : managedSlot :=
  mkSlot (ms_id m) (ms_profile m) (ms_resources m) (ms_state m) (ms_sandbox m) (ms_runtimeRef m)
    b (ms_restoreDir m).
Definition set_restoreDir (d : string) (m : managedSlot) : managedSlot :=
  mkSlot (ms_id m) (ms_profile m) (ms_resources m) (ms_state m) (ms_sandbox m) (ms_runtimeRef m)
    (ms_restored m) d.

(** [sm_resolves] tells whether the runtime implements the optional container-id resolver. *)
(* go: internal/worker/manager.go 18-25 SlotManager *)
Record SlotManager := mkManager {
  sm_config : WorkerConfig;
  sm_resolves : bool;
  sm_snapshotters : Registry;
  sm_slots : gmap Z positive;
  sm_heap : gmap positive managedSlot;
}.

(** A Slot as it is created from its configuration. *)
(* go: internal/worker/manager.go 44-49 NewSlotManager *)
Definition fresh_slot (cfg : Config) : managedSlot :=
  mkSlot (cfg_ID cfg) (cfg_Profile cfg) (cloneResources (cfg_Resources cfg)) StateFree
    no_identity None false "".

(** Allocate a Slot and point [id] at it. *)
Definition alloc (id : Z) (s : managedSlot) (acc : gmap Z positive * gmap positive managedSlot)
    : gmap Z positive * gmap positive managedSlot :=
  let '(slots, heap) := acc in
  let a := fresh (dom heap) in (<[id := a]> slots, <[a := s]> heap).

(* go: internal/worker/manager.go NewSlotManager *)
Definition NewSlotManager (config : WorkerConfig) (resolves : bool) (snapshotters : Registry)
    : SlotManager :=
  let '(slots, heap) :=
    foldl (fun acc cfg => alloc (cfg_ID cfg) (fresh_slot cfg) acc) (∅, ∅) (wc_Slots config) in
  mkManager config resolves snapshotters slots heap.

(** ** Topology *)

(** The desired Slots by id, or the first duplicated id. *)
(* go: internal/worker/manager.go 60-66 SlotManager.ApplySlots *)
Fixpoint desired_slots (configs : list Config) (desired : gmap Z Config) : result (gmap Z Config) :=
  match configs with
  | [] => Ok desired
  | cfg :: rest =>
      match desired !! cfg_ID cfg with
      | Some _ => Err (wrap_sentinel ErrSlotConfigInvalid ("duplicate slot id " +:+ itoa (cfg_ID cfg)))
      | None => desired_slots rest (<[cfg_ID cfg := cfg]> desired)
      end
  end.

(** The check of one existing Slot. *)
(* go: internal/worker/manager.go 68-86 SlotManager.ApplySlots *)
Definition check_slot (desired : gmap Z Config) (id : Z) (current : managedSlot) : option error :=
  match desired !! id with
  | None =>
      if decide (ms_state current <> StateFree) then
        Some (wrap_sentinel ErrSlotConfigInvalid ("cannot remove busy slot " +:+ itoa id))
      else None
  | Some cfg =>
      if bool_decide (ms_profile current = cfg_Profile cfg) &&
         DeepEqual (ms_resources current) (cfg_Resources cfg) then None
      else Some (wrap_sentinel ErrSlotConfigInvalid
                   ("slot " +:+ itoa id +:+ " resources/profile are immutable"))
  end.

(** [order] is the order in which Go's map iteration visits the existing Slots. *)
(* go: internal/worker/manager.go 68-86 SlotManager.ApplySlots *)
Fixpoint check_slots (desired : gmap Z Config) (heap : gmap positive managedSlot)
    (order : list (Z * positive)) : option error :=
  match order with
  | [] => None
  | (id, a) :: rest =>
      match s ← heap !! a; check_slot desired id s with
      | Some err => Some err
      | None => check_slots desired heap rest
      end
  end.

(** The new Slot map: the pointer of an existing Slot, or a new Slot. *)
(* go: internal/worker/manager.go 88-100 SlotManager.ApplySlots *)
Definition next_slots (current : gmap Z positive) (heap : gmap positive managedSlot)
    (desired : gmap Z Config) : gmap Z positive * gmap positive managedSlot :=
  foldl (fun acc '(id, cfg) =>
    match current !! id with
    | Some a => let '(slots, heap) := acc in (<[id := a]> slots, heap)
    | None => alloc id (fresh_slot cfg) acc
    end) (∅, heap) (map_to_list desired).

Definition set_config_slots (configs : list Config) (c : WorkerConfig) : WorkerConfig :=
  mkWorkerConfig QA (wc_Name c) (wc_Namespace c) (wc_Pool c) configs (wc_RuntimeHandler c).

(* go: internal/worker/manager.go SlotManager.ApplySlots *)
Definition ApplySlots_in (order : list (Z * positive)) (configs : list Config) (m : SlotManager)
    : SlotManager * option error :=
  match desired_slots configs ∅ with
  | Err err => (m, Some err)
  | Ok desired =>
      match check_slots desired (sm_heap m) order with
      | Some err => (m, Some err)
      | None =>
          let '(slots, heap) := next_slots (sm_slots m) (sm_heap m) desired in
          (mkManager (set_config_slots configs (sm_config m)) (sm_resolves m) (sm_snapshotters m)
             slots heap, None)
      end
  end.

(* go: internal/worker/manager.go SlotManager.ApplySlots *)
Definition ApplySlots (configs : list Config) (m : SlotManager) : SlotManager * option error :=
  ApplySlots_in (map_to_list (sm_slots m)) configs m.

(** ** Lookup and validation *)

(* go: internal/worker/manager.go SlotManager.getSlot *)
Definition getSlot (m : SlotManager) (id : Z) : result positive :=
  match sm_slots m !! id with
  | Some a => Ok a
  | None => Err (wrap_sentinel ErrSlotNotFound (itoa id))
  end.

(* go: internal/worker/manager.go validateIdentity *)
Definition validateIdentity (i : SandboxIdentity) : option error :=
  if bool_decide (id_Namespace i = "") || bool_decide (id_Name i = "") ||
     bool_decide (id_UID i = "") then
    Some (wrap_sentinel ErrInvalidRequest "namespace, name, and UID are required")
  else None.

(* go: internal/worker/snapshot.go SlotManager.runtimeHandler *)
Definition runtimeHandler (m : SlotManager) : string := default "" (wc_RuntimeHandler (sm_config m)).

(* go: internal/worker/snapshot.go tearsDownOnSave *)
Definition tearsDownOnSave (s : Snapshotter) : bool := default false (sn_SaveTeardown s).

(* go: internal/worker/manager.go runtimeSlotState *)
Definition runtimeSlotState (s : RuntimeState) : State :=
  match s with
  | RtCreated => StateStarting
  | RtRunning => StateRunning
  | RtStopped => StateStopping
  | _ => StateFailed
  end.

(* go: internal/worker/manager.go 446-453 containerConfig *)
Fixpoint container_env (env : list EnvVar) : result (list EnvironmentVariable) :=
  match env with
  | [] => Ok []
  | v :: rest =>
      match ev_ValueFrom v with
      | Some _ => Err (wrap_sentinel ErrInvalidRequest
          ("environment variable " +:+ quote (ev_Name v) +:+ " uses unsupported valueFrom"))
      | None => env' ← container_env rest; mret (mkEnv (ev_Name v) (ev_Value v) :: env')
      end
  end.

(* go: internal/worker/manager.go containerConfig *)
Definition containerConfig (req : StartSandboxRequest) : result ContainerConfig :=
  let c := sr_Container req in
  env ← container_env (cs_Env c);
  mret (mkContainerConfig (cs_Image c) (cs_Command c) (cs_Args c) env).

Definition owned_by_other (slotID : Z) (owner : UID) : error :=
  wrap_sentinel ErrSlotConflict ("slot " +:+ itoa slotID +:+ " is owned by sandbox " +:+ quote owner).
Definition not_reserved_by (slotID : Z) (uid : UID) : error :=
  wrap_sentinel ErrSlotConflict
    ("slot " +:+ itoa slotID +:+ " is not reserved by sandbox " +:+ quote uid).

(** Two errors with one wrapped: [fmt.Errorf("<a>: %v; <b>: %w", e1, e2)]. *)
Definition wrap_both (a b : string) (e1 e2 : error) : error :=
  Wrapf (a +:+ ": " +:+ error_text e1 +:+ "; " +:+ b +:+ ": " +:+ error_text e2) e2.

(** A critical section: the Slot it leaves and its error. *)
Definition slot_result : Type := managedSlot * option error.
Definition done (s : managedSlot) : prog WorkerE (managedSlot * option error) := Ret (s, None).
Definition fail (s : managedSlot) (e : error) : prog WorkerE (managedSlot * option error) :=
  Ret (s, Some e).

(** ** Reserve *)

(* go: internal/worker/manager.go 118-126 SlotManager.ReserveSlot *)
Definition ReserveSlot_locked (ref : SandboxSlotRef) (current : managedSlot) : slot_result :=
  if decide (ms_state current = StateFree) then
    (set_sandbox (ref_Identity ref) (set_state StateReserved current), None)
  else if decide (id_UID (ms_sandbox current) = id_UID (ref_Identity ref)) then (current, None)
  else (current, Some (owned_by_other (ref_SlotID ref) (id_UID (ms_sandbox current)))).

(** ** Start *)

(** A cold start of a reserved Slot: create the runtime and start it. *)
(* go: internal/worker/manager.go 175-218 SlotManager.StartSandbox *)
Definition StartSandbox_cold (req : StartSandboxRequest) (current : managedSlot)
    : prog WorkerE (managedSlot * option error) :=
  if decide (ms_state current <> StateReserved) then
    fail current (Plain ("slot " +:+ itoa (sr_SlotID req) +:+ " cannot start from state " +:+
                         quote (State_string (ms_state current))))
  else
    match containerConfig req with
    | Err err => fail current err
    | Ok container =>
        let current := set_state StateStarting current in
        created ← trigger (RtCreate (mkCreateRequest QA (sr_Identity req) (sr_SlotID req)
                                       (ms_resources current) container));
        match created with
        | Err err => fail (set_state StateReserved current) (wrap_prefix "create runtime" err)
        | Ok runtimeID =>
            let current := set_runtimeRef (Some runtimeID) current in
            let current := set_restored (IsRestoredID runtimeID) current in
            started ← trigger (RtStart runtimeID);
            match started with
            | Some err =>
                cleanupErr ← trigger (RtDelete runtimeID);
                let current := set_runtimeRef None current in
                let current := set_restored false current in
                let current := set_state StateReserved current in
                match cleanupErr with
                | Some e => fail (set_state StateFailed current)
                              (wrap_both "start runtime" "clean failed runtime" err e)
                | None => fail current (wrap_prefix "start runtime" err)
                end
            | None => done (set_state StateRunning current)
            end
        end
    end.

(** A Slot recovered with a created runtime: start that runtime. *)
(* go: internal/worker/manager.go 161-174 SlotManager.StartSandbox *)
Definition StartSandbox_resume (req : StartSandboxRequest) (current : managedSlot)
    : prog WorkerE (managedSlot * option error) :=
  match ms_state current, ms_runtimeRef current with
  | StateStarting, Some id =>
      started ← trigger (RtStart id);
      match started with
      | Some err =>
          cleanupErr ← trigger (RtDelete id);
          let current := set_runtimeRef None current in
          let current := set_state StateReserved current in
          match cleanupErr with
          | Some e => fail (set_state StateFailed current)
                        (wrap_both "resume runtime start" "clean failed runtime" err e)
          | None => fail current (wrap_prefix "resume runtime start" err)
          end
      | None => done (set_state StateRunning current)
      end
  | _, _ => StartSandbox_cold req current
  end.

(** A running Slot whose runtime is gone or no longer runs: delete it and start again. *)
(* go: internal/worker/manager.go 152-157 SlotManager.StartSandbox *)
Definition StartSandbox_restart (req : StartSandboxRequest) (current : managedSlot) (id : ID)
    : prog WorkerE (managedSlot * option error) :=
  deleted ← trigger (RtDelete id);
  match deleted with
  | Some err => fail (set_state StateFailed current) (wrap_prefix "delete stale runtime" err)
  | None => StartSandbox_resume req (set_state StateReserved (set_runtimeRef None current))
  end.

(* go: internal/worker/manager.go 141-218 SlotManager.StartSandbox *)
Definition StartSandbox_locked (req : StartSandboxRequest) (current : managedSlot)
    : prog WorkerE (managedSlot * option error) :=
  if decide (id_UID (ms_sandbox current) <> id_UID (sr_Identity req)) then
    fail current (not_reserved_by (sr_SlotID req) (id_UID (sr_Identity req)))
  else
    match ms_state current, ms_runtimeRef current with
    | StateRunning, Some id =>
        status ← trigger (RtStatus id);
        match status with
        | Ok st => if decide (st_State st = RtRunning) then done current
                   else StartSandbox_restart req current id
        | Err statusErr =>
            if errors_Is statusErr (error_text ErrNotFound) then StartSandbox_restart req current id
            else fail current (wrap_prefix "check running runtime" statusErr)
        end
    | StateRunning, None => StartSandbox_resume req (set_state StateReserved current)
    | _, _ => StartSandbox_resume req current
    end.

(** ** Stop and release *)

(* go: internal/worker/snapshot.go clearRestoreDir *)
Definition clearRestoreDir (current : managedSlot) : prog WorkerE managedSlot :=
  if bool_decide (ms_restoreDir current = "") then Ret current
  else
    _ ← trigger (OsRemoveAll (ms_restoreDir current));
    Ret (set_restoreDir "" current).

(* go: internal/worker/manager.go 232-265 SlotManager.StopSandbox *)
Definition StopSandbox_locked (registry : Registry) (handler : string) (ref : SandboxSlotRef)
    (current : managedSlot) : prog WorkerE (managedSlot * option error) :=
  if decide (ms_state current = StateFree) then done current
  else if decide (id_UID (ms_sandbox current) <> id_UID (ref_Identity ref)) then
    fail current (owned_by_other (ref_SlotID ref) (id_UID (ms_sandbox current)))
  else if decide (ms_state current = StateStopping \/ ms_state current = StateCleaning) then
    done current
  else
    let current := set_state StateStopping current in
    match ms_runtimeRef current with
    | None => done current
    | Some id =>
        if ms_restored current then
          match For registry handler with
          | Err err => fail (set_state StateFailed current) err
          | Ok snap =>
              deleted ← trigger (SnDeleteRestored snap id);
              match deleted with
              | Some err => fail (set_state StateFailed current)
                              (wrap_prefix "stop restored runtime" err)
              | None =>
                  current ← clearRestoreDir (set_runtimeRef None current);
                  done current
              end
          end
        else
          stopped ← trigger (RtStop id);
          match stopped with
          | Some err => fail (set_state StateFailed current) (wrap_prefix "stop runtime" err)
          | None => done current
          end
    end.

(** The deletion of the runtime a Slot holds. *)
(* go: internal/worker/manager.go 288-303 SlotManager.ReleaseSlot *)
Definition delete_held (registry : Registry) (handler : string) (current : managedSlot)
    : prog WorkerE (option error) :=
  match ms_runtimeRef current with
  | None => Ret None
  | Some id =>
      if ms_restored current then
        match For registry handler with
        | Err err => Ret (Some err)
        | Ok snap => on_failure (wrap_prefix "delete restored runtime")
                       (trigger (SnDeleteRestored snap id))
        end
      else on_failure (wrap_prefix "delete runtime") (trigger (RtDelete id))
  end.

(* go: internal/worker/manager.go 280-310 SlotManager.ReleaseSlot *)
Definition ReleaseSlot_locked (registry : Registry) (handler : string) (ref : SandboxSlotRef)
    (current : managedSlot) : prog WorkerE (managedSlot * option error) :=
  if decide (ms_state current = StateFree) then done current
  else if decide (id_UID (ms_sandbox current) <> id_UID (ref_Identity ref)) then
    fail current (owned_by_other (ref_SlotID ref) (id_UID (ms_sandbox current)))
  else
    let current := set_state StateCleaning current in
    deleted ← delete_held registry handler current;
    match deleted with
    | Some err => fail (set_state StateFailed current) err
    | None =>
        let current := set_state StateFree current in
        let current := set_sandbox no_identity current in
        let current := set_runtimeRef None current in
        let current := set_restored false current in
        current ← clearRestoreDir current;
        done current
    end.

(** ** Get and exec *)

(* go: internal/worker/manager.go 324-327 SlotManager.GetSandbox *)
Definition GetSandbox_locked (ref : SandboxSlotRef) (current : managedSlot) : result SandboxInfo :=
  if decide (ms_state current = StateFree \/
             id_UID (ms_sandbox current) <> id_UID (ref_Identity ref)) then
    Err (Sentinel ErrSandboxNotFound)
  else Ok (mkSandboxInfo (ms_sandbox current) (ms_id current) (ms_state current)).

(** The guard [ExecSandbox] and the file operations share: the Slot runs the Sandbox. *)
(* go: internal/worker/files.go 116-123 SlotManager.runningSlot *)
Definition running_ref (identity : SandboxIdentity) (current : managedSlot) : result ID :=
  if decide (ms_state current = StateFree \/ id_UID (ms_sandbox current) <> id_UID identity) then
    Err (Sentinel ErrSandboxNotFound)
  else match ms_state current, ms_runtimeRef current with
       | StateRunning, Some id => Ok id
       | _, _ => Err (wrap_sentinel ErrInvalidRequest "sandbox is not running")
       end.

(* go: internal/worker/files.go SlotManager.execRestored *)
Definition execRestored (registry : Registry) (handler : string) (id : ID) (req : ExecRequest)
    : prog WorkerE (result ExecResult) :=
  match For registry handler with
  | Err err => Ret (Err err)
  | Ok snap => trigger (SnExecRestored snap id req)
  end.

(** [time.Duration(seconds) * time.Second] on 64 bits. *)
Definition wrap64 (z : Z) : Z := (z + 2 ^ 63) mod 2 ^ 64 - 2 ^ 63.

(* go: internal/worker/manager.go 345-375 SlotManager.ExecSandbox *)
Definition ExecSandbox_locked (registry : Registry) (handler : string) (req : ExecSandboxRequest)
    (current : managedSlot) : prog WorkerE (result ExecResult) :=
  match running_ref (er_Identity req) current with
  | Err err => Ret (Err err)
  | Ok id =>
      let timeout := if (0 <? er_TimeoutSeconds req)%Z
                     then wrap64 (er_TimeoutSeconds req * Second) else 0%Z in
      let execReq := mkExecRequest (er_Command req) timeout in
      if ms_restored current then
        on_error (wrap_prefix "exec restored sandbox") (execRestored registry handler id execReq)
      else on_error (wrap_prefix "exec sandbox") (trigger (RtExec id execReq))
  end.

(** ** Sandbox files (files_fs.go, files.go) *)

(** The Worker-local view of one running sandbox's files. *)
(* go: internal/worker/files_fs.go sandboxFS *)
Record sandboxFS := mkSandboxFS {
  fs_Exists : string -> prog WorkerE (result bool);
  fs_List : string -> prog WorkerE (result (list FileEntry));
  fs_Read : string -> prog WorkerE (result string);
  fs_Write : string -> string -> prog WorkerE (option error);
}.

(* go: internal/worker/files_fs.go 23-50 criSandboxFS *)
Definition criSandboxFS (id : ID) : sandboxFS := {|
  fs_Exists absPath := trigger (RtFileExists id absPath);
  fs_List absPath :=
    let! entries := trigger (RtListFiles id absPath) in
    Ret (Ok (map (fun e => mkFileEntry (fe_Name e) (fe_Type e)) entries));
  fs_Read absPath := trigger (RtReadFile id absPath);
  fs_Write absPath content := trigger (RtWriteFile id absPath content);
|}.

(* go: internal/worker/files_fs.go parseFileList *)
Definition parseFileList (stdout : string) : list FileEntry :=
  omap (fun line =>
    let line := TrimSpace line in
    if bool_decide (line = "") then None
    else match Cut tab line with
         | None => None
         | Some (type, name) => Some (mkFileEntry name type)
         end)
    (Split newline stdout).

Definition test_script : string := raw "test -e `$1`".

(* go: internal/worker/files_fs.go 56-104 execSandboxFS *)
Definition execSandboxFS (exec : ExecRequest -> prog WorkerE (result ExecResult)) : sandboxFS := {|
  fs_Exists absPath :=
    let! r := exec (mkExecRequest ["sh"; "-c"; test_script; "exists"; absPath] (15 * Second)) in
    Ret (Ok (xr_ExitCode r =? 0)%Z);
  fs_List absPath :=
    let! r := exec (mkExecRequest ["sh"; "-c"; list_script; "list"; absPath] (30 * Second)) in
    if negb (xr_ExitCode r =? 0)%Z then Ret (Err (exit_error "list" absPath r))
    else Ret (Ok (parseFileList (xr_Stdout r)));
  fs_Read absPath := ReadFileVia exec absPath;
  fs_Write absPath content := WriteFileVia exec absPath content;
|}.

(* go: internal/worker/files.go SlotManager.sandboxFSFor *)
Definition sandboxFSFor (registry : Registry) (handler : string) (id : ID) (current : managedSlot)
    : sandboxFS :=
  if ms_restored current then execSandboxFS (execRestored registry handler id) else criSandboxFS id.

(** ** Requests: validation, lookup, critical section *)

Definition set_slot (a : positive) (s : managedSlot) (m : SlotManager) : SlotManager :=
  mkManager (sm_config m) (sm_resolves m) (sm_snapshotters m) (sm_slots m) (<[a := s]> (sm_heap m)).

(** The Slot behind a pointer; a pointer the manager holds is always allocated. *)
Definition deref (m : SlotManager) (a : positive) : result managedSlot :=
  match sm_heap m !! a with
  | Some s => Ok s
  | None => Err (Plain "invalid memory address or nil pointer dereference")
  end.

(** [getSlot], lock, the critical section [f], unlock. *)
Definition with_slot {R} (inj : error -> R) (id : Z) (f : managedSlot -> prog WorkerE (managedSlot * R))
    (m : SlotManager) : prog WorkerE (SlotManager * R) :=
  match getSlot m id with
  | Err err => Ret (m, inj err)
  | Ok a =>
      match deref m a with
      | Err err => Ret (m, inj err)
      | Ok current =>
          r ← f current;
          Ret (set_slot a r.1 m, r.2)
      end
  end.

(** A critical section that only reads the Slot. *)
Definition reading {R} (f : managedSlot -> prog WorkerE R) (current : managedSlot)
    : prog WorkerE (managedSlot * R) :=
  r ← f current; Ret (current, r).

Definition request (identity : SandboxIdentity) (m : SlotManager)
    (k : prog WorkerE (SlotManager * option error)) : prog WorkerE (SlotManager * option error) :=
  match validateIdentity identity with
  | Some err => Ret (m, Some err)
  | None => k
  end.

(* go: internal/worker/manager.go SlotManager.ReserveSlot *)
Definition ReserveSlot (ref : SandboxSlotRef) (m : SlotManager)
    : prog WorkerE (SlotManager * option error) :=
  request (ref_Identity ref) m
    (with_slot Some (ref_SlotID ref) (fun s => Ret (ReserveSlot_locked ref s)) m).

(* go: internal/worker/manager.go SlotManager.StartSandbox *)
Definition StartSandbox (req : StartSandboxRequest) (m : SlotManager)
    : prog WorkerE (SlotManager * option error) :=
  request (sr_Identity req) m (with_slot Some (sr_SlotID req) (StartSandbox_locked req) m).

(* go: internal/worker/manager.go SlotManager.StopSandbox *)
Definition StopSandbox (ref : SandboxSlotRef) (m : SlotManager)
    : prog WorkerE (SlotManager * option error) :=
  request (ref_Identity ref) m
    (with_slot Some (ref_SlotID ref)
       (StopSandbox_locked (sm_snapshotters m) (runtimeHandler m) ref) m).

(* go: internal/worker/manager.go SlotManager.ReleaseSlot *)
Definition ReleaseSlot (ref : SandboxSlotRef) (m : SlotManager)
    : prog WorkerE (SlotManager * option error) :=
  request (ref_Identity ref) m
    (with_slot Some (ref_SlotID ref)
       (ReleaseSlot_locked (sm_snapshotters m) (runtimeHandler m) ref) m).

(** A request that returns a value and leaves the manager as it is. *)
Definition query {A} (identity : SandboxIdentity) (slotID : Z) (m : SlotManager)
    (f : managedSlot -> prog WorkerE (result A)) : prog WorkerE (result A) :=
  match validateIdentity identity with
  | Some err => Ret (Err err)
  | None =>
      match a ← getSlot m slotID; deref m a with
      | Err err => Ret (Err err)
      | Ok current => f current
      end
  end.

(* go: internal/worker/manager.go SlotManager.GetSandbox *)
Definition GetSandbox (ref : SandboxSlotRef) (m : SlotManager) : prog WorkerE (result SandboxInfo) :=
  query (ref_Identity ref) (ref_SlotID ref) m (fun s => Ret (GetSandbox_locked ref s)).

(** The identity is checked before the command. *)
(* go: internal/worker/manager.go SlotManager.ExecSandbox *)
Definition ExecSandbox (req : ExecSandboxRequest) (m : SlotManager) : prog WorkerE (result ExecResult) :=
  match validateIdentity (er_Identity req) with
  | Some err => Ret (Err err)
  | None =>
      if bool_decide (er_Command req = []) then
        Ret (Err (wrap_sentinel ErrInvalidRequest "command is required"))
      else query (er_Identity req) (er_SlotID req) m
             (ExecSandbox_locked (sm_snapshotters m) (runtimeHandler m) req)
  end.

(* go: internal/worker/manager.go SlotManager.ListSlots *)
Definition ListSlots (m : SlotManager) : list Info :=
  omap (fun id =>
    match a ← getSlot m id; deref m a with
    | Err _ => None
    | Ok s => Some (mkInfo id (ms_profile s) (ms_state s) (id_UID (ms_sandbox s)))
    end)
    (merge_sort Z.le (map_to_list (sm_slots m)).*1).

(** ** File requests *)

(** The Slot that runs the Sandbox and its file system. *)
(* go: internal/worker/files.go SlotManager.runningSlot *)
Definition with_fs {A} (slotID : Z) (identity : SandboxIdentity) (m : SlotManager)
    (k : sandboxFS -> prog WorkerE (result A)) : prog WorkerE (result A) :=
  query identity slotID m (fun current =>
    match running_ref identity current with
    | Err err => Ret (Err err)
    | Ok id => k (sandboxFSFor (sm_snapshotters m) (runtimeHandler m) id current)
    end).

(** [fmt.Errorf("%w: %v", ErrInvalidRequest, err)]. *)
Definition invalid_request (err : error) : error := wrap_sentinel ErrInvalidRequest (error_text err).

Definition under_root {A} (req : SandboxFileRequest) (m : SlotManager)
    (k : sandboxFS -> string -> prog WorkerE (result A)) : prog WorkerE (result A) :=
  match ResolveUnderRoot DefaultFilesRoot (fr_Path req) with
  | Err err => Ret (Err (invalid_request err))
  | Ok absPath => with_fs (fr_SlotID req) (fr_Identity req) m (fun fs => k fs absPath)
  end.

(* go: internal/worker/files.go SlotManager.ExistsSandboxFile *)
Definition ExistsSandboxFile (req : SandboxFileRequest) (m : SlotManager) : prog WorkerE (result bool) :=
  under_root req m (fun fs absPath => fs_Exists fs absPath).

(* go: internal/worker/files.go SlotManager.ListSandboxFiles *)
Definition ListSandboxFiles (req : SandboxFileRequest) (m : SlotManager)
    : prog WorkerE (result (list FileEntry)) :=
  under_root req m (fun fs absPath => fs_List fs absPath).

(* go: internal/worker/files.go SlotManager.ReadSandboxFile *)
Definition ReadSandboxFile (req : SandboxFileRequest) (m : SlotManager) : prog WorkerE (result string) :=
  under_root req m (fun fs absPath => fs_Read fs absPath).

(* go: internal/worker/files.go SlotManager.WriteSandboxFile *)
Definition WriteSandboxFile (req : SandboxFileRequest) (content : string) (m : SlotManager)
    : prog WorkerE (option error) :=
  match ValidateWriteName (fr_Path req) with
  | Some err => Ret (Some (invalid_request err))
  | None =>
      if (MaxFileBytes <? len content)%Z then
        Ret (Some (wrap_sentinel ErrInvalidRequest
                     ("content exceeds " +:+ itoa MaxFileBytes +:+ " bytes")))
      else
        let absPath := path_Join [DefaultFilesRoot; fr_Path req] in
        r ← with_fs (fr_SlotID req) (fr_Identity req) m (fun fs =>
              w ← fs_Write fs absPath content;
              Ret (match w with Some err => Err err | None => Ok tt end));
        Ret (match r with Err err => Some err | Ok _ => None end)
  end.

(** ** Snapshots (snapshot.go) *)

(* go: internal/worker/snapshot.go openSnapshotStorage *)
Definition openSnapshotStorage (cfg : ObjectStorageConfig) : result BlobStorage :=
  S3Store_blobs <$>
  NewS3 (mkS3Config (os_Endpoint cfg) (os_Bucket cfg) (os_Region cfg) (os_AccessKeyID cfg)
           (os_SecretAccessKey cfg)
           (os_UsePathStyle cfg || negb (bool_decide (os_Endpoint cfg = "")))).

(* go: internal/worker/snapshot.go primaryContainerID *)
Definition primaryContainerID (resolves : bool) (id : ID) : prog WorkerE (result string) :=
  if resolves then trigger (RtPrimaryContainerID id) else Ret (Ok "").

Definition storage_required : error :=
  wrap_sentinel ErrInvalidRequest "storagePath and storage.bucket are required".

(** The Slot after its runtime was torn down by the save. *)
(* go: internal/worker/snapshot.go 75-81 SlotManager.CreateSnapshot *)
Definition drop_saved (snap : Snapshotter) (id : ID) (current : managedSlot)
    : prog WorkerE managedSlot :=
  if tearsDownOnSave snap then
    _ ← trigger (SnDeleteRestored snap id);
    let current := set_restored false (set_runtimeRef None current) in
    current ← clearRestoreDir current;
    Ret (set_state StateFailed current)
  else Ret current.

(* go: internal/worker/snapshot.go 83-114 SlotManager.CreateSnapshot *)
Definition upload_snapshot (snap : Snapshotter) (handler : string) (req : CreateSnapshotRequest)
    (workDir : string) : prog WorkerE (result CreateSnapshotResult) :=
  match openSnapshotStorage (cq_Storage req) with
  | Err err => Ret (Err err)
  | Ok store =>
      now ← trigger TimeNow;
      let i := cq_Identity req in
      let manifest := mkManifest handler (sn_FormatVersion snap) []
        (mkSource (id_Namespace i) (id_Name i) (id_UID i)) (cq_Pool req) (cq_Container req) now in
      size ← Upload store (cq_StoragePath req) workDir manifest;
      match size with
      | Err err =>
          _ ← Delete store (cq_StoragePath req) [];
          Ret (Err (wrap_prefix "upload snapshot" err))
      | Ok size =>
          let! uploaded := GetManifest store (cq_StoragePath req) in
          Ret (Ok (mkSnapshotResult (cq_StoragePath req) (mf_SnapshotFiles uploaded) "" size
                     (sn_FormatVersion snap) handler))
      end
  end.

(** The save and the upload, inside the temporary directory [workDir]. *)
(* go: internal/worker/snapshot.go 55-114 SlotManager.CreateSnapshot *)
Definition save_and_upload (resolves : bool) (snap : Snapshotter) (handler : string)
    (req : CreateSnapshotRequest) (id : ID) (workDir : string) (current : managedSlot)
    : prog WorkerE (managedSlot * result CreateSnapshotResult) :=
  containerID ← if IsRestoredID id then Ret (Ok "")
                else on_error (wrap_prefix "resolve container id") (primaryContainerID resolves id);
  match containerID with
  | Err err => Ret (current, Err err)
  | Ok containerID =>
      saved ← trigger (SnSave snap (mkSaveRequest id workDir containerID
                                      (id_Name (cq_Identity req)) (cs_Image (cq_Container req))));
      match saved with
      | Some err => Ret (current, Err (wrap_prefix "save snapshot" err))
      | None =>
          current ← drop_saved snap id current;
          r ← upload_snapshot snap handler req workDir;
          Ret (current, r)
      end
  end.

Definition not_running_on (slotID : Z) : error :=
  wrap_sentinel ErrInvalidRequest ("sandbox is not running on slot " +:+ itoa slotID).

(* go: internal/worker/snapshot.go 43-114 SlotManager.CreateSnapshot *)
Definition CreateSnapshot_locked (resolves : bool) (snap : Snapshotter) (handler : string)
    (req : CreateSnapshotRequest) (current : managedSlot)
    : prog WorkerE (managedSlot * result CreateSnapshotResult) :=
  match ms_state current, ms_runtimeRef current with
  | StateRunning, Some id =>
      if decide (id_UID (ms_sandbox current) <> id_UID (cq_Identity req)) then
        Ret (current, Err (not_running_on (cq_SlotID req)))
      else
        workDir ← trigger (OsMkdirTemp "sandboxfleet-snapshot-*");
        match workDir with
        | Err err => Ret (current, Err err)
        | Ok workDir =>
            deferred (trigger (OsRemoveAll workDir))
              (save_and_upload resolves snap handler req id workDir current)
        end
  | _, _ => Ret (current, Err (not_running_on (cq_SlotID req)))
  end.

(* go: internal/worker/snapshot.go SlotManager.CreateSnapshot *)
Definition CreateSnapshot (req : CreateSnapshotRequest) (m : SlotManager)
    : prog WorkerE (SlotManager * result CreateSnapshotResult) :=
  match validateIdentity (cq_Identity req) with
  | Some err => Ret (m, Err err)
  | None =>
      if bool_decide (cq_StoragePath req = "") || bool_decide (os_Bucket (cq_Storage req) = "") then
        Ret (m, Err storage_required)
      else
        let handler := if bool_decide (cq_Runtime req = "") then runtimeHandler m
                       else cq_Runtime req in
        match For (sm_snapshotters m) handler with
        | Err err => Ret (m, Err err)
        | Ok snap =>
            with_slot Err (cq_SlotID req)
              (CreateSnapshot_locked (sm_resolves m) snap handler req) m
        end
  end.

(** Download and load, inside the temporary directory [workDir]. *)
(* go: internal/worker/snapshot.go 170-199 SlotManager.RestoreFromSnapshot *)
Definition download_and_load (snap : Snapshotter) (handler : string)
    (req : RestoreFromSnapshotRequest) (workDir : string) (current : managedSlot)
    : prog WorkerE (managedSlot * option error) :=
  match openSnapshotStorage (rs_Storage req) with
  | Err err => fail current err
  | Ok store =>
      let checkpointDir := filepath_Join [workDir; "checkpoint"] in
      manifest ← Download store (rs_StoragePath req) checkpointDir;
      match manifest with
      | Err err => fail current (wrap_prefix "download snapshot" err)
      | Ok manifest =>
          if negb (bool_decide (mf_RuntimeHandler manifest = "")) &&
             negb (bool_decide (mf_RuntimeHandler manifest = handler)) then
            fail current (wrap_sentinel ErrInvalidRequest
              ("archive handler " +:+ quote (mf_RuntimeHandler manifest) +:+ " does not match " +:+
               quote handler))
          else
            let current := set_state StateStarting current in
            loaded ← trigger (SnLoad snap (mkLoadRequest checkpointDir (rs_Identity req)
                                             (rs_SlotID req) (cs_Image (mf_Container manifest))));
            match loaded with
            | Err err =>
                fail (set_state StateReserved current)
                  (Wrapf2 (ErrSnapshotLoad +:+ ": " +:+ error_text err) (Sentinel ErrSnapshotLoad) err)
            | Ok runtimeID =>
                done (set_state StateRunning (set_restoreDir workDir
                        (set_restored true (set_runtimeRef (Some runtimeID) current))))
            end
      end
  end.

(* go: internal/worker/snapshot.go 148-199 SlotManager.RestoreFromSnapshot *)
Definition RestoreFromSnapshot_locked (snap : Snapshotter) (handler : string)
    (req : RestoreFromSnapshotRequest) (current : managedSlot)
    : prog WorkerE (managedSlot * option error) :=
  if decide (id_UID (ms_sandbox current) <> id_UID (rs_Identity req)) then
    fail current (not_reserved_by (rs_SlotID req) (id_UID (rs_Identity req)))
  else if decide (ms_state current = StateRunning /\ ms_runtimeRef current <> None) then done current
  else if decide (ms_state current <> StateReserved /\ ms_state current <> StateStarting) then
    fail current (Plain ("slot " +:+ itoa (rs_SlotID req) +:+ " cannot restore from state " +:+
                         quote (State_string (ms_state current))))
  else
    workDir ← trigger (OsMkdirTemp "sandboxfleet-restore-*");
    match workDir with
    | Err err => fail current err
    | Ok workDir =>
        r ← download_and_load snap handler req workDir current;
        (* keepRestoreDir *)
        match r.2 with
        | None => Ret r
        | Some _ => _ ← trigger (OsRemoveAll workDir); Ret r
        end
    end.

(** [restoreMu] lets one restore run at a time. *)
(* go: internal/worker/snapshot.go SlotManager.RestoreFromSnapshot *)
Definition RestoreFromSnapshot (req : RestoreFromSnapshotRequest) (m : SlotManager)
    : prog WorkerE (SlotManager * option error) :=
  request (rs_Identity req) m
    (if bool_decide (rs_StoragePath req = "") || bool_decide (os_Bucket (rs_Storage req) = "") then
       Ret (m, Some storage_required)
     else
       let local := runtimeHandler m in
       let handler := if bool_decide (rs_Runtime req = "") then local else rs_Runtime req in
       if negb (bool_decide (local = "")) && negb (bool_decide (handler = local)) then
         Ret (m, Some (wrap_sentinel ErrInvalidRequest
           ("snapshot runtime " +:+ quote handler +:+ " does not match worker " +:+ quote local)))
       else
         match For (sm_snapshotters m) handler with
         | Err err => Ret (m, Some err)
         | Ok snap => with_slot Some (rs_SlotID req) (RestoreFromSnapshot_locked snap handler req) m
         end).

(* go: internal/worker/snapshot.go SlotManager.DeleteSnapshotObjects *)
Definition DeleteSnapshotObjects (req : DeleteSnapshotObjectsRequest) : prog WorkerE (option error) :=
  if bool_decide (do_StoragePath req = "") || bool_decide (os_Bucket (do_Storage req) = "") then
    Ret (Some storage_required)
  else
    match openSnapshotStorage (do_Storage req) with
    | Err err => Ret (Some err)
    | Ok store => Delete store (do_StoragePath req) (do_SnapshotFiles req)
    end.

(** ** Recovery after a restart *)

(** One runtime object found at startup. *)
(* go: internal/worker/manager.go 411-432 SlotManager.Recover *)
Definition recover_object (object : RuntimeInfo) (m : SlotManager) : SlotManager * option error :=
  match a ← getSlot m (ri_SlotID object); s ← deref m a; mret (a, s) with
  | Err _ => (m, Some (Plain ("runtime " +:+ quote (id_Value (ri_ID object)) +:+
                 " references unknown slot " +:+ itoa (ri_SlotID object))))
  | Ok (a, current) =>
      if decide (ms_state current <> StateFree) then
        (set_slot a (set_state StateFailed current) m,
         Some (Plain ("multiple runtime objects reference slot " +:+ itoa (ri_SlotID object))))
      else
        (set_slot a
           (set_state (runtimeSlotState (st_State (ri_Status object)))
              (set_runtimeRef (Some (ri_ID object)) (set_sandbox (ri_Identity object) current))) m,
         None)
  end.

(* go: internal/worker/manager.go 411-433 SlotManager.Recover *)
Fixpoint recover_objects (objects : list RuntimeInfo) (m : SlotManager) : SlotManager * option error :=
  match objects with
  | [] => (m, None)
  | object :: rest =>
      match recover_object object m with
      | (m, Some err) => (m, Some err)
      | (m, None) => recover_objects rest m
      end
  end.

(* go: internal/worker/manager.go SlotManager.Recover *)
Definition Recover (m : SlotManager) : prog WorkerE (SlotManager * option error) :=
  objects ← trigger RtList;
  Ret (match objects with
       | Err err => (m, Some (wrap_prefix "list runtime objects" err))
       | Ok objects => recover_objects objects m
       end).
End Manager.
