(* ===== verification/ManagerFacts.v ===== *)
(** * Correctness of the Worker's Slot manager

    For every behaviour of the runtime, the snapshotter and the object store: a Slot keeps its
    invariant, a request of another Sandbox neither changes a Slot nor calls anything, a Slot
    becomes free only after its runtime was deleted, and no runtime a Slot holds is forgotten
    without a request to delete it. *)

From S2P Require Import Prelude Prog Strings Slot Runtime RuntimeFacts Api WorkerEnv.
From S2P Require Import SnapshotStore SnapshotStoreFacts Manager.

Section Facts.
Context {QA : QuantityApi} `{ManifestJson} `{ZstdApi}.

(** ** Slot operations as one type *)

Inductive slot_op :=
  | OpReserve (ref : SandboxSlotRef)
  | OpStart (req : StartSandboxRequest)
  | OpStop (ref : SandboxSlotRef)
  | OpRelease (ref : SandboxSlotRef)
  | OpExec (req : ExecSandboxRequest)
  | OpCreateSnapshot (resolves : bool) (snap : Snapshotter) (req : CreateSnapshotRequest)
  | OpRestoreSnapshot (snap : Snapshotter) (req : RestoreFromSnapshotRequest).

Definition op_uid (op : slot_op) : UID :=
  match op with
  | OpReserve ref | OpStop ref | OpRelease ref => id_UID (ref_Identity ref)
  | OpStart req => id_UID (sr_Identity req)
  | OpExec req => id_UID (er_Identity req)
  | OpCreateSnapshot _ _ req => id_UID (cq_Identity req)
  | OpRestoreSnapshot _ req => id_UID (rs_Identity req)
  end.

(** The critical section of an operation: the Slot it leaves and its error, if any. *)
Definition slot_run (registry : Registry) (handler : string) (op : slot_op) (s : managedSlot)
    : prog WorkerE (managedSlot * option error) :=
  let err {A} (r : result A) := match r with Ok _ => None | Err e => Some e end in
  match op with
  | OpReserve ref => Ret (ReserveSlot_locked ref s)
  | OpStart req => StartSandbox_locked req s
  | OpStop ref => StopSandbox_locked registry handler ref s
  | OpRelease ref => ReleaseSlot_locked registry handler ref s
  | OpExec req => bind (fun r => Ret (s, err r)) (ExecSandbox_locked registry handler req s)
  | OpCreateSnapshot resolves snap req =>
      bind (fun r => Ret (r.1, err r.2)) (CreateSnapshot_locked resolves snap handler req s)
  | OpRestoreSnapshot snap req => RestoreFromSnapshot_locked snap handler req s
  end.

Lemma wp_drop {A} (p : prog WorkerE A) (Q : A -> Prop) tr :
  (forall a, Q a) -> wp p (fun _ a => Q a) tr.
Proof. intros HQ. eapply wp_mono; [apply wp_true|]. eauto. Qed.

(** ** The invariant of a Slot at rest *)

Record slot_ok (s : managedSlot) : Prop := {
  ok_free : ms_state s = StateFree ->
    ms_sandbox s = no_identity /\ ms_runtimeRef s = None /\ ms_restored s = false /\ ms_restoreDir s = "";
  ok_reserved : ms_state s = StateReserved -> ms_runtimeRef s = None;
  ok_starting : ms_state s = StateStarting -> ms_runtimeRef s <> None;
  ok_running : ms_state s = StateRunning -> ms_runtimeRef s <> None;
  ok_cleaning : ms_state s <> StateCleaning;
}.

(** A restore of a Slot that is Starting - recovered with a created runtime - overwrites the
    runtime it holds; every other operation is unrestricted. *)
Definition op_sound (op : slot_op) (s : managedSlot) : Prop :=
  match op with
  | OpRestoreSnapshot _ _ => ms_state s <> StateStarting
  | _ => True
  end.

Ltac slot_split :=
  repeat (progress (repeat first [ progress wp_step | progress rewrite ?wp_bind
                                 | progress rewrite ?wp_deferred, ?wp_on_failure, ?wp_on_error ]);
    repeat match goal with
    | |- match ?r with _ => _ end => destruct r
    | |- wp (match ?r with _ => _ end) _ _ => destruct r eqn:?
    | |- wp (done _) _ _ => unfold done
    | |- wp (fail _ _) _ _ => unfold fail
    end); intros.

(** ** Runtimes born and deleted on a trace *)

Definition born_of (ev : event WorkerE) : option ID :=
  match ev with
  | existT (RtCreate _) (Ok id) => Some id
  | existT (SnLoad _ _) (Ok id) => Some id
  | _ => None
  end.
Definition born (tr : trace WorkerE) : list ID := omap born_of tr.

(** The runtimes a trace asks to delete. *)
Definition doomed_of (ev : event WorkerE) : option ID :=
  match ev with
  | existT (RtDelete id) _ => Some id
  | existT (SnDeleteRestored _ id) _ => Some id
  | _ => None
  end.
Definition doomed (tr : trace WorkerE) : list ID := omap doomed_of tr.

Lemma born_app tr1 tr2 : born (tr1 ++ tr2) = born tr1 ++ born tr2.
Proof. apply omap_app. Qed.
Lemma doomed_app tr1 tr2 : doomed (tr1 ++ tr2) = doomed tr1 ++ doomed tr2.
Proof. apply omap_app. Qed.

(** Every runtime held at first ([held]) or born since is still held or was asked to be deleted. *)
Definition accounted (held : option ID) (tr : trace WorkerE) (s : managedSlot) : Prop :=
  forall id, held = Some id \/ id ∈ born tr -> ms_runtimeRef s = Some id \/ id ∈ doomed tr.

Definition sound_end (held : option ID) (tr : trace WorkerE) (r : managedSlot * option error) : Prop :=
  slot_ok r.1 /\ accounted held tr r.1.

Lemma clearRestoreDir_wp s Q tr :
  (forall tr', born tr' = born tr -> doomed tr' = doomed tr -> Q tr' (set_restoreDir "" s)) ->
  wp (clearRestoreDir s) Q tr.
Proof.
  intros HQ. unfold clearRestoreDir. case_bool_decide as Hd; wp_step.
  - specialize (HQ tr eq_refl eq_refl). destruct s. simpl in *. by subst.
  - apply HQ; rewrite ?born_app, ?doomed_app; cbn; by rewrite app_nil_r.
Qed.

Lemma accounted_trace held tr tr' s :
  born tr' = born tr -> doomed tr' = doomed tr -> accounted held tr s -> accounted held tr' s.
Proof. unfold accounted. by intros -> ->. Qed.

Ltac account :=
  match goal with
  | Ha : accounted _ _ _ |- accounted _ _ _ =>
      let id := fresh "id" in intros id; specialize (Ha id); revert Ha;
      unfold born, doomed; rewrite ?omap_app; cbn;
      rewrite ?app_nil_r, ?elem_of_app, ?list_elem_of_singleton; naive_solver
  end.
Ltac slot_ok_tac :=
  match goal with
  | Hok : slot_ok _ |- slot_ok _ =>
      destruct Hok as [Hfree Hres Hstart Hrun Hclean]; split; cbn in *; intros; naive_solver
  end.
Ltac sound := split; [slot_ok_tac|account].

Lemma StartSandbox_cold_sound held req s tr :
  slot_ok s -> accounted held tr s -> wp (StartSandbox_cold req s) (sound_end held) tr.
Proof.
  intros Hok Ha. unfold StartSandbox_cold.
  destruct (decide _) as [|Hst]; [by split|]. apply dec_stable in Hst.
  pose proof (ok_reserved s Hok Hst) as Hnone.
  destruct (containerConfig req); [|by split].
  slot_split; sound.
Qed.

Lemma StartSandbox_resume_sound held req s tr :
  slot_ok s -> accounted held tr s -> wp (StartSandbox_resume req s) (sound_end held) tr.
Proof.
  intros Hok Ha. unfold StartSandbox_resume.
  destruct (ms_state s) eqn:Hst; try by apply StartSandbox_cold_sound.
  destruct (ms_runtimeRef s) as [id|] eqn:Hr; [|by apply StartSandbox_cold_sound].
  slot_split; sound.
Qed.

Lemma StartSandbox_restart_sound held req s id tr :
  slot_ok s -> accounted held tr s -> ms_runtimeRef s = Some id ->
  wp (StartSandbox_restart req s id) (sound_end held) tr.
Proof.
  intros Hok Ha Hr. unfold StartSandbox_restart. wp_step. destruct r as [e|]; wp_step.
  - sound.
  - apply StartSandbox_resume_sound; [slot_ok_tac|account].
Qed.

Lemma StartSandbox_sound held req s tr :
  slot_ok s -> accounted held tr s -> wp (StartSandbox_locked req s) (sound_end held) tr.
Proof.
  intros Hok Ha. unfold StartSandbox_locked. destruct (decide _) as [|_]; [by split|].
  destruct (ms_state s) eqn:Hst; try by apply StartSandbox_resume_sound.
  destruct (ms_runtimeRef s) as [id|] eqn:Hr; [|by destruct (ok_running s Hok Hst)].
  wp_step. assert (Ha' : accounted held (tr ++ [existT (RtStatus id) r]) s) by account.
  destruct r as [st|e].
  - destruct (decide _); wp_step; [by split|by apply StartSandbox_restart_sound].
  - destruct (errors_Is _ _); [by apply StartSandbox_restart_sound|by split].
Qed.

Lemma StopSandbox_sound held registry handler ref s tr :
  slot_ok s -> accounted held tr s ->
  wp (StopSandbox_locked registry handler ref s) (sound_end held) tr.
Proof.
  intros Hok Ha. unfold StopSandbox_locked.
  repeat (destruct (decide _); [by split|]). cbn [ms_runtimeRef set_state].
  destruct (ms_runtimeRef s) as [id|] eqn:Hr; [|unfold done; wp_step; sound].
  cbn [ms_restored set_state]. destruct (ms_restored s).
  - destruct (For registry handler) as [snap|e]; [|unfold fail; wp_step; sound].
    wp_step. destruct r as [e|]; [unfold fail; wp_step; sound|].
    rewrite wp_bind. apply clearRestoreDir_wp. intros tr' Hb Hd. unfold done. wp_step.
    split; [slot_ok_tac|]. eapply accounted_trace; [exact Hb|exact Hd|]. account.
  - slot_split; sound.
Qed.

Lemma ReleaseSlot_sound held registry handler ref s tr :
  slot_ok s -> accounted held tr s ->
  wp (ReleaseSlot_locked registry handler ref s) (sound_end held) tr.
Proof.
  intros Hok Ha. unfold ReleaseSlot_locked.
  repeat (destruct (decide _); [by split|]). rewrite wp_mbind.
  eapply wp_mono with (Q := fun t r => slot_ok s /\
    match r with
    | Some _ => accounted held t s
    | None => accounted held t (set_runtimeRef None s)
    end).
  { unfold delete_held. cbn [ms_runtimeRef ms_restored set_state].
    destruct (ms_runtimeRef s) as [id|] eqn:Hr; [|wp_step; split; [done|account]].
    destruct (ms_restored s); [destruct (For registry handler) as [snap|e]|];
      slot_split; (split; [done|account]). }
  intros t [e|] [_ Ha']; [unfold fail; wp_step; sound|].
  rewrite wp_mbind. apply clearRestoreDir_wp. intros tr' Hb Hd. unfold done. wp_step.
  split; [slot_ok_tac|]. by eapply accounted_trace; [exact Hb|exact Hd|].
Qed.

(** Calls that concern no runtime's life. *)
Definition quiet (tr tr' : trace WorkerE) : Prop := born tr' = born tr /\ doomed tr' = doomed tr.

Lemma accounted_quiet held tr tr' s : quiet tr tr' -> accounted held tr s -> accounted held tr' s.
Proof. intros [Hb Hd]. by apply accounted_trace. Qed.

Lemma ExecSandbox_sound held registry handler req s tr :
  slot_ok s -> accounted held tr s ->
  wp (slot_run registry handler (OpExec req) s) (sound_end held) tr.
Proof.
  intros Hok Ha. cbn [slot_run]. rewrite wp_bind. unfold ExecSandbox_locked, execRestored.
  destruct (running_ref _ _) as [id|e]; [|by split].
  destruct (ms_restored s); [destruct (For registry handler)|]; slot_split; sound.
Qed.

(** The object store concerns no runtime. *)

Definition keeps_quiet {A} (p : prog WorkerE A) : Prop :=
  forall tr, wp p (fun tr' _ => quiet tr tr') tr.

Lemma quiet_refl tr : quiet tr tr.
Proof. done. Qed.

Lemma quiet_trans tr1 tr2 tr3 : quiet tr1 tr2 -> quiet tr2 tr3 -> quiet tr1 tr3.
Proof. unfold quiet. intros [-> ->] [-> ->]. done. Qed.

Lemma keeps_quiet_ret {A} (a : A) : keeps_quiet (Ret a).
Proof. done. Qed.

Lemma quiet_snoc tr ev : born_of ev = None -> doomed_of ev = None -> quiet tr (tr ++ [ev]).
Proof.
  intros Hb Hd. unfold quiet. rewrite born_app, doomed_app. unfold born, doomed.
  cbn [omap list_omap]. by rewrite Hb, Hd, !app_nil_r.
Qed.

Lemma keeps_quiet_call e : (forall r : answer e, born_of (existT e r) = None /\ doomed_of (existT e r) = None) ->
  keeps_quiet (trigger e).
Proof.
  intros He tr. wp_step. by apply quiet_snoc; apply He.
Qed.

Lemma keeps_quiet_bind {A B} (p : prog WorkerE A) (f : A -> prog WorkerE B) :
  keeps_quiet p -> (forall a, keeps_quiet (f a)) -> keeps_quiet (bind f p).
Proof.
  intros Hp Hf tr. rewrite wp_bind. eapply wp_mono; [apply Hp|]. intros t a Ht.
  eapply wp_mono; [apply Hf|]. intros t' b Ht'. exact (quiet_trans _ _ _ Ht Ht').
Qed.

Create HintDb quiet discriminated.
#[local] Hint Resolve keeps_quiet_ret : quiet.

Ltac quieten :=
  intros;
  repeat match goal with
  | |- keeps_quiet (Ret _) => apply keeps_quiet_ret
  | |- keeps_quiet (trigger _) => apply keeps_quiet_call; by split
  | |- keeps_quiet (mbind _ _) => apply keeps_quiet_bind; intros
  | |- keeps_quiet (bind _ _) => apply keeps_quiet_bind; intros
  | |- keeps_quiet (try_bind _ _) => apply keeps_quiet_bind; intros
  | |- keeps_quiet (check_bind _ _) => apply keeps_quiet_bind; intros
  | |- keeps_quiet (on_error _ _) => apply keeps_quiet_bind; intros
  | |- keeps_quiet (on_failure _ _) => apply keeps_quiet_bind; intros
  | |- keeps_quiet (deferred _ _) => apply keeps_quiet_bind; intros
  | |- keeps_quiet (bs_Put (S3Store_blobs _) _ _ _) => apply keeps_quiet_bind; intros
  | |- keeps_quiet (bs_Get (S3Store_blobs _) _) => apply keeps_quiet_bind; intros
  | |- keeps_quiet (bs_Delete (S3Store_blobs _) _) => apply keeps_quiet_bind; intros
  | |- keeps_quiet (match ?x with _ => _ end) => destruct x
  | |- keeps_quiet _ => progress auto with quiet
  end.

Lemma GetManifest_quiet st path : keeps_quiet (GetManifest (S3Store_blobs st) path).
Proof. unfold GetManifest. quieten. Qed.
Lemma uploadZstdFile_quiet st key path : keeps_quiet (uploadZstdFile (S3Store_blobs st) key path).
Proof. unfold uploadZstdFile, upload_compressed. quieten. Qed.
#[local] Hint Resolve GetManifest_quiet uploadZstdFile_quiet : quiet.
Lemma upload_files_quiet st prefix dir files :
  forall total, keeps_quiet (upload_files (S3Store_blobs st) prefix dir files total).
Proof. induction files; cbn [upload_files]; quieten. Qed.
#[local] Hint Resolve upload_files_quiet : quiet.
Lemma Upload_quiet st path dir m : keeps_quiet (Upload (S3Store_blobs st) path dir m).
Proof. unfold Upload, listRegularFiles, stamp. quieten. Qed.
Lemma delete_files_quiet st prefix files :
  forall first, keeps_quiet (delete_files (S3Store_blobs st) prefix files first).
Proof. induction files; cbn [delete_files]; quieten. Qed.
#[local] Hint Resolve Upload_quiet delete_files_quiet : quiet.
Lemma Delete_quiet st path files : keeps_quiet (Delete (S3Store_blobs st) path files).
Proof. unfold Delete, files_to_delete. quieten. Qed.
Lemma download_files_quiet st prefix dir files :
  keeps_quiet (download_files (S3Store_blobs st) prefix dir files).
Proof. induction files; cbn [download_files]; unfold downloadZstdFile in *; quieten. Qed.
#[local] Hint Resolve Delete_quiet download_files_quiet : quiet.
Lemma Download_quiet st path dir : keeps_quiet (Download (S3Store_blobs st) path dir).
Proof. unfold Download. quieten. Qed.
#[local] Hint Resolve Download_quiet : quiet.

Lemma openSnapshotStorage_blobs cfg store :
  openSnapshotStorage cfg = Ok store -> exists st, store = S3Store_blobs st.
Proof.
  unfold openSnapshotStorage. destruct (NewS3 _) as [st|]; [|done]. intros [= <-]. by exists st.
Qed.

Lemma upload_snapshot_quiet snap handler req dir : keeps_quiet (upload_snapshot snap handler req dir).
Proof.
  unfold upload_snapshot. destruct (openSnapshotStorage _) as [store|] eqn:Hs; [|quieten].
  apply openSnapshotStorage_blobs in Hs as [st ->]. quieten.
Qed.
#[local] Hint Resolve upload_snapshot_quiet : quiet.

Lemma keeps_quiet_wp {A} (p : prog WorkerE A) (Q : trace WorkerE -> A -> Prop) tr :
  keeps_quiet p -> (forall tr' a, quiet tr tr' -> Q tr' a) -> wp p Q tr.
Proof. intros Hp HQ. eapply wp_mono; [apply Hp|]. eauto. Qed.

Lemma save_and_upload_sound held resolves snap handler req id dir s tr :
  slot_ok s -> accounted held tr s -> ms_runtimeRef s = Some id ->
  wp (save_and_upload resolves snap handler req id dir s)
    (fun tr' r => slot_ok r.1 /\ accounted held tr' r.1) tr.
Proof.
  intros Hok Ha Hr. unfold save_and_upload, primaryContainerID. rewrite wp_mbind.
  apply keeps_quiet_wp; [quieten|]. intros t1 [cid|e] Hq1;
    eapply accounted_quiet in Hq1; [|exact Ha| |exact Ha]; [|by wp_step].
  wp_step. destruct r as [e|]; wp_step; [split; [done|account]|].
  rewrite wp_bind. unfold drop_saved. destruct (tearsDownOnSave snap); wp_step.
  - rewrite wp_bind. apply clearRestoreDir_wp. intros t2 Hb Hd. wp_step. rewrite wp_bind.
    apply keeps_quiet_wp; [auto with quiet|]. intros t3 a Hq3. wp_step. split; [slot_ok_tac|].
    eapply accounted_quiet; [exact Hq3|]. eapply accounted_trace; [exact Hb|exact Hd|]. account.
  - rewrite wp_bind. apply keeps_quiet_wp; [auto with quiet|]. intros t3 a Hq3. wp_step.
    split; [done|]. eapply accounted_quiet; [exact Hq3|]. account.
Qed.

Lemma CreateSnapshot_sound held registry handler resolves snap req s tr :
  slot_ok s -> accounted held tr s ->
  wp (slot_run registry handler (OpCreateSnapshot resolves snap req) s) (sound_end held) tr.
Proof.
  intros Hok Ha. cbn [slot_run]. rewrite wp_bind. unfold CreateSnapshot_locked.
  destruct (ms_state s); try by split. destruct (ms_runtimeRef s) as [id|] eqn:Hr; [|by split].
  destruct (decide _); [by split|]. wp_step. destruct r as [dir|e]; wp_step; [|split; [done|account]].
  rewrite wp_deferred. eapply wp_mono; [apply (save_and_upload_sound held); [done|account|done]|].
  intros t r [Hok' Ha']. wp_step. split; [done|]. eapply accounted_quiet; [|exact Ha'].
  split; rewrite ?born_app, ?doomed_app; cbn; by rewrite app_nil_r.
Qed.

Lemma download_and_load_sound held snap handler req dir s tr :
  slot_ok s -> accounted held tr s -> ms_state s = StateReserved ->
  wp (download_and_load snap handler req dir s) (sound_end held) tr.
Proof.
  intros Hok Ha Hst. pose proof (ok_reserved s Hok Hst) as Hnone.
  unfold download_and_load, fail, done.
  destruct (openSnapshotStorage _) as [store|] eqn:Hs; [|by split].
  apply openSnapshotStorage_blobs in Hs as [st ->]. rewrite wp_mbind.
  apply keeps_quiet_wp; [auto with quiet|]. intros t1 [m|e] Hq1;
    (eapply accounted_quiet in Hq1; [|exact Ha]); [|by split].
  destruct (_ && _); [by split|]. wp_step. destruct r as [id|e]; wp_step; sound.
Qed.

Lemma RestoreFromSnapshot_sound held registry handler snap req s tr :
  slot_ok s -> op_sound (OpRestoreSnapshot snap req) s -> accounted held tr s ->
  wp (slot_run registry handler (OpRestoreSnapshot snap req) s) (sound_end held) tr.
Proof.
  intros Hok Hsound Ha. cbn [slot_run op_sound] in *. unfold RestoreFromSnapshot_locked.
  repeat (destruct (decide _) as [|?]; [by split|]).
  assert (Hst : ms_state s = StateReserved) by (destruct (ms_state s); naive_solver).
  wp_step. destruct r as [dir|e]; wp_step; [|split; [done|account]].
  rewrite wp_bind. eapply wp_mono; [apply (download_and_load_sound held); [done|account|done]|].
  intros t [s' [e|]] [Hok' Ha']; wp_step; [|by split]. split; [done|].
  eapply accounted_quiet; [|exact Ha']. by apply quiet_snoc.
Qed.

Lemma slot_run_sound held registry handler op s tr :
  slot_ok s -> op_sound op s -> accounted held tr s ->
  wp (slot_run registry handler op s) (sound_end held) tr.
Proof.
  intros Hok Hsound Ha. destruct op as [ref|req|ref|ref|req|resolves snap req|snap req].
  - cbn [slot_run wp]. unfold ReserveSlot_locked.
    repeat (destruct (decide _)); (split; [|]); cbn [fst]; first [done|slot_ok_tac|account].
  - by apply StartSandbox_sound.
  - by apply StopSandbox_sound.
  - by apply ReleaseSlot_sound.
  - by apply ExecSandbox_sound.
  - by apply CreateSnapshot_sound.
  - by apply RestoreFromSnapshot_sound.
Qed.

(** Slot invariant: whatever the runtime, the snapshotter and the store answer, every
    operation leaves the Slot well formed - a free Slot holds no identity, no runtime, no restore
    directory and no restored mark; a reserved Slot holds no runtime; a starting or running Slot
    holds one; no Slot rests in Cleaning. The one excluded case is a snapshot restore into a
    Slot that is Starting. *)
Theorem slot_invariant registry handler op s :
  slot_ok s -> op_sound op s ->
  always (slot_run registry handler op s) (fun _ r => slot_ok r.1).
Proof.
  intros Hok Hsound. unfold always. eapply wp_mono.
  - apply (slot_run_sound (ms_runtimeRef s)); [done|done|].
    intros id [Hid|Hid]; [by left|by apply elem_of_nil in Hid].
  - by intros t r [Hok' _].
Qed.

(** No runtime is forgotten: after any operation, the runtime the Slot held before and every
    runtime created or loaded during the operation is either the one the Slot holds now or one
    the Worker asked the runtime or the snapshotter to delete. *)
Theorem no_runtime_forgotten registry handler op s :
  slot_ok s -> op_sound op s ->
  always (slot_run registry handler op s) (fun tr r =>
    forall id, ms_runtimeRef s = Some id \/ id ∈ born tr ->
      ms_runtimeRef r.1 = Some id \/ id ∈ doomed tr).
Proof.
  intros Hok Hsound. unfold always. eapply wp_mono.
  - apply (slot_run_sound (ms_runtimeRef s)); [done|done|].
    intros id [Hid|Hid]; [by left|by apply elem_of_nil in Hid].
  - by intros t r [_ Ha'].
Qed.

(** ** Ownership *)

(** Isolation: on a Slot that another Sandbox holds, every operation fails, calls nothing -
    no runtime, no snapshotter, no store - and leaves the Slot exactly as it was. *)
Theorem other_sandbox_isolated registry handler op s :
  ms_state s <> StateFree -> id_UID (ms_sandbox s) <> op_uid op ->
  always (slot_run registry handler op s) (fun tr r => tr = [] /\ r.1 = s /\ r.2 <> None).
Proof.
  intros Hfree Hown. unfold always.
  destruct op as [ref|req|ref|ref|req|resolves snap req|snap req]; cbn [slot_run op_uid] in *.
  - unfold ReserveSlot_locked. cbn [wp]. rewrite !decide_False by done. done.
  - unfold StartSandbox_locked. by rewrite decide_True.
  - unfold StopSandbox_locked. rewrite decide_False by done. by rewrite decide_True.
  - unfold ReleaseSlot_locked. rewrite decide_False by done. by rewrite decide_True.
  - unfold ExecSandbox_locked, running_ref. rewrite decide_True by tauto. done.
  - unfold CreateSnapshot_locked. destruct (ms_state s); try done.
    destruct (ms_runtimeRef s); [|done]. rewrite decide_True by done. done.
  - unfold RestoreFromSnapshot_locked. by rewrite decide_True.
Qed.

Ltac last_event := apply elem_of_app; right; apply list_elem_of_singleton; reflexivity.

(** The deletion of [id] succeeded on the trace: by the snapshotter if it was restored. *)
Definition deleted_ok (restored : bool) (id : ID) (tr : trace WorkerE) : Prop :=
  if restored then exists snap, existT (SnDeleteRestored snap id) None ∈ tr
  else existT (RtDelete id) None ∈ tr.

Lemma ReleaseSlot_outcome registry handler ref s :
  ms_state s <> StateFree -> id_UID (ms_sandbox s) = id_UID (ref_Identity ref) ->
  wp (ReleaseSlot_locked registry handler ref s) (fun tr r =>
    match r.2 with
    | None => r.1 = mkSlot (ms_id s) (ms_profile s) (ms_resources s) StateFree no_identity None false "" /\
        forall id, ms_runtimeRef s = Some id -> deleted_ok (ms_restored s) id tr
    | Some _ => r.1 = set_state StateFailed s
    end) [].
Proof.
  intros Hfree Hown. unfold ReleaseSlot_locked.
  rewrite decide_False by done. rewrite decide_False by tauto. rewrite wp_mbind.
  eapply wp_mono with (Q := fun tr r => r = None -> forall id, ms_runtimeRef s = Some id -> deleted_ok (ms_restored s) id tr).
  { unfold delete_held. cbn [ms_runtimeRef ms_restored set_state].
    destruct (ms_runtimeRef s) as [id|]; [|by wp_step].
    destruct (ms_restored s); [destruct (For registry handler) as [snap|e]; [|by wp_step]|];
      rewrite wp_on_failure; wp_step; destruct r as [e|]; try done; intros _ ? [= <-].
    - exists snap. last_event.
    - unfold deleted_ok. last_event. }
  intros t [e|] Hdel; [done|]. rewrite wp_mbind.
  specialize (Hdel eq_refl). unfold clearRestoreDir. case_bool_decide as Hd; unfold done; wp_step.
  - cbn in Hd |- *. split; [|done]. unfold set_restored, set_runtimeRef, set_sandbox, set_state.
    cbn. by rewrite Hd.
  - split; [done|]. intros id Hid. specialize (Hdel id Hid). unfold deleted_ok in *.
    destruct (ms_restored s); [destruct Hdel as [snap Hdel]; exists snap|]; apply elem_of_app; by left.
Qed.

(** A Slot becomes free only after its runtime is gone: a release that returns no error
    leaves the Slot free and cleared, and the runtime the Slot held was deleted successfully
    (through the snapshotter if it was restored); a release that fails keeps the owner, the
    runtime and the restore directory and marks the Slot Failed, so it can be retried. *)
Theorem release_frees_after_delete registry handler ref s :
  ms_state s <> StateFree -> id_UID (ms_sandbox s) = id_UID (ref_Identity ref) ->
  always (ReleaseSlot_locked registry handler ref s) (fun tr r =>
    match r.2 with
    | None => r.1 = mkSlot (ms_id s) (ms_profile s) (ms_resources s) StateFree no_identity None false "" /\
        forall id, ms_runtimeRef s = Some id -> deleted_ok (ms_restored s) id tr
    | Some _ => r.1 = set_state StateFailed s
    end).
Proof. apply ReleaseSlot_outcome. Qed.

(** What a successful start establishes: the Slot runs a runtime that this very request started
    or found running. *)
Definition started (tr : trace WorkerE) (r : managedSlot * option error) : Prop :=
  r.2 = None -> ms_state r.1 = StateRunning /\
    exists id, ms_runtimeRef r.1 = Some id /\
      (existT (RtStart id) None ∈ tr \/
       exists st, st_State st = RtRunning /\ existT (RtStatus id) (Ok st) ∈ tr).


Lemma StartSandbox_cold_started req s tr : wp (StartSandbox_cold req s) started tr.
Proof.
  unfold StartSandbox_cold. destruct (decide _); [done|]. destruct (containerConfig req); [|done].
  slot_split; try done. intros _. split; [done|]. eexists. split; [reflexivity|]. left. last_event.
Qed.

Lemma StartSandbox_resume_started req s tr : wp (StartSandbox_resume req s) started tr.
Proof.
  unfold StartSandbox_resume. destruct (ms_state s) eqn:Hst; try apply StartSandbox_cold_started.
  destruct (ms_runtimeRef s) as [id|] eqn:Hr; [|apply StartSandbox_cold_started].
  slot_split; try done. intros _. split; [done|]. exists id. split; [done|]. left. last_event.
Qed.

(** A start that returns no error leaves the Slot Running with a runtime that the container
    runtime reported running, or started successfully, during this very request; it is never a
    stale reference. *)
Theorem start_success_is_running req s :
  always (StartSandbox_locked req s) started.
Proof.
  unfold always, StartSandbox_locked. destruct (decide _); [done|].
  destruct (ms_state s) eqn:Hst; try apply StartSandbox_resume_started.
  destruct (ms_runtimeRef s) as [id|] eqn:Hr; [|apply StartSandbox_resume_started].
  assert (Hre : forall tr, wp (StartSandbox_restart req s id) started tr).
  { intros tr. unfold StartSandbox_restart. wp_step.
    destruct r; [done|apply StartSandbox_resume_started]. }
  wp_step. destruct r as [st|e].
  - destruct (decide (st_State st = RtRunning)); [|apply Hre]. unfold done. wp_step. intros _.
    split; [done|]. exists id. split; [done|]. right. exists st. split; [done|]. by left.
  - destruct (errors_Is _ _); [apply Hre|done].
Qed.

(** A start never hands the Slot to another Sandbox. *)
Lemma StartSandbox_sandbox req s tr : wp (StartSandbox_locked req s) (fun _ r => ms_sandbox r.1 = ms_sandbox s) tr.
Proof.
  unfold StartSandbox_locked, StartSandbox_restart, StartSandbox_resume, StartSandbox_cold.
  slot_split; try done; cbn; repeat (case_match; try done); slot_split; done.
Qed.

Lemma wp_extends {A} (p : prog WorkerE A) (Q : trace WorkerE -> A -> Prop) tr :
  (forall t a, Q (tr ++ t) a) -> wp p Q tr.
Proof. intros HQ. rewrite wp_frame. eapply wp_mono; [apply wp_true|]. eauto. Qed.

(** The Slot after a save, and that the save succeeded. *)
Definition save_outcome (snap : Snapshotter) (s : managedSlot) (tr : trace WorkerE) (s' : managedSlot)
    : Prop :=
  s' = s \/
  (tearsDownOnSave snap = true /\ (exists rq, existT (SnSave snap rq) None ∈ tr) /\
   ms_state s' = StateFailed /\ ms_runtimeRef s' = None /\ ms_sandbox s' = ms_sandbox s).

Lemma save_outcome_app snap s tr t s' : save_outcome snap s tr s' -> save_outcome snap s (tr ++ t) s'.
Proof.
  intros [->|(H1 & [rq H2] & H3)]; [by left|]. right. split; [done|]. split; [|done].
  exists rq. apply elem_of_app. by left.
Qed.

Lemma save_and_upload_outcome resolves snap handler req id dir s tr :
  wp (save_and_upload resolves snap handler req id dir s)
    (fun tr' r => save_outcome snap s tr' r.1) tr.
Proof.
  unfold save_and_upload. rewrite wp_mbind. apply wp_extends. intros t1 [cid|e]; [|by left].
  wp_step. destruct r as [e|]; wp_step; [by left|]. rewrite wp_bind.
  set (t2 := (tr ++ t1) ++ _).
  assert (Hsave : exists rq, existT (SnSave snap rq) None ∈ t2) by (eexists; last_event).
  clearbody t2. eapply wp_mono with (Q := save_outcome snap s).
  - unfold drop_saved. destruct (tearsDownOnSave snap) eqn:Ht; wp_step; [|by left].
    rewrite wp_bind. unfold clearRestoreDir. destruct Hsave as [rq Hrq].
    case_bool_decide; wp_step; right; (split; [done|]); (split; [exists rq|done]);
      rewrite ?elem_of_app; eauto.
  - intros t3 s' Ho. rewrite wp_bind. apply wp_extends. intros t4 a. wp_step.
    by apply save_outcome_app.
Qed.

(** A save that tears the VM down leaves no Slot pointing at it: after [CreateSnapshot] on a
    Slot that ran the Sandbox, either the Slot is unchanged, or the snapshotter tears down on
    save, the save succeeded and the Slot is Failed without a runtime - also when the upload
    failed afterwards. *)
Theorem snapshot_slot_outcome resolves snap handler req s :
  always (CreateSnapshot_locked resolves snap handler req s) (fun tr r => save_outcome snap s tr r.1).
Proof.
  unfold always, CreateSnapshot_locked.
  destruct (ms_state s); try by left. destruct (ms_runtimeRef s) as [id|]; [|by left].
  destruct (decide _); [by left|]. wp_step. destruct r as [dir|e]; wp_step; [|by left].
  rewrite wp_deferred. eapply wp_mono; [apply save_and_upload_outcome|].
  intros t r Ho. wp_step. by apply save_outcome_app.
Qed.

(** A restore is all or nothing: on the Slot it is for, a failed restore leaves the Slot as it
    was, except that a snapshotter that fails to load puts it back to Reserved; a restore that
    returns no error leaves it Running: either it already was, or the manifest names no other
    runtime handler and the Slot holds the runtime just loaded, marked restored, with its
    checkpoint directory kept. *)
Theorem restore_outcome snap handler req s :
  always (RestoreFromSnapshot_locked snap handler req s) (fun tr r =>
    match r.2 with
    | Some _ => r.1 = s \/ r.1 = set_state StateReserved s
    | None => ms_state r.1 = StateRunning /\ ms_sandbox r.1 = ms_sandbox s /\
        (r.1 = s \/ exists dir id, existT (OsMkdirTemp "sandboxfleet-restore-*") (Ok dir) ∈ tr /\
           ms_runtimeRef r.1 = Some id /\ id ∈ born tr /\ ms_restored r.1 = true /\
           ms_restoreDir r.1 = dir)
    end).
Proof.
  unfold always, RestoreFromSnapshot_locked.
  destruct (decide _) as [|_]; [by left|].
  destruct (decide _) as [[Hst Hr]|_]; [unfold done; wp_step; by split_and!; [| |left]|].
  destruct (decide _); [by left|]. wp_step. destruct r as [dir|e]; wp_step; [|by left].
  rewrite wp_bind. set (t0 := [] ++ _).
  assert (Hdir : existT (OsMkdirTemp "sandboxfleet-restore-*") (Ok dir) ∈ t0) by (unfold t0; by left).
  clearbody t0. eapply wp_mono with (Q := fun tr r => match r.2 with
    | Some _ => r.1 = s \/ r.1 = set_state StateReserved s
    | None => ms_state r.1 = StateRunning /\ ms_sandbox r.1 = ms_sandbox s /\
        (r.1 = s \/ exists dir id, existT (OsMkdirTemp "sandboxfleet-restore-*") (Ok dir) ∈ tr /\
           ms_runtimeRef r.1 = Some id /\ id ∈ born tr /\ ms_restored r.1 = true /\
           ms_restoreDir r.1 = dir)
    end).
  - unfold download_and_load. destruct (openSnapshotStorage _) as [store|]; [|by left].
    rewrite wp_mbind. apply wp_extends. intros t1 [m|e]; [|by left].
    destruct (_ && _); [by left|]. wp_step. destruct r as [id|e]; unfold done, fail; wp_step.
    + split; [done|]. split; [done|]. right. exists dir, id. cbn. split_and!; try done.
      * apply elem_of_app; left. apply elem_of_app; by left.
      * rewrite born_app. apply elem_of_app. right. by left.
    + right. by destruct s.
  - intros t [s' [e|]] Hq; cbn in Hq |- *; [|exact Hq]. wp_step. intros; exact Hq.
Qed.
End Facts.

(** ** Concrete instances *)

Module ManagerWitness.
#[local] Existing Instance ZQuantity.

(** A store whose manifest always names one file, and no compression. *)
Definition manifest : Manifest :=
  mkManifest "runsc" "v1" ["memory.img"] (mkSource "ns" "parent" "uid-0") "pool" no_container 1.
#[export] Instance json : ManifestJson := {|
  json_Marshal := fun _ => Ok "{}";
  json_Unmarshal := fun _ => Ok manifest;
|}.
#[export] Instance zstd : ZstdApi := {|
  zstd_compress := fun data => data;
  zstd_decompress := fun data => Ok data;
|}.

(** A world in which every call succeeds; a new runtime is called [new]. *)
Definition happy (s : unit) (e : WorkerE) : unit * answer e :=
  match e as e0 return (unit * WorkerE_effect e0)%type with
  | RtCreate _ | SnLoad _ _ => (s, Ok (mkID "runsc:new"))
  | RtStart _ | RtStop _ | RtDelete _ | RtWriteFile _ _ _ => (s, None)
  | RtStatus _ => (s, Ok (mkStatus RtRunning 0 ""))
  | RtList => (s, Ok [])
  | RtExec _ _ | SnExecRestored _ _ _ => (s, Ok (mkExecResult 0 "" ""))
  | RtReadFile _ _ => (s, Ok "")
  | RtListFiles _ _ => (s, Ok [])
  | RtFileExists _ _ => (s, Ok true)
  | RtPrimaryContainerID _ => (s, Ok "")
  | SnSave _ _ | SnDeleteRestored _ _ => (s, None)
  | OsMkdirTemp _ | OsCreateTemp _ | OsOpen _ => (s, Ok "/tmp/x")
  | OsRemoveAll _ | OsRemove _ | OsMkdirAll _ | OsOpenFile _ => (s, None)
  | OsReadDir _ => (s, Ok [("memory.img", true)])
  | ZstdNewWriter _ | IoCopy _ _ | ZstdClose _ | OsSeek _ | ZstdNewReader => (s, None)
  | OsStat _ => (s, Ok 0%Z)
  | S3PutObject _ _ _ _ _ | S3DeleteObject _ _ _ => (s, None)
  | S3GetObject _ _ _ => (s, Ok (Ok ""))
  | TimeNow => (s, 1%Z)
  end.

Definition me : SandboxIdentity := mkIdentity "ns" "sandbox" "uid-1".
Definition other : SandboxIdentity := mkIdentity "ns" "other" "uid-2".
Definition old : ID := mkID "runsc:old".
Definition slot_in (state : State) (r : option ID) : managedSlot :=
  mkSlot 0 "small" no_resources state me r false "".
Definition running : managedSlot := slot_in StateRunning (Some old).
Definition gvisor : Snapshotter := mkSnapshotter "gvisor" "v1" None.
Definition registry : Registry := NewRegistry {["runsc" := Some gvisor]}.

Lemma running_ok : slot_ok running.
Proof. by split. Qed.

Lemma slot_invariant_witness :
  always (slot_run registry "runsc" (OpStop (mkRef 0 me)) running) (fun _ r => slot_ok r.1).
Proof. apply (slot_invariant registry "runsc" (OpStop (mkRef 0 me)) running running_ok I). Defined.

Lemma no_runtime_forgotten_witness :
  always (slot_run registry "runsc" (OpRelease (mkRef 0 me)) running) (fun tr r =>
    forall id, ms_runtimeRef running = Some id \/ id ∈ born tr ->
      ms_runtimeRef r.1 = Some id \/ id ∈ doomed tr).
Proof.
  apply (no_runtime_forgotten registry "runsc" (OpRelease (mkRef 0 me)) running running_ok I).
Defined.

Lemma other_sandbox_isolated_witness :
  always (slot_run registry "runsc" (OpRelease (mkRef 0 other)) running)
    (fun tr r => tr = [] /\ r.1 = running /\ r.2 <> None).
Proof.
  apply (other_sandbox_isolated registry "runsc" (OpRelease (mkRef 0 other)) running); by vm_compute.
Defined.

Lemma release_frees_after_delete_witness :
  always (ReleaseSlot_locked registry "runsc" (mkRef 0 me) running) (fun tr r =>
    match r.2 with
    | None => r.1 = mkSlot 0 "small" no_resources StateFree no_identity None false "" /\
        forall id, ms_runtimeRef running = Some id -> deleted_ok (ms_restored running) id tr
    | Some _ => r.1 = set_state StateFailed running
    end).
Proof. by apply (release_frees_after_delete registry "runsc" (mkRef 0 me) running). Defined.

(** The excluded case of C20 and C21: a Worker that recovered a Sandbox's runtime in the Created
    state has a Starting Slot, and a snapshot restore into it overwrites the runtime it holds;
    the old runtime is neither held nor deleted. *)
Theorem restore_forgets_recovered_runtime :
  let s := slot_in StateStarting (Some old) in
  let req := mkRestore 0 me "snapshots/a" (mkObjectStorage "" "bucket" "" "" "" false) "runsc" in
  let '(_, tr, (s', err)) := run happy (RestoreFromSnapshot_locked gvisor "runsc" req s) tt [] in
  err = None /\ ms_runtimeRef s' = Some (mkID "runsc:new") /\ doomed tr = [].
Proof. by vm_compute. Qed.

(** A start whose cleanup fails forgets the runtime as well: the Slot is Failed without a
    reference, and the release that follows frees it without deleting anything. *)
Definition stubborn (s : unit) (e : WorkerE) : unit * answer e :=
  match e as e0 return (unit * WorkerE_effect e0)%type with
  | RtStart _ => (s, Some (Plain "no cgroup"))
  | RtDelete _ => (s, Some (Plain "busy"))
  | e1 => happy s e1
  end.

Theorem failed_start_cleanup_leaks :
  let req := mkStart 0 me (mkContainerSpec "busybox" [] [] []) in
  let '(_, _, (s1, err)) := run stubborn (StartSandbox_locked req (slot_in StateReserved None)) tt [] in
  let '(_, tr, (s2, released)) := run stubborn (ReleaseSlot_locked registry "runsc" (mkRef 0 me) s1) tt [] in
  is_Some err /\ ms_state s1 = StateFailed /\ ms_runtimeRef s1 = None /\
  released = None /\ ms_state s2 = StateFree /\ tr = [].
Proof. vm_compute. split_and!; first [done|by eexists]. Qed.
End ManagerWitness.
