(* ===== verification/TopologyApply.v ===== *)
(** * Applying a topology to a Worker, and its listing

    [ApplySlots] is atomic: it either rejects the topology and changes nothing, or makes the
    Slots exactly the requested ones, keeping the pointer and the content of every Slot that
    stays and removing only free ones. [ListSlots] reports every Slot once, by id. *)

From S2P Require Import Prelude Prog Strings Slot Runtime Api WorkerEnv SnapshotStore Manager.

Section Facts.
Context {QA : QuantityApi}.
Context (DeepEqual : ResourceRequirements -> ResourceRequirements -> bool).

(** Every pointer is allocated, and two ids never share a Slot. *)
Record manager_ok (m : SlotManager) : Prop := {
  mo_alloc : forall id a, sm_slots m !! id = Some a -> is_Some (sm_heap m !! a);
  mo_inj : forall id1 id2 a, sm_slots m !! id1 = Some a -> sm_slots m !! id2 = Some a -> id1 = id2;
}.

(** The Slot an id names. *)
Definition slot_at (m : SlotManager) (n : Z) (s : managedSlot) : Prop :=
  exists a, sm_slots m !! n = Some a /\ sm_heap m !! a = Some s.

Lemma slot_at_unique m n s s' : slot_at m n s -> slot_at m n s' -> s = s'.
Proof. intros (a & Ha & Hs) (a' & Ha' & Hs'). congruence. Qed.

Lemma set_slot_ok m a s : manager_ok m -> manager_ok (set_slot a s m).
Proof.
  intros [Halloc Hinj]. split; cbn [set_slot sm_slots sm_heap]; [|done].
  intros n0 a0 Ha0. apply lookup_insert_is_Some'. right. eauto.
Qed.

(** Writing through the pointer of one id changes that id's Slot only. *)
Lemma set_slot_at m n a s : manager_ok m -> sm_slots m !! n = Some a ->
  forall n0 s0, slot_at (set_slot a s m) n0 s0 <-> (n0 = n /\ s0 = s) \/ (n0 <> n /\ slot_at m n0 s0).
Proof.
  intros [_ Hinj] Ha n0 s0. unfold slot_at, set_slot. cbn [sm_slots sm_heap]. split.
  - intros (a0 & Ha0 & [[<- <-]|[Hne Hs0]]%lookup_insert_Some); [left; split; [by eapply Hinj|done]|].
    right. split; [congruence|eauto].
  - intros [[-> ->]|[Hne (a0 & Ha0 & Hs0)]]; [exists a; by rewrite lookup_insert_eq|].
    exists a0. rewrite lookup_insert_ne; [done|]. intros <-. apply Hne. by eapply Hinj.
Qed.

(** ** The desired Slots *)

Lemma desired_slots_Ok configs : forall d0 d,
  desired_slots configs d0 = Ok d ->
  NoDup (cfg_ID <$> configs) /\ (forall cfg, cfg ∈ configs -> d0 !! cfg_ID cfg = None) /\
  (forall id cfg, d !! id = Some cfg <-> d0 !! id = Some cfg \/ (cfg ∈ configs /\ cfg_ID cfg = id)).
Proof.
  induction configs as [|c configs IH]; intros d0 d; cbn [desired_slots].
  { intros [= <-]. split_and!; [constructor|by intros ? ?%elem_of_nil|].
    intros id cfg. rewrite elem_of_nil. tauto. }
  destruct (d0 !! cfg_ID c) as [|] eqn:Hc; [done|]. intros Hd.
  destruct (IH _ _ Hd) as (Hnd & Hfresh & Hlook).
  assert (Hnin : cfg_ID c ∉ cfg_ID <$> configs).
  { intros (c' & Heq & Hin)%list_elem_of_fmap. specialize (Hfresh c' Hin).
    rewrite <- Heq, lookup_insert_eq in Hfresh. done. }
  split_and!.
  - by constructor.
  - intros cfg [->|Hin]%elem_of_cons; [done|]. specialize (Hfresh cfg Hin).
    by apply lookup_insert_None in Hfresh as [? _].
  - intros id cfg. rewrite Hlook, lookup_insert_Some, elem_of_cons. split.
    + intros [[[<- <-]|[Hne Hd0]]|[Hin Hid]]; eauto.
    + intros [Hd0|[[->|Hin] Hid]]; [left; right|by left; left|by right].
      split; [|done]. intros <-. congruence.
Qed.

Lemma desired_slots_complete configs : forall d0,
  NoDup (cfg_ID <$> configs) -> (forall cfg, cfg ∈ configs -> d0 !! cfg_ID cfg = None) ->
  exists d, desired_slots configs d0 = Ok d.
Proof.
  induction configs as [|c configs IH]; intros d0 Hnd Hfresh; [by exists d0|].
  cbn [desired_slots]. rewrite (Hfresh c) by left.
  cbn [fmap list_fmap] in Hnd. apply NoDup_cons in Hnd as [Hnin Hnd].
  apply IH; [done|]. intros cfg Hin. rewrite lookup_insert_ne; [apply Hfresh; by right|].
  intros Heq. apply Hnin. rewrite Heq. by apply list_elem_of_fmap_2.
Qed.

(** ** The checks *)

Lemma check_slots_None desired heap order :
  check_slots DeepEqual desired heap order = None <->
  forall id a s, (id, a) ∈ order -> heap !! a = Some s -> check_slot DeepEqual desired id s = None.
Proof.
  induction order as [|[i b] order IH]; cbn [check_slots].
  { split; [|done]. intros _ id a s Hin. by apply elem_of_nil in Hin. }
  destruct (heap !! b) as [s|] eqn:Hb; cbn [mbind option_bind].
  - destruct (check_slot DeepEqual desired i s) as [e|] eqn:He.
    + split; [done|]. intros Hall. rewrite (Hall i b s) in He; [done|by left|done].
    + rewrite IH. split; intros Hall id a s' Hin Ha.
      * apply elem_of_cons in Hin as [Heq|Hin]; [simplify_eq; congruence|by eapply Hall].
      * eapply Hall; [by right|done].
  - rewrite IH. split; intros Hall id a s' Hin Ha.
    + apply elem_of_cons in Hin as [Heq|Hin]; [simplify_eq|by eapply Hall].
    + eapply Hall; [by right|done].
Qed.

(** ** The new Slots *)

Section Next.
Context (cur : gmap Z positive) (heap0 : gmap positive managedSlot).
Context (Halloc : forall id a, cur !! id = Some a -> is_Some (heap0 !! a)).
Context (Hinj : forall id1 id2 a, cur !! id1 = Some a -> cur !! id2 = Some a -> id1 = id2).

(** The state of the loop that builds the new map, after the configurations [done]. *)
Record next_inv (dn : list (Z * Config)) (acc : gmap Z positive * gmap positive managedSlot)
    : Prop := {
  ni_heap : heap0 ⊆ acc.2;
  ni_ids : forall id, is_Some (acc.1 !! id) <-> id ∈ dn.*1;
  ni_slot : forall id cfg a, (id, cfg) ∈ dn -> acc.1 !! id = Some a ->
    match cur !! id with
    | Some a0 => a = a0
    | None => heap0 !! a = None /\ acc.2 !! a = Some (fresh_slot cfg)
    end;
  ni_inj : forall id1 id2 a, acc.1 !! id1 = Some a -> acc.1 !! id2 = Some a -> id1 = id2;
}.

Definition next_step (acc : gmap Z positive * gmap positive managedSlot) (e : Z * Config) :=
  let '(id, cfg) := e in
  match cur !! id with
  | Some a => let '(slots, heap) := acc in (<[id := a]> slots, heap)
  | None => alloc id (fresh_slot cfg) acc
  end.

Lemma next_inv_step dn acc id cfg :
  next_inv dn acc -> id ∉ dn.*1 -> next_inv (dn ++ [(id, cfg)]) (next_step acc (id, cfg)).
Proof using Halloc Hinj.
  intros [Hh Hids Hslot Hij] Hid. destruct acc as [slots heap]. cbn [fst snd] in *.
  assert (Hnew : slots !! id = None).
  { apply eq_None_not_Some. by rewrite Hids. }
  assert (Hids' : forall a i, is_Some (<[id := a]> slots !! i) <-> i ∈ (dn ++ [(id, cfg)]).*1).
  { intros a i. rewrite fmap_app. change ([(id, cfg)].*1) with [id].
    rewrite elem_of_app, <- Hids, list_elem_of_singleton, lookup_insert_is_Some.
    destruct (decide (id = i)); naive_solver. }
  assert (Hdn : forall i c, (i, c) ∈ dn -> i <> id).
  { intros i c Hin ->. apply Hid. apply list_elem_of_fmap. by exists (id, c). }
  unfold next_step, alloc. destruct (cur !! id) as [a0|] eqn:Hcur.
  - split; cbn [fst snd]; [done|apply Hids'| |].
    + intros i c a Hin Ha. apply elem_of_app in Hin as [Hin|Hin%list_elem_of_singleton].
      * rewrite lookup_insert_ne in Ha by (apply not_eq_sym; by eapply Hdn). by apply Hslot.
      * simplify_eq. rewrite Hcur. rewrite lookup_insert_eq in Ha. congruence.
    + assert (Hold : forall i, i <> id -> slots !! i = Some a0 -> False).
      { intros i Hi Ha. assert (Hin : i ∈ dn.*1) by (apply Hids; eauto).
        apply list_elem_of_fmap in Hin as ([i' c] & -> & Hin). cbn [fst] in *.
        specialize (Hslot _ _ _ Hin Ha). destruct (cur !! i') as [a1|] eqn:Hc.
        - subst. apply Hi. by eapply Hinj.
        - destruct Hslot as [Hn _]. destruct (Halloc _ _ Hcur) as [s Hs]. congruence. }
      intros i1 i2 a. rewrite !lookup_insert_Some.
      intros [[<- <-]|[H1 Ha1]] [[<- Heq]|[H2 Ha2]]; try done.
      * exfalso. by apply (Hold i2).
      * subst. exfalso. by apply (Hold i1).
      * by eapply Hij.
  - pose proof (is_fresh (dom heap)) as Hf. set (f := fresh (dom heap)) in *. clearbody f.
    apply not_elem_of_dom in Hf.
    assert (Hf0 : heap0 !! f = None) by (by eapply lookup_weaken_None).
    assert (Hused : forall i a, slots !! i = Some a -> is_Some (heap !! a)).
    { intros i a Ha. assert (Hin : i ∈ dn.*1) by (apply Hids; eauto).
      apply list_elem_of_fmap in Hin as ([i' c] & -> & Hin). cbn [fst] in *.
      specialize (Hslot _ _ _ Hin Ha). destruct (cur !! i') as [a1|] eqn:Hc.
      - subst. destruct (Halloc _ _ Hc) as [s Hs]. exists s. by eapply lookup_weaken.
      - destruct Hslot as [_ Hs]. eauto. }
    split; cbn [fst snd].
    + by apply insert_subseteq_r.
    + apply Hids'.
    + intros i c a Hin Ha. apply elem_of_app in Hin as [Hin|Hin%list_elem_of_singleton].
      * rewrite lookup_insert_ne in Ha by (apply not_eq_sym; by eapply Hdn).
        specialize (Hslot _ _ _ Hin Ha). destruct (cur !! i); [done|].
        destruct Hslot as [Hn Hs]. split; [done|]. rewrite lookup_insert_ne; [done|]. congruence.
      * simplify_eq. rewrite Hcur. rewrite lookup_insert_eq in Ha. simplify_eq.
        split; [done|apply lookup_insert_eq].
    + intros i1 i2 a. rewrite !lookup_insert_Some.
      intros [[<- <-]|[H1 Ha1]] [[<- Heq]|[H2 Ha2]]; try done.
      * destruct (Hused _ _ Ha2). congruence.
      * subst. destruct (Hused _ _ Ha1). congruence.
      * by eapply Hij.
Qed.

Lemma next_slots_inv desired :
  next_inv (map_to_list desired) (next_slots cur heap0 desired).
Proof using Halloc Hinj.
  unfold next_slots. fold next_step.
  assert (Hgo : forall l dn acc, NoDup (dn ++ l).*1 -> next_inv dn acc ->
            next_inv (dn ++ l) (foldl next_step acc l)).
  { induction l as [|[id cfg] l IH]; intros dn acc Hnd Hinv; [by rewrite app_nil_r|].
    cbn [foldl]. replace (dn ++ (id, cfg) :: l) with ((dn ++ [(id, cfg)]) ++ l) in *
      by (by rewrite <- app_assoc).
    apply IH; [done|]. apply next_inv_step; [done|].
    rewrite !fmap_app in Hnd. apply NoDup_app in Hnd as (Hnd & _ & _).
    apply NoDup_app in Hnd as (_ & Hd & _). intros Hin. apply (Hd _ Hin). by left. }
  apply (Hgo (map_to_list desired) [] (∅, heap0)); [apply NoDup_fst_map_to_list|].
  split; cbn [fst snd]; [done| | |].
  - intros id. rewrite lookup_empty. split; [by intros []|by intros ?%elem_of_nil].
  - intros id cfg a Hin. by apply elem_of_nil in Hin.
  - intros id1 id2 a. by rewrite lookup_empty.
Qed.
End Next.

(** What a Worker accepts as its new topology. *)
Definition acceptable (m : SlotManager) (configs : list Config) : Prop :=
  NoDup (cfg_ID <$> configs) /\
  forall id a s, sm_slots m !! id = Some a -> sm_heap m !! a = Some s ->
    (ms_state s = StateFree /\ id ∉ cfg_ID <$> configs) \/
    exists cfg, cfg ∈ configs /\ cfg_ID cfg = id /\ ms_profile s = cfg_Profile cfg /\
      DeepEqual (ms_resources s) (cfg_Resources cfg) = true.

Lemma check_slot_None (desired : gmap Z Config) (configs : list Config) id s :
  (forall id cfg, desired !! id = Some cfg <-> cfg ∈ configs /\ cfg_ID cfg = id) ->
  check_slot DeepEqual desired id s = None <->
  (ms_state s = StateFree /\ id ∉ cfg_ID <$> configs) \/
    exists cfg, cfg ∈ configs /\ cfg_ID cfg = id /\ ms_profile s = cfg_Profile cfg /\
      DeepEqual (ms_resources s) (cfg_Resources cfg) = true.
Proof.
  intros Hd. unfold check_slot. destruct (desired !! id) as [cfg|] eqn:Hid.
  - apply Hd in Hid as [Hin Hid].
    assert (Huniq : forall cfg', cfg' ∈ configs -> cfg_ID cfg' = id -> cfg' = cfg).
    { intros cfg' Hin' Hid'. assert (H1 : desired !! id = Some cfg') by (by apply Hd).
      assert (H2 : desired !! id = Some cfg) by (by apply Hd). congruence. }
    split.
    + destruct (_ && _) eqn:E; [|done]. apply andb_true_iff in E as [E1%bool_decide_eq_true E2].
      intros _. right. by exists cfg.
    + intros [[_ Hn]|(cfg' & Hin' & Hid' & Hp & Hdeep)].
      * destruct Hn. rewrite <- Hid. by apply list_elem_of_fmap_2.
      * rewrite (Huniq cfg' Hin' Hid') in Hp, Hdeep. by rewrite bool_decide_true, Hdeep.
  - assert (Hnin : id ∉ cfg_ID <$> configs).
    { intros (cfg & -> & Hin)%list_elem_of_fmap.
      assert (desired !! cfg_ID cfg = Some cfg) by (by apply Hd). congruence. }
    destruct (decide (ms_state s <> StateFree)) as [Hb|Hb].
    + split; [done|]. intros [[? _]|(cfg & Hin & <- & _)]; [done|].
      destruct Hnin. by apply list_elem_of_fmap_2.
    + split; [|done]. intros _. left. split; [by apply dec_stable in Hb|done].
Qed.

(** What the caller of [next_slots] gets: the requested ids, each with its old pointer or a new Slot. *)
Lemma next_slots_ok m configs desired :
  manager_ok m ->
  (forall id cfg, desired !! id = Some cfg <-> cfg ∈ configs /\ cfg_ID cfg = id) ->
  let '(slots, heap) := next_slots (sm_slots m) (sm_heap m) desired in
  manager_ok (mkManager (set_config_slots configs (sm_config m)) (sm_resolves m) (sm_snapshotters m) slots heap) /\
  sm_heap m ⊆ heap /\
  (forall id, is_Some (slots !! id) <-> id ∈ cfg_ID <$> configs) /\
  (forall cfg, cfg ∈ configs -> exists a, slots !! cfg_ID cfg = Some a /\
     match sm_slots m !! cfg_ID cfg with
     | Some a0 => a = a0
     | None => heap !! a = Some (fresh_slot cfg)
     end).
Proof.
  intros [Halloc Hinj] Hlook.
  pose proof (next_slots_inv (sm_slots m) (sm_heap m) Halloc Hinj desired) as Hn.
  destruct (next_slots _ _ _) as [slots heap]. destruct Hn as [Hh Hids Hslot Hij]. cbn [fst snd] in *.
  assert (Hids' : forall id, is_Some (slots !! id) <-> id ∈ cfg_ID <$> configs).
  { intros id. rewrite Hids. split.
    - intros ([i cfg] & -> & Hi)%list_elem_of_fmap. apply elem_of_map_to_list, Hlook in Hi as [Hc <-].
      cbn [fst]. by apply list_elem_of_fmap_2.
    - intros (cfg & -> & Hc)%list_elem_of_fmap. rewrite list_elem_of_fmap. exists (cfg_ID cfg, cfg).
      split; [done|]. by apply elem_of_map_to_list, Hlook. }
  assert (Hcfg : forall cfg, cfg ∈ configs -> exists a, slots !! cfg_ID cfg = Some a /\
     match sm_slots m !! cfg_ID cfg with
     | Some a0 => a = a0
     | None => heap !! a = Some (fresh_slot cfg)
     end).
  { intros cfg Hc. destruct (proj2 (Hids' (cfg_ID cfg))) as [a Ha]; [by apply list_elem_of_fmap_2|].
    exists a. split; [done|]. specialize (Hslot (cfg_ID cfg) cfg a).
    rewrite elem_of_map_to_list, Hlook in Hslot. specialize (Hslot (conj Hc eq_refl) Ha).
    destruct (sm_slots m !! cfg_ID cfg); [done|]. by destruct Hslot. }
  split; [|done]. split; cbn [sm_slots sm_heap]; [|done].
  intros id a Ha. assert (Hc : id ∈ cfg_ID <$> configs) by (apply Hids'; eauto).
  apply list_elem_of_fmap in Hc as (cfg & -> & Hc). destruct (Hcfg cfg Hc) as (a' & Ha' & Hm).
  assert (a' = a) as -> by congruence. destruct (sm_slots m !! cfg_ID cfg) as [a0|] eqn:H0.
  - subst. destruct (Halloc _ _ H0) as [s Hs]. exists s. by eapply lookup_weaken.
  - eauto.
Qed.

(** When the checks accept a topology, and what is left then. *)
Lemma ApplySlots_in_spec m configs order :
  manager_ok m -> order ≡ₚ map_to_list (sm_slots m) ->
  let '(m', err) := ApplySlots_in DeepEqual order configs m in
  match err with
  | Some _ => m' = m /\ ¬ acceptable m configs
  | None => acceptable m configs /\ exists desired,
      (forall id cfg, desired !! id = Some cfg <-> cfg ∈ configs /\ cfg_ID cfg = id) /\
      let '(slots, heap) := next_slots (sm_slots m) (sm_heap m) desired in
      m' = mkManager (set_config_slots configs (sm_config m)) (sm_resolves m) (sm_snapshotters m) slots heap
  end.
Proof.
  intros _ Hord. unfold ApplySlots_in.
  assert (Hin : forall id a, (id, a) ∈ order <-> sm_slots m !! id = Some a).
  { intros id a. by rewrite Hord, elem_of_map_to_list. }
  destruct (desired_slots configs ∅) as [desired|e] eqn:Hd.
  2:{ split; [done|]. intros [Hnd _].
      destruct (desired_slots_complete configs ∅ Hnd) as [d Hd']; [done|congruence]. }
  apply desired_slots_Ok in Hd as (Hnd & _ & Hlook).
  assert (Hlook' : forall id cfg, desired !! id = Some cfg <-> cfg ∈ configs /\ cfg_ID cfg = id).
  { intros id cfg. rewrite Hlook, lookup_empty. naive_solver. }
  assert (Hacc : acceptable m configs <-> check_slots DeepEqual desired (sm_heap m) order = None).
  { rewrite check_slots_None. unfold acceptable. split.
    - intros [_ Hall] id a s Hia Ha. apply (check_slot_None _ configs); [done|].
      apply (Hall id a s); [by apply Hin|done].
    - intros Hall. split; [done|]. intros id a s Hia Ha. apply (check_slot_None desired); [done|].
      apply (Hall id a s); [by apply Hin|done]. }
  destruct (check_slots _ _ _ _) as [e|]; [split; [done|]; by rewrite Hacc|].
  destruct (next_slots _ _ _) as [slots heap] eqn:Hn. split; [by apply Hacc|]. exists desired.
  split; [done|]. by rewrite Hn.
Qed.

(** C19. [ApplySlots] is atomic and exact. It accepts a topology exactly when the ids are
    distinct, every existing Slot that is not in it is free, and every other keeps its profile
    and resources - whatever the order Go iterates the Slots in. A rejected topology changes
    nothing. An accepted one makes the Slot ids exactly the requested ones; a Slot that stays
    keeps its pointer and its content, a removed one was free, and a new one starts free with
    its own profile and copied resources. *)
Theorem apply_slots_atomic m configs order :
  manager_ok m -> order ≡ₚ map_to_list (sm_slots m) ->
  let '(m', err) := ApplySlots_in DeepEqual order configs m in
  match err with
  | Some _ => m' = m /\ ¬ acceptable m configs
  | None => acceptable m configs /\ manager_ok m' /\ wc_Slots (sm_config m') = configs /\
      sm_heap m ⊆ sm_heap m' /\
      (forall id, is_Some (sm_slots m' !! id) <-> id ∈ cfg_ID <$> configs) /\
      (forall cfg, cfg ∈ configs -> exists a, sm_slots m' !! cfg_ID cfg = Some a /\
         match sm_slots m !! cfg_ID cfg with
         | Some a0 => a = a0
         | None => sm_heap m' !! a = Some (fresh_slot cfg)
         end)
  end.
Proof.
  intros Hm Hord. pose proof (ApplySlots_in_spec m configs order Hm Hord) as Hspec.
  destruct (ApplySlots_in _ _ _ _) as [m' [err|]]; [done|]. destruct Hspec as (Hacc & desired & Hlook & Hm').
  pose proof (next_slots_ok m configs desired Hm Hlook) as Hok.
  destruct (next_slots _ _ _) as [slots heap]. subst m'. cbn [sm_config sm_slots sm_heap].
  destruct Hok as (? & ? & ? & ?). by split_and!.
Qed.

(** ** The initial manager *)

Lemma alloc_ok id s slots heap :
  (forall i a, slots !! i = Some a -> is_Some (heap !! a)) ->
  (forall i1 i2 a, slots !! i1 = Some a -> slots !! i2 = Some a -> i1 = i2) ->
  let '(slots', heap') := alloc id s (slots, heap) in
  (forall i a, slots' !! i = Some a -> is_Some (heap' !! a)) /\
  (forall i1 i2 a, slots' !! i1 = Some a -> slots' !! i2 = Some a -> i1 = i2).
Proof.
  intros Halloc Hinj. unfold alloc. pose proof (is_fresh (dom heap)) as Hf.
  set (f := fresh (dom heap)) in *. clearbody f. apply not_elem_of_dom in Hf. split.
  - intros i a. rewrite lookup_insert_Some. intros [[<- <-]|[_ Ha]].
    + by rewrite lookup_insert_eq.
    + destruct (Halloc _ _ Ha) as [s' Hs']. apply lookup_insert_is_Some. right.
      split; [congruence|eauto].
  - intros i1 i2 a. rewrite !lookup_insert_Some.
    intros [[<- <-]|[H1 Ha1]] [[<- Heq]|[H2 Ha2]]; try done.
    + destruct (Halloc _ _ Ha2). congruence.
    + subst. destruct (Halloc _ _ Ha1). congruence.
    + by eapply Hinj.
Qed.

Lemma NewSlotManager_ok config resolves registry :
  manager_ok (NewSlotManager config resolves registry).
Proof.
  unfold NewSlotManager.
  assert (Hgo : forall l acc,
    (forall i a, acc.1 !! i = Some a -> is_Some (acc.2 !! a)) ->
    (forall i1 i2 a, acc.1 !! i1 = Some a -> acc.1 !! i2 = Some a -> i1 = i2) ->
    let '(slots, heap) := foldl (fun acc cfg => alloc (cfg_ID cfg) (fresh_slot cfg) acc) acc l in
    manager_ok (mkManager config resolves registry slots heap)).
  { induction l as [|c l IH]; intros [slots heap] Ha Hi; cbn [foldl].
    - by split.
    - pose proof (alloc_ok (cfg_ID c) (fresh_slot c) slots heap Ha Hi) as Hok.
      destruct (alloc _ _ _) as [slots' heap']. destruct Hok. by apply IH. }
  specialize (Hgo (wc_Slots config) (∅, ∅)). destruct (foldl _ _ _) as [slots heap].
  apply Hgo; intros *; cbn [fst snd]; by rewrite lookup_empty.
Qed.

(** ** Listing *)

Lemma merge_sort_Z_sorted (l : list Z) : StronglySorted Z.le (merge_sort Z.le l).
Proof. apply StronglySorted_merge_sort; apply _. Qed.

(** [ListSlots] reports every Slot exactly once, by increasing id, with the profile, state and
    owner the Slot has. *)
Theorem list_slots_complete m :
  manager_ok m ->
  StronglySorted Z.lt (info_ID <$> ListSlots m) /\
  forall info, info ∈ ListSlots m <->
    exists a s, sm_slots m !! info_ID info = Some a /\ sm_heap m !! a = Some s /\
      info = mkInfo (info_ID info) (ms_profile s) (ms_state s) (id_UID (ms_sandbox s)).
Proof.
  intros [Halloc _]. unfold ListSlots.
  set (report := fun id => match a ← getSlot m id; deref m a with
    | Err _ => None
    | Ok s => Some (mkInfo id (ms_profile s) (ms_state s) (id_UID (ms_sandbox s)))
    end).
  assert (Hrep : forall id info, report id = Some info <-> exists a s,
    sm_slots m !! id = Some a /\ sm_heap m !! a = Some s /\
    info = mkInfo id (ms_profile s) (ms_state s) (id_UID (ms_sandbox s))).
  { intros id info. unfold report, getSlot, deref. destruct (sm_slots m !! id) as [a|]; cbn.
    - destruct (sm_heap m !! a) as [s|] eqn:Hs; cbn; split; [intros [= <-]; by exists a, s| |done|].
      + intros (a' & s' & [= <-] & Hs' & ->). congruence.
      + intros (a' & s' & [= <-] & Hs' & ->). congruence.
    - split; [done|]. by intros (a & s & ? & _). }
  set (ids := merge_sort Z.le (map_to_list (sm_slots m)).*1).
  assert (Hids : forall id, id ∈ ids <-> is_Some (sm_slots m !! id)).
  { intros id. unfold ids. rewrite merge_sort_Permutation, list_elem_of_fmap. split.
    - intros ([i a] & -> & Hi). apply elem_of_map_to_list in Hi. cbn. eauto.
    - intros [a Ha]. exists (id, a). by rewrite elem_of_map_to_list. }
  assert (Hall : info_ID <$> omap report ids = ids).
  { assert (Hsub : forall id, id ∈ ids -> exists info, report id = Some info /\ info_ID info = id).
    { intros id [a Ha]%Hids. destruct (Halloc _ _ Ha) as [s Hs].
      exists (mkInfo id (ms_profile s) (ms_state s) (id_UID (ms_sandbox s))). split; [|done].
      apply Hrep. exists a, s. split_and!; done. }
    clear -Hsub. induction ids as [|id ids IH]; [done|].
    destruct (Hsub id ltac:(left)) as (info & Hi & Hid). cbn [omap list_omap]. rewrite Hi.
    cbn [fmap list_fmap]. rewrite Hid. f_equal. apply IH. intros i Hin. apply Hsub. by right. }
  split.
  - rewrite Hall. assert (Hs := merge_sort_Z_sorted (map_to_list (sm_slots m)).*1). fold ids in Hs.
    assert (Hnd : NoDup ids).
    { unfold ids. rewrite merge_sort_Permutation. apply NoDup_fst_map_to_list. }
    clear -Hs Hnd. induction Hs as [|id ids Hs IH Hall]; [constructor|].
    apply NoDup_cons in Hnd as [Hnin Hnd]. constructor; [by apply IH|].
    rewrite Forall_forall in Hall |- *. intros x Hx. specialize (Hall x Hx).
    assert (id <> x) by (by intros ->). lia.
  - intros info. rewrite list_elem_of_omap. split.
    + intros (id & _ & (a & s & Ha & Hs & ->)%Hrep). by exists a, s.
    + intros (a & s & Ha & Hs & Hi). exists (info_ID info). split; [apply Hids; eauto|].
      apply Hrep. by exists a, s.
Qed.
End Facts.

(** ** Concrete instances *)

Module ApplyWitness.
#[local] Existing Instance ZQuantity.

#[export] Instance resources_eq_dec : EqDecision (@ResourceRequirements ZQuantity).
Proof. solve_decision. Defined.
Definition same_resources (a b : @ResourceRequirements ZQuantity) : bool := bool_decide (a = b).

Definition cfg (id : Z) (p : string) : Config := mkConfig id p no_resources.
Definition config (slots : list Config) : WorkerConfig :=
  mkWorkerConfig ZQuantity "worker-0" "ns" "pool" slots (Some "runsc").
Definition worker (slots : list Config) : SlotManager :=
  NewSlotManager (config slots) true (NewRegistry ∅).
Definition two : SlotManager := worker [cfg 0 "small"; cfg 1 "small"].

Definition listing (m : SlotManager) : list (Z * string * State) :=
  (fun i => (info_ID i, info_Profile i, info_State i)) <$> ListSlots m.

Lemma apply_slots_atomic_witness :
  let '(m', err) := ApplySlots_in same_resources (map_to_list (sm_slots two)) [cfg 1 "small"; cfg 2 "large"] two in
  match err with
  | Some _ => m' = two /\ ¬ acceptable same_resources two [cfg 1 "small"; cfg 2 "large"]
  | None => acceptable same_resources two [cfg 1 "small"; cfg 2 "large"] /\ manager_ok m' /\
      wc_Slots (sm_config m') = [cfg 1 "small"; cfg 2 "large"] /\
      sm_heap two ⊆ sm_heap m' /\
      (forall id, is_Some (sm_slots m' !! id) <-> id ∈ cfg_ID <$> [cfg 1 "small"; cfg 2 "large"]) /\
      (forall c, c ∈ [cfg 1 "small"; cfg 2 "large"] -> exists a, sm_slots m' !! cfg_ID c = Some a /\
         match sm_slots two !! cfg_ID c with
         | Some a0 => a = a0
         | None => sm_heap m' !! a = Some (fresh_slot c)
         end)
  end.
Proof.
  apply (apply_slots_atomic same_resources two [cfg 1 "small"; cfg 2 "large"]
           (map_to_list (sm_slots two))); [apply NewSlotManager_ok|done].
Defined.

Lemma list_slots_complete_witness :
  listing two = [(0%Z, "small", StateFree); (1%Z, "small", StateFree)] /\
  StronglySorted Z.lt (info_ID <$> ListSlots two).
Proof.
  split; [by vm_compute|]. exact (proj1 (list_slots_complete two (NewSlotManager_ok _ _ _))).
Defined.

Definition sandbox : SandboxIdentity := mkIdentity "ns" "sandbox" "uid-1".

(** A reservation can land on a Slot that no longer exists: a request that looked its Slot up
    before a topology change removed it still reserves it successfully - the pointer outlives
    the map entry - while the Worker lists no such Slot and every later request for it fails. *)
Theorem reserve_races_with_topology :
  match getSlot two 1 with
  | Ok a =>
      let '(m', err) := ApplySlots same_resources [cfg 0 "small"] two in
      err = None /\
      match deref m' a with
      | Ok s =>
          let '(s', reserved) := ReserveSlot_locked (mkRef 1 sandbox) s in
          reserved = None /\ ms_state s' = StateReserved /\
          listing (set_slot a s' m') = [(0%Z, "small", StateFree)] /\
          getSlot (set_slot a s' m') 1 = Err (wrap_sentinel ErrSlotNotFound "1")
      | Err _ => False
      end
  | Err _ => False
  end.
Proof. by vm_compute. Qed.

(** [Claims] are not copied into a Slot, so a Worker rejects the very topology it was started
    with when its resources name claims. *)
Theorem claims_block_reapply :
  let claimed := mkConfig 0 "gpu" (mkResources ∅ ∅ ["device"]) in
  (ApplySlots same_resources [claimed] (worker [claimed])).2 =
    Some (wrap_sentinel ErrSlotConfigInvalid "slot 0 resources/profile are immutable").
Proof. by vm_compute. Qed.
End ApplyWitness.
