(* ===== verification/WorkerFiles.v ===== *)
(** * The two listings of a sandbox directory

    A cold-started sandbox is listed by [ListFilesVia], a restored one by [execSandboxFS] and
    [parseFileList], from the output of the same script. The two parsers agree on names without
    white space at their end, and lose nothing there; they differ on the others. *)

From S2P Require Import Prelude Prog Strings Slot Runtime RuntimeFacts Api WorkerEnv SnapshotStore Manager.

(** The line the script prints for an entry. *)
Definition list_line (e : FileEntry) : string := fe_Type e +:+ String tab (fe_Name e).
Definition list_output (entries : list FileEntry) : string :=
  match entries with
  | [] => ""
  | _ => strings_Join (list_line <$> entries) nl +:+ nl
  end.

(** A directory entry the script can print: a file or a directory, whose name is not empty,
    holds no line break and does not end in white space. *)
Definition printable (e : FileEntry) : Prop :=
  (fe_Type e = FileTypeFile \/ fe_Type e = FileTypeDirectory) /\
  has_char newline (fe_Name e) = false /\
  exists c, last_char (fe_Name e) = Some c /\ not_space c = true.

Lemma printable_name e : printable e -> fe_Name e <> "".
Proof. intros (_ & _ & c & Hc & _) He. by rewrite He in Hc. Qed.

Lemma list_line_spec e :
  printable e ->
  has_char newline (list_line e) = false /\ Cut tab (list_line e) = Some (fe_Type e, fe_Name e) /\
  list_line e <> "" /\ TrimSpace (list_line e) = list_line e.
Proof.
  intros Hp. pose proof (printable_name e Hp) as Hne. destruct Hp as (Ht & Hnl & c & Hc & Hsp).
  assert (Hkind : has_char newline (fe_Type e) = false /\ has_char tab (fe_Type e) = false /\
    exists d rest, fe_Type e = String d rest /\ not_space d = true).
  { destruct Ht as [-> | ->]; (split_and!; [done|done|]); eexists _, _; by split. }
  destruct Hkind as (H1 & H2 & d & rest & Hd & Hds). unfold list_line. split_and!.
  - rewrite has_char_app, H1. simpl. by rewrite Hnl.
  - by apply Cut_Some.
  - by rewrite Hd.
  - rewrite Hd, string_app_cons. apply (TrimSpace_id _ c); [done|done|].
    rewrite <- string_app_cons, last_char_app by done. simpl. by destruct (fe_Name e).
Qed.

Lemma Split_Join_nl l :
  l <> [] -> Forall (fun c => has_char newline c = false) l ->
  Split newline (strings_Join l nl +:+ nl) = l ++ [""].
Proof.
  intros Hne Hl. assert (Hj : strings_Join l nl +:+ nl = strings_Join (l ++ [""]) nl).
  { clear Hl. induction l as [|a [|b l] IH]; [done|done|].
    change ((a +:+ (nl +:+ strings_Join (b :: l) nl)) +:+ nl =
            a +:+ (nl +:+ strings_Join ((b :: l) ++ [""]) nl)).
    rewrite <- IH by done. by rewrite <- !string_app_assoc. }
  rewrite Hj. apply Split_Join; [by destruct l|]. apply Forall_app. split; [done|]. by repeat constructor.
Qed.

Lemma omap_map_id {A B} (f : A -> option B) (g : B -> A) (l : list B) :
  (forall x, x ∈ l -> f (g x) = Some x) -> omap f (g <$> l) = l.
Proof.
  induction l as [|x l IH]; intros Hl; [done|]. cbn [fmap list_fmap omap list_omap].
  rewrite (Hl x) by left. f_equal. apply IH. intros y Hy. apply Hl. by right.
Qed.

(** Both listings are faithful: from the script's output for a directory of printable
    entries, the parser of a cold-started sandbox and the parser of a restored one both give
    back exactly the entries, names with inner blanks and tabs included, in order. *)
Theorem listings_agree entries :
  Forall printable entries ->
  parse_list (list_output entries) = entries /\ parseFileList (list_output entries) = entries.
Proof.
  intros Hall. destruct entries as [|e0 entries0]; [by vm_compute|].
  set (entries := e0 :: entries0) in *. assert (Hne : list_line <$> entries <> []) by done.
  assert (Hnl : Forall (fun c => has_char newline c = false) (list_line <$> entries)).
  { apply Forall_fmap. eapply Forall_impl; [exact Hall|]. intros e He. by apply list_line_spec. }
  rewrite Forall_forall in Hall.
  change (list_output entries) with (strings_Join (list_line <$> entries) nl +:+ nl). split.
  - unfold parse_list. rewrite TrimSuffix_app, Split_Join by done. apply omap_map_id.
    intros e He. destruct (list_line_spec e (Hall e He)) as (_ & Hcut & Hl & _).
    rewrite bool_decide_false, Hcut by done.
    rewrite bool_decide_false by (by apply printable_name, Hall).
    destruct (Hall e He) as [[Ht|Ht] _].
    + rewrite (bool_decide_true (_ = FileTypeFile)) by done. by destruct e.
    + rewrite (bool_decide_true (_ = FileTypeDirectory)) by done. rewrite andb_false_r. by destruct e.
  - unfold parseFileList. rewrite Split_Join_nl by done. rewrite omap_app.
    rewrite omap_map_id; [by rewrite app_nil_r|].
    intros e He. destruct (list_line_spec e (Hall e He)) as (_ & Hcut & Hl & Htrim).
    rewrite Htrim, bool_decide_false, Hcut by done. by destruct e.
Qed.

Module WorkerFilesWitness.
Definition entries : list FileEntry :=
  [mkFileEntry "my data" FileTypeDirectory; mkFileEntry "a.txt" FileTypeFile].

Lemma listings_agree_witness :
  parse_list (list_output entries) = entries /\ parseFileList (list_output entries) = entries.
Proof.
  apply listings_agree. apply Forall_cons. split; [|apply Forall_cons; split; [|done]];
    unfold printable; cbn.
  - split; [by right|]. split; [done|]. by exists "a"%char.
  - split; [by left|]. split; [done|]. by exists "t"%char.
Defined.

(** A name that ends in a blank is listed with it on a cold-started sandbox and without it after
    a restore, so a client that lists and then reads gets an error only after a fork. *)
Theorem listings_differ_on_trailing_blank :
  let output := list_output [mkFileEntry "report " FileTypeFile] in
  parse_list output = [mkFileEntry "report " FileTypeFile] /\
  parseFileList output = [mkFileEntry "report" FileTypeFile].
Proof. by vm_compute. Qed.
End WorkerFilesWitness.
