(* ===== verification/Url.v ===== *)
(** * Query strings (Go's net/url)

    [url.Values.Encode], [URL.Query] and [Values.Get] as the Worker client and server use them:
    escaping of a query component, its inverse, and the parser. Reading back an encoded query
    gives the values it was made of, whatever bytes they hold. *)

From S2P Require Import Prelude Strings.

(** ** Escaping *)

Definition hex_digit (n : nat) : ascii :=
  Ascii.ascii_of_nat (if n <? 10 then 48 + n else 55 + n).

(** [ishex] and [unhex] in one: the value of a hexadecimal digit. *)
Definition hex_value (c : ascii) : option nat :=
  let n := Ascii.nat_of_ascii c in
  if (48 <=? n) && (n <=? 57) then Some (n - 48)
  else if (65 <=? n) && (n <=? 70) then Some (n - 55)
  else if (97 <=? n) && (n <=? 102) then Some (n - 87)
  else None.

(** The bytes [QueryEscape] keeps: letters, digits, and four marks. *)
Definition unreserved (c : ascii) : bool :=
  let n := Ascii.nat_of_ascii c in
  ((48 <=? n) && (n <=? 57)) || ((65 <=? n) && (n <=? 90)) || ((97 <=? n) && (n <=? 122)) ||
  existsb (fun d => bool_decide (c = d)) ["-"; "_"; "."; "~"]%char.

Definition space : ascii := " "%char.
Definition percent : ascii := "%"%char.

Definition escape_byte (c : ascii) : string :=
  if unreserved c then String c ""
  else if bool_decide (c = space) then "+"
  else let n := Ascii.nat_of_ascii c in
       String percent (String (hex_digit (n / 16)) (String (hex_digit (n mod 16)) "")).

Fixpoint QueryEscape (s : string) : string :=
  match s with EmptyString => "" | String c s' => escape_byte c +:+ QueryEscape s' end.

(** [url.QueryUnescape], [None] for an [EscapeError]. *)
Fixpoint QueryUnescape (s : string) : option string :=
  match s with
  | EmptyString => Some ""
  | String c s' =>
      if bool_decide (c = percent) then
        match s' with
        | String hi (String lo rest) =>
            h ← hex_value hi; l ← hex_value lo; t ← QueryUnescape rest;
            Some (String (Ascii.ascii_of_nat (h * 16 + l)) t)
        | _ => None
        end
      else t ← QueryUnescape s';
           Some (String (if bool_decide (c = "+"%char) then space else c) t)
  end.

(** ** Values *)

Definition key_le (a b : string * string) : Prop := string_le a.1 b.1.
#[export] Instance key_le_dec : RelDecision key_le := fun a b => string_le_dec a.1 b.1.

Definition encode_pair (kv : string * string) : string :=
  QueryEscape kv.1 +:+ "=" +:+ QueryEscape kv.2.

(** [url.Values.Encode] for a map literal with one value per key, given in the order of its
    keys: the encoder sorts the keys. *)
Definition Encode (values : list (string * string)) : string :=
  strings_Join (encode_pair <$> merge_sort key_le values) "&".

(** One [key=value] of a raw query; pairs that do not parse are dropped, since [URL.Query]
    ignores the error. *)
Definition parse_pair (part : string) : option (string * string) :=
  if bool_decide (part = "") || has_char ";"%char part then None
  else let '(k, v) := default (part, "") (Cut "="%char part) in
       k ← QueryUnescape k; v ← QueryUnescape v; Some (k, v).

(** [URL.Query]. *)
Definition ParseQuery (raw : string) : list (string * string) :=
  omap parse_pair (Split "&"%char raw).

(** [Values.Get]: the first value of the key, or the empty string. *)
Fixpoint Get (values : list (string * string)) (k : string) : string :=
  match values with
  | [] => ""
  | (k', v) :: rest => if bool_decide (k = k') then v else Get rest k
  end.

(** ** Round trip *)

Lemma unescape_escape_byte c rest :
  QueryUnescape (escape_byte c +:+ rest) = t ← QueryUnescape rest; Some (String c t).
Proof. destruct c as [[] [] [] [] [] [] [] []]; reflexivity. Qed.

Lemma QueryUnescape_Escape s : QueryUnescape (QueryEscape s) = Some s.
Proof.
  induction s as [|c s IH]; [done|]. cbn [QueryEscape]. by rewrite unescape_escape_byte, IH.
Qed.

(** The bytes with a meaning in a query do not occur in an escaped component. *)
Definition query_reserved (c : ascii) : bool :=
  existsb (fun d => bool_decide (c = d)) ["&"; "="; ";"; "?"; "/"]%char.

Lemma escape_byte_plain d c : query_reserved d = true -> has_char d (escape_byte c) = false.
Proof.
  unfold query_reserved. rewrite existsb_exists. intros (x & Hx & ->%bool_decide_eq_true).
  destruct Hx as [<-|[<-|[<-|[<-|[<-|[]]]]]];
    destruct c as [[] [] [] [] [] [] [] []]; reflexivity.
Qed.

Lemma QueryEscape_plain d s : query_reserved d = true -> has_char d (QueryEscape s) = false.
Proof.
  intros Hd. induction s as [|c s IH]; [done|]. cbn [QueryEscape].
  by rewrite has_char_app, escape_byte_plain, IH.
Qed.

Lemma encode_pair_plain kv d :
  query_reserved d = true -> d <> "="%char -> has_char d (encode_pair kv) = false.
Proof.
  intros Hd Hne. unfold encode_pair. rewrite !has_char_app, !QueryEscape_plain by done.
  simpl. by rewrite bool_decide_false.
Qed.

Lemma parse_encode_pair kv : parse_pair (encode_pair kv) = Some kv.
Proof.
  unfold parse_pair. rewrite (encode_pair_plain kv ";"%char) by done.
  rewrite bool_decide_false.
  - destruct kv as [k v]. unfold encode_pair. simpl.
    rewrite (proj2 (Cut_Some "="%char _ (QueryEscape k) (QueryEscape v))).
    + simpl. by rewrite !QueryUnescape_Escape.
    + split; [done|]. by apply QueryEscape_plain.
  - unfold encode_pair. intros He%(f_equal (has_char "="%char)).
    rewrite !has_char_app in He. simpl in He.
    by rewrite orb_true_r in He.
Qed.

Lemma ParseQuery_Encode values :
  values <> [] ->
  ParseQuery (Encode values) = merge_sort key_le values.
Proof.
  intros Hne. unfold ParseQuery, Encode.
  set (l := merge_sort _ values).
  assert (l <> []) as Hl.
  { intros Hl. assert (Hp : l ≡ₚ values) by apply merge_sort_Permutation.
    rewrite Hl in Hp. by apply Permutation_nil in Hp. }
  change "&" with (String "&"%char ""). rewrite Split_Join.
  - clear. induction l as [|kv l IH]; [done|]. cbn. by rewrite parse_encode_pair, IH.
  - by destruct l.
  - apply Forall_fmap, Forall_forall. intros kv _. by apply encode_pair_plain.
Qed.
