(* ===== verification/Json.v ===== *)
(** * JSON values (Go's encoding/json)

    The documents the Worker API exchanges, as trees, with encoders and decoders driven by the
    struct tags of the Go types. A decoder fills in an existing value, as [json.Unmarshal] does:
    [null] changes nothing, an unknown key is skipped, keys match without regard to case, and
    a value of the wrong type is an error. Encoding a string replaces its invalid UTF-8, so
    the round-trip law of a type is about valid values only. *)

From S2P Require Import Prelude Strings.

(** [JReal] is a number that is not an integer literal, by its text. *)
Inductive json :=
  | JNull
  | JBool (b : bool)
  | JInt (z : Z)
  | JReal (text : string)
  | JStr (s : string)
  | JArr (l : list json)
  | JObj (fields : list (string * json)).

(** ** UTF-8 *)

Definition byte_in (lo hi : nat) (c : ascii) : bool :=
  let n := Ascii.nat_of_ascii c in (lo <=? n) && (n <=? hi).
Definition continuation : ascii -> bool := byte_in 128 191.

(** The second byte of a sequence, given its first (no overlong form, no surrogate). *)
Definition second_of_three (a b : ascii) : bool :=
  (byte_in 224 224 a && byte_in 160 191 b) || (byte_in 225 236 a && continuation b) ||
  (byte_in 237 237 a && byte_in 128 159 b) || (byte_in 238 239 a && continuation b).
Definition second_of_four (a b : ascii) : bool :=
  (byte_in 240 240 a && byte_in 144 191 b) || (byte_in 241 243 a && continuation b) ||
  (byte_in 244 244 a && byte_in 128 143 b).

Definition replacement : string := of_bytes [239; 191; 189].

(** Every byte that does not start a valid sequence becomes U+FFFD. *)
Fixpoint to_utf8 (s : string) : string :=
  match s with
  | EmptyString => ""
  | String a s1 =>
      if byte_in 0 127 a then String a (to_utf8 s1)
      else match s1 with
      | String b s2 =>
          if byte_in 194 223 a && continuation b then String a (String b (to_utf8 s2))
          else match s2 with
          | String c s3 =>
              if second_of_three a b && continuation c then
                String a (String b (String c (to_utf8 s3)))
              else match s3 with
              | String d s4 =>
                  if second_of_four a b && continuation c && continuation d then
                    String a (String b (String c (String d (to_utf8 s4))))
                  else replacement +:+ to_utf8 s1
              | EmptyString => replacement +:+ to_utf8 s1
              end
          | EmptyString => replacement +:+ to_utf8 s1
          end
      | EmptyString => replacement +:+ to_utf8 s1
      end
  end.

Definition utf8 (s : string) : Prop := to_utf8 s = s.
#[export] Instance utf8_dec s : Decision (utf8 s) := decide (to_utf8 s = s).

Fixpoint is_ascii (s : string) : bool :=
  match s with EmptyString => true | String c s' => byte_in 0 127 c && is_ascii s' end.

Lemma utf8_ascii s : is_ascii s = true -> utf8 s.
Proof.
  unfold utf8. induction s as [|c s IH]; [done|]. cbn [is_ascii to_utf8].
  intros [Hc Hs]%andb_true_iff. by rewrite Hc, IH.
Qed.

(** A character of well-formed text, by its bytes. *)
Inductive utf8_char : string -> Prop :=
  | utf8_one a : byte_in 0 127 a = true -> utf8_char (String a "")
  | utf8_two a b : byte_in 0 127 a = false -> byte_in 194 223 a && continuation b = true ->
      utf8_char (String a (String b ""))
  | utf8_three a b c : byte_in 0 127 a = false -> byte_in 194 223 a && continuation b = false ->
      second_of_three a b && continuation c = true -> utf8_char (String a (String b (String c "")))
  | utf8_four a b c d : byte_in 0 127 a = false -> byte_in 194 223 a && continuation b = false ->
      second_of_three a b && continuation c = false ->
      second_of_four a b && continuation c && continuation d = true ->
      utf8_char (String a (String b (String c (String d "")))).

Lemma to_utf8_char ch s : utf8_char ch -> to_utf8 (ch +:+ s) = ch +:+ to_utf8 s.
Proof.
  intros []; rewrite !string_app_cons; cbn [to_utf8];
    repeat match goal with H : _ = true |- _ => rewrite H | H : _ = false |- _ => rewrite H end; done.
Qed.

Lemma to_utf8_length s : String.length s <= String.length (to_utf8 s).
Proof.
  remember (String.length s) as n eqn:Hn. revert s Hn. induction n as [n IH] using lt_wf_ind. intros [|a s] ->; [cbn; lia|].
  assert (IH' : forall s', String.length s' <= String.length s -> String.length s' <= String.length (to_utf8 s')).
  { intros s' Hle. apply (IH (String.length s')); [cbn; lia|done]. }
  clear IH. pose proof (IH' s ltac:(done)) as Hs. cbn [to_utf8].
  destruct (byte_in 0 127 a); [cbn; lia|].
  assert (Hrep : S (String.length s) <= String.length (replacement +:+ to_utf8 s)) by (rewrite length_app_string; cbn; lia).
  destruct s as [|b s2]; [done|].
  destruct (_ && _); [pose proof (IH' s2 ltac:(cbn; lia)); cbn in *; lia|]. destruct s2 as [|c s3]; [done|].
  destruct (_ && _); [pose proof (IH' s3 ltac:(cbn; lia)); cbn in *; lia|]. destruct s3 as [|d s4]; [done|].
  destruct (_ && _); [pose proof (IH' s4 ltac:(cbn; lia)); cbn in *; lia|done].
Qed.

(** Well-formed text is a sequence of characters. *)
Lemma utf8_cons a s : utf8 (String a s) ->
  exists ch rest, utf8_char ch /\ utf8 rest /\ String a s = ch +:+ rest.
Proof.
  intros Hu. unfold utf8 in Hu.
  assert (Hbad : replacement +:+ to_utf8 s <> String a s).
  { intros Heq. apply (f_equal String.length) in Heq. rewrite length_app_string in Heq. pose proof (to_utf8_length s). cbn in Heq. lia. }
  cbn [to_utf8] in Hu. destruct (byte_in 0 127 a) eqn:H1.
  { exists (String a ""), s. split; [by constructor|]. split; [by injection Hu|done]. }
  destruct s as [|b s2]; [done|]. destruct (byte_in 194 223 a && continuation b) eqn:H2.
  { exists (String a (String b "")), s2. split; [by constructor|]. split; [by injection Hu|done]. }
  destruct s2 as [|c s3]; [done|]. destruct (second_of_three a b && continuation c) eqn:H3.
  { exists (String a (String b (String c ""))), s3. split; [by constructor|]. split; [by injection Hu|done]. }
  destruct s3 as [|d s4]; [done|]. destruct (second_of_four a b && continuation c && continuation d) eqn:H4; [|done].
  exists (String a (String b (String c (String d "")))), s4. split; [by constructor|]. split; [by injection Hu|done].
Qed.

Lemma utf8_rect (P : string -> Prop) :
  P "" -> (forall ch s, utf8_char ch -> utf8 s -> P s -> P (ch +:+ s)) -> forall s, utf8 s -> P s.
Proof.
  intros H0 Hs s. remember (String.length s) as n eqn:Hn. revert s Hn. induction n as [n IH] using lt_wf_ind.
  intros [|a s] -> Hu; [done|]. apply utf8_cons in Hu as (ch & rest & Hch & Hr & Heq). rewrite Heq.
  apply Hs; [done..|]. apply (IH (String.length rest)); [|done|done]. rewrite Heq, length_app_string. destruct Hch; cbn; lia.
Qed.

Lemma utf8_app a b : utf8 a -> utf8 b -> utf8 (a +:+ b).
Proof.
  intros Ha Hb. induction Ha as [|ch s Hch _ IH] using utf8_rect; [done|].
  unfold utf8 in *. rewrite <- string_app_assoc, to_utf8_char by done. by rewrite IH.
Qed.

(** ** Encoders and decoders *)

Class Json (T : Type) := {
  zero : T;
  enc : T -> json;
  dec : json -> T -> option T;
}.

(** What a value needs to survive the wire. *)
Class JsonLaws (T : Type) `{Json T} := {
  valid : T -> Prop;
  dec_enc x : valid x -> dec (enc x) zero = Some x;
}.
Arguments dec_enc {T _ _} x _.

Lemma dec_enc_at `{JsonLaws T} (x z : T) : z = zero -> valid x -> dec (enc x) z = Some x.
Proof. intros ->. apply dec_enc. Qed.

#[export] Instance string_json : Json string := {
  zero := "";
  enc s := JStr (to_utf8 s);
  dec j cur := match j with JNull => Some cur | JStr s => Some s | _ => None end;
}.
#[export, refine] Instance string_json_laws : JsonLaws string := { valid := utf8 }.
Proof. intros x Hx. simpl. by rewrite Hx. Defined.

#[export] Instance bool_json : Json bool := {
  zero := false;
  enc := JBool;
  dec j cur := match j with JNull => Some cur | JBool b => Some b | _ => None end;
}.
#[export] Instance bool_json_laws : JsonLaws bool := { valid _ := True; dec_enc _ _ := eq_refl }.

(** An integer of [bits] bits: a literal out of range is an error. *)
Definition dec_int (bits : Z) (j : json) (cur : Z) : option Z :=
  match j with
  | JNull => Some cur
  | JInt z => if ((- 2 ^ (bits - 1) <=? z) && (z <=? 2 ^ (bits - 1) - 1))%Z then Some z else None
  | _ => None
  end.

Lemma dec_int_enc bits z cur :
  (- 2 ^ (bits - 1) <= z <= 2 ^ (bits - 1) - 1)%Z -> dec_int bits (JInt z) cur = Some z.
Proof.
  intros Hz. unfold dec_int. rewrite (proj2 (Z.leb_le _ _)) by lia.
  by rewrite (proj2 (Z.leb_le _ _)) by lia.
Qed.

(** The elements of an array are decoded one by one into zero values. *)
#[export] Instance list_json `{Json T} : Json (list T) := {
  zero := [];
  enc l := JArr (enc <$> l);
  dec j cur := match j with
    | JNull => Some []
    | JArr l => mapM (fun x => dec x zero) l
    | _ => None
    end;
}.
#[export, refine] Instance list_json_laws `{JsonLaws T} : JsonLaws (list T) := {
  valid := Forall valid }.
Proof.
  intros l Hl. simpl. induction Hl as [|x l Hx _ IH]; [done|].
  cbn. rewrite dec_enc by done. simpl in IH. by rewrite IH.
Defined.

(** ** Structs *)

Definition lower_byte (c : ascii) : ascii :=
  if byte_in 65 90 c then Ascii.ascii_of_nat (Ascii.nat_of_ascii c + 32) else c.
Fixpoint lower (s : string) : string :=
  match s with EmptyString => "" | String c s' => String (lower_byte c) (lower s') end.

(** Keys match up to case. *)
Definition same_key (a b : string) : bool := String.eqb (lower a) (lower b).

(** One field: its key and how a value for it updates the struct. *)
Record field (T : Type) := mkField {
  f_key : string;
  f_dec : json -> T -> option T;
}.
Arguments mkField {T} _ _.
Arguments f_key {T} _.
Arguments f_dec {T} _ _ _.

Definition json_field {T A} `{Json A} (key : string) (get : T -> A) (set : A -> T -> T) : field T :=
  mkField key (fun j cur => x ← dec j (get cur); Some (set x cur)).
Definition int_field {T} (bits : Z) (key : string) (get : T -> Z) (set : Z -> T -> T) : field T :=
  mkField key (fun j cur => x ← dec_int bits j (get cur); Some (set x cur)).

(** One member of an object; [json.Decoder] keeps the first error, and callers drop the value
    then. *)
Definition dec_member {T} (fs : list (field T)) (acc : option T) (member : string * json) : option T :=
  cur ← acc;
  match List.find (fun f => same_key (f_key f) member.1) fs with
  | Some f => f_dec f member.2 cur
  | None => Some cur
  end.

Definition dec_struct {T} (fs : list (field T)) (j : json) (cur : T) : option T :=
  match j with
  | JNull => Some cur
  | JObj members => foldl (dec_member fs) (Some cur) members
  | _ => None
  end.

(** A member that [omitempty] leaves out when its value is empty. *)
Definition omitempty (empty : bool) (key : string) (j : json) : list (string * json) :=
  if empty then [] else [(key, j)].

(** [json.NewDecoder(body).Decode(&target)] for a fresh target. *)
Definition decode {T} `{Json T} (j : json) : option T := dec j zero.

(** Evaluating a struct decoder on the members of an encoded struct: a member finds its field,
    whose type's law gives the value; an omitted member leaves the zero value, which is the
    value it was omitted for. *)
Lemma dec_struct_member {T} (fs : list (field T)) f k j ms cur y :
  List.find (fun f => same_key (f_key f) k) fs = Some f -> f_dec f j cur = Some y ->
  foldl (dec_member fs) (Some cur) ((k, j) :: ms) = foldl (dec_member fs) (Some y) ms.
Proof. intros Hf Hy. cbn. by rewrite Hf, Hy. Qed.

Lemma dec_struct_omitempty {T} (fs : list (field T)) f b k j ms cur y :
  List.find (fun f => same_key (f_key f) k) fs = Some f -> f_dec f j cur = Some y ->
  (b = true -> y = cur) ->
  foldl (dec_member fs) (Some cur) (omitempty b k j ++ ms) = foldl (dec_member fs) (Some y) ms.
Proof.
  intros Hf Hy Hb. destruct b; cbn; [by rewrite Hb|]. by rewrite Hf, Hy.
Qed.

Lemma json_field_dec {T} `{JsonLaws A} key (get : T -> A) set x cur :
  get cur = zero -> valid x -> f_dec (json_field key get set) (enc x) cur = Some (set x cur).
Proof. intros Hz Hx. cbn. by rewrite Hz, dec_enc. Qed.

Lemma int_field_dec {T} bits key (get : T -> Z) set z cur :
  (- 2 ^ (bits - 1) <= z <= 2 ^ (bits - 1) - 1)%Z ->
  f_dec (int_field bits key get set) (JInt z) cur = Some (set z cur).
Proof. intros Hz. unfold int_field, f_dec. by rewrite dec_int_enc. Qed.

(** ** Text

    What [json.Marshal] writes, for a reader that takes the body as bytes. *)

Definition u_escape (n : nat) : string :=
  let hex k := Ascii.ascii_of_nat (if k <? 10 then 48 + k else 87 + k) in
  String backslash ("u00" +:+ String (hex (n / 16)) (String (hex (n mod 16)) "")).

Definition json_byte (c : ascii) : string :=
  let n := Ascii.nat_of_ascii c in
  if (n =? 34) || (n =? 92) then String backslash (String c "")
  else if n =? 8 then String backslash "b"
  else if n =? 9 then String backslash "t"
  else if n =? 10 then String backslash "n"
  else if n =? 12 then String backslash "f"
  else if n =? 13 then String backslash "r"
  else if (n <? 32) || (n =? 60) || (n =? 62) || (n =? 38) then u_escape n
  else String c "".

(** Besides control characters and the HTML marks, the line separators U+2028 and U+2029 are
    escaped. *)
Fixpoint json_chars (s : string) : string :=
  match s with
  | String a ((String b (String c rest)) as tail) =>
      if byte_in 226 226 a && byte_in 128 128 b && byte_in 168 169 c then
        String backslash ("u202" +:+ (if byte_in 168 168 c then "8" else "9")) +:+ json_chars rest
      else json_byte a +:+ json_chars tail
  | String a tail => json_byte a +:+ json_chars tail
  | EmptyString => ""
  end.

Definition json_string (s : string) : string :=
  let q := String (Ascii.ascii_of_nat 34) "" in q +:+ json_chars s +:+ q.

Fixpoint json_text (j : json) : string :=
  match j with
  | JNull => "null"
  | JBool b => if b then "true" else "false"
  | JInt z => itoa z
  | JReal text => text
  | JStr s => json_string s
  | JArr l => "[" +:+ strings_Join (map json_text l) "," +:+ "]"
  | JObj fields =>
      "{" +:+ strings_Join (map (fun '(k, v) => json_string k +:+ ":" +:+ json_text v) fields) "," +:+ "}"
  end.
