(* ===== verification/ApiJson.v ===== *)
(** * The Worker API types on the wire (JSON tags of internal/workerapi and internal/slot)

    An encoder and a decoder per request and result type, each with its round-trip law. The
    types of k8s.io/api inside them (container environment variables, resource requirements)
    have their own codecs, which are not part of the repository: [K8sJson]. *)

From S2P Require Import Prelude Strings Slot Runtime Api Json.

(** What the code relies on: a valid value of these types survives encoding and decoding. *)
Class K8sJson (QA : QuantityApi) := {
  EnvVar_json :: Json EnvVar;
  EnvVar_laws :: JsonLaws EnvVar;
  resources_json :: Json ResourceRequirements;
  resources_laws :: JsonLaws ResourceRequirements;
}.

(** A round trip: one step per member, in the order of the struct. *)
Ltac find_field :=
  cbn [List.find f_key json_field int_field];
  repeat match goal with |- context [same_key ?a ?b] =>
    let v := eval vm_compute in (same_key a b) in change (same_key a b) with v; cbn [f_key] end;
  reflexivity.

Ltac field_value :=
  first [ apply json_field_dec; [reflexivity|assumption || done]
        | apply int_field_dec; unfold in_int32, in_int64, int32_min, int32_max in *; lia ].

Ltac omitted :=
  let H := fresh in intros H;
  first [apply bool_decide_eq_true in H | apply negb_true_iff in H]; simpl in H; subst; reflexivity.

Ltac json_step :=
  try match goal with |- foldl _ _ (omitempty ?b ?k ?j) = _ =>
    rewrite <- (app_nil_r (omitempty b k j)) end;
  first [ erewrite dec_struct_member; [|find_field|field_value]
        | erewrite dec_struct_omitempty; [|find_field|field_value|omitted] ];
  match goal with |- foldl _ (Some ?y) _ = _ =>
    let y' := eval cbn -[zero] in y in change y with y' end.

Ltac solve_json :=
  let x := fresh in intros x; destruct x; intros Hv; cbn -[valid in_int32 in_int64] in Hv;
  destruct_and?;
  match goal with |- @dec _ ?I _ _ = _ => let h := get_head I in unfold h end; cbn [dec enc zero];
  cbn -[enc zero omitempty dec_member foldl List.app]; unfold dec_struct; cbn [app];
  repeat json_step; reflexivity.

Section Wire.
Context {QA : QuantityApi} {KJ : K8sJson QA}.

(* go: internal/workerapi/types.go SandboxIdentity *)
#[export] Instance SandboxIdentity_json : Json SandboxIdentity := {
  zero := mkIdentity zero zero zero;
  enc x := JObj [("namespace", enc (id_Namespace x));
    ("name", enc (id_Name x));
    ("uid", enc (id_UID x))];
  dec := dec_struct [
    json_field "namespace" id_Namespace (fun v x => mkIdentity v (id_Name x) (id_UID x));
    json_field "name" id_Name (fun v x => mkIdentity (id_Namespace x) v (id_UID x));
    json_field "uid" id_UID (fun v x => mkIdentity (id_Namespace x) (id_Name x) v)];
}.
#[export, refine] Instance SandboxIdentity_laws : JsonLaws SandboxIdentity := { valid x :=
  valid (id_Namespace x) /\
  valid (id_Name x) /\
  valid (id_UID x) }.
Proof. solve_json. Defined.

(* go: internal/workerapi/types.go SandboxSlotRef *)
#[export] Instance SandboxSlotRef_json : Json SandboxSlotRef := {
  zero := mkRef 0 zero;
  enc x := JObj [("slotID", JInt (ref_SlotID x));
    ("identity", enc (ref_Identity x))];
  dec := dec_struct [
    int_field 32 "slotID" ref_SlotID (fun v x => mkRef v (ref_Identity x));
    json_field "identity" ref_Identity (fun v x => mkRef (ref_SlotID x) v)];
}.
#[export, refine] Instance SandboxSlotRef_laws : JsonLaws SandboxSlotRef := { valid x :=
  in_int32 (ref_SlotID x) /\
  valid (ref_Identity x) }.
Proof. solve_json. Defined.

(* go: api/v1alpha1/sandbox_types.go ContainerSpec *)
#[export] Instance ContainerSpec_json : Json ContainerSpec := {
  zero := mkContainerSpec zero zero zero zero;
  enc x := JObj ([("image", enc (cs_Image x))] ++
    omitempty (bool_decide (cs_Command x = [])) "command" (enc (cs_Command x)) ++
    omitempty (bool_decide (cs_Args x = [])) "args" (enc (cs_Args x)) ++
    omitempty (bool_decide (cs_Env x = [])) "env" (enc (cs_Env x)));
  dec := dec_struct [
    json_field "image" cs_Image (fun v x => mkContainerSpec v (cs_Command x) (cs_Args x) (cs_Env x));
    json_field "command" cs_Command (fun v x => mkContainerSpec (cs_Image x) v (cs_Args x) (cs_Env x));
    json_field "args" cs_Args (fun v x => mkContainerSpec (cs_Image x) (cs_Command x) v (cs_Env x));
    json_field "env" cs_Env (fun v x => mkContainerSpec (cs_Image x) (cs_Command x) (cs_Args x) v)];
}.
#[export, refine] Instance ContainerSpec_laws : JsonLaws ContainerSpec := { valid x :=
  valid (cs_Image x) /\
  valid (cs_Command x) /\
  valid (cs_Args x) /\
  valid (cs_Env x) }.
Proof. solve_json. Defined.

(* go: internal/workerapi/types.go StartSandboxRequest *)
#[export] Instance StartSandboxRequest_json : Json StartSandboxRequest := {
  zero := mkStart 0 zero zero;
  enc x := JObj [("slotID", JInt (sr_SlotID x));
    ("identity", enc (sr_Identity x));
    ("container", enc (sr_Container x))];
  dec := dec_struct [
    int_field 32 "slotID" sr_SlotID (fun v x => mkStart v (sr_Identity x) (sr_Container x));
    json_field "identity" sr_Identity (fun v x => mkStart (sr_SlotID x) v (sr_Container x));
    json_field "container" sr_Container (fun v x => mkStart (sr_SlotID x) (sr_Identity x) v)];
}.
#[export, refine] Instance StartSandboxRequest_laws : JsonLaws StartSandboxRequest := { valid x :=
  in_int32 (sr_SlotID x) /\
  valid (sr_Identity x) /\
  valid (sr_Container x) }.
Proof. solve_json. Defined.

(** A state other than the seven is refused here; Go keeps any text, which no peer sends. *)
(* go: internal/slot/slot.go 5-15 State *)
#[export] Instance State_json : Json State := {
  zero := StateFree;
  enc s := JStr (State_string s);
  dec j cur := match j with
    | JNull => Some cur
    | JStr s => List.find (fun st => String.eqb (State_string st) s)
        [StateFree; StateReserved; StateStarting; StateRunning; StateStopping; StateCleaning; StateFailed]
    | _ => None
    end;
}.
#[export, refine] Instance State_laws : JsonLaws State := { valid _ := True }.
Proof. by intros [] _. Defined.

(* go: internal/workerapi/types.go SandboxInfo *)
#[export] Instance SandboxInfo_json : Json SandboxInfo := {
  zero := mkSandboxInfo zero 0 zero;
  enc x := JObj [("identity", enc (si_Identity x));
    ("slotID", JInt (si_SlotID x));
    ("state", enc (si_State x))];
  dec := dec_struct [
    json_field "identity" si_Identity (fun v x => mkSandboxInfo v (si_SlotID x) (si_State x));
    int_field 32 "slotID" si_SlotID (fun v x => mkSandboxInfo (si_Identity x) v (si_State x));
    json_field "state" si_State (fun v x => mkSandboxInfo (si_Identity x) (si_SlotID x) v)];
}.
#[export, refine] Instance SandboxInfo_laws : JsonLaws SandboxInfo := { valid x :=
  valid (si_Identity x) /\
  in_int32 (si_SlotID x) /\
  valid (si_State x) }.
Proof. solve_json. Defined.

(* go: internal/workerapi/types.go ExecSandboxRequest *)
#[export] Instance ExecSandboxRequest_json : Json ExecSandboxRequest := {
  zero := mkExecSandbox 0 zero zero 0;
  enc x := JObj ([("slotID", JInt (er_SlotID x)); ("identity", enc (er_Identity x)); ("command", enc (er_Command x))] ++
    omitempty (bool_decide (er_TimeoutSeconds x = 0%Z)) "timeoutSeconds" (JInt (er_TimeoutSeconds x)));
  dec := dec_struct [
    int_field 32 "slotID" er_SlotID (fun v x => mkExecSandbox v (er_Identity x) (er_Command x) (er_TimeoutSeconds x));
    json_field "identity" er_Identity (fun v x => mkExecSandbox (er_SlotID x) v (er_Command x) (er_TimeoutSeconds x));
    json_field "command" er_Command (fun v x => mkExecSandbox (er_SlotID x) (er_Identity x) v (er_TimeoutSeconds x));
    int_field 64 "timeoutSeconds" er_TimeoutSeconds (fun v x => mkExecSandbox (er_SlotID x) (er_Identity x) (er_Command x) v)];
}.
#[export, refine] Instance ExecSandboxRequest_laws : JsonLaws ExecSandboxRequest := { valid x :=
  in_int32 (er_SlotID x) /\
  valid (er_Identity x) /\
  valid (er_Command x) /\
  in_int64 (er_TimeoutSeconds x) }.
Proof. solve_json. Defined.

(* go: internal/workerapi/types.go ExecSandboxResult *)
#[export] Instance ExecResult_json : Json ExecResult := {
  zero := mkExecResult 0 zero zero;
  enc x := JObj [("exitCode", JInt (xr_ExitCode x));
    ("stdout", enc (xr_Stdout x));
    ("stderr", enc (xr_Stderr x))];
  dec := dec_struct [
    int_field 32 "exitCode" xr_ExitCode (fun v x => mkExecResult v (xr_Stdout x) (xr_Stderr x));
    json_field "stdout" xr_Stdout (fun v x => mkExecResult (xr_ExitCode x) v (xr_Stderr x));
    json_field "stderr" xr_Stderr (fun v x => mkExecResult (xr_ExitCode x) (xr_Stdout x) v)];
}.
#[export, refine] Instance ExecResult_laws : JsonLaws ExecResult := { valid x :=
  in_int32 (xr_ExitCode x) /\
  valid (xr_Stdout x) /\
  valid (xr_Stderr x) }.
Proof. solve_json. Defined.

(* go: internal/workerapi/files.go SandboxFileEntry *)
#[export] Instance FileEntry_json : Json FileEntry := {
  zero := mkFileEntry zero zero;
  enc x := JObj [("name", enc (fe_Name x));
    ("type", enc (fe_Type x))];
  dec := dec_struct [
    json_field "name" fe_Name (fun v x => mkFileEntry v (fe_Type x));
    json_field "type" fe_Type (fun v x => mkFileEntry (fe_Name x) v)];
}.
#[export, refine] Instance FileEntry_laws : JsonLaws FileEntry := { valid x :=
  valid (fe_Name x) /\
  valid (fe_Type x) }.
Proof. solve_json. Defined.

(* go: internal/workerapi/snapshot.go ObjectStorageConfig *)
#[export] Instance ObjectStorageConfig_json : Json ObjectStorageConfig := {
  zero := mkObjectStorage zero zero zero zero zero zero;
  enc x := JObj (omitempty (bool_decide (os_Endpoint x = "")) "endpoint" (enc (os_Endpoint x)) ++
    [("bucket", enc (os_Bucket x))] ++
    omitempty (bool_decide (os_Region x = "")) "region" (enc (os_Region x)) ++
    [("accessKeyID", enc (os_AccessKeyID x)); ("secretAccessKey", enc (os_SecretAccessKey x))] ++
    omitempty (negb (os_UsePathStyle x)) "usePathStyle" (enc (os_UsePathStyle x)));
  dec := dec_struct [
    json_field "endpoint" os_Endpoint (fun v x => mkObjectStorage v (os_Bucket x) (os_Region x) (os_AccessKeyID x) (os_SecretAccessKey x) (os_UsePathStyle x));
    json_field "bucket" os_Bucket (fun v x => mkObjectStorage (os_Endpoint x) v (os_Region x) (os_AccessKeyID x) (os_SecretAccessKey x) (os_UsePathStyle x));
    json_field "region" os_Region (fun v x => mkObjectStorage (os_Endpoint x) (os_Bucket x) v (os_AccessKeyID x) (os_SecretAccessKey x) (os_UsePathStyle x));
    json_field "accessKeyID" os_AccessKeyID (fun v x => mkObjectStorage (os_Endpoint x) (os_Bucket x) (os_Region x) v (os_SecretAccessKey x) (os_UsePathStyle x));
    json_field "secretAccessKey" os_SecretAccessKey (fun v x => mkObjectStorage (os_Endpoint x) (os_Bucket x) (os_Region x) (os_AccessKeyID x) v (os_UsePathStyle x));
    json_field "usePathStyle" os_UsePathStyle (fun v x => mkObjectStorage (os_Endpoint x) (os_Bucket x) (os_Region x) (os_AccessKeyID x) (os_SecretAccessKey x) v)];
}.
#[export, refine] Instance ObjectStorageConfig_laws : JsonLaws ObjectStorageConfig := { valid x :=
  valid (os_Endpoint x) /\
  valid (os_Bucket x) /\
  valid (os_Region x) /\
  valid (os_AccessKeyID x) /\
  valid (os_SecretAccessKey x) }.
Proof. solve_json. Defined.

(* go: internal/workerapi/snapshot.go CreateSnapshotRequest *)
#[export] Instance CreateSnapshotRequest_json : Json CreateSnapshotRequest := {
  zero := mkCreateSnapshot 0 zero zero zero zero zero zero;
  enc x := JObj ([("slotID", JInt (cq_SlotID x)); ("identity", enc (cq_Identity x)); ("storagePath", enc (cq_StoragePath x)); ("storage", enc (cq_Storage x)); ("runtime", enc (cq_Runtime x))] ++
    omitempty (bool_decide (cq_Pool x = "")) "pool" (enc (cq_Pool x)) ++
    [("container", enc (cq_Container x))]);
  dec := dec_struct [
    int_field 32 "slotID" cq_SlotID (fun v x => mkCreateSnapshot v (cq_Identity x) (cq_StoragePath x) (cq_Storage x) (cq_Runtime x) (cq_Pool x) (cq_Container x));
    json_field "identity" cq_Identity (fun v x => mkCreateSnapshot (cq_SlotID x) v (cq_StoragePath x) (cq_Storage x) (cq_Runtime x) (cq_Pool x) (cq_Container x));
    json_field "storagePath" cq_StoragePath (fun v x => mkCreateSnapshot (cq_SlotID x) (cq_Identity x) v (cq_Storage x) (cq_Runtime x) (cq_Pool x) (cq_Container x));
    json_field "storage" cq_Storage (fun v x => mkCreateSnapshot (cq_SlotID x) (cq_Identity x) (cq_StoragePath x) v (cq_Runtime x) (cq_Pool x) (cq_Container x));
    json_field "runtime" cq_Runtime (fun v x => mkCreateSnapshot (cq_SlotID x) (cq_Identity x) (cq_StoragePath x) (cq_Storage x) v (cq_Pool x) (cq_Container x));
    json_field "pool" cq_Pool (fun v x => mkCreateSnapshot (cq_SlotID x) (cq_Identity x) (cq_StoragePath x) (cq_Storage x) (cq_Runtime x) v (cq_Container x));
    json_field "container" cq_Container (fun v x => mkCreateSnapshot (cq_SlotID x) (cq_Identity x) (cq_StoragePath x) (cq_Storage x) (cq_Runtime x) (cq_Pool x) v)];
}.
#[export, refine] Instance CreateSnapshotRequest_laws : JsonLaws CreateSnapshotRequest := { valid x :=
  in_int32 (cq_SlotID x) /\
  valid (cq_Identity x) /\
  valid (cq_StoragePath x) /\
  valid (cq_Storage x) /\
  valid (cq_Runtime x) /\
  valid (cq_Pool x) /\
  valid (cq_Container x) }.
Proof. solve_json. Defined.

(* go: internal/workerapi/snapshot.go CreateSnapshotResult *)
#[export] Instance CreateSnapshotResult_json : Json CreateSnapshotResult := {
  zero := mkSnapshotResult zero zero zero 0 zero zero;
  enc x := JObj ([("storagePath", enc (cs_StoragePath x)); ("snapshotFiles", enc (cs_SnapshotFiles x))] ++
    omitempty (bool_decide (cs_Digest x = "")) "digest" (enc (cs_Digest x)) ++
    [("sizeBytes", JInt (cs_SizeBytes x)); ("formatVersion", enc (cs_FormatVersion x)); ("runtime", enc (cs_Runtime x))]);
  dec := dec_struct [
    json_field "storagePath" cs_StoragePath (fun v x => mkSnapshotResult v (cs_SnapshotFiles x) (cs_Digest x) (cs_SizeBytes x) (cs_FormatVersion x) (cs_Runtime x));
    json_field "snapshotFiles" cs_SnapshotFiles (fun v x => mkSnapshotResult (cs_StoragePath x) v (cs_Digest x) (cs_SizeBytes x) (cs_FormatVersion x) (cs_Runtime x));
    json_field "digest" cs_Digest (fun v x => mkSnapshotResult (cs_StoragePath x) (cs_SnapshotFiles x) v (cs_SizeBytes x) (cs_FormatVersion x) (cs_Runtime x));
    int_field 64 "sizeBytes" cs_SizeBytes (fun v x => mkSnapshotResult (cs_StoragePath x) (cs_SnapshotFiles x) (cs_Digest x) v (cs_FormatVersion x) (cs_Runtime x));
    json_field "formatVersion" cs_FormatVersion (fun v x => mkSnapshotResult (cs_StoragePath x) (cs_SnapshotFiles x) (cs_Digest x) (cs_SizeBytes x) v (cs_Runtime x));
    json_field "runtime" cs_Runtime (fun v x => mkSnapshotResult (cs_StoragePath x) (cs_SnapshotFiles x) (cs_Digest x) (cs_SizeBytes x) (cs_FormatVersion x) v)];
}.
#[export, refine] Instance CreateSnapshotResult_laws : JsonLaws CreateSnapshotResult := { valid x :=
  valid (cs_StoragePath x) /\
  valid (cs_SnapshotFiles x) /\
  valid (cs_Digest x) /\
  in_int64 (cs_SizeBytes x) /\
  valid (cs_FormatVersion x) /\
  valid (cs_Runtime x) }.
Proof. solve_json. Defined.

(* go: internal/workerapi/snapshot.go RestoreFromSnapshotRequest *)
#[export] Instance RestoreFromSnapshotRequest_json : Json RestoreFromSnapshotRequest := {
  zero := mkRestore 0 zero zero zero zero;
  enc x := JObj [("slotID", JInt (rs_SlotID x));
    ("identity", enc (rs_Identity x));
    ("storagePath", enc (rs_StoragePath x));
    ("storage", enc (rs_Storage x));
    ("runtime", enc (rs_Runtime x))];
  dec := dec_struct [
    int_field 32 "slotID" rs_SlotID (fun v x => mkRestore v (rs_Identity x) (rs_StoragePath x) (rs_Storage x) (rs_Runtime x));
    json_field "identity" rs_Identity (fun v x => mkRestore (rs_SlotID x) v (rs_StoragePath x) (rs_Storage x) (rs_Runtime x));
    json_field "storagePath" rs_StoragePath (fun v x => mkRestore (rs_SlotID x) (rs_Identity x) v (rs_Storage x) (rs_Runtime x));
    json_field "storage" rs_Storage (fun v x => mkRestore (rs_SlotID x) (rs_Identity x) (rs_StoragePath x) v (rs_Runtime x));
    json_field "runtime" rs_Runtime (fun v x => mkRestore (rs_SlotID x) (rs_Identity x) (rs_StoragePath x) (rs_Storage x) v)];
}.
#[export, refine] Instance RestoreFromSnapshotRequest_laws : JsonLaws RestoreFromSnapshotRequest := { valid x :=
  in_int32 (rs_SlotID x) /\
  valid (rs_Identity x) /\
  valid (rs_StoragePath x) /\
  valid (rs_Storage x) /\
  valid (rs_Runtime x) }.
Proof. solve_json. Defined.

(* go: internal/workerapi/snapshot.go DeleteSnapshotObjectsRequest *)
#[export] Instance DeleteSnapshotObjectsRequest_json : Json DeleteSnapshotObjectsRequest := {
  zero := mkDeleteObjects zero zero zero;
  enc x := JObj ([("storagePath", enc (do_StoragePath x))] ++
    omitempty (bool_decide (do_SnapshotFiles x = [])) "snapshotFiles" (enc (do_SnapshotFiles x)) ++
    [("storage", enc (do_Storage x))]);
  dec := dec_struct [
    json_field "storagePath" do_StoragePath (fun v x => mkDeleteObjects v (do_SnapshotFiles x) (do_Storage x));
    json_field "snapshotFiles" do_SnapshotFiles (fun v x => mkDeleteObjects (do_StoragePath x) v (do_Storage x));
    json_field "storage" do_Storage (fun v x => mkDeleteObjects (do_StoragePath x) (do_SnapshotFiles x) v)];
}.
#[export, refine] Instance DeleteSnapshotObjectsRequest_laws : JsonLaws DeleteSnapshotObjectsRequest := { valid x :=
  valid (do_StoragePath x) /\
  valid (do_SnapshotFiles x) /\
  valid (do_Storage x) }.
Proof. solve_json. Defined.

(* go: internal/slot/slot.go Info *)
#[export] Instance Info_json : Json Info := {
  zero := mkInfo 0 zero zero zero;
  enc x := JObj ([("id", JInt (info_ID x))] ++
    omitempty (bool_decide (info_Profile x = "")) "profile" (enc (info_Profile x)) ++
    [("state", enc (info_State x))] ++
    omitempty (bool_decide (info_SandboxUID x = "")) "sandboxUID" (enc (info_SandboxUID x)));
  dec := dec_struct [
    int_field 32 "id" info_ID (fun v x => mkInfo v (info_Profile x) (info_State x) (info_SandboxUID x));
    json_field "profile" info_Profile (fun v x => mkInfo (info_ID x) v (info_State x) (info_SandboxUID x));
    json_field "state" info_State (fun v x => mkInfo (info_ID x) (info_Profile x) v (info_SandboxUID x));
    json_field "sandboxUID" info_SandboxUID (fun v x => mkInfo (info_ID x) (info_Profile x) (info_State x) v)];
}.
#[export, refine] Instance Info_laws : JsonLaws Info := { valid x :=
  in_int32 (info_ID x) /\
  valid (info_Profile x) /\
  valid (info_State x) /\
  valid (info_SandboxUID x) }.
Proof. solve_json. Defined.

(* go: internal/slot/config.go Config *)
#[export] Instance Config_json : Json Config := {
  zero := mkConfig 0 zero zero;
  enc x := JObj [("id", JInt (cfg_ID x));
    ("profile", enc (cfg_Profile x));
    ("resources", enc (cfg_Resources x))];
  dec := dec_struct [
    int_field 32 "id" cfg_ID (fun v x => mkConfig v (cfg_Profile x) (cfg_Resources x));
    json_field "profile" cfg_Profile (fun v x => mkConfig (cfg_ID x) v (cfg_Resources x));
    json_field "resources" cfg_Resources (fun v x => mkConfig (cfg_ID x) (cfg_Profile x) v)];
}.
#[export, refine] Instance Config_laws : JsonLaws Config := { valid x :=
  in_int32 (cfg_ID x) /\
  valid (cfg_Profile x) /\
  valid (cfg_Resources x) }.
Proof. solve_json. Defined.
End Wire.
