(* ===== verification/WorkerServer.v ===== *)
(** * The Worker's HTTP server (internal/worker/httpapi/server.go)

    Every handler of [NewServer], over the [Manager] interface the server is given: the calls
    of that interface are the effects of a handler. A body is kept as what it denotes to its
    reader (a JSON document, bytes, the parts of a form), and net/http's own behaviour that
    matters here is written out: how [ServeMux] picks a handler, how [FormFile] finds an
    upload and names it. *)

From S2P Require Import Prelude Prog Strings Slot Runtime Api Url Json ApiJson.

(** ** HTTP *)

(** One part of a multipart form; a part without a file name is a plain value. *)
Record FormPart := mkPart {
  part_Name : string;
  part_FileName : string;
  part_Content : string;
}.

(** [BrokenBody] fails while it is read. *)
Inductive Body :=
  | NoBody
  | JsonBody (j : json)
  | RawBody (data : string)
  | FormBody (parts : list FormPart)
  | BrokenBody (e : error).

(** [rq_Path] is the decoded path, [rq_RawQuery] what follows the question mark. *)
Record HttpRequest := mkRequest {
  rq_Method : string;
  rq_Path : string;
  rq_RawQuery : string;
  rq_Body : Body;
}.

Record HttpResponse := mkResponse {
  rp_StatusCode : Z;
  rp_Body : Body;
}.

Definition StatusOK : Z := 200.
Definition StatusNoContent : Z := 204.
Definition StatusTemporaryRedirect : Z := 307.
Definition StatusBadRequest : Z := 400.
Definition StatusNotFound : Z := 404.
Definition StatusMethodNotAllowed : Z := 405.
Definition StatusConflict : Z := 409.
Definition StatusUnprocessableEntity : Z := 422.
Definition StatusTooManyRequests : Z := 429.
Definition StatusInternalServerError : Z := 500.
Definition StatusServiceUnavailable : Z := 503.

Definition body_json (b : Body) : option json :=
  match b with JsonBody j => Some j | _ => None end.

(** [ParseMultipartForm] followed by [FormFile(field)]: the first part of that name that has a
    file name; [None] for the error of either call is [Err]'s text. [Part.FileName] keeps only
    the last element of the name the client sent. *)
Definition FileName (p : FormPart) : string :=
  if bool_decide (part_FileName p = "") then "" else path_Base (part_FileName p).

Definition FormFile (field : string) (parts : list FormPart) : option FormPart :=
  List.find (fun p => bool_decide (part_Name p = field) && negb (bool_decide (FileName p = ""))) parts.

(** ** The Manager interface *)

Section Server.
Context {QA : QuantityApi} {KJ : K8sJson QA}.

(* go: internal/worker/httpapi/server.go Manager *)
Inductive ManagerE :=
  | MReserveSlot (ref : SandboxSlotRef)
  | MStartSandbox (req : StartSandboxRequest)
  | MStopSandbox (ref : SandboxSlotRef)
  | MReleaseSlot (ref : SandboxSlotRef)
  | MGetSandbox (ref : SandboxSlotRef)
  | MExecSandbox (req : ExecSandboxRequest)
  | MCreateSnapshot (req : CreateSnapshotRequest)
  | MRestoreFromSnapshot (req : RestoreFromSnapshotRequest)
  | MDeleteSnapshotObjects (req : DeleteSnapshotObjectsRequest)
  | MExistsSandboxFile (req : SandboxFileRequest)
  | MListSandboxFiles (req : SandboxFileRequest)
  | MReadSandboxFile (req : SandboxFileRequest)
  | MWriteSandboxFile (req : SandboxFileRequest) (content : string)
  | MListSlots
  | MApplySlots (configs : list Config).

#[export] Instance ManagerE_effect : Effect ManagerE := fun e =>
  match e with
  | MReserveSlot _ | MStartSandbox _ | MStopSandbox _ | MReleaseSlot _ => option error
  | MGetSandbox _ => result SandboxInfo
  | MExecSandbox _ => result ExecResult
  | MCreateSnapshot _ => result CreateSnapshotResult
  | MRestoreFromSnapshot _ | MDeleteSnapshotObjects _ => option error
  | MExistsSandboxFile _ => result bool
  | MListSandboxFiles _ => result (list FileEntry)
  | MReadSandboxFile _ => result string
  | MWriteSandboxFile _ _ => option error
  | MListSlots => list Info
  | MApplySlots _ => option error
  end.

(** ** Responses *)

(* go: internal/worker/httpapi/server.go errorResponse *)
Record errorResponse := mkErrorResponse {
  err_Code : string;
  err_Message : string;
}.

#[export] Instance errorResponse_json : Json errorResponse := {
  zero := mkErrorResponse zero zero;
  enc x := JObj [("code", enc (err_Code x)); ("message", enc (err_Message x))];
  dec := dec_struct [
    json_field "code" err_Code (fun v x => mkErrorResponse v (err_Message x));
    json_field "message" err_Message (fun v x => mkErrorResponse (err_Code x) v)];
}.
#[export, refine] Instance errorResponse_laws : JsonLaws errorResponse := { valid x :=
  valid (err_Code x) /\ valid (err_Message x) }.
Proof. solve_json. Defined.

(** The values the handlers write always encode, so the branch for [json.Marshal]'s error is
    never taken. *)
(* go: internal/worker/httpapi/server.go writeJSON *)
Definition writeJSON `{Json T} (status : Z) (value : T) : HttpResponse :=
  mkResponse status (JsonBody (enc value)).

(* go: internal/worker/httpapi/server.go writeError *)
Definition writeError (status : Z) (code message : string) : HttpResponse :=
  writeJSON status (mkErrorResponse code message).

(* go: internal/worker/httpapi/server.go writeManagerError *)
Definition writeManagerError (err : error) : HttpResponse :=
  if errors_Is err ErrInvalidRequest || errors_Is err ErrSlotConfigInvalid then
    writeError StatusBadRequest "InvalidRequest" (error_text err)
  else if errors_Is err ErrSnapshotLoad then
    writeError StatusUnprocessableEntity "SnapshotLoadFailed" (error_text err)
  else if errors_Is err ErrSlotNotFound || errors_Is err ErrSandboxNotFound then
    writeError StatusNotFound "SandboxNotFound" (error_text err)
  else if errors_Is err ErrSlotConflict then
    writeError StatusConflict "SlotConflict" (error_text err)
  else writeError StatusInternalServerError "RuntimeError" (error_text err).

Definition invalid (message : string) : HttpResponse :=
  writeError StatusBadRequest "InvalidRequest" message.
Definition no_content : HttpResponse := mkResponse StatusNoContent NoBody.

(** ** Requests *)

(** Each check of a request gives the value it reads, or the response that rejects it. *)
Definition checked (A : Type) : Type := A + HttpResponse.
#[local] Instance checked_bind : MBind checked := fun A B f r =>
  match r with inl a => f a | inr resp => inr resp end.

(* go: internal/worker/httpapi/server.go decodeRequest *)
Definition decodeRequest {T} `{Json T} (r : HttpRequest) : checked T :=
  match j ← body_json (rq_Body r); decode j with
  | Some target => inl target
  | None => inr (invalid "request body is not valid JSON")
  end.

(* go: internal/worker/httpapi/server.go pathSlotID *)
Definition pathSlotID (slotID : string) : checked Z :=
  match ParseInt slotID 32 with
  | Some value => if (value <? 0)%Z then inr (invalid "slotID must be a non-negative integer")
                  else inl value
  | None => inr (invalid "slotID must be a non-negative integer")
  end.

(* go: internal/worker/httpapi/server.go matchSlotID *)
Definition matchSlotID (slotID : string) (requestSlotID : Z) : checked unit :=
  pathID ← pathSlotID slotID;
  if bool_decide (pathID = requestSlotID) then inl tt
  else inr (invalid "path slotID does not match request slotID").

Definition query_identity (r : HttpRequest) : SandboxIdentity :=
  let q := ParseQuery (rq_RawQuery r) in
  mkIdentity (Get q "namespace") (Get q "name") (Get q "uid").

(* go: internal/worker/httpapi/server.go fileRequestFromQuery *)
Definition fileRequestFromQuery (slotID : string) (r : HttpRequest) : checked SandboxFileRequest :=
  id ← pathSlotID slotID;
  let pathValue := Get (ParseQuery (rq_RawQuery r)) "path" in
  if bool_decide (pathValue = "") then inr (invalid "path query parameter is required")
  else inl (mkFileRequest id (query_identity r) pathValue).

(** [io.ReadAll] of the upload, one byte past the limit at most. *)
(* go: internal/worker/httpapi/server.go readUpload *)
Definition readUpload (file : string) (limit : Z) : result string :=
  let data := take_bytes (Z.to_nat (limit + 1)) file in
  if (limit <? len data)%Z then Err (Plain "uploaded file exceeds size limit") else Ok data.

(** A body of the request and the path's Slot: what the JSON handlers of a Slot start with. *)
Definition slot_request {T} `{Json T} (slot_of : T -> Z) (slotID : string) (r : HttpRequest) : checked T :=
  req ← decodeRequest r; _ ← matchSlotID slotID (slot_of req); inl req.

(** ** Handlers *)

Definition handler : Type := string -> HttpRequest -> prog ManagerE HttpResponse.

(** Run the rest of a handler on a checked request. *)
Definition on_valid {A} (c : checked A) (k : A -> prog ManagerE HttpResponse) : prog ManagerE HttpResponse :=
  match c with inl a => k a | inr resp => Ret resp end.

(** The two ways a handler answers with what the Manager returned. *)
Definition reply_error (err : option error) : HttpResponse :=
  match err with Some e => writeManagerError e | None => no_content end.
Definition reply_value `{Json T} (r : result T) : HttpResponse :=
  match r with Err e => writeManagerError e | Ok value => writeJSON StatusOK value end.

(* go: internal/worker/httpapi/server.go Server.health *)
Definition health : handler := fun _ _ => Ret no_content.

(* go: internal/worker/httpapi/server.go Server.putTopology *)
Definition putTopology : handler := fun _ r =>
  on_valid (decodeRequest r) (fun configs =>
    err ← trigger (MApplySlots configs); mret (reply_error err)).

(* go: internal/worker/httpapi/server.go Server.listSlots *)
Definition listSlots : handler := fun _ _ =>
  slots ← trigger MListSlots; mret (writeJSON StatusOK (slots : list Info)).

(* go: internal/worker/httpapi/server.go Server.getSandbox *)
Definition getSandbox : handler := fun slotID r =>
  on_valid (pathSlotID slotID) (fun id =>
    info ← trigger (MGetSandbox (mkRef id (query_identity r)));
    mret (reply_value (info : result SandboxInfo))).

(* go: internal/worker/httpapi/server.go Server.reserveSlot *)
Definition reserveSlot : handler := fun slotID r =>
  on_valid (slot_request ref_SlotID slotID r) (fun ref =>
    err ← trigger (MReserveSlot ref); mret (reply_error err)).

(* go: internal/worker/httpapi/server.go Server.startSandbox *)
Definition startSandbox : handler := fun slotID r =>
  on_valid (slot_request sr_SlotID slotID r) (fun req =>
    err ← trigger (MStartSandbox req); mret (reply_error err)).

(* go: internal/worker/httpapi/server.go Server.stopSandbox *)
Definition stopSandbox : handler := fun slotID r =>
  on_valid (slot_request ref_SlotID slotID r) (fun ref =>
    err ← trigger (MStopSandbox ref); mret (reply_error err)).

(* go: internal/worker/httpapi/server.go Server.releaseSlot *)
Definition releaseSlot : handler := fun slotID r =>
  on_valid (slot_request ref_SlotID slotID r) (fun ref =>
    err ← trigger (MReleaseSlot ref); mret (reply_error err)).

(* go: internal/worker/httpapi/server.go Server.execSandbox *)
Definition execSandbox : handler := fun slotID r =>
  on_valid (slot_request er_SlotID slotID r) (fun req =>
    result ← trigger (MExecSandbox req); mret (reply_value (result : Prelude.result ExecResult))).

(* go: internal/worker/httpapi/server.go Server.createSnapshot *)
Definition createSnapshot : handler := fun slotID r =>
  on_valid (slot_request cq_SlotID slotID r) (fun req =>
    result ← trigger (MCreateSnapshot req);
    mret (reply_value (result : Prelude.result CreateSnapshotResult))).

(* go: internal/worker/httpapi/server.go Server.restoreFromSnapshot *)
Definition restoreFromSnapshot : handler := fun slotID r =>
  on_valid (slot_request rs_SlotID slotID r) (fun req =>
    err ← trigger (MRestoreFromSnapshot req); mret (reply_error err)).

(* go: internal/worker/httpapi/server.go Server.deleteSnapshotObjects *)
Definition deleteSnapshotObjects : handler := fun _ r =>
  on_valid (decodeRequest r) (fun req =>
    err ← trigger (MDeleteSnapshotObjects req); mret (reply_error err)).

(** The JSON object [{"exists": b}]. *)
Record existsResponse := mkExists { ex_Exists : bool }.
#[export] Instance existsResponse_json : Json existsResponse := {
  zero := mkExists false;
  enc x := JObj [("exists", enc (ex_Exists x))];
  dec := dec_struct [json_field "exists" ex_Exists (fun v _ => mkExists v)];
}.

(* go: internal/worker/httpapi/server.go Server.fileExists *)
Definition fileExists : handler := fun slotID r =>
  on_valid (fileRequestFromQuery slotID r) (fun req =>
    exists_ ← trigger (MExistsSandboxFile req);
    mret (reply_value (mkExists <$> (exists_ : Prelude.result bool)))).

(* go: internal/worker/httpapi/server.go Server.listFiles *)
Definition listFiles : handler := fun slotID r =>
  on_valid (fileRequestFromQuery slotID r) (fun req =>
    entries ← trigger (MListSandboxFiles req);
    mret (reply_value (entries : Prelude.result (list FileEntry)))).

(* go: internal/worker/httpapi/server.go Server.readFile *)
Definition readFile : handler := fun slotID r =>
  on_valid (fileRequestFromQuery slotID r) (fun req =>
    data ← trigger (MReadSandboxFile req);
    mret (match (data : Prelude.result string) with
          | Err e => writeManagerError e
          | Ok data => mkResponse StatusOK (RawBody data)
          end)).

(* go: internal/worker/httpapi/server.go 253-269 Server.writeFile *)
Definition uploaded (r : HttpRequest) : checked FormPart :=
  match rq_Body r with
  | FormBody parts =>
      match FormFile "file" parts with
      | Some part => inl part
      | None => inr (invalid ("multipart field " +:+ quote "file" +:+ " is required"))
      end
  | _ => inr (invalid "multipart form is required")
  end.

(* go: internal/worker/httpapi/server.go Server.writeFile *)
Definition writeFile : handler := fun slotID r =>
  on_valid (pathSlotID slotID) (fun id =>
  on_valid (uploaded r) (fun part =>
    match readUpload (part_Content part) MaxFileBytes with
    | Err e => Ret (invalid (error_text e))
    | Ok content =>
        if bool_decide (FileName part = "") then Ret (invalid "upload filename is required")
        else
          err ← trigger (MWriteSandboxFile (mkFileRequest id (query_identity r) (FileName part)) content);
          mret (reply_error err)
    end)).

(** ** Routing *)

(* go: internal/worker/httpapi/server.go 35-55 NewServer *)
Definition routes : list (string * handler) := [
  ("GET /healthz", health);
  ("PUT /v1/topology", putTopology);
  ("GET /v1/slots", listSlots);
  ("GET /v1/slots/{slotID}", getSandbox);
  ("POST /v1/slots/{slotID}/reserve", reserveSlot);
  ("POST /v1/slots/{slotID}/start", startSandbox);
  ("POST /v1/slots/{slotID}/stop", stopSandbox);
  ("POST /v1/slots/{slotID}/release", releaseSlot);
  ("POST /v1/slots/{slotID}/exec", execSandbox);
  ("POST /v1/slots/{slotID}/createSnapshot", createSnapshot);
  ("POST /v1/slots/{slotID}/restoreFromSnapshot", restoreFromSnapshot);
  ("POST /v1/snapshots/delete", deleteSnapshotObjects);
  ("GET /v1/slots/{slotID}/files/exists", fileExists);
  ("GET /v1/slots/{slotID}/files/list", listFiles);
  ("GET /v1/slots/{slotID}/files/content", readFile);
  ("POST /v1/slots/{slotID}/files/upload", writeFile)].

(** A pattern's segments against a path's: a literal matches itself, the wildcard any segment
    that is not empty. The answer is the wildcard's value, empty when there is none. *)
Fixpoint match_segments (pattern path : list string) (value : string) : option string :=
  match pattern, path with
  | [], [] => Some value
  | p :: pattern', s :: path' =>
      if bool_decide (p = "{slotID}") then
        if bool_decide (s = "") then None else match_segments pattern' path' s
      else if bool_decide (p = s) then match_segments pattern' path' value
      else None
  | _, _ => None
  end.

(** GET patterns serve HEAD requests too. *)
Definition method_matches (pattern method : string) : bool :=
  bool_decide (pattern = method) ||
  (bool_decide (pattern = "GET") && bool_decide (method = "HEAD")).

Definition match_route (path : list string) (route : string * handler) : option (string * string * handler) :=
  '(method, pattern) ← Cut " "%char route.1;
  value ← match_segments (Split slash pattern) path "";
  Some (method, value, route.2).

(** The path [ServeMux] serves: cleaned, but for a final slash. *)
Definition cleanPath (p : string) : string :=
  let p := if HasPrefix p "/" then p else "/" +:+ p in
  let np := Clean p in
  if HasSuffix p "/" && negb (bool_decide (np = "/")) then np +:+ "/" else np.

(** The patterns of [routes] exclude one another, so their order does not matter. *)
Definition matching_routes (path : list string) : list (string * string * handler) :=
  omap (match_route path) routes.

Definition find_route (method : string) (path : list string) : option (string * handler) :=
  '(_, value, h) ← List.find (fun m => method_matches m.1.1 method) (matching_routes path);
  Some (value, h).

(** What [ServeMux] does with a request: redirect a path that is not clean, serve the route
    that matches, and answer 405 or 404 when only the method, or nothing, fails to match. *)
Definition ServeHTTP (r : HttpRequest) : prog ManagerE HttpResponse :=
  if negb (bool_decide (cleanPath (rq_Path r) = rq_Path r)) then Ret (mkResponse StatusTemporaryRedirect NoBody)
  else
    let path := Split slash (rq_Path r) in
    match find_route (rq_Method r) path with
    | Some (value, h) => h value r
    | None =>
        Ret (match matching_routes path with
             | [] => mkResponse StatusNotFound (RawBody ("404 page not found" +:+ nl))
             | _ => mkResponse StatusMethodNotAllowed (RawBody ("Method Not Allowed" +:+ nl))
             end)
    end.
End Server.
