(* ===== verification/WorkerClient.v ===== *)
(** * The Worker's HTTP client (internal/worker/httpapi/client.go)

    The calls the controllers and the SDK make to a Worker. The one effect is an HTTP request;
    its answer is arbitrary: the request may not build, the call may fail, the response may
    carry any status and any body. *)

From S2P Require Import Prelude Prog Strings Slot Runtime Api Url Json ApiJson WorkerServer.

(** What [http.NewRequest] and [Client.Do] give: the response with its status line. *)
Inductive HttpAnswer :=
  | BuildFailed (e : error)
  | CallFailed (e : error)
  | Answered (statusLine : string) (response : HttpResponse).

Inductive HttpE := HttpDo (method url : string) (body : Body).
#[export] Instance HttpE_effect : Effect HttpE := fun _ => HttpAnswer.

Section Client.
Context {QA : QuantityApi} {KJ : K8sJson QA}.

(** ** Errors *)

(** [*Error] is [WorkerAPIError]; its [Error] method is a branch of [error_text]. *)
(* go: internal/worker/httpapi/client.go Error.Retryable *)
Definition Retryable (statusCode : Z) : bool :=
  bool_decide (statusCode = StatusTooManyRequests) ||
  bool_decide (statusCode = StatusInternalServerError) ||
  bool_decide (statusCode = StatusServiceUnavailable).

Definition is_2xx (response : HttpResponse) : bool :=
  (200 <=? rp_StatusCode response)%Z && (rp_StatusCode response <? 300)%Z.

(** The error a response other than 2xx stands for: what its JSON body says, or its status line
    when the body is not an error document. *)
(* go: internal/worker/httpapi/client.go 209-215 Client.do *)
Definition response_error (statusLine : string) (response : HttpResponse) : error :=
  let details := default (mkErrorResponse "" statusLine) (j ← body_json (rp_Body response); decode j) in
  WorkerAPIError (rp_StatusCode response) (err_Code details) (err_Message details).

(** ** Requests *)

(** What a call makes of the answer to its request. *)
(* go: internal/worker/httpapi/client.go 202-224 Client.do *)
Definition do_answer {T} `{Json T} (want : bool) (answer : HttpAnswer) : result T :=
  match answer with
  | BuildFailed e => Err (wrap_prefix "build worker request" e)
  | CallFailed e => Err (wrap_prefix "call worker API" e)
  | Answered line response =>
      if negb (is_2xx response) then Err (response_error line response)
      else if negb want || bool_decide (rp_StatusCode response = StatusNoContent) then Ok zero
      else match j ← body_json (rp_Body response); decode j with
           | Some result => Ok result
           | None => Err (Plain "decode worker response")
           end
  end.

(** [json.Marshal] of a request cannot fail: no request type holds a value JSON lacks. A call
    that does not want a result gives the zero value. *)
(* go: internal/worker/httpapi/client.go Client.do *)
Definition do {T} `{Json T} (method requestURL : string) (body : option json) (want : bool) : prog HttpE (result T) :=
  answer ← trigger (HttpDo method requestURL (from_option JsonBody NoBody body));
  mret (do_answer want answer).

(** A call made for its error. *)
Definition do_error (method requestURL : string) (body : option json) : prog HttpE (option error) :=
  r ← do (T := string) method requestURL body false;
  mret (match r with Ok _ => None | Err e => Some e end).

(* go: internal/worker/httpapi/client.go slotURL *)
Definition slotURL (endpoint : string) (slotID : Z) (action : string) : string :=
  let result := TrimRight slash endpoint +:+ "/v1/slots/" +:+ itoa slotID in
  if bool_decide (action = "") then result else result +:+ "/" +:+ action.

Definition identity_values (i : SandboxIdentity) : list (string * string) :=
  [("namespace", id_Namespace i); ("name", id_Name i); ("uid", id_UID i)].

(* go: internal/worker/httpapi/client.go fileURL *)
Definition fileURL (endpoint : string) (slotID : Z) (action : string) (req : SandboxFileRequest) : string :=
  let query := identity_values (fr_Identity req) ++
    (if bool_decide (action = "upload") then [] else [("path", fr_Path req)]) in
  TrimRight slash endpoint +:+ "/v1/slots/" +:+ itoa slotID +:+ "/files/" +:+ action +:+ "?" +:+ Encode query.

(** ** Operations *)

(* go: internal/worker/httpapi/client.go Client.Health *)
Definition Health (endpoint : string) : prog HttpE (option error) :=
  do_error "GET" (TrimRight slash endpoint +:+ "/healthz") None.

(* go: internal/worker/httpapi/client.go Client.ListSlots *)
Definition ListSlots (endpoint : string) : prog HttpE (result (list Info)) :=
  do "GET" (TrimRight slash endpoint +:+ "/v1/slots") None true.

(* go: internal/worker/httpapi/client.go Client.ApplyTopology *)
Definition ApplyTopology (endpoint : string) (configs : list Config) : prog HttpE (option error) :=
  do_error "PUT" (TrimRight slash endpoint +:+ "/v1/topology") (Some (enc configs)).

(* go: internal/worker/httpapi/client.go Client.ReserveSlot *)
Definition ReserveSlot (endpoint : string) (ref : SandboxSlotRef) : prog HttpE (option error) :=
  do_error "POST" (slotURL endpoint (ref_SlotID ref) "reserve") (Some (enc ref)).

(* go: internal/worker/httpapi/client.go Client.StartSandbox *)
Definition StartSandbox (endpoint : string) (req : StartSandboxRequest) : prog HttpE (option error) :=
  do_error "POST" (slotURL endpoint (sr_SlotID req) "start") (Some (enc req)).

(* go: internal/worker/httpapi/client.go Client.StopSandbox *)
Definition StopSandbox (endpoint : string) (ref : SandboxSlotRef) : prog HttpE (option error) :=
  do_error "POST" (slotURL endpoint (ref_SlotID ref) "stop") (Some (enc ref)).

(* go: internal/worker/httpapi/client.go Client.ReleaseSlot *)
Definition ReleaseSlot (endpoint : string) (ref : SandboxSlotRef) : prog HttpE (option error) :=
  do_error "POST" (slotURL endpoint (ref_SlotID ref) "release") (Some (enc ref)).

(* go: internal/worker/httpapi/client.go Client.ExecSandbox *)
Definition ExecSandbox (endpoint : string) (req : ExecSandboxRequest) : prog HttpE (result ExecResult) :=
  do "POST" (slotURL endpoint (er_SlotID req) "exec") (Some (enc req)) true.

(* go: internal/worker/httpapi/client.go Client.CreateSnapshot *)
Definition CreateSnapshot (endpoint : string) (req : CreateSnapshotRequest) : prog HttpE (result CreateSnapshotResult) :=
  do "POST" (slotURL endpoint (cq_SlotID req) "createSnapshot") (Some (enc req)) true.

(* go: internal/worker/httpapi/client.go Client.RestoreFromSnapshot *)
Definition RestoreFromSnapshot (endpoint : string) (req : RestoreFromSnapshotRequest) : prog HttpE (option error) :=
  do_error "POST" (slotURL endpoint (rs_SlotID req) "restoreFromSnapshot") (Some (enc req)).

(* go: internal/worker/httpapi/client.go Client.DeleteSnapshotObjects *)
Definition DeleteSnapshotObjects (endpoint : string) (req : DeleteSnapshotObjectsRequest) : prog HttpE (option error) :=
  do_error "POST" (TrimRight slash endpoint +:+ "/v1/snapshots/delete") (Some (enc req)).

(* go: internal/worker/httpapi/client.go Client.ExistsSandboxFile *)
Definition ExistsSandboxFile (endpoint : string) (req : SandboxFileRequest) : prog HttpE (result bool) :=
  r ← do (T := existsResponse) "GET" (fileURL endpoint (fr_SlotID req) "exists" req) None true;
  mret (ex_Exists <$> (r : result existsResponse)).

(* go: internal/worker/httpapi/client.go Client.ListSandboxFiles *)
Definition ListSandboxFiles (endpoint : string) (req : SandboxFileRequest) : prog HttpE (result (list FileEntry)) :=
  do "GET" (fileURL endpoint (fr_SlotID req) "list" req) None true.

(** What reading a response body to its end gives. *)
Definition body_bytes (b : Body) : result string :=
  match b with
  | RawBody data => Ok data
  | JsonBody j => Ok (json_text j +:+ nl)
  | BrokenBody e => Err e
  | NoBody | FormBody _ => Ok ""
  end.

(* go: internal/worker/httpapi/client.go Client.ReadSandboxFile *)
Definition ReadSandboxFile (endpoint : string) (req : SandboxFileRequest) : prog HttpE (result string) :=
  answer ← trigger (HttpDo "GET" (fileURL endpoint (fr_SlotID req) "content" req) NoBody);
  mret (match answer : HttpAnswer with
        | BuildFailed e => Err (wrap_prefix "build worker request" e)
        | CallFailed e => Err (wrap_prefix "call worker API" e)
        | Answered line response =>
            if negb (is_2xx response) then Err (response_error line response)
            else match body_bytes (rp_Body response) with
                 | Err e => Err (wrap_prefix "read worker response" e)
                 | Ok all =>
                     let data := take_bytes (Z.to_nat (MaxFileBytes + 1)) all in
                     if (MaxFileBytes <? len data)%Z
                     then Err (Plain ("file exceeds " +:+ itoa MaxFileBytes +:+ " bytes"))
                     else Ok data
                 end
        end).

(** Writing the form to memory cannot fail. *)
(* go: internal/worker/httpapi/client.go Client.WriteSandboxFile *)
Definition WriteSandboxFile (endpoint : string) (req : SandboxFileRequest) (content : string) : prog HttpE (option error) :=
  answer ← trigger (HttpDo "POST" (fileURL endpoint (fr_SlotID req) "upload" req)
                      (FormBody [mkPart "file" (fr_Path req) content]));
  mret (match answer : HttpAnswer with
        | BuildFailed e => Some (wrap_prefix "build worker request" e)
        | CallFailed e => Some (wrap_prefix "call worker API" e)
        | Answered line response =>
            if negb (is_2xx response) then Some (response_error line response) else None
        end).

(* go: internal/worker/httpapi/client.go Client.GetSandbox *)
Definition GetSandbox (endpoint : string) (ref : SandboxSlotRef) : prog HttpE (result SandboxInfo) :=
  do "GET" (slotURL endpoint (ref_SlotID ref) "" +:+ "?" +:+ Encode (identity_values (ref_Identity ref))) None true.
End Client.
