(* ===== verification/WorkerHttp.v ===== *)
(** * Client and server of the Worker API together

    [remote] runs a client call against the server: the client's HTTP request is delivered to
    [ServeHTTP], and what is left are the calls of the Manager. A remote call is one call of
    the Manager with the caller's request; an error comes back with the status that decides
    whether the caller retries. *)

From S2P Require Import Prelude Prog Strings Slot Runtime Api Url Json ApiJson WorkerServer WorkerClient.

Section WorkerHttp.
Context {QA : QuantityApi} {KJ : K8sJson QA}.

(** ** Delivery *)

(** An HTTP request reaches the server at [endpoint]; any other host does not answer. *)
Definition transport (endpoint : string) (e : HttpE) : prog ManagerE (answer e) :=
  let '(HttpDo method url body) := e in
  let base := TrimRight slash endpoint in
  if HasPrefix url base then
    let rest := TrimPrefix url base in
    let '(path, query) := default (rest, "") (Cut "?"%char rest) in
    response ← ServeHTTP (mkRequest method path query body);
    mret (Answered (itoa (rp_StatusCode response)) response)
  else mret (CallFailed (Plain "no such host")).

Definition remote {A} (endpoint : string) (p : prog HttpE A) : prog ManagerE A :=
  interp (transport endpoint) p.

(** ** Routing *)

Definition path_of (segments : list string) : string := String slash (strings_Join segments "/").

Lemma serve_path method segments query body :
  segments <> [] -> Forall plain_component segments ->
  ServeHTTP (mkRequest method (path_of segments) query body) =
    match find_route method ("" :: segments) with
    | Some (value, h) => h value (mkRequest method (path_of segments) query body)
    | None =>
        Ret (match matching_routes ("" :: segments) with
             | [] => mkResponse StatusNotFound (RawBody ("404 page not found" +:+ nl))
             | _ => mkResponse StatusMethodNotAllowed (RawBody ("Method Not Allowed" +:+ nl))
             end)
    end.
Proof.
  intros Hne Hs. unfold ServeHTTP. cbn [rq_Path rq_Method].
  assert (Hsplit : Split slash (path_of segments) = "" :: segments).
  { unfold path_of. cbn [Split]. rewrite bool_decide_true by done. f_equal.
    apply Split_Join; [done|]. eapply Forall_impl; [exact Hs|]. by intros c (_ & _ & _ & Hc). }
  rewrite Hsplit. rewrite bool_decide_true; [done|].
  unfold cleanPath.
  assert (HasPrefix (path_of segments) "/" = true) as -> by apply (HasPrefix_app "/").
  assert (Clean (path_of segments) = path_of segments) as -> by by apply Clean_plain_absolute.
  destruct (HasSuffix (path_of segments) "/") eqn:Hsuf; [|done].
  exfalso. apply HasSuffix_true in Hsuf as [u Hu].
  rewrite Hu in Hsplit. change "/" with (String slash "") in Hsplit. rewrite Split_snoc in Hsplit.
  apply (f_equal last) in Hsplit. rewrite last_snoc, last_cons in Hsplit.
  destruct (last segments) as [x|] eqn:Hx; [|by apply last_None in Hx].
  simplify_eq. apply last_Some in Hx as [l ->]. apply Forall_app in Hs as [_ Hs].
  by apply Forall_cons in Hs as [[Hs _] _].
Qed.

(** The URL of a path on the Worker, with its query if it has one. *)
Definition url_of (endpoint : string) (segments : list string) (query : option string) : string :=
  TrimRight slash endpoint +:+ path_of segments +:+ from_option (String "?") "" query.

Lemma transport_url endpoint method segments query body :
  segments <> [] -> Forall plain_component segments ->
  Forall (fun s => has_char "?"%char s = false) segments ->
  transport endpoint (HttpDo method (url_of endpoint segments query) body) =
    (response ← ServeHTTP (mkRequest method (path_of segments) (default "" query) body);
     mret (Answered (itoa (rp_StatusCode response)) response)).
Proof.
  intros Hne Hs Hq. unfold transport, url_of. rewrite HasPrefix_app, TrimPrefix_app.
  assert (Hp : has_char "?"%char (path_of segments) = false).
  { unfold path_of. cbn [has_char]. rewrite bool_decide_false by done. cbn [orb].
    clear Hne Hs. induction Hq as [|s [|s' l] Hs Hq IH]; [done|done|].
    cbn [strings_Join] in *. rewrite !has_char_app, Hs. exact IH. }
  destruct query as [q|]; cbn [from_option].
  - assert (Cut "?"%char (path_of segments +:+ String "?" q) = Some (path_of segments, q)) as ->;
      [|done].
    by apply Cut_Some.
  - rewrite string_app_nil_r.
    assert (Cut "?"%char (path_of segments) = None) as ->; [|done].
    destruct (Cut _ _) as [[before after]|] eqn:Hc; [|done].
    apply Cut_Some in Hc as [Hc _]. rewrite Hc, has_char_app in Hp. simpl in Hp.
    by rewrite orb_true_r in Hp.
Qed.

(** A request the server has a route for runs that route's handler. *)
Lemma transport_route endpoint method segments query body value h :
  find_route method ("" :: segments) = Some (value, h) ->
  segments <> [] -> Forall plain_component segments ->
  Forall (fun s => has_char "?"%char s = false) segments ->
  transport endpoint (HttpDo method (url_of endpoint segments query) body) =
    (response ← h value (mkRequest method (path_of segments) (default "" query) body);
     mret (Answered (itoa (rp_StatusCode response)) response)).
Proof. intros Hf Hne Hs Hq. rewrite transport_url, serve_path by done. by rewrite Hf. Qed.

Lemma slot_segments n rest :
  (0 <= n)%Z -> Forall (fun s => bool_decide (plain_component s) && negb (has_char "?"%char s) = true) rest ->
  let segments := "v1" :: "slots" :: itoa n :: rest in
  Forall plain_component segments /\ Forall (fun s => has_char "?"%char s = false) segments.
Proof.
  intros Hn Hrest segments. destruct (itoa_nonneg n Hn) as (Hd & _).
  assert (Forall plain_component rest /\ Forall (fun s => has_char "?"%char s = false) rest) as [H1 H2].
  { split; (eapply Forall_impl; [exact Hrest|]); cbn; intros s [Hs%bool_decide_eq_true Hq]%andb_true_iff;
      [done|by apply negb_true_iff]. }
  assert (plain_component "v1" /\ plain_component "slots") as [Hv Hl] by by split_and!.
  unfold segments. rewrite !Forall_cons.
  split; [by eauto using itoa_plain|]. eauto using all_digits_no_char.
Qed.

(** ** The client's view of the Manager *)

Definition remote_answer (e : ManagerE) : Type :=
  match e with
  | MListSlots => result (list Info)
  | _ => answer e
  end.

(** The client call for each operation of the Manager. *)
Definition client_call (endpoint : string) (e : ManagerE) : prog HttpE (remote_answer e) :=
  match e as e0 return prog HttpE (remote_answer e0) with
  | MReserveSlot ref => ReserveSlot endpoint ref
  | MStartSandbox req => StartSandbox endpoint req
  | MStopSandbox ref => StopSandbox endpoint ref
  | MReleaseSlot ref => ReleaseSlot endpoint ref
  | MGetSandbox ref => GetSandbox endpoint ref
  | MExecSandbox req => ExecSandbox endpoint req
  | MCreateSnapshot req => CreateSnapshot endpoint req
  | MRestoreFromSnapshot req => RestoreFromSnapshot endpoint req
  | MDeleteSnapshotObjects req => DeleteSnapshotObjects endpoint req
  | MExistsSandboxFile req => ExistsSandboxFile endpoint req
  | MListSandboxFiles req => ListSandboxFiles endpoint req
  | MReadSandboxFile req => ReadSandboxFile endpoint req
  | MWriteSandboxFile req content => WriteSandboxFile endpoint req content
  | MListSlots => ListSlots endpoint
  | MApplySlots configs => ApplyTopology endpoint configs
  end.

(** The status and code of an error, as the Manager's errors are classified. *)
Definition error_class (e : error) : Z * string :=
  if errors_Is e ErrInvalidRequest || errors_Is e ErrSlotConfigInvalid then (StatusBadRequest, "InvalidRequest")
  else if errors_Is e ErrSnapshotLoad then (StatusUnprocessableEntity, "SnapshotLoadFailed")
  else if errors_Is e ErrSlotNotFound || errors_Is e ErrSandboxNotFound then (StatusNotFound, "SandboxNotFound")
  else if errors_Is e ErrSlotConflict then (StatusConflict, "SlotConflict")
  else (StatusInternalServerError, "RuntimeError").

Definition remote_error (e : error) : error :=
  WorkerAPIError (error_class e).1 (error_class e).2 (error_text e).

Definition remote_failure (r : option error) : option error := remote_error <$> r.
Definition remote_result {A} (r : result A) : result A :=
  match r with Ok a => Ok a | Err e => Err (remote_error e) end.

Definition client_view (e : ManagerE) : answer e -> remote_answer e :=
  match e as e0 return answer e0 -> remote_answer e0 with
  | MReserveSlot _ | MStartSandbox _ | MStopSandbox _ | MReleaseSlot _ | MRestoreFromSnapshot _
  | MDeleteSnapshotObjects _ | MWriteSandboxFile _ _ | MApplySlots _ => remote_failure
  | MGetSandbox _ | MExecSandbox _ | MCreateSnapshot _ | MExistsSandboxFile _
  | MListSandboxFiles _ | MReadSandboxFile _ => remote_result
  | MListSlots => Ok
  end.

(** ** What the wire carries *)

Definition slot_path_ok (id : Z) : Prop := (0 <= id <= int32_max)%Z.

(** A request reaches the Manager as it is when its strings are UTF-8, its Slot id is not
    negative and, for files, its path is not empty; an uploaded file needs a plain name and a
    size within the limit. *)
Definition sendable (e : ManagerE) : Prop :=
  match e with
  | MReserveSlot ref | MStopSandbox ref | MReleaseSlot ref => slot_path_ok (ref_SlotID ref) /\ valid ref
  | MStartSandbox req => slot_path_ok (sr_SlotID req) /\ valid req
  | MGetSandbox ref => slot_path_ok (ref_SlotID ref)
  | MExecSandbox req => slot_path_ok (er_SlotID req) /\ valid req
  | MCreateSnapshot req => slot_path_ok (cq_SlotID req) /\ valid req
  | MRestoreFromSnapshot req => slot_path_ok (rs_SlotID req) /\ valid req
  | MDeleteSnapshotObjects req => valid req
  | MExistsSandboxFile req | MListSandboxFiles req | MReadSandboxFile req =>
      slot_path_ok (fr_SlotID req) /\ fr_Path req <> ""
  | MWriteSandboxFile req content =>
      slot_path_ok (fr_SlotID req) /\ fr_Path req <> "" /\ path_Base (fr_Path req) = fr_Path req /\
      (len content <= MaxFileBytes)%Z
  | MListSlots => True
  | MApplySlots configs => valid configs
  end.

Definition failure_ok (r : option error) : Prop := forall e, r = Some e -> utf8 (error_text e).
Definition result_ok {A} (P : A -> Prop) (r : result A) : Prop :=
  match r with Ok a => P a | Err e => utf8 (error_text e) end.

(** The same for an answer: its strings are UTF-8, a file's content is within the limit. *)
Definition returnable (e : ManagerE) : answer e -> Prop :=
  match e as e0 return answer e0 -> Prop with
  | MReserveSlot _ | MStartSandbox _ | MStopSandbox _ | MReleaseSlot _ | MRestoreFromSnapshot _
  | MDeleteSnapshotObjects _ | MWriteSandboxFile _ _ | MApplySlots _ => failure_ok
  | MGetSandbox _ | MExecSandbox _ | MCreateSnapshot _ | MListSandboxFiles _ => result_ok valid
  | MExistsSandboxFile _ => result_ok (fun _ => True)
  | MReadSandboxFile _ => result_ok (fun data => (len data <= MaxFileBytes)%Z)
  | MListSlots => valid
  end.

(** ** One call, one answer *)

Lemma writeManagerError_class e :
  writeManagerError e = writeError (error_class e).1 (error_class e).2 (error_text e).
Proof.
  unfold writeManagerError, error_class.
  repeat match goal with |- context [if ?b then _ else _] => destruct b; [done|] end. done.
Qed.

Lemma error_class_code_utf8 e : utf8 (error_class e).2 /\ ~ (200 <= (error_class e).1 < 300)%Z.
Proof.
  unfold error_class.
  repeat match goal with |- context [if ?b then _ else _] => destruct b end;
    (split; [by vm_compute|]; intros [_ H%Z.ltb_lt]; by vm_compute in H).
Qed.

Lemma writeManagerError_fails e : is_2xx (writeManagerError e) = false.
Proof.
  rewrite writeManagerError_class. destruct (error_class_code_utf8 e) as [_ Hs]. unfold is_2xx. simpl. apply andb_false_iff.
  destruct (Z.leb_spec 200 (error_class e).1); [right|by left]. apply Z.ltb_ge. lia.
Qed.

(** The client reads the Manager's error back from the response. *)
Lemma response_error_class line e :
  utf8 (error_text e) ->
  is_2xx (writeManagerError e) = false /\ response_error line (writeManagerError e) = remote_error e.
Proof.
  intros Ht. split; [apply writeManagerError_fails|]. rewrite writeManagerError_class.
  destruct (error_class_code_utf8 e) as [Hc _].
  unfold response_error, remote_error. unfold writeError, writeJSON.
    cbn [rp_Body rp_StatusCode body_json mbind option_bind].
    unfold decode. by rewrite dec_enc by done.
Qed.

Lemma wp_remote {A} endpoint e (f : HttpAnswer -> A) Q tr :
  wp (transport endpoint e) (fun t a => Q t (f a)) tr ->
  wp (remote endpoint (bind (fun a => Ret (f a)) (trigger e))) Q tr.
Proof. intros H. unfold remote. simpl. by apply wp_bind. Qed.

(** What a caller gets back: the Manager's answer [a], for which [R] holds, seen through [view]
    when the wire can carry it. *)
Definition seen {A B} (R : trace ManagerE -> A -> Prop) (ok : A -> Prop) (view : A -> B)
    (t : trace ManagerE) (r : B) : Prop :=
  exists a, R t a /\ (ok a -> r = view a).

Lemma do_answer_error {T} `{Json T} want line e :
  utf8 (error_text e) -> do_answer (T := T) want (Answered line (writeManagerError e)) = Err (remote_error e).
Proof.
  intros Ht. destruct (response_error_class line e Ht) as [H2 He]. unfold do_answer.
  by rewrite H2, He.
Qed.

Lemma do_answer_value `{JsonLaws T} line (r : result T) :
  result_ok valid r -> do_answer true (Answered line (reply_value r)) = remote_result r.
Proof.
  destruct r as [a|e]; intros Hr; [|by apply do_answer_error].
  simpl. unfold decode. by rewrite dec_enc.
Qed.

Lemma pathSlotID_itoa n : slot_path_ok n -> pathSlotID (itoa n) = inl n.
Proof.
  unfold slot_path_ok, int32_max, pathSlotID. intros [Hn Hm]. rewrite ParseInt_itoa by lia.
  by rewrite (proj2 (Z.ltb_ge n 0)).
Qed.

(** A request about a Slot, with its id in the path, reaches the handler of its route. *)
Lemma wp_slot_route endpoint method n rest query body h (Q : trace ManagerE -> HttpAnswer -> Prop) :
  slot_path_ok n ->
  Forall (fun s => bool_decide (plain_component s) && negb (has_char "?"%char s) = true) rest ->
  (forall s, s <> "" -> find_route method ("" :: "v1" :: "slots" :: s :: rest) = Some (s, h)) ->
  (forall path, wp (h (itoa n) (mkRequest method path (default "" query) body))
    (fun t resp => Q t (Answered (itoa (rp_StatusCode resp)) resp)) []) ->
  wp (transport endpoint (HttpDo method (url_of endpoint ("v1" :: "slots" :: itoa n :: rest) query) body)) Q [].
Proof.
  intros [Hn Hm] Hrest Hroute Hh. destruct (slot_segments n rest) as [Hp Hq]; [done..|].
  destruct (itoa_nonneg n Hn) as (_ & Hne & _).
  rewrite (transport_route _ _ _ _ _ _ _ (Hroute _ Hne)) by done.
  apply wp_mbind. eapply wp_mono; [apply Hh|]. done.
Qed.

Lemma slot_request_ok `{JsonLaws T} (slot_of : T -> Z) req method path query :
  valid req -> slot_path_ok (slot_of req) ->
  slot_request slot_of (itoa (slot_of req)) (mkRequest method path query (JsonBody (enc req))) = inl req.
Proof.
  intros Hv Hid. unfold slot_request, decodeRequest, matchSlotID.
  cbn [rq_Body body_json mbind option_bind]. unfold decode.
  rewrite dec_enc by done. cbn [mbind checked_bind]. rewrite pathSlotID_itoa by done.
  cbn [mbind checked_bind]. by rewrite bool_decide_true.
Qed.

Lemma slotURL_url endpoint n action :
  action <> "" -> slotURL endpoint n action = url_of endpoint ["v1"; "slots"; itoa n; action] None.
Proof.
  intros Ha. unfold slotURL, url_of. rewrite bool_decide_false by done.
  by rewrite string_app_nil_r, <- string_app_assoc.
Qed.

(** A POST on a Slot that sends [req]: the handler's calls [k] run, and the client gets their
    answer. The two lemmas are for the handlers that answer an error and a value. *)
Section SlotPost.
Context {T : Type} `{JsonLaws T} (slot_of : T -> Z) (req : T) (endpoint action : string).
Hypothesis Hvalid : valid req.
Hypothesis Hslot : slot_path_ok (slot_of req).
Hypothesis Haction : bool_decide (plain_component action) && negb (has_char "?"%char action) = true.

Lemma action_nonempty : action <> "".
Proof using Haction. intros ->. by vm_compute in Haction. Qed.

Lemma remote_slot_failure (k : T -> prog ManagerE (option error)) R :
  (forall s, s <> "" -> find_route "POST" ["" ; "v1"; "slots"; s; action] = Some (s, fun slotID r =>
    on_valid (slot_request slot_of slotID r) (fun q => err ← k q; mret (reply_error err)))) ->
  wp (k req) R [] ->
  always (remote endpoint (do_error "POST" (slotURL endpoint (slot_of req) action) (Some (enc req))))
    (seen R failure_ok remote_failure).
Proof using All.
  intros Hroute Hk. unfold do_error. rewrite slotURL_url by apply action_nonempty.
  apply wp_remote. eapply wp_slot_route; [done|by repeat constructor|exact Hroute|].
  intros path. cbv beta. cbn [from_option]. rewrite slot_request_ok by done.
  apply wp_mbind. eapply wp_mono; [exact Hk|]. intros t [e|] Ha; exists (Some e) || exists None; split; try done.
  intros Ht. cbn [reply_error]. rewrite do_answer_error; [done|by apply Ht].
Qed.

(** A call that the caller sees succeed is one the Manager says so of, whatever its errors say. *)
Lemma remote_slot_success (k : T -> prog ManagerE (option error)) R :
  (forall s, s <> "" -> find_route "POST" ["" ; "v1"; "slots"; s; action] = Some (s, fun slotID r =>
    on_valid (slot_request slot_of slotID r) (fun q => err ← k q; mret (reply_error err)))) ->
  wp (k req) R [] ->
  always (remote endpoint (do_error "POST" (slotURL endpoint (slot_of req) action) (Some (enc req))))
    (fun t r => exists a, R t a /\ (r = None -> a = None)).
Proof using All.
  intros Hroute Hk. unfold do_error. rewrite slotURL_url by apply action_nonempty.
  apply wp_remote. eapply wp_slot_route; [done|by repeat constructor|exact Hroute|].
  intros path. cbv beta. cbn [from_option]. rewrite slot_request_ok by done.
  apply wp_mbind. eapply wp_mono; [exact Hk|]. intros t [e|] Ha; exists (Some e) || exists None; split; try done.
  cbn [reply_error]. unfold do_answer. by rewrite writeManagerError_fails.
Qed.

Lemma remote_slot_result `{JsonLaws A} (k : T -> prog ManagerE (result A)) R :
  (forall s, s <> "" -> find_route "POST" ["" ; "v1"; "slots"; s; action] = Some (s, fun slotID r =>
    on_valid (slot_request slot_of slotID r) (fun q => a ← k q; mret (reply_value a)))) ->
  wp (k req) R [] ->
  always (remote endpoint (do "POST" (slotURL endpoint (slot_of req) action) (Some (enc req)) true))
    (seen R (result_ok valid) remote_result).
Proof using All.
  intros Hroute Hk. rewrite slotURL_url by apply action_nonempty.
  apply wp_remote. eapply wp_slot_route; [done|by repeat constructor|exact Hroute|].
  intros path. cbv beta. cbn [from_option]. rewrite slot_request_ok by done.
  apply wp_mbind. eapply wp_mono; [exact Hk|]. intros t a Ha. exists a. split; [done|].
  apply do_answer_value.
Qed.
End SlotPost.

(** *** Queries *)

Definition file_values (req : SandboxFileRequest) : list (string * string) :=
  identity_values (fr_Identity req) ++ [("path", fr_Path req)].

Lemma query_identity_ok i method path body :
  query_identity (mkRequest method path (Encode (identity_values i)) body) = i.
Proof. unfold query_identity. cbn [rq_RawQuery]. rewrite ParseQuery_Encode by done. by destruct i. Qed.

Lemma file_request_ok req method path body :
  slot_path_ok (fr_SlotID req) -> fr_Path req <> "" ->
  fileRequestFromQuery (itoa (fr_SlotID req)) (mkRequest method path (Encode (file_values req)) body) = inl req.
Proof.
  intros Hid Hp. unfold fileRequestFromQuery, query_identity. rewrite pathSlotID_itoa by done.
  cbn [mbind checked_bind rq_RawQuery]. rewrite ParseQuery_Encode by done.
  destruct req as [id [ns name uid] p].
  assert (merge_sort key_le (file_values (mkFileRequest id (mkIdentity ns name uid) p)) =
    [("name", name); ("namespace", ns); ("path", p); ("uid", uid)]) as -> by reflexivity.
  assert (Get [("name", name); ("namespace", ns); ("path", p); ("uid", uid)] "path" = p) as -> by reflexivity.
  rewrite bool_decide_false; [reflexivity|exact Hp].
Qed.

Lemma fileURL_url endpoint req action :
  action <> "upload" ->
  fileURL endpoint (fr_SlotID req) action req =
    url_of endpoint ["v1"; "slots"; itoa (fr_SlotID req); "files"; action] (Some (Encode (file_values req))).
Proof.
  intros Ha. unfold fileURL, url_of. rewrite bool_decide_false by done. cbn [from_option].
  change (path_of ["v1"; "slots"; itoa (fr_SlotID req); "files"; action])
    with ("/v1/slots/" +:+ itoa (fr_SlotID req) +:+ "/files/" +:+ action).
  by rewrite <- !string_app_assoc.
Qed.

(** A file query that wants a JSON value: the client makes its result of the response. *)
Lemma remote_file_query `{Json A} {B C} endpoint req action (view : result A -> B)
    (f : C -> result A) (k : SandboxFileRequest -> prog ManagerE C) (R : trace ManagerE -> C -> Prop) :
  slot_path_ok (fr_SlotID req) -> fr_Path req <> "" -> action <> "upload" ->
  bool_decide (plain_component action) && negb (has_char "?"%char action) = true ->
  (forall s, s <> "" -> find_route "GET" ["" ; "v1"; "slots"; s; "files"; action] = Some (s, fun slotID r =>
    on_valid (fileRequestFromQuery slotID r) (fun q => a ← k q; mret (reply_value (f a))))) ->
  wp (k req) R [] ->
  always (remote endpoint (bind (fun a => Ret (view (do_answer true a)))
            (trigger (HttpDo "GET" (fileURL endpoint (fr_SlotID req) action req) NoBody))))
    (fun t r => exists a line, R t a /\ r = view (do_answer true (Answered line (reply_value (f a))))).
Proof.
  intros Hid Hp Hne Ha Hroute Hk. rewrite fileURL_url by done.
  apply wp_remote. eapply wp_slot_route; [done|by repeat constructor|exact Hroute|].
  intros path. cbv beta. cbn [default from_option]. rewrite file_request_ok by done. cbn [on_valid].
  apply wp_mbind. eapply wp_mono; [exact Hk|]. intros t a HR. by eexists a, _.
Qed.

Lemma remote_read endpoint req :
  slot_path_ok (fr_SlotID req) -> fr_Path req <> "" ->
  always (remote endpoint (ReadSandboxFile endpoint req))
    (seen (fun t a => t = [existT (MReadSandboxFile req) a])
      (result_ok (fun data => (len data <= MaxFileBytes)%Z)) remote_result).
Proof.
  intros Hid Hp. unfold ReadSandboxFile. rewrite fileURL_url by done.
  apply wp_remote. eapply (wp_slot_route _ _ _ _ _ _ readFile); [done|by repeat constructor|by intros []|].
  intros path. unfold readFile. cbn [default from_option]. rewrite file_request_ok by done. cbn [on_valid].
  wp_step. exists r. split; [done|].
  destruct r as [data|e]; cbn [result_ok]; intros Hr.
  - cbn [is_2xx rp_StatusCode rp_Body body_bytes negb andb].
    unfold len in Hr. rewrite take_bytes_all by lia.
    cbn. rewrite (proj2 (Z.ltb_ge _ _)); [done|exact Hr].
  - destruct (response_error_class (itoa (rp_StatusCode (writeManagerError e))) e Hr) as [H2 He].
    by rewrite H2, He.
Qed.

(** An upload reaches the Manager under the last element of its path. *)
Definition uploaded_as (req : SandboxFileRequest) : SandboxFileRequest :=
  mkFileRequest (fr_SlotID req) (fr_Identity req) (path_Base (fr_Path req)).

Lemma path_Base_nonempty p : path_Base p <> "".
Proof.
  unfold path_Base. case_bool_decide; [done|]. cbn zeta.
  case_bool_decide as Hb; [done|exact Hb].
Qed.

Lemma remote_upload endpoint req content :
  slot_path_ok (fr_SlotID req) -> fr_Path req <> "" -> (len content <= MaxFileBytes)%Z ->
  always (remote endpoint (WriteSandboxFile endpoint req content))
    (seen (fun t a => t = [existT (MWriteSandboxFile (uploaded_as req) content) a]) failure_ok remote_failure).
Proof.
  intros Hid Hp Hlen. unfold WriteSandboxFile.
  assert (fileURL endpoint (fr_SlotID req) "upload" req =
    url_of endpoint ["v1"; "slots"; itoa (fr_SlotID req); "files"; "upload"]
      (Some (Encode (identity_values (fr_Identity req))))) as ->.
  { unfold fileURL, url_of. rewrite bool_decide_true, app_nil_r by done. cbn [from_option].
    change (path_of ["v1"; "slots"; itoa (fr_SlotID req); "files"; "upload"])
      with ("/v1/slots/" +:+ itoa (fr_SlotID req) +:+ "/files/" +:+ "upload").
    by rewrite <- !string_app_assoc. }
  apply wp_remote. eapply (wp_slot_route _ _ _ _ _ _ writeFile); [done|by repeat constructor|by intros []|].
  intros path. unfold writeFile, uploaded. cbn [default from_option rq_Body].
  rewrite pathSlotID_itoa by done. cbn [on_valid].
  assert (FileName (mkPart "file" (fr_Path req) content) = path_Base (fr_Path req)) as Hname.
  { unfold FileName. simpl. by rewrite bool_decide_false. }
  pose proof (path_Base_nonempty (fr_Path req)) as Hbase.
  unfold FormFile. cbn [List.find part_Name]. rewrite Hname, bool_decide_true, bool_decide_false by done.
  cbn [negb andb on_valid part_Content]. unfold readUpload, len in *.
  rewrite take_bytes_all by lia. rewrite (proj2 (Z.ltb_ge _ _)) by exact Hlen.
  rewrite Hname, bool_decide_false by done. unfold id. rewrite query_identity_ok.
  wp_step. exists r. split; [done|]. intros Hr. destruct r as [e|]; [|done].
  destruct (response_error_class (itoa (rp_StatusCode (writeManagerError e))) e (Hr e eq_refl)) as [H2 He].
  cbn [reply_error]. by rewrite H2, He.
Qed.

Lemma remote_write endpoint req content :
  slot_path_ok (fr_SlotID req) -> fr_Path req <> "" -> path_Base (fr_Path req) = fr_Path req ->
  (len content <= MaxFileBytes)%Z ->
  always (remote endpoint (WriteSandboxFile endpoint req content))
    (seen (fun t a => t = [existT (MWriteSandboxFile req content) a]) failure_ok remote_failure).
Proof.
  intros Hid Hp Hb Hlen.
  assert (H : forall q, uploaded_as req = q -> always (remote endpoint (WriteSandboxFile endpoint req content))
    (seen (fun t a => t = [existT (MWriteSandboxFile q content) a]) failure_ok remote_failure))
    by (intros q <-; by apply remote_upload).
  apply H. unfold uploaded_as. rewrite Hb. by destruct req.
Qed.

Lemma remote_exists endpoint req :
  slot_path_ok (fr_SlotID req) -> fr_Path req <> "" ->
  always (remote endpoint (ExistsSandboxFile endpoint req))
    (seen (fun t a => t = [existT (MExistsSandboxFile req) a]) (result_ok (fun _ => True)) remote_result).
Proof.
  intros Hid Hp. eapply wp_mono.
  - apply (remote_file_query endpoint req "exists"
      (fun r => ex_Exists <$> (r : result existsResponse)) (fun a : result bool => mkExists <$> a)
      (fun q => trigger (MExistsSandboxFile q))
      (fun t (a : result bool) => t = [existT (P := answer) (MExistsSandboxFile req) a]));
      try done. by intros [].
  - intros t r (a & line & Ht & ->). exists a. split; [done|]. intros Ha.
    destruct a as [[]|e]; [done..|]. cbn [fmap result_fmap reply_value]. by rewrite do_answer_error.
Qed.

Lemma remote_list_files endpoint req :
  slot_path_ok (fr_SlotID req) -> fr_Path req <> "" ->
  always (remote endpoint (ListSandboxFiles endpoint req))
    (seen (fun t a => t = [existT (MListSandboxFiles req) a]) (result_ok valid) remote_result).
Proof.
  intros Hid Hp. eapply wp_mono.
  - apply (remote_file_query endpoint req "list" id id
      (fun q => trigger (MListSandboxFiles q))
      (fun t (a : result (list FileEntry)) => t = [existT (P := answer) (MListSandboxFiles req) a]));
      try done. by intros [].
  - intros t r (a & line & Ht & ->). exists a. split; [done|]. apply do_answer_value.
Qed.

Lemma remote_get endpoint ref :
  slot_path_ok (ref_SlotID ref) ->
  always (remote endpoint (GetSandbox endpoint ref))
    (seen (fun t a => t = [existT (MGetSandbox ref) a]) (result_ok valid) remote_result).
Proof.
  intros Hid. unfold GetSandbox.
  assert (slotURL endpoint (ref_SlotID ref) "" +:+ "?" +:+ Encode (identity_values (ref_Identity ref)) =
    url_of endpoint ["v1"; "slots"; itoa (ref_SlotID ref)]
      (Some (Encode (identity_values (ref_Identity ref))))) as ->.
  { unfold slotURL, url_of. rewrite bool_decide_true by done. cbn [from_option].
    change (path_of ["v1"; "slots"; itoa (ref_SlotID ref)]) with ("/v1/slots/" +:+ itoa (ref_SlotID ref)).
    by rewrite <- !string_app_assoc. }
  apply wp_remote. eapply (wp_slot_route _ _ _ _ _ _ getSandbox); [done|done|by intros []|].
  intros path. unfold getSandbox. rewrite pathSlotID_itoa by done. cbn [on_valid from_option]. unfold id.
  rewrite query_identity_ok.
  assert (mkRef (ref_SlotID ref) (ref_Identity ref) = ref) as -> by by destruct ref.
  wp_step. exists r. split; [done|]. apply do_answer_value.
Qed.

(** The operations that name no Slot in their path. *)
Lemma wp_plain_route endpoint method segments body value h (Q : trace ManagerE -> HttpAnswer -> Prop) :
  find_route method ("" :: segments) = Some (value, h) -> segments <> [] ->
  Forall (fun s => bool_decide (plain_component s) && negb (has_char "?"%char s) = true) segments ->
  (forall path, wp (h value (mkRequest method path "" body))
    (fun t resp => Q t (Answered (itoa (rp_StatusCode resp)) resp)) []) ->
  wp (transport endpoint (HttpDo method (TrimRight slash endpoint +:+ path_of segments) body)) Q [].
Proof.
  intros Hroute Hne Hs Hh.
  assert (TrimRight slash endpoint +:+ path_of segments = url_of endpoint segments None) as ->.
  { unfold url_of. cbn [from_option]. by rewrite string_app_nil_r. }
  rewrite (transport_route _ _ _ _ _ _ _ Hroute); [|done|..].
  - apply wp_mbind. eapply wp_mono; [apply Hh|]. done.
  - eapply Forall_impl; [exact Hs|]. by intros s [Hb%bool_decide_eq_true _]%andb_true_iff.
  - eapply Forall_impl; [exact Hs|]. by intros s [_ Hb%negb_true_iff]%andb_true_iff.
Qed.

Lemma remote_delete_objects endpoint req :
  valid req ->
  always (remote endpoint (DeleteSnapshotObjects endpoint req))
    (seen (fun t a => t = [existT (MDeleteSnapshotObjects req) a]) failure_ok remote_failure).
Proof.
  intros Hv. apply wp_remote.
  apply (wp_plain_route endpoint "POST" ["v1"; "snapshots"; "delete"] _ "" deleteSnapshotObjects);
    [done|done|by repeat constructor|].
  intros path. unfold deleteSnapshotObjects, decodeRequest.
  cbn [rq_Body from_option body_json mbind option_bind]. unfold decode. rewrite dec_enc by done.
  cbn [on_valid]. wp_step. exists r. split; [done|]. intros Hr. destruct r as [e|]; [|done].
  cbn [reply_error]. by rewrite do_answer_error by by apply Hr.
Qed.

Lemma remote_topology endpoint configs :
  valid configs ->
  always (remote endpoint (ApplyTopology endpoint configs))
    (seen (fun t a => t = [existT (MApplySlots configs) a]) failure_ok remote_failure).
Proof.
  intros Hv. apply wp_remote.
  apply (wp_plain_route endpoint "PUT" ["v1"; "topology"] _ "" putTopology);
    [done|done|by repeat constructor|].
  intros path. unfold putTopology, decodeRequest.
  cbn [rq_Body from_option body_json mbind option_bind]. unfold decode. rewrite dec_enc by done.
  cbn [on_valid]. wp_step. exists r. split; [done|]. intros Hr. destruct r as [e|]; [|done].
  cbn [reply_error]. by rewrite do_answer_error by by apply Hr.
Qed.

Lemma remote_list_slots endpoint :
  always (remote endpoint (ListSlots endpoint))
    (seen (fun t a => t = [existT MListSlots a]) valid Ok).
Proof.
  apply wp_remote.
  apply (wp_plain_route endpoint "GET" ["v1"; "slots"] _ "" listSlots);
    [done|done|by repeat constructor|].
  intros path. unfold listSlots. wp_step. exists r. split; [done|]. intros Hr.
  by apply (do_answer_value _ (Ok r)).
Qed.

(** ** The theorems *)

(** C38. A client call is one call of the Manager: when the request can be sent ([sendable]: its
    strings are UTF-8, its Slot id is not negative, a file's path is not empty, an upload has a
    plain name and fits the limit), the Worker's Manager gets exactly that request, once, and
    the caller gets the Manager's answer, an error as the status, code and text that stand for
    it ([client_view]), whatever the Manager answers that the wire can carry. *)
Theorem remote_call_transparent endpoint e :
  sendable e ->
  always (remote endpoint (client_call endpoint e))
    (seen (fun t a => t = [existT e a]) (returnable e) (client_view e)).
Proof.
  destruct e; cbn [sendable client_call returnable client_view]; intros Hs; deex.
  - by apply (remote_slot_failure ref_SlotID ref endpoint "reserve") with
      (k := fun q => trigger (MReserveSlot q)); [..|intros []|].
  - by apply (remote_slot_failure sr_SlotID req endpoint "start") with
      (k := fun q => trigger (MStartSandbox q)); [..|intros []|].
  - by apply (remote_slot_failure ref_SlotID ref endpoint "stop") with
      (k := fun q => trigger (MStopSandbox q)); [..|intros []|].
  - by apply (remote_slot_failure ref_SlotID ref endpoint "release") with
      (k := fun q => trigger (MReleaseSlot q)); [..|intros []|].
  - by apply remote_get.
  - by apply (remote_slot_result er_SlotID req endpoint "exec") with
      (k := fun q => trigger (MExecSandbox q)); [..|intros []|].
  - by apply (remote_slot_result cq_SlotID req endpoint "createSnapshot") with
      (k := fun q => trigger (MCreateSnapshot q)); [..|intros []|].
  - by apply (remote_slot_failure rs_SlotID req endpoint "restoreFromSnapshot") with
      (k := fun q => trigger (MRestoreFromSnapshot q)); [..|intros []|].
  - by apply remote_delete_objects.
  - by apply remote_exists.
  - by apply remote_list_files.
  - by apply remote_read.
  - by apply remote_write.
  - by apply remote_list_slots.
  - by apply remote_topology.
Qed.

(** The caller retries exactly the errors the Manager did not classify: the status of an
    error is retryable iff the error is none of the invalid-request, rejected-topology,
    snapshot-load, unknown-Slot, unknown-Sandbox and conflict errors, however it is wrapped. *)
Theorem retryable_iff_unclassified e :
  Retryable (error_class e).1 =
  negb (existsb (errors_Is e) [ErrInvalidRequest; ErrSlotConfigInvalid; ErrSnapshotLoad;
                               ErrSlotNotFound; ErrSandboxNotFound; ErrSlotConflict]).
Proof.
  unfold error_class. cbn [existsb].
  destruct (errors_Is e ErrInvalidRequest), (errors_Is e ErrSlotConfigInvalid), (errors_Is e ErrSnapshotLoad),
    (errors_Is e ErrSlotNotFound), (errors_Is e ErrSandboxNotFound), (errors_Is e ErrSlotConflict); reflexivity.
Qed.

(** *** Which Slot a request can touch *)

(** The Slot a call of the Manager is about. *)
Definition call_slot (e : ManagerE) : option Z :=
  match e with
  | MReserveSlot ref | MStopSandbox ref | MReleaseSlot ref | MGetSandbox ref => Some (ref_SlotID ref)
  | MStartSandbox req => Some (sr_SlotID req)
  | MExecSandbox req => Some (er_SlotID req)
  | MCreateSnapshot req => Some (cq_SlotID req)
  | MRestoreFromSnapshot req => Some (rs_SlotID req)
  | MExistsSandboxFile req | MListSandboxFiles req | MReadSandboxFile req | MWriteSandboxFile req _ =>
      Some (fr_SlotID req)
  | MDeleteSnapshotObjects _ | MListSlots | MApplySlots _ => None
  end.

(** At most one call, and it is about the Slot [value] names. *)
Definition confined (value : string) (t : trace ManagerE) : Prop :=
  t = [] \/ exists e a, t = [existT e a] /\
    forall n, call_slot e = Some n -> ParseInt value 32 = Some n /\ (0 <= n)%Z.

Lemma pathSlotID_inl value n : pathSlotID value = inl n -> ParseInt value 32 = Some n /\ (0 <= n)%Z.
Proof.
  unfold pathSlotID. destruct (ParseInt value 32) as [z|]; [|done].
  destruct (Z.ltb_spec z 0); [done|]. by intros [= <-].
Qed.

Lemma slot_request_inl {T} `{Json T} (slot_of : T -> Z) value r req :
  slot_request slot_of value r = inl req -> ParseInt value 32 = Some (slot_of req) /\ (0 <= slot_of req)%Z.
Proof.
  unfold slot_request, matchSlotID. destruct (decodeRequest r) as [q|]; [|done].
  cbn [mbind checked_bind]. destruct (pathSlotID value) as [n|] eqn:Hn; [|done].
  cbn [mbind checked_bind]. case_bool_decide; [|done]. intros [= <-]. subst n. by apply pathSlotID_inl.
Qed.

Lemma fileRequest_inl value r req :
  fileRequestFromQuery value r = inl req -> ParseInt value 32 = Some (fr_SlotID req) /\ (0 <= fr_SlotID req)%Z.
Proof.
  unfold fileRequestFromQuery. destruct (pathSlotID value) as [n|] eqn:Hn; [|done].
  cbn [mbind checked_bind]. case_bool_decide; [done|]. intros [= <-]. by apply pathSlotID_inl.
Qed.

Lemma handlers_confined : Forall (fun route : string * handler =>
  forall value r, always (route.2 value r) (fun t _ => confined value t)) routes.
Proof.
  assert (Hone : forall value e (a : answer e),
    (forall n, call_slot e = Some n -> ParseInt value 32 = Some n /\ (0 <= n)%Z) ->
    confined value [existT e a]) by (intros; right; by eexists _, _).
  unfold routes. repeat apply Forall_cons_2; [..|by apply Forall_nil_2]; intros value r; cbn [snd];
    [ unfold health | unfold putTopology | unfold listSlots | unfold getSandbox
    | unfold reserveSlot | unfold startSandbox | unfold stopSandbox | unfold releaseSlot
    | unfold execSandbox | unfold createSnapshot | unfold restoreFromSnapshot
    | unfold deleteSnapshotObjects | unfold fileExists | unfold listFiles | unfold readFile
    | unfold writeFile ];
    try (match goal with |- context [on_valid ?c] => destruct c eqn:Hc end; cbn [on_valid]; [|by left]);
    try (apply slot_request_inl in Hc); try (apply fileRequest_inl in Hc); try (apply pathSlotID_inl in Hc);
    try (wp_step; apply Hone; cbn [call_slot ref_SlotID]; by intros ? [= <-]).
  - by left.
  - destruct (uploaded r) as [part|]; cbn [on_valid]; [|by left].
    destruct (readUpload _ _); [|by left]. case_bool_decide; [by left|].
    wp_step. apply Hone. by intros ? [= <-].
Qed.

Lemma match_segments_value pattern path value v :
  match_segments pattern path value = Some v ->
  v = value \/ exists i, pattern !! i = Some "{slotID}" /\ path !! i = Some v.
Proof.
  revert path value. induction pattern as [|p pattern IH]; intros [|s path] value; simpl; try done.
  - intros [= <-]. by left.
  - case_bool_decide as Hp; [case_bool_decide; [done|]|case_bool_decide; [|done]]; intros Hm.
    + destruct (IH _ _ Hm) as [->|(i & Hi & Hv)]; right; [exists 0; by subst|by exists (S i)].
    + destruct (IH _ _ Hm) as [->|(i & Hi & Hv)]; [by left|right; by exists (S i)].
Qed.

Lemma wildcard_position : Forall (fun route : string * handler =>
  forall method pattern i, Cut " "%char route.1 = Some (method, pattern) ->
    Split slash pattern !! i = Some "{slotID}" -> i = 3) routes.
Proof.
  unfold routes. repeat apply Forall_cons_2; [..|by apply Forall_nil_2];
    intros method pattern i Hc; vm_compute in Hc; injection Hc as <- <-;
    destruct i as [|[|[|[|[|[|[|i]]]]]]]; vm_compute; congruence.
Qed.

(** At most one call, and it is about the Slot the path's third element names. *)
Definition touches_path_slot (r : HttpRequest) (t : trace ManagerE) : Prop :=
  t = [] \/ exists e a, t = [existT e a] /\
    forall n, call_slot e = Some n -> exists segment,
      Split slash (rq_Path r) !! 3 = Some segment /\ ParseInt segment 32 = Some n /\ (0 <= n)%Z.

Lemma ServeHTTP_touches r : always (ServeHTTP r) (fun t _ => touches_path_slot r t).
Proof.
  unfold ServeHTTP. destruct (negb _); [by left|]. cbn zeta.
  destruct (find_route _ _) as [[value h]|] eqn:Hf; [|by left].
  unfold find_route in Hf. apply bind_Some in Hf as ([[m v] h'] & Hin & [= -> ->]).
  apply List.find_some in Hin as [Hin _]. apply list_elem_of_In in Hin.
  unfold matching_routes in Hin. apply list_elem_of_omap in Hin as ([p h'] & Hin & Hm).
  unfold match_route in Hm. apply bind_Some in Hm as ([method pattern] & Hcut & Hm).
  apply bind_Some in Hm as (v & Hv & [= -> -> ->]).
  pose proof handlers_confined as Hall. rewrite Forall_forall in Hall.
  eapply wp_mono; [exact (Hall _ Hin value r)|]. intros t _ [->|(e & a & -> & He)]; [by left|].
  right. exists e, a. split; [done|]. intros n Hn. destruct (He n Hn) as [Hp H0].
  destruct (match_segments_value _ _ _ _ Hv) as [->|(i & Hi & Hs)]; [done|].
  pose proof wildcard_position as Hw. rewrite Forall_forall in Hw.
  rewrite (Hw _ Hin _ _ _ Hcut Hi) in Hs. by exists value.
Qed.
(** Whatever the request, its method, path, query and body, the server calls the Manager at
    most once, and a call about a Slot is about the Slot the path's third element names: a
    non-negative int32. A body that names another Slot is rejected before any call. *)
Theorem request_touches_path_slot r :
  always (ServeHTTP r) (fun t _ => t = [] \/ exists e a, t = [existT e a] /\
    forall n, call_slot e = Some n -> exists segment,
      Split slash (rq_Path r) !! 3 = Some segment /\ ParseInt segment 32 = Some n /\ (0 <= n)%Z).
Proof. exact (ServeHTTP_touches r). Qed.
End WorkerHttp.

Module HttpWitness.

(** Quantities as JSON numbers, resource lists as objects; an environment variable as the text
    of its fields. *)
#[local] Existing Instance ZQuantity.

#[export] Instance quantities_json : Json (gmap string Z) := {
  zero := ∅;
  enc m := JArr ((fun '(k, q) => JArr [JStr k; JInt q]) <$> map_to_list m);
  dec j cur := match j with
    | JArr l => list_to_map <$> mapM (fun x => match x with
        | JArr [JStr k; JInt q] => Some (k, q) | _ => None end) l
    | _ => None end;
}.

Lemma mapM_pairs (l : list (string * Z)) :
  mapM (fun x => match x with JArr [JStr k; JInt q] => Some (k, q) | _ => None end)
    ((fun '(k, q) => JArr [JStr k; JInt q]) <$> l) = Some l.
Proof. induction l as [|[k q] l IH]; [done|]. cbn. by rewrite IH. Qed.

#[export, refine] Instance quantities_laws : JsonLaws (gmap string Z) := { valid _ := True }.
Proof.
  intros m _. cbn [dec enc quantities_json]. rewrite mapM_pairs.
  cbn [fmap option_fmap option_map]. by rewrite list_to_map_to_list.
Defined.

#[export] Instance resources_codec : Json (ResourceRequirements (QA := ZQuantity)) := {
  zero := mkResources (QA := ZQuantity) zero zero zero;
  enc x := JObj [("requests", enc (rr_Requests x)); ("limits", enc (rr_Limits x)); ("claims", enc (rr_Claims x))];
  dec := dec_struct [
    json_field "requests" rr_Requests (fun v x => mkResources v (rr_Limits x) (rr_Claims x));
    json_field "limits" rr_Limits (fun v x => mkResources (rr_Requests x) v (rr_Claims x));
    json_field "claims" rr_Claims (fun v x => mkResources (rr_Requests x) (rr_Limits x) v)];
}.
#[export, refine] Instance resources_codec_laws : JsonLaws (ResourceRequirements (QA := ZQuantity)) := { valid x :=
  valid (rr_Requests x) /\ valid (rr_Limits x) /\ valid (rr_Claims x) }.
Proof. solve_json. Defined.

#[export] Instance env_codec : Json EnvVar := {
  zero := mkEnvVar zero zero None;
  enc x := match ev_ValueFrom x with
    | None => JArr [JStr (ev_Name x); JStr (ev_Value x)]
    | Some source => JArr [JStr (ev_Name x); JStr (ev_Value x); JStr source] end;
  dec j cur := match j with
    | JArr [JStr n; JStr v] => Some (mkEnvVar n v None)
    | JArr [JStr n; JStr v; JStr source] => Some (mkEnvVar n v (Some source))
    | _ => None end;
}.
#[export, refine] Instance env_codec_laws : JsonLaws EnvVar := { valid _ := True }.
Proof. by intros [n v [s|]] _. Defined.

#[export] Instance codecs : K8sJson ZQuantity := {| EnvVar_json := env_codec |}.

Definition me : SandboxIdentity := mkIdentity "team" "box" "uid-1".
Definition endpoint : string := "http://worker-0:8080/".
Definition start : StartSandboxRequest :=
  mkStart 3 me (mkContainerSpec "busybox" ["sleep"; "60"] [] [mkEnvVar "A" "1" None]).

Lemma remote_call_transparent_witness :
  always (remote endpoint (client_call endpoint (MStartSandbox start)))
    (seen (fun t a => t = [existT (MStartSandbox start) a]) failure_ok remote_failure).
Proof.
  apply (remote_call_transparent endpoint (MStartSandbox start)).
  split; [by vm_compute|]. repeat (split || apply Forall_cons || apply Forall_nil); by vm_compute.
Defined.

(** A conflict reaches the caller as a status it does not retry. *)
Example conflict_is_permanent :
  remote_error (wrap_sentinel ErrSlotConflict "slot 0") =
    WorkerAPIError 409 "SlotConflict" "slot belongs to another sandbox: slot 0" /\
  Retryable (error_class (wrap_sentinel ErrSlotConflict "slot 0")).1 = false.
Proof. by vm_compute. Qed.

(** The Manager refuses to write to anything but a plain file name, but over HTTP the name of
    an upload is cut to its last element first: the path a caller sends is never rejected, the
    file lands elsewhere. *)
Example upload_path_is_cut :
  ValidateWriteName "../etc/passwd" <> None /\
  uploaded_as (mkFileRequest 0 me "../etc/passwd") = mkFileRequest 0 me "passwd" /\
  ValidateWriteName "passwd" = None.
Proof. by vm_compute. Qed.
End HttpWitness.
