(* ===== verification/WorkerOnCri.v ===== *)
(** * The Worker over containerd

    The Slot manager's calls of its runtime, served by the CRI runtime: what a release means for
    containerd's pod sandboxes, and what a recovery restores. *)

From S2P Require Import Prelude Prog Compose Strings Slot Runtime Api WorkerEnv SnapshotStore Manager ManagerFacts.
From S2P Require Import TopologyApply Cri CriFacts.

Section OnCri.
Context {QA : QuantityApi} {QV : QuantityValues QA} `{ManifestJson} `{ZstdApi}.

Definition lift_cri {A} (p : prog CriE A) : prog (CriE + WorkerE) A := lift_left p.

(** The runtime of the Worker is the CRI adapter; its other calls stay calls. *)
Definition on_cri (config : CriConfig) (e : WorkerE) : prog (CriE + WorkerE) (answer e) :=
  match e as e0 return prog (CriE + WorkerE) (WorkerE_effect e0) with
  | RtCreate req => lift_cri (Create config req)
  | RtStart id => lift_cri (Start id)
  | RtStop id => lift_cri (Stop id)
  | RtDelete id => lift_cri (Delete config id)
  | RtStatus id => lift_cri (Runtime_Status id)
  | RtList => lift_cri (List_ config)
  | RtExec id req => lift_cri (Exec id req)
  | RtReadFile id absPath => lift_cri (ReadFile id absPath)
  | RtWriteFile id absPath content => lift_cri (WriteFile id absPath content)
  | RtListFiles id absPath => lift_cri (ListFiles id absPath)
  | RtFileExists id absPath => lift_cri (FileExists id absPath)
  | RtPrimaryContainerID id => lift_cri (PrimaryContainerID id)
  | e0 => trigger (inr e0 : CriE + WorkerE)
  end.

(** The calls of containerd in a history. *)
Definition cri_part (t : trace (CriE + WorkerE)) : trace CriE := left_part t.

(** ** Release *)

(** The runtimes deleted with success. *)
Definition deletion (ev : event WorkerE) : option ID :=
  match ev with existT (RtDelete id) None => Some id | _ => None end.

Lemma Delete_gone config id tr : wp (Delete config id) (fun t r => r = None -> pod_gone (id_Value id) t) tr.
Proof.
  rewrite wp_frame. eapply wp_mono; [apply Delete_wp|]. intros t r [_ Hr] Hn. destruct (Hr Hn) as [Hgone _].
  destruct Hgone as [(x & Hin & Hx)|[Hin|(err & Hin & Hx)]];
    [left; exists x|right; left|right; right; exists err]; try split; try done; apply elem_of_app; by right.
Qed.

Lemma on_cri_deletions config e t :
  wp (on_cri config e) (fun t' r => forall id, deletion (existT e r) = Some id -> pod_gone (id_Value id) (cri_part t')) t.
Proof.
  destruct e; try (eapply wp_mono; [apply wp_true|]; by intros t' r _ ?).
  cbn [on_cri]. eapply wp_mono; [apply (wp_lift_left _ (fun t r => r = None -> pod_gone (id_Value id) t)), Delete_gone|].
  intros t' r Hr id'. cbn. destruct (r : option error); [done|]. intros [= <-]. by apply Hr.
Qed.

(** A released Slot leaves nothing behind in containerd: when the Worker, running over the CRI
    adapter, releases a Slot that holds a pod sandbox and reports success, the Slot is free and
    containerd removed that pod sandbox (or answered that it knows none, or no container of it) -
    whatever containerd and the host answered on the way. *)
Theorem released_slot_leaves_no_pod config registry handler ref s id :
  ms_state s <> StateFree -> id_UID (ms_sandbox s) = id_UID (ref_Identity ref) ->
  ms_restored s = false -> ms_runtimeRef s = Some id ->
  always (interp (on_cri config) (ReleaseSlot_locked registry handler ref s)) (fun t r =>
    r.2 = None -> ms_state r.1 = StateFree /\ ms_runtimeRef r.1 = None /\ pod_gone (id_Value id) (cri_part t)).
Proof.
  intros Hst Hown Hres Href. unfold always. eapply wp_mono.
  - apply (wp_interp_marks (on_cri config) deletion (fun id t => pod_gone (id_Value id) (cri_part t)));
      [|intros e t; apply on_cri_deletions|apply (ReleaseSlot_outcome registry handler ref s Hst Hown)].
    intros x t t' Hp. by apply pod_gone_prefix, left_part_prefix.
  - cbv beta. intros t r (t1 & Hout & HR) Hnone. rewrite Hnone in Hout. destruct Hout as [-> Hdel].
    split; [done|]. split; [done|]. apply HR. specialize (Hdel id Href). rewrite Hres in Hdel.
    apply list_elem_of_omap. by eexists.
Qed.

(** ** Recovery *)

(** A free Slot after the recovery of a runtime object. *)
Definition recovered_slot (object : RuntimeInfo) (s : managedSlot) : managedSlot :=
  set_state (runtimeSlotState (st_State (ri_Status object)))
    (set_runtimeRef (Some (ri_ID object)) (set_sandbox (ri_Identity object) s)).

Definition free_at (m : SlotManager) (n : Z) : Prop := exists s, slot_at m n s /\ ms_state s = StateFree.

Lemma recover_object_free object m :
  manager_ok m -> free_at m (ri_SlotID object) ->
  exists m' s, recover_object object m = (m', None) /\ manager_ok m' /\ slot_at m (ri_SlotID object) s /\
    forall n0 s0, slot_at m' n0 s0 <->
      (n0 = ri_SlotID object /\ s0 = recovered_slot object s) \/ (n0 <> ri_SlotID object /\ slot_at m n0 s0).
Proof.
  intros Hm (s & (a & Ha & Hs) & Hfree). eexists _, s.
  split.
  { unfold recover_object, getSlot. rewrite Ha. cbn [mbind result_bind]. unfold deref. rewrite Hs. cbn [mbind result_bind mret result_ret].
    rewrite decide_False by tauto. done. }
  split; [by apply set_slot_ok|]. split; [by exists a|]. by apply set_slot_at.
Qed.

(** Objects of distinct free Slots are all recovered, each into its Slot. *)
Lemma recover_objects_free objects m :
  manager_ok m -> NoDup (ri_SlotID <$> objects) -> Forall (fun o => free_at m (ri_SlotID o)) objects ->
  exists m', recover_objects objects m = (m', None) /\
    Forall (fun o => exists s, slot_at m (ri_SlotID o) s /\ slot_at m' (ri_SlotID o) (recovered_slot o s)) objects /\
    forall n s, n ∉ ri_SlotID <$> objects -> slot_at m' n s <-> slot_at m n s.
Proof.
  revert m. induction objects as [|o objects IH]; intros m Hm Hnd Hfree.
  { exists m. split; [done|]. split; [constructor|done]. }
  apply Forall_cons in Hfree as [Ho Hfree]. cbn [fmap list_fmap] in Hnd. apply NoDup_cons in Hnd as [Hnin Hnd].
  destruct (recover_object_free o m Hm Ho) as (m1 & s & Hrec & Hm1 & Hs & Hat).
  assert (Hne : forall o', o' ∈ objects -> ri_SlotID o' <> ri_SlotID o).
  { intros o' Hin Heq. apply Hnin. rewrite <- Heq. by apply list_elem_of_fmap_2. }
  destruct (IH m1 Hm1 Hnd) as (m' & Hrest & Hall & Hothers).
  { apply Forall_forall. intros o' Hin. rewrite Forall_forall in Hfree. destruct (Hfree o' Hin) as (s' & Hs' & Hst).
    exists s'. split; [|done]. apply Hat. right. split; [by apply Hne|done]. }
  exists m'. cbn [recover_objects]. rewrite Hrec. split; [done|]. split.
  - constructor.
    + exists s. split; [done|]. apply Hothers; [done|]. apply Hat. by left.
    + apply Forall_forall. intros o' Hin. rewrite Forall_forall in Hall. destruct (Hall o' Hin) as (s' & Hs' & Hr).
      exists s'. split; [|done]. apply Hat in Hs' as [[Heq _]|[_ ?]]; [by destruct (Hne o' Hin)|done].
  - intros n s0 Hn. cbn [fmap list_fmap] in Hn. rewrite not_elem_of_cons in Hn. destruct Hn as [Hn0 Hn].
    rewrite (Hothers n s0 Hn), Hat. naive_solver.
Qed.

Definition first_listing (t : trace (CriE + WorkerE)) : option (list (string * gmap string string)) :=
  head (cri_part t) ≫= pods_listed.

(** Recovery restores the sandboxes of a Worker over containerd: if the Worker has the Slots -
    distinct and free - of the requests its pod sandboxes were made for, and containerd lists
    those pod sandboxes with the labels [Create] gave them, then [Recover] succeeds, and each of
    those Slots again holds its pod sandbox and the identity of its Sandbox, in the state of what is
    known of its container; the other Slots are as they were. (The Worker's own [main] recovers before it has Slots:
    see [restart_with_sandbox_never_serves].) *)
Theorem recovery_restores_sandboxes config pods m :
  manager_ok m ->
  NoDup ((fun pod => cr_SlotID pod.2) <$> pods) ->
  Forall (fun pod => (0 <= cr_SlotID pod.2 <= int32_max)%Z /\ free_at m (cr_SlotID pod.2)) pods ->
  always (interp (on_cri config) (Recover m)) (fun t r =>
    first_listing t = Some (made_for config pods) ->
    r.2 = None /\
    Forall (fun pod => exists s, slot_at r.1 (cr_SlotID pod.2) s /\ ms_runtimeRef s = Some (mkID pod.1) /\
      ms_sandbox s = cr_Identity pod.2 /\
      exists st, container_known pod.1 (cri_part t) st /\ ms_state s = runtimeSlotState (st_State st)) pods /\
    forall n s, n ∉ (fun pod => cr_SlotID pod.2) <$> pods -> slot_at r.1 n s <-> slot_at m n s).
Proof.
  intros Hm Hnd Hpods. unfold always, Recover. cbn [trigger mbind prog_bind bind interp]. apply wp_bind.
  eapply wp_mono.
  { apply (wp_lift_left _ (fun t r => head t ≫= pods_listed = Some (made_for config pods) ->
      exists infos, r = Ok infos /\ Forall2 (describes t) pods infos)).
    apply List_survives. apply Forall_forall. intros pod Hin. rewrite Forall_forall in Hpods. by apply Hpods. }
  intros t r Hr. cbn [wp]. intros Hl. destruct (Hr Hl) as (infos & -> & Hd).
  assert (Hids : ri_SlotID <$> infos = (fun pod => cr_SlotID pod.2) <$> pods).
  { clear -Hd. induction Hd as [|pod info pods infos (_ & _ & Hs & _) _ IH]; [done|]. cbn. by rewrite Hs, IH. }
  destruct (recover_objects_free infos m Hm) as (m' & -> & Hall & Hothers).
  { by rewrite Hids. }
  { apply Forall_forall. intros info Hin. apply (list_elem_of_fmap_2 ri_SlotID) in Hin. rewrite Hids in Hin.
    apply list_elem_of_fmap in Hin as (pod & -> & Hin). rewrite Forall_forall in Hpods. by apply Hpods. }
  cbn [fst snd]. split; [done|]. split; [|by rewrite <- Hids].
  apply Forall_forall. intros pod [i Hi]%list_elem_of_lookup. destruct (Forall2_lookup_l _ _ _ _ _ Hd Hi) as (info & Hinfo%list_elem_of_lookup_2 & Hdesc).
  rewrite Forall_forall in Hall. destruct (Hall info Hinfo) as (s & _ & Hs). destruct Hdesc as (Hid & Hident & Hslot & Hknown).
  exists (recovered_slot info s). rewrite <- Hslot. split; [done|]. cbn. rewrite Hid, Hident. split; [done|]. split; [done|].
  by exists (ri_Status info).
Qed.
End OnCri.

(** ** Concrete runs *)

Module OnCriWitness.
#[local] Existing Instance ZQuantity.
#[local] Existing Instances ManagerWitness.json ManagerWitness.zstd CriWitness.values.

Definition pod : ID := mkID "pod-a".
Definition running : managedSlot := ManagerWitness.slot_in StateRunning (Some pod).
Definition ref : SandboxSlotRef := mkRef 0 ManagerWitness.me.

Lemma released_slot_leaves_no_pod_witness :
  always (interp (on_cri CriWitness.config) (ReleaseSlot_locked ManagerWitness.registry "runsc" ref running)) (fun t r =>
    r.2 = None -> ms_state r.1 = StateFree /\ ms_runtimeRef r.1 = None /\ pod_gone "pod-a" (cri_part t)).
Proof. by apply (released_slot_leaves_no_pod CriWitness.config ManagerWitness.registry "runsc" ref running pod). Defined.

(** A Worker with the Slots 0, 5 and 12, before the recovery of the two pod sandboxes on 0 and 12. *)
Definition worker : SlotManager :=
  ApplyWitness.worker [ApplyWitness.cfg 0 "small"; ApplyWitness.cfg 5 "small"; ApplyWitness.cfg 12 "small"].

Lemma recovery_restores_sandboxes_witness :
  always (interp (on_cri CriWitness.config) (Recover worker)) (fun t r =>
    first_listing t = Some (made_for CriWitness.config CriWitness.pods) ->
    r.2 = None /\
    Forall (fun pod => exists s, slot_at r.1 (cr_SlotID pod.2) s /\ ms_runtimeRef s = Some (mkID pod.1) /\
      ms_sandbox s = cr_Identity pod.2 /\
      exists st, container_known pod.1 (cri_part t) st /\ ms_state s = runtimeSlotState (st_State st)) CriWitness.pods /\
    forall n s, n ∉ (fun pod => cr_SlotID pod.2) <$> CriWitness.pods -> slot_at r.1 n s <-> slot_at worker n s).
Proof.
  apply (recovery_restores_sandboxes CriWitness.config CriWitness.pods worker); [apply NewSlotManager_ok| |].
  - apply (bool_decide_unpack _). by vm_compute.
  - repeat (apply Forall_cons; split; [split; [vm_compute; split; discriminate|]|]); [..|apply Forall_nil_2].
    all: eexists; split; [eexists; split; vm_compute; reflexivity|reflexivity].
Defined.

(** The recovery against a containerd that holds the two. *)
Definition containerd (s : unit) (e : CriE + WorkerE) : unit * answer e :=
  (s, match e as e return answer e with
      | inl e => (CriWitness.containerd tt e).2
      | inr e => (ManagerWitness.happy tt e).2
      end).
Example recovery_runs :
  let r := (run containerd (interp (on_cri CriWitness.config) (Recover worker)) tt []).2 in
  r.2 = None /\ (fun i => (info_ID i, info_State i, info_SandboxUID i)) <$> ListSlots r.1 =
    [(0%Z, StateRunning, "uid-a"); (5%Z, StateFree, ""); (12%Z, StateRunning, "uid-b")].
Proof. vm_compute. by split. Qed.
End OnCriWitness.
