(* ===== verification/WorkerProcess.v ===== *)
(** * The Worker process (cmd/worker)

    Start-up - flags, snapshotter, runtime, recovery - and then HTTP requests, each served by the
    Slot manager: the composition of the HTTP server with the manager, the states a Worker can
    reach, and what holds in all of them. *)

From S2P Require Import Prelude Prog Compose Strings Slot Runtime Api WorkerEnv SnapshotStore Manager.
From S2P Require Import Url Json ApiJson WorkerServer.

(** ** The host *)

(** What start-up asks of the host: [RuntimeNew] makes the CRI adapter's connection. *)
Inductive HostE :=
  | SetupCgroupDelegation
  | EnsureSharedPropagation (path : string)
  | GrpcNewClient (endpoint : string)
  | Sleep (duration : Z).

#[export] Instance HostE_effect : Effect HostE := fun e =>
  match e with
  | SetupCgroupDelegation | EnsureSharedPropagation _ | GrpcNewClient _ => option error
  | Sleep _ => unit
  end.

(** ** Snapshotters *)

Definition GVisor : Snapshotter := mkSnapshotter "gvisor" "runsc-checkpoint-v1" None.
Definition Kata : Snapshotter := mkSnapshotter "kata" "cloud-hypervisor-snapshot-v1" (Some true).

(* go: internal/snapshotter/factory.go New *)
Definition snapshotter_New (kind : string) : result Snapshotter :=
  if bool_decide (kind = "gvisor") then Ok GVisor
  else if bool_decide (kind = "kata") then Ok Kata
  else if bool_decide (kind = "") then Err (Plain "snapshotter is required (gvisor or kata)")
  else Err (Plain ("unknown snapshotter " +:+ quote kind +:+ " (want gvisor or kata)")).

Section Process.
Context {QA : QuantityApi} {KJ : K8sJson QA} `{ManifestJson} `{ZstdApi}.
Context (DeepEqual : ResourceRequirements -> ResourceRequirements -> bool).

(** ** Requests *)

Definition keeping {A} (m : SlotManager) (p : prog WorkerE A) : prog WorkerE (SlotManager * A) :=
  bind (fun a => Ret (m, a)) p.

(** The manager behind the server's interface. *)
Definition serve (e : ManagerE) (m : SlotManager) : prog WorkerE (SlotManager * answer e) :=
  match e as e return prog WorkerE (SlotManager * answer e) with
  | MReserveSlot ref => ReserveSlot ref m
  | MStartSandbox req => StartSandbox req m
  | MStopSandbox ref => StopSandbox ref m
  | MReleaseSlot ref => ReleaseSlot ref m
  | MGetSandbox ref => keeping m (GetSandbox ref m)
  | MExecSandbox req => keeping m (ExecSandbox req m)
  | MCreateSnapshot req => CreateSnapshot req m
  | MRestoreFromSnapshot req => RestoreFromSnapshot req m
  | MDeleteSnapshotObjects req => keeping m (DeleteSnapshotObjects req)
  | MExistsSandboxFile req => keeping m (ExistsSandboxFile req m)
  | MListSandboxFiles req => keeping m (ListSandboxFiles req m)
  | MReadSandboxFile req => keeping m (ReadSandboxFile req m)
  | MWriteSandboxFile req content => keeping m (WriteSandboxFile req content m)
  | MListSlots => Ret (m, ListSlots m)
  | MApplySlots configs => Ret (ApplySlots DeepEqual configs m)
  end.

(** One HTTP request, from the request to the response. *)
Definition handle (r : HttpRequest) (m : SlotManager) : prog WorkerE (SlotManager * HttpResponse) :=
  interpS serve (ServeHTTP r) m.

(** ** Start-up *)

(* go: cmd/worker/main.go 25-33 main *)
Record Flags := mkFlags {
  fl_name : string;
  fl_namespace : string;
  fl_pool : string;
  fl_runtimeHandler : string;
  fl_snapshotterKind : string;
  fl_containerdEndpoint : string;
}.

(** How [main] goes on: [log.Fatal], or the server over a manager. *)
Inductive started := Fatal (message : string) | Serving (m : SlotManager).

Definition on_worker {A} (p : prog WorkerE A) : prog (WorkerE + HostE) A :=
  interp (fun e => trigger (inl e : WorkerE + HostE)) p.
Definition on_host (e : HostE) : prog (WorkerE + HostE) (answer e) := trigger (inr e : WorkerE + HostE).

(** The runtime is only its kind here: the Worker's effects are its calls. *)
(* go: cmd/worker/main.go newRuntime *)
Definition newRuntime (snap : Snapshotter) (flags : Flags) : prog (WorkerE + HostE) (option error) :=
  if bool_decide (sn_Name snap = "kata") then Ret None
  else
    on_failure (wrap_prefix "create CRI runtime")
      (if bool_decide (fl_containerdEndpoint flags = "") then Ret (Some (Plain "CRI endpoint is required"))
       else on_failure (wrap_prefix "connect to CRI endpoint") (on_host (GrpcNewClient (fl_containerdEndpoint flags)))).

Definition Millisecond : Z := 1000000.

(** The loop around [Recover], with [attempts] left and the last error; the manager is the same
    in every attempt. *)
(* go: cmd/worker/main.go 91-99 main *)
Fixpoint recover_attempts (attempts : nat) (m : SlotManager) (last : option error)
    : prog (WorkerE + HostE) (SlotManager * option error) :=
  match attempts with
  | O => Ret (m, last)
  | S attempts =>
      call! r := on_worker (Recover m) in
      match r with
      | (m, None) => Ret (m, None)
      | (m, Some err) =>
          call! _ := on_host (Sleep (100 * Millisecond)) in
          recover_attempts attempts m (Some err)
      end
  end.

(** Topology starts empty. *)
(* go: cmd/worker/main.go 77-88 main *)
Definition initial_manager (flags : Flags) (snap : Snapshotter) : SlotManager :=
  NewSlotManager (mkWorkerConfig QA (fl_name flags) (fl_namespace flags) (fl_pool flags) [] (Some (fl_runtimeHandler flags)))
    true (NewRegistry {[fl_runtimeHandler flags := Some snap]}).

(* go: cmd/worker/main.go 34-103 main *)
Definition main (flags : Flags) : prog (WorkerE + HostE) started :=
  if bool_decide (fl_name flags = "") || bool_decide (fl_namespace flags = "") || bool_decide (fl_pool flags = "") then
    Ret (Fatal "name, namespace, and pool are required")
  else if bool_decide (fl_runtimeHandler flags = "") then Ret (Fatal "runtime-handler is required")
  else
    match snapshotter_New (fl_snapshotterKind flags) with
    | Err err => Ret (Fatal (error_text err))
    | Ok snap =>
        call! _ := on_host SetupCgroupDelegation in
        call! shared := (if bool_decide (fl_snapshotterKind flags = "kata")
                         then on_host (EnsureSharedPropagation "/run/kata-containers") else Ret None) in
        match shared : option error with
        | Some err => Ret (Fatal ("kata virtio-fs mount propagation: " +:+ error_text err))
        | None =>
            call! runtime := newRuntime snap flags in
            match runtime with
            | Some err => Ret (Fatal (error_text err))
            | None =>
                call! recovered := recover_attempts 50 (initial_manager flags snap) None in
                match recovered with
                | (_, Some err) => Ret (Fatal ("recover Slot state: " +:+ error_text err))
                | (m, None) => Ret (Serving m)
                end
            end
        end
    end.

(** ** Reachable states *)

(** A Worker's states when its requests do not overlap: after a start, and after each request, whatever
    the components it calls answer. [WorkerConcurrency] lets them overlap. *)
Inductive reachable : SlotManager -> Prop :=
  | reachable_started flags t m : returns (main flags) t (Serving m) -> reachable m
  | reachable_served m r t m' resp : reachable m -> returns (handle r m) t (m', resp) -> reachable m'.
End Process.
