(* ===== verification/WorkerProcessFacts.v ===== *)
(** * The Worker process: start-up and the states it can reach

    Start-up succeeds exactly when the runtime lists no sandbox. From there on, for every sequence
    of HTTP requests, one after another, and every behaviour of the runtime, the snapshotter and the store, every Slot
    of the Worker is well formed and no runtime is forgotten. *)

From S2P Require Import Prelude Prog Compose Strings Slot Runtime RuntimeFacts Api WorkerEnv SnapshotStore SnapshotStoreFacts.
From S2P Require Import Manager ManagerFacts TopologyApply Url Json ApiJson WorkerServer WorkerHttp WorkerProcess.

Section ProcessFacts.
Context {QA : QuantityApi} {KJ : K8sJson QA} `{ManifestJson} `{ZstdApi}.
Context (DeepEqual : ResourceRequirements -> ResourceRequirements -> bool).

(** ** Start-up *)

(** The listings of the runtime a start makes, in order. *)
Definition listing (ev : event (WorkerE + HostE)) : option (result (list RuntimeInfo)) :=
  match ev with
  | existT e r =>
      match e as e return answer e -> option (result (list RuntimeInfo)) with
      | inl RtList => fun r : result (list RuntimeInfo) => Some r
      | _ => fun _ => None
      end r
  end.
Definition listings (t : trace (WorkerE + HostE)) : list (result (list RuntimeInfo)) := omap listing t.

Lemma listings_app t1 t2 : listings (t1 ++ t2) = listings t1 ++ listings t2.
Proof. apply omap_app. Qed.

Lemma recover_objects_empty objects m :
  sm_slots m = ∅ -> recover_objects objects m = (m, None) -> objects = [].
Proof.
  intros Hm. destruct objects as [|object rest]; [done|]. cbn [recover_objects].
  unfold recover_object, getSlot. by rewrite Hm, lookup_empty.
Qed.

Lemma recover_objects_unknown object rest m :
  sm_slots m = ∅ -> exists err, recover_objects (object :: rest) m = (m, Some err).
Proof.
  intros Hm. cbn [recover_objects]. unfold recover_object, getSlot. rewrite Hm, lookup_empty. cbn. eauto.
Qed.

Definition not_idle (l : result (list RuntimeInfo)) : Prop := l <> Ok [].

(** What the attempts to recover add to the listings. *)
Definition recovered (attempts : nat) (m : SlotManager) (l : list (result (list RuntimeInfo)))
    (r : SlotManager * option error) : Prop :=
  r.1 = m /\ exists failed, Forall not_idle failed /\
  match r.2 with
  | None => l = failed ++ [Ok []] /\ length failed < attempts
  | Some _ => l = failed /\ length failed = attempts
  end.

Lemma recover_attempts_wp attempts m err tr :
  sm_slots m = ∅ ->
  wp (recover_attempts attempts m (Some err))
    (fun t r => exists l, listings t = listings tr ++ l /\ recovered attempts m l r) tr.
Proof.
  intros Hm. revert err tr. induction attempts as [|n IH]; intros err tr; cbn [recover_attempts].
  { exists []. rewrite app_nil_r. split; [done|]. split; [done|]. by exists []. }
  unfold on_worker, Recover. wp_step. cbn [interp].
  assert (Hfail : forall (r : result (list RuntimeInfo)) err',
    not_idle r ->
    wp (call! _ := on_host (Sleep (100 * Millisecond)) in recover_attempts n m (Some err'))
      (fun t r => exists l, listings t = listings tr ++ l /\ recovered (S n) m l r)
      (tr ++ [existT (inl RtList : WorkerE + HostE) r])).
  { intros r err' Hr. unfold on_host. wp_step. eapply wp_mono; [apply IH|].
    intros t [m' e'] (l & Hl & Hm' & failed & Hf & Hres). rewrite !listings_app in Hl. cbn in Hl, Hm', Hres.
    rewrite app_nil_r, <- app_assoc in Hl. cbn in Hl. exists (r :: l). split; [done|]. split; [done|].
    exists (r :: failed). split; [by constructor|]. destruct e'; destruct Hres as [-> ?]; cbn; (split; [done|lia]). }
  intros r. cbn. destruct r as [objects|e]; [|by apply Hfail].
  destruct objects as [|object rest].
  - cbn. exists [Ok []]. rewrite listings_app. split; [done|]. split; [done|]. exists []. split; [done|]. split; [done|cbn; lia].
  - destruct (recover_objects_unknown object rest m Hm) as [e He]. rewrite He. by apply Hfail.
Qed.

Lemma initial_manager_empty flags snap : sm_slots (initial_manager flags snap) = ∅.
Proof. done. Qed.

Lemma newRuntime_wp snap flags tr :
  wp (newRuntime snap flags) (fun t _ => listings t = listings tr) tr.
Proof.
  unfold newRuntime. rewrite bool_decide_decide. destruct (decide _); [done|]. rewrite wp_on_failure. case_bool_decide; [done|].
  rewrite wp_on_failure. intros [err|]; cbn [wp]; rewrite listings_app; cbn; by rewrite app_nil_r.
Qed.

(** The listings of a start, and what it comes to. *)
Definition start_result (t : trace (WorkerE + HostE)) (r : started) : Prop :=
    exists failed, Forall not_idle failed /\
    match r with
    | Serving m => listings t = failed ++ [Ok []] /\ length failed < 50 /\ sm_slots m = ∅
    | Fatal _ => listings t = failed /\ (failed = [] \/ length failed = 50)
    end.

Lemma main_wp flags : always (main flags) start_result.
Proof.
  unfold always. assert (Hearly : forall t message, listings t = [] -> wp (Ret (Fatal message)) start_result t).
  { intros t message Ht. exists []. cbn. eauto. }
  unfold main. destruct (_ || _); [by apply Hearly|]. destruct (bool_decide _); [by apply Hearly|].
  destruct (snapshotter_New _) as [snap|]; [|by apply Hearly].
  apply wp_bind. unfold on_host. cbn [wp trigger]. intros cgroup. apply wp_bind.
  eapply wp_mono with (Q := fun t _ => listings t = []).
  { destruct (bool_decide _); [intros shared|]; done. }
  intros t [err|] Ht; [by apply Hearly|]. apply wp_bind. eapply wp_mono; [apply newRuntime_wp|].
  intros t' [err|] Ht'; rewrite Ht in Ht'; [by apply Hearly|]. apply wp_bind.
  eapply wp_mono; [apply (recover_attempts_wp 50 (initial_manager flags snap) (Plain "") t' eq_refl)|].
  intros t2 [m err] (l & Hl & Hm & failed & Hf & Hres). rewrite Ht' in Hl. cbn in Hl, Hm, Hres. subst m.
  destruct err as [err|]; destruct Hres as [-> Hn]; exists failed; eauto.
Qed.

(** When a Worker starts. It lists the runtime's sandboxes at most 50 times. It serves exactly
    when one of those listings succeeds and is empty, which is then the last; it then has no
    Slots. Otherwise it exits: before it lists anything, or after 50 listings, none of which was
    empty - so a Worker restarted over a runtime that still holds a sandbox never serves. *)
Theorem start_outcome flags :
  always (main flags) (fun t r =>
    exists failed, Forall not_idle failed /\
    match r with
    | Serving m => listings t = failed ++ [Ok []] /\ length failed < 50 /\ sm_slots m = ∅
    | Fatal _ => listings t = failed /\ (failed = [] \/ length failed = 50)
    end).
Proof. exact (main_wp flags). Qed.

(** ** A Slot at rest is not Starting *)

(** Only [Recover] leaves a Slot Starting, and a Worker that serves has recovered nothing. *)
Definition settles (s : managedSlot) {R} (p : prog WorkerE (managedSlot * R)) : Prop :=
  ms_state s <> StateStarting -> forall tr, wp p (fun _ r => ms_state r.1 <> StateStarting) tr.

Lemma clearRestoreDir_settles s Q tr :
  (forall tr', Q tr' (set_restoreDir "" s)) -> wp (clearRestoreDir s) Q tr.
Proof. intros HQ. by apply clearRestoreDir_wp. Qed.

Ltac settle :=
  intros; repeat (progress cbn [ms_state fst snd set_state set_sandbox set_runtimeRef set_restored set_restoreDir] in * ||
  match goal with
  | |- settles _ _ => intros ? ?
  | |- wp (Ret _) _ _ => cbn [wp]
  | |- _ <> _ => first [done | congruence]
  | |- wp (done _) _ _ => unfold done
  | |- wp (fail _ _) _ _ => unfold fail
  | |- wp (Call _ _) _ _ => cbn [wp]; intros ?
  | |- wp (mbind _ (trigger _)) _ _ => apply wp_mbind; cbn [wp trigger]; intros ?
  | |- wp (bind _ (trigger _)) _ _ => apply wp_bind; cbn [wp trigger]; intros ?
  | |- wp (mbind _ (clearRestoreDir _)) _ _ => apply wp_mbind, clearRestoreDir_settles; intros ?
  | |- wp (bind _ (clearRestoreDir _)) _ _ => apply wp_bind, clearRestoreDir_settles; intros ?
  | |- wp (mbind _ (Ret _)) _ _ => apply wp_mbind
  | |- wp (mbind _ (mbind _ _)) _ _ => apply wp_mbind
  | |- wp (mbind _ _) _ _ => apply wp_mbind; eapply wp_mono; [apply wp_true|]; intros ? ? _
  | |- wp (deferred _ _) _ _ => apply wp_deferred
  | |- wp (match ?x with _ => _ end) _ _ => destruct x eqn:?
  end).

Lemma StartSandbox_cold_settles req s : settles s (StartSandbox_cold req s).
Proof. unfold StartSandbox_cold. settle. Qed.
Lemma StartSandbox_resume_settles req s : settles s (StartSandbox_resume req s).
Proof.
  intros Hs tr. replace (StartSandbox_resume req s) with (StartSandbox_cold req s); [by apply StartSandbox_cold_settles|].
  unfold StartSandbox_resume. by destruct (ms_state s).
Qed.

Lemma StartSandbox_settles req s : settles s (StartSandbox_locked req s).
Proof.
  intros Hs tr. unfold StartSandbox_locked, StartSandbox_restart.
  destruct (decide _); [settle|]. pose proof (StartSandbox_resume_settles req s Hs tr) as Hr.
  destruct (ms_state s) eqn:Hst; try apply Hr.
  destruct (ms_runtimeRef s) as [id|]; [|by apply StartSandbox_resume_settles].
  settle; by apply StartSandbox_resume_settles.
Qed.

Lemma StopSandbox_settles registry handler ref s : settles s (StopSandbox_locked registry handler ref s).
Proof. unfold StopSandbox_locked. settle. Qed.
Lemma ReleaseSlot_settles registry handler ref s : settles s (ReleaseSlot_locked registry handler ref s).
Proof. unfold ReleaseSlot_locked. settle. Qed.

Lemma save_and_upload_settles resolves snap handler req id dir s :
  settles s (save_and_upload resolves snap handler req id dir s).
Proof. unfold save_and_upload, drop_saved. destruct (tearsDownOnSave snap); settle. Qed.

Lemma download_and_load_settles snap handler req dir s : settles s (download_and_load snap handler req dir s).
Proof. unfold download_and_load. settle. Qed.

Lemma RestoreFromSnapshot_settles snap handler req s : settles s (RestoreFromSnapshot_locked snap handler req s).
Proof.
  intros Hs tr. unfold RestoreFromSnapshot_locked. repeat (destruct (decide _); [settle|]).
  apply wp_mbind. unfold trigger. cbn [wp]. intros dir. destruct (dir : result string) as [d|]; [|settle].
  apply wp_mbind. eapply wp_mono; [by apply download_and_load_settles|]. intros t r Hr. settle.
Qed.

Lemma CreateSnapshot_settles resolves snap handler req s :
  settles s (CreateSnapshot_locked resolves snap handler req s).
Proof.
  intros Hs tr. unfold CreateSnapshot_locked.
  destruct (ms_state s) eqn:Hst; try by settle. destruct (ms_runtimeRef s) as [id|]; [|settle].
  destruct (decide _); [settle|]. apply wp_mbind. unfold trigger. cbn [wp]. intros dir.
  destruct (dir : result string) as [d|]; [|settle]. apply wp_deferred.
  eapply wp_mono; [apply save_and_upload_settles; congruence|]. intros t r Hr. settle.
Qed.

(** Every operation of a Slot settles. *)
Lemma slot_run_settles registry handler op s : settles s (slot_run registry handler op s).
Proof.
  intros Hs tr. destruct op as [ref|req|ref|ref|req|resolves snap req|snap req]; cbn [slot_run].
  - unfold ReserveSlot_locked. cbn [wp]. repeat destruct (decide _); cbn; congruence.
  - by apply StartSandbox_settles.
  - by apply StopSandbox_settles.
  - by apply ReleaseSlot_settles.
  - apply wp_bind. eapply wp_mono; [apply wp_true|]. by intros t r _.
  - apply wp_bind. eapply wp_mono; [by apply CreateSnapshot_settles|]. by intros t r Hr.
  - by apply RestoreFromSnapshot_settles.
Qed.

(** ** The Worker as a whole *)

(** The runtimes the Worker knows of. *)
Definition holds (m : SlotManager) (id : ID) : Prop := exists n s, slot_at m n s /\ ms_runtimeRef s = Some id.

Definition at_rest (s : managedSlot) : Prop := slot_ok s /\ ms_state s <> StateStarting.

(** Every Slot is allocated, no two ids share one, and each is well formed and not Starting. *)
Record worker_ok (m : SlotManager) : Prop := {
  wo_manager : manager_ok m;
  wo_slots : forall n s, slot_at m n s -> at_rest s;
}.

(** What the Worker does between two states: it stays well formed, and forgets no runtime. *)
Definition keeps (m : SlotManager) (t : trace WorkerE) (m' : SlotManager) : Prop :=
  worker_ok m' /\ forall id, holds m id \/ id ∈ born t -> holds m' id \/ id ∈ doomed t.

Lemma keeps_refl m t : worker_ok m -> born t = [] -> keeps m t m.
Proof. intros Hm Ht. split; [done|]. intros id [?|Hin]; [by left|]. rewrite Ht in Hin. by apply elem_of_nil in Hin. Qed.

Lemma keeps_trans m1 m2 m3 t1 t2 : keeps m1 t1 m2 -> keeps m2 t2 m3 -> keeps m1 (t1 ++ t2) m3.
Proof.
  intros [_ H1] [Hok H2]. split; [done|]. intros id. rewrite born_app, doomed_app, !elem_of_app. naive_solver.
Qed.

(** A Slot operation, and a topology change. *)
Lemma set_slot_keeps m n a s s' t :
  worker_ok m -> sm_slots m !! n = Some a -> sm_heap m !! a = Some s ->
  at_rest s' -> accounted (ms_runtimeRef s) t s' -> keeps m t (set_slot a s' m).
Proof.
  intros [Hm Hslots] Ha Hs Hs' Hacc. pose proof (set_slot_at m n a s' Hm Ha) as Hat. split.
  - split; [by apply set_slot_ok|]. intros n0 s0 [[_ ->]|[_ Hat0]]%Hat; eauto.
  - intros id Hid. destruct (decide (ms_runtimeRef s' = Some id)) as [Hr|Hr].
    { left. exists n, s'. split; [apply Hat; eauto|done]. }
    destruct Hid as [(n0 & s0 & Hat0 & Hr0)|Hb]; [|destruct (Hacc id (or_intror Hb)); [done|by right]].
    destruct (decide (n0 = n)) as [->|Hne]; [|left; exists n0, s0; split; [apply Hat; eauto|done]].
    destruct Hat0 as (a0 & Ha0 & Hs0). simplify_eq. destruct (Hacc id (or_introl Hr0)); [done|by right].
Qed.

Lemma slot_run_good registry handler op s :
  at_rest s -> wp (slot_run registry handler op s) (fun t r => at_rest r.1 /\ accounted (ms_runtimeRef s) t r.1) [].
Proof.
  intros [Hok Hst]. eapply wp_mono.
  - apply wp_conj; [apply (slot_run_sound (ms_runtimeRef s)); [done|by destruct op|]|by apply slot_run_settles].
    intros id [Hid|Hid]; [by left|by apply elem_of_nil in Hid].
  - intros t r [[? ?] ?]. done.
Qed.

Definition well_served {R} (m : SlotManager) (p : prog WorkerE (SlotManager * R)) : Prop :=
  worker_ok m -> wp p (fun t r => keeps m t r.1) [].

Lemma well_served_ret {R} m (x : R) : well_served m (Ret (m, x)).
Proof. intros Hm. by apply keeps_refl. Qed.

Lemma with_slot_served {R} inj n (f : managedSlot -> prog WorkerE (managedSlot * R)) m :
  (forall s, at_rest s -> wp (f s) (fun t r => at_rest r.1 /\ accounted (ms_runtimeRef s) t r.1) []) ->
  well_served m (with_slot inj n f m).
Proof.
  intros Hf Hm. unfold with_slot, getSlot, deref.
  destruct (sm_slots m !! n) as [a|] eqn:Ha; [|by apply well_served_ret].
  destruct (sm_heap m !! a) as [s|] eqn:Hs; [|by apply well_served_ret].
  apply wp_mbind. eapply wp_mono; [apply Hf, (wo_slots m Hm n); by exists a|].
  intros t r [Hr Hacc]. by eapply set_slot_keeps.
Qed.

Lemma quiet_served {A} m (p : prog WorkerE A) : keeps_quiet p -> well_served m (keeping m p).
Proof. intros Hp Hm. apply wp_bind. eapply wp_mono; [apply Hp|]. intros t a [Ht _]. by apply keeps_refl. Qed.

(** *** Requests that leave the Slots alone *)

Ltac calm :=
  intros; repeat match goal with
  | |- keeps_quiet (Ret _) => apply keeps_quiet_ret
  | |- keeps_quiet (trigger _) => apply keeps_quiet_call; by split
  | |- keeps_quiet (mbind _ _) => apply keeps_quiet_bind; intros
  | |- keeps_quiet (bind _ _) => apply keeps_quiet_bind; intros
  | |- keeps_quiet (try_bind _ _) => apply keeps_quiet_bind; intros
  | |- keeps_quiet (on_error _ _) => apply keeps_quiet_bind; intros
  | |- keeps_quiet (match ?x with _ => _ end) => destruct x
  | |- forall _, _ => intros
  end.

Lemma query_quiet {A} identity n m (f : managedSlot -> prog WorkerE (result A)) :
  (forall s, keeps_quiet (f s)) -> keeps_quiet (query identity n m f).
Proof. intros Hf. unfold query. calm. apply Hf. Qed.

Lemma execRestored_quiet registry handler id req : keeps_quiet (execRestored registry handler id req).
Proof. unfold execRestored. calm. Qed.

(** An operation on the files of a running Sandbox. *)
Definition quiet_fs (fs : sandboxFS) : Prop :=
  (forall p, keeps_quiet (fs_Exists fs p)) /\ (forall p, keeps_quiet (fs_List fs p)) /\
  (forall p, keeps_quiet (fs_Read fs p)) /\ (forall p c, keeps_quiet (fs_Write fs p c)).

Lemma sandboxFSFor_quiet registry handler id s : quiet_fs (sandboxFSFor registry handler id s).
Proof.
  unfold sandboxFSFor. destruct (ms_restored s).
  - pose proof (execRestored_quiet registry handler id) as Hx.
    split_and!; intros; cbn [fs_Exists fs_List fs_Read fs_Write execSandboxFS]; unfold ReadFileVia, WriteFileVia; calm; apply Hx.
  - split_and!; intros; cbn [fs_Exists fs_List fs_Read fs_Write criSandboxFS]; calm.
Qed.

Lemma with_fs_quiet {A} n identity m (k : sandboxFS -> prog WorkerE (result A)) :
  (forall fs, quiet_fs fs -> keeps_quiet (k fs)) -> keeps_quiet (with_fs n identity m k).
Proof. intros Hk. apply query_quiet. intros s. calm. apply Hk, sandboxFSFor_quiet. Qed.

Lemma under_root_quiet {A} req m (k : sandboxFS -> string -> prog WorkerE (result A)) :
  (forall fs p, quiet_fs fs -> keeps_quiet (k fs p)) -> keeps_quiet (under_root req m k).
Proof. intros Hk. unfold under_root. calm. apply with_fs_quiet. intros fs Hfs. by apply Hk. Qed.

Lemma WriteSandboxFile_quiet req content m : keeps_quiet (WriteSandboxFile req content m).
Proof.
  unfold WriteSandboxFile. destruct (ValidateWriteName _); [calm|]. destruct (_ <? _)%Z; [calm|].
  apply keeps_quiet_bind; [|calm]. apply with_fs_quiet. intros fs (_ & _ & _ & Hw).
  apply keeps_quiet_bind; [apply Hw|calm].
Qed.

Lemma ExecSandbox_quiet req m : keeps_quiet (ExecSandbox req m).
Proof. unfold ExecSandbox. calm. apply query_quiet. intros s. unfold ExecSandbox_locked. calm. apply execRestored_quiet. Qed.

Lemma DeleteSnapshotObjects_quiet req : keeps_quiet (DeleteSnapshotObjects req).
Proof.
  unfold DeleteSnapshotObjects. destruct (_ || _); [calm|].
  destruct (openSnapshotStorage _) as [store|] eqn:Hs; [|calm].
  apply openSnapshotStorage_blobs in Hs as [st ->]. apply Delete_quiet.
Qed.

(** *** Every request *)

Lemma ApplySlots_keeps configs m : worker_ok m -> keeps m [] (ApplySlots DeepEqual configs m).1.
Proof.
  intros [Hm Hslots]. pose proof (ApplySlots_in_spec DeepEqual m configs _ Hm (Permutation_refl _)) as Hspec.
  unfold ApplySlots. destruct (ApplySlots_in _ _ _ _) as [m' [err|]]; cbn [fst].
  { destruct Hspec as [-> _]. by apply keeps_refl. }
  destruct Hspec as ([_ Hacc] & desired & Hlook & Hm').
  pose proof (next_slots_ok m configs desired Hm Hlook) as Hnext.
  destruct (next_slots _ _ _) as [slots heap]. subst m'. destruct Hnext as (Hok & Hheap & Hids & Hcfg).
  assert (Hat : forall n s, slot_at m n s -> n ∈ cfg_ID <$> configs -> exists a, slots !! n = Some a /\ heap !! a = Some s).
  { intros n s (a & Ha & Hs) (cfg & -> & Hc)%list_elem_of_fmap. destruct (Hcfg cfg Hc) as (a' & Ha' & Hold).
    rewrite Ha in Hold. subst a'. exists a. split; [done|]. by eapply lookup_weaken. }
  split.
  - split; [done|]. intros n s (a & Ha & Hs). cbn [sm_slots sm_heap] in Ha, Hs.
    assert (Hn : n ∈ cfg_ID <$> configs) by (apply Hids; eauto).
    destruct (sm_slots m !! n) as [a0|] eqn:Hold.
    + destruct (mo_alloc m Hm n a0 Hold) as [s0 Hs0]. destruct (Hat n s0) as (a1 & Ha1 & Hs1); [by exists a0|done|].
      assert (s = s0) as -> by congruence. apply (Hslots n). by exists a0.
    + apply list_elem_of_fmap in Hn as (cfg & -> & Hc). destruct (Hcfg cfg Hc) as (a' & Ha' & Hnew).
      rewrite Hold in Hnew. assert (s = fresh_slot cfg) as -> by congruence. by split; [split|].
  - intros id [(n & s & Hs & Hr)|Hin]; [|by apply elem_of_nil in Hin]. left. exists n, s. split; [|done].
    destruct Hs as (a & Ha & Hs). destruct (Hacc n a s Ha Hs) as [[Hfree _]|(cfg & Hc & Hid & _)].
    + destruct (Hslots n s) as [Hsok _]; [by exists a|]. destruct (ok_free s Hsok Hfree) as (_ & Hnone & _). congruence.
    + destruct (Hat n s) as (a1 & Ha1 & Hs1); [by exists a|rewrite <- Hid; by apply list_elem_of_fmap_2|].
      by exists a1.
Qed.

Lemma request_served {identity m k} : well_served m k -> well_served m (request identity m k).
Proof. intros Hk. unfold request. destruct (validateIdentity identity); [apply well_served_ret|done]. Qed.

Lemma CreateSnapshot_served req m : well_served m (CreateSnapshot req m).
Proof.
  unfold CreateSnapshot. destruct (validateIdentity _); [apply well_served_ret|].
  destruct (_ || _); [apply well_served_ret|]. destruct (For _ _) as [snap|]; [|apply well_served_ret].
  apply with_slot_served. intros s Hs.
  pose proof (slot_run_good (sm_snapshotters m)
    (if bool_decide (cq_Runtime req = "") then runtimeHandler m else cq_Runtime req)
    (OpCreateSnapshot (sm_resolves m) snap req) s Hs) as Hrun.
  cbn [slot_run] in Hrun. apply wp_bind in Hrun. exact Hrun.
Qed.

Lemma RestoreFromSnapshot_served req m : well_served m (RestoreFromSnapshot req m).
Proof.
  apply request_served. destruct (_ || _); [apply well_served_ret|]. cbv zeta. destruct (_ && _); [apply well_served_ret|].
  destruct (For _ _) as [snap|]; [|apply well_served_ret]. apply with_slot_served. intros s Hs.
  by apply (slot_run_good (sm_snapshotters m) _ (OpRestoreSnapshot snap req)).
Qed.

Lemma serve_keeps e m : well_served m (serve DeepEqual e m).
Proof.
  destruct e as [ref|req|ref|ref|ref|req|req|req|req|req|req|req|req content| |configs]; cbn [serve].
  - apply request_served, with_slot_served. intros s. apply (slot_run_good (sm_snapshotters m) (runtimeHandler m) (OpReserve ref)).
  - apply request_served, with_slot_served. intros s. apply (slot_run_good (sm_snapshotters m) (runtimeHandler m) (OpStart req)).
  - apply request_served, with_slot_served. intros s. apply (slot_run_good _ _ (OpStop ref)).
  - apply request_served, with_slot_served. intros s. apply (slot_run_good _ _ (OpRelease ref)).
  - apply quiet_served, query_quiet. calm.
  - apply quiet_served, ExecSandbox_quiet.
  - apply CreateSnapshot_served.
  - apply RestoreFromSnapshot_served.
  - apply quiet_served, DeleteSnapshotObjects_quiet.
  - apply quiet_served, under_root_quiet. intros fs p (? & ? & ? & ?). done.
  - apply quiet_served, under_root_quiet. intros fs p (? & ? & ? & ?). done.
  - apply quiet_served, under_root_quiet. intros fs p (? & ? & ? & ?). done.
  - apply quiet_served, WriteSandboxFile_quiet.
  - apply well_served_ret.
  - intros Hm. cbn [wp]. by apply ApplySlots_keeps.
Qed.

Lemma handle_keeps r m : worker_ok m -> always (handle DeepEqual r m) (fun t res => keeps m t res.1).
Proof.
  intros Hm. unfold always, handle. eapply wp_mono.
  - apply (wpg_interpS _ (fun m' _ t => keeps m t m') (fun _ _ => True) _ (fun _ _ => True) m [] []).
    + intros e s _ t2 _ Hk. rewrite wp_frame. eapply wp_mono; [apply serve_keeps, Hk|].
      intros t [s' a] Hk'. by eapply keeps_trans.
    + apply wp_wpg, wp_true.
    + by apply keeps_refl.
  - intros t [m' resp] (_ & Hk & _). exact Hk.
Qed.

Lemma no_slots_ok m : sm_slots m = ∅ -> worker_ok m.
Proof.
  intros Hm. split; [split|].
  - intros n a. by rewrite Hm, lookup_empty.
  - intros n1 n2 a. by rewrite Hm, lookup_empty.
  - intros n s (a & Ha & _). by rewrite Hm, lookup_empty in Ha.
Qed.

Lemma reachable_ok m : reachable DeepEqual m -> worker_ok m.
Proof.
  induction 1 as [flags t m Hstart|m r t m' resp _ IH Hrun].
  - destruct (wp_returns _ _ _ _ _ (main_wp flags) Hstart) as (failed & _ & _ & _ & Hm). by apply no_slots_ok.
  - exact (proj1 (wp_returns _ _ _ _ _ (handle_keeps r m IH) Hrun)).
Qed.

(** C6. Whatever requests a Worker has served since its start, one after another, and whatever the runtime, the
    snapshotter, the store and the host answered, its Slots are distinct and allocated, each is
    well formed (a free one holds nothing, a starting or running one holds a runtime), and none is
    left half started. *)
Theorem worker_invariant m : reachable DeepEqual m -> worker_ok m.
Proof. apply reachable_ok. Qed.

(** A request that no other overtakes forgets no runtime: in every state a Worker can reach by such
    requests, whatever the next HTTP request - a topology change included - each runtime a Slot
    held before it or that was created or loaded during it is held by a Slot after it, or was asked
    to be deleted. *)
Theorem request_forgets_no_runtime m r :
  reachable DeepEqual m ->
  always (handle DeepEqual r m) (fun t res =>
    forall id, holds m id \/ id ∈ born t -> holds res.1 id \/ id ∈ doomed t).
Proof.
  intros Hm. eapply wp_mono; [apply (handle_keeps r m), reachable_ok, Hm|]. by intros t res [_ Hk].
Qed.

(** ** Isolation of the Slots of a Worker *)

(** What serving one call of the server does to the Slots it is not about. *)
Definition spares_others (e : ManagerE) (m m' : SlotManager) : Prop :=
  (exists configs, m' = (ApplySlots DeepEqual configs m).1) \/
  forall n s, call_slot e <> Some n -> slot_at m n s <-> slot_at m' n s.

Lemma with_slot_spares {R} inj n (f : managedSlot -> prog WorkerE (managedSlot * R)) m tr :
  manager_ok m ->
  wp (with_slot inj n f m) (fun _ r => forall n' s, Some n <> Some n' -> slot_at m n' s <-> slot_at r.1 n' s) tr.
Proof.
  intros Hm. unfold with_slot, getSlot, deref.
  destruct (sm_slots m !! n) as [a|] eqn:Ha; [|done]. destruct (sm_heap m !! a); [|done].
  apply wp_mbind. eapply wp_mono; [apply wp_true|]. intros t r _ n' s Hne. cbn [fst].
  rewrite (set_slot_at m n a _ Hm Ha). naive_solver congruence.
Qed.

Lemma keeping_spares {A} e m (p : prog WorkerE A) tr : wp (keeping m p) (fun _ r => spares_others e m r.1) tr.
Proof. apply wp_bind. eapply wp_mono; [apply wp_true|]. intros t a _. by right. Qed.

Lemma same_spares e m : spares_others e m m.
Proof. by right. Qed.

Lemma serve_spares e m tr : manager_ok m -> wp (serve DeepEqual e m) (fun _ r => spares_others e m r.1) tr.
Proof.
  intros Hm.
  assert (Hone : forall R inj n (f : managedSlot -> prog WorkerE (managedSlot * R)), call_slot e = Some n ->
    wp (with_slot inj n f m) (fun _ r => spares_others e m r.1) tr).
  { intros R inj n f He. eapply wp_mono; [by apply with_slot_spares|]. intros t r Hr. right. by rewrite He. }
  destruct e; cbn [serve]; try apply keeping_spares; unfold ReserveSlot, StartSandbox, StopSandbox, ReleaseSlot,
    CreateSnapshot, RestoreFromSnapshot, request; cbn zeta;
    repeat match goal with |- wp (match ?x with _ => _ end) _ _ => destruct x end;
    try (by apply Hone); try apply same_spares.
  left. by exists configs.
Qed.

(** C7. Requests of one Sandbox do not disturb another's Slot: in every state a Worker can reach,
    any HTTP request, whatever its method, path, query and body, either is a topology change
    ([ApplySlots]) or leaves every Slot but the one its path names exactly as it is. *)
Theorem request_spares_other_slots m r :
  reachable DeepEqual m ->
  always (handle DeepEqual r m) (fun _ res =>
    (exists configs, res.1 = (ApplySlots DeepEqual configs m).1) \/
    forall n s, (forall segment, Split slash (rq_Path r) !! 3 = Some segment -> ParseInt segment 32 <> Some n) ->
      slot_at m n s <-> slot_at res.1 n s).
Proof.
  intros Hreach. apply reachable_ok in Hreach as [Hm _]. unfold always, handle. eapply wp_mono.
  - apply (wpg_interpS _ (fun m' t _ => match t with
      | [] => m' = m
      | [existT e _] => spares_others e m m'
      | _ => True
      end) (fun _ _ => True) _ (fun t _ => touches_path_slot r t) m [] []).
    + intros e s t1 t2 _ HI. destruct t1 as [|ev [|ev' t1]]; cbn [app].
      * subst s. eapply wp_mono; [by apply serve_spares|]. done.
      * eapply wp_mono; [apply wp_true|]. by destruct ev.
      * eapply wp_mono; [apply wp_true|]. by destruct ev.
    + apply wp_wpg, ServeHTTP_touches.
    + done.
  - intros t [m' resp] (t1 & HI & Htouch). destruct Htouch as [->|(e & a & -> & He)]; cbn [fst] in *.
    + subst m'. by right.
    + destruct HI as [HI|HI]; [by left|]. right. intros n s Hn. apply HI. intros Hcall.
      destruct (He n Hcall) as (segment & Hseg & Hp & _). by apply (Hn segment).
Qed.
End ProcessFacts.

(** ** Concrete runs *)

Module ProcessWitness.
#[local] Existing Instance ZQuantity.
#[local] Existing Instances ManagerWitness.json ManagerWitness.zstd HttpWitness.codecs ApplyWitness.resources_eq_dec.

Definition flags : Flags := mkFlags "worker-0" "ns" "pool" "runsc" "gvisor" "/run/containerd.sock".
Definition start_m : SlotManager := initial_manager flags GVisor.

(** A host on which every call succeeds; its runtime lists [objects]. *)
Definition worker_answer (objects : list RuntimeInfo) (e : WorkerE) : answer e :=
  match e as e0 return WorkerE_effect e0 with
  | RtList => Ok objects
  | e0 => (ManagerWitness.happy tt e0).2
  end.
Definition host_answer (e : HostE) : answer e :=
  match e as e return HostE_effect e with
  | SetupCgroupDelegation | EnsureSharedPropagation _ | GrpcNewClient _ => None
  | Sleep _ => tt
  end.
Definition host (objects : list RuntimeInfo) (s : unit) (e : WorkerE + HostE) : unit * answer e :=
  (s, match e as e return answer e with inl e => worker_answer objects e | inr e => host_answer e end).

Example starts_idle : (run (host []) (main flags) tt []).2 = Serving start_m.
Proof. vm_compute. reflexivity. Qed.

(** A Worker restarted over a runtime that still holds a sandbox - one that the Worker itself
    made before - gives up after 50 attempts. *)
Definition survivor : RuntimeInfo := mkRuntimeInfo (mkID "pod-1") ManagerWitness.me 0 (mkStatus RtRunning 0 "").
Theorem restart_with_sandbox_never_serves :
  let '(_, t, r) := run (host [survivor]) (main flags) tt [] in
  r = Fatal ("recover Slot state: runtime " +:+ quote "pod-1" +:+ " references unknown slot 0") /\
  length (listings t) = 50.
Proof. vm_compute. by split. Qed.

(** A Worker that got one Slot, reserved it and started a sandbox in it. *)
Definition me : SandboxIdentity := ManagerWitness.me.
Definition put : HttpRequest := mkRequest "PUT" "/v1/topology" "" (JsonBody (enc [ApplyWitness.cfg 0 "small"])).
Definition post (what : string) (j : json) : HttpRequest := mkRequest "POST" ("/v1/slots/0/" +:+ what) "" (JsonBody j).
Definition requests : list HttpRequest :=
  [put; post "reserve" (enc (mkRef 0 me)); post "start" (enc (mkStart 0 me (mkContainerSpec "busybox" [] [] [])))].
Definition served (m : SlotManager) (r : HttpRequest) : SlotManager * HttpResponse :=
  (run ManagerWitness.happy (handle ApplyWitness.same_resources r m) tt []).2.
Definition busy_m : SlotManager := foldl (fun m r => (served m r).1) start_m requests.

Example busy_runs : (fun i => (info_ID i, info_State i, info_SandboxUID i)) <$> ListSlots busy_m = [(0%Z, StateRunning, "uid-1")].
Proof. vm_compute. reflexivity. Qed.

Lemma start_m_reachable : reachable ApplyWitness.same_resources start_m.
Proof.
  destruct (run_returns (host []) (main flags) tt []) as (t & _ & Hret). rewrite starts_idle in Hret.
  exact (reachable_started _ _ _ _ Hret).
Qed.

Lemma served_reachable m r :
  reachable ApplyWitness.same_resources m -> reachable ApplyWitness.same_resources (served m r).1.
Proof.
  intros Hm. destruct (run_returns ManagerWitness.happy (handle ApplyWitness.same_resources r m) tt []) as (t & _ & Hret).
  unfold served. destruct (run _ _ _ _).2 as [m' resp]. by eapply reachable_served.
Qed.

Lemma busy_m_reachable : reachable ApplyWitness.same_resources busy_m.
Proof. unfold busy_m, requests. cbn [foldl]. repeat apply served_reachable. apply start_m_reachable. Qed.

Lemma worker_invariant_witness : worker_ok busy_m.
Proof. exact (worker_invariant ApplyWitness.same_resources busy_m busy_m_reachable). Defined.

Lemma request_forgets_no_runtime_witness :
  always (handle ApplyWitness.same_resources (post "release" (enc (mkRef 0 me))) busy_m) (fun t res =>
    forall id, holds busy_m id \/ id ∈ born t -> holds res.1 id \/ id ∈ doomed t).
Proof. exact (request_forgets_no_runtime ApplyWitness.same_resources busy_m _ busy_m_reachable). Defined.

Lemma request_spares_other_slots_witness :
  always (handle ApplyWitness.same_resources (post "release" (enc (mkRef 0 me))) busy_m) (fun _ res =>
    (exists configs, res.1 = (ApplySlots ApplyWitness.same_resources configs busy_m).1) \/
    forall n s, (forall segment, Split slash "/v1/slots/0/release" !! 3 = Some segment -> ParseInt segment 32 <> Some n) ->
      slot_at busy_m n s <-> slot_at res.1 n s).
Proof. exact (request_spares_other_slots ApplyWitness.same_resources busy_m _ busy_m_reachable). Defined.
End ProcessWitness.
