(* ===== verification/WorkerConcurrency.v ===== *)
(** * Requests that overlap

    A request of the Slot manager looks its Slot up, under the lock of the table, and works on it
    later, under the lock of that Slot; in between others may run, a change of the topology among
    them. The Worker here is a table with the requests that have looked their Slot up and wait for
    its lock; its steps interleave in any order.

    A critical section is one step: it holds the lock of its Slot, touches no other Slot, and the
    components it calls answer as they like, so sections of different Slots commute. A change of
    the topology is one step: it holds the lock of the table, and reads each Slot once under that
    Slot's lock, so what overlaps with it can be put before it or after it. *)

From S2P Require Import Prelude Prog Compose Strings Slot Runtime RuntimeFacts Api WorkerEnv SnapshotStore SnapshotStoreFacts.
From S2P Require Import Manager ManagerFacts TopologyApply Url Json ApiJson WorkerServer WorkerHttp WorkerProcess WorkerProcessFacts.

Section Concurrency.
Context {QA : QuantityApi} {KJ : K8sJson QA} `{ManifestJson} `{ZstdApi}.
Context (DeepEqual : ResourceRequirements -> ResourceRequirements -> bool).

(** ** The two halves of a request *)

(** What a request does once it holds the lock of its Slot. *)
Record locked_section := mkSection {
  sc_slot : Z;
  sc_handler : string;
  sc_op : slot_op;
}.

Definition if_valid (identity : SandboxIdentity) (c : option locked_section) : option locked_section :=
  match validateIdentity identity with Some _ => None | None => c end.

(** The section a call comes to, when it is one that changes its Slot and it is not refused before
    it looks the Slot up. *)
Definition section_of (e : ManagerE) (m : SlotManager) : option locked_section :=
  match e with
  | MReserveSlot ref => if_valid (ref_Identity ref) (Some (mkSection (ref_SlotID ref) (runtimeHandler m) (OpReserve ref)))
  | MStartSandbox req => if_valid (sr_Identity req) (Some (mkSection (sr_SlotID req) (runtimeHandler m) (OpStart req)))
  | MStopSandbox ref => if_valid (ref_Identity ref) (Some (mkSection (ref_SlotID ref) (runtimeHandler m) (OpStop ref)))
  | MReleaseSlot ref => if_valid (ref_Identity ref) (Some (mkSection (ref_SlotID ref) (runtimeHandler m) (OpRelease ref)))
  | MCreateSnapshot req =>
      let handler := if bool_decide (cq_Runtime req = "") then runtimeHandler m else cq_Runtime req in
      if_valid (cq_Identity req)
        (if bool_decide (cq_StoragePath req = "") || bool_decide (os_Bucket (cq_Storage req) = "") then None
         else match For (sm_snapshotters m) handler with
              | Ok snap => Some (mkSection (cq_SlotID req) handler (OpCreateSnapshot (sm_resolves m) snap req))
              | Err _ => None
              end)
  | MRestoreFromSnapshot req =>
      let handler := if bool_decide (rs_Runtime req = "") then runtimeHandler m else rs_Runtime req in
      if_valid (rs_Identity req)
        (if bool_decide (rs_StoragePath req = "") || bool_decide (os_Bucket (rs_Storage req) = "") then None
         else if negb (bool_decide (runtimeHandler m = "")) && negb (bool_decide (handler = runtimeHandler m)) then None
         else match For (sm_snapshotters m) handler with
              | Ok snap => Some (mkSection (rs_SlotID req) handler (OpRestoreSnapshot snap req))
              | Err _ => None
              end)
  | _ => None
  end.

Definition section_run (m : SlotManager) (c : locked_section) (s : managedSlot) : prog WorkerE (managedSlot * option error) :=
  slot_run (sm_snapshotters m) (sc_handler c) (sc_op c) s.

(** Served alone, a call is its look-up followed by its section. *)
Definition looked_up_and_run (m : SlotManager) (c : locked_section) (Q : trace WorkerE -> SlotManager -> Prop) tr : Prop :=
  match getSlot m (sc_slot c) with
  | Ok a => match deref m a with
            | Ok s => wp (section_run m c s) (fun t r => Q t (set_slot a r.1 m)) tr
            | Err _ => Q tr m
            end
  | Err _ => Q tr m
  end.

Lemma with_slot_halves {R} inj n (f : managedSlot -> prog WorkerE (managedSlot * R)) m c Q tr :
  n = sc_slot c ->
  (forall s Q' tr, wp (f s) (fun t r => Q' t r.1) tr <-> wp (section_run m c s) (fun t r => Q' t r.1) tr) ->
  wp (with_slot inj n f m) (fun t r => Q t r.1) tr <-> looked_up_and_run m c Q tr.
Proof.
  intros -> Hf. unfold with_slot, looked_up_and_run. destruct (getSlot m _) as [a|]; [|done]. destruct (deref m a) as [s|]; [|done].
  rewrite wp_mbind. exact (Hf s (fun t s' => Q t (set_slot a s' m)) tr).
Qed.

Lemma serve_halves e m c Q tr :
  section_of e m = Some c -> wp (serve DeepEqual e m) (fun t r => Q t r.1) tr <-> looked_up_and_run m c Q tr.
Proof.
  intros Hc. destruct e; try done; cbn [section_of serve] in *;
    unfold if_valid, ReserveSlot, StartSandbox, StopSandbox, ReleaseSlot, CreateSnapshot, RestoreFromSnapshot, request in *;
    cbv zeta in *;
    repeat match goal with H : match ?x with _ => _ end = Some _ |- _ => destruct x; first [discriminate H | idtac] end;
    injection Hc as <-; apply with_slot_halves; try done; intros s Q' tr'.
  unfold section_run. cbn [slot_run sc_handler sc_op]. by rewrite wp_bind.
Qed.

(** ** Interleavings *)

(** The requests that wait, each with its section and the address of its Slot. *)
Notation waiting := (list (locked_section * positive)).

Inductive step : SlotManager * waiting -> trace WorkerE -> SlotManager * waiting -> Prop :=
  | step_look_up e c a m w :
      section_of e m = Some c -> getSlot m (sc_slot c) = Ok a -> step (m, w) [] (m, w ++ [(c, a)])
  | step_section c a s t s' err m w1 w2 :
      deref m a = Ok s -> returns (section_run m c s) t (s', err) ->
      step (m, w1 ++ (c, a) :: w2) t (set_slot a s' m, w1 ++ w2)
  | step_other e t r m m' w :
      section_of e m = None -> returns (serve DeepEqual e m) t (m', r) -> step (m, w) t (m', w).

(** What a Worker can come to from its start. *)
Inductive interleaved : SlotManager * waiting -> Prop :=
  | interleaved_started flags t m : returns (main flags) t (Serving m) -> interleaved (m, [])
  | interleaved_step x t y : interleaved x -> step x t y -> interleaved y.

(** An address that the table no longer names. *)
Definition orphan (m : SlotManager) (a : positive) : Prop := forall n, sm_slots m !! n <> Some a.

(** ** The invariant *)

Definition waiting_ok (m : SlotManager) (w : waiting) : Prop :=
  forall c a, (c, a) ∈ w -> exists s, sm_heap m !! a = Some s /\ at_rest s.
Definition interleaving_ok (x : SlotManager * waiting) : Prop := worker_ok x.1 /\ waiting_ok x.1 x.2.

Lemma table_or_orphan m a : (exists n, sm_slots m !! n = Some a) \/ orphan m a.
Proof.
  destruct (decide (map_Exists (fun _ a' => a' = a) (sm_slots m))) as [(n & a' & Hn & ->)|Hno]; [left; by exists n|right].
  intros n Hn. apply Hno. by exists n, a.
Qed.

(** A section on an orphan leaves the table's Slots as they are. *)
Lemma orphan_slot_at m a s n s0 : orphan m a -> slot_at (set_slot a s m) n s0 <-> slot_at m n s0.
Proof.
  intros Ho. unfold slot_at, set_slot. cbn [sm_slots sm_heap]. split; intros (a0 & Ha0 & Hs0); exists a0; (split; [done|]).
  - rewrite lookup_insert_ne in Hs0; [done|]. intros <-. by apply (Ho n).
  - rewrite lookup_insert_ne; [done|]. intros <-. by apply (Ho n).
Qed.

(** What a section does to the runtimes of the table and to the one of its own Slot. *)
Lemma section_keeps m a s t s' :
  worker_ok m -> sm_heap m !! a = Some s -> at_rest s' -> accounted (ms_runtimeRef s) t s' ->
  worker_ok (set_slot a s' m) /\
  (forall id, holds m id -> holds (set_slot a s' m) id \/ id ∈ doomed t) /\
  (forall id, id ∈ born t -> holds (set_slot a s' m) id \/ id ∈ doomed t \/ (orphan m a /\ ms_runtimeRef s' = Some id)).
Proof.
  intros Hm Hs Hs' Hacc. destruct (table_or_orphan m a) as [[n Hn]|Ho].
  - destruct (set_slot_keeps m n a s s' t Hm Hn Hs Hs' Hacc) as [Hok Hk]. split; [done|].
    split; intros id Hid; [by auto|]. destruct (Hk id (or_intror Hid)); auto.
  - split; [|split].
    + destruct Hm as [Hm Hslots]. split; [by apply set_slot_ok|]. intros n s0 Hs0%orphan_slot_at; eauto.
    + intros id (n & s0 & Hs0 & Hid). left. exists n, s0. split; [by apply orphan_slot_at|done].
    + intros id Hid. destruct (Hacc id (or_intror Hid)); auto.
Qed.

Lemma ApplySlots_heap configs m : worker_ok m -> sm_heap m ⊆ sm_heap (ApplySlots DeepEqual configs m).1.
Proof.
  intros [Hm _]. pose proof (ApplySlots_in_spec DeepEqual m configs _ Hm (Permutation_refl _)) as Hspec.
  unfold ApplySlots. destruct (ApplySlots_in _ _ _ _) as [m' [err|]]; cbn [fst]; [by destruct Hspec as [-> _]|].
  destruct Hspec as (_ & desired & Hlook & Hm'). pose proof (next_slots_ok m configs desired Hm Hlook) as Hnext.
  destruct (next_slots _ _ _) as [slots heap]. subst m'. by destruct Hnext as (_ & Hheap & _).
Qed.

Lemma keeping_heap {A} m (p : prog WorkerE A) tr : wp (keeping m p) (fun _ r => sm_heap m ⊆ sm_heap r.1) tr.
Proof. apply wp_bind. eapply wp_mono; [apply wp_true|]. intros t a _. cbn [wp fst]. reflexivity. Qed.

(** A call that comes to no section writes no Slot. *)
Lemma serve_other_heap e m : worker_ok m -> section_of e m = None -> wp (serve DeepEqual e m) (fun _ r => sm_heap m ⊆ sm_heap r.1) [].
Proof.
  intros Hm Hc. destruct e; cbn [section_of serve] in *; try apply keeping_heap; try done;
    unfold if_valid, ReserveSlot, StartSandbox, StopSandbox, ReleaseSlot, CreateSnapshot, RestoreFromSnapshot, request in *;
    cbv zeta in *; repeat match goal with H : match ?x with _ => _ end = None |- _ => destruct x; try discriminate H end;
    try (cbn [wp fst]; reflexivity).
  by apply ApplySlots_heap.
Qed.

Lemma section_good m c s : at_rest s -> wp (section_run m c s) (fun t r => at_rest r.1 /\ accounted (ms_runtimeRef s) t r.1) [].
Proof. apply slot_run_good. Qed.

Lemma step_keeps x t y :
  interleaving_ok x -> step x t y ->
  interleaving_ok y /\
  (forall id, holds x.1 id -> holds y.1 id \/ id ∈ doomed t) /\
  (forall id, id ∈ born t -> holds y.1 id \/ id ∈ doomed t \/
     exists c a s, (c, a) ∈ x.2 /\ orphan x.1 a /\ sm_heap y.1 !! a = Some s /\ ms_runtimeRef s = Some id).
Proof.
  intros [Hm Hw] Hstep. destruct Hstep as [e c a m w Hc Ha|c a s t s' err m w1 w2 Hs Hrun|e t r m m' w Hc Hrun]; cbn [fst snd] in *.
  - split; [split; [done|]|split; [by left|by intros id ?%elem_of_nil]]. intros c' a' [Hin|Hin]%elem_of_app; [by eapply Hw|].
    apply list_elem_of_singleton in Hin as [= -> ->]. unfold getSlot in Ha. destruct (sm_slots m !! sc_slot c) as [a0|] eqn:Ha0; [|done].
    injection Ha as ->. destruct (mo_alloc m (wo_manager m Hm) _ _ Ha0) as [s Hs]. exists s. split; [done|]. apply (wo_slots m Hm (sc_slot c)). by exists a.
  - unfold deref in Hs. destruct (sm_heap m !! a) as [s0|] eqn:Hs0; [|done]. injection Hs as ->.
    destruct (Hw c a) as (s1 & Hs1 & Hrest); [apply elem_of_app; right; left|]. assert (s1 = s) as -> by congruence.
    destruct (wp_returns _ _ _ _ _ (section_good m c s Hrest) Hrun) as [Hrest' Hacc]. cbn [fst] in *.
    destruct (section_keeps m a s t s' Hm Hs0 Hrest' Hacc) as (Hok & Hheld & Hborn). split; [split; [done|]|split; [done|]].
    + intros c' a' Hin. cbn [fst snd set_slot sm_heap] in *. destruct (decide (a' = a)) as [->|Hne]; [exists s'; split; [apply lookup_insert_eq|done]|].
      rewrite lookup_insert_ne by done. apply (Hw c'). set_solver.
    + intros id Hid. destruct (Hborn id Hid) as [?|[?|[Ho Hr]]]; [by left|by right; left|right; right].
      exists c, a, s'. split; [apply elem_of_app; right; left|]. split; [done|]. split; [apply lookup_insert_eq|done].
  - destruct (wp_returns _ _ _ _ _ (serve_keeps DeepEqual e m Hm) Hrun) as [Hok Hk]. cbn [fst] in *.
    pose proof (wp_returns _ _ _ _ _ (serve_other_heap e m Hm Hc) Hrun) as Hheap. cbn [fst] in Hheap. split; [split; [done|]|split].
    + intros c' a' Hin. destruct (Hw c' a' Hin) as (s & Hs & Hrest). exists s. split; [by eapply lookup_weaken|done].
    + intros id Hid. by apply Hk; left.
    + intros id Hid. destruct (Hk id (or_intror Hid)); auto.
Qed.

Lemma interleaved_ok x : interleaved x -> interleaving_ok x.
Proof.
  induction 1 as [flags t m Hstart|x t y _ IH Hstep]; [|by destruct (step_keeps x t y IH Hstep)].
  split; [apply (reachable_ok DeepEqual); by eapply reachable_started|]. by intros c a ?%elem_of_nil.
Qed.

(** C5. A Worker forgets no runtime, however its requests overlap: in every state that a Worker can
    reach by serving requests of which each looks its Slot up and, at any later time, works on it
    under its lock, changes of the topology in between included, and whatever step comes next,
    each runtime that a Slot of the table held before that step is held by a Slot of the table
    after it, or was asked to be deleted in it; and each runtime created or loaded in the step is
    held by a Slot of the table after it, or was asked to be deleted in it, or is held by the Slot
    of a request that looked it up before a change of the topology took it from the table - the one
    way to lose a runtime. *)
Theorem worker_forgets_no_runtime m w t m' w' :
  interleaved (m, w) -> step (m, w) t (m', w') ->
  (forall id, holds m id -> holds m' id \/ id ∈ doomed t) /\
  (forall id, id ∈ born t -> holds m' id \/ id ∈ doomed t \/
     exists c a s, (c, a) ∈ w /\ orphan m a /\ sm_heap m' !! a = Some s /\ ms_runtimeRef s = Some id).
Proof. intros Hx%interleaved_ok Hstep. by destruct (step_keeps (m, w) t (m', w') Hx Hstep) as [_ Hk]. Qed.

(** A request that no other overtakes is one look-up and one section, or one other step. *)
Theorem served_is_interleaved m w e t m' r :
  interleaved (m, w) -> returns (serve DeepEqual e m) t (m', r) -> interleaved (m', w).
Proof.
  intros Hx Hrun. destruct (section_of e m) as [c|] eqn:Hc; [|by eapply interleaved_step, step_other].
  enough (Hw : wp (serve DeepEqual e m) (fun _ r => interleaved (r.1, w)) []) by exact (wp_returns _ _ _ _ _ Hw Hrun).
  apply (serve_halves e m c (fun _ m' => interleaved (m', w)) [] Hc). unfold looked_up_and_run.
  destruct (getSlot m (sc_slot c)) as [a|] eqn:Ha; [|done]. destruct (deref m a) as [s|] eqn:Hs; [|done].
  eapply wp_mono; [apply wp_returned|]. cbv beta. intros t' [s' err] (t1 & _ & Hret). cbn [fst].
  rewrite <- (app_nil_r w). eapply interleaved_step; [|by eapply step_section]. by eapply interleaved_step, step_look_up.
Qed.
End Concurrency.

(** ** Concrete runs *)

Module ConcurrencyWitness.
Import ProcessWitness.
#[local] Existing Instance ZQuantity.
#[local] Existing Instances ManagerWitness.json ManagerWitness.zstd HttpWitness.codecs ApplyWitness.resources_eq_dec.

(** A Worker with one Slot, and two requests that have looked it up: a reservation and a start. *)
Definition one_m : SlotManager := (served start_m put).1.
Definition call_reserve : ManagerE := MReserveSlot (mkRef 0 me).
Definition call_start : ManagerE := MStartSandbox (mkStart 0 me (mkContainerSpec "busybox" [] [] [])).
Definition reserving : locked_section := mkSection 0 "runsc" (OpReserve (mkRef 0 me)).
Definition starting : locked_section := mkSection 0 "runsc" (OpStart (mkStart 0 me (mkContainerSpec "busybox" [] [] []))).
Definition cell : positive := 1.

Lemma start_interleaved : interleaved ApplyWitness.same_resources (start_m, []).
Proof.
  destruct (run_returns (host []) (main flags) tt []) as (t & _ & Hret). rewrite starts_idle in Hret.
  exact (interleaved_started _ _ _ _ Hret).
Qed.

(** The topology as the [put] request applies it. *)
Definition apply (configs : list Config) (m : SlotManager) : SlotManager := (ApplySlots ApplyWitness.same_resources configs m).1.
Definition with_slot_0 : SlotManager := apply [ApplyWitness.cfg 0 "small"] start_m.

Lemma applied configs m w : interleaved ApplyWitness.same_resources (m, w) -> interleaved ApplyWitness.same_resources (apply configs m, w).
Proof.
  intros Hx. unfold apply. destruct (ApplySlots ApplyWitness.same_resources configs m) as [m' err] eqn:Ha.
  eapply interleaved_step; [exact Hx|]. apply (step_other _ (MApplySlots configs) [] err); [done|]. cbn [serve]. rewrite Ha. constructor.
Qed.

Lemma both_wait : interleaved ApplyWitness.same_resources (with_slot_0, [(reserving, cell); (starting, cell)]).
Proof.
  eapply (interleaved_step _ (with_slot_0, [(reserving, cell)])); [|by apply (step_look_up _ call_start starting cell); vm_compute].
  eapply (interleaved_step _ (with_slot_0, [])); [|by apply (step_look_up _ call_reserve reserving cell); vm_compute].
  apply applied, start_interleaved.
Qed.

(** What a section does on a host where every call succeeds. *)
Definition after (c : locked_section) (m : SlotManager) : managedSlot * option error :=
  match deref m cell with
  | Ok s => (run ManagerWitness.happy (section_run m c s) tt []).2
  | Err err => (mkSlot 0 "" no_resources StateFree no_identity None false "", Some err)
  end.
Definition calls_of (c : locked_section) (m : SlotManager) : trace WorkerE :=
  match deref m cell with Ok s => (run ManagerWitness.happy (section_run m c s) tt []).1.2 | Err _ => [] end.
Definition ran (c : locked_section) (m : SlotManager) : SlotManager := set_slot cell (after c m).1 m.

Lemma step_ran c m w :
  is_Some (sm_heap m !! cell) -> step ApplyWitness.same_resources (m, (c, cell) :: w) (calls_of c m) (ran c m, w).
Proof.
  intros [s Hs]. unfold ran, after, calls_of, deref. rewrite Hs.
  destruct (run_returns ManagerWitness.happy (section_run m c s) tt []) as (t & Ht & Hret). rewrite Ht. cbn [app].
  destruct (run _ _ _ _).2 as [s' err] eqn:Hr. apply (step_section _ c cell s t s' err m [] w); [|done]. unfold deref. by rewrite Hs.
Qed.

(** The reservation and the start come one after the other, and the runtime is in the table. *)
Lemma worker_forgets_no_runtime_witness :
  born (calls_of starting (ran reserving with_slot_0)) = [mkID "runsc:new"] /\
  (forall id, holds (ran reserving with_slot_0) id -> holds (ran starting (ran reserving with_slot_0)) id \/
     id ∈ doomed (calls_of starting (ran reserving with_slot_0))) /\
  (forall id, id ∈ born (calls_of starting (ran reserving with_slot_0)) ->
     holds (ran starting (ran reserving with_slot_0)) id \/ id ∈ doomed (calls_of starting (ran reserving with_slot_0)) \/
     exists c a s, (c, a) ∈ [(starting, cell)] /\ orphan (ran reserving with_slot_0) a /\
       sm_heap (ran starting (ran reserving with_slot_0)) !! a = Some s /\ ms_runtimeRef s = Some id).
Proof.
  split; [by vm_compute|]. apply (worker_forgets_no_runtime ApplyWitness.same_resources _ [(starting, cell)] _ _ []).
  - eapply interleaved_step; [exact both_wait|]. apply step_ran. by eexists.
  - apply step_ran. by eexists.
Defined.

(** The race: both requests have looked Slot 0 up, a change of the topology removes it while it is
    free, and then they reserve and start on it. The sandbox runs, and no Slot of the Worker holds
    it: no later request reaches it. *)
Definition raced : SlotManager := ran starting (ran reserving (apply [] with_slot_0)).
Theorem overtaken_start_is_orphaned :
  interleaved ApplyWitness.same_resources (raced, []) /\
  born (calls_of starting (ran reserving (apply [] with_slot_0))) = [mkID "runsc:new"] /\
  (after starting (ran reserving (apply [] with_slot_0))).2 = None /\
  ListSlots raced = [] /\ forall id, ~ holds raced id.
Proof.
  split; [|split; [by vm_compute|split; [by vm_compute|split; [by vm_compute|]]]].
  - eapply interleaved_step; [|apply step_ran; by eexists]. eapply interleaved_step; [|apply step_ran; by eexists].
    apply applied, both_wait.
  - intros id (n & s & (a & Ha & _) & _). assert (Hempty : sm_slots raced = ∅) by by vm_compute. by rewrite Hempty, lookup_empty in Ha.
Qed.
End ConcurrencyWitness.
