(* ===== verification/AgentApi.v ===== *)
(** * Messages of the kata-agent

    The requests the Worker sends to the agent inside a guest (the generated protocol types, as far
    as the program sets their fields), and the OCI runtime specification they are made from. *)

From S2P Require Import Prelude.

(** ** The OCI runtime specification (opencontainers/runtime-spec) *)

Record OciUser := mkOciUser {
  ou_UID : Z;
  ou_GID : Z;
  ou_AdditionalGids : list Z;
  ou_Username : string;
}.
Record Capabilities := mkCapabilities {
  ca_Bounding : list string;
  ca_Effective : list string;
  ca_Inheritable : list string;
  ca_Permitted : list string;
  ca_Ambient : list string;
}.
Record Rlimit := mkRlimit {
  rl_Type : string;
  rl_Hard : Z;
  rl_Soft : Z;
}.
Record OciProcess := mkOciProcess {
  op_User : OciUser;
  op_Args : list string;
  op_Env : list string;
  op_Cwd : string;
  op_Capabilities : option Capabilities;
  op_Rlimits : list Rlimit;
  op_NoNewPrivileges : bool;
}.
Record OciRoot := mkOciRoot {
  or_Path : string;
  or_Readonly : bool;
}.
Record OciMount := mkOciMount {
  om_Destination : string;
  om_Type : string;
  om_Source : string;
  om_Options : list string;
}.
(** The type of a namespace is its text in the document. *)
Record OciNamespace := mkOciNamespace {
  on_Type : string;
  on_Path : string;
}.
Definition PIDNamespace : string := "pid".
Definition NetworkNamespace : string := "network".
Definition MountNamespace : string := "mount".
Definition IPCNamespace : string := "ipc".
Definition UTSNamespace : string := "uts".
Definition CgroupNamespace : string := "cgroup".
Definition TimeNamespace : string := "time".

Record OciDevice := mkOciDevice {
  od_Allow : bool;
  od_Type : string;
  od_Major : option Z;
  od_Minor : option Z;
  od_Access : string;
}.
(** The shares of the CPU section; the resources' other sections are not used. *)
Record OciResources := mkOciResources {
  os_Devices : list OciDevice;
  os_CPU : option (option Z);
}.
Record OciLinux := mkOciLinux {
  ol_Resources : option OciResources;
  ol_CgroupsPath : string;
  ol_Namespaces : list OciNamespace;
  ol_MaskedPaths : list string;
  ol_ReadonlyPaths : list string;
}.
Record OciSpec := mkOciSpec {
  oc_Version : string;
  oc_Process : option OciProcess;
  oc_Root : option OciRoot;
  oc_Hostname : string;
  oc_Mounts : list OciMount;
  oc_Annotations : list (string * string);
  oc_Linux : option OciLinux;
}.

(** ** The agent's messages *)

(** [Process]: also that of a command run in a container, which has no capabilities of its own. *)
Record PbProcess := mkPbProcess {
  pp_Terminal : bool;
  pp_User : option OciUser;
  pp_Args : list string;
  pp_Env : list string;
  pp_Cwd : string;
  pp_Capabilities : option Capabilities;
  pp_Rlimits : list Rlimit;
  pp_NoNewPrivileges : bool;
}.
Record PbDevice := mkPbDevice {
  pd_Allow : bool;
  pd_Type : string;
  pd_Major : Z;
  pd_Minor : Z;
  pd_Access : string;
}.
Record PbResources := mkPbResources {
  pr_Devices : list PbDevice;
  pr_CPU : option Z;
}.
Record PbLinux := mkPbLinux {
  pl_Resources : option PbResources;
  pl_CgroupsPath : string;
  pl_Namespaces : list OciNamespace;
  pl_MaskedPaths : list string;
  pl_ReadonlyPaths : list string;
}.
Record PbSpec := mkPbSpec {
  ps_Version : string;
  ps_Process : option PbProcess;
  ps_Root : option OciRoot;
  ps_Hostname : string;
  ps_Mounts : list OciMount;
  ps_Annotations : list (string * string);
  ps_Linux : option PbLinux;
}.

Record Storage := mkStorage {
  sg_Driver : string;
  sg_DriverOptions : list string;
  sg_Source : string;
  sg_Fstype : string;
  sg_Options : list string;
  sg_MountPoint : string;
}.
Record PbInterface := mkPbInterface {
  if_Device : string;
  if_Name : string;
  if_Addresses : list (string * string);
  if_Mtu : Z;
  if_HwAddr : string;
}.
Record PbRoute := mkPbRoute {
  rt_Dest : string;
  rt_Gateway : string;
  rt_Device : string;
  rt_Scope : Z;
}.
Record PbNeighbor := mkPbNeighbor {
  nb_ToIPAddress : string;
  nb_Device : string;
  nb_Lladdr : string;
  nb_State : Z;
}.

(** The calls that answer nothing the program looks at. *)
Inductive agent_request :=
  | CreateSandboxRequest (hostname sandboxID : string) (storages : list Storage)
  | CreateContainerRequest (containerID execID : string) (storages : list Storage) (oci : option PbSpec)
  | StartContainerRequest (containerID : string)
  | UpdateInterfaceRequest (interface : PbInterface)
  | UpdateRoutesRequest (routes : list PbRoute)
  | AddARPNeighborsRequest (neighbors : list PbNeighbor)
  | ExecProcessRequest (containerID execID : string) (process : PbProcess).
