(* ===== verification/Host.v ===== *)
(** * The host a Worker runs on

    The system calls, commands and containerd services the snapshotters use, as effects with
    arbitrary answers, and the packages outside the repository they call. A deadline of a context
    is the time limit of the command it is given to. *)

From S2P Require Import Prelude Prog Strings Json AgentApi.

(** How [cmd.Run] fails: the command ended with an exit code ([*exec.ExitError]), or it could not be
    run. *)
Inductive cmd_error :=
  | ExitError (code : Z) (text : string)
  | CmdError (err : error).
Definition as_error (e : cmd_error) : error :=
  match e with ExitError _ text => Plain text | CmdError err => err end.

(** Where the output of a command goes: its standard error, or both outputs, into a buffer, which
    the answer holds; or into open files. *)
Inductive sink :=
  | StderrBuffer
  | CombinedBuffer
  | ToFiles (stdout stderr : option string).

Inductive file_kind :=
  | RegularFile
  | DirectoryFile
  | OtherFile.
#[export] Instance file_kind_eq_dec : EqDecision file_kind.
Proof. solve_decision. Defined.

(** A mount of a containerd snapshot. *)
Record Mount := mkMount {
  mt_Type : string;
  mt_Source : string;
  mt_Options : list string;
}.

Inductive SysE :=
  (* commands *)
  | CmdRun (limit : option Z) (name : string) (args : list string) (out : sink)
  (* files *)
  | FsMkdir (path : string)
  | FsMkdirAll (path : string)
  | FsRemove (path : string)
  | FsRemoveAll (path : string)
  | FsWriteFile (path data : string)
  | FsReadFile (path : string)
  | FsStat (path : string)
  | FsRename (old new : string)
  | FsReadDir (path : string)
  | FsOpenFile (path : string)
  | FsReadBack (path : string)
  | FsCreateTemp (pattern : string)
  | FsClose (path : string)
  | FsStatfs (path : string)
  (* network namespaces of the thread; a file is opened for its descriptor *)
  | NsOpen (path : string)
  | NsEnter (fd : Z)
  | NsReturn (fd : Z)
  (* mounts *)
  | MtUnmount (path : string)
  | MtMount (source target fstype : string) (flags : list string) (data : string)
  | MtFsopen (fstype : string)
  | MtFsconfigSetString (fd : Z) (key val : string)
  | MtFsconfigCreate (fd : Z)
  | MtFsmount (fd : Z)
  | MtMoveMount (fd : Z) (target : string)
  | FdClose (fd : Z)
  (* containerd: a client, the namespace of the context, an image *)
  | CtdNew (address : string)
  | CtdClose (client : Z)
  | CtdGetImage (client : Z) (ns ref : string)
  | CtdPull (client : Z) (ns ref : string)
  | CtdIsUnpacked (img : Z)
  | CtdUnpack (img : Z)
  | CtdRootFS (img : Z)
  | CtdSnapRemove (client : Z) (ns key : string)
  | CtdSnapView (client : Z) (ns key parent : string)
  (* processes: a kill is SIGKILL, a probe signal 0 *)
  | ProcStart (name : string) (args : list string) (out : sink)
  | ProcKill (pid : Z)
  | ProcWait (pid : Z)
  | ProcProbe (pid : Z)
  (* time: whether the time limit of a wait has passed, a pause, the time as JSON has it *)
  | TmPassed (limit : Z)
  | TmPause (duration : Z)
  | TmNow
  | NewUUID
  (* unix sockets: a connection, HTTP requests, a line that is read, all lines until an error or the
     deadline (the last may be cut), descriptors sent along *)
  | SockDial (path : string) (limit : option Z)
  | SockWrite (conn : Z) (data : string) (fds : list Z)
  | SockReadLine (conn : Z)
  | SockReadLines (conn : Z)
  | SockHttp (path method url : string) (body : option string)
  (* the kata-agent over a connection; [AgReads]: what repeated reads of a stream give, up to and with
     the first that fails or the end of the time given *)
  | AgCall (conn : Z) (req : agent_request) (limit : option Z)
  | AgWaitProcess (conn : Z) (containerID execID : string) (limit : option Z)
  | AgReadStream (conn : Z) (containerID execID : string) (stderr : bool) (max : Z)
  | AgReads (conn : Z) (containerID execID : string) (stderr : bool) (max : Z) (grace : option Z)
  (* tap devices *)
  | TunOpen
  | TunSetIff (fd : Z) (name : string) (flags : Z)
  (* files with holes, through descriptors *)
  | FlOpen (path : string) (write : bool)
  | FlSize (path : string)
  | FlFdSize (fd : Z)
  | FlSeekData (fd off : Z)
  | FlSeekHole (fd off : Z)
  | FlSeek (fd off : Z)
  | FlReadFull (fd n : Z)
  | FlWrite (fd : Z) (data : string)
  | FsSync (path : string)
  (* the entries below a directory in the order of a walk, by their relative path *)
  | FsWalk (root : string)
  | FlCopyTo (fd : Z) (target : string).

(** A directory listing may be cut short by an error; its entries are names with whether they
    are directories. The return to the thread's own network namespace panics when it fails, which
    is not modelled. *)
#[export] Instance SysE_effect : Effect SysE := fun e =>
  match e with
  | CmdRun _ _ _ _ => (string * option cmd_error)%type
  | FsMkdir _ | FsMkdirAll _ | FsRemove _ | FsRemoveAll _ | FsWriteFile _ _ => option error
  | FsReadFile _ | FsReadBack _ | FsCreateTemp _ => result string
  | FsStat _ => result file_kind
  | FsRename _ _ | FsOpenFile _ | FsClose _ => option error
  | FsReadDir _ => (list (string * bool) * option error)%type
  | FsStatfs _ | NsOpen _ | MtFsopen _ | MtFsmount _ => result Z
  | NsEnter _ => option error
  | NsReturn _ => unit
  | MtUnmount _ | MtMount _ _ _ _ _ | MtFsconfigSetString _ _ _ | MtFsconfigCreate _ => option error
  | MtMoveMount _ _ | FdClose _ => option error
  | CtdNew _ | CtdGetImage _ _ _ | CtdPull _ _ _ => result Z
  | CtdClose _ | CtdUnpack _ | CtdSnapRemove _ _ _ => option error
  | CtdIsUnpacked _ => result bool
  | CtdRootFS _ => result (list string)
  | CtdSnapView _ _ _ _ => result (list Mount)
  | ProcStart _ _ _ => result Z
  | ProcKill _ | ProcWait _ => option error
  | ProcProbe _ | TmPassed _ => bool
  | TmPause _ => option error
  | TmNow | NewUUID => string
  | SockDial _ _ => result Z
  | SockWrite _ _ _ => option error
  | SockReadLine _ => result string
  | SockReadLines _ => list string
  | SockHttp _ _ _ _ => result (Z * result string)
  | AgCall _ _ _ => option error
  | AgWaitProcess _ _ _ _ => result Z
  | AgReadStream _ _ _ _ _ => (string * option error)%type
  | AgReads _ _ _ _ _ _ => list string
  | TunOpen => result Z
  | TunSetIff _ _ _ => option error
  | FlOpen _ _ | FlSize _ | FlFdSize _ | FlSeekData _ _ | FlSeekHole _ _ => result Z
  | FlSeek _ _ => option error
  | FlReadFull _ _ => (string * option error)%type
  | FlWrite _ _ => option error
  | FsSync _ | FlCopyTo _ _ => option error
  | FsWalk _ => list (string * result bool)
  end.

(** The process environment, what an error of the system means, the order in which Go visits a map,
    and [sort.Slice] by falling length. [IsNotExist] is [os.IsNotExist]; [Is_ErrNotExist],
    [Is_ENXIO] and [Is_EXDEV] are [errors.Is] with fs.ErrNotExist and the two error numbers. *)
Class HostEnv := {
  Getenv : string -> string;
  Getpid : Z;
  GOARCH : string;
  IsExist : error -> bool;
  IsNotExist : error -> bool;
  Is_ErrNotExist : error -> bool;
  Is_ENXIO : error -> bool;
  Is_EXDEV : error -> bool;
  range_map : list (string * string) -> list (string * string);
  sort_longest : list string -> list string;
}.
Class HostEnvLaws `{HostEnv} : Prop := {
  range_map_perm l : range_map l ≡ₚ l;
  sort_longest_perm l : sort_longest l ≡ₚ l;
}.

(** [json.MarshalIndent] and [json.Unmarshal], up to the value a text stands for; a number read
    into an [any] is a float64, of which [any_number] is the number written back, and
    [number_int] the integer it is converted to; [is_time] are the texts time.Time reads. *)
Class JsonText := {
  MarshalIndent : json -> string;
  Unmarshal : string -> result json;
  any_number : json -> json;
  number_int : json -> Z;
  is_time : string -> bool;
}.

(** Values whose text reads back as themselves: no other numbers than integers, valid UTF-8. *)
Inductive readable : json -> Prop :=
  | readable_null : readable JNull
  | readable_bool b : readable (JBool b)
  | readable_int z : readable (JInt z)
  | readable_str s : utf8 s -> readable (JStr s)
  | readable_arr l : Forall readable l -> readable (JArr l)
  | readable_obj fields : Forall (fun kv => utf8 kv.1) fields -> Forall (fun kv => readable kv.2) fields ->
      readable (JObj fields).
Class JsonTextLaws `{JsonText} : Prop := {
  unmarshal_marshal j : readable j -> Unmarshal (MarshalIndent j) = Ok j;
}.

(** [json.Unmarshal(raw, &target)] for a fresh target of a given type. *)
Definition Unmarshal_as `{JsonText} {T} `{Json T} (raw : string) : result T :=
  match Unmarshal raw with
  | Err err => Err err
  | Ok j => match decode j with Some v => Ok v | None => Err (Plain "json: cannot unmarshal") end
  end.

(** Image references (github.com/distribution/reference), layer chains (opencontainers) and the
    rendering of a list of mounts. *)
Class ImageApi := {
  ParseDockerRef : string -> result string;
  ChainID : list string -> string;
  show_mounts : list Mount -> string;
}.

(** [exec.CommandContext(...).Run()]. *)
Definition run_cmd (limit : option Z) (name : string) (args : list string) (out : sink) :
    prog SysE (string * option cmd_error) := trigger (CmdRun limit name args out).

(** A call whose result is dropped. *)
Definition ignore {A} (p : prog SysE A) : prog SysE unit := bind (fun _ => Ret tt) p.
Definition then_ {A B} (p : prog SysE A) (q : prog SysE B) : prog SysE B := bind (fun _ => q) p.

Notation "'do!' p 'in' k" := (then_ p k)
  (at level 200, p at level 100, k at level 200, right associativity) : fleet_scope.

(** A sequence of calls of which the first failure is the answer. *)
Definition fails_first (p q : prog SysE (option error)) : prog SysE (option error) :=
  bind (fun r => match r with Some err => Ret (Some err) | None => q end) p.
Notation "'ok!' p 'in' k" := (fails_first p k)
  (at level 200, p at level 100, k at level 200, right associativity) : fleet_scope.

(** [strings.Fields]: the maximal runs of non-space characters. *)
Fixpoint Fields_from (fuel : nat) (s cur : string) : list string :=
  let emit := if bool_decide (cur = "") then [] else [cur] in
  match fuel, s with
  | O, _ | _, EmptyString => emit
  | S fuel', String c s' =>
      match List.find (fun sp => HasPrefix s sp) spaces with
      | Some sp => emit ++ Fields_from fuel' (TrimPrefix s sp) ""
      | None => Fields_from fuel' s' (cur +:+ String c "")
      end
  end.
Definition Fields (s : string) : list string := Fields_from (S (String.length s)) s "".

Example fields_split : Fields "  cpu io	memory " = ["cpu"; "io"; "memory"].
Proof. by vm_compute. Qed.

(** ** A concrete codec, for witnesses

    A value by its number in an enumeration, written in binary. *)

Module HostWitness.
Definition leaf : Type := bool + (Z + (string + string)).
Fixpoint to_tree (j : json) : gen_tree leaf :=
  match j with
  | JNull => GenNode 0 []
  | JBool b => GenLeaf (inl b)
  | JInt z => GenLeaf (inr (inl z))
  | JReal text => GenLeaf (inr (inr (inl text)))
  | JStr s => GenLeaf (inr (inr (inr s)))
  | JArr l => GenNode 1 (map to_tree l)
  | JObj fields => GenNode 2 (map (fun '(k, v) => GenNode 3 [GenLeaf (inr (inr (inr k))); to_tree v]) fields)
  end.
Fixpoint of_tree (t : gen_tree leaf) : json :=
  match t with
  | GenLeaf (inl b) => JBool b
  | GenLeaf (inr (inl z)) => JInt z
  | GenLeaf (inr (inr (inl text))) => JReal text
  | GenLeaf (inr (inr (inr s))) => JStr s
  | GenNode 1 l => JArr (map of_tree l)
  | GenNode 2 l => JObj (map (fun m => match m with
      | GenNode 3 [GenLeaf (inr (inr (inr k))); v] => (k, of_tree v)
      | _ => (EmptyString, JNull)
      end) l)
  | _ => JNull
  end.
Lemma of_to_tree j : of_tree (to_tree j) = j.
Proof.
  revert j. fix IH 1. intros [ |b|z|text|s|l|fields]; cbn; try done; f_equal.
  - induction l as [|j l IHl]; cbn; [done|]. by rewrite IH, IHl.
  - induction fields as [|[k v] fields IHf]; cbn; [done|]. by rewrite IH, IHf.
Qed.

Fixpoint bits (p : positive) : string :=
  match p with xH => "" | xO p => String "0" (bits p) | xI p => String "1" (bits p) end.
Fixpoint of_bits (s : string) : positive :=
  match s with
  | EmptyString => xH
  | String c s => if bool_decide (c = "0"%char) then xO (of_bits s) else xI (of_bits s)
  end.
Lemma of_bits_bits p : of_bits (bits p) = p.
Proof. by induction p as [p IH|p IH|]; cbn; rewrite ?IH. Qed.

#[local] Instance codec : JsonText := {
  MarshalIndent j := bits (countable.encode (to_tree j));
  Unmarshal raw := match countable.decode (of_bits raw) with Some t => Ok (of_tree t) | None => Err (Plain "unexpected end of JSON input") end;
  any_number j := j;
  number_int j := match j with JInt z => z | _ => 0%Z end;
  is_time _ := true;
}.
#[local] Instance codec_laws : JsonTextLaws.
Proof. split. intros j _. cbn. by rewrite of_bits_bits, decode_encode, of_to_tree. Qed.
#[local] Instance env : HostEnv := { Getenv _ := ""; Getpid := 1; GOARCH := "amd64"; IsExist _ := false;
  IsNotExist _ := false; Is_ErrNotExist _ := false; Is_ENXIO _ := false; Is_EXDEV _ := false; range_map l := l; sort_longest l := l }.
#[local] Instance env_laws : HostEnvLaws.
Proof. done. Qed.
#[local] Instance images : ImageApi := {
  ParseDockerRef ref := Ok ("docker.io/library/" +:+ ref);
  ChainID ids := strings_Join ids "-";
  show_mounts _ := "[]";
}.
(** A host on which every call succeeds and that answers with as little as it can: the base of the
    concrete hosts, which serve the calls their runs are about. *)
Definition plain (e : SysE) : answer e :=
  match e as e return answer e with
  | CmdRun _ _ _ _ => ("", None)
  | FsReadFile _ | FsReadBack _ | FsCreateTemp _ => Ok ""
  | FsStat _ => Ok RegularFile
  | FsReadDir _ => ([], None)
  | FsMkdir _ | FsMkdirAll _ | FsRemove _ | FsRemoveAll _ | FsWriteFile _ _ => None
  | FsRename _ _ | FsOpenFile _ | FsClose _ => None
  | FsStatfs _ | NsOpen _ | MtFsopen _ | MtFsmount _ => Ok 7%Z
  | NsEnter _ => None
  | NsReturn _ => tt
  | MtUnmount _ | MtMount _ _ _ _ _ | MtFsconfigSetString _ _ _ | MtFsconfigCreate _ => None
  | MtMoveMount _ _ | FdClose _ => None
  | CtdNew _ | CtdGetImage _ _ _ | CtdPull _ _ _ => Ok 1%Z
  | CtdClose _ | CtdUnpack _ | CtdSnapRemove _ _ _ => None
  | CtdIsUnpacked _ => Ok true
  | CtdRootFS _ => Ok ["sha256:layer"]
  | CtdSnapView _ _ _ _ => Ok [mkMount "overlay" "overlay" ["lowerdir=/layers/2:/layers/1"]]
  | ProcStart _ _ _ => Ok 100%Z
  | ProcKill _ | ProcWait _ => None
  | ProcProbe _ | TmPassed _ => false
  | TmPause _ => None
  | TmNow | NewUUID => ""
  | SockDial _ _ => Ok 5%Z
  | SockWrite _ _ _ => None
  | SockReadLine _ => Ok ""
  | SockReadLines _ => []
  | SockHttp _ _ _ _ => Ok (204%Z, Ok "")
  | AgCall _ _ _ => None
  | AgWaitProcess _ _ _ _ => Ok 0%Z
  | AgReadStream _ _ _ _ _ => ("", None)
  | AgReads _ _ _ _ _ _ => []
  | TunOpen => Ok 9%Z
  | TunSetIff _ _ _ => None
  | FlOpen _ _ | FlSize _ | FlFdSize _ | FlSeekData _ _ | FlSeekHole _ _ => Ok 0%Z
  | FlSeek _ _ => None
  | FlReadFull _ _ => ("", None)
  | FlWrite _ _ => None
  | FsSync _ | FlCopyTo _ _ => None
  | FsWalk _ => []
  end.
End HostWitness.
