(* ===== verification/Snapshotters.v ===== *)
(** * What the snapshotters share (internal/snapshotter)

    Names, the address plan of restored guests, the list of containers kept with a gVisor
    checkpoint, the command lines of [runsc], and overlay options: the parts that call nothing. *)

From S2P Require Import Prelude Prog Strings Json Runtime WorkerEnv Host.

(* go: internal/snapshotter/snapshotter.go RestoredName *)
Definition RestoredName (identity : SandboxIdentity) : string :=
  let base := if bool_decide (id_Name identity = "") then "restored" else id_Name identity in
  let uid := id_UID identity in
  let uid := if 8 <? String.length uid then take_bytes 8 uid else uid in
  path_Base base +:+ "-" +:+ uid.

(* go: internal/snapshotter/snapshotter.go StripPrefix *)
Definition StripPrefix (value prefix : string) : option string :=
  if HasPrefix value prefix then Some (TrimPrefix value prefix) else None.

(* go: internal/snapshotter/snapshotter.go firstNonEmpty *)
Definition firstNonEmpty (values : list string) : string :=
  default "" (List.find (fun v => negb (bool_decide (v = ""))) values).

(** ** Addresses of restored guests *)

Definition guestIface : string := "eth0".
Definition guestMask : string := "16".
Definition guestGateway : string := "10.89.0.1".
Definition guestSubnet : string := "10.89.0.0/16".
Definition guestBridge : string := "sf-br0".
Definition gatewayMAC : string := "02:00:00:5f:00:fe".

(* go: internal/snapshotter/kata_guestnet.go guestNet *)
Record guestNet := mkGuestNet {
  gn_Iface : string;
  gn_IP : string;
  gn_Mask : string;
  gn_Gateway : string;
  gn_Subnet : string;
  gn_MAC : string;
  gn_GatewayMAC : string;
}.

(** [%02x] of a byte. *)
Definition hex_char (n : Z) : ascii := Ascii.ascii_of_nat (Z.to_nat (if (n <? 10)%Z then 48 + n else 87 + n)).
Definition hex2 (b : Z) : string := String (hex_char (b / 16)) (String (hex_char (b mod 16)) "").

(* go: internal/snapshotter/kata_guestnet.go guestNetForSlot *)
Definition guestNetForSlot (slotID : Z) : result guestNet :=
  if (slotID <? 0)%Z || (252 <? slotID)%Z then
    Err (Plain ("slotID " +:+ itoa slotID +:+ " out of range for guest IP (want 0..252)"))
  else
    let host := (wrap32 (2 + slotID) mod 2 ^ 8)%Z in
    Ok (mkGuestNet guestIface ("10.89.0." +:+ itoa host) guestMask guestGateway guestSubnet
          ("02:00:00:5f:00:" +:+ hex2 host) gatewayMAC).

(** ** The containers of a gVisor checkpoint *)

Definition gvisorContainersFile : string := "sandboxfleet-containers.json".

(* go: internal/snapshotter/gvisor_containers.go gvisorRestoreContainer *)
Record gvisorRestoreContainer := mkRestoreContainer {
  rc_ID : string;
  rc_Name : string;
  rc_Sandbox : bool;
  rc_Image : string;
  rc_RootfsTar : string;
}.
#[export] Instance gvisorRestoreContainer_eq_dec : EqDecision gvisorRestoreContainer.
Proof. solve_decision. Defined.

Definition set_Image (v : string) (c : gvisorRestoreContainer) : gvisorRestoreContainer :=
  mkRestoreContainer (rc_ID c) (rc_Name c) (rc_Sandbox c) v (rc_RootfsTar c).
Definition set_Sandbox (v : bool) (c : gvisorRestoreContainer) : gvisorRestoreContainer :=
  mkRestoreContainer (rc_ID c) (rc_Name c) v (rc_Image c) (rc_RootfsTar c).

Definition empty (s : string) : bool := bool_decide (s = "").

(* go: internal/snapshotter/gvisor_containers.go 15-35 gvisorRestoreContainer *)
#[export] Instance gvisorRestoreContainer_json : Json gvisorRestoreContainer := {
  zero := mkRestoreContainer zero zero zero zero zero;
  enc x := JObj (("id", enc (rc_ID x)) ::
    omitempty (bool_decide (rc_Name x = "")) "name" (enc (rc_Name x)) ++
    omitempty (negb (rc_Sandbox x)) "sandbox" (enc (rc_Sandbox x)) ++
    omitempty (bool_decide (rc_Image x = "")) "image" (enc (rc_Image x)) ++
    omitempty (bool_decide (rc_RootfsTar x = "")) "rootfsTar" (enc (rc_RootfsTar x)));
  dec := dec_struct [
    json_field "id" rc_ID (fun v x => mkRestoreContainer v (rc_Name x) (rc_Sandbox x) (rc_Image x) (rc_RootfsTar x));
    json_field "name" rc_Name (fun v x => mkRestoreContainer (rc_ID x) v (rc_Sandbox x) (rc_Image x) (rc_RootfsTar x));
    json_field "sandbox" rc_Sandbox (fun v x => mkRestoreContainer (rc_ID x) (rc_Name x) v (rc_Image x) (rc_RootfsTar x));
    json_field "image" rc_Image (fun v x => mkRestoreContainer (rc_ID x) (rc_Name x) (rc_Sandbox x) v (rc_RootfsTar x));
    json_field "rootfsTar" rc_RootfsTar (fun v x => mkRestoreContainer (rc_ID x) (rc_Name x) (rc_Sandbox x) (rc_Image x) v)];
}.

Section Containers.
Context {HE : HostEnv}.

Definition defaultPauseImage : string := "registry.k8s.io/pause:3.10".
(* go: internal/snapshotter/gvisor_image_linux.go pauseImageRef *)
Definition pauseImageRef : string := firstNonEmpty [Getenv "SANDBOXFLEET_PAUSE_IMAGE"; defaultPauseImage].

(* go: internal/snapshotter/gvisor_containers.go gvisorCRIContainers *)
Definition gvisorCRIContainers (appName appImage : string) : list gvisorRestoreContainer :=
  [mkRestoreContainer "pause" "" true pauseImageRef ""; mkRestoreContainer appName appName false appImage ""].

(** The id of the container [runsc exec] runs in: the last one that is not the sandbox. *)
(* go: internal/snapshotter/gvisor_containers.go gvisorAppContainerID *)
Definition gvisorAppContainerID (containers : list gvisorRestoreContainer) : string :=
  match List.find (fun c => negb (rc_Sandbox c)) (reverse containers) with
  | Some c => rc_ID c
  | None => match last containers with Some c => rc_ID c | None => "" end
  end.

(** The images are filled in place, up to the container that has none. *)
(* go: internal/snapshotter/gvisor_containers.go fillGVisorContainerImages *)
Fixpoint fillGVisorContainerImages (containers : list gvisorRestoreContainer) (appImage : string) :
    result (list gvisorRestoreContainer) :=
  match containers with
  | [] => Ok []
  | c :: rest =>
      if rc_Sandbox c then
        let c := if empty (rc_Image c) then set_Image pauseImageRef c else c in
        rest' ← fillGVisorContainerImages rest appImage; mret (c :: rest')
      else
        let c := if empty (rc_Image c) then set_Image appImage c else c in
        if empty (rc_Image c) then
          Err (Plain ("container " +:+ rc_ID c +:+ " missing image (and no AppImage fallback)"))
        else rest' ← fillGVisorContainerImages rest appImage; mret (c :: rest')
  end.

(** The container the others join: the first sandbox, or else the first one, which becomes it. The
    list is never empty here (an empty file is rejected when it is read). *)
(* go: internal/snapshotter/gvisor.go 201-211 GVisor.LoadSnapshot *)
Definition choose_root (containers : list gvisorRestoreContainer) : string * list gvisorRestoreContainer :=
  let rootCID := match List.find rc_Sandbox containers with Some c => rc_ID c | None => "" end in
  if empty rootCID then
    match containers with
    | c :: rest => (rc_ID c, set_Sandbox true c :: rest)
    | [] => ("", [])
    end
  else (rootCID, containers).
End Containers.

(** ** Command lines of runsc *)

Definition gvisorIDPrefix : string := "runsc:".

(* go: internal/snapshotter/gvisor.go gvisorCheckpointArgs *)
Definition gvisorCheckpointArgs (root imagePath sandboxName : string) : list string :=
  ["--root"; root; "--network=host"; "checkpoint"; "--image-path"; imagePath; "--leave-running"; sandboxName].

(* go: internal/snapshotter/gvisor.go gvisorDebugFlags *)
Definition gvisorDebugFlags (debugDir : string) : list string :=
  if empty debugDir then []
  else
    let debugDir := if HasSuffix debugDir "/" then debugDir else debugDir +:+ "/" in
    ["--debug"; "--debug-log"; debugDir; "--alsologtostderr"].

Definition restore_flags (root debugDir : string) (sandbox : bool) : list string :=
  ["--root"; root; "--network=host"; "--restore-spec-validation=ignore"] ++
  (if sandbox then ["--overlay2=none"] else []) ++ gvisorDebugFlags debugDir.

(* go: internal/snapshotter/gvisor.go gvisorCreateArgs *)
Definition gvisorCreateArgs (root bundleDir sandboxName debugDir : string) (sandbox : bool) : list string :=
  restore_flags root debugDir sandbox ++ ["create"; "--bundle"; bundleDir; sandboxName].

(* go: internal/snapshotter/gvisor.go gvisorRestoreArgs *)
Definition gvisorRestoreArgs (root bundleDir imagePath sandboxName debugDir : string) (sandbox : bool) : list string :=
  restore_flags root debugDir sandbox ++
  ["restore"; "--bundle"; bundleDir; "--image-path"; imagePath; "--background"; "--direct"; "--detach"; sandboxName].

(* go: internal/snapshotter/gvisor.go 177-177 GVisor.LoadSnapshot *)
Definition gvisorDeleteArgs (root id : string) : list string := ["--root"; root; "delete"; "-force"; id].

(** ** Overlay options *)

(** [strings.ReplaceAll(s, c, t)] for one byte [c]. *)
Fixpoint replace_byte (c : ascii) (t s : string) : string :=
  match s with
  | EmptyString => ""
  | String d s' => if bool_decide (d = c) then t +:+ replace_byte c t s' else String d (replace_byte c t s')
  end.

(* go: internal/snapshotter/gvisor_image_linux.go 245-250 mountOverlayClassic *)
Definition escape_lower (l : string) : string :=
  let l := replace_byte backslash (String backslash (String backslash "")) l in
  let l := replace_byte ":"%char (String backslash ":") l in
  replace_byte ","%char (String backslash ",") l.

(** The parts that end at a separator, and what is in the builder at the end. *)
(* go: internal/snapshotter/gvisor_image_linux.go 162-178 splitOverlayLowerdirs *)
Fixpoint split_lowers (s cur : string) (escaped : bool) : list string * string :=
  match s with
  | EmptyString => ([], cur)
  | String c s' =>
      if escaped then split_lowers s' (cur +:+ String c "") false
      else if bool_decide (c = backslash) then split_lowers s' cur true
      else if bool_decide (c = ":"%char) then
        let '(out, b) := split_lowers s' "" false in (cur :: out, b)
      else split_lowers s' (cur +:+ String c "") false
  end.

(** A range over a string gives its characters, invalid UTF-8 as U+FFFD. *)
(* go: internal/snapshotter/gvisor_image_linux.go splitOverlayLowerdirs *)
Definition splitOverlayLowerdirs (v : string) : list string :=
  let '(out, b) := split_lowers (to_utf8 v) "" false in
  if negb (empty b) || HasSuffix v ":" then out ++ [b] else out.

Section Mounts.
Context {IA : ImageApi}.

(** The value of the first [lowerdir=] option. *)
(* go: internal/snapshotter/gvisor_image_linux.go 138-146 lowerDirsFromMounts *)
Fixpoint lowerdir_option (options : list string) : option string :=
  match options with
  | [] => None
  | opt :: rest =>
      match StripPrefix opt "lowerdir=" with
      | Some v => Some v
      | None => lowerdir_option rest
      end
  end.

(* go: internal/snapshotter/gvisor_image_linux.go 134-157 lowerDirsFromMounts *)
Fixpoint lower_dirs (all mounts : list Mount) (lowers : list string) : result (list string) :=
  match mounts with
  | [] => if bool_decide (lowers = []) then Err (Plain ("no overlay/bind lowerdirs in " +:+ show_mounts all)) else Ok lowers
  | m :: rest =>
      if bool_decide (mt_Type m = "overlay") || bool_decide (mt_Type m = "overlayfs") then
        match lowerdir_option (mt_Options m) with
        | Some v =>
            let parts := splitOverlayLowerdirs v in
            if bool_decide (parts = []) then Err (Plain "empty lowerdir in mount options") else Ok parts
        | None => lower_dirs all rest lowers
        end
      else if bool_decide (mt_Type m = "bind") then
        lower_dirs all rest (if empty (mt_Source m) then lowers else lowers ++ [mt_Source m])
      else lower_dirs all rest lowers
  end.
(* go: internal/snapshotter/gvisor_image_linux.go lowerDirsFromMounts *)
Definition lowerDirsFromMounts (mounts : list Mount) : result (list string) := lower_dirs mounts mounts [].

(** ** Image references *)

(* go: internal/snapshotter/gvisor_image_ref.go normalizeImageRef *)
Definition normalizeImageRef (ref : string) : result string :=
  if empty ref then Err (Plain "image ref is empty") else ParseDockerRef ref.

Definition add_candidate (out : list string) (s : string) : list string :=
  if empty s || bool_decide (s ∈ out) then out else out ++ [s].
(* go: internal/snapshotter/gvisor_image_ref.go imageRefCandidates *)
Definition imageRefCandidates (ref : string) : list string :=
  let out := match normalizeImageRef ref with Ok n => add_candidate [] n | Err _ => [] end in
  add_candidate out ref.

(* go: internal/snapshotter/gvisor_image_linux.go shortDigest *)
Definition shortDigest (s : string) : string :=
  let s := TrimPrefix s "sha256:" in
  if 12 <? String.length s then take_bytes 12 s else s.
End Mounts.
