(* ===== verification/SnapshottersFacts.v ===== *)
(** * Correctness of the shared parts of the snapshotters

    The address plan, the overlay options, and the list of containers kept with a checkpoint. *)

From S2P Require Import Prelude Prog Strings Json Slot Api ApiJson Runtime WorkerEnv Host Snapshotters.

(** ** Addresses *)

Lemma itoa_inj a b : itoa a = itoa b -> a = b.
Proof. apply (inj pretty). Qed.

Lemma string_app_inv_head p a b : p +:+ a = p +:+ b -> a = b.
Proof. induction p as [|c p IH]; [done|]. rewrite !string_app_cons. intros [= H]. by apply IH. Qed.

(** The byte its two digits stand for. *)
Definition unhex_char (c : ascii) : Z := if is_digit c then digit_value c else Z.of_nat (Ascii.nat_of_ascii c) - 87.
Definition unhex2 (s : string) : Z :=
  match s with String a (String b "") => 16 * unhex_char a + unhex_char b | _ => -1 end.

Lemma unhex2_hex2 b : (0 <= b < 256)%Z -> unhex2 (hex2 b) = b.
Proof.
  intros Hb.
  assert (Hall : Forall (fun n => unhex2 (hex2 (Z.of_nat n)) = Z.of_nat n) (seq 0 256)).
  { apply (bool_decide_unpack _). by vm_compute. }
  rewrite Forall_forall in Hall. rewrite <- (Z2Nat.id b) by lia. apply Hall, elem_of_seq. lia.
Qed.

Lemma hex2_inj a b : (0 <= a < 256)%Z -> (0 <= b < 256)%Z -> hex2 a = hex2 b -> a = b.
Proof. intros Ha Hb Heq. by rewrite <- (unhex2_hex2 a), Heq, unhex2_hex2. Qed.

Lemma guest_net_Ok s n : guestNetForSlot s = Ok n ->
  (0 <= s <= 252)%Z /\ gn_IP n = "10.89.0." +:+ itoa (2 + s) /\ gn_MAC n = "02:00:00:5f:00:" +:+ hex2 (2 + s).
Proof.
  unfold guestNetForSlot. destruct (_ || _) eqn:Hr; [done|]. apply orb_false_iff in Hr as [H1 H2].
  intros [= <-]. rewrite wrap32_id by (unfold in_int32, int32_min, int32_max; lia).
  rewrite Z.mod_small by lia. split; [lia|done].
Qed.

(** C28. The address plan of restored guests: exactly the Slots 0 to 252 get an address; two Slots never
    share an IP or a MAC address, and no guest has the IP of the gateway. The MAC address of the
    gateway, however, is also that of the guest of Slot 252. *)
Theorem guest_addresses s1 s2 :
  (is_ok (guestNetForSlot s1) = true <-> (0 <= s1 <= 252)%Z) /\
  forall n1 n2, guestNetForSlot s1 = Ok n1 -> guestNetForSlot s2 = Ok n2 ->
    (gn_IP n1 = gn_IP n2 <-> s1 = s2) /\ (gn_MAC n1 = gn_MAC n2 <-> s1 = s2) /\
    gn_IP n1 <> guestGateway /\ (gn_MAC n1 = gatewayMAC <-> s1 = 252%Z).
Proof.
  split.
  { unfold guestNetForSlot. destruct (_ || _) eqn:Hr; cbn.
    - apply orb_true_iff in Hr. lia.
    - apply orb_false_iff in Hr. split; [lia|done]. }
  intros n1 n2 (H1 & Hi1 & Hm1)%guest_net_Ok (H2 & Hi2 & Hm2)%guest_net_Ok. rewrite Hi1, Hi2, Hm1, Hm2.
  assert (Hmac : forall a b, (0 <= a <= 252)%Z -> (0 <= b <= 252)%Z ->
    "02:00:00:5f:00:" +:+ hex2 (2 + a) = "02:00:00:5f:00:" +:+ hex2 (2 + b) <-> a = b).
  { intros a b Ha Hb. split; [|by intros ->]. intros Heq%string_app_inv_head%hex2_inj; lia. }
  split; [|split; [|split]].
  - split; [|by intros ->]. intros Heq%string_app_inv_head%itoa_inj. lia.
  - by apply Hmac.
  - change guestGateway with ("10.89.0." +:+ itoa 1). intros Heq%string_app_inv_head%itoa_inj. lia.
  - change gatewayMAC with ("02:00:00:5f:00:" +:+ hex2 (2 + 252)). by apply Hmac.
Qed.

(** ** Overlay options *)

Lemma replace_byte_app c r a b : replace_byte c r (a +:+ b) = replace_byte c r a +:+ replace_byte c r b.
Proof.
  induction a as [|d a IH]; [done|]. rewrite string_app_cons. cbn [replace_byte].
  destruct (bool_decide (d = c)); rewrite IH, ?string_app_assoc; by rewrite ?string_app_cons.
Qed.

Definition special (c : ascii) : bool :=
  bool_decide (c = backslash) || bool_decide (c = ":"%char) || bool_decide (c = ","%char).

Lemma escape_lower_cons c s :
  escape_lower (String c s) = (if special c then String backslash (String c "") else String c "") +:+ escape_lower s.
Proof.
  unfold escape_lower, special. change (String c s) with (String c "" +:+ s). rewrite !replace_byte_app. f_equal.
  destruct (decide (c = backslash)) as [->|Hb]; [done|].
  destruct (decide (c = ":"%char)) as [->|Hc]; [done|].
  destruct (decide (c = ","%char)) as [->|Hk]; [done|].
  cbn [replace_byte]. rewrite !(bool_decide_eq_false_2 (c = _)) by done. cbn [replace_byte orb].
  rewrite !(bool_decide_eq_false_2 (c = _)) by done. cbn [replace_byte].
  by rewrite !(bool_decide_eq_false_2 (c = _)) by done.
Qed.

(** An escaped directory goes into the builder whole. *)
Lemma split_lowers_escaped s rest cur :
  split_lowers (escape_lower s +:+ rest) cur false = split_lowers rest (cur +:+ s) false.
Proof.
  revert cur. induction s as [|c s IH]; intros cur.
  { change (escape_lower "") with "". by rewrite string_app_nil_r. }
  rewrite escape_lower_cons, <- string_app_assoc.
  change (String c s) with (String c "" +:+ s). rewrite (string_app_assoc cur), <- IH.
  unfold special. destruct (bool_decide (c = backslash)) eqn:Hb; [by apply bool_decide_eq_true in Hb as ->|].
  destruct (bool_decide (c = ":"%char)) eqn:Hc; [by apply bool_decide_eq_true in Hc as ->|].
  destruct (bool_decide (c = ","%char)) eqn:Hk; [by apply bool_decide_eq_true in Hk as ->|].
  cbn [orb]. rewrite string_app_cons. cbn [split_lowers]. by rewrite Hb, Hc.
Qed.

Lemma split_lowers_join l last :
  split_lowers (strings_Join (escape_lower <$> (l ++ [last])) ":") "" false = (l, last).
Proof.
  induction l as [|d l IH].
  - cbn [app fmap list_fmap strings_Join]. rewrite <- (string_app_nil_r (escape_lower last)), split_lowers_escaped. done.
  - destruct (l ++ [last]) as [|x rest] eqn:Hl; [by destruct l|]. cbn [app]. rewrite Hl. cbn [fmap list_fmap] in IH |- *.
    change (strings_Join (escape_lower d :: escape_lower x :: _) ":") with
      (escape_lower d +:+ ":" +:+ strings_Join (escape_lower x :: (escape_lower <$> rest)) ":").
    rewrite split_lowers_escaped. rewrite string_app_cons. cbn [split_lowers].
    rewrite bool_decide_eq_false_2 by done. rewrite bool_decide_eq_true_2 by done.
    change ("" +:+ ?s) with s. by rewrite IH.
Qed.

(** Escaping keeps text well formed: what it adds is ASCII, and the bytes of longer characters are
    not special. *)
Lemma escape_lower_app a b : escape_lower (a +:+ b) = escape_lower a +:+ escape_lower b.
Proof. unfold escape_lower. by rewrite !replace_byte_app. Qed.

Lemma special_ascii c : byte_in 0 127 c = false -> special c = false.
Proof.
  intros Hc. unfold special. repeat rewrite bool_decide_eq_false_2; [done|..]; by intros ->.
Qed.

(** Bytes of a sequence are not ASCII. *)
Lemma high_byte lo hi c : 128 <= lo -> byte_in lo hi c = true -> special c = false.
Proof.
  unfold byte_in. intros Hlo [H1%Nat.leb_le _]%andb_true_iff. apply special_ascii. unfold byte_in.
  apply andb_false_iff. right. apply Nat.leb_gt. lia.
Qed.

Lemma second_byte (bs : list (bool * (nat * nat))) b :
  Forall (fun x => 128 <= x.2.1) bs ->
  existsb (fun x => x.1 && byte_in x.2.1 x.2.2 b) bs = true -> special b = false.
Proof.
  intros Hall (x & Hin%list_elem_of_In & [_ Hx]%andb_true_iff)%existsb_exists.
  rewrite Forall_forall in Hall. by eapply high_byte; [apply Hall|].
Qed.

Lemma second_of_three_high a b : second_of_three a b = true -> special b = false.
Proof.
  intros H. apply (second_byte [(byte_in 224 224 a, (160, 191)); (byte_in 225 236 a, (128, 191));
    (byte_in 237 237 a, (128, 159)); (byte_in 238 239 a, (128, 191))]); [repeat constructor; cbn; lia|].
  unfold second_of_three, continuation in H. cbn [existsb fst snd]. by rewrite orb_false_r, !orb_assoc.
Qed.

Lemma second_of_four_high a b : second_of_four a b = true -> special b = false.
Proof.
  intros H. apply (second_byte [(byte_in 240 240 a, (144, 191)); (byte_in 241 243 a, (128, 191));
    (byte_in 244 244 a, (128, 143))]); [repeat constructor; cbn; lia|].
  unfold second_of_four, continuation in H. cbn [existsb fst snd]. by rewrite orb_false_r, !orb_assoc.
Qed.

Lemma utf8_escape_char ch : utf8_char ch -> utf8 (escape_lower ch).
Proof.
  intros Hch. pose proof (to_utf8_char ch "" Hch) as Hu.
  assert (Hcont : forall c, continuation c = true -> special c = false) by (intros c; apply high_byte; lia).
  destruct Hch as [a Ha|a b Ha [_ Hb]%andb_true_iff|a b c Ha _ [Hb Hc]%andb_true_iff|a b c d Ha _ _ [[Hb Hc]%andb_true_iff Hd]%andb_true_iff];
    rewrite !escape_lower_cons; change (escape_lower "") with "".
  - apply utf8_ascii. destruct (special a); rewrite !string_app_cons; cbn [is_ascii]; by rewrite Ha.
  - by rewrite special_ascii, (Hcont b) by done.
  - by rewrite special_ascii, (second_of_three_high a b), (Hcont c) by done.
  - by rewrite special_ascii, (second_of_four_high a b), (Hcont c), (Hcont d) by done.
Qed.

Lemma utf8_escape s : utf8 s -> utf8 (escape_lower s).
Proof.
  intros Hs. induction Hs as [|ch s Hch _ IH] using utf8_rect; [done|].
  rewrite escape_lower_app. by apply utf8_app; [apply utf8_escape_char|].
Qed.

Lemma utf8_join l sep : utf8 sep -> Forall utf8 l -> utf8 (strings_Join l sep).
Proof.
  intros Hsep Hl. induction Hl as [|s l Hs Hl IH]; [done|]. cbn [strings_Join].
  destruct l; [done|]. by repeat apply utf8_app.
Qed.

Lemma join_snoc l last sep :
  l <> [] -> strings_Join (l ++ [last]) sep = strings_Join l sep +:+ sep +:+ last.
Proof.
  intros Hl. induction l as [|s [|s' l] IH]; [done|done|].
  change (strings_Join ((s :: s' :: l) ++ [last]) sep) with (s +:+ sep +:+ strings_Join ((s' :: l) ++ [last]) sep).
  rewrite IH by done. change (strings_Join (s :: s' :: l) sep) with (s +:+ sep +:+ strings_Join (s' :: l) sep).
  by rewrite <- !string_app_assoc.
Qed.

(** Overlay options read back as they were written: the [lowerdir=] value that the classic mount
    builds from a list of layer directories splits into exactly these directories - whatever
    separators, commas and backslashes their names contain - except for the list of one empty name. *)
Theorem overlay_lowerdirs_roundtrip l :
  l <> [""] -> Forall utf8 l -> splitOverlayLowerdirs (strings_Join (escape_lower <$> l) ":") = l.
Proof.
  intros Hne Hu. unfold splitOverlayLowerdirs.
  replace (to_utf8 (strings_Join (escape_lower <$> l) ":")) with (strings_Join (escape_lower <$> l) ":").
  2: { symmetry. apply utf8_join; [done|]. apply Forall_fmap. eapply Forall_impl; [exact Hu|]. apply utf8_escape. }
  destruct l as [|last l _] using rev_ind; [done|]. rewrite split_lowers_join.
  destruct (empty last) eqn:He; cbn [negb orb]; [|done].
  unfold empty in He. apply bool_decide_eq_true in He as ->.
  assert (Hl : escape_lower <$> l <> []) by (intros Hnil; apply fmap_nil_inv in Hnil as ->; done).
  rewrite fmap_app. cbn [fmap list_fmap]. rewrite join_snoc by done. rewrite string_app_assoc.
  change (escape_lower "") with "". rewrite string_app_nil_r. by rewrite HasSuffix_app.
Qed.

(** ** The list of containers *)

(** A container survives the file when its strings are well-formed text. *)
#[export, refine] Instance gvisorRestoreContainer_laws : JsonLaws gvisorRestoreContainer := { valid x :=
  valid (rc_ID x) /\ valid (rc_Name x) /\ valid (rc_Sandbox x) /\ valid (rc_Image x) /\ valid (rc_RootfsTar x) }.
Proof. solve_json. Defined.

Lemma readable_string (s : string) : valid s -> readable (enc s).
Proof. intros Hs. cbn in *. rewrite Hs. by constructor. Qed.

Lemma readable_container (c : gvisorRestoreContainer) : valid c -> readable (enc c).
Proof.
  destruct c as [i n s im tar]. intros (Hi & Hn & _ & Him & Htar). cbn [rc_ID rc_Name rc_Sandbox rc_Image rc_RootfsTar] in *.
  assert (Hmember : forall b k (s0 : string), utf8 k -> valid s0 -> Forall (fun kv => utf8 kv.1 /\ readable kv.2) (omitempty b k (enc s0))).
  { intros [] k s0 Hk Hs0; [constructor|]. apply Forall_singleton. split; [done|]. by apply readable_string. }
  assert (Hall : Forall (fun kv => utf8 kv.1 /\ readable kv.2)
    (("id", enc i) :: omitempty (bool_decide (n = "")) "name" (enc n) ++ omitempty (negb s) "sandbox" (JBool s) ++
     omitempty (bool_decide (im = "")) "image" (enc im) ++ omitempty (bool_decide (tar = "")) "rootfsTar" (enc tar))).
  { constructor; [split; [done|by apply readable_string]|]. apply Forall_app. split; [by apply Hmember|].
    apply Forall_app. split; [destruct s; repeat constructor|]. apply Forall_app. split; by apply Hmember. }
  cbn. apply readable_obj; (eapply Forall_impl; [exact Hall|]); by intros kv [].
Qed.

Lemma readable_containers (cs : list gvisorRestoreContainer) : Forall valid cs -> readable (enc cs).
Proof.
  intros Hcs. constructor. apply Forall_fmap. eapply Forall_impl; [exact Hcs|]. apply readable_container.
Qed.

(** Filling in images gives every container one, and then changes nothing any more. *)
Definition has_image (c : gvisorRestoreContainer) : Prop := empty (rc_Image c) = false.

Lemma pause_image_nonempty `{HostEnv} : empty pauseImageRef = false.
Proof. unfold pauseImageRef, firstNonEmpty. cbn. by destruct (bool_decide (Getenv _ = "")) eqn:He; cbn. Qed.

Lemma fill_images_has `{HostEnv} cs app cs' : fillGVisorContainerImages cs app = Ok cs' -> Forall has_image cs'.
Proof.
  revert cs'. induction cs as [|c cs IH]; intros cs'; cbn [fillGVisorContainerImages]; [by intros [= <-]; constructor|].
  set (pause := if empty (rc_Image c) then set_Image pauseImageRef c else c).
  set (app_c := if empty (rc_Image c) then set_Image app c else c).
  assert (Hpause : has_image pause).
  { unfold pause, has_image. destruct (empty (rc_Image c)) eqn:He; [apply pause_image_nonempty|done]. }
  destruct (rc_Sandbox c); [|destruct (empty (rc_Image app_c)) eqn:He; [done|]];
    (destruct (fillGVisorContainerImages cs app) as [rest|]; [|done]); intros [= <-]; constructor; eauto.
Qed.

Lemma fill_images_id `{HostEnv} cs app : Forall has_image cs -> fillGVisorContainerImages cs app = Ok cs.
Proof.
  induction 1 as [|c cs Hc Hcs IH]; cbn [fillGVisorContainerImages]; [done|]. unfold has_image in Hc.
  rewrite IH, Hc, Hc. by destruct (rc_Sandbox c).
Qed.

Lemma fill_images_nonempty `{HostEnv} cs app cs' : fillGVisorContainerImages cs app = Ok cs' -> cs <> [] -> cs' <> [].
Proof.
  destruct cs as [|c cs]; [done|]. intros Hf _ ->. cbn [fillGVisorContainerImages] in Hf.
  destruct (rc_Sandbox c); [|destruct (empty _); [done|]]; by destruct (fillGVisorContainerImages cs app).
Qed.

(** ** Witnesses *)

Module SnapshottersWitness.
(** Layer paths with each of the three characters that need an escape. *)
Definition layers : list string := ["/a:b"; "/c\d"; "/e,f"].
Lemma overlay_lowerdirs_roundtrip_witness :
  splitOverlayLowerdirs (strings_Join (escape_lower <$> layers) ":") = layers.
Proof.
  apply (overlay_lowerdirs_roundtrip layers); [done|]. by repeat constructor.
Defined.

Example escaped : strings_Join (escape_lower <$> layers) ":" = "/a\:b:/c\\d:/e\,f".
Proof. by vm_compute. Qed.
End SnapshottersWitness.
