(* ===== verification/Cgroup.v ===== *)
(** * Cgroups of restored guests (internal/snapshotter/cgroup_linux.go)

    The delegation a Worker sets up when it starts, and the cgroup path of a restored container. *)

From S2P Require Import Prelude Prog Strings Host.

Section Cgroup.
Context {HE : HostEnv}.

Definition cgroupMount : string := "/sys/fs/cgroup".
Definition CGROUP2_SUPER_MAGIC : Z := 1667723888.

(* go: internal/snapshotter/cgroup_linux.go isCgroup2FS *)
Definition isCgroup2FS (path : string) : prog SysE bool :=
  call! st := trigger (FsStatfs path) in
  Ret (match st with Ok type => (type =? CGROUP2_SUPER_MAGIC)%Z | Err _ => false end).

(** The path of the first cgroup v2 entry of a process. *)
Definition v2_entry (text : string) : option string :=
  head (omap (fun line => if HasPrefix line "0::" then Some (TrimPrefix line "0::") else None)
    (Split newline (TrimSpace text))).
Definition no_v2_entry : error := Plain "no cgroup v2 entry in /proc/self/cgroup".

(* go: internal/snapshotter/cgroup_linux.go inPrivateCgroupNamespace *)
Definition inPrivateCgroupNamespace : prog SysE (result bool) :=
  let! b := trigger (FsReadFile "/proc/self/cgroup") in
  match v2_entry b with
  | Some path => Ret (Ok (bool_decide (path = "/")))
  | None => Ret (Err no_v2_entry)
  end.

(* go: internal/snapshotter/cgroup_linux.go currentCgroupV2RelPath *)
Definition currentCgroupV2RelPath : prog SysE (result string) :=
  let! b := trigger (FsReadFile "/proc/self/cgroup") in
  match v2_entry b with
  | Some path => Ret (Ok (if bool_decide (path = "") then "/" else path))
  | None => Ret (Err no_v2_entry)
  end.

(* go: internal/snapshotter/cgroup_linux.go restoreCgroupsPath *)
Definition restoreCgroupsPath (sandboxName : string) : prog SysE string :=
  call! private := inPrivateCgroupNamespace in
  match private with
  | Ok true => Ret ("/" +:+ sandboxName)
  | _ =>
      call! rel := currentCgroupV2RelPath in
      match rel with
      | Err _ => Ret ("/" +:+ sandboxName)
      | Ok rel =>
          if bool_decide (rel = "") || bool_decide (rel = "/") then Ret ("/" +:+ sandboxName)
          else Ret (path_Join [TrimSuffix rel "/sandboxfleet"; sandboxName])
      end
  end.

(* go: internal/snapshotter/cgroup_linux.go ensureRestoreCgroup *)
Definition ensureRestoreCgroup (sandboxName : string) : prog SysE (option error) :=
  call! path := restoreCgroupsPath sandboxName in
  trigger (FsMkdirAll (path_Join [cgroupMount; TrimPrefix path "/"])).

(* go: internal/snapshotter/cgroup_linux.go ensureCgroupV2Mount *)
Definition ensureCgroupV2Mount : prog SysE (option error) :=
  call! v2 := isCgroup2FS cgroupMount in
  if (v2 : bool) then Ret None
  else
    let last : prog SysE (option error) :=
      call! st := trigger (FsStat (path_Join [cgroupMount; "cgroup.controllers"])) in
      match st with
      | Ok _ => Ret None
      | Err _ => Ret (Some (Plain (cgroupMount +:+ " is not a cgroup2 mount (runsc IsOnlyV2 would be false)")))
      end in
    let unified := path_Join [cgroupMount; "unified"] in
    call! st := trigger (FsStat (path_Join [unified; "cgroup.controllers"])) in
    match st with
    | Ok _ =>
        call! mounted := trigger (MtMount unified cgroupMount "" ["MS_BIND"; "MS_REC"] "") in
        match mounted with
        | Some err => Ret (Some (wrap_prefix ("bind " +:+ unified +:+ " -> " +:+ cgroupMount) err))
        | None =>
            call! v2 := isCgroup2FS cgroupMount in
            if (v2 : bool) then Ret None else last
        end
    | Err _ => last
    end.

(** One pass writes every process it reads; the directory must be found empty within [passes]. *)
(* go: internal/snapshotter/cgroup_linux.go moveCgroupProcs *)
Fixpoint move_procs (passes : nat) (src dst : string) : prog SysE (option error) :=
  match passes with
  | O => Ret (Some (Plain (src +:+ " did not drain")))
  | S passes' =>
      call! b := trigger (FsReadFile src) in
      match b with
      | Err err => Ret (Some err)
      | Ok b =>
          match Fields b with
          | [] => Ret None
          | pids =>
              do! foldM (fun _ pid => ignore (trigger (FsWriteFile dst pid))) tt pids in
              move_procs passes' src dst
          end
      end
  end.
(* go: internal/snapshotter/cgroup_linux.go moveCgroupProcs *)
Definition moveCgroupProcs (src dst : string) : prog SysE (option error) := move_procs 100 src dst.

(** [os.Mkdir], where a directory that is there already is no failure. *)
Definition mkdir_or_exists (path : string) : prog SysE (option error) :=
  call! made := trigger (FsMkdir path) in
  Ret (match made with Some err => if IsExist err then None else Some err | None => None end).

(* go: internal/snapshotter/cgroup_linux.go 46-55 SetupCgroupDelegation *)
Definition make_leaf (base leaf : string) : prog SysE (option error) :=
  call! made := mkdir_or_exists leaf in
  match made with
  | None => Ret None
  | Some _ =>
      do! trigger (MtMount "none" base "" ["MS_BIND"; "MS_REMOUNT"] "") in
      on_failure (wrap_prefix ("mkdir " +:+ leaf)) (mkdir_or_exists leaf)
  end.

(* go: internal/snapshotter/cgroup_linux.go 33-44 SetupCgroupDelegation *)
Definition delegation_base (private : bool) : prog SysE (result string) :=
  if private then Ret (Ok cgroupMount)
  else let! rel := currentCgroupV2RelPath in Ret (Ok (path_Join [cgroupMount; TrimPrefix rel "/"])).

(** A controller that cannot be enabled is only logged. *)
(* go: internal/snapshotter/cgroup_linux.go SetupCgroupDelegation *)
Definition setup_delegation : prog SysE (option error) :=
  ok! ensureCgroupV2Mount in
  call! private := on_error (wrap_prefix "detect cgroup namespace") inPrivateCgroupNamespace in
  match private with
  | Err err => Ret (Some err)
  | Ok private =>
      call! base := delegation_base private in
      match base with
      | Err err => Ret (Some err)
      | Ok base =>
          let leaf := path_Join [base; "sandboxfleet"] in
          ok! make_leaf base leaf in
          ok! on_failure (wrap_prefix ("move procs into " +:+ leaf))
                (moveCgroupProcs (path_Join [base; "cgroup.procs"]) (path_Join [leaf; "cgroup.procs"])) in
          call! avail := on_error (wrap_prefix "read cgroup.controllers")
            (trigger (FsReadFile (path_Join [base; "cgroup.controllers"]))) in
          match avail with
          | Err err => Ret (Some err)
          | Ok avail =>
              do! foldM (fun _ c => ignore (trigger (FsWriteFile (path_Join [base; "cgroup.subtree_control"]) ("+" +:+ c))))
                    tt (Fields avail) in
              Ret None
          end
      end
  end.
End Cgroup.
