(* ===== verification/GVisor.v ===== *)
(** * Checkpoint and restore with gVisor (internal/snapshotter)

    The adapter around [runsc]: gvisor.go, gvisor_restore_network_linux.go and
    gvisor_image_linux.go. A restored sandbox is a set of containers under a root directory of its
    own, in a network namespace of its Slot, with overlay mounts made from containerd's layers. *)

From S2P Require Import Prelude Prog Strings Json Runtime WorkerEnv Host Snapshotters Cgroup.

(* go: internal/snapshotter/gvisor.go GVisor *)
Record gvisor := mkGVisor {
  gv_RunscPath : string;
  gv_SourceRoot : string;
  gv_RestoreRoot : string;
}.

(* go: internal/snapshotter/gvisor_restore_network_linux.go restoreNetInfo *)
Record restoreNetInfo := mkNetInfo {
  ni_Netns : string;
  ni_Veth : string;
  ni_SlotID : Z;
  ni_IP : string;
}.

(* go: internal/snapshotter/gvisor_restore_network_linux.go restoreNetInfo *)
#[export] Instance restoreNetInfo_json : Json restoreNetInfo := {
  zero := mkNetInfo zero zero 0 zero;
  enc x := JObj [("netns", enc (ni_Netns x)); ("veth", enc (ni_Veth x)); ("slotID", JInt (ni_SlotID x)); ("ip", enc (ni_IP x))];
  dec := dec_struct [
    json_field "netns" ni_Netns (fun v x => mkNetInfo v (ni_Veth x) (ni_SlotID x) (ni_IP x));
    json_field "veth" ni_Veth (fun v x => mkNetInfo (ni_Netns x) v (ni_SlotID x) (ni_IP x));
    int_field 32 "slotID" ni_SlotID (fun v x => mkNetInfo (ni_Netns x) (ni_Veth x) v (ni_IP x));
    json_field "ip" ni_IP (fun v x => mkNetInfo (ni_Netns x) (ni_Veth x) (ni_SlotID x) v)];
}.

Section GVisor.
Context {HE : HostEnv} {JT : JsonText} {IA : ImageApi}.

(* go: internal/snapshotter/gvisor.go NewGVisor *)
Definition NewGVisor : gvisor :=
  mkGVisor (firstNonEmpty [Getenv "SANDBOXFLEET_RUNSC_PATH"; "runsc"])
    (firstNonEmpty [Getenv "SANDBOXFLEET_RUNSC_ROOT"; "/run/containerd/runsc/k8s.io"])
    (firstNonEmpty [Getenv "SANDBOXFLEET_RUNSC_RESTORE_ROOT"; "/var/lib/sandboxfleet/runsc"]).

(** A command failed: the command line, the error, and what it printed. *)
Definition command_failed (command : string) (err : error) (printed : string) : error :=
  Wrapf (command +:+ ": " +:+ error_text err +:+ ": " +:+ TrimSpace printed) err.

(* go: internal/snapshotter/gvisor.go GVisor.run *)
Definition run_runsc (g : gvisor) (args : list string) : prog SysE (option error) :=
  call! ran := run_cmd None (gv_RunscPath g) args StderrBuffer in
  Ret (match ran with
       | (_, None) => None
       | (stderr, Some err) => Some (command_failed (strings_Join args " ") (as_error err) stderr)
       end).

(* go: internal/snapshotter/gvisor_restore_network_linux.go runIPCommand *)
Definition runIPCommand (args : list string) : prog SysE (option error) :=
  call! ran := run_cmd None "ip" args CombinedBuffer in
  Ret (match ran with
       | (_, None) => None
       | (out, Some err) => Some (command_failed ("ip " +:+ strings_Join args " ") (as_error err) out)
       end).

(** ** The network of a restored guest *)

(* go: internal/snapshotter/gvisor_restore_network_linux.go GVisor.restoreNetInfoPath *)
Definition restoreNetInfoPath (g : gvisor) (name : string) : string :=
  path_Join [gv_RestoreRoot g; name +:+ ".net.json"].

(* go: internal/snapshotter/gvisor_restore_network_linux.go GVisor.saveRestoreNetInfo *)
Definition saveRestoreNetInfo (g : gvisor) (name : string) (info : restoreNetInfo) : prog SysE (option error) :=
  ok! trigger (FsMkdirAll (gv_RestoreRoot g)) in
  trigger (FsWriteFile (restoreNetInfoPath g name) (json_text (enc info))).

(* go: internal/snapshotter/gvisor_restore_network_linux.go GVisor.loadRestoreNetInfo *)
Definition loadRestoreNetInfo (g : gvisor) (name : string) : prog SysE (result restoreNetInfo) :=
  let! raw := trigger (FsReadFile (restoreNetInfoPath g name)) in
  Ret (Unmarshal_as raw).

(** The error of a command unless it only says that the thing is gone already. *)
Definition unless_gone (gone : list string) (err : option error) : option error :=
  match err with
  | Some e => if existsb (Contains (error_text e)) gone then None else Some e
  | None => None
  end.
Definition first_of (first next : option error) : option error :=
  match first with Some _ => first | None => next end.

(* go: internal/snapshotter/gvisor_restore_network_linux.go deleteRestoreNetwork *)
Definition deleteRestoreNetwork (info : restoreNetInfo) : prog SysE (option error) :=
  call! first := if empty (ni_Veth info) then Ret None
                 else call! err := runIPCommand ["link"; "del"; ni_Veth info] in
                      Ret (unless_gone ["Cannot find device"; "does not exist"] err) in
  call! second := if empty (ni_Netns info) then Ret None
                  else call! err := runIPCommand ["netns"; "del"; ni_Netns info] in
                       Ret (unless_gone ["No such file"; "does not exist"] err) in
  Ret (first_of first second).

(* go: internal/snapshotter/gvisor_restore_network_linux.go ensureSharedBridge *)
Definition ensureSharedBridge : prog SysE (option error) :=
  call! shown := runIPCommand ["link"; "show"; guestBridge] in
  ok! match shown with
      | Some _ => on_failure (wrap_prefix ("create bridge " +:+ guestBridge))
                    (runIPCommand ["link"; "add"; guestBridge; "type"; "bridge"])
      | None => Ret None
      end in
  ok! on_failure (wrap_prefix ("set bridge " +:+ guestBridge +:+ " MAC " +:+ gatewayMAC))
        (runIPCommand ["link"; "set"; guestBridge; "address"; gatewayMAC]) in
  do! runIPCommand ["addr"; "replace"; guestGateway +:+ "/" +:+ guestMask; "dev"; guestBridge] in
  on_failure (wrap_prefix "bridge up") (runIPCommand ["link"; "set"; guestBridge; "up"]).

(** The first [-C] of a rule becomes [flag]. *)
(* go: internal/snapshotter/gvisor_restore_network_linux.go 319-330 ensureIptablesRule *)
Fixpoint replace_check (flag : string) (args : list string) : list string :=
  match args with
  | [] => []
  | a :: rest => if bool_decide (a = "-C") then flag :: rest else a :: replace_check flag rest
  end.

(* go: internal/snapshotter/gvisor_restore_network_linux.go ensureIptablesRule *)
Definition ensureIptablesRule (appendRule : bool) (checkArgs : list string) : prog SysE (option error) :=
  call! check := run_cmd None "iptables" checkArgs CombinedBuffer in
  match check with
  | (_, None) => Ret None
  | _ =>
      let addArgs := replace_check (if appendRule then "-A" else "-I") checkArgs in
      call! added := run_cmd None "iptables" addArgs CombinedBuffer in
      Ret (match added with
           | (_, None) => None
           | (out, Some err) =>
               Some (command_failed ("[" +:+ strings_Join addArgs " " +:+ "]") (as_error err) out)
           end)
  end.

(* go: internal/snapshotter/gvisor_restore_network_linux.go 294-302 ensureOutboundNAT *)
Definition egress_rules : list (bool * list string) :=
  [(true, ["-t"; "nat"; "-C"; "POSTROUTING"; "-s"; guestSubnet; "!"; "-o"; guestBridge; "-j"; "MASQUERADE"]);
   (false, ["-C"; "FORWARD"; "-i"; guestBridge; "-j"; "ACCEPT"]);
   (false, ["-C"; "FORWARD"; "-o"; guestBridge; "-m"; "conntrack"; "--ctstate"; "RELATED,ESTABLISHED"; "-j"; "ACCEPT"])].

(* go: internal/snapshotter/gvisor_restore_network_linux.go ensureOutboundNAT *)
Definition ensureOutboundNAT : prog SysE unit :=
  do! trigger (FsWriteFile "/proc/sys/net/ipv4/ip_forward" "1") in
  foldM (fun _ '(append, args) => ignore (ensureIptablesRule append args)) tt egress_rules.

(** A command of the diagnosis, with what it printed. *)
(* go: internal/snapshotter/gvisor_restore_network_linux.go 346-354 GVisor.writeRestoreNetworkDiag *)
Definition diag (b title : string) (command : list string) : prog SysE string :=
  call! ran := run_cmd None (default "" (head command)) (tail command) CombinedBuffer in
  Ret (b +:+ nl +:+ "=== " +:+ title +:+ ": " +:+ strings_Join command " " +:+ " ===" +:+ nl +:+ ran.1 +:+
       match ran.2 with
       | Some err => nl +:+ "[err] " +:+ error_text (as_error err) +:+ nl
       | None => ""
       end).

(* go: internal/snapshotter/gvisor_restore_network_linux.go 366-374 GVisor.writeRestoreNetworkDiag *)
Definition first_nameserver (resolv : string) : option string :=
  head (omap (fun line => match Fields line with
                          | "nameserver" :: server :: _ => Some server
                          | _ => None
                          end) (Split newline resolv)).

(* go: internal/snapshotter/gvisor_restore_network_linux.go GVisor.writeRestoreNetworkDiag *)
Definition writeRestoreNetworkDiag (g : gvisor) (name : string) (info : restoreNetInfo) (netCfg : guestNet) :
    prog SysE unit :=
  let inns := ["ip"; "netns"; "exec"; ni_Netns info] in
  let ping server := inns ++ ["ping"; "-c1"; "-W2"; server] in
  call! b := foldM (fun b '(title, command) => diag b title command)
    ("name=" +:+ name +:+ " netns=" +:+ ni_Netns info +:+ " veth=" +:+ ni_Veth info +:+ " slot=" +:+ itoa (ni_SlotID info) +:+
     " ip=" +:+ gn_IP netCfg +:+ "/" +:+ gn_Mask netCfg +:+ " gw=" +:+ gn_Gateway netCfg +:+ nl)
    [("ip_forward", ["cat"; "/proc/sys/net/ipv4/ip_forward"]); ("host_resolv", ["cat"; "/etc/resolv.conf"]);
     ("iptables_forward", ["iptables"; "-S"; "FORWARD"]); ("iptables_nat", ["iptables"; "-t"; "nat"; "-S"; "POSTROUTING"]);
     ("bridge", ["ip"; "link"; "show"; guestBridge]); ("host_route", ["ip"; "route"]);
     ("netns_addr", inns ++ ["ip"; "addr"]); ("netns_route", inns ++ ["ip"; "route"]);
     ("ping_gw", ping (gn_Gateway netCfg)); ("ping_8888", ping "8.8.8.8")] in
  call! raw := trigger (FsReadFile "/etc/resolv.conf") in
  call! b := match raw with
             | Ok resolv => match first_nameserver resolv with
                            | Some server => diag b ("ping_nameserver_" +:+ server) (ping server)
                            | None => Ret b
                            end
             | Err _ => Ret b
             end in
  ignore (trigger (FsWriteFile (path_Join [gv_RestoreRoot g; name +:+ ".net.diag.txt"]) b)).

(** A step after which a failure takes the network down again. *)
Definition or_delete {A} (info : restoreNetInfo) (p : prog SysE (option error)) (k : prog SysE (result A)) :
    prog SysE (result A) :=
  call! done := p in
  match done with
  | Some err => do! deleteRestoreNetwork info in Ret (Err err)
  | None => k
  end.

(* go: internal/snapshotter/gvisor_restore_network_linux.go 68-70 GVisor.createRestoreNetwork *)
Definition slot_network (slotID : Z) : restoreNetInfo :=
  mkNetInfo ("sfg" +:+ itoa slotID) ("sfv" +:+ itoa slotID) 0 "".

(* go: internal/snapshotter/gvisor_restore_network_linux.go GVisor.createRestoreNetwork *)
Definition createRestoreNetwork (g : gvisor) (slotID : Z) (name : string) : prog SysE (result restoreNetInfo) :=
  let! netCfg := Ret (guestNetForSlot slotID) in
  check! ensureSharedBridge in
  do! ensureOutboundNAT in
  let plain := slot_network slotID in
  let netns := ni_Netns plain in
  let veth := ni_Veth plain in
  do! deleteRestoreNetwork plain in
  check! on_failure (wrap_prefix "netns add") (runIPCommand ["netns"; "add"; netns]) in
  let peer := veth +:+ "p" in
  call! added := runIPCommand ["link"; "add"; veth; "type"; "veth"; "peer"; "name"; peer] in
  match added with
  | Some err =>
      do! runIPCommand ["netns"; "del"; netns] in
      Ret (Err (wrap_prefix "veth add" err))
  | None =>
      let ns args := runIPCommand (["netns"; "exec"; netns; "ip"] ++ args) in
      or_delete plain (on_failure (wrap_prefix "veth set netns") (runIPCommand ["link"; "set"; peer; "netns"; netns])) (
      or_delete plain (on_failure (wrap_prefix "veth master bridge") (runIPCommand ["link"; "set"; veth; "master"; guestBridge])) (
      or_delete plain (runIPCommand ["link"; "set"; veth; "up"]) (
      or_delete plain (ns ["link"; "set"; "lo"; "up"]) (
      or_delete plain (ns ["link"; "set"; peer; "name"; gn_Iface netCfg]) (
      or_delete plain (ns ["link"; "set"; gn_Iface netCfg; "address"; gn_MAC netCfg]) (
      or_delete plain (ns ["addr"; "add"; gn_IP netCfg +:+ "/" +:+ gn_Mask netCfg; "dev"; gn_Iface netCfg]) (
      or_delete plain (ns ["link"; "set"; gn_Iface netCfg; "up"]) (
      or_delete plain (ns ["route"; "add"; "default"; "via"; gn_Gateway netCfg]) (
      let info := mkNetInfo netns veth slotID (gn_IP netCfg) in
      or_delete info (saveRestoreNetInfo g name info) (
      do! writeRestoreNetworkDiag g name info netCfg in
      Ret (Ok info)))))))))))
  end.

(** ** Running runsc inside a network namespace *)

(** The thread enters the namespace for the time of [fn]; the descriptors are closed afterwards,
    the last opened first. *)
(* go: internal/snapshotter/gvisor_restore_network_linux.go doInNamedNetNS *)
Definition doInNamedNetNS (nsName : string) (fn : prog SysE (option cmd_error)) : prog SysE (option cmd_error) :=
  call! target := trigger (NsOpen (path_Join ["/var/run/netns"; nsName])) in
  match target with
  | Err err => Ret (Some (CmdError (wrap_prefix ("open netns " +:+ quote nsName) err)))
  | Ok target =>
      deferred (trigger (FdClose target)) (
      call! origin := trigger (NsOpen "/proc/self/ns/net") in
      match origin with
      | Err err => Ret (Some (CmdError (wrap_prefix "open current netns" err)))
      | Ok origin =>
          deferred (trigger (FdClose origin)) (
          call! entered := trigger (NsEnter target) in
          match entered with
          | Some err => Ret (Some (CmdError (wrap_prefix ("setns net " +:+ quote nsName) err)))
          | None => deferred (trigger (NsReturn origin)) fn
          end)
      end)
  end.

(* go: internal/snapshotter/gvisor_restore_network_linux.go GVisor.runInNetworkNamespace *)
Definition runInNetworkNamespace (g : gvisor) (nsName : string) (args : list string) (logPath : string) :
    prog SysE (option error) :=
  let command := gv_RunscPath g +:+ " " +:+ strings_Join args " " in
  call! failed := doInNamedNetNS nsName (
    if empty logPath then
      call! ran := run_cmd None (gv_RunscPath g) args (ToFiles None None) in
      Ret (match ran.2 with
           | Some err => Some (CmdError (wrap_prefix command (as_error err)))
           | None => None
           end)
    else
      call! opened := trigger (FsOpenFile logPath) in
      match opened with
      | Some err => Ret (Some (CmdError (wrap_prefix ("open runsc log " +:+ quote logPath) err)))
      | None =>
          deferred (trigger (FsClose logPath)) (
          call! ran := run_cmd None (gv_RunscPath g) args (ToFiles (Some logPath) (Some logPath)) in
          match ran.2 with
          | Some err =>
              call! back := trigger (FsReadBack logPath) in
              let msg := match back with Ok b => TrimSpace b | Err _ => "" end in
              Ret (Some (CmdError (if empty msg then wrap_prefix command (as_error err)
                                   else Wrapf (command +:+ ": " +:+ error_text (as_error err) +:+ ": " +:+ msg) (as_error err))))
          | None => Ret None
          end)
      end) in
  Ret (as_error <$> failed).

(** The result beside the error of a command that could not be run is not used by any caller. *)
(* go: internal/snapshotter/gvisor_restore_network_linux.go GVisor.execInNetworkNamespace *)
Definition execInNetworkNamespace (g : gvisor) (limit : option Z) (nsName : string) (args : list string) :
    prog SysE (result ExecResult) :=
  let! outPath := trigger (FsCreateTemp "sandboxfleet-runsc-exec-out-*") in
  deferred (trigger (FsRemove outPath)) (
  call! errFile := trigger (FsCreateTemp "sandboxfleet-runsc-exec-err-*") in
  match errFile with
  | Err err => do! trigger (FsClose outPath) in Ret (Err err)
  | Ok errPath =>
      deferred (trigger (FsRemove errPath)) (
      call! runErr := doInNamedNetNS nsName (
        call! ran := run_cmd limit (gv_RunscPath g) args (ToFiles (Some outPath) (Some errPath)) in Ret ran.2) in
      do! trigger (FsClose outPath) in
      do! trigger (FsClose errPath) in
      call! stdout := trigger (FsReadFile outPath) in
      call! stderr := trigger (FsReadFile errPath) in
      let stdout := match stdout with Ok s => s | Err _ => "" end in
      let stderr := match stderr with Ok s => s | Err _ => "" end in
      Ret (match runErr with
           | Some (ExitError code _) => Ok (mkExecResult (wrap32 code) stdout stderr)
           | Some (CmdError err) => Err (command_failed "runsc exec" err stderr)
           | None => Ok (mkExecResult 0 stdout stderr)
           end))
  end).

(** ** The root file system of a container *)

(* go: internal/snapshotter/gvisor_image_linux.go containerdAddress *)
Definition containerdAddress : string :=
  firstNonEmpty [Getenv "SANDBOXFLEET_CONTAINERD_ADDRESS"; "/run/containerd/containerd.sock"].
(* go: internal/snapshotter/gvisor_image_linux.go containerdNamespace *)
Definition containerdNamespace : string :=
  firstNonEmpty [Getenv "SANDBOXFLEET_CONTAINERD_NAMESPACE"; "k8s.io"].

(** What a pull says when it fails after images that could not be found. *)
(* go: internal/snapshotter/gvisor_image_linux.go 122-127 getOrPullContainerdImage *)
Definition pull_failed (pullRef : string) (candidates : list string) (lastErr : option error) (err : error) : error :=
  match lastErr with
  | Some e => Wrapf ("pull image " +:+ quote pullRef +:+ " (GetImage tried [" +:+ strings_Join candidates " " +:+ "]: " +:+
                     error_text e +:+ "): " +:+ error_text err) err
  | None => wrap_prefix ("pull image " +:+ quote pullRef) err
  end.

(* go: internal/snapshotter/gvisor_image_linux.go 104-126 getOrPullContainerdImage *)
Fixpoint get_or_pull (client : Z) (imageRef : string) (all candidates : list string) (lastErr : option error) :
    prog SysE (result Z) :=
  match candidates with
  | c :: rest =>
      call! got := trigger (CtdGetImage client containerdNamespace c) in
      match got with
      | Err err => get_or_pull client imageRef all rest (Some err)
      | Ok img =>
          call! unpacked := trigger (CtdIsUnpacked img) in
          match unpacked with
          | Ok false => check! on_failure (wrap_prefix ("unpack image " +:+ quote c)) (trigger (CtdUnpack img)) in Ret (Ok img)
          | _ => Ret (Ok img)
          end
      end
  | [] =>
      let pullRef := match normalizeImageRef imageRef with Ok n => n | Err _ => imageRef end in
      on_error (pull_failed pullRef all lastErr) (trigger (CtdPull client containerdNamespace pullRef))
  end.
(* go: internal/snapshotter/gvisor_image_linux.go getOrPullContainerdImage *)
Definition getOrPullContainerdImage (client : Z) (imageRef : string) : prog SysE (result Z) :=
  get_or_pull client imageRef (imageRefCandidates imageRef) (imageRefCandidates imageRef) None.

(* go: internal/snapshotter/gvisor_image_linux.go isFsconfigUnsupported *)
Definition isFsconfigUnsupported (err : error) : bool :=
  let text := error_text err in
  Contains text "fsopen" || Contains text "fsconfig" || Contains text "function not implemented" ||
  Contains text "invalid argument".

(* go: internal/snapshotter/gvisor_image_linux.go 213-218 mountOverlayFSConfig *)
Definition fsconfig (fsfd : Z) (key val : string) : prog SysE (option error) :=
  on_failure (wrap_prefix ("fsconfig " +:+ key +:+ "=" +:+ quote val)) (trigger (MtFsconfigSetString fsfd key val)).

Fixpoint set_lowers (fsfd : Z) (lowers : list string) : prog SysE (option error) :=
  match lowers with
  | [] => Ret None
  | lower :: rest => ok! fsconfig fsfd "lowerdir+" lower in set_lowers fsfd rest
  end.

(* go: internal/snapshotter/gvisor_image_linux.go mountOverlayFSConfig *)
Definition mountOverlayFSConfig (mountpoint : string) (lowers : list string) (upper work : string) :
    prog SysE (option error) :=
  call! fsfd := on_error (wrap_prefix "fsopen overlay") (trigger (MtFsopen "overlay")) in
  match fsfd with
  | Err err => Ret (Some err)
  | Ok fsfd =>
      deferred (trigger (FdClose fsfd)) (
      ok! set_lowers fsfd lowers in
      ok! fsconfig fsfd "upperdir" upper in
      ok! fsconfig fsfd "workdir" work in
      ok! on_failure (wrap_prefix "fsconfig create") (trigger (MtFsconfigCreate fsfd)) in
      call! mfd := on_error (wrap_prefix "fsmount") (trigger (MtFsmount fsfd)) in
      match mfd with
      | Err err => Ret (Some err)
      | Ok mfd =>
          deferred (trigger (FdClose mfd))
            (on_failure (wrap_prefix ("move_mount to " +:+ quote mountpoint)) (trigger (MtMoveMount mfd mountpoint)))
      end)
  end.

(* go: internal/snapshotter/gvisor_image_linux.go mountOverlayClassic *)
Definition mountOverlayClassic (mountpoint : string) (lowers : list string) (upper work : string) :
    prog SysE (option error) :=
  let opts := "lowerdir=" +:+ strings_Join (escape_lower <$> lowers) ":" +:+ ",upperdir=" +:+ upper +:+ ",workdir=" +:+ work in
  on_failure (wrap_prefix ("mount overlay at " +:+ quote mountpoint)) (trigger (MtMount "overlay" mountpoint "overlay" [] opts)).

(* go: internal/snapshotter/gvisor_image_linux.go mountOverlayLowers *)
Definition mountOverlayLowers (mountpoint : string) (lowers : list string) (upper work : string) :
    prog SysE (option error) :=
  call! mounted := mountOverlayFSConfig mountpoint lowers upper work in
  match mounted with
  | None => Ret None
  | Some err => if isFsconfigUnsupported err then mountOverlayClassic mountpoint lowers upper work else Ret (Some err)
  end.

(* go: internal/snapshotter/gvisor_image_linux.go teardownImageRootfs *)
Definition teardownImageRootfs (bundleDir : string) : prog SysE unit :=
  if empty bundleDir then Ret tt else ignore (trigger (MtUnmount (path_Join [bundleDir; "rootfs"]))).

Fixpoint mkdir_all (dirs : list string) : prog SysE (option error) :=
  match dirs with
  | [] => Ret None
  | d :: rest => ok! trigger (FsMkdirAll d) in mkdir_all rest
  end.

(* go: internal/snapshotter/gvisor_image_linux.go 74-74 setupImageRootfs *)
Definition view_key (bundleDir parent : string) : string :=
  "sandboxfleet-gvisor-layers-" +:+ path_Base bundleDir +:+ "-" +:+ shortDigest parent.

(** The layer directories of an image, through a view that is only resolved, never mounted. *)
(* go: internal/snapshotter/gvisor_image_linux.go 60-87 setupImageRootfs *)
Definition image_lowers (client : Z) (imageRef bundleDir : string) : prog SysE (result (list string)) :=
  let ns := containerdNamespace in
  let! img := getOrPullContainerdImage client imageRef in
  let! diffIDs := on_error (wrap_prefix ("image rootfs " +:+ quote imageRef)) (trigger (CtdRootFS img)) in
  let parent := ChainID diffIDs in
  let viewKey := view_key bundleDir parent in
  do! trigger (CtdSnapRemove client ns viewKey) in
  let! mounts := on_error (wrap_prefix ("snapshot view " +:+ quote imageRef)) (trigger (CtdSnapView client ns viewKey parent)) in
  do! trigger (CtdSnapRemove client ns viewKey) in
  let! lowers := on_error (wrap_prefix ("resolve layer dirs " +:+ quote imageRef)) (Ret (lowerDirsFromMounts mounts)) in
  if bool_decide (lowers = []) then Ret (Err (Plain ("image " +:+ quote imageRef +:+ " has no overlay lowerdirs")))
  else Ret (Ok lowers).

(* go: internal/snapshotter/gvisor_image_linux.go setupImageRootfs *)
Definition setupImageRootfs (imageRef bundleDir : string) : prog SysE (option error) :=
  if empty imageRef then Ret (Some (Plain "image ref is empty"))
  else
    ok! trigger (FsMkdirAll bundleDir) in
    let rootfs := path_Join [bundleDir; "rootfs"] in
    let upper := path_Join [bundleDir; "upper"] in
    let work := path_Join [bundleDir; "work"] in
    ok! mkdir_all [rootfs; upper; work] in
    do! trigger (MtUnmount rootfs) in
    call! client := on_error (wrap_prefix "containerd connect") (trigger (CtdNew containerdAddress)) in
    match client with
    | Err err => Ret (Some err)
    | Ok client =>
        deferred (trigger (CtdClose client)) (
        call! lowers := image_lowers client imageRef bundleDir in
        match lowers with
        | Err err => Ret (Some err)
        | Ok lowers =>
            ok! mountOverlayLowers rootfs lowers upper work in
            do! foldM (fun _ d => ignore (trigger (FsMkdirAll (path_Join [rootfs; d])))) tt ["proc"; "sys"; "dev"; "etc"] in
            Ret None
        end)
    end.

(** ** Bundles *)

(* go: internal/snapshotter/gvisor_containers.go 49-53 writeGVisorContainersFile *)
Fixpoint missing_id (i : Z) (containers : list gvisorRestoreContainer) : option error :=
  match containers with
  | [] => None
  | c :: rest => if empty (rc_ID c) then Some (Plain ("containers[" +:+ itoa i +:+ "]: id is required")) else missing_id (i + 1) rest
  end.
(* go: internal/snapshotter/gvisor_containers.go writeGVisorContainersFile *)
Definition writeGVisorContainersFile (dir : string) (containers : list gvisorRestoreContainer) :
    prog SysE (option error) :=
  if bool_decide (containers = []) then Ret (Some (Plain "containers list is empty"))
  else match missing_id 0 containers with
       | Some err => Ret (Some err)
       | None => trigger (FsWriteFile (path_Join [dir; gvisorContainersFile]) (MarshalIndent (enc containers)))
       end.

(** What the bytes of the file stand for. *)
(* go: internal/snapshotter/gvisor_containers.go 66-74 readGVisorContainersFile *)
Definition parse_containers (raw : string) : result (list gvisorRestoreContainer) :=
  containers ← Unmarshal_as raw;
  if bool_decide (containers = []) then Err (Plain (gvisorContainersFile +:+ " is empty")) else Ok containers.
(* go: internal/snapshotter/gvisor_containers.go readGVisorContainersFile *)
Definition readGVisorContainersFile (dir : string) : prog SysE (result (list gvisorRestoreContainer)) :=
  let! raw := trigger (FsReadFile (path_Join [dir; gvisorContainersFile])) in
  Ret (parse_containers raw).

Definition gvisorRestoreResolvConf : string := "nameserver 8.8.8.8" +:+ nl.
Definition etc_hosts : string :=
  "127.0.0.1" +:+ String tab "localhost" +:+ nl +:+ "::1" +:+ String tab "localhost" +:+ nl.

(** The files a container finds under /etc, in the order of the map. *)
(* go: internal/snapshotter/gvisor.go 455-459 ensureRootfsEtcFiles *)
Definition etc_files (hostname : string) : list (string * string) :=
  range_map [("hosts", etc_hosts); ("hostname", hostname +:+ nl); ("resolv.conf", gvisorRestoreResolvConf)].

(* go: internal/snapshotter/gvisor.go 460-469 ensureRootfsEtcFiles *)
Fixpoint ensure_files (rootEtc : string) (files : list (string * string)) : prog SysE (option error) :=
  match files with
  | [] => Ret None
  | (name, body) :: rest =>
      let path := path_Join [rootEtc; name] in
      call! st := trigger (FsStat path) in
      match st with
      | Ok RegularFile => ensure_files rootEtc rest
      | _ => ok! trigger (FsWriteFile path body) in ensure_files rootEtc rest
      end
  end.
(* go: internal/snapshotter/gvisor.go ensureRootfsEtcFiles *)
Definition ensureRootfsEtcFiles (bundleDir hostname : string) : prog SysE (option error) :=
  let rootEtc := path_Join [bundleDir; "rootfs"; "etc"] in
  ok! trigger (FsMkdirAll rootEtc) in
  ensure_files rootEtc (etc_files (if empty hostname then "sandbox" else hostname)).

Definition bind_mount (destination source : string) (options : list string) : json :=
  JObj [("destination", enc destination); ("options", enc options); ("source", enc source); ("type", enc "bind")].

(* go: internal/snapshotter/gvisor.go gvisorRestoreEtcMounts *)
Definition gvisorRestoreEtcMounts (bundleDir hostname : string) : prog SysE (result json) :=
  let hostname := if empty hostname then "sandbox" else hostname in
  let etcDir := path_Join [bundleDir; "etc"] in
  let hostsPath := path_Join [etcDir; "hosts"] in
  let hostnamePath := path_Join [etcDir; "hostname"] in
  let resolvPath := path_Join [etcDir; "resolv.conf"] in
  check! trigger (FsMkdirAll etcDir) in
  check! trigger (FsWriteFile hostsPath etc_hosts) in
  check! trigger (FsWriteFile hostnamePath (hostname +:+ nl)) in
  check! trigger (FsWriteFile resolvPath gvisorRestoreResolvConf) in
  check! ensureRootfsEtcFiles bundleDir hostname in
  Ret (Ok (JArr [bind_mount "/etc/hosts" hostsPath ["rbind"; "rprivate"; "ro"];
                 bind_mount "/etc/hostname" hostnamePath ["rbind"; "rprivate"; "ro"];
                 bind_mount "/etc/resolv.conf" resolvPath ["ro"]])).

(** CRI annotations, by key: the sandbox has no name; the others join it. *)
(* go: internal/snapshotter/gvisor.go 343-352 writeGVisorRestoreConfig *)
Definition annotations (c : gvisorRestoreContainer) (rootCID : string) : list (string * json) :=
  (if empty (rc_Name c) then [] else [("io.kubernetes.cri.container-name", enc (rc_Name c))]) ++
  (if rc_Sandbox c then [("io.kubernetes.cri.container-type", enc "sandbox")]
   else [("io.kubernetes.cri.container-type", enc "container"); ("io.kubernetes.cri.sandbox-id", enc rootCID)]).

Definition gvisorDefaultPATH : string := "PATH=/usr/local/sbin:/usr/local/bin:/usr/sbin:/usr/bin:/sbin:/bin".

(** A Go map is written in the order of its keys. *)
(* go: internal/snapshotter/gvisor.go 353-373 writeGVisorRestoreConfig *)
Definition restore_config (c : gvisorRestoreContainer) (rootCID cgroupsPath : string) (mounts : json) : json :=
  JObj [("annotations", JObj (annotations c rootCID));
        ("linux", JObj [("cgroupsPath", enc cgroupsPath);
                        ("namespaces", JArr ((fun ty => JObj [("type", enc ty)]) <$> ["pid"; "ipc"; "uts"; "mount"]))]);
        ("mounts", mounts); ("ociVersion", enc "1.1.0");
        ("process", JObj [("args", enc ["sleep"; "3600"]); ("cwd", enc "/"); ("env", enc [gvisorDefaultPATH]);
                          ("user", JObj [("gid", JInt 0); ("uid", JInt 0)])]);
        ("root", JObj [("path", enc "rootfs")])].

(* go: internal/snapshotter/gvisor.go writeGVisorRestoreConfig *)
Definition writeGVisorRestoreConfig (bundleDir : string) (c : gvisorRestoreContainer) (rootCID : string) :
    prog SysE (option error) :=
  call! cgroupsPath := restoreCgroupsPath (rc_ID c) in
  let hostname := if rc_Sandbox c then "pause" else rc_Name c in
  call! mounts := gvisorRestoreEtcMounts bundleDir hostname in
  match mounts with
  | Err err => Ret (Some err)
  | Ok mounts =>
      trigger (FsWriteFile (path_Join [bundleDir; "config.json"]) (MarshalIndent (restore_config c rootCID cgroupsPath mounts)))
  end.

(* go: internal/snapshotter/gvisor.go writeGVisorRestoreBundle *)
Definition writeGVisorRestoreBundle (bundleDir : string) (c : gvisorRestoreContainer) (rootCID : string) :
    prog SysE (option error) :=
  if empty (rc_Image c) then Ret (Some (Plain ("container " +:+ rc_ID c +:+ " missing image in " +:+ gvisorContainersFile)))
  else
    ok! on_failure (wrap_prefix ("setup image rootfs " +:+ quote (rc_Image c))) (setupImageRootfs (rc_Image c) bundleDir) in
    call! written := writeGVisorRestoreConfig bundleDir c rootCID in
    match written with
    | Some err => do! teardownImageRootfs bundleDir in Ret (Some err)
    | None => Ret None
    end.

(** ** Checkpoint *)

(* go: internal/snapshotter/gvisor.go GVisor.resolveCheckpointPaths *)
Definition resolveCheckpointPaths (g : gvisor) (runtimeID : string) : string * string :=
  match StripPrefix runtimeID gvisorIDPrefix with
  | Some name => (path_Join [gv_RestoreRoot g; name], "pause")
  | None => (gv_SourceRoot g, runtimeID)
  end.

(* go: internal/snapshotter/gvisor.go GVisor.containersForSave *)
Definition containersForSave (g : gvisor) (req : SaveRequest) : prog SysE (result (list gvisorRestoreContainer)) :=
  let fresh := if empty (sv_AppContainerName req) then
                 Err (Plain "AppContainerName is required to record gVisor restore containers")
               else Ok (gvisorCRIContainers (sv_AppContainerName req) (sv_AppImage req)) in
  match StripPrefix (id_Value (sv_ID req)) gvisorIDPrefix with
  | Some name =>
      call! containers := readGVisorContainersFile (path_Join [gv_RestoreRoot g; name]) in
      Ret (match containers with Ok containers => Ok containers | Err _ => fresh end)
  | None => Ret fresh
  end.

(* go: internal/snapshotter/gvisor.go GVisor.writeContainersForSave *)
Definition writeContainersForSave (g : gvisor) (req : SaveRequest) : prog SysE (option error) :=
  call! containers := containersForSave g req in
  match containers ≫= fun containers => fillGVisorContainerImages containers (sv_AppImage req) with
  | Err err => Ret (Some err)
  | Ok containers => writeGVisorContainersFile (sv_DestDir req) containers
  end.

(* go: internal/snapshotter/gvisor.go GVisor.SaveSnapshot *)
Definition SaveSnapshot (g : gvisor) (req : SaveRequest) : prog SysE (option error) :=
  if empty (id_Value (sv_ID req)) then Ret (Some (Plain "runtime id is required"))
  else
    ok! trigger (FsMkdirAll (sv_DestDir req)) in
    let '(root, sandboxName) := resolveCheckpointPaths g (id_Value (sv_ID req)) in
    ok! on_failure (wrap_prefix "runsc checkpoint") (run_runsc g (gvisorCheckpointArgs root (sv_DestDir req) sandboxName)) in
    on_failure (wrap_prefix "write containers metadata") (writeContainersForSave g req).

(** ** Restore *)

(** The log files of a failed restore are kept aside; the answer is the directory, empty if it
    could not be made. *)
(* go: internal/snapshotter/gvisor.go 151-172 GVisor.LoadSnapshot *)
Definition preserveFailedLogs (g : gvisor) (name root stage : string) : prog SysE string :=
  let keep := path_Join [gv_RestoreRoot g; name +:+ "-failed"] in
  do! trigger (FsRemoveAll keep) in
  call! made := trigger (FsMkdirAll keep) in
  match made with
  | Some _ => Ret ""
  | None =>
      do! trigger (FsWriteFile (path_Join [keep; "failed-stage.txt"]) (stage +:+ nl)) in
      let debugDir := path_Join [root; "debug"] in
      call! st := trigger (FsStat debugDir) in
      do! match st with
          | Ok _ => ignore (trigger (FsRename debugDir (path_Join [keep; "debug"])))
          | Err _ => Ret tt
          end in
      call! entries := trigger (FsReadDir root) in
      do! foldM (fun _ '(entry, isDir) =>
            if (isDir : bool) || negb (HasSuffix entry ".log") then Ret tt
            else ignore (trigger (FsRename (path_Join [root; entry]) (path_Join [keep; entry])))) tt entries.1 in
      Ret keep
  end.

Definition bundle_dir (root id : string) : string := path_Join [root; "bundles"; id].

(** The containers go in reverse order, each with its mount. *)
(* go: internal/snapshotter/gvisor.go 176-179 GVisor.LoadSnapshot *)
Definition delete_all (g : gvisor) (root : string) (containers : list gvisorRestoreContainer) : prog SysE unit :=
  foldM (fun _ c =>
    do! run_runsc g (gvisorDeleteArgs root (rc_ID c)) in
    teardownImageRootfs (bundle_dir root (rc_ID c))) tt (reverse containers).

(* go: internal/snapshotter/gvisor.go 174-186 GVisor.LoadSnapshot *)
Definition cleanupFailed (g : gvisor) (name root : string) (containers : list gvisorRestoreContainer) (stage : string) :
    prog SysE string :=
  call! keep := preserveFailedLogs g name root stage in
  do! delete_all g root containers in
  call! info := loadRestoreNetInfo g name in
  do! match info with
      | Ok info => ignore (deleteRestoreNetwork info)
      | Err _ => Ret tt
      end in
  do! trigger (FsRemove (restoreNetInfoPath g name)) in
  do! trigger (FsRemoveAll root) in
  Ret keep.

(** [fmt.Errorf("<what>: %w (logs: %s)", err, keep)]. *)
Definition failed_with_logs (what keep : string) (err : error) : error :=
  Wrapf (what +:+ ": " +:+ error_text err +:+ " (logs: " +:+ keep +:+ ")") err.

(** A stage of the restore: when it fails, what was made is taken away again. *)
Definition stage {A} (cleanup : string -> prog SysE string) (name what : string) (p : prog SysE (option error))
    (k : prog SysE (result A)) : prog SysE (result A) :=
  call! failed := p in
  match failed with
  | Some err => call! keep := cleanup name in Ret (Err (failed_with_logs what keep err))
  | None => k
  end.

(** The log of a failed restore is read before it is put aside, for the Worker's log. *)
(* go: internal/snapshotter/gvisor.go 232-238 GVisor.LoadSnapshot *)
Definition run_restore (g : gvisor) (netns : string) (args : list string) (log : string) : prog SysE (option error) :=
  call! failed := runInNetworkNamespace g netns args log in
  match failed with
  | Some err => do! trigger (FsReadFile log) in Ret (Some err)
  | None => Ret None
  end.

(** Each container is created and restored before the next one. *)
(* go: internal/snapshotter/gvisor.go 215-242 GVisor.LoadSnapshot *)
Fixpoint restore_containers (g : gvisor) (cleanup : string -> prog SysE string) (netns root sourceDir debugDir rootCID : string)
    (containers : list gvisorRestoreContainer) : prog SysE (result unit) :=
  match containers with
  | [] => Ret (Ok tt)
  | c :: rest =>
      let id := rc_ID c in
      let bundleDir := bundle_dir root id in
      stage cleanup ("write-bundle-" +:+ id) ("write restore bundle " +:+ id) (writeGVisorRestoreBundle bundleDir c rootCID) (
      do! ensureRestoreCgroup id in
      stage cleanup ("create-" +:+ id) ("runsc create " +:+ id)
        (runInNetworkNamespace g netns (gvisorCreateArgs root bundleDir id debugDir (rc_Sandbox c))
           (path_Join [root; "create-" +:+ id +:+ ".log"])) (
      stage cleanup ("restore-" +:+ id) ("runsc restore " +:+ id)
        (run_restore g netns (gvisorRestoreArgs root bundleDir sourceDir id debugDir (rc_Sandbox c))
           (path_Join [root; "restore-" +:+ id +:+ ".log"])) (
      restore_containers g cleanup netns root sourceDir debugDir rootCID rest)))
  end.

(** What a checkpoint directory says is to be restored. *)
(* go: internal/snapshotter/gvisor.go 134-140 GVisor.LoadSnapshot *)
Definition containers_to_restore (req : LoadRequest) : prog SysE (result (list gvisorRestoreContainer)) :=
  let! containers := on_error (wrap_prefix "read restore containers") (readGVisorContainersFile (ld_SourceDir req)) in
  Ret (fillGVisorContainerImages containers (ld_AppImage req)).

(** The restore of a list of containers in a fresh root directory. *)
(* go: internal/snapshotter/gvisor.go 189-249 GVisor.LoadSnapshot *)
Definition restore_in_root (g : gvisor) (req : LoadRequest) (name root : string)
    (containers : list gvisorRestoreContainer) : prog SysE (result ID) :=
  call! net := createRestoreNetwork g (ld_SlotID req) name in
  match net with
  | Err err => do! trigger (FsRemoveAll root) in Ret (Err (wrap_prefix "setup restore network" err))
  | Ok netInfo =>
      let cleanup := cleanupFailed g name root containers in
      let debugDir := path_Join [root; "debug"] in
      call! made := trigger (FsMkdirAll debugDir) in
      match made with
      | Some err => do! cleanup "mkdir-debug" in Ret (Err (wrap_prefix "mkdir debug log dir" err))
      | None =>
          let '(rootCID, containers) := choose_root containers in
          let! _ := restore_containers g cleanup (ni_Netns netInfo) root (ld_SourceDir req) debugDir rootCID containers in
          stage cleanup "persist-containers" "persist restore containers" (writeGVisorContainersFile root containers) (
          Ret (Ok (mkID (gvisorIDPrefix +:+ name))))
      end
  end.

(* go: internal/snapshotter/gvisor.go GVisor.LoadSnapshot *)
Definition LoadSnapshot (g : gvisor) (req : LoadRequest) : prog SysE (result ID) :=
  if empty (ld_SourceDir req) then Ret (Err (Plain "source dir is required"))
  else
    let! containers := containers_to_restore req in
    let name := RestoredName (ld_Identity req) in
    let root := path_Join [gv_RestoreRoot g; name] in
    do! trigger (FsRemoveAll root) in
    do! trigger (FsRemove (restoreNetInfoPath g name)) in
    check! trigger (FsMkdirAll root) in
    restore_in_root g req name root containers.

(** ** Deletion and commands *)

Definition not_restored (id : ID) : error := Plain ("not a restored runsc id: " +:+ quote (id_Value id)).

(** The containers of a restored sandbox, by the file in its root; without one, the single
    container of older restores. *)
(* go: internal/snapshotter/gvisor.go 478-482 GVisor.DeleteRestored *)
Definition containers_of (root name : string) (sandbox : bool) : prog SysE (list gvisorRestoreContainer) :=
  call! containers := readGVisorContainersFile root in
  Ret (match containers with
       | Ok containers => containers
       | Err _ => [mkRestoreContainer name "" sandbox "" ""]
       end).

(* go: internal/snapshotter/gvisor.go 483-489 GVisor.DeleteRestored *)
Definition delete_containers (g : gvisor) (root : string) (containers : list gvisorRestoreContainer) :
    prog SysE (option error) :=
  foldM (fun first c =>
    call! err := run_runsc g (gvisorDeleteArgs root (rc_ID c)) in
    do! teardownImageRootfs (bundle_dir root (rc_ID c)) in
    Ret (first_of first err)) None (reverse containers).

(* go: internal/snapshotter/gvisor.go GVisor.DeleteRestored *)
Definition DeleteRestored (g : gvisor) (id : ID) : prog SysE (option error) :=
  match StripPrefix (id_Value id) gvisorIDPrefix with
  | None => Ret (Some (not_restored id))
  | Some name =>
      let root := path_Join [gv_RestoreRoot g; name] in
      call! containers := containers_of root name true in
      call! first := delete_containers g root containers in
      do! trigger (FsRemoveAll root) in
      call! info := loadRestoreNetInfo g name in
      do! match info with
          | Ok info => do! deleteRestoreNetwork info in ignore (trigger (FsRemove (restoreNetInfoPath g name)))
          | Err _ => Ret tt
          end in
      Ret first
  end.

(* go: internal/snapshotter/gvisor.go GVisor.ExecRestored *)
Definition ExecRestored (g : gvisor) (id : ID) (req : ExecRequest) : prog SysE (result ExecResult) :=
  match StripPrefix (id_Value id) gvisorIDPrefix with
  | None => Ret (Err (not_restored id))
  | Some name =>
      let timeout := if (ex_Timeout req <=? 0)%Z then (30 * Second)%Z else ex_Timeout req in
      let root := path_Join [gv_RestoreRoot g; name] in
      call! containers := containers_of root name false in
      let cid := gvisorAppContainerID containers in
      if empty cid then Ret (Err (Plain ("no app container for restored " +:+ quote name)))
      else
        let! info := on_error (wrap_prefix "load restore netns") (loadRestoreNetInfo g name) in
        let args := (["--root"; root; "--network=host"] ++ gvisorDebugFlags (path_Join [root; "debug"])) ++
                    ["exec"; cid] ++ ex_Command req in
        execInNetworkNamespace g (Some timeout) (ni_Netns info) args
  end.

(** The adapter may be a nil pointer. *)
(* go: internal/snapshotter/gvisor.go GVisor.BestEffortCleanupCRI *)
Definition BestEffortCleanupCRI (g : option gvisor) (podSandboxID : string) : prog SysE unit :=
  match g with
  | None => Ret tt
  | Some g =>
      if empty podSandboxID || empty (gv_SourceRoot g) then Ret tt
      else ignore (run_runsc g (gvisorDeleteArgs (gv_SourceRoot g) podSandboxID))
  end.
End GVisor.
