(* ===== verification/HostFacts.v ===== *)
(** * What the adapters hold on the host

    Containers, network namespaces, mounts and processes, counted from the history of calls; and what
    the parts that both adapters use do to them: the bridge, the egress rules, the root file system
    of an image. *)

From S2P Require Import Prelude Prog Compose Strings Json Runtime WorkerEnv Host Snapshotters SnapshottersFacts.
From S2P Require Import Cgroup GVisor.

(** ** What is held on the host

    A container that [runsc create] was asked for, a network namespace and an overlay mount that
    were made, a process that was started; each until its removal is asked for. *)

Inductive resource :=
  | RunscContainer (root id : string)
  | Netns (name : string)
  | Overlay (mountpoint : string)
  | Process (pid : Z).

#[export] Instance resource_eq_dec : EqDecision resource.
Proof. solve_decision. Defined.
#[export] Instance resource_countable : Countable resource.
Proof.
  apply (inj_countable'
    (fun r => match r with
              | RunscContainer root id => inl (root, id)
              | Netns name => inr (inl name)
              | Overlay mountpoint => inr (inr (inl mountpoint))
              | Process pid => inr (inr (inr pid))
              end)
    (fun s => match s with
              | inl (root, id) => RunscContainer root id
              | inr (inl name) => Netns name
              | inr (inr (inl mountpoint)) => Overlay mountpoint
              | inr (inr (inr pid)) => Process pid
              end)).
  by intros [].
Defined.

(** [Resumed]: [runsc restore] succeeded. *)
Inductive change :=
  | Gain (r : resource)
  | Lose (r : resource)
  | Resumed (root id : string).

(** The command lines of [runsc create], [restore] and [delete -force], [ip netns add] and
    [ip netns del]. *)
Definition command_change (args : list string) (ok : bool) : option change :=
  match args with
  | [a; b; c] =>
      if bool_decide (a = "netns") && bool_decide (b = "add") then if ok then Some (Gain (Netns c)) else None
      else if bool_decide (a = "netns") && bool_decide (b = "del") then Some (Lose (Netns c))
      else None
  | [_; root; verb; flag; id] =>
      if bool_decide (flag = "-force") && bool_decide (verb = "delete") then Some (Lose (RunscContainer root id)) else None
  | _ =>
      match args !! 1, reverse args with
      | Some root, id :: _ :: flag :: verb :: _ =>
          if bool_decide (verb = "create") && bool_decide (flag = "--bundle") then Some (Gain (RunscContainer root id))
          else if bool_decide (verb = "--background") && bool_decide (flag = "--direct") then
            if ok then Some (Resumed root id) else None
          else None
      | _, _ => None
      end
  end.

Definition change_of (ev : event SysE) : option change :=
  match ev with
  | existT e r =>
      match e as e return answer e -> option change with
      | CmdRun _ _ args _ => fun r : string * option cmd_error =>
          command_change args (match r.2 with None => true | Some _ => false end)
      | MtUnmount path => fun _ => Some (Lose (Overlay path))
      | MtMoveMount _ target => fun r : option error => match r with None => Some (Gain (Overlay target)) | Some _ => None end
      | MtMount _ target fstype _ _ => fun r : option error =>
          match r with None => if bool_decide (fstype = "overlay") then Some (Gain (Overlay target)) else None | Some _ => None end
      | ProcStart _ _ _ => fun r : result Z => match r with Ok pid => Some (Gain (Process pid)) | Err _ => None end
      | ProcKill pid => fun _ => Some (Lose (Process pid))
      | _ => fun _ => None
      end r
  end.

Definition do_change (held : gset resource) (c : change) : gset resource :=
  match c with
  | Gain r => {[r]} ∪ held
  | Lose r => held ∖ {[r]}
  | Resumed _ _ => held
  end.
Definition held (t : trace SysE) : gset resource := foldl do_change ∅ (omap change_of t).

Lemma held_step t ev :
  held (t ++ [ev]) = match change_of ev with Some c => do_change (held t) c | None => held t end.
Proof. unfold held. rewrite omap_app, foldl_app. cbn. by destruct (change_of ev). Qed.

(** ** Parts that a record does not see *)

(** Trees all of whose calls satisfy [P]. *)
Definition only (P : SysE -> Prop) {A} (p : prog SysE A) : Prop := forall tr, wpg (fun _ e => P e) p (fun _ _ => True) tr.

Lemma only_bind P {A B} (p : prog SysE A) (k : A -> prog SysE B) : only P p -> (forall a, only P (k a)) -> only P (bind k p).
Proof. intros Hp Hk tr. apply wpg_bind. eapply wpg_mono; [apply Hp|]. intros t a _. apply Hk. Qed.

Lemma only_loop P {A S} (body : S -> A -> prog SysE S) l s :
  (forall s0 x, x ∈ l -> only P (body s0 x)) -> only P (foldM body s l).
Proof. intros Hb tr. apply wpg_loop. intros s0 x t Hin. by apply Hb. Qed.

(** No answer to the call is in the record. *)
Definition quiet {X} (f : event SysE -> option X) (e : SysE) : Prop := forall r : answer e, f (existT e r) = None.
Notation silent f := (only (quiet f)).

Lemma silent_same {X} (f : event SysE -> option X) {A} (p : prog SysE A) (Q : trace SysE -> A -> Prop) tr :
  silent f p -> (forall t a, omap f t = omap f tr -> Q t a) -> wp p Q tr.
Proof.
  intros Hp HQ. eapply wp_mono; [eapply wpg_wp, (wpg_silent f); [|apply Hp]|].
  - intros t e r Hq. apply Hq.
  - intros t a [_ Ht]. by apply HQ.
Qed.

Lemma silent_held {A} (p : prog SysE A) (Q : trace SysE -> A -> Prop) (tr : trace SysE) :
  silent change_of p -> (forall t a, held t = held tr -> Q t a) -> wp p Q tr.
Proof. intros Hp HQ. apply (silent_same change_of); [done|]. intros t a Ht. apply HQ. unfold held. by rewrite Ht. Qed.

Lemma silent_step {A B} (p : prog SysE A) (f : A -> prog SysE B) Q (tr : trace SysE) :
  silent change_of p -> (forall t a, held t = held tr -> wp (f a) Q t) -> wp (bind f p) Q tr.
Proof. intros Hp Hf. apply wp_bind. by apply silent_held. Qed.

Lemma silent_deferred {A B} (d : prog SysE B) (p : prog SysE A) (Q : gset resource -> A -> Prop) (tr : trace SysE) :
  silent change_of d -> wp p (fun t a => Q (held t) a) tr -> wp (deferred d p) (fun t a => Q (held t) a) tr.
Proof.
  intros Hd Hp. apply wp_deferred. eapply wp_mono; [exact Hp|]. intros t a HQ. apply silent_held; [done|]. by intros t' _ ->.
Qed.

(** A command whose line is spelled out is quiet by computation. *)
Ltac quiet_calls :=
  repeat first
    [ progress wpg_step
    | match goal with |- quiet _ _ => let r := fresh in intros r; first [reflexivity | destruct r as [? []]; reflexivity | destruct r; reflexivity] end
    | done
    | match goal with
      | |- wpg _ ?p _ _ => let h := get_head p in
          match h with foldM => fail 1 | _ => unfold h; cbv beta zeta end
      end ].

(** The parts known not to change anything. *)
Create HintDb silent discriminated.
Ltac silent_part := solve [ auto with silent nocore | let tr := fresh in intros tr; quiet_calls ].
(** A sequence of such parts. *)
Ltac only_parts :=
  repeat first
    [ silent_part
    | progress unfold try_bind, check_bind, on_error, on_failure, as_result, deferred, fails_first, then_, ignore
    | match goal with
      | |- only _ (bind _ _) => apply only_bind
      | |- only _ (match ?x with _ => _ end) => destruct x
      | |- only _ (foldM _ _ _) => apply only_loop
      | |- forall _, _ => intros ?
      end ].

Ltac silent_steps :=
  repeat first
    [ progress unfold fails_first, then_, ignore
    | match goal with |- wp (bind _ _) _ _ => apply silent_step end; [silent_part|]; let t := fresh "t" in let r := fresh "r" in let Ht := fresh "Ht" in
        intros t r Ht; destruct r; cbn [wp]
    | progress cbn [wp] ].

Ltac same_held := repeat match goal with H : held ?t = _ |- context [held ?t] => rewrite H; clear H end.

Section HostFacts.
Context {HE : HostEnv} {JT : JsonText} {IA : ImageApi}.
Implicit Types (tr t : trace SysE).

Lemma silent_bridge : silent change_of ensureSharedBridge.
Proof. intros tr. quiet_calls. Qed.

Lemma silent_nat : silent change_of ensureOutboundNAT.
Proof.
  unfold ensureOutboundNAT, then_. apply only_bind; [intros tr; quiet_calls|]. intros _.
  apply only_loop. intros _ [append args] Hin. unfold ignore. apply only_bind; [|intros _ tr; quiet_calls].
  unfold egress_rules in Hin. rewrite !elem_of_cons, elem_of_nil in Hin.
  destruct Hin as [[= -> ->]|[[= -> ->]|[[= -> ->]|[]]]]; intros tr; quiet_calls.
Qed.

(** The commands of the diagnosis. *)
Lemma silent_diag b title command :
  (forall ok, command_change (tail command) ok = None) -> silent change_of (diag b title command).
Proof. intros Hq tr. unfold diag, run_cmd, trigger. wpg_step; [|done]. intros r. apply Hq. Qed.
Lemma silent_ensure_files rootEtc files : silent change_of (ensure_files rootEtc files).
Proof.
  induction files as [|[name body] files IH]; cbn [ensure_files]; [intros tr; quiet_calls|].
  apply only_bind; [intros tr; quiet_calls|]. intros [[| |]|]; [apply IH|..];
    unfold fails_first; (apply only_bind; [intros tr; quiet_calls|]); intros [|]; (apply IH || (intros tr; quiet_calls)).
Qed.

Lemma silent_get_or_pull client ref all candidates last : silent change_of (get_or_pull client ref all candidates last).
Proof.
  revert last. induction candidates as [|c rest IH]; intros last; cbn [get_or_pull]; [intros tr; quiet_calls|].
  apply only_bind; [intros tr; quiet_calls|]. intros [img|err]; [intros tr; quiet_calls|apply IH].
Qed.

Lemma silent_set_lowers fsfd lowers : silent change_of (set_lowers fsfd lowers).
Proof.
  induction lowers as [|l lowers IH]; cbn [set_lowers]; [intros tr; quiet_calls|].
  unfold fails_first. apply only_bind; [intros tr; quiet_calls|]. intros [|]; [intros tr; quiet_calls|apply IH].
Qed.

Lemma silent_image_lowers client ref dir : silent change_of (image_lowers client ref dir).
Proof.
  unfold image_lowers, try_bind, getOrPullContainerdImage. apply only_bind; [apply silent_get_or_pull|].
  intros [img|err]; intros tr; quiet_calls.
Qed.
#[local] Hint Resolve silent_bridge silent_nat silent_get_or_pull silent_set_lowers silent_image_lowers : silent.

(** ** What each part makes *)

Lemma union_again (x : resource) (X : gset resource) : {[x]} ∪ (X ∖ {[x]}) = {[x]} ∪ X.
Proof. apply set_eq. intros y. destruct (decide (y = x)); set_solver. Qed.

(** At most one mount, and it when the answer is no error. *)
Definition mounts (x : resource) (before after : gset resource) (err : option error) : Prop :=
  after = {[x]} ∪ before \/ (after = before /\ err <> None).


Lemma no_mount x (X : gset resource) err : mounts x X X (Some err).
Proof. by right. Qed.
Lemma one_mount x (X : gset resource) err : mounts x X ({[x]} ∪ X) err.
Proof. by left. Qed.

Lemma mount_fsconfig_wp mountpoint lowers upper work tr :
  wp (mountOverlayFSConfig mountpoint lowers upper work) (fun t r => mounts (Overlay mountpoint) (held tr) (held t) r) tr.
Proof.
  unfold mountOverlayFSConfig. silent_steps; [|same_held; apply no_mount].
  apply (silent_deferred _ _ (fun X r => mounts (Overlay mountpoint) (held tr) X r)); [silent_part|].
  silent_steps; same_held; try apply no_mount.
  apply (silent_deferred _ _ (fun X r => mounts (Overlay mountpoint) (held tr) X r)); [silent_part|].
  apply wp_on_failure. cbn [trigger wp]. intros r. rewrite held_step. same_held. destruct (r : option error).
  - apply no_mount.
  - apply one_mount.
Qed.

Lemma mount_lowers_wp mountpoint lowers upper work tr :
  wp (mountOverlayLowers mountpoint lowers upper work) (fun t r => mounts (Overlay mountpoint) (held tr) (held t) r) tr.
Proof.
  unfold mountOverlayLowers. apply wp_bind. eapply wp_mono; [apply mount_fsconfig_wp|]. cbv beta.
  intros t r Hm. destruct r as [err|]; [|done]. destruct (isFsconfigUnsupported err); [|done].
  apply wp_on_failure. cbn [trigger wp]. intros r. rewrite held_step.
  destruct Hm as [Hh|[Hh _]]; rewrite Hh; destruct (r : option error); cbn.
  - apply one_mount.
  - left. cbn. set_solver.
  - apply no_mount.
  - apply one_mount.
Qed.

(** The bundle of a container: a mount that was there before is taken away first. *)
Definition rootfs_of (bundleDir : string) : string := path_Join [bundleDir; "rootfs"].

Lemma held_unmount tr path (r : option error) :
  held (tr ++ [existT (MtUnmount path) r]) = held tr ∖ {[Overlay path]}.
Proof. apply held_step. Qed.

Lemma foldM_mkdirs_silent rootfs : silent change_of (foldM (fun _ d => ignore (trigger (FsMkdirAll (path_Join [rootfs; d])))) tt ["proc"; "sys"; "dev"; "etc"]).
Proof. apply only_loop. intros [] d _ tr. quiet_calls. Qed.

Definition bundle_made (bundleDir : string) (before after : gset resource) (err : option error) : Prop :=
  let x := Overlay (rootfs_of bundleDir) in
  after ∖ {[x]} = before ∖ {[x]} /\ (err = None -> after = {[x]} ∪ before).

Lemma bundle_unmounted dir before err : bundle_made dir before (before ∖ {[Overlay (rootfs_of dir)]}) (Some err).
Proof. split; [set_solver|done]. Qed.

Lemma bundle_mounted dir before after now err :
  now = before ∖ {[Overlay (rootfs_of dir)]} -> mounts (Overlay (rootfs_of dir)) now after err ->
  bundle_made dir before after err.
Proof.
  intros -> [->|[-> Hne]]; (split; [set_solver|]); [by rewrite union_again|done].
Qed.

Lemma setup_rootfs_wp ref dir tr :
  wp (setupImageRootfs ref dir) (fun t r => bundle_made dir (held tr) (held t) r) tr.
Proof.
  unfold setupImageRootfs. destruct (empty ref); [cbn [wp]; done|].
  unfold fails_first. cbn [mkdir_all]. silent_steps; same_held; try done.
  apply wp_bind. cbn [trigger wp]. intros r.
  set (t1 := t0 ++ _). assert (H1 : held t1 = held tr ∖ {[Overlay (rootfs_of dir)]}).
  { unfold t1. rewrite held_unmount. by same_held. }
  clearbody t1. clear r. silent_steps; same_held; [|by apply bundle_unmounted].
  apply (silent_deferred _ _ (fun X r => bundle_made dir (held tr) X r)); [silent_part|].
  silent_steps; same_held; [|by apply bundle_unmounted].
  apply wp_bind. eapply wp_mono; [apply mount_lowers_wp|]. cbv beta. intros t4 r Hm.
  apply (bundle_mounted dir (held tr)) in Hm; [|by same_held]. destruct r as [err|]; [done|].
  apply silent_step; [apply foldM_mkdirs_silent|]. intros t5 [] Ht5. cbn [wp]. by rewrite Ht5.
Qed.
Lemma equal_but_one (x : resource) (X Y Z : gset resource) : X ∖ {[x]} = Y ∖ {[x]} -> Y ⊆ Z -> x ∈ Z -> X ⊆ Z.
Proof.
  intros Heq HY Hx y Hy. destruct (decide (y = x)) as [->|Hne]; [done|]. apply HY.
  assert (Hin : y ∈ X ∖ {[x]}) by (apply elem_of_difference; split; [done|by rewrite elem_of_singleton]).
  rewrite Heq in Hin. by apply elem_of_difference in Hin as [? _].
Qed.

Lemma Clean_nonempty p : empty (Clean p) = false.
Proof.
  unfold Clean, empty. destruct (HasPrefix p "/"); [done|].
  destruct (bool_decide (strings_Join _ _ = "")) eqn:He; [done|]. exact He.
Qed.

Lemma path_Join_nonempty e elems : e ∈ elems -> e <> "" -> empty (path_Join elems) = false.
Proof.
  intros Hin Hne. unfold path_Join. destruct (filter _ elems) as [|e' es] eqn:Hf; [|apply Clean_nonempty].
  assert (Hin' : e ∈ filter (fun e => e <> "") elems) by (by apply list_elem_of_filter).
  rewrite Hf in Hin'. by apply elem_of_nil in Hin'.
Qed.

Lemma teardown_rootfs_wp dir tr :
  empty dir = false -> wp (teardownImageRootfs dir) (fun t _ => held t = held tr ∖ {[Overlay (rootfs_of dir)]}) tr.
Proof. intros He. unfold teardownImageRootfs, ignore. rewrite He. cbn [bind trigger wp]. intros r. apply held_unmount. Qed.
End HostFacts.

#[export] Hint Resolve silent_bridge silent_nat silent_get_or_pull silent_set_lowers silent_image_lowers : silent.
