(* ===== verification/GVisorFacts.v ===== *)
(** * Correctness of the gVisor adapter

    What a restore leaves behind, which containers it restores, and what a deletion means, for
    every behaviour of runsc, the network tools, the file system and containerd. *)

From S2P Require Import Prelude Prog Compose Strings Json ApiJson Runtime WorkerEnv Host Snapshotters SnapshottersFacts.
From S2P Require Import Cgroup GVisor HostFacts.

(** ** What is booted *)

(** The containers created and resumed, in this order. *)
Inductive boot := Created (root id : string) | Restored (root id : string).
Definition boot_change (c : change) : option boot :=
  match c with
  | Gain (RunscContainer root id) => Some (Created root id)
  | Resumed root id => Some (Restored root id)
  | _ => None
  end.
Definition boot_of (ev : event SysE) : option boot := change_of ev ≫= boot_change.
Definition boots (t : trace SysE) : list boot := omap boot_of t.
(** What changes nothing boots nothing. *)
Lemma silent_boots {A} (p : prog SysE A) : silent change_of p -> silent boot_of p.
Proof.
  intros Hp tr. eapply wpg_guard; [apply Hp|]. intros t e Hq r. unfold boot_of. by rewrite Hq.
Qed.

Section GVisorFacts.
Context {HE : HostEnv} {JT : JsonText} {IA : ImageApi}.
Implicit Types (g : gvisor) (tr t : trace SysE).
Lemma silent_network_diag g name info netCfg : silent change_of (writeRestoreNetworkDiag g name info netCfg).
Proof.
  unfold writeRestoreNetworkDiag. apply only_bind; [|intros b; apply only_bind; [intros tr; quiet_calls|intros raw]].
  - apply only_loop. intros b [title command] Hin. apply silent_diag.
    cbn [app] in Hin. rewrite !elem_of_cons, elem_of_nil in Hin.
    repeat destruct Hin as [[= -> ->]|Hin]; try done; by intros [].
  - apply only_bind; [|intros b' tr; quiet_calls]. destruct raw as [resolv|]; [|intros tr; quiet_calls].
    destruct (first_nameserver resolv); [|intros tr; quiet_calls]. by apply silent_diag; intros [].
Qed.

Lemma silent_save_info g name info : silent change_of (saveRestoreNetInfo g name info).
Proof. intros tr. quiet_calls. Qed.
Lemma silent_load_info g name : silent change_of (loadRestoreNetInfo g name).
Proof. intros tr. quiet_calls. Qed.
Lemma silent_read_containers dir : silent change_of (readGVisorContainersFile dir).
Proof. intros tr. quiet_calls. Qed.
Lemma silent_write_containers dir containers : silent change_of (writeGVisorContainersFile dir containers).
Proof. intros tr. quiet_calls. Qed.
Lemma silent_cgroups_path name : silent change_of (restoreCgroupsPath name).
Proof. intros tr. quiet_calls. Qed.
Lemma silent_cgroup name : silent change_of (ensureRestoreCgroup name).
Proof. intros tr. quiet_calls. Qed.

Lemma silent_etc_mounts dir hostname : silent change_of (gvisorRestoreEtcMounts dir hostname).
Proof.
  unfold gvisorRestoreEtcMounts, check_bind, ensureRootfsEtcFiles, fails_first.
  repeat first [apply silent_ensure_files | apply only_bind; [|intros []] | solve [intros tr; quiet_calls]].
Qed.

Lemma silent_write_config dir c root : silent change_of (writeGVisorRestoreConfig dir c root).
Proof.
  unfold writeGVisorRestoreConfig. apply only_bind; [apply silent_cgroups_path|]. intros path.
  apply only_bind; [apply silent_etc_mounts|]. intros [|] tr; quiet_calls.
Qed.

(** ** What each part makes *)

#[local] Hint Resolve silent_network_diag silent_save_info silent_load_info silent_read_containers silent_write_containers
  silent_cgroup silent_write_config : silent.

Lemma write_bundle_wp dir c rootCID tr :
  wp (writeGVisorRestoreBundle dir c rootCID) (fun t r => bundle_made dir (held tr) (held t) r) tr.
Proof.
  unfold writeGVisorRestoreBundle. destruct (empty (rc_Image c)); [done|]. unfold fails_first.
  apply wp_bind, wp_on_failure. eapply wp_mono; [apply setup_rootfs_wp|]. cbv beta. intros t [err|] Hb; cbn [wp].
  { by destruct Hb. }
  silent_steps; same_held; [|done]. unfold teardownImageRootfs. destruct (empty dir); cbn [wp bind].
  { same_held. by destruct Hb as [Hb _]. }
  unfold ignore, trigger. cbn [wp bind]. intros r. rewrite held_unmount. same_held. destruct Hb as [Hb _].
  split; [|done]. set_solver.
Qed.

(** ** The network *)

Definition netns_of (info : restoreNetInfo) : gset resource :=
  if empty (ni_Netns info) then ∅ else {[Netns (ni_Netns info)]}.

Lemma delete_network_wp info tr : wp (deleteRestoreNetwork info) (fun t _ => held t = held tr ∖ netns_of info) tr.
Proof.
  unfold deleteRestoreNetwork, runIPCommand, run_cmd, netns_of. apply wp_bind.
  eapply wp_mono with (Q := fun t _ => held t = held tr).
  { destruct (empty (ni_Veth info)); [done|]. apply silent_held; [silent_part|done]. }
  intros t first Ht. destruct (empty (ni_Netns info)); cbn [wp bind trigger]; [by rewrite Ht, difference_empty_L|].
  intros r. rewrite held_step, Ht. done.
Qed.

(** A stage of the network: when it fails, the namespace goes. *)
Lemma or_delete_wp {A} info p (k : prog SysE (result A)) (Q : gset resource -> result A -> Prop) tr :
  silent change_of p ->
  (forall err, Q (held tr ∖ netns_of info) (Err err)) ->
  (forall t, held t = held tr -> wp k (fun t r => Q (held t) r) t) ->
  wp (or_delete info p k) (fun t r => Q (held t) r) tr.
Proof.
  intros Hp Herr Hk. unfold or_delete, then_. apply silent_step; [done|]. intros t [err|] Ht; [|by apply Hk].
  apply wp_bind. eapply wp_mono; [apply delete_network_wp|]. cbv beta. intros t' a Ht'. cbn [wp]. rewrite Ht', Ht. apply Herr.
Qed.

Definition slot_netns (slotID : Z) : string := "sfg" +:+ itoa slotID.

Definition network_made (slotID : Z) (before after : gset resource) (r : result restoreNetInfo) : Prop :=
  match r with
  | Ok info => ni_Netns info = slot_netns slotID /\ after = {[Netns (slot_netns slotID)]} ∪ before
  | Err _ => after ⊆ before
  end.

Lemma netns_add_wp ns tr :
  wp (runIPCommand ["netns"; "add"; ns])
    (fun t r => held t = match r with None => {[Netns ns]} ∪ held tr | Some _ => held tr end) tr.
Proof. unfold runIPCommand, run_cmd. cbn [bind trigger wp]. intros [out [err|]]; by rewrite held_step. Qed.

Lemma netns_del_wp ns tr : wp (runIPCommand ["netns"; "del"; ns]) (fun t _ => held t = held tr ∖ {[Netns ns]}) tr.
Proof. unfold runIPCommand, run_cmd. cbn [bind trigger wp]. intros [out [err|]]; by rewrite held_step. Qed.

Lemma create_network_wp g slotID name tr :
  wp (createRestoreNetwork g slotID name) (fun t r => network_made slotID (held tr) (held t) r) tr.
Proof.
  unfold createRestoreNetwork, try_bind, check_bind. cbn [bind].
  destruct (guestNetForSlot slotID) as [netCfg|err]; cbn [wp]; [|cbn; set_solver].
  silent_steps; [cbn; same_held; set_solver|]. apply wp_bind. eapply wp_mono; [apply delete_network_wp|].
  cbv beta. intros t1 r1 H1. cbn [slot_network ni_Netns ni_Veth] in *.
  apply wp_bind, wp_on_failure. eapply wp_mono; [apply netns_add_wp|]. cbv beta. intros t2 [err|] H2; cbn [wp].
  { cbn. rewrite H2, H1. same_held. set_solver. }
  assert (Hns : netns_of (slot_network slotID) = {[Netns (slot_netns slotID)]}) by done.
  assert (Hadd : held t2 = {[Netns (slot_netns slotID)]} ∪ held tr).
  { rewrite H2, H1, Hns. same_held. apply union_again. }
  clear H1 H2 t1 r1. silent_steps.
  { apply wp_bind. eapply wp_mono; [apply netns_del_wp|]. cbv beta. intros t4 r4 H4. cbn. rewrite H4. same_held. set_solver. }
  assert (Herr : forall X info (err : error), netns_of info = {[Netns (slot_netns slotID)]} -> X = held t2 ->
    network_made slotID (held tr) (X ∖ netns_of info) (Err err)).
  { intros X info err -> ->. cbn. rewrite Hadd. set_solver. }
  do 10 (apply (or_delete_wp _ _ _ (fun X r => network_made slotID (held tr) X r));
    [silent_part|intros err; apply Herr; [done|by same_held]|];
    let t' := fresh "t" in let H := fresh "H" in intros t' H).
  silent_steps. cbn. split; [done|]. by same_held.
Qed.

(** ** Removal *)

Lemma bundle_dir_nonempty root id : empty (bundle_dir root id) = false.
Proof. apply path_Join_nonempty with "bundles"; [set_solver|done]. Qed.

Definition parts (root : string) (c : gvisorRestoreContainer) : gset resource :=
  {[RunscContainer root (rc_ID c); Overlay (rootfs_of (bundle_dir root (rc_ID c)))]}.
Definition footprint (root : string) (containers : list gvisorRestoreContainer) : gset resource :=
  ⋃ (parts root <$> containers).

Lemma delete_command_wp g root id tr :
  wp (run_runsc g (gvisorDeleteArgs root id)) (fun t _ => held t = held tr ∖ {[RunscContainer root id]}) tr.
Proof. unfold run_runsc, run_cmd. cbn [bind trigger wp]. intros [err out]. by rewrite held_step. Qed.

Lemma footprint_reverse root containers : footprint root (reverse containers) = footprint root containers.
Proof. unfold footprint. by rewrite reverse_Permutation. Qed.

Lemma footprint_snoc root containers c : footprint root (containers ++ [c]) = footprint root containers ∪ parts root c.
Proof. unfold footprint. rewrite fmap_app, union_list_app_L. cbn. by rewrite union_empty_r_L. Qed.

Lemma delete_all_wp g root containers tr :
  wp (delete_all g root containers) (fun t _ => held t = held tr ∖ footprint root containers) tr.
Proof.
  unfold delete_all. rewrite <- footprint_reverse.
  apply (wp_foldM _ (fun done t _ => held t = held tr ∖ footprint root done) (reverse containers) tt tr []).
  { unfold footprint. cbn. by rewrite difference_empty_L. }
  intros done c t [] Ht _. unfold then_. apply wp_bind. eapply wp_mono; [apply delete_command_wp|]. cbv beta.
  intros t1 r1 H1. eapply wp_mono; [apply teardown_rootfs_wp, bundle_dir_nonempty|]. cbv beta. intros t2 r2 H2.
  rewrite H2, H1, Ht, footprint_snoc. unfold parts. clear. set_solver.
Qed.

(** The network a record speaks of. *)
Definition recorded (r : result string) : gset resource :=
  match r with
  | Ok raw => match Unmarshal_as raw with Ok info => netns_of info | Err _ => ∅ end
  | Err _ => ∅
  end.

(** What a failed restore may leave: the namespace, if the record that was read back is not its. *)
Definition abandoned g name ns t : Prop :=
  held t ⊆ {[Netns ns]} /\
  (Netns ns ∈ held t -> exists r, existT (P := answer) (FsReadFile (restoreNetInfoPath g name)) r ∈ t /\ Netns ns ∉ recorded r).

Lemma silent_preserve g name root s : silent change_of (preserveFailedLogs g name root s).
Proof.
  unfold preserveFailedLogs, then_, ignore.
  repeat first [ apply only_loop; intros [] [entry isDir] _; destruct (_ || _); intros tr; quiet_calls
               | apply only_bind; [|intros []] | solve [intros tr; quiet_calls] ].
Qed.

(** The second half of a clean-up: the network, by its record. *)
Lemma forget_network_wp g name root keep tr :
  wp (call! info := loadRestoreNetInfo g name in
      do! match info with Ok info => ignore (deleteRestoreNetwork info) | Err _ => Ret tt end in
      do! trigger (FsRemove (restoreNetInfoPath g name)) in
      do! trigger (FsRemoveAll root) in
      Ret keep)
    (fun t (_ : string) => exists r,
       existT (P := answer) (FsReadFile (restoreNetInfoPath g name)) r ∈ t /\ held t = held tr ∖ recorded r) tr.
Proof.
  unfold loadRestoreNetInfo, try_bind, then_, ignore, trigger. cbn [bind wp]. intros r. set (t1 := tr ++ _).
  assert (H1 : held t1 = held tr) by apply held_step.
  assert (Hin : existT (P := answer) (FsReadFile (restoreNetInfoPath g name)) r ∈ t1) by (apply elem_of_app; right; left).
  clearbody t1. eapply wp_mono with (Q := fun t _ => t1 `prefix_of` t /\ held t = held tr ∖ recorded r).
  2: { intros t _ [Hp Ht]. exists r. split; [by eapply elem_of_prefix|done]. }
  apply wp_conj; [apply wp_prefix|]. unfold recorded. destruct r as [raw|err]; cbn [bind].
  2: { cbn [wp]. intros r2 r3. by rewrite !held_step, H1, difference_empty_L. }
  destruct (Unmarshal_as raw) as [info|err]; cbn [bind wp].
  2: { intros r2 r3. by rewrite !held_step, H1, difference_empty_L. }
  apply wp_bind, wp_bind. eapply wp_mono; [apply delete_network_wp|]. cbv beta. intros t2 r2 H2. cbn [wp].
  intros r3 r4. by rewrite !held_step, H2, H1.
Qed.

Lemma cleanup_wp g name root containers s ns tr :
  held tr ⊆ {[Netns ns]} ∪ footprint root containers ->
  wp (cleanupFailed g name root containers s) (fun t _ => abandoned g name ns t) tr.
Proof.
  intros Hh. unfold cleanupFailed. apply silent_step; [apply silent_preserve|]. intros t0 keep H0.
  unfold then_ at 1. apply wp_bind. eapply wp_mono; [apply delete_all_wp|]. cbv beta. intros t1 _ H1.
  eapply wp_mono; [apply forget_network_wp|]. cbv beta. intros t _ (r & Hin & Ht).
  rewrite H0 in H1. rewrite H1 in Ht. split; [set_solver|]. intros Hns. exists r. split; [done|]. set_solver.
Qed.

(** ** runsc in the namespace *)

Definition with_change (c : option change) (X : gset resource) : gset resource :=
  match c with Some c => do_change X c | None => X end.

(** The command may not have been run at all; then the answer is an error. *)
Definition may_change (c : option change) (before after : gset resource) (failed : bool) : Prop :=
  after = with_change c before \/ (after = before /\ failed = true).

Lemma in_netns_wp ns fn (Q : gset resource -> option cmd_error -> Prop) tr :
  (forall t, held t = held tr -> wp fn (fun t' r => Q (held t') r) t) -> (forall err, Q (held tr) (Some (CmdError err))) ->
  wp (doInNamedNetNS ns fn) (fun t r => Q (held t) r) tr.
Proof.
  intros Hfn Herr. unfold doInNamedNetNS. silent_steps; same_held; [|done].
  apply (silent_deferred _ _ Q); [silent_part|]. silent_steps; same_held; [|done].
  apply (silent_deferred _ _ Q); [silent_part|]. silent_steps; same_held; [done|].
  apply (silent_deferred _ _ Q); [silent_part|]. apply Hfn. by same_held.
Qed.

Lemma run_in_netns_wp g ns args log c tr :
  (forall ok X, with_change (command_change args ok) X = with_change c X) -> empty log = false ->
  wp (runInNetworkNamespace g ns args log) (fun t r => may_change c (held tr) (held t) (bool_decide (r <> None))) tr.
Proof.
  intros Hc Hlog. unfold runInNetworkNamespace. rewrite Hlog. apply wp_bind.
  eapply wp_mono; [apply (in_netns_wp _ _ (fun X r => may_change c (held tr) X (bool_decide (r <> None))))|].
  - intros t Ht. silent_steps; same_held; [by right|].
    apply (silent_deferred _ _ (fun X r => may_change c (held tr) X (bool_decide (r <> None)))); [silent_part|].
    unfold run_cmd, trigger. cbn [bind wp]. intros [out [err|]]; cbn [snd].
    all: set (t1 := t0 ++ _); assert (H1 : held t1 = with_change c (held tr)) by
      (unfold t1; rewrite held_step; cbn [change_of snd]; same_held; apply Hc); clearbody t1.
    + cbn [bind wp]. intros r. rewrite held_step, H1. by left.
    + cbn [wp]. rewrite H1. by left.
  - intros err. by right.
  - cbv beta. intros t [err|] Hm; exact Hm.
Qed.

Lemma create_change root dir id debug sandbox ok :
  command_change (gvisorCreateArgs root dir id debug sandbox) ok = Some (Gain (RunscContainer root id)).
Proof. unfold gvisorCreateArgs, restore_flags, gvisorDebugFlags. by destruct sandbox, (empty debug). Qed.

Lemma restore_change root dir image id debug sandbox ok :
  command_change (gvisorRestoreArgs root dir image id debug sandbox) ok = if ok then Some (Resumed root id) else None.
Proof. unfold gvisorRestoreArgs, restore_flags, gvisorDebugFlags. by destruct sandbox, (empty debug). Qed.

Lemma stage_wp {A} cleanup name what p (k : prog SysE (result A)) (Q : trace SysE -> result A -> Prop) tr :
  wp p (fun t r => match r with
                   | None => wp k Q t
                   | Some err => wp (cleanup name) (fun t' keep => Q t' (Err (failed_with_logs what keep err))) t
                   end) tr ->
  wp (stage cleanup name what p k) Q tr.
Proof.
  intros Hp. unfold stage. apply wp_bind. eapply wp_mono; [exact Hp|]. cbv beta.
  intros t [err|] Hk; [|done]. by apply wp_bind.
Qed.

Lemma log_nonempty root s : empty (path_Join [root; "create-" +:+ s]) = false /\ empty (path_Join [root; "restore-" +:+ s]) = false.
Proof.
  split; unfold path_Join; rewrite filter_cons; case_decide; rewrite ?filter_cons; cbn; apply Clean_nonempty.
Qed.

Lemma run_restore_wp g ns root dir image id debug sandbox log tr :
  empty log = false ->
  wp (run_restore g ns (gvisorRestoreArgs root dir image id debug sandbox) log) (fun t _ => held t = held tr) tr.
Proof.
  intros Hlog. unfold run_restore. apply wp_bind. eapply wp_mono; [apply (run_in_netns_wp _ _ _ _ None); [|done]|].
  { intros ok X. rewrite restore_change. by destruct ok. }
  cbv beta. intros t [err|] [Ht|[Ht _]]; unfold then_; cbn [bind trigger wp] in *; try done; intros r; by rewrite held_step, Ht.
Qed.

(** The containers one after another, after those in [done]. *)
Lemma restore_containers_wp g name root all ns netns src debug rootCID cs done tr :
  footprint root (done ++ cs) ⊆ footprint root all ->
  held tr = {[Netns ns]} ∪ footprint root done ->
  wp (restore_containers g (cleanupFailed g name root all) netns root src debug rootCID cs)
    (fun t r => match r with
                | Ok _ => held t = {[Netns ns]} ∪ footprint root (done ++ cs)
                | Err _ => abandoned g name ns t
                end) tr.
Proof.
  revert done tr. induction cs as [|c cs IH]; intros done tr Hall Htr; cbn [restore_containers].
  { cbn [wp]. by rewrite app_nil_r. }
  assert (Hparts : footprint root (done ++ [c]) ⊆ footprint root all).
  { etrans; [|exact Hall]. unfold footprint. rewrite !fmap_app, !union_list_app_L. cbn. set_solver. }
  rewrite footprint_snoc in Hparts. pose proof (Hparts : footprint root done ∪ parts root c ⊆ _) as Hp. unfold parts in Hp.
  destruct (log_nonempty root (rc_ID c +:+ ".log")) as [Hlog1 Hlog2].
  apply stage_wp. eapply wp_mono; [apply write_bundle_wp|]. cbv beta. intros t1 [err|] [H1 H1'].
  { apply cleanup_wp. eapply equal_but_one; [exact H1|rewrite Htr; clear -Hp; set_solver|clear -Hp; set_solver]. }
  specialize (H1' eq_refl). clear H1. apply silent_step; [silent_part|]. intros t2 _ H2.
  apply stage_wp. eapply wp_mono; [apply (run_in_netns_wp _ _ _ _ (Some (Gain (RunscContainer root (rc_ID c))))); [|done]|].
  { intros ok X. by rewrite create_change. }
  cbv beta. intros t3 [err|] H3.
  { apply cleanup_wp. destruct H3 as [H3|[H3 _]]; cbn in H3; rewrite H3, H2, H1', Htr; clear -Hp; set_solver. }
  destruct H3 as [H3|[_ ?]]; [|done]. cbn in H3.
  apply stage_wp. eapply wp_mono; [by apply run_restore_wp|]. cbv beta. intros t4 [err|] H4.
  { apply cleanup_wp. rewrite H4, H3, H2, H1', Htr. clear -Hp. set_solver. }
  replace (done ++ c :: cs) with ((done ++ [c]) ++ cs) in * by (by rewrite <- app_assoc).
  apply IH; [done|]. rewrite H4, H3, H2, H1', Htr, footprint_snoc. unfold parts. clear. set_solver.
Qed.

(** ** A restore as a whole *)

(** The containers that the bytes of a checkpoint's list stand for, images filled in. *)
Definition checkpoint_list (req : LoadRequest) (raw : string) : result (list gvisorRestoreContainer) :=
  parse_containers raw ≫= fun cs => fillGVisorContainerImages cs (ld_AppImage req).
Definition read_from_checkpoint (req : LoadRequest) (cs : list gvisorRestoreContainer) t : Prop :=
  exists raw, existT (P := answer) (FsReadFile (path_Join [ld_SourceDir req; gvisorContainersFile])) (Ok raw) ∈ t /\
    checkpoint_list req raw = Ok cs.

Lemma containers_to_restore_wp req tr :
  wp (containers_to_restore req) (fun t r => omap change_of t = omap change_of tr /\
    forall cs, r = Ok cs -> read_from_checkpoint req cs t) tr.
Proof.
  unfold containers_to_restore, try_bind, on_error, readGVisorContainersFile, trigger. cbn [bind wp].
  intros r. assert (Hq : forall A (x : A), omap change_of (tr ++ [existT (FsReadFile (path_Join [ld_SourceDir req; gvisorContainersFile])) r]) =
    omap change_of tr) by (intros _ _; rewrite omap_app; apply app_nil_r).
  destruct r as [raw|err]; cbn [bind wp]; [|split; [by apply (Hq unit tt)|done]].
  destruct (parse_containers raw) as [cs0|err] eqn:Hp; cbn [bind wp]; (split; [by apply (Hq unit tt)|]); [|done].
  intros cs Hcs. exists raw. split; [apply elem_of_app; right; left|]. unfold checkpoint_list. by rewrite Hp.
Qed.

Lemma choose_root_ids cs : rc_ID <$> (choose_root cs).2 = rc_ID <$> cs.
Proof. unfold choose_root. destruct (empty _); [|done]. by destruct cs. Qed.

Lemma footprint_ids root cs cs' : rc_ID <$> cs = rc_ID <$> cs' -> footprint root cs = footprint root cs'.
Proof.
  intros Hids. unfold footprint.
  change (parts root) with ((fun id => {[RunscContainer root id; Overlay (rootfs_of (bundle_dir root id))]} : gset resource) ∘ rc_ID).
  by rewrite !list_fmap_compose, Hids.
Qed.

Definition restore_root g (req : LoadRequest) : string := path_Join [gv_RestoreRoot g; RestoredName (ld_Identity req)].

Lemma held_nothing_abandoned g name ns t : held t = ∅ -> abandoned g name ns t.
Proof. intros Ht. split; rewrite Ht; [set_solver|]. by intros ?%not_elem_of_empty. Qed.

Lemma restore_in_root_wp g req name root cs tr :
  held tr = ∅ ->
  wp (restore_in_root g req name root cs) (fun t r =>
    match r with
    | Ok id => id = mkID (gvisorIDPrefix +:+ name) /\ held t = {[Netns (slot_netns (ld_SlotID req))]} ∪ footprint root cs
    | Err _ => abandoned g name (slot_netns (ld_SlotID req)) t
    end) tr.
Proof.
  intros Htr. unfold restore_in_root, then_. apply wp_bind. eapply wp_mono; [apply create_network_wp|]. cbv beta.
  intros t1 [info|err] H1; cbn in H1; rewrite Htr in H1.
  2: { silent_steps; apply held_nothing_abandoned; same_held; set_solver. }
  destruct H1 as [_ H1]. rewrite union_empty_r_L in H1. apply silent_step; [silent_part|]. intros t2 [err|] H2.
  { apply wp_bind. eapply wp_mono; [apply (cleanup_wp _ _ _ _ _ (slot_netns (ld_SlotID req))); rewrite H2, H1; set_solver|done]. }
  pose proof (choose_root_ids cs) as Hids. destruct (choose_root cs) as [rootCID cs'] eqn:Hroot. cbn in Hids.
  apply (footprint_ids root) in Hids. apply wp_try_bind. eapply wp_mono.
  { apply (restore_containers_wp _ _ _ _ (slot_netns (ld_SlotID req)) _ _ _ _ cs' []); [by rewrite app_nil_l, Hids|].
    rewrite H2, H1. unfold footprint. cbn. set_solver. }
  cbv beta. intros t3 [_u|err] H3; [|done]. rewrite app_nil_l, Hids in H3.
  apply stage_wp. apply silent_held; [silent_part|]. intros t4 [err|] H4; [apply cleanup_wp|cbn [wp]; split; [done|]]; rewrite H4, H3; set_solver.
Qed.

(** C25. A restore is all or nothing: when [LoadSnapshot] succeeds, it holds exactly the network
    namespace of the Slot, and for each container listed in the checkpoint one runsc container and
    one overlay mount under the root of this Sandbox; when it fails, at any point and for any
    reason, every container it created was asked to be deleted, every mount to be unmounted, and
    the namespace to be removed - unless the record of the namespace could not be read back. *)
Theorem restore_all_or_nothing g req :
  always (LoadSnapshot g req) (fun t r =>
    match r with
    | Ok id =>
        id = mkID (gvisorIDPrefix +:+ RestoredName (ld_Identity req)) /\
        exists cs, read_from_checkpoint req cs t /\
          held t = {[Netns (slot_netns (ld_SlotID req))]} ∪ footprint (restore_root g req) cs
    | Err _ => abandoned g (RestoredName (ld_Identity req)) (slot_netns (ld_SlotID req)) t
    end).
Proof.
  unfold always, LoadSnapshot. destruct (empty (ld_SourceDir req)); [by apply held_nothing_abandoned|].
  apply wp_try_bind. eapply wp_mono; [apply containers_to_restore_wp|]. cbv beta.
  intros t0 [cs|err] [H0 Hcs]; [|by apply held_nothing_abandoned; unfold held; rewrite H0].
  specialize (Hcs cs eq_refl). assert (Hh0 : held t0 = ∅) by (unfold held; by rewrite H0). clear H0.
  fold (restore_root g req). set (name := RestoredName (ld_Identity req)). set (root := restore_root g req).
  eapply wp_mono with (Q := fun t r => t0 `prefix_of` t /\ match r with
    | Ok id => id = mkID (gvisorIDPrefix +:+ RestoredName (ld_Identity req)) /\
        held t = {[Netns (slot_netns (ld_SlotID req))]} ∪ footprint (restore_root g req) cs
    | Err _ => abandoned g (RestoredName (ld_Identity req)) (slot_netns (ld_SlotID req)) t
    end).
  2: { intros t [id|err] [Hp Hr]; [|done]. destruct Hr as [Hid Hr]. split; [done|]. exists cs. split; [|done].
       destruct Hcs as (raw & Hin & Hraw). exists raw. split; [by eapply elem_of_prefix|done]. }
  apply wp_conj; [apply wp_prefix|]. unfold then_, check_bind, trigger. cbn [bind wp]. intros r1 r2 r3.
  match goal with |- wp _ _ ?t => assert (H1 : held t = ∅) by (by rewrite !held_step); generalize dependent t end.
  intros t1 H1. destruct r3 as [err|]; [by apply held_nothing_abandoned|]. by apply restore_in_root_wp.
Qed.

(** ** The order of a restore *)

Lemma boots_changes t : boots t = omap boot_change (omap change_of t).
Proof.
  unfold boots, boot_of. induction t as [|ev t IH]; [done|]. cbn. destruct (change_of ev); cbn; by rewrite IH.
Qed.

Lemma boots_same {A} (p : prog SysE A) (Q : trace SysE -> A -> Prop) tr :
  silent boot_of p -> (forall t a, boots t = boots tr -> Q t a) -> wp p Q tr.
Proof. apply silent_same. Qed.

Lemma silent_boots_network g slotID name : silent boot_of (createRestoreNetwork g slotID name).
Proof.
  unfold createRestoreNetwork, try_bind, check_bind, or_delete, then_. cbn [bind].
  destruct (guestNetForSlot slotID); [|intros tr; exact I].
  repeat match goal with
  | |- only _ (bind _ _) => apply only_bind; [|intros []]
  | |- only _ (Ret _) => intros tr; exact I
  | |- only _ ensureSharedBridge => apply silent_boots, silent_bridge
  | |- only _ ensureOutboundNAT => apply silent_boots, silent_nat
  | |- only _ (saveRestoreNetInfo _ _ _) => apply silent_boots, silent_save_info
  | |- only _ (writeRestoreNetworkDiag _ _ _ _) => apply silent_boots, silent_network_diag
  | |- only _ _ => let tr := fresh in intros tr; quiet_calls
  end.
Qed.

Lemma silent_boots_bundle dir c rootCID : silent boot_of (writeGVisorRestoreBundle dir c rootCID).
Proof.
  unfold writeGVisorRestoreBundle, setupImageRootfs, mountOverlayLowers, mountOverlayFSConfig, mountOverlayClassic,
    teardownImageRootfs, fails_first, on_failure, on_error, deferred, then_, ignore. cbn [mkdir_all].
  repeat match goal with
  | |- only _ (if ?b then _ else _) => destruct b
  | |- only _ (bind _ _) => apply only_bind; [|intros []]
  | |- only _ (Ret _) => intros tr; exact I
  | |- only _ (image_lowers _ _ _) => apply silent_boots, silent_image_lowers
  | |- only _ (set_lowers _ _) => apply silent_boots, silent_set_lowers
  | |- only _ (writeGVisorRestoreConfig _ _ _) => apply silent_boots, silent_write_config
  | |- only _ (foldM _ _ _) => apply silent_boots, foldM_mkdirs_silent
  | |- only _ _ => let tr := fresh in intros tr; quiet_calls
  end.
Qed.

(** A command that was run without an error was run once. *)
Lemma run_in_netns_ok g ns args log tr :
  wp (runInNetworkNamespace g ns args log) (fun t r =>
    r = None -> omap change_of t = omap change_of tr ++ option_list (command_change args true)) tr.
Proof.
  apply (wpg_wp (fun _ _ => True)). unfold runInNetworkNamespace, doInNamedNetNS, deferred, run_cmd.
  wpg_step; try exact I; cbn; try done;
    try match goal with |- context [match ?r.2 with _ => _ end] => destruct r as [out [err|]]; cbn; try done end;
    intros _; rewrite !omap_app; cbn; repeat match goal with H : _.2 = None |- _ => rewrite H; clear H end;
    by rewrite !app_nil_r.
Qed.

(** The containers of a list, each created and then resumed. *)
Definition boot_sequence (root : string) (cs : list gvisorRestoreContainer) : list boot :=
  cs ≫= fun c => [Created root (rc_ID c); Restored root (rc_ID c)].

Lemma boots_run g ns args log b tr :
  command_change args true ≫= boot_change = Some b ->
  wp (runInNetworkNamespace g ns args log) (fun t r => r = None -> boots t = boots tr ++ [b]) tr.
Proof.
  intros Hb. eapply wp_mono; [apply run_in_netns_ok|]. cbv beta. intros t r Ht Hr.
  rewrite boots_changes, (Ht Hr), omap_app, <- boots_changes. destruct (command_change args true) as [c|]; [|done].
  cbn in Hb |- *. by rewrite Hb.
Qed.

(** After a failure, nothing is left to show of a success. *)
Ltac no_success :=
  cbn [bind then_ trigger wp]; intros;
  first [done | try match goal with |- wp (bind _ _) _ _ => apply wp_bind end; eapply wp_mono; [apply wp_true|]; intros; cbn [wp]; done].

Lemma boots_restore_containers g cleanup netns root src debug rootCID cs tr :
  wp (restore_containers g cleanup netns root src debug rootCID cs)
    (fun t r => is_ok r = true -> boots t = boots tr ++ boot_sequence root cs) tr.
Proof.
  revert tr. induction cs as [|c cs IH]; intros tr; cbn [restore_containers]; [cbn [wp]; by rewrite app_nil_r|].
  apply stage_wp. apply boots_same; [apply silent_boots_bundle|]. intros t1 [err|] H1; [no_success|].
  apply wp_bind, boots_same; [apply silent_boots, silent_cgroup|]. intros t2 _ H2.
  apply stage_wp. eapply wp_mono; [apply (boots_run _ _ _ _ (Created root (rc_ID c))); by rewrite create_change|].
  cbv beta. intros t3 [err|] H3; [no_success|]. specialize (H3 eq_refl).
  apply stage_wp. unfold run_restore. apply wp_bind.
  eapply wp_mono; [apply (boots_run _ _ _ _ (Restored root (rc_ID c))); by rewrite restore_change|].
  cbv beta. intros t4 [err|] H4; cbn [wp].
  { unfold then_, trigger. cbn [bind wp]. intros r. no_success. }
  specialize (H4 eq_refl). eapply wp_mono; [apply IH|]. cbv beta. intros t r Ht Hok.
  rewrite (Ht Hok), H4, H3, H2, H1. cbn. by rewrite <- !app_assoc.
Qed.

Lemma boot_sequence_ids root cs cs' : rc_ID <$> cs = rc_ID <$> cs' -> boot_sequence root cs = boot_sequence root cs'.
Proof.
  revert cs'. induction cs as [|c cs IH]; intros [|c' cs']; try done. cbn. intros [= Hc Hcs]. rewrite Hc. do 2 f_equal. by apply IH.
Qed.

Definition persisted root (cs : list gvisorRestoreContainer) t : Prop :=
  existT (P := answer) (FsWriteFile (path_Join [root; gvisorContainersFile]) (MarshalIndent (enc cs))) None ∈ t.

Lemma write_containers_wp root cs tr :
  wp (writeGVisorContainersFile root cs) (fun t r => r = None -> persisted root cs t) tr.
Proof.
  unfold writeGVisorContainersFile. destruct (bool_decide _); [done|]. destruct (missing_id 0 cs); [done|].
  cbn [trigger wp]. intros r Hr. apply elem_of_app. right. rewrite Hr. left.
Qed.

Lemma restore_in_root_boots g req name root cs tr :
  wp (restore_in_root g req name root cs) (fun t r => is_ok r = true ->
    boots t = boots tr ++ boot_sequence root cs /\ persisted root (choose_root cs).2 t) tr.
Proof.
  unfold restore_in_root, then_. apply wp_bind, boots_same; [apply silent_boots_network|]. intros t1 [info|err] H1; [|no_success].
  apply wp_bind. cbn [trigger wp]. intros r. set (t2 := t1 ++ _).
  assert (H2 : boots t2 = boots tr) by (unfold t2, boots; rewrite omap_app; cbn; by rewrite app_nil_r).
  clearbody t2. destruct (r : option error) as [err|]; [no_success|].
  pose proof (choose_root_ids cs) as Hids. destruct (choose_root cs) as [rootCID cs'] eqn:Hroot. cbn [snd] in *.
  apply wp_try_bind. eapply wp_mono; [apply boots_restore_containers|]. cbv beta. intros t3 [u|err] H3; [|done].
  specialize (H3 eq_refl). apply stage_wp. eapply wp_mono with (Q := fun t r => boots t = boots t3 /\ (r = None -> persisted root cs' t)).
  { apply wp_conj; [apply boots_same; [apply silent_boots; silent_part|done]|apply write_containers_wp]. }
  cbv beta. intros t4 [err|] [H4 Hw]; [no_success|]. cbn [wp]. intros _.
  rewrite H4, H3, H2. split; [by rewrite (boot_sequence_ids _ _ _ Hids)|by apply Hw].
Qed.

(** A restore boots what was checkpointed, in order: when [LoadSnapshot] succeeds, it created and
    then resumed each container of the list it read, one container after the other in the order of
    that list and nothing else; and it recorded the same containers in the root of the restored
    Sandbox, with one of them marked as the sandbox the others join. *)
Theorem restore_boots_in_order g req :
  always (LoadSnapshot g req) (fun t r => forall id, r = Ok id ->
    exists cs, read_from_checkpoint req cs t /\ boots t = boot_sequence (restore_root g req) cs /\
      persisted (restore_root g req) (choose_root cs).2 t).
Proof.
  unfold always, LoadSnapshot. destruct (empty (ld_SourceDir req)); [by intros id|].
  apply wp_try_bind. eapply wp_mono; [apply containers_to_restore_wp|]. cbv beta.
  intros t0 [cs|err] [H0 Hcs]; [|by intros id]. specialize (Hcs cs eq_refl). fold (restore_root g req).
  assert (Hb0 : boots t0 = []) by (by rewrite boots_changes, H0).
  eapply wp_mono with (Q := fun t r => t0 `prefix_of` t /\ (is_ok r = true ->
    boots t = boot_sequence (restore_root g req) cs /\ persisted (restore_root g req) (choose_root cs).2 t)).
  2: { intros t r [Hp Hr] id ->. destruct (Hr eq_refl) as [Hb Hw]. exists cs. split; [|done].
       destruct Hcs as (raw & Hin & Hraw). exists raw. split; [by eapply elem_of_prefix|done]. }
  apply wp_conj; [apply wp_prefix|]. unfold then_, check_bind, trigger. cbn [bind wp]. intros r1 r2 r3.
  match goal with |- wp _ _ ?t => assert (H1 : boots t = []) by (unfold boots in *; by rewrite !omap_app, Hb0); generalize dependent t end.
  intros t1 H1. destruct r3 as [err|]; [done|]. eapply wp_mono; [apply restore_in_root_boots|]. by rewrite H1.
Qed.

(** ** Checkpoints *)

(** What a checkpoint records, with the image of the request where one is missing: for a restored
    Sandbox the containers on the list in its root directory, if that was read and could be parsed;
    otherwise, and for a sandbox of containerd, the pause container and the named workload. *)
Definition recorded_containers g (req : SaveRequest) (cs : list gvisorRestoreContainer) t : Prop :=
  let filled recorded := fillGVisorContainerImages recorded (sv_AppImage req) = Ok cs in
  let fresh := empty (sv_AppContainerName req) = false /\ filled (gvisorCRIContainers (sv_AppContainerName req) (sv_AppImage req)) in
  match StripPrefix (id_Value (sv_ID req)) gvisorIDPrefix with
  | None => fresh
  | Some name =>
      exists got, existT (P := answer) (FsReadFile (path_Join [path_Join [gv_RestoreRoot g; name]; gvisorContainersFile])) got ∈ t /\
        match got with
        | Ok raw => match parse_containers raw with Ok recorded => filled recorded | Err _ => fresh end
        | Err _ => fresh
        end
  end.

Definition checkpointed g (req : SaveRequest) t : Prop :=
  let '(root, name) := resolveCheckpointPaths g (id_Value (sv_ID req)) in
  exists out, existT (P := answer)
    (CmdRun None (gv_RunscPath g) (gvisorCheckpointArgs root (sv_DestDir req) name) StderrBuffer) (out, None) ∈ t.

Lemma containers_for_save_wp g req tr :
  wp (containersForSave g req) (fun t r => forall cs, r = Ok cs ->
    forall cs', fillGVisorContainerImages cs (sv_AppImage req) = Ok cs' -> recorded_containers g req cs' t) tr.
Proof.
  unfold containersForSave, readGVisorContainersFile, recorded_containers, try_bind, trigger.
  set (fresh := if empty _ then _ else _).
  assert (Hfresh : forall cs, fresh = Ok cs -> empty (sv_AppContainerName req) = false /\
      cs = gvisorCRIContainers (sv_AppContainerName req) (sv_AppImage req)).
  { intros cs. unfold fresh. destruct (empty _); [done|]. by intros [= <-]. }
  destruct (StripPrefix _ _) as [name|] eqn:Hs; cbn [bind wp]; [|by intros cs [? ->]%Hfresh cs' Hf].
  intros [raw|err]; cbn [bind wp].
  - destruct (parse_containers raw) as [cs0|err] eqn:Hp; intros cs Hr cs' Hf; exists (Ok raw);
      (split; [apply elem_of_app; right; left|]); rewrite Hp; [|destruct (Hfresh cs Hr) as [? ->]; by split].
    by injection Hr as <-.
  - intros cs [? ->]%Hfresh cs' Hf. exists (Err err). split; [apply elem_of_app; right; left|done].
Qed.

(** What is written reads back as the same list, for every restore. *)
Lemma checkpoint_list_written `{!JsonTextLaws} cs load :
  Forall valid cs -> Forall has_image cs -> cs <> [] -> checkpoint_list load (MarshalIndent (enc cs)) = Ok cs.
Proof.
  intros Hv Hi Hne. unfold checkpoint_list, parse_containers, Unmarshal_as.
  rewrite unmarshal_marshal by (by apply readable_containers). unfold decode. rewrite dec_enc by done.
  cbn [mbind result_bind]. rewrite bool_decide_eq_false_2 by done. cbn. by apply fill_images_id.
Qed.

(** The commands of a trace. *)
Definition command_of (ev : event SysE) : option (list string) :=
  match ev with existT (CmdRun _ _ args _) _ => Some args | _ => None end.
Definition commands t : list (list string) := omap command_of t.

Lemma recorded_prefix g req cs t t' : t `prefix_of` t' -> recorded_containers g req cs t -> recorded_containers g req cs t'.
Proof.
  unfold recorded_containers. intros Hp. destruct (StripPrefix _ _); [|done]. intros (got & Hin & Hgot).
  exists got. split; [by eapply elem_of_prefix|done].
Qed.

Lemma silent_commands_list g req : silent command_of (containersForSave g req).
Proof. intros tr. quiet_calls. Qed.

Lemma fresh_has_images g req cs t : recorded_containers g req cs t -> Forall has_image cs /\ cs <> [].
Proof.
  assert (Hfill : forall recorded, recorded <> [] -> fillGVisorContainerImages recorded (sv_AppImage req) = Ok cs -> Forall has_image cs /\ cs <> []).
  { intros recorded Hne Hf. split; [by eapply fill_images_has|by eapply fill_images_nonempty]. }
  assert (Hfresh : forall app image, fillGVisorContainerImages (gvisorCRIContainers app image) (sv_AppImage req) = Ok cs ->
    Forall has_image cs /\ cs <> []) by (intros app image; by apply Hfill).
  unfold recorded_containers. destruct (StripPrefix _ _); [|by intros [_ Hf%Hfresh]].
  intros (got & _ & Hgot). destruct got as [raw|]; [|by destruct Hgot as [_ Hf%Hfresh]].
  destruct (parse_containers raw) as [recorded|] eqn:Hp; [|by destruct Hgot as [_ Hf%Hfresh]].
  unfold parse_containers in Hp. destruct (Unmarshal_as raw) as [cs0|err]; [|done]. cbn in Hp.
  destruct (bool_decide (cs0 = [])) eqn:Hne; [done|]. apply bool_decide_eq_false in Hne. injection Hp as ->. by eapply Hfill.
Qed.

Lemma write_for_save_wp g req tr :
  wp (writeContainersForSave g req) (fun t r => commands t = commands tr /\ tr `prefix_of` t /\
    (r = None -> exists cs, recorded_containers g req cs t /\ persisted (sv_DestDir req) cs t)) tr.
Proof.
  apply wp_conj; [unfold writeContainersForSave|apply wp_conj; [apply wp_prefix|unfold writeContainersForSave]].
  - apply wp_bind. apply (silent_same command_of); [apply silent_commands_list|]. intros t r Ht.
    destruct (r ≫= _) as [cs|err]; [|done]. apply (silent_same command_of); [intros tr'; quiet_calls|]. intros t' _ Ht'.
    unfold commands. by rewrite Ht'.
  - apply wp_bind. eapply wp_mono; [apply containers_for_save_wp|]. cbv beta. intros t r Hr.
    destruct r as [cs0|err]; cbn [mbind result_bind]; [|done].
    destruct (fillGVisorContainerImages cs0 (sv_AppImage req)) as [cs|err] eqn:Hf; [|done].
    specialize (Hr cs0 eq_refl cs Hf).
    eapply wp_mono; [apply wp_conj; [apply wp_prefix|apply write_containers_wp]|]. cbv beta.
    intros t' r [Hp Hw] Hr'. exists cs. split; [by eapply recorded_prefix|by apply Hw].
Qed.

(** C26. A checkpoint can be restored: when [SaveSnapshot] succeeds, the only command it ran is one
    successful [runsc checkpoint] of the sandbox (which leaves it running), and next to the image it
    wrote the list of the sandbox's containers: for a restored Sandbox those of the list in its own root
    directory, whenever that can be read and parsed; else the pause container and the workload the
    request names; each with its image. From what was written every later restore reads exactly
    these containers with these images, whatever fallback image it is given, provided their texts
    survive JSON (they are valid UTF-8, [valid]). *)
Theorem checkpoint_restorable `{!JsonTextLaws} g req :
  always (SaveSnapshot g req) (fun t r => r = None ->
    checkpointed g req t /\
    (let '(root, name) := resolveCheckpointPaths g (id_Value (sv_ID req)) in
     commands t = [gvisorCheckpointArgs root (sv_DestDir req) name]) /\
    exists cs, recorded_containers g req cs t /\ persisted (sv_DestDir req) cs t /\
      (Forall valid cs -> forall load, checkpoint_list load (MarshalIndent (enc cs)) = Ok cs)).
Proof.
  unfold always, SaveSnapshot. destruct (empty _); [done|]. unfold fails_first, trigger. cbn [bind wp].
  intros [err|]; [done|]. unfold checkpointed. destruct (resolveCheckpointPaths _ _) as [root name] eqn:Hres.
  unfold run_runsc, run_cmd, on_failure, trigger. cbn [bind wp]. intros [out [err|]]; [done|]. cbn [bind].
  set (ev := existT (CmdRun _ _ _ _) _). match goal with |- wp _ _ ?t => set (t1 := t) end.
  assert (Hev : ev ∈ t1) by (apply elem_of_app; right; left).
  assert (Hcmds : commands t1 = [gvisorCheckpointArgs root (sv_DestDir req) name]) by done.
  apply wp_bind. eapply wp_mono; [apply write_for_save_wp|]. cbv beta. intros t [err|] (Hc & Hp & Hcs); [done|]. intros _.
  split; [|split].
  - exists out. by eapply elem_of_prefix.
  - by rewrite Hc.
  - destruct (Hcs eq_refl) as (cs & Hrec & Hper). exists cs. split; [done|]. split; [done|]. intros Hv load.
    apply fresh_has_images in Hrec as [Hi Hne]. by apply checkpoint_list_written.
Qed.

(** ** Deletion *)

(** A forced deletion of a container, and whether runsc reported success. *)
Definition deletion_of (ev : event SysE) : option (string * string * bool) :=
  match ev with
  | existT e r =>
      match e as e return answer e -> option (string * string * bool) with
      | CmdRun _ _ args _ => fun r : string * option cmd_error =>
          match command_change args true with
          | Some (Lose (RunscContainer root id)) => Some (root, id, match r.2 with None => true | Some _ => false end)
          | _ => None
          end
      | _ => fun _ => None
      end r
  end.
Definition runsc_deletions t : list (string * string * bool) := omap deletion_of t.

Definition all_deleted (root : string) (cs : list gvisorRestoreContainer) (answers : list (string * string * bool)) : Prop :=
  answers = (fun c => (root, rc_ID c, true)) <$> reverse cs.

(** Each container is asked to be deleted once, the last first, whatever becomes of the others. *)
Definition asked_in_reverse (root : string) (cs : list gvisorRestoreContainer) (answers : list (string * string * bool)) : Prop :=
  fst <$> answers = (fun c => (root, rc_ID c)) <$> reverse cs.

Lemma delete_containers_wp g root cs tr :
  wp (delete_containers g root cs) (fun t r => exists answers,
    runsc_deletions t = runsc_deletions tr ++ answers /\ asked_in_reverse root cs answers /\
    (r = None <-> Forall (fun d => d.2 = true) answers)) tr.
Proof.
  unfold delete_containers, asked_in_reverse.
  apply (wp_foldM _ (fun done t r => exists answers, runsc_deletions t = runsc_deletions tr ++ answers /\
    fst <$> answers = (fun c => (root, rc_ID c)) <$> done /\ (r = None <-> Forall (fun d => d.2 = true) answers))
    (reverse cs) None tr []).
  { exists []. rewrite app_nil_r. split; [done|]. split; [done|]. split; [constructor|done]. }
  intros pre c t first (answers & Ht & Ha & Hr) _. unfold run_runsc, run_cmd, then_, trigger. cbn [bind wp].
  intros [out err]. set (t1 := t ++ _).
  assert (H1 : runsc_deletions t1 = runsc_deletions tr ++ answers ++ [(root, rc_ID c, match err with None => true | Some _ => false end)]).
  { unfold t1, runsc_deletions. rewrite omap_app. fold (runsc_deletions t). by rewrite Ht, <- app_assoc. }
  clearbody t1. apply wp_bind. unfold teardownImageRootfs. rewrite bundle_dir_nonempty. unfold ignore, trigger. cbn [bind wp].
  intros r. eexists. split; [unfold runsc_deletions; rewrite omap_app; cbn; rewrite app_nil_r; exact H1|].
  split; [by rewrite !fmap_app, Ha|]. rewrite Forall_app, Forall_singleton.
  destruct err, first; cbn; naive_solver.
Qed.

(** The containers of a restored sandbox, by the list in its root; without a readable list, one
    container of its name. *)
Definition listed (root name : string) (cs : list gvisorRestoreContainer) t : Prop :=
  exists r, existT (P := answer) (FsReadFile (path_Join [root; gvisorContainersFile])) r ∈ t /\
    match r ≫= parse_containers with
    | Ok cs' => cs = cs'
    | Err _ => cs = [mkRestoreContainer name "" true "" ""]
    end.

Lemma containers_of_wp root name tr :
  wp (containers_of root name true) (fun t cs => listed root name cs t /\ runsc_deletions t = runsc_deletions tr) tr.
Proof.
  unfold containers_of, readGVisorContainersFile, try_bind, trigger. cbn [bind wp]. intros r. unfold listed.
  assert (Hd : runsc_deletions (tr ++ [existT (FsReadFile (path_Join [root; gvisorContainersFile])) r]) = runsc_deletions tr).
  { unfold runsc_deletions. rewrite omap_app. apply app_nil_r. }
  destruct r as [raw|err]; cbn [bind wp]; (split; [|exact Hd]); eexists; (split; [apply elem_of_app; right; left|]); cbn.
  - by destruct (parse_containers raw).
  - done.
Qed.

Lemma silent_deletions_network info : silent deletion_of (deleteRestoreNetwork info).
Proof.
  unfold deleteRestoreNetwork. apply only_bind; [destruct (empty _)|intros first; apply only_bind; [destruct (empty _)|]];
    intros; intros tr; quiet_calls.
Qed.

Lemma DeleteRestored_wp g id :
  wp (DeleteRestored g id) (fun t r =>
    match StripPrefix (id_Value id) gvisorIDPrefix with
    | None => t = [] /\ r = Some (not_restored id)
    | Some name =>
        let root := path_Join [gv_RestoreRoot g; name] in
        exists cs, listed root name cs t /\ asked_in_reverse root cs (runsc_deletions t) /\
          (r = None <-> Forall (fun d => d.2 = true) (runsc_deletions t)) /\
          FsRemoveAll root ∈ calls t
    end) [].
Proof.
  unfold DeleteRestored. destruct (StripPrefix _ _) as [name|]; [|done]. set (root := path_Join _).
  apply wp_bind. eapply wp_mono; [apply containers_of_wp|]. cbv beta. intros t0 cs [Hl H0].
  apply wp_bind. eapply wp_mono; [apply wp_conj; [apply wp_prefix|apply delete_containers_wp]|]. cbv beta.
  intros t1 r (Hp1 & answers & H1 & Ha & Hr). rewrite H0 in H1. cbn in H1.
  unfold then_, trigger. cbn [bind wp]. intros removed. set (t2 := t1 ++ _).
  assert (Hp2 : t0 `prefix_of` t2) by (etrans; [exact Hp1|by apply prefix_app_r]).
  assert (H2 : runsc_deletions t2 = answers) by (unfold t2, runsc_deletions in *; rewrite omap_app, H1; cbn; apply app_nil_r).
  assert (Hrm : FsRemoveAll root ∈ calls t2) by (unfold t2, calls; rewrite fmap_app; apply elem_of_app; right; left).
  clearbody t2.
  eapply wp_mono with (Q := fun t r' => t2 `prefix_of` t /\ r' = r /\ runsc_deletions t = answers).
  - apply wp_conj; [apply wp_prefix|]. apply wp_bind, (silent_same deletion_of); [intros tr; quiet_calls|]. intros t3 info H3.
    apply wp_bind.
    assert (H3' : runsc_deletions t3 = answers) by (unfold runsc_deletions in *; by rewrite H3). clear H3.
    destruct info as [info|err]; [|done]. apply wp_bind, (silent_same deletion_of); [apply silent_deletions_network|].
    intros t4 _ H4. unfold ignore, trigger. cbn [bind wp]. intros r'. split; [done|].
    unfold runsc_deletions in *. rewrite omap_app, H4. cbn. by rewrite app_nil_r.
  - cbv beta. intros t r' (Hp & -> & Ht). rewrite Ht. exists cs. split; [|split; [done|split; [done|]]].
    + destruct Hl as (x & Hin & Hx). exists x. split; [|done]. eapply elem_of_prefix; [exact Hin|]. by etrans.
    + unfold calls in *. apply list_elem_of_fmap in Hrm as (ev & -> & Hin). apply list_elem_of_fmap. exists ev. split; [done|].
      by eapply elem_of_prefix.
Qed.


(** Deletion of a restored sandbox: every container on its list is asked to be deleted, once, the
    last first, even when deleting another one fails; the answer is success exactly when runsc
    deleted all of them; and the root directory, with the list, is removed in either case. An id
    that is not one of a restored sandbox is refused without any call. *)
Theorem delete_restored_outcome g id :
  always (DeleteRestored g id) (fun t r =>
    match StripPrefix (id_Value id) gvisorIDPrefix with
    | None => t = [] /\ r = Some (not_restored id)
    | Some name =>
        let root := path_Join [gv_RestoreRoot g; name] in
        exists cs, listed root name cs t /\ asked_in_reverse root cs (runsc_deletions t) /\
          (r = None <-> Forall (fun d => d.2 = true) (runsc_deletions t)) /\
          FsRemoveAll root ∈ calls t
    end).
Proof. apply DeleteRestored_wp. Qed.
End GVisorFacts.
