(* ===== verification/WorkerOnGVisor.v ===== *)
(** * The Worker over gVisor

    The snapshotter calls of the Slot manager, served by the gVisor adapter: what the release of a
    restored Sandbox means for runsc's containers, what a refused deletion costs, and restores of
    two Slots at the same time. *)

From S2P Require Import Prelude Prog Compose Strings Slot Runtime Api WorkerEnv SnapshotStore Manager ManagerFacts.
From S2P Require Import Json Host Snapshotters SnapshottersFacts Cgroup GVisor HostFacts GVisorFacts.

Section OnGVisor.
Context {QA : QuantityApi} `{ManifestJson} `{ZstdApi} {HE : HostEnv} {JT : JsonText} {IA : ImageApi}.

(** The snapshotter of the Worker is the adapter; its other calls stay calls. *)
Definition on_gvisor (g : gvisor) (e : WorkerE) : prog (SysE + WorkerE) (answer e) :=
  match e as e0 return prog (SysE + WorkerE) (WorkerE_effect e0) -> prog (SysE + WorkerE) (WorkerE_effect e0) with
  | SnSave _ req => fun _ => lift_left (SaveSnapshot g req)
  | SnLoad _ req => fun _ => lift_left (LoadSnapshot g req)
  | SnDeleteRestored _ id => fun _ => lift_left (DeleteRestored g id)
  | SnExecRestored _ id req => fun _ => lift_left (ExecRestored g id req)
  | _ => fun call => call
  end (trigger (inr e : SysE + WorkerE)).
Definition sys_part (t : trace (SysE + WorkerE)) : trace SysE := left_part t.

(** All containers of a restored sandbox were deleted by runsc. *)
Definition containers_gone (g : gvisor) (id : ID) (t : trace SysE) : Prop :=
  exists name cs, StripPrefix (id_Value id) gvisorIDPrefix = Some name /\
    let root := path_Join [gv_RestoreRoot g; name] in
    listed root name cs t /\ Forall (fun c => (root, rc_ID c, true) ∈ runsc_deletions t) cs.

Lemma runsc_deletions_prefix t t' : t `prefix_of` t' -> runsc_deletions t ⊆ runsc_deletions t'.
Proof. intros [s ->] x Hx. unfold runsc_deletions. rewrite omap_app. apply elem_of_app. by left. Qed.

Lemma containers_gone_prefix g id t t' : t `prefix_of` t' -> containers_gone g id t -> containers_gone g id t'.
Proof.
  intros Hp (name & cs & Hn & (r & Hin & Hr) & Hall). exists name, cs. split; [done|]. split.
  - exists r. split; [by eapply elem_of_prefix|done].
  - eapply Forall_impl; [exact Hall|]. intros c Hc. by eapply runsc_deletions_prefix.
Qed.

Lemma containers_gone_suffix g id t0 t : containers_gone g id t -> containers_gone g id (t0 ++ t).
Proof.
  intros (name & cs & Hn & (r & Hin & Hr) & Hall). exists name, cs. split; [done|]. split.
  - exists r. split; [apply elem_of_app; by right|done].
  - eapply Forall_impl; [exact Hall|]. intros c Hc. unfold runsc_deletions in *. rewrite omap_app. apply elem_of_app. by right.
Qed.

(** The deletions of restored sandboxes that the Worker saw succeed. *)
Definition restored_deletion (ev : event WorkerE) : option ID :=
  match ev with existT (SnDeleteRestored _ id) None => Some id | _ => None end.

Lemma asked_all root cs answers :
  asked_in_reverse root cs answers -> Forall (fun d => d.2 = true) answers -> Forall (fun c => (root, rc_ID c, true) ∈ answers) cs.
Proof.
  intros Ha Hok. apply Forall_forall. intros c Hc. rewrite Forall_forall in Hok.
  assert (Hin : (root, rc_ID c) ∈ fst <$> answers).
  { rewrite Ha. apply (list_elem_of_fmap_2 (fun c => (root, rc_ID c))). by rewrite elem_of_reverse. }
  apply list_elem_of_fmap in Hin as ([x b] & Heq & Hin). cbn in Heq. subst x. by rewrite <- (Hok _ Hin : b = true).
Qed.

Lemma DeleteRestored_gone g id tr : wp (DeleteRestored g id) (fun t r => r = None -> containers_gone g id t) tr.
Proof.
  rewrite wp_frame. eapply wp_mono; [apply DeleteRestored_wp|]. cbv beta. intros t r Hr Hn.
  apply (containers_gone_suffix _ _ tr). destruct (StripPrefix _ _) as [name|] eqn:Hs; [|by destruct Hr as [_ ->]].
  destruct Hr as (cs & Hl & Ha & Hok & _). exists name, cs. split; [done|]. split; [done|].
  apply asked_all; [done|by apply Hok].
Qed.

Lemma on_gvisor_deletions g e t :
  wp (on_gvisor g e) (fun t' r => forall id, restored_deletion (existT e r) = Some id -> containers_gone g id (sys_part t')) t.
Proof.
  destruct e; try (eapply wp_mono; [apply wp_true|]; by intros t' r _ ?).
  cbn [on_gvisor]. eapply wp_mono; [apply (wp_lift_left _ (fun t r => r = None -> containers_gone g id t)), DeleteRestored_gone|].
  intros t' r Hr id'. cbn. destruct (r : option error); [done|]. intros [= <-]. by apply Hr.
Qed.

(** C27. A released Slot leaves no restored container it knows of: when the Worker, running over the
    gVisor adapter, releases a Slot that holds a restored sandbox and reports success, the Slot is
    free and runsc deleted, with success, every container on the list that the adapter found for
    this sandbox - whatever runsc and the host answered on the way. *)
Theorem released_slot_leaves_no_container g registry handler ref s id :
  ms_state s <> StateFree -> id_UID (ms_sandbox s) = id_UID (ref_Identity ref) ->
  ms_restored s = true -> ms_runtimeRef s = Some id ->
  always (interp (on_gvisor g) (ReleaseSlot_locked registry handler ref s)) (fun t r =>
    r.2 = None -> ms_state r.1 = StateFree /\ ms_runtimeRef r.1 = None /\ containers_gone g id (sys_part t)).
Proof.
  intros Hst Hown Hres Href. unfold always. eapply wp_mono.
  - apply (wp_interp_marks (on_gvisor g) restored_deletion (fun id t => containers_gone g id (sys_part t)));
      [|intros e t; apply on_gvisor_deletions|apply (ReleaseSlot_outcome registry handler ref s Hst Hown)].
    intros x t t' Hp. by apply containers_gone_prefix, left_part_prefix.
  - cbv beta. intros t r (t1 & Hout & HR) Hnone. rewrite Hnone in Hout. destruct Hout as [-> Hdel].
    split; [done|]. split; [done|]. apply HR. specialize (Hdel id Href). rewrite Hres in Hdel. destruct Hdel as [snap Hin].
    apply list_elem_of_omap. by eexists.
Qed.
End OnGVisor.

(** ** Concrete runs *)

Module OnGVisorWitness.
Import HostWitness.
#[local] Existing Instance ZQuantity.
#[local] Existing Instances ManagerWitness.json ManagerWitness.zstd.
#[local] Existing Instances codec codec_laws env images.

(** A host: its files, the containers runsc knows, the views containerd holds, and the containers
    whose next deletion runsc refuses. *)
Record host := mkHost {
  h_files : gmap string string;
  h_live : list string;
  h_views : list string;
  h_stuck : list string;
}.

Definition runsc_delete (id : string) (s : host) : host * (string * option cmd_error) :=
  if bool_decide (id ∈ h_stuck s) then
    (mkHost (h_files s) (h_live s) (h_views s) (filter (fun x => x <> id) (h_stuck s)), ("container is busy", Some (ExitError 1 "exit status 1")))
  else (mkHost (h_files s) (filter (fun x => x <> id) (h_live s)) (h_views s) (h_stuck s), ("", None)).

Definition set_files f (s : host) : host := mkHost (f (h_files s)) (h_live s) (h_views s) (h_stuck s).
Definition set_views v (s : host) : host := mkHost (h_files s) (h_live s) v (h_stuck s).

Definition serve_host (s : host) (e : SysE) : host * answer e :=
  match e as e return answer e -> host * answer e with
  | CmdRun _ _ args _ => fun answer =>
      match command_change args true with
      | Some (Gain (RunscContainer _ id)) => (mkHost (h_files s) (h_live s ++ [id]) (h_views s) (h_stuck s), answer)
      | Some (Lose (RunscContainer _ id)) => runsc_delete id s
      | _ => (s, answer)
      end
  | FsReadFile path | FsReadBack path => fun _ =>
      (s, match h_files s !! path with Some data => Ok data | None => Err (Plain "no such file or directory") end)
  | FsWriteFile path data => fun _ => (set_files <[path := data]> s, None)
  | FsRemove path => fun _ => (set_files (delete path) s, None)
  | FsRemoveAll path => fun _ => (set_files (filter (fun kv => HasPrefix kv.1 (path +:+ "/") = false)) s, None)
  | FsStat path => fun _ => (s, match h_files s !! path with Some _ => Ok RegularFile | None => Err (Plain "no such file or directory") end)
  | FsCreateTemp pattern => fun _ => (s, Ok ("/tmp/" +:+ pattern))
  | CtdSnapRemove _ _ key => fun _ => (set_views (filter (fun x => x <> key) (h_views s)) s, None)
  | CtdSnapView _ _ key _ => fun answer =>
      if bool_decide (key ∈ h_views s) then (s, Err (Plain "already exists"))
      else (set_views (key :: h_views s) s, answer)
  | _ => fun answer => (s, answer)
  end (plain e).

Definition serve_both (s : host) (e : SysE + WorkerE) : host * answer e :=
  match e as e return host * answer e with
  | inl e => serve_host s e
  | inr e => (s, (ManagerWitness.happy tt e).2)
  end.

Definition g : gvisor := NewGVisor.
Definition fresh_host : host := mkHost ∅ [] [] [].
Definition parent : SaveRequest := mkSaveRequest (mkID "pod-a") "/snap" "" "app" "python:3.12".
Definition child : SandboxIdentity := mkIdentity "ns" "child" "0123456789".
Definition load (slot : Z) : LoadRequest := mkLoadRequest "/snap" child slot "".

(** The host after a checkpoint, and after a restore of it into Slot 3. *)
Definition saved : host := (run serve_host (SaveSnapshot g parent) fresh_host []).1.1.
Definition restored : host := (run serve_host (LoadSnapshot g (load 3)) saved []).1.1.
Definition child_id : ID := mkID "runsc:child-01234567".

Example checkpoint_then_restore :
  let '(_, t, r) := run serve_host (LoadSnapshot g (load 3)) saved [] in
  r = Ok child_id /\ h_live restored = ["pause"; "app"] /\
  boots t = [Created "/var/lib/sandboxfleet/runsc/child-01234567" "pause"; Restored "/var/lib/sandboxfleet/runsc/child-01234567" "pause";
             Created "/var/lib/sandboxfleet/runsc/child-01234567" "app"; Restored "/var/lib/sandboxfleet/runsc/child-01234567" "app"].
Proof. vm_compute. by repeat split. Qed.

Lemma checkpoint_restorable_witness :
  always (SaveSnapshot g parent) (fun t r => r = None ->
    checkpointed g parent t /\
    (let '(root, name) := resolveCheckpointPaths g (id_Value (sv_ID parent)) in
     commands t = [gvisorCheckpointArgs root (sv_DestDir parent) name]) /\
    exists cs, recorded_containers g parent cs t /\ persisted (sv_DestDir parent) cs t /\
      (Forall valid cs -> forall load, checkpoint_list load (MarshalIndent (enc cs)) = Ok cs)).
Proof. apply (checkpoint_restorable g parent). Defined.

(** A Slot that runs the restored child. *)
Definition child_slot : managedSlot :=
  mkSlot 3 "small" no_resources StateRunning child (Some child_id) true "".
Definition ref : SandboxSlotRef := mkRef 3 child.
Definition release (s : managedSlot) : prog (SysE + WorkerE) (managedSlot * option error) :=
  interp (on_gvisor g) (ReleaseSlot_locked ManagerWitness.registry "runsc" ref s).

Lemma released_slot_leaves_no_container_witness :
  always (release child_slot) (fun t r =>
    r.2 = None -> ms_state r.1 = StateFree /\ ms_runtimeRef r.1 = None /\ containers_gone g child_id (sys_part t)).
Proof. by apply (released_slot_leaves_no_container g ManagerWitness.registry "runsc" ref child_slot child_id). Defined.

(** runsc refuses to delete the application once. The first release fails, as it should; but the
    adapter has removed the list of containers, so the second one deletes a container of the
    Sandbox's name, which does not exist, and reports success: the Slot is free while the
    application still runs. *)
Definition refusing : host := mkHost (h_files restored) (h_live restored) (h_views restored) ["app"].
Theorem release_retry_forgets_container :
  let '(s1, _, (slot1, err1)) := run serve_both (release child_slot) refusing [] in
  let '(s2, _, (slot2, err2)) := run serve_both (release slot1) s1 [] in
  (exists e, err1 = Some e) /\ ms_state slot1 = StateFailed /\ ms_runtimeRef slot1 = Some child_id /\
  err2 = None /\ ms_state slot2 = StateFree /\ h_live s2 = ["app"].
Proof. vm_compute. by eauto 10. Qed.

(** Restores into two Slots at the same time. The layers of an image are resolved through a
    temporary view whose name is made of the container's id and the image, not of the Sandbox: when
    both restores have cleared the name and the first then makes its view, the second one's is
    refused, and its restore fails with an image that is fine. One after the other, both succeed. *)
Definition rootfs (name : string) : prog SysE (option error) :=
  setupImageRootfs "registry.k8s.io/pause:3.10" (bundle_dir (path_Join [gv_RestoreRoot g; name]) "pause").
Definition schedule : list bool := replicate 10 true ++ replicate 10 false ++ [true] ++ replicate 3 false ++ replicate 20 true.
Definition result_of {A} (p : prog SysE A) : option A := match p with Ret a => Some a | Call _ _ => None end.
Definition together : option (option error) * option (option error) :=
  let '(_, a, b) := interleave serve_host schedule (rootfs "a-0123") (rootfs "b-4567") fresh_host in (result_of a, result_of b).
Definition one_after_the_other : option error * option error :=
  let '(s, _, a) := run serve_host (rootfs "a-0123") fresh_host [] in (a, (run serve_host (rootfs "b-4567") s []).2).
Theorem restores_share_a_view :
  one_after_the_other = (None, None) /\ exists err, together = (Some None, Some (Some err)).
Proof. vm_compute. split; [done|by eexists]. Qed.
End OnGVisorWitness.
