(* ===== verification/KataData.v ===== *)
(** * The data of Kata micro-VMs

    What a micro-VM is on disk (internal/snapshotter: kata.go, kata_instance.go), the machine
    cloud-hypervisor is asked for (internal/runtime/kata/ch/createvm.go), the container the agent
    is asked for (kata_coldboot_linux.go, kata_exec.go, overlay/specconv.go), paths and command
    lines (internal/runtime/kata/overlay): the parts that call nothing. *)

From S2P Require Import Prelude Prog Strings Json Slot Runtime WorkerEnv AgentApi Host Snapshotters.

Definition kataFormatVersion : string := "cloud-hypervisor-snapshot-v1".
Definition kataIDPrefix : string := "kata:".
Definition kataMetaFile : string := "sandboxfleet-meta.json".
Definition kataBaseIDFile : string := "base-id".
Definition kataOverlaySuffix : string := "_ovl".
Definition kataDefaultMemoryMiB : Z := 512.
Definition kataDefaultVCPUs : Z := 1.
Definition MemoryRangesFile : string := "memory-ranges".

(** ** Checkpoints *)

(* go: internal/snapshotter/kata.go Kata *)
Record kata := mkKata {
  kt_CloudHypervisorPath : string;
  kt_VirtiofsdPath : string;
  kt_StateDir : string;
}.

(* go: internal/snapshotter/kata.go virtiofsShare *)
Record virtiofsShare := mkShare {
  vs_Tag : string;
  vs_SharedDir : string;
  vs_Socket : string;
}.
(* go: internal/snapshotter/kata.go virtiofsShare *)
#[export] Instance virtiofsShare_json : Json virtiofsShare := {
  zero := mkShare "" "" "";
  enc x := JObj (("tag", enc (vs_Tag x)) ::
    omitempty (empty (vs_SharedDir x)) "sharedDir" (enc (vs_SharedDir x)) ++
    omitempty (empty (vs_Socket x)) "socket" (enc (vs_Socket x)));
  dec := dec_struct [
    json_field "tag" vs_Tag (fun v x => mkShare v (vs_SharedDir x) (vs_Socket x));
    json_field "sharedDir" vs_SharedDir (fun v x => mkShare (vs_Tag x) v (vs_Socket x));
    json_field "socket" vs_Socket (fun v x => mkShare (vs_Tag x) (vs_SharedDir x) v)];
}.

(* go: internal/snapshotter/kata.go kataNetDevice *)
Record kataNetDevice := mkNetDevice {
  nd_ID : string;
  nd_QueuePairs : Z;
}.
(* go: internal/snapshotter/kata.go kataNetDevice *)
#[export] Instance kataNetDevice_json : Json kataNetDevice := {
  zero := mkNetDevice "" 0;
  enc x := JObj [("id", enc (nd_ID x)); ("queuePairs", JInt (nd_QueuePairs x))];
  dec := dec_struct [
    json_field "id" nd_ID (fun v x => mkNetDevice v (nd_QueuePairs x));
    int_field 64 "queuePairs" nd_QueuePairs (fun v x => mkNetDevice (nd_ID x) v)];
}.

(** The time of the checkpoint is its text. *)
(* go: internal/snapshotter/kata.go kataMeta *)
Record kataMeta := mkMeta {
  km_SourceSandboxID : string;
  km_ContainerID : string;
  km_AppImage : string;
  km_AppContainerName : string;
  km_BaseID : string;
  km_VirtiofsShares : list virtiofsShare;
  km_NetDevices : list kataNetDevice;
  km_SavedAt : string;
}.

Definition zero_time : string := "0001-01-01T00:00:00Z".
Definition time_field `{JsonText} {T} (key : string) (set : string -> T -> T) : field T :=
  mkField key (fun j cur => match j with
    | JNull => Some cur
    | JStr s => if is_time s then Some (set s cur) else None
    | _ => None
    end).

Section Meta.
Context {JT : JsonText}.
Notation with_meta f := (fun v x => f v (km_SourceSandboxID x) (km_ContainerID x) (km_AppImage x) (km_AppContainerName x)
  (km_BaseID x) (km_VirtiofsShares x) (km_NetDevices x) (km_SavedAt x)).

(* go: internal/snapshotter/kata.go kataMeta *)
#[export] Instance kataMeta_json : Json kataMeta := {
  zero := mkMeta "" "" "" "" "" [] [] zero_time;
  enc x := JObj (("sourceSandboxID", enc (km_SourceSandboxID x)) ::
    omitempty (empty (km_ContainerID x)) "containerID" (enc (km_ContainerID x)) ++
    omitempty (empty (km_AppImage x)) "appImage" (enc (km_AppImage x)) ++
    omitempty (empty (km_AppContainerName x)) "appContainerName" (enc (km_AppContainerName x)) ++
    omitempty (empty (km_BaseID x)) "baseID" (enc (km_BaseID x)) ++
    omitempty (length (km_VirtiofsShares x) =? 0) "virtiofsShares" (enc (km_VirtiofsShares x)) ++
    omitempty (length (km_NetDevices x) =? 0) "netDevices" (enc (km_NetDevices x)) ++
    [("savedAt", JStr (km_SavedAt x))]);
  dec := dec_struct [
    json_field "sourceSandboxID" km_SourceSandboxID (with_meta (fun v _ c a n b s d t => mkMeta v c a n b s d t));
    json_field "containerID" km_ContainerID (with_meta (fun v i _ a n b s d t => mkMeta i v a n b s d t));
    json_field "appImage" km_AppImage (with_meta (fun v i c _ n b s d t => mkMeta i c v n b s d t));
    json_field "appContainerName" km_AppContainerName (with_meta (fun v i c a _ b s d t => mkMeta i c a v b s d t));
    json_field "baseID" km_BaseID (with_meta (fun v i c a n _ s d t => mkMeta i c a n v s d t));
    json_field "virtiofsShares" km_VirtiofsShares (with_meta (fun v i c a n b _ d t => mkMeta i c a n b v d t));
    json_field "netDevices" km_NetDevices (with_meta (fun v i c a n b s _ t => mkMeta i c a n b s v t));
    time_field "savedAt" (with_meta (fun v i c a n b s d _ => mkMeta i c a n b s d v))];
}.
End Meta.

(* go: internal/snapshotter/kata.go kataOverlayWorkloadID *)
Definition kataOverlayWorkloadID (carrierID : string) : string := carrierID +:+ kataOverlaySuffix.

(* go: internal/snapshotter/kata.go kataCarrierID *)
Definition kataCarrierID (meta : kataMeta) : string :=
  if empty (km_AppContainerName meta) then TrimSuffix (km_ContainerID meta) kataOverlaySuffix
  else km_AppContainerName meta.

(* go: internal/snapshotter/kata.go kataStableCarrierName *)
Definition kataStableCarrierName (containerID reqAppName : string) : string :=
  let carrier := TrimSuffix containerID kataOverlaySuffix in
  if negb (empty carrier) && negb (bool_decide (carrier = containerID)) then carrier
  else firstNonEmpty [reqAppName; containerID].

(* go: internal/snapshotter/kata.go isKataSharedTag *)
Definition isKataSharedTag (tag : string) : bool := empty tag || bool_decide (tag = "kataShared").

(** ** Instances *)

(* go: internal/snapshotter/kata_instance.go kataInstance *)
Record kataInstance := mkInstance {
  ki_Name : string;
  ki_Namespace : string;
  ki_SandboxName : string;
  ki_UID : string;
  ki_SlotID : Z;
  ki_VMDir : string;
  ki_APISocket : string;
  ki_VsockPath : string;
  ki_SnapshotDir : string;
  ki_ContainerID : string;
  ki_BaseID : string;
  ki_AppImage : string;
  ki_BundleDir : string;
  ki_PID : Z;
}.

Notation with_instance f := (fun v x => f v (ki_Name x) (ki_Namespace x) (ki_SandboxName x) (ki_UID x) (ki_SlotID x) (ki_VMDir x)
  (ki_APISocket x) (ki_VsockPath x) (ki_SnapshotDir x) (ki_ContainerID x) (ki_BaseID x) (ki_AppImage x) (ki_BundleDir x) (ki_PID x)).

Definition optional (key value : string) : list (string * json) := omitempty (empty value) key (enc value).

(* go: internal/snapshotter/kata_instance.go kataInstance *)
#[export] Instance kataInstance_json : Json kataInstance := {
  zero := mkInstance "" "" "" "" 0 "" "" "" "" "" "" "" "" 0;
  enc x := JObj (("name", enc (ki_Name x)) :: optional "namespace" (ki_Namespace x) ++
    optional "sandboxName" (ki_SandboxName x) ++ optional "uid" (ki_UID x) ++
    [("slotID", JInt (ki_SlotID x)); ("vmDir", enc (ki_VMDir x)); ("apiSocket", enc (ki_APISocket x));
     ("vsockPath", enc (ki_VsockPath x))] ++
    optional "snapshotDir" (ki_SnapshotDir x) ++ [("containerID", enc (ki_ContainerID x))] ++
    optional "baseID" (ki_BaseID x) ++ optional "appImage" (ki_AppImage x) ++ optional "bundleDir" (ki_BundleDir x) ++
    [("pid", JInt (ki_PID x))]);
  dec := dec_struct [
    json_field "name" ki_Name (with_instance (fun v _ ns sn u sl vm a vs sd c b im bd p => mkInstance v ns sn u sl vm a vs sd c b im bd p));
    json_field "namespace" ki_Namespace (with_instance (fun v n _ sn u sl vm a vs sd c b im bd p => mkInstance n v sn u sl vm a vs sd c b im bd p));
    json_field "sandboxName" ki_SandboxName (with_instance (fun v n ns _ u sl vm a vs sd c b im bd p => mkInstance n ns v u sl vm a vs sd c b im bd p));
    json_field "uid" ki_UID (with_instance (fun v n ns sn _ sl vm a vs sd c b im bd p => mkInstance n ns sn v sl vm a vs sd c b im bd p));
    int_field 32 "slotID" ki_SlotID (with_instance (fun v n ns sn u _ vm a vs sd c b im bd p => mkInstance n ns sn u v vm a vs sd c b im bd p));
    json_field "vmDir" ki_VMDir (with_instance (fun v n ns sn u sl _ a vs sd c b im bd p => mkInstance n ns sn u sl v a vs sd c b im bd p));
    json_field "apiSocket" ki_APISocket (with_instance (fun v n ns sn u sl vm _ vs sd c b im bd p => mkInstance n ns sn u sl vm v vs sd c b im bd p));
    json_field "vsockPath" ki_VsockPath (with_instance (fun v n ns sn u sl vm a _ sd c b im bd p => mkInstance n ns sn u sl vm a v sd c b im bd p));
    json_field "snapshotDir" ki_SnapshotDir (with_instance (fun v n ns sn u sl vm a vs _ c b im bd p => mkInstance n ns sn u sl vm a vs v c b im bd p));
    json_field "containerID" ki_ContainerID (with_instance (fun v n ns sn u sl vm a vs sd _ b im bd p => mkInstance n ns sn u sl vm a vs sd v b im bd p));
    json_field "baseID" ki_BaseID (with_instance (fun v n ns sn u sl vm a vs sd c _ im bd p => mkInstance n ns sn u sl vm a vs sd c v im bd p));
    json_field "appImage" ki_AppImage (with_instance (fun v n ns sn u sl vm a vs sd c b _ bd p => mkInstance n ns sn u sl vm a vs sd c b v bd p));
    json_field "bundleDir" ki_BundleDir (with_instance (fun v n ns sn u sl vm a vs sd c b im _ p => mkInstance n ns sn u sl vm a vs sd c b im v p));
    int_field 64 "pid" ki_PID (with_instance (fun v n ns sn u sl vm a vs sd c b im bd _ => mkInstance n ns sn u sl vm a vs sd c b im bd v))];
}.

(** The exported view of an instance. *)
(* go: internal/snapshotter/kata_instance.go Instance *)
Record Instance_ := mkInstanceView {
  in_ID : ID;
  in_Identity : SandboxIdentity;
  in_SlotID : Z;
  in_ContainerID : string;
  in_PID : Z;
}.

(* go: internal/snapshotter/kata_instance.go kataInstance.exported *)
Definition exported (i : kataInstance) : Instance_ :=
  mkInstanceView (mkID (kataIDPrefix +:+ ki_Name i)) (mkIdentity (ki_Namespace i) (ki_SandboxName i) (ki_UID i))
    (ki_SlotID i) (ki_ContainerID i) (ki_PID i).

(* go: internal/snapshotter/kata_instance.go Kata.instancesDir *)
Definition instancesDir (k : kata) : string := path_Join [kt_StateDir k; "instances"].
(* go: internal/snapshotter/kata_instance.go Kata.instancePath *)
Definition instancePath (k : kata) (name : string) : string := path_Join [instancesDir k; name +:+ ".json"].
(* go: internal/snapshotter/kata_instance.go Kata.bundleDir *)
Definition bundleDir (k : kata) (name : string) : string := path_Join [kt_StateDir k; "bundles"; name].

(** ** Paths (internal/runtime/kata/overlay) *)

Definition vcVMDir : string := "/run/vc/vm".
Definition FsTag : string := "kataShared".
Definition typeVirtioFS : string := "virtiofs".
Definition virtioFSDriver : string := "virtio-fs".
Definition guestSharedDir : string := "/run/kata-containers/shared/containers/".
Definition DurableFsTag : string := "ateDurable".
Definition guestDurableDir : string := "/run/ateom-durable".
Definition sandboxesDir : string := "/run/kata-containers/shared/sandboxes".

(* go: internal/runtime/kata/overlay/kata.go CLHSocketPath *)
Definition CLHSocketPath (id : string) : string := path_Join [vcVMDir; id; "clh-api.sock"].
(* go: internal/runtime/kata/overlay/paths.go VMDir *)
Definition VMDir (id : string) : string := path_Join [vcVMDir; id].
(* go: internal/runtime/kata/overlay/paths.go VsockSocketPath *)
Definition VsockSocketPath (id : string) : string := path_Join [VMDir id; "clh.sock"].
(* go: internal/runtime/kata/overlay/paths.go DurableVirtiofsdSocketPath *)
Definition DurableVirtiofsdSocketPath (id : string) : string := path_Join [VMDir id; "virtiofsd-durable.sock"].
(* go: internal/runtime/kata/overlay/overlay_linux.go GuestDurableVolumeDir *)
Definition GuestDurableVolumeDir (volumeName : string) : string := guestDurableDir +:+ "/" +:+ volumeName.
(* go: internal/runtime/kata/overlay/overlay_linux.go SharedDir *)
Definition SharedDir (id : string) : string := path_Join [sandboxesDir; id; "shared"].
(* go: internal/runtime/kata/overlay/overlay_linux.go VirtiofsdSocketPath *)
Definition VirtiofsdSocketPath (id : string) : string := path_Join [VMDir id; "virtiofsd.sock"].
(* go: internal/runtime/kata/overlay/overlay_linux.go OverlayUpperBase *)
Definition OverlayUpperBase (containerID : string) : string := "/run/ateom-upper/" +:+ containerID.
(* go: internal/runtime/kata/overlay/overlay_linux.go GuestSharedRootfs *)
Definition GuestSharedRootfs (containerID : string) : string := guestSharedDir +:+ containerID +:+ "/rootfs".

(** [filepath.Dir] and [filepath.IsAbs]. *)
Definition path_Dir (p : string) : string :=
  Clean (match LastIndex p "/" with Some i => take_bytes (S i) p | None => "" end).
Definition IsAbs (p : string) : bool := HasPrefix p "/".

(* go: internal/runtime/kata/overlay/overlay_linux.go VirtiofsdOptions *)
Record VirtiofsdOptions := mkVirtiofsdOptions {
  vo_Binary : string;
  vo_SocketPath : string;
  vo_SharedDir : string;
  vo_Cache : string;
  vo_Log : string;
}.

(* go: internal/runtime/kata/overlay/overlay_linux.go virtiofsdArgs *)
Definition virtiofsdArgs (o : VirtiofsdOptions) : list string :=
  let cache := if empty (vo_Cache o) then "always" else vo_Cache o in
  ["--socket-path=" +:+ vo_SocketPath o; "--shared-dir=" +:+ vo_SharedDir o; "--cache=" +:+ cache; "--thread-pool-size=1";
   "--announce-submounts"; "--migration-mode"; "find-paths"].

(** ** Configuration of the guest (overlay/config.go) *)

(** Code outside the repository: the [hypervisor.clh] table of a TOML document (memory, CPUs, kernel
    parameters), and the version of the runtime specification. *)
Class KataLibs := {
  toml_clh : string -> result (Z * Z * string);
  specs_Version : string;
}.

(* go: internal/runtime/kata/overlay/config.go KataConfig *)
Record KataConfig := mkKataConfig {
  kc_MemoryMiB : Z;
  kc_VCPUs : Z;
  kc_KernelParams : string;
}.

(* go: internal/runtime/kata/overlay/config.go ParseConfig *)
Definition ParseConfig `{KataLibs} (base : string) (memDefault vcpuDefault : Z) : result KataConfig :=
  match toml_clh base with
  | Err err => Err (wrap_prefix "parsing kata config" err)
  | Ok (memory, vcpus, params) =>
      Ok (mkKataConfig (if (memory <=? 0)%Z then memDefault else memory) (if (vcpus <=? 0)%Z then vcpuDefault else vcpus) params)
  end.

(* go: internal/runtime/kata/overlay/config.go appendKernelParams *)
Definition appendKernelParams (kernelParams marker add : string) : string :=
  if Contains kernelParams marker then kernelParams
  else if empty kernelParams then add
  else kernelParams +:+ " " +:+ add.
(* go: internal/runtime/kata/overlay/config.go WithDebugConsole *)
Definition WithDebugConsole (kernelParams : string) : string :=
  appendKernelParams kernelParams "agent.debug_console_vport" "agent.debug_console agent.debug_console_vport=1026".
(* go: internal/runtime/kata/overlay/config.go WithAgentDebug *)
Definition WithAgentDebug (kernelParams : string) : string :=
  appendKernelParams kernelParams "agent.log=" "agent.log=debug agent.debug_console".

(** ** The machine (ch/createvm.go)

    Each type with its JSON; a pointer that is not set is [None]. *)

Definition nonzero (key : string) (z : Z) : list (string * json) := omitempty (z =? 0)%Z key (JInt z).
Definition present {A} (key : string) (f : A -> json) (v : option A) : list (string * json) :=
  match v with Some x => [(key, f x)] | None => [] end.

(* go: internal/runtime/kata/ch/createvm.go CpusConfig *)
Record CpusConfig := mkCpus { cpu_Boot : Z; cpu_Max : Z }.
(* go: internal/runtime/kata/ch/createvm.go MemoryConfig *)
Record MemoryConfig := mkMemory { mem_Size : Z; mem_Shared : bool }.
(* go: internal/runtime/kata/ch/createvm.go PayloadConfig *)
Record PayloadConfig := mkPayload { pay_Kernel : string; pay_Cmdline : string }.
(* go: internal/runtime/kata/ch/createvm.go DiskConfig *)
Record DiskConfig := mkDisk {
  dk_Path : string;
  dk_Readonly : bool;
  dk_Direct : bool;
  dk_NumQueues : Z;
  dk_QueueSize : Z;
  dk_ImageType : string;
}.
(* go: internal/runtime/kata/ch/createvm.go FsConfig *)
Record FsConfig := mkFs {
  fc_Tag : string;
  fc_Socket : string;
  fc_NumQueues : Z;
  fc_QueueSize : Z;
  fc_PciSegment : Z;
}.
(* go: internal/runtime/kata/ch/createvm.go RngConfig *)
Record RngConfig := mkRng { rng_Src : string }.
(* go: internal/runtime/kata/ch/createvm.go ConsoleConfig *)
Record ConsoleConfig := mkConsole { con_Mode : string; con_File : string }.
(* go: internal/runtime/kata/ch/createvm.go VsockConfig *)
Record VsockConfig := mkVsock { vk_Cid : Z; vk_Socket : string }.
(* go: internal/runtime/kata/ch/createvm.go PlatformConfig *)
Record PlatformConfig := mkPlatform { plat_NumPciSegments : Z }.

(* go: internal/runtime/kata/ch/createvm.go VmConfig *)
Record VmConfig := mkVm {
  vm_Cpus : CpusConfig;
  vm_Memory : MemoryConfig;
  vm_Payload : PayloadConfig;
  vm_Disks : list DiskConfig;
  vm_Fs : list FsConfig;
  vm_Rng : option RngConfig;
  vm_Serial : option ConsoleConfig;
  vm_Console : option ConsoleConfig;
  vm_Vsock : option VsockConfig;
  vm_Platform : option PlatformConfig;
}.

Definition enc_disk (d : DiskConfig) : json :=
  JObj ([("path", enc (dk_Path d)); ("readonly", JBool (dk_Readonly d)); ("direct", JBool (dk_Direct d))] ++
        nonzero "num_queues" (dk_NumQueues d) ++ nonzero "queue_size" (dk_QueueSize d) ++ optional "image_type" (dk_ImageType d)).
Definition enc_fs (f : FsConfig) : json :=
  JObj ([("tag", enc (fc_Tag f)); ("socket", enc (fc_Socket f))] ++ nonzero "num_queues" (fc_NumQueues f) ++
        nonzero "queue_size" (fc_QueueSize f) ++ nonzero "pci_segment" (fc_PciSegment f)).
Definition enc_console (c : ConsoleConfig) : json := JObj (("mode", enc (con_Mode c)) :: optional "file" (con_File c)).

(* go: internal/runtime/kata/ch/createvm.go VmConfig *)
Definition enc_vm (v : VmConfig) : json :=
  JObj ([("cpus", JObj [("boot_vcpus", JInt (cpu_Boot (vm_Cpus v))); ("max_vcpus", JInt (cpu_Max (vm_Cpus v)))]);
         ("memory", JObj [("size", JInt (mem_Size (vm_Memory v))); ("shared", JBool (mem_Shared (vm_Memory v)))]);
         ("payload", JObj [("kernel", enc (pay_Kernel (vm_Payload v))); ("cmdline", enc (pay_Cmdline (vm_Payload v)))])] ++
        omitempty (length (vm_Disks v) =? 0) "disks" (JArr (enc_disk <$> vm_Disks v)) ++
        omitempty (length (vm_Fs v) =? 0) "fs" (JArr (enc_fs <$> vm_Fs v)) ++
        present "rng" (fun r => JObj [("src", enc (rng_Src r))]) (vm_Rng v) ++
        present "serial" enc_console (vm_Serial v) ++ present "console" enc_console (vm_Console v) ++
        present "vsock" (fun x => JObj [("cid", JInt (vk_Cid x)); ("socket", enc (vk_Socket x))]) (vm_Vsock v) ++
        present "platform" (fun p => JObj (nonzero "num_pci_segments" (plat_NumPciSegments p))) (vm_Platform v)).

Definition wrap64 (z : Z) : Z := ((z + 2 ^ 63) mod 2 ^ 64 - 2 ^ 63)%Z.

(* go: internal/snapshotter/kata_coldboot_linux.go kataBootVMConfig *)
Definition kataBootVMConfig `{HostEnv} (id kernel image kparams serialLog : string) (memMiB vcpus : Z) : VmConfig :=
  let console := if bool_decide (GOARCH = "arm64") then "ttyAMA0" else "ttyS0" in
  let cmdline := "root=/dev/vda1 rootflags=data=ordered,errors=remount-ro ro rootfstype=ext4 " +:+
    "panic=1 no_timer_check noreplace-smp console=" +:+ console +:+ ",115200n8 " +:+
    "systemd.unit=kata-containers.target systemd.mask=systemd-networkd.service systemd.mask=systemd-networkd.socket" in
  let cmdline := if empty kparams then cmdline else cmdline +:+ " " +:+ kparams in
  mkVm (mkCpus (wrap32 vcpus) (wrap32 vcpus)) (mkMemory (wrap64 (wrap64 (memMiB * 1024) * 1024)) true) (mkPayload kernel cmdline)
    [mkDisk image true false (wrap32 vcpus) 1024 "Raw"]
    [mkFs FsTag (VirtiofsdSocketPath id) 1 1024 1]
    (Some (mkRng "/dev/urandom")) (Some (mkConsole "File" serialLog)) None (Some (mkVsock 3 (VsockSocketPath id))) (Some (mkPlatform 2)).

(** ** The container (kata_coldboot_linux.go, kata_exec.go, overlay/specconv.go) *)

Definition kataDefaultPATH : string := "PATH=/usr/local/sbin:/usr/local/bin:/usr/sbin:/usr/bin:/sbin:/bin".

(* go: internal/snapshotter/kata_exec.go kataExecProcess *)
Definition kataExecProcess (command : list string) : PbProcess :=
  mkPbProcess false None command [kataDefaultPATH] "/" None [] false.

(* go: internal/snapshotter/kata_coldboot_linux.go kataSandboxID *)
Definition kataSandboxID (identity : SandboxIdentity) : string :=
  if empty (id_UID identity) then path_Base (id_Name identity) else id_UID identity.

(* go: internal/snapshotter/kata_coldboot_linux.go defaultKataCapabilities *)
Definition defaultKataCapabilities : Capabilities :=
  let caps := ["CAP_CHOWN"; "CAP_DAC_OVERRIDE"; "CAP_FSETID"; "CAP_FOWNER"; "CAP_MKNOD"; "CAP_NET_RAW"; "CAP_SETGID";
               "CAP_SETUID"; "CAP_SETFCAP"; "CAP_SETPCAP"; "CAP_NET_BIND_SERVICE"; "CAP_SYS_CHROOT"; "CAP_KILL"; "CAP_AUDIT_WRITE"] in
  mkCapabilities caps caps [] caps [].

(* go: internal/snapshotter/kata_coldboot_linux.go defaultKataMounts *)
Definition defaultKataMounts : list OciMount :=
  [mkOciMount "/proc" "proc" "proc" ["nosuid"; "noexec"; "nodev"];
   mkOciMount "/dev" "tmpfs" "tmpfs" ["nosuid"; "strictatime"; "mode=755"; "size=65536k"];
   mkOciMount "/dev/pts" "devpts" "devpts" ["nosuid"; "noexec"; "newinstance"; "ptmxmode=0666"; "mode=0620"; "gid=5"];
   mkOciMount "/dev/shm" "tmpfs" "shm" ["nosuid"; "noexec"; "nodev"; "mode=1777"; "size=65536k"];
   mkOciMount "/dev/mqueue" "mqueue" "mqueue" ["nosuid"; "noexec"; "nodev"];
   mkOciMount "/sys" "sysfs" "sysfs" ["nosuid"; "noexec"; "nodev"; "ro"];
   mkOciMount "/run" "tmpfs" "tmpfs" ["nosuid"; "strictatime"; "mode=755"; "size=65536k"]].

(* go: internal/snapshotter/kata_coldboot_linux.go 353-362 defaultKataResources *)
Definition allowed_device (type : string) (major minor : Z) (access : string) : OciDevice :=
  mkOciDevice true type (if (major =? 0)%Z then None else Some major) (if (0 <=? minor)%Z then Some minor else None) access.
(* go: internal/snapshotter/kata_coldboot_linux.go defaultKataResources *)
Definition defaultKataResources : OciResources :=
  let dev major minor := allowed_device "c" major minor "rwm" in
  mkOciResources
    [mkOciDevice false "" None None "rwm"; dev 1 3; dev 1 8; dev 1 7; dev 5 0; dev 1 5; dev 1 9; dev 5 1; dev 136 (-1); dev 5 2]%Z
    (Some (Some 1024%Z)).

(** The specification, once the program's path is resolved. *)
(* go: internal/snapshotter/kata_coldboot_linux.go kataWorkloadSpec *)
Definition workload_spec `{QuantityApi} `{KataLibs} (req : CreateRequest) (args : list string) : OciSpec :=
  let env := [kataDefaultPATH; "HOME=/root"; "TERM=xterm"] ++
             ((fun v => env_Name v +:+ "=" +:+ env_Value v) <$> cc_Env (cr_Container req)) in
  mkOciSpec specs_Version
    (Some (mkOciProcess (mkOciUser 0 0 [] "") args env "/" (Some defaultKataCapabilities) [] false))
    (Some (mkOciRoot "rootfs" false)) (id_Name (cr_Identity req)) defaultKataMounts []
    (Some (mkOciLinux (Some defaultKataResources) ("/ateomchv/" +:+ kataSandboxID (cr_Identity req))
       ((fun ty => mkOciNamespace ty "") <$> [PIDNamespace; IPCNamespace; UTSNamespace; MountNamespace; NetworkNamespace]) [] [])).

(* go: internal/runtime/kata/overlay/specconv.go 43-71 SpecToAgentPB *)
Definition process_pb (p : OciProcess) : PbProcess :=
  mkPbProcess false (Some (op_User p)) (op_Args p) (op_Env p) (op_Cwd p) (op_Capabilities p) (op_Rlimits p) (op_NoNewPrivileges p).
(* go: internal/runtime/kata/overlay/specconv.go 111-120 SpecToAgentPB *)
Definition device_pb (d : OciDevice) : PbDevice :=
  mkPbDevice (od_Allow d) (od_Type d) (default 0%Z (od_Major d)) (default 0%Z (od_Minor d)) (od_Access d).
(* go: internal/runtime/kata/overlay/specconv.go 109-129 SpecToAgentPB *)
Definition resources_pb (r : OciResources) : PbResources :=
  mkPbResources (device_pb <$> os_Devices r) (default 0%Z <$> os_CPU r).
(** The namespaces the guest makes: those of network, cgroup and time are left out, and no path on
    the host is passed on. *)
(* go: internal/runtime/kata/overlay/specconv.go 96-108 SpecToAgentPB *)
Fixpoint namespaces_pb (l : list OciNamespace) : list OciNamespace :=
  match l with
  | [] => []
  | ns :: rest =>
      if bool_decide (on_Type ns = NetworkNamespace) || bool_decide (on_Type ns = CgroupNamespace) ||
         bool_decide (on_Type ns = TimeNamespace)
      then namespaces_pb rest
      else mkOciNamespace (on_Type ns) "" :: namespaces_pb rest
  end.
(* go: internal/runtime/kata/overlay/specconv.go 86-131 SpecToAgentPB *)
Definition linux_pb (l : OciLinux) : PbLinux :=
  mkPbLinux (resources_pb <$> ol_Resources l) (ol_CgroupsPath l) (namespaces_pb (ol_Namespaces l)) (ol_MaskedPaths l) (ol_ReadonlyPaths l).
(* go: internal/runtime/kata/overlay/specconv.go SpecToAgentPB *)
Definition SpecToAgentPB (s : option OciSpec) : option PbSpec :=
  s ← s;
  Some (mkPbSpec (oc_Version s) (process_pb <$> oc_Process s) (oc_Root s) (oc_Hostname s) (oc_Mounts s) (oc_Annotations s)
          (linux_pb <$> oc_Linux s)).

(** A container's specification with another root and control group. *)
Definition with_root (root : OciRoot) (cgroupsPath : string) (s : PbSpec) : PbSpec :=
  mkPbSpec (ps_Version s) (ps_Process s) (Some root) (ps_Hostname s) (ps_Mounts s) (ps_Annotations s)
    ((fun l => mkPbLinux (pl_Resources l) cgroupsPath (pl_Namespaces l) (pl_MaskedPaths l) (pl_ReadonlyPaths l)) <$> ps_Linux s).

(** [strings.ToLower], where it matters for a search of ASCII text: besides A to Z, the two other
    characters whose lower case is ASCII. *)
Fixpoint ToLower (s : string) : string :=
  match s with
  | EmptyString => ""
  | String c s' =>
      match s' with
      | String d s2 =>
          if byte_in 196 196 c && byte_in 176 176 d then String "i" (ToLower s2)
          else match s2 with
               | String e s3 =>
                   if byte_in 226 226 c && byte_in 132 132 d && byte_in 170 170 e then String "k" (ToLower s3)
                   else String (lower_byte c) (ToLower s')
               | EmptyString => String (lower_byte c) (ToLower s')
               end
      | EmptyString => String (lower_byte c) ""
      end
  end.

(* go: internal/snapshotter/kata_carrier_retry.go kataErrLooksLikeENOENT *)
Definition kataErrLooksLikeENOENT `{HostEnv} (err : error) : bool :=
  Is_ErrNotExist err ||
  (let s := ToLower (error_text err) in Contains s "enoent" || Contains s "no such file or directory").

(** ** Diagnosis of a container that cannot be created *)

(* go: internal/snapshotter/kata_coldboot_linux.go shellSingleQuote *)
Definition shellSingleQuote (s : string) : string :=
  "'" +:+ replace_byte "'"%char ("'" +:+ String backslash "''") s +:+ "'".

(* go: internal/snapshotter/kata_coldboot_linux.go carrierArgv0Base *)
Definition carrierArgv0Base (args : list string) : string :=
  match args with
  | a :: _ => if empty a then "" else path_Base a
  | [] => ""
  end.

(* go: internal/snapshotter/kata_coldboot_linux.go carrierArgv0HostPath *)
Definition carrierArgv0HostPath (hostRoot : string) (args : list string) : string :=
  match args with
  | a :: _ =>
      if empty a then path_Join [hostRoot; "(missing-argv0)"]
      else let p := Clean a in
           if IsAbs p then path_Join [hostRoot; TrimPrefix p "/"] else path_Join [hostRoot; p]
  | [] => path_Join [hostRoot; "(missing-argv0)"]
  end.

(* go: internal/snapshotter/kata_coldboot_linux.go guestCarrierSharedDebugCmd *)
Definition guestCarrierSharedDebugCmd (carrierID : string) (args : list string) (cwd : string) : string :=
  let q := shellSingleQuote in
  let root := GuestSharedRootfs carrierID in
  let parent := path_Dir root in
  let shared := path_Dir parent in
  let argv0 := default "" (head args) in
  let cwd := if empty cwd then "/" else cwd in
  let cwdUnderRoot := if bool_decide (cwd = "/") then root else path_Join [root; TrimPrefix (Clean cwd) "/"] in
  strings_Join [
    "echo '== guest shared containers =='; ls -la " +:+ q shared +:+ " 2>&1";
    "echo '== guest cid =='; ls -la " +:+ q parent +:+ " 2>&1";
    "echo '== guest rootfs =='; ls -la " +:+ q root +:+ " 2>&1";
    "echo '== guest rootfs/bin =='; ls -la " +:+ q (root +:+ "/bin") +:+ " 2>&1 | head -40";
    "echo '== guest bin/sleep busybox =='; ls -la " +:+ q (root +:+ "/bin/sleep") +:+ " " +:+ q (root +:+ "/bin/busybox") +:+ " 2>&1";
    "echo '== argv0 probes =='; echo argv0=" +:+ q argv0 +:+ " cwd=" +:+ q cwd;
    "echo '== ls root+argv0 =='; ls -la " +:+ q (carrierArgv0HostPath root args) +:+ " 2>&1";
    "echo '== ls root+bin+base =='; ls -la " +:+ q (path_Join [root; "bin"; carrierArgv0Base args]) +:+ " 2>&1";
    "echo '== ls absolute argv0 as guest path =='; ls -la " +:+ q argv0 +:+ " 2>&1";
    "echo '== ls root+cwd =='; ls -ld " +:+ q cwdUnderRoot +:+ " 2>&1";
    "echo '== read bin/sleep =='; wc -c < " +:+ q (root +:+ "/bin/sleep") +:+ " 2>&1; head -c 4 " +:+ q (root +:+ "/bin/sleep") +:+ " 2>&1 | od -An -tx1 2>&1";
    "echo '== agent bundle paths =='; ls -la " +:+ q ("/run/kata-containers/" +:+ carrierID) +:+ " 2>&1; ls -la " +:+ q ("/run/kata-containers/" +:+ carrierID +:+ "/rootfs") +:+ " 2>&1";
    "echo '== mount kata/virtio =='; mount 2>&1 | grep -E 'kata|virtio|shared' | head -40";
    "echo '== findmnt shared =='; findmnt -R " +:+ q shared +:+ " 2>&1 | head -40"] "; ".

(* go: internal/snapshotter/kata_coldboot_linux.go 497-503 logCarrierStagingDiag *)
Definition hostStagingCmd (share carrierID : string) (args : list string) : string :=
  let hostRoot := path_Join [share; carrierID; "rootfs"] in
  "echo '=== " +:+ share +:+ " ==='; ls -la " +:+ quote share +:+ " 2>&1; echo '=== " +:+ share +:+ "/" +:+ carrierID +:+ " ==='; ls -laR " +:+
  quote (path_Join [share; carrierID]) +:+ " 2>&1 | head -60; echo '=== findmnt rootfs ==='; findmnt -T " +:+ quote hostRoot +:+
  " 2>&1; findmnt -o TARGET,SOURCE,FSTYPE,PROPAGATION -T " +:+ quote hostRoot +:+
  " 2>&1; echo '=== findmnt /run/kata-containers ==='; findmnt -o TARGET,SOURCE,FSTYPE,PROPAGATION -T /run/kata-containers 2>&1; echo '=== host root+argv0 ==='; ls -la " +:+
  quote (carrierArgv0HostPath hostRoot args) +:+ " 2>&1; echo '=== host root+bin+base ==='; ls -la " +:+
  quote (path_Join [hostRoot; "bin"; carrierArgv0Base args]) +:+ " 2>&1".
