(* ===== verification/Vmm.v ===== *)
(** * cloud-hypervisor (internal/runtime/kata/ch, internal/snapshotter/kata_ch.go)

    The two clients of a virtual machine monitor's API socket, the start of a monitor, requests that
    pass file descriptors along, and the merge of a sparse memory image onto the image it was
    restored from. *)

From S2P Require Import Prelude Prog Strings Json Runtime WorkerEnv AgentApi Host Snapshotters KataData.

(** ** Waiting

    A probe is repeated until it has an answer, the time limit has passed or the context has ended.
    A pause lasts at least its duration, so after [limit / interval + 1] of them the limit has
    passed. *)
Fixpoint poll_until {A} (pauses : nat) (limit interval : Z) (probe : prog SysE (result A + error))
    (late : error -> error) : prog SysE (result A) :=
  call! r := probe in
  match r with
  | inl answer => Ret answer
  | inr last =>
      match pauses with
      | O => Ret (Err (late last))
      | S pauses' =>
          call! passed := trigger (TmPassed limit) in
          if (passed : bool) then Ret (Err (late last))
          else
            call! ended := trigger (TmPause interval) in
            match ended with
            | Some err => Ret (Err err)
            | None => poll_until pauses' limit interval probe late
            end
      end
  end.
Definition wait_until {A} (limit interval : Z) (probe : prog SysE (result A + error)) (late : error -> error) :
    prog SysE (result A) :=
  poll_until (S (Z.to_nat (limit / interval))) limit interval probe late.

(** A probe that retries every failure. *)
Definition retrying {A} (p : prog SysE (result A)) : prog SysE (result A + error) :=
  call! r := p in Ret (match r with Ok a => inl (Ok a) | Err err => inr err end).

Definition Millisecond : Z := 1000000.
(** [%s] of a duration, as far as the limits here need it. *)
Definition seconds_text (d : Z) : string :=
  if (d <? 60 * Second)%Z then itoa (d / Second) +:+ "s" else itoa (d / (60 * Second)) +:+ "m" +:+ itoa (d / Second mod 60) +:+ "s".

Section Vmm.
Context {HE : HostEnv} {JT : JsonText}.

(** ** Requests over the API socket *)

Definition apiBase : string := "http://localhost".

(** The status and the body of an answer. *)
Definition status_failed (method path : string) (status : Z) (msg : string) : error :=
  Plain (method +:+ " " +:+ path +:+ ": status " +:+ itoa status +:+ ": " +:+ TrimSpace msg).

(* go: internal/snapshotter/kata_ch.go chClient.do *)
Definition chClient_do (socket method path : string) (body : option json) : prog SysE (option error) :=
  call! resp := trigger (SockHttp socket method (apiBase +:+ path) (json_text <$> body)) in
  Ret (match resp with
       | Err err => Some err
       | Ok (status, msg) =>
           if (300 <=? status)%Z then Some (status_failed method path status (match msg with Ok b => b | Err _ => "" end)) else None
       end).

(* go: internal/runtime/kata/ch/api.go apiClient.put *)
Definition put (socket path : string) (body : option json) : prog SysE (option error) := chClient_do socket "PUT" path body.

(* go: internal/snapshotter/kata_ch.go chClient.getJSON *)
Definition getJSON {T} `{Json T} (socket path : string) : prog SysE (result T) :=
  call! resp := trigger (SockHttp socket "GET" (apiBase +:+ path) None) in
  Ret (match resp with
       | Err err | Ok (_, Err err) => Err err
       | Ok (status, Ok b) => if (300 <=? status)%Z then Err (status_failed "GET" path status b) else Unmarshal_as b
       end).

(** The state in an answer of vm.info. *)
Record vm_info := mkVmInfo { vi_State : string }.
#[export] Instance vm_info_json : Json vm_info := {
  zero := mkVmInfo "";
  enc x := JObj [("state", enc (vi_State x))];
  dec := dec_struct [json_field "state" vi_State (fun v _ => mkVmInfo v)];
}.

(* go: internal/runtime/kata/ch/ch.go VMMInfo *)
Record VMMInfo := mkVMMInfo {
  mi_Version : string;
  mi_BuildVersion : string;
  mi_Features : list string;
}.
(* go: internal/runtime/kata/ch/ch.go VMMInfo *)
#[export] Instance VMMInfo_json : Json VMMInfo := {
  zero := mkVMMInfo "" "" [];
  enc x := JObj [("version", enc (mi_Version x)); ("build_version", enc (mi_BuildVersion x)); ("features", enc (mi_Features x))];
  dec := dec_struct [
    json_field "version" mi_Version (fun v x => mkVMMInfo v (mi_BuildVersion x) (mi_Features x));
    json_field "build_version" mi_BuildVersion (fun v x => mkVMMInfo (mi_Version x) v (mi_Features x));
    json_field "features" mi_Features (fun v x => mkVMMInfo (mi_Version x) (mi_BuildVersion x) v)];
}.

Definition snapshot_body (destDir : string) : json := JObj [("destination_url", enc ("file://" +:+ destDir))].

(** ** The client of the snapshotter (kata_ch.go) *)

(* go: internal/snapshotter/kata_ch.go chClient.WaitReady *)
Definition chClient_WaitReady (socket : string) (deadline : Z) : prog SysE (option error) :=
  call! r := wait_until deadline (20 * Millisecond)
    (retrying (as_result (chClient_do socket "GET" "/api/v1/vmm.ping" None)))
    (fun _ => Plain ("cloud-hypervisor api " +:+ quote socket +:+ " not ready after " +:+ seconds_text deadline)) in
  Ret (match r with Ok _ => None | Err err => Some err end).

(* go: internal/snapshotter/kata_ch.go chClient.state *)
Definition chClient_state (socket : string) : prog SysE (result string) :=
  let! info := getJSON socket "/api/v1/vm.info" in Ret (Ok (vi_State info)).

(* go: internal/snapshotter/kata_ch.go chClient.Pause *)
Definition chClient_Pause (socket : string) : prog SysE (option error) :=
  call! state := chClient_state socket in
  match state with
  | Ok s => if bool_decide (s = "Paused") then Ret None else chClient_do socket "PUT" "/api/v1/vm.pause" None
  | Err _ => chClient_do socket "PUT" "/api/v1/vm.pause" None
  end.

(* go: internal/snapshotter/kata_ch.go chClient.Resume *)
Definition chClient_Resume (socket : string) : prog SysE (option error) := chClient_do socket "PUT" "/api/v1/vm.resume" None.

(* go: internal/snapshotter/kata_ch.go chClient.Snapshot *)
Definition chClient_Snapshot (socket destDir : string) : prog SysE (option error) :=
  chClient_do socket "PUT" "/api/v1/vm.snapshot" (Some (snapshot_body destDir)).

(* go: internal/snapshotter/kata_ch.go chClient.Shutdown *)
Definition chClient_Shutdown (socket : string) : prog SysE (option error) :=
  do! chClient_do socket "PUT" "/api/v1/vm.shutdown" None in
  chClient_do socket "PUT" "/api/v1/vmm.shutdown" None.

(** ** The client of package ch

    It keeps the last answer to a ping, which no caller reads. *)

(* go: internal/runtime/kata/ch/ch.go SnapshotURL *)
Definition SnapshotURL (dir : string) : string := "file://" +:+ dir.

(* go: internal/runtime/kata/ch/ch.go Client.Ping *)
Definition Ping (socket : string) : prog SysE (result VMMInfo) := getJSON socket "/api/v1/vmm.ping".

(* go: internal/runtime/kata/ch/ch.go Client.WaitReady *)
Definition Client_WaitReady (socket : string) (deadline : Z) : prog SysE (result VMMInfo) :=
  wait_until deadline (10 * Millisecond) (retrying (Ping socket))
    (fun _ => Plain ("cloud-hypervisor api socket " +:+ quote socket +:+ " not ready after " +:+ seconds_text deadline)).

(* go: internal/runtime/kata/ch/ch.go Client.State *)
Definition Client_State (socket : string) : prog SysE (result string) :=
  let! info := getJSON socket "/api/v1/vm.info" in Ret (Ok (vi_State info)).

(* go: internal/runtime/kata/ch/ch.go Client.Pause *)
Definition Client_Pause (socket : string) : prog SysE (option error) :=
  call! state := Client_State socket in
  match state with
  | Ok s => if bool_decide (s = "Paused") then Ret None else put socket "/api/v1/vm.pause" None
  | Err _ => put socket "/api/v1/vm.pause" None
  end.

(* go: internal/runtime/kata/ch/ch.go Client.Resume *)
Definition Client_Resume (socket : string) : prog SysE (option error) := put socket "/api/v1/vm.resume" None.

(* go: internal/runtime/kata/ch/ch.go Client.Snapshot *)
Definition Client_Snapshot (socket destDir : string) : prog SysE (option error) :=
  ok! on_failure (wrap_prefix ("while creating snapshot dir " +:+ quote destDir)) (trigger (FsMkdirAll destDir)) in
  put socket "/api/v1/vm.snapshot" (Some (snapshot_body destDir)).

(* go: internal/runtime/kata/ch/ch.go Client.Shutdown *)
Definition Client_Shutdown (socket : string) : prog SysE (option error) :=
  do! put socket "/api/v1/vm.shutdown" None in
  put socket "/api/v1/vmm.shutdown" None.

(* go: internal/runtime/kata/ch/createvm.go Client.CreateVM *)
Definition CreateVM (socket : string) (cfg : VmConfig) : prog SysE (option error) :=
  on_failure (wrap_prefix "vm.create") (put socket "/api/v1/vm.create" (Some (enc_vm cfg))).
(* go: internal/runtime/kata/ch/createvm.go Client.BootVM *)
Definition BootVM (socket : string) : prog SysE (option error) :=
  on_failure (wrap_prefix "vm.boot") (put socket "/api/v1/vm.boot" None).

(* go: internal/runtime/kata/ch/restorefds.go LaunchVMMOptions *)
Record LaunchVMMOptions := mkLaunch {
  lo_Binary : string;
  lo_APISocket : string;
  lo_Log : string;
}.

(** The monitor is its process and its socket. *)
(* go: internal/runtime/kata/ch/restorefds.go LaunchVMM *)
Definition LaunchVMM (o : LaunchVMMOptions) : prog SysE (result Z) :=
  let socket := lo_APISocket o in
  if empty socket then Ret (Err (Plain "LaunchVMMOptions.APISocket is required"))
  else
    let bin := if empty (lo_Binary o) then "cloud-hypervisor" else lo_Binary o in
    do! trigger (FsRemove socket) in
    let! pid := on_error (wrap_prefix "while starting cloud-hypervisor")
      (trigger (ProcStart bin ["--api-socket"; socket] (ToFiles (Some (lo_Log o)) (Some (lo_Log o))))) in
    call! ready := Client_WaitReady socket (15 * Second) in
    match ready with
    | Err err =>
        do! trigger (ProcKill pid) in
        do! trigger (ProcWait pid) in
        Ret (Err (wrap_prefix "while waiting for VMM api-socket" err))
    | Ok _ => Ret (Ok pid)
    end.

(** ** Requests with file descriptors *)

Definition crlf : string := String carriage_return (String newline "").

(** An HTTP request written by hand, its descriptors sent along, and the first line of the answer. *)
Definition send_with_fds (socket : string) (limit : option Z) (dialed sent answered : error -> error) (head body : string)
    (fds : list Z) : prog SysE (result string) :=
  let! conn := on_error dialed (trigger (SockDial socket limit)) in
  deferred (trigger (FdClose conn)) (
    check! on_failure sent (trigger (SockWrite conn
      (head +:+ "Content-Type: application/json" +:+ crlf +:+ "Content-Length: " +:+ itoa (len body) +:+ crlf +:+ crlf +:+ body) fds)) in
    on_error answered (trigger (SockReadLine conn))).

(** The second word of a status line. *)
Definition status_word (line : string) : option string :=
  match Cut " "%char (TrimSpace line) with
  | None => None
  | Some (_, rest) => Some (match Cut " "%char rest with Some (w, _) => w | None => rest end)
  end.

(** A network device with the descriptors of its queues. *)
(* go: internal/runtime/kata/ch/restorefds.go RestoredNet *)
Record RestoredNet := mkRestoredNet {
  rn_ID : string;
  rn_FDs : list Z;
}.

(* go: internal/runtime/kata/ch/restorefds.go 99-116 Client.RestoreWithNetFDs *)
Definition restore_body (sourceDir memMode : string) (nets : list RestoredNet) : json :=
  JObj ([("source_url", enc (SnapshotURL sourceDir))] ++ optional "memory_restore_mode" memMode ++
        omitempty (length nets =? 0) "net_fds"
          (JArr ((fun n => JObj [("id", enc (rn_ID n)); ("num_fds", JInt (Z.of_nat (length (rn_FDs n))))]) <$> nets))).

Definition put_head (path : string) (accept : bool) : string :=
  "PUT " +:+ path +:+ " HTTP/1.1" +:+ crlf +:+ "Host: localhost" +:+ crlf +:+ (if accept then "Accept: */*" +:+ crlf else "").

(* go: internal/snapshotter/kata_restore_linux.go bufioReadStatus *)
Definition bufioReadStatus (line : string) : string := default line (status_word line).

Definition kataVMRestoreTimeout : Z := 300 * Second.

(** The request of the snapshotter. *)
(* go: internal/snapshotter/kata_restore_linux.go chClient.restoreVMWithNetworkFDs *)
Definition restoreVMWithNetworkFDs (socket : string) (limit : Z) (sourceDir : string) (nets : list RestoredNet) (memMode : string) :
    prog SysE (option error) :=
  call! line := send_with_fds socket (Some limit) id (wrap_prefix "send vm.restore") id
    (put_head "/api/v1/vm.restore" false) (json_text (restore_body sourceDir memMode nets)) (nets ≫= rn_FDs) in
  Ret (match line with
       | Err err => Some err
       | Ok line =>
           let status := bufioReadStatus line in
           if HasPrefix status "2" then None else Some (Plain ("vm.restore failed: " +:+ TrimSpace status))
       end).

(** An answer whose status is not 2xx. *)
Definition status_check (what line : string) : option error :=
  match status_word line with
  | Some w => if HasPrefix w "2" then None else Some (Plain (what +:+ " failed: " +:+ TrimSpace line))
  | None => Some (Plain (what +:+ " failed: " +:+ TrimSpace line))
  end.

(* go: internal/runtime/kata/ch/restorefds.go Client.RestoreWithNetFDs *)
Definition RestoreWithNetFDs (socket : string) (limit : option Z) (sourceDir : string) (nets : list RestoredNet) (memMode : string) :
    prog SysE (option error) :=
  call! line := send_with_fds socket (Some (default (60 * Second)%Z limit)) (wrap_prefix "dialing api-socket")
    (wrap_prefix "sending vm.restore with fds") (wrap_prefix "reading vm.restore response")
    (put_head "/api/v1/vm.restore" true) (json_text (restore_body sourceDir memMode nets)) (nets ≫= rn_FDs) in
  Ret (match line with Err err => Some err | Ok line => status_check "vm.restore" line end).

(* go: internal/runtime/kata/ch/restorefds.go Client.AddNetWithFDs *)
Definition AddNetWithFDs (socket : string) (limit : option Z) (mac : string) (numQueues : Z) (fds : list Z) : prog SysE (option error) :=
  let body := JObj (optional "mac" mac ++ nonzero "num_queues" numQueues ++ nonzero "num_fds" (Z.of_nat (length fds))) in
  call! line := send_with_fds socket (Some (default (30 * Second)%Z limit)) (wrap_prefix "dialing api-socket")
    (wrap_prefix "sending vm.add-net with fds") (wrap_prefix "reading vm.add-net response")
    (put_head "/api/v1/vm.add-net" true) (json_text body) fds in
  Ret (match line with Err err => Some err | Ok line => status_check "vm.add-net" line end).

(** ** The network devices of a checkpoint *)

(* go: internal/runtime/kata/ch/restorefds.go SnapshotNetDevice *)
Record SnapshotNetDevice := mkSnapshotNet {
  sd_ID : string;
  sd_QueuePairs : Z;
  sd_MAC : string;
}.
(* go: internal/runtime/kata/ch/restorefds.go 222-228 SnapshotNetDevices *)
Record ch_net := mkChNet { cn_ID : string; cn_NumQueues : Z; cn_MAC : string }.
#[export] Instance ch_net_json : Json ch_net := {
  zero := mkChNet "" 0 "";
  enc x := JObj [("id", enc (cn_ID x)); ("num_queues", JInt (cn_NumQueues x)); ("mac", enc (cn_MAC x))];
  dec := dec_struct [
    json_field "id" cn_ID (fun v x => mkChNet v (cn_NumQueues x) (cn_MAC x));
    int_field 64 "num_queues" cn_NumQueues (fun v x => mkChNet (cn_ID x) v (cn_MAC x));
    json_field "mac" cn_MAC (fun v x => mkChNet (cn_ID x) (cn_NumQueues x) v)];
}.
Record ch_config := mkChConfig { cf_Net : list ch_net }.
#[export] Instance ch_config_json : Json ch_config := {
  zero := mkChConfig [];
  enc x := JObj [("net", enc (cf_Net x))];
  dec := dec_struct [json_field "net" cf_Net (fun v _ => mkChConfig v)];
}.

(* go: internal/runtime/kata/ch/restorefds.go SnapshotNetDevices *)
Definition SnapshotNetDevices (snapshotDir : string) : prog SysE (result (list SnapshotNetDevice)) :=
  let! b := trigger (FsReadFile (snapshotDir +:+ "/config.json")) in
  Ret (match Unmarshal_as b with
       | Err err => Err (wrap_prefix "parsing snapshot config.json" err)
       | Ok cfg =>
           Ok ((fun n => let qp := (cn_NumQueues n ÷ 2)%Z in mkSnapshotNet (cn_ID n) (if (qp <? 1)%Z then 1 else qp)%Z (cn_MAC n)) <$> cf_Net cfg)
       end).

(** ** Sparse memory images (ch/merge.go)

    A read of [n] bytes gives [n] bytes or fails ([io.ReadFull]). The rounds of the outer loop are
    bounded by the size of the file, for each ends at a later offset than it began (a data region is
    not empty); [out_of_rounds] is not an answer of the code. *)

Definition chunk : Z := 2 ^ 20.
Definition out_of_rounds : error := Plain "a data region that is empty".

(* go: internal/runtime/kata/ch/merge.go 165-182 copySparseRegions *)
Fixpoint copy_region (chunks : nat) (src dst remaining copied : Z) : prog SysE (Z * option error) :=
  match chunks with
  | O => Ret (copied, None)
  | S chunks' =>
      let n := Z.min chunk remaining in
      call! got := trigger (FlReadFull src n) in
      let '(data, err) := got in
      call! werr := if empty data then Ret None else trigger (FlWrite dst data) in
      match werr with
      | Some werr => Ret (copied, Some werr)
      | None =>
          let copied := (copied + len data)%Z in
          match err with
          | Some err => Ret (copied, Some (wrap_prefix "reading data region" err))
          | None => copy_region chunks' src dst (remaining - n) copied
          end
      end
  end.
Definition chunks_of (n : Z) : nat := Z.to_nat ((n + chunk - 1) / chunk).

(* go: internal/runtime/kata/ch/merge.go 146-185 copySparseRegions *)
Fixpoint copy_sparse (rounds : nat) (src dst size off copied : Z) : prog SysE (Z * option error) :=
  if (off <? size)%Z then
    match rounds with
    | O => Ret (copied, Some out_of_rounds)
    | S rounds' =>
        call! ds := trigger (FlSeekData src off) in
        match ds with
        | Err err => Ret (copied, if Is_ENXIO err then None else Some (wrap_prefix "SEEK_DATA" err))
        | Ok ds =>
            call! de := trigger (FlSeekHole src ds) in
            match de with
            | Err err => Ret (copied, Some (wrap_prefix "SEEK_HOLE" err))
            | Ok de =>
                call! sought := fails_first (trigger (FlSeek src ds)) (trigger (FlSeek dst ds)) in
                match sought with
                | Some err => Ret (copied, Some err)
                | None =>
                    call! region := copy_region (chunks_of (de - ds)) src dst (de - ds) copied in
                    match region with
                    | (copied, Some err) => Ret (copied, Some err)
                    | (copied, None) => copy_sparse rounds' src dst size de copied
                    end
                end
            end
        end
    end
  else Ret (copied, None).

(* go: internal/runtime/kata/ch/merge.go copySparseRegions *)
Definition copySparseRegions (src dst : Z) : prog SysE (Z * option error) :=
  call! size := trigger (FlFdSize src) in
  match size with
  | Err err => Ret (0%Z, Some err)
  | Ok size => copy_sparse (Z.to_nat size) src dst size 0 0
  end.

Definition size_mismatch (what : string) (base delta : Z) : error :=
  Plain (what +:+ ": size mismatch base=" +:+ itoa base +:+ " delta=" +:+ itoa delta).

(** A file for the time of [k]. *)
Definition with_file (opened : error -> error) (path : string) (write : bool) (k : Z -> prog SysE (option error)) : prog SysE (option error) :=
  call! fd := on_error opened (trigger (FlOpen path write)) in
  match fd with
  | Err err => Ret (Some err)
  | Ok fd => deferred (trigger (FdClose fd)) (k fd)
  end.

(** The data of one open file over another file, which is closed before it gets its name. *)
Definition copy_over (d : Z) (tmp : string) (rename : prog SysE (option error)) : prog SysE (option error) :=
  with_file id tmp true (fun o =>
    call! copied := copySparseRegions d o in
    match copied with
    | (_, Some err) => Ret (Some err)
    | (_, None) => ok! trigger (FdClose o) in rename
    end).

(* go: internal/runtime/kata/ch/merge.go MergeSparseOverlay *)
Definition MergeSparseOverlay (baseFile deltaFile outFile : string) : prog SysE (option error) :=
  call! bi := on_error (wrap_prefix ("stat base " +:+ quote baseFile)) (trigger (FlSize baseFile)) in
  match bi with
  | Err err => Ret (Some err)
  | Ok bi =>
      let tmp := outFile +:+ ".merge.tmp" in
      do! trigger (FsRemove tmp) in
      call! ran := run_cmd None "cp" ["--sparse=always"; baseFile; tmp] CombinedBuffer in
      match ran with
      | (o, Some err) => Ret (Some (Wrapf ("cp base->tmp: " +:+ error_text (as_error err) +:+ ": " +:+ o) (as_error err)))
      | (_, None) =>
          with_file (wrap_prefix ("open delta " +:+ quote deltaFile)) deltaFile false (fun d =>
            call! di := trigger (FlFdSize d) in
            match di with
            | Err err => Ret (Some err)
            | Ok di =>
                if negb (di =? bi)%Z then Ret (Some (size_mismatch "MergeSparseOverlay" bi di))
                else copy_over d tmp (trigger (FsRename tmp outFile))
            end)
      end
  end.

(* go: internal/runtime/kata/ch/merge.go MergeDeltaIntoBase *)
Definition MergeDeltaIntoBase (baseFile deltaFile : string) : prog SysE (option error) :=
  call! bi := on_error (wrap_prefix ("stat base " +:+ quote baseFile)) (trigger (FlSize baseFile)) in
  match bi with
  | Err err => Ret (Some err)
  | Ok bi =>
      call! di := on_error (wrap_prefix ("stat delta " +:+ quote deltaFile)) (trigger (FlSize deltaFile)) in
      match di with
      | Err err => Ret (Some err)
      | Ok di =>
          if negb (di =? bi)%Z then Ret (Some (size_mismatch "MergeDeltaIntoBase" bi di))
          else
            let merged := deltaFile +:+ ".merged.tmp" in
            do! trigger (FsRemove merged) in
            call! renamed := trigger (FsRename baseFile merged) in
            match renamed with
            | Some err =>
                if Is_EXDEV err then MergeSparseOverlay baseFile deltaFile deltaFile
                else Ret (Some (wrap_prefix "rename base->merged" err))
            | None =>
                with_file (wrap_prefix ("open delta " +:+ quote deltaFile)) deltaFile false (fun d =>
                  copy_over d merged (
                    ok! on_failure (wrap_prefix "remove old delta") (trigger (FsRemove deltaFile)) in
                    trigger (FsRename merged deltaFile)))
            end
      end
  end.
End Vmm.
