(* ===== verification/Guest.v ===== *)
(** * The guest and its shared directory (internal/runtime/kata/overlay, kata_agent_linux.go)

    The agent inside a guest, reached over the hybrid vsock of its monitor: containers, network,
    commands. The host's side of the guest's root file system: the shared directory, the daemon
    that serves it, and the removal of what a sandbox left behind. *)

From S2P Require Import Prelude Prog Strings Json Runtime WorkerEnv AgentApi Host Snapshotters KataData Vmm.

Definition agentVsockPort : Z := 1024.
Definition debugConsoleVsockPort : Z := 1026.

Section Guest.
Context {HE : HostEnv} {JT : JsonText}.

(** ** The agent's connection *)

(** The handshake with the monitor; the limit is the deadline of the context. *)
(* go: internal/runtime/kata/overlay/agentclient.go DialAgent *)
Definition DialAgent (limit : option Z) (vsockPath : string) : prog SysE (result Z) :=
  let! conn := on_error (wrap_prefix ("dialing hybrid vsock " +:+ quote vsockPath))
    (trigger (SockDial vsockPath (Some (default (10 * Second)%Z limit)))) in
  let refuse err := do! trigger (FdClose conn) in Ret (Err err) in
  call! sent := trigger (SockWrite conn ("CONNECT " +:+ itoa agentVsockPort +:+ nl) []) in
  match sent with
  | Some err => refuse (wrap_prefix "hybrid vsock CONNECT" err)
  | None =>
      call! line := trigger (SockReadLine conn) in
      match line with
      | Err err => refuse (wrap_prefix "hybrid vsock CONNECT response" err)
      | Ok line =>
          if HasPrefix line "OK " then Ret (Ok conn)
          else refuse (Plain ("hybrid vsock CONNECT refused: " +:+ quote (TrimSpace line)))
      end
  end.

(** The client of the snapshotter says "dial" where the other says "dialing". *)
(* go: internal/snapshotter/kata_agent_linux.go dialAgent *)
Definition dialAgent (limit : option Z) (vsockPath : string) : prog SysE (result Z) :=
  let! conn := on_error (wrap_prefix ("dial hybrid vsock " +:+ quote vsockPath))
    (trigger (SockDial vsockPath (Some (default (10 * Second)%Z limit)))) in
  let refuse err := do! trigger (FdClose conn) in Ret (Err err) in
  call! sent := trigger (SockWrite conn ("CONNECT " +:+ itoa agentVsockPort +:+ nl) []) in
  match sent with
  | Some err => refuse (wrap_prefix "hybrid vsock CONNECT" err)
  | None =>
      call! line := trigger (SockReadLine conn) in
      match line with
      | Err err => refuse (wrap_prefix "hybrid vsock CONNECT response" err)
      | Ok line =>
          if HasPrefix line "OK " then Ret (Ok conn)
          else refuse (Plain ("hybrid vsock CONNECT refused: " +:+ quote (TrimSpace line)))
      end
  end.

(** Dial until the agent answers. A socket that is gone ends the wait: the guest stopped. *)
Definition dial_until (timeout : Z) (dial : prog SysE (result Z)) (gone : error -> error) : prog SysE (result Z) :=
  wait_until timeout (500 * Millisecond)
    (call! r := dial in
     Ret (match r with
          | Ok conn => inl (Ok conn)
          | Err err => if Is_ErrNotExist err then inl (Err (gone err)) else inr err
          end)) id.

(* go: internal/snapshotter/kata_agent_linux.go dialAgentRetry *)
Definition dialAgentRetry (vsockPath : string) (timeout : Z) : prog SysE (result Z) :=
  dial_until timeout (dialAgent (Some (5 * Second)%Z) vsockPath) id.

(* go: internal/snapshotter/kata_coldboot_linux.go dialOverlayAgentRetry *)
Definition dialOverlayAgentRetry (vsockPath : string) (timeout : Z) : prog SysE (result Z) :=
  dial_until timeout (DialAgent (Some (5 * Second)%Z) vsockPath)
    (wrap_prefix ("guest stopped (cloud-hypervisor removed " +:+ quote vsockPath +:+ ")")).

(** Both clients close the client and the connection; nobody reads the error. *)
(* go: internal/runtime/kata/overlay/agentclient.go AgentClient.Close *)
Definition AgentClient_Close (conn : Z) : prog SysE (option error) := trigger (FdClose conn).
(* go: internal/snapshotter/kata_agent_linux.go agentClient.Close *)
Definition agentClient_Close (conn : Z) : prog SysE (option error) := trigger (FdClose conn).

(** ** The agent's calls *)

(* go: internal/runtime/kata/overlay/agentclient.go AgentClient.CreateContainer *)
Definition CreateContainer (conn : Z) (containerID execID : string) (storages : list Storage) (oci : option PbSpec) : prog SysE (option error) :=
  on_failure (wrap_prefix "agent CreateContainer") (trigger (AgCall conn (CreateContainerRequest containerID execID storages oci) None)).
(* go: internal/runtime/kata/overlay/agentclient.go AgentClient.StartContainer *)
Definition StartContainer (conn : Z) (containerID : string) : prog SysE (option error) :=
  on_failure (wrap_prefix "agent StartContainer") (trigger (AgCall conn (StartContainerRequest containerID) None)).
(* go: internal/runtime/kata/overlay/agentclient.go AgentClient.CreateSandbox *)
Definition CreateSandbox (conn : Z) (hostname sandboxID : string) (storages : list Storage) : prog SysE (option error) :=
  on_failure (wrap_prefix "agent CreateSandbox") (trigger (AgCall conn (CreateSandboxRequest hostname sandboxID storages) None)).

(** What guest networking needs of an agent client. *)
(* go: internal/snapshotter/kata_agent_linux.go guestNetAgent *)
Record guestNetAgent := mkGuestNetAgent {
  ga_UpdateInterface : PbInterface -> prog SysE (option error);
  ga_UpdateRoutes : list PbRoute -> prog SysE (option error);
  ga_AddARPNeighbors : list PbNeighbor -> prog SysE (option error);
}.

(* go: internal/snapshotter/kata_agent_linux.go agentClient.UpdateInterface *)
Definition agentClient_UpdateInterface (conn : Z) (iface : PbInterface) : prog SysE (option error) :=
  trigger (AgCall conn (UpdateInterfaceRequest iface) None).
(* go: internal/snapshotter/kata_agent_linux.go agentClient.UpdateRoutes *)
Definition agentClient_UpdateRoutes (conn : Z) (routes : list PbRoute) : prog SysE (option error) :=
  trigger (AgCall conn (UpdateRoutesRequest routes) None).
(* go: internal/snapshotter/kata_agent_linux.go agentClient.AddARPNeighbors *)
Definition agentClient_AddARPNeighbors (conn : Z) (neighbors : list PbNeighbor) : prog SysE (option error) :=
  trigger (AgCall conn (AddARPNeighborsRequest neighbors) None).
Definition local_agent (conn : Z) : guestNetAgent :=
  mkGuestNetAgent (agentClient_UpdateInterface conn) (agentClient_UpdateRoutes conn) (agentClient_AddARPNeighbors conn).

(* go: internal/runtime/kata/overlay/agentclient.go AgentClient.UpdateInterface *)
Definition UpdateInterface (conn : Z) (iface : PbInterface) : prog SysE (option error) :=
  on_failure (wrap_prefix "agent UpdateInterface") (trigger (AgCall conn (UpdateInterfaceRequest iface) None)).
(* go: internal/runtime/kata/overlay/agentclient.go AgentClient.UpdateRoutes *)
Definition UpdateRoutes (conn : Z) (routes : list PbRoute) : prog SysE (option error) :=
  on_failure (wrap_prefix "agent UpdateRoutes") (trigger (AgCall conn (UpdateRoutesRequest routes) None)).
(* go: internal/runtime/kata/overlay/agentclient.go AgentClient.AddARPNeighbors *)
Definition AddARPNeighbors (conn : Z) (neighbors : list PbNeighbor) : prog SysE (option error) :=
  on_failure (wrap_prefix "agent AddARPNeighbors") (trigger (AgCall conn (AddARPNeighborsRequest neighbors) None)).
Definition overlay_agent (conn : Z) : guestNetAgent :=
  mkGuestNetAgent (UpdateInterface conn) (UpdateRoutes conn) (AddARPNeighbors conn).

(* go: internal/snapshotter/kata_agent_linux.go configureGuestNetwork *)
Definition configureGuestNetwork (ac : guestNetAgent) (slotID : Z) : prog SysE (option error) :=
  match guestNetForSlot slotID with
  | Err err => Ret (Some err)
  | Ok netCfg =>
      ok! on_failure (wrap_prefix "UpdateInterface") (ga_UpdateInterface ac
        (mkPbInterface (gn_Iface netCfg) (gn_Iface netCfg) [(gn_IP netCfg, gn_Mask netCfg)] 1500 (gn_MAC netCfg))) in
      ok! on_failure (wrap_prefix "UpdateRoutes") (ga_UpdateRoutes ac
        [mkPbRoute (gn_Subnet netCfg) "" (gn_Iface netCfg) 253; mkPbRoute "" (gn_Gateway netCfg) (gn_Iface netCfg) 0]) in
      ga_AddARPNeighbors ac [mkPbNeighbor (gn_Gateway netCfg) (gn_Iface netCfg) (gn_GatewayMAC netCfg) 128]
  end.

(** ** Commands *)

Definition postWaitAgentDrainGrace : Z := 5 * Second.

(** What a stream gave: the chunks of its reads, less one newline at the end. *)
(* go: internal/snapshotter/kata_agent_linux.go drainAgentStream *)
Definition drainAgentStream (conn : Z) (containerID execID : string) (stderr : bool) (grace : option Z) : prog SysE string :=
  call! chunks := trigger (AgReads conn containerID execID stderr 32768 grace) in
  Ret (TrimSuffix (strings_Join chunks "") nl).

(** The streams are read while the process runs; the wait for its end comes back first here, since
    nothing is done with the output before. When it fails the reads are cancelled, and otherwise
    they have a time limit to reach their end. The output that comes with a failure is read by no
    caller. *)
(* go: internal/snapshotter/kata_agent_linux.go execViaAgent *)
Definition execViaAgent (limit : option Z) (vsockPath containerID : string) (command : list string) : prog SysE (result ExecResult) :=
  if bool_decide (command = []) then Ret (Err (Plain "command is required"))
  else if empty containerID then Ret (Err (Plain "container id is required"))
  else
    let! conn := dialAgent limit vsockPath in
    deferred (agentClient_Close conn) (
      call! execID := trigger NewUUID in
      check! on_failure (wrap_prefix "ExecProcess")
        (trigger (AgCall conn (ExecProcessRequest containerID execID (kataExecProcess command)) limit)) in
      call! status := trigger (AgWaitProcess conn containerID execID limit) in
      let grace := match status with Ok _ => Some postWaitAgentDrainGrace | Err _ => Some 0%Z end in
      call! stdout := drainAgentStream conn containerID execID false grace in
      call! stderr := drainAgentStream conn containerID execID true grace in
      Ret (match status with
           | Err err => Err (wrap_prefix "WaitProcess" err)
           | Ok code => Ok (mkExecResult (wrap32 code) stdout stderr)
           end)).

(** A reader of a container's output: one call for each read, and any failure is the end. *)
(* go: internal/runtime/kata/overlay/agentclient.go StreamReader *)
Record StreamReader := mkStreamReader {
  sr_conn : Z;
  sr_containerID : string;
  sr_execID : string;
  sr_stderr : bool;
}.
(* go: internal/runtime/kata/overlay/agentclient.go NewStdioReader *)
Definition NewStdioReader (conn : Z) (containerID execID : string) (stderr : bool) : StreamReader :=
  mkStreamReader conn containerID execID stderr.
(* go: internal/runtime/kata/overlay/agentclient.go AgentClient.ReadStdout *)
Definition ReadStdout (conn : Z) (containerID execID : string) (max : Z) : prog SysE (result string) :=
  call! got := trigger (AgReadStream conn containerID execID false max) in
  Ret (match got with (data, None) => Ok data | (_, Some err) => Err err end).
(* go: internal/runtime/kata/overlay/agentclient.go AgentClient.ReadStderr *)
Definition ReadStderr (conn : Z) (containerID execID : string) (max : Z) : prog SysE (result string) :=
  call! got := trigger (AgReadStream conn containerID execID true max) in
  Ret (match got with (data, None) => Ok data | (_, Some err) => Err err end).
(** [None] is [io.EOF]; the data that does not fit the buffer of [n] bytes is dropped. *)
(* go: internal/runtime/kata/overlay/agentclient.go StreamReader.Read *)
Definition StreamReader_Read (r : StreamReader) (n : nat) : prog SysE (option string) :=
  let read := if sr_stderr r then ReadStderr else ReadStdout in
  call! data := read (sr_conn r) (sr_containerID r) (sr_execID r) (Z.of_nat n mod 2 ^ 32)%Z in
  Ret (match data with Ok data => Some (take_bytes n data) | Err _ => None end).

(** The debug console: a shell that echoes what it is sent, so that the mark of the end is split in
    the command and whole in its output. *)
Definition console_command (cmd : string) : string := "{ " +:+ cmd +:+ " ; } 2>&1; echo __ATE''_END__" +:+ nl.

(** The output: the lines before the mark. *)
(* go: internal/runtime/kata/overlay/agentclient.go 70-84 DebugConsoleDump *)
Fixpoint console_output (lines : list string) : string :=
  match lines with
  | [] => ""
  | line :: rest => if Contains line "__ATE_END__" then "" else line +:+ console_output rest
  end.

(* go: internal/runtime/kata/overlay/agentclient.go DebugConsoleDump *)
Definition DebugConsoleDump (vsockPath cmd : string) : prog SysE string :=
  call! conn := trigger (SockDial vsockPath (Some (8 * Second)%Z)) in
  match conn with
  | Err err => Ret ("debug-console dial: " +:+ error_text err)
  | Ok conn =>
      deferred (trigger (FdClose conn)) (
        call! sent := trigger (SockWrite conn ("CONNECT " +:+ itoa debugConsoleVsockPort +:+ nl) []) in
        match sent with
        | Some err => Ret ("debug-console CONNECT: " +:+ error_text err)
        | None =>
            call! reply := trigger (SockReadLine conn) in
            match reply with
            | Err err => Ret ("debug-console CONNECT reply: " +:+ error_text err)
            | Ok _ =>
                call! sent := trigger (SockWrite conn (console_command cmd) []) in
                match sent with
                | Some err => Ret ("debug-console write: " +:+ error_text err)
                | None => call! lines := trigger (SockReadLines conn) in Ret (console_output lines)
                end
            end
        end)
  end.

(** ** Containers in the guest (overlay_linux.go) *)

(* go: internal/runtime/kata/overlay/overlay_linux.go AgentClient.CreateSandboxForActor *)
Definition CreateSandboxForActor (conn : Z) (sandboxID hostname : string) (withDurableShare : bool) : prog SysE (option error) :=
  let share tag mountPoint := mkStorage virtioFSDriver [] tag typeVirtioFS [] mountPoint in
  CreateSandbox conn hostname sandboxID
    (share FsTag guestSharedDir :: (if withDurableShare then [share DurableFsTag guestDurableDir] else [])).

(** The root of a carrier is read-only: it only shows the lower layer at a stable path. *)
(* go: internal/runtime/kata/overlay/overlay_linux.go AgentClient.CreateCarrier *)
Definition CreateCarrier (conn : Z) (cid : string) (spec : OciSpec) : prog SysE (option error) :=
  let pbSpec := with_root (mkOciRoot (GuestSharedRootfs cid) true) ("/ateomchv/" +:+ cid +:+ "-carrier") <$> SpecToAgentPB (Some spec) in
  on_failure (wrap_prefix ("creating carrier container " +:+ quote cid)) (CreateContainer conn cid cid [] pbSpec).

(* go: internal/runtime/kata/overlay/overlay_linux.go 298-327 AgentClient.StartOverlayWorkload *)
Definition overlay_storages (cid workloadID upperBase : string) : list Storage :=
  let createDir := "io.katacontainers.volume.overlayfs.create_directory" in
  let base := "/run/kata-containers/" +:+ workloadID in
  let lower := base +:+ "/lower" in
  let upper := upperBase +:+ "/fs" in
  let work := upperBase +:+ "/work" in
  [mkStorage virtioFSDriver [] ("/run/kata-containers/" +:+ cid +:+ "/rootfs") "bind" ["bind"] lower;
   mkStorage "overlayfs" [createDir +:+ "=" +:+ upper; createDir +:+ "=" +:+ work] "overlay" "overlay"
     ["lowerdir=" +:+ lower; "upperdir=" +:+ upper; "workdir=" +:+ work] (base +:+ "/rootfs")].

(* go: internal/runtime/kata/overlay/overlay_linux.go AgentClient.StartOverlayWorkload *)
Definition StartOverlayWorkload (conn : Z) (cid workloadID upperBase : string) (spec : OciSpec) : prog SysE (option error) :=
  let ovlRoot := "/run/kata-containers/" +:+ workloadID +:+ "/rootfs" in
  let pbSpec := with_root (mkOciRoot ovlRoot false) ("/ateomchv/" +:+ workloadID) <$> SpecToAgentPB (Some spec) in
  ok! on_failure (wrap_prefix ("creating overlay workload " +:+ quote workloadID))
        (CreateContainer conn workloadID workloadID (overlay_storages cid workloadID upperBase) pbSpec) in
  on_failure (wrap_prefix ("starting overlay workload " +:+ quote workloadID)) (StartContainer conn workloadID).

(** ** The shared directory *)

Definition mountinfo_fields (mountinfo : string) : list (list string) := Fields <$> Split newline mountinfo.

(* go: internal/runtime/kata/overlay/overlay_linux.go pathIsMountpoint *)
Definition pathIsMountpoint (path : string) : prog SysE (result bool) :=
  let! b := trigger (FsReadFile "/proc/self/mountinfo") in
  Ret (Ok (existsb (fun fields => bool_decide (fields !! 4 = Some path)) (mountinfo_fields b))).

(* go: internal/runtime/kata/overlay/overlay_linux.go copyImageRootfs *)
Definition copyImageRootfs (src dst : string) : prog SysE (option error) :=
  call! ran := run_cmd None "cp" ["-a"; src +:+ "/."; dst] StderrBuffer in
  Ret (match ran with
       | (_, None) => None
       | (stderr, Some err) =>
           Some (Wrapf ("copying image rootfs " +:+ quote src +:+ " -> " +:+ quote dst +:+ ": " +:+ error_text (as_error err) +:+
                        " (" +:+ TrimSpace stderr +:+ ")") (as_error err))
       end).

(** A mount of an older Worker is taken away first, and never removed through. *)
(* go: internal/runtime/kata/overlay/overlay_linux.go ReconstructSharedDirFromImage *)
Definition ReconstructSharedDirFromImage (bundleRootfs restoreID cid : string) : prog SysE (option error) :=
  if empty cid then Ret (Some (Plain "ReconstructSharedDirFromImage: empty container id"))
  else
    let dst := path_Join [SharedDir restoreID; cid; "rootfs"] in
    call! unmounted := run_cmd None "umount" [dst] (ToFiles None None) in
    do! match unmounted.2 with
        | Some _ => ignore (run_cmd None "umount" ["-l"; dst] (ToFiles None None))
        | None => Ret tt
        end in
    call! mounted := pathIsMountpoint dst in
    match mounted with
    | Err err => Ret (Some (wrap_prefix ("checking mount " +:+ quote dst) err))
    | Ok true => Ret (Some (Plain ("shared rootfs " +:+ quote dst +:+ " still mounted after umount; refusing RemoveAll")))
    | Ok false =>
        ok! on_failure (wrap_prefix ("removing stale shared rootfs " +:+ quote dst)) (trigger (FsRemoveAll dst)) in
        ok! on_failure (wrap_prefix ("creating shared dir " +:+ quote dst)) (trigger (FsMkdirAll dst)) in
        ok! copyImageRootfs bundleRootfs dst in
        do! foldM (fun _ d => ignore (trigger (FsMkdirAll (path_Join [dst; d])))) tt ["proc"; "sys"; "dev"] in
        Ret None
    end.

(** ** The daemon that serves it *)

(** Any file at the path counts. *)
(* go: internal/runtime/kata/overlay/overlay_linux.go waitForSocket *)
Definition waitForSocket (path : string) (timeout : Z) : prog SysE (option error) :=
  call! r := wait_until timeout Millisecond (retrying (trigger (FsStat path)))
    (fun _ => Plain ("virtiofsd socket " +:+ quote path +:+ " did not appear within " +:+ seconds_text timeout)) in
  Ret (match r with Ok _ => None | Err err => Some err end).

(* go: internal/runtime/kata/overlay/overlay_linux.go StartVirtiofsd *)
Definition StartVirtiofsd (o : VirtiofsdOptions) : prog SysE (result Z) :=
  let bin := if empty (vo_Binary o) then "virtiofsd" else vo_Binary o in
  do! trigger (FsRemove (vo_SocketPath o)) in
  let! pid := on_error (wrap_prefix "starting virtiofsd")
    (trigger (ProcStart bin (virtiofsdArgs o) (ToFiles (Some (vo_Log o)) (Some (vo_Log o))))) in
  call! ready := waitForSocket (vo_SocketPath o) (10 * Second) in
  match ready with
  | Some err => do! trigger (ProcKill pid) in Ret (Err err)
  | None => Ret (Ok pid)
  end.

(** ** What a sandbox left on the host (cleanup_linux.go) *)

(* go: internal/runtime/kata/overlay/cleanup_linux.go 41-44 CleanupSandboxState *)
Definition sandbox_dirs (id : string) : list string := [path_Join [sandboxesDir; id]; path_Join [vcVMDir; id]].

(** The mount points at or below these directories, the longest path first. *)
(* go: internal/runtime/kata/overlay/cleanup_linux.go 46-61 CleanupSandboxState *)
Definition leftover_mounts (dirs : list string) (mountinfo : string) : list string :=
  sort_longest (omap (fun fields => mp ← fields !! 4;
      if existsb (fun d => bool_decide (mp = d) || HasPrefix mp (d +:+ "/")) dirs then Some mp else None)
    (mountinfo_fields mountinfo)).

Definition nul : ascii := Ascii.ascii_of_nat 0.
(** A process of the sandbox: its command line names the sandbox, its program is one of the two. *)
(* go: internal/runtime/kata/overlay/cleanup_linux.go 90-94 CleanupSandboxState *)
Definition orphan_of (id cmdline : string) : bool :=
  let argv0 := default "" (head (Split nul cmdline)) in
  Contains cmdline id && (Contains argv0 "cloud-hypervisor" || Contains argv0 "virtiofsd").

(* go: internal/runtime/kata/overlay/cleanup_linux.go 80-100 CleanupSandboxState *)
Definition kill_orphans (id : string) : prog SysE unit :=
  call! entries := trigger (FsReadDir "/proc") in
  match entries with
  | (_, Some _) => Ret tt
  | (entries, None) =>
      foldM (fun _ '(name, _) =>
        match ParseInt name 64 with
        | None => Ret tt
        | Some pid =>
            if (pid =? Getpid)%Z then Ret tt
            else
              call! cmdline := trigger (FsReadFile (path_Join ["/proc"; name; "cmdline"])) in
              match cmdline with
              | Ok cmdline => if orphan_of id cmdline then ignore (trigger (ProcKill pid)) else Ret tt
              | Err _ => Ret tt
              end
        end) tt entries
  end.

(* go: internal/runtime/kata/overlay/cleanup_linux.go CleanupSandboxState *)
Definition CleanupSandboxState (id : string) : prog SysE unit :=
  let dirs := sandbox_dirs id in
  call! b := trigger (FsReadFile "/proc/self/mountinfo") in
  do! match b with
      | Ok b => foldM (fun _ mp => ignore (trigger (MtUnmount mp))) tt (leftover_mounts dirs b)
      | Err _ => Ret tt
      end in
  do! foldM (fun _ d => ignore (trigger (FsRemoveAll d))) tt dirs in
  kill_orphans id.

(** ** Propagation of mounts (mountprop_linux.go) *)

(* go: internal/runtime/kata/overlay/mountprop_linux.go alreadySharedMount *)
Definition alreadySharedMount (path : string) : prog SysE bool :=
  call! b := trigger (FsReadFile "/proc/self/mountinfo") in
  Ret (match b with
       | Ok b => existsb (fun line => let fields := Fields line in
           (7 <=? length fields) && bool_decide (fields !! 4 = Some path) && Contains line "shared:") (Split newline b)
       | Err _ => false
       end).

(* go: internal/runtime/kata/overlay/mountprop_linux.go EnsureSharedPropagation *)
Definition EnsureSharedPropagation_ (path : string) : prog SysE (option error) :=
  if empty path then Ret (Some (Plain "EnsureSharedPropagation: empty path"))
  else
    ok! on_failure (wrap_prefix ("creating " +:+ quote path)) (trigger (FsMkdirAll path)) in
    call! shared := alreadySharedMount path in
    if (shared : bool) then Ret None
    else
      ok! on_failure (wrap_prefix ("self-binding " +:+ quote path)) (trigger (MtMount path path "" ["MS_BIND"] "")) in
      on_failure (wrap_prefix ("marking " +:+ quote path +:+ " rshared")) (trigger (MtMount "" path "" ["MS_SHARED"; "MS_REC"] "")).
End Guest.
