(* ===== verification/Kata.v ===== *)
(** * Kata micro-VMs (internal/snapshotter, internal/runtime/kata)

    The adapter that boots, checkpoints, restores and deletes self-managed virtual machines:
    kata.go, kata_instance.go, kata_virtiofs.go, kata_restore_linux.go, kata_coldboot_linux.go, and
    the Worker's runtime over it. An instance is a record on disk; a process is its number. *)

From S2P Require Import Prelude Prog Strings Slot Topology Json Runtime WorkerEnv AgentApi Host Snapshotters GVisor KataData Vmm Guest.

(** [defer] of an undoing that a failure triggers. *)
Definition undone_by {A} (undo : prog SysE unit) (p : prog SysE (result A)) : prog SysE (result A) :=
  call! r := p in
  match r with
  | Err err => do! undo in Ret (Err err)
  | Ok a => Ret (Ok a)
  end.

Section Kata.
Context {QA : QuantityApi} {HE : HostEnv} {JT : JsonText} {IA : ImageApi} {KL : KataLibs}.

(** ** The adapter (kata.go) *)

Fixpoint first_existing (values : list string) (fallback : string) : prog SysE string :=
  match values with
  | [] => Ret fallback
  | v :: rest =>
      if empty v then first_existing rest fallback
      else if negb (Contains v "/") then Ret v
      else
        call! st := trigger (FsStat v) in
        match st with
        | Ok DirectoryFile | Err _ => first_existing rest v
        | Ok _ => Ret v
        end
  end.
(* go: internal/snapshotter/snapshotter.go firstExistingPath *)
Definition firstExistingPath (values : list string) : prog SysE string := first_existing values "".

(* go: internal/snapshotter/kata.go NewKata *)
Definition NewKata : prog SysE kata :=
  call! virtiofsd := firstExistingPath [Getenv "SANDBOXFLEET_VIRTIOFSD_PATH"; "/opt/sandboxfleet/bin/virtiofsd";
    "/opt/kata/libexec/virtiofsd"; "/opt/kata/bin/virtiofsd"; "virtiofsd"] in
  Ret (mkKata
    (firstNonEmpty [Getenv "SANDBOXFLEET_CLOUD_HYPERVISOR_PATH"; "/opt/sandboxfleet/bin/cloud-hypervisor";
                    "/opt/kata/bin/cloud-hypervisor"; "cloud-hypervisor"])
    virtiofsd
    (firstNonEmpty [Getenv "SANDBOXFLEET_KATA_STATE_DIR"; "/var/lib/sandboxfleet/kata"])).

(* go: internal/snapshotter/kata.go Kata.FormatVersion *)
Definition FormatVersion (k : kata) : string := kataFormatVersion.
(* go: internal/snapshotter/kata.go Kata.TearsDownOnSave *)
Definition TearsDownOnSave (k : kata) : bool := true.
(** The snapshotter as the Worker's registry holds it. *)
Definition kata_snapshotter (k : kata) : Snapshotter := mkSnapshotter "kata" (FormatVersion k) (Some (TearsDownOnSave k)).

(* go: internal/snapshotter/kata.go kataAssetPaths *)
Definition kataAssetPaths : string * string * string :=
  (firstNonEmpty [Getenv "SANDBOXFLEET_KATA_KERNEL"; "/opt/kata/share/kata-containers/vmlinux.container"],
   firstNonEmpty [Getenv "SANDBOXFLEET_KATA_IMAGE"; "/opt/kata/share/kata-containers/kata-containers.img"],
   firstNonEmpty [Getenv "SANDBOXFLEET_KATA_CONFIG"; "/opt/kata/share/defaults/kata-containers/configuration-clh.toml"]).

(* go: internal/snapshotter/kata.go readKataBaseID *)
Definition readKataBaseID (snapshotDir : string) (meta : kataMeta) : prog SysE string :=
  call! raw := trigger (FsReadFile (path_Join [snapshotDir; kataBaseIDFile])) in
  Ret (match raw with
       | Ok raw => let v := TrimSpace raw in if empty v then km_BaseID meta else v
       | Err _ => km_BaseID meta
       end).

(* go: internal/snapshotter/kata.go readKataMeta *)
Definition readKataMeta (dir : string) : prog SysE (result kataMeta) :=
  let! raw := trigger (FsReadFile (path_Join [dir; kataMetaFile])) in
  Ret (Unmarshal_as raw).

(** ** JSON documents without a type

    An object read into a [map[string]any]: one value for each key, in the order in which the map
    is written back. *)

Fixpoint obj_set (k : string) (v : json) (m : list (string * json)) : list (string * json) :=
  match m with
  | [] => [(k, v)]
  | (k', v') :: m' =>
      match String.compare k k' with
      | Eq => (k, v) :: m'
      | Lt => (k, v) :: m
      | Gt => (k', v') :: obj_set k v m'
      end
  end.
Definition obj_get (k : string) (m : list (string * json)) : option json := snd <$> List.find (fun kv => bool_decide (kv.1 = k)) m.

Fixpoint any_of (j : json) : json :=
  match j with
  | JInt _ | JReal _ => any_number j
  | JArr l => JArr (map any_of l)
  | JObj fields => JObj (foldl (fun m kv => obj_set kv.1 kv.2 m) [] (map (fun '(k, v) => (k, any_of v)) fields))
  | _ => j
  end.

(** [None] is the nil map, which [null] leaves. *)
Definition Unmarshal_map (raw : string) : result (option (list (string * json))) :=
  match Unmarshal raw with
  | Err err => Err err
  | Ok JNull => Ok None
  | Ok j => match any_of j with JObj m => Ok (Some m) | _ => Err (Plain "json: cannot unmarshal") end
  end.
Definition str_field (k : string) (m : list (string * json)) : string :=
  match obj_get k m with Some (JStr s) => s | _ => "" end.

(* go: internal/snapshotter/kata.go 169-187 readNetDevicesFromConfig *)
Definition net_device (n : json) : option kataNetDevice :=
  match n with
  | JObj m =>
      let id := str_field "id" m in
      if empty id then None
      else Some (mkNetDevice id
        match obj_get "num_queues" m with
        | Some ((JInt _ | JReal _) as v) =>
            if (0 <? number_int v)%Z then let qp := (number_int v ÷ 2)%Z in if (qp <? 1)%Z then 1%Z else qp else 1%Z
        | _ => 1%Z
        end)
  | _ => None
  end.

(* go: internal/snapshotter/kata.go readNetDevicesFromConfig *)
Definition readNetDevicesFromConfig (configPath : string) : prog SysE (list kataNetDevice) :=
  call! raw := trigger (FsReadFile configPath) in
  Ret (match raw with
       | Ok raw =>
           match Unmarshal_map raw with
           | Ok (Some cfg) => match obj_get "net" cfg with Some (JArr nets) => omap net_device nets | _ => [] end
           | _ => []
           end
       | Err _ => []
       end).

(** ** Instances (kata_instance.go) *)

(* go: internal/snapshotter/kata_instance.go Kata.saveInstance *)
Definition saveInstance (k : kata) (inst : kataInstance) : prog SysE (option error) :=
  ok! trigger (FsMkdirAll (instancesDir k)) in
  trigger (FsWriteFile (instancePath k (ki_Name inst)) (json_text (enc inst))).

(* go: internal/snapshotter/kata_instance.go Kata.loadInstance *)
Definition loadInstance (k : kata) (name : string) : prog SysE (result kataInstance) :=
  let! raw := trigger (FsReadFile (instancePath k name)) in
  Ret (Unmarshal_as raw).

(* go: internal/snapshotter/kata_instance.go Kata.Instance *)
Definition Kata_Instance (k : kata) (id : ID) : prog SysE (result Instance_) :=
  match StripPrefix (id_Value id) kataIDPrefix with
  | None => Ret (Err (Plain ("not a kata runtime id: " +:+ quote (id_Value id))))
  | Some name =>
      call! inst := loadInstance k name in
      Ret (match inst with
           | Ok inst => Ok (exported inst)
           | Err err =>
               if IsNotExist err then Err (Wrapf (error_text ErrNotFound +:+ ": kata instance " +:+ quote name) ErrNotFound)
               else Err err
           end)
  end.

(* go: internal/snapshotter/kata_instance.go 78-85 Kata.Instances *)
Definition instance_names (entries : list (string * bool)) : list string :=
  sort_strings (omap (fun '(name, isDir) =>
    if (isDir : bool) || negb (HasSuffix name ".json") then None else Some (TrimSuffix name ".json")) entries).

(** A record that cannot be read is passed over. *)
(* go: internal/snapshotter/kata_instance.go Kata.Instances *)
Definition Instances (k : kata) : prog SysE (result (list Instance_)) :=
  call! entries := trigger (FsReadDir (instancesDir k)) in
  match entries with
  | (_, Some err) => Ret (if IsNotExist err then Ok [] else Err err)
  | (entries, None) =>
      call! out := foldM (fun out name =>
        call! inst := loadInstance k name in
        Ret (match inst with Ok inst => out ++ [exported inst] | Err _ => out end)) [] (instance_names entries) in
      Ret (Ok out)
  end.

(** ** Sockets and shares (kata_virtiofs.go) *)

(** The share recorded under the tag of a device, the last of several; else the one at its place. *)
(* go: internal/snapshotter/kata_virtiofs.go 35-40 rewriteRestoreSockets *)
Definition share_by_tag (metaShares : list virtiofsShare) (tag : string) : option virtiofsShare :=
  if empty tag then None else last (filter (fun s => vs_Tag s = tag) metaShares).

(* go: internal/snapshotter/kata_virtiofs.go 44-62 rewriteRestoreSockets *)
Fixpoint plan_fs (vmDir : string) (metaShares : list virtiofsShare) (i : nat) (fss : list json) :
    result (list json * list virtiofsShare) :=
  match fss with
  | [] => Ok ([], [])
  | JObj fm :: rest =>
      let tag := str_field "tag" fm in
      let socket := path_Join [vmDir; "virtiofsd-" +:+ itoa (Z.of_nat i) +:+ ".sock"] in
      let share := default (mkShare "" "" "") (match share_by_tag metaShares tag with Some s => Some s | None => metaShares !! i end) in
      match plan_fs vmDir metaShares (S i) rest with
      | Err err => Err err
      | Ok (fss', planned) =>
          Ok (JObj (obj_set "socket" (enc socket) fm) :: fss', mkShare tag (vs_SharedDir share) socket :: planned)
      end
  | _ :: _ => Err (Plain "malformed fs device in snapshot config")
  end.

Definition in_object (k : string) (f : list (string * json) -> list (string * json)) (cfg : list (string * json)) : list (string * json) :=
  match obj_get k cfg with Some (JObj m) => obj_set k (JObj (f m)) cfg | _ => cfg end.

(** The configuration of a checkpoint with the sockets of another directory, and its shares. *)
(* go: internal/snapshotter/kata_virtiofs.go 26-63 rewriteRestoreSockets *)
Definition rewrite_config (vmDir : string) (metaShares : list virtiofsShare) (cfg : list (string * json)) :
    result (list (string * json) * list virtiofsShare) :=
  let cfg := in_object "vsock" (obj_set "socket" (enc (path_Join [vmDir; "clh.sock"]))) cfg in
  let cfg := in_object "serial" (fun serial =>
    if bool_decide (str_field "mode" serial = "File") then obj_set "file" (enc (path_Join [vmDir; "serial.log"])) serial else serial) cfg in
  match obj_get "fs" cfg with
  | Some (JArr fss) =>
      match plan_fs vmDir metaShares 0 fss with
      | Err err => Err err
      | Ok (fss', planned) => Ok (obj_set "fs" (JArr fss') cfg, planned)
      end
  | _ => Ok (cfg, [])
  end.

(* go: internal/snapshotter/kata_virtiofs.go rewriteRestoreSockets *)
Definition rewriteRestoreSockets (snapshotDir vmDir : string) (metaShares : list virtiofsShare) : prog SysE (result (list virtiofsShare)) :=
  let cfgPath := path_Join [snapshotDir; "config.json"] in
  let! raw := trigger (FsReadFile cfgPath) in
  match Unmarshal_map raw with
  | Err err => Ret (Err err)
  | Ok cfg =>
      match rewrite_config vmDir metaShares (default [] cfg) with
      | Err err => Ret (Err err)
      | Ok (out, planned) =>
          check! trigger (FsWriteFile cfgPath (json_text (match cfg with Some _ => JObj out | None => JNull end))) in
          Ret (Ok planned)
      end
  end.

(* go: internal/snapshotter/kata_virtiofs.go dirExists *)
Definition dirExists (path : string) : prog SysE bool :=
  if empty path then Ret false
  else call! st := trigger (FsStat path) in Ret (match st with Ok DirectoryFile => true | _ => false end).

(* go: internal/snapshotter/kata_virtiofs.go waitSocketReady *)
Definition waitSocketReady (path : string) (deadline : Z) : prog SysE (option error) :=
  call! r := wait_until deadline (50 * Millisecond)
    (call! st := trigger (FsStat path) in
     Ret (match st with Ok DirectoryFile => inr (Plain "") | Ok _ => inl (Ok tt) | Err err => inr err end))
    (fun _ => Plain ("unix socket " +:+ quote path +:+ " did not appear within " +:+ seconds_text deadline)) in
  Ret (match r with Ok _ => None | Err err => Some err end).

(** ** Processes, files and taps (kata_restore_linux.go) *)

(* go: internal/snapshotter/kata_restore_linux.go killCmds *)
Definition killCmds (pids : list Z) : prog SysE unit := foldM (fun _ pid => ignore (trigger (ProcKill pid))) tt pids.
(* go: internal/snapshotter/kata_restore_linux.go closeFiles *)
Definition closeFiles (fds : list Z) : prog SysE unit := foldM (fun _ fd => ignore (trigger (FdClose fd))) tt fds.

Definition virtiofs_restore_args (share : virtiofsShare) : list string :=
  ["--socket-path=" +:+ vs_Socket share; "--shared-dir=" +:+ vs_SharedDir share; "--cache=always"; "--thread-pool-size=1";
   "--announce-submounts"; "--migration-mode"; "find-paths"; "--sandbox=none"].

(* go: internal/snapshotter/kata_restore_linux.go 456-502 Kata.startVirtiofsDaemons *)
Fixpoint start_daemons (k : kata) (vmDir : string) (i : nat) (shares : list virtiofsShare) (cmds : list Z) : prog SysE (result (list Z)) :=
  match shares with
  | [] => Ret (Ok cmds)
  | share :: rest =>
      if empty (vs_SharedDir share) || empty (vs_Socket share) then start_daemons k vmDir (S i) rest cmds
      else
        let fail err := do! killCmds cmds in Ret (Err err) in
        call! exists_ := dirExists (vs_SharedDir share) in
        if negb exists_ then fail (Plain ("virtiofs sharedDir " +:+ quote (vs_SharedDir share) +:+ " missing for restore"))
        else
          do! trigger (FsRemove (vs_Socket share)) in
          let logPath := path_Join [vmDir; "virtiofsd-" +:+ itoa (Z.of_nat i) +:+ ".log"] in
          call! opened := trigger (FsOpenFile logPath) in
          match opened with
          | Some err => fail (wrap_prefix "open virtiofsd log" err)
          | None =>
              call! started := trigger (ProcStart (kt_VirtiofsdPath k) (virtiofs_restore_args share) (ToFiles (Some logPath) (Some logPath))) in
              match started with
              | Err err =>
                  do! trigger (FsClose logPath) in
                  fail (wrap_prefix ("start virtiofsd for " +:+ quote (vs_SharedDir share)) err)
              | Ok pid =>
                  call! ready := waitSocketReady (vs_Socket share) (10 * Second) in
                  match ready with
                  | Some err =>
                      do! trigger (ProcKill pid) in
                      do! trigger (FsClose logPath) in
                      fail (wrap_prefix ("wait virtiofsd socket for " +:+ quote (vs_SharedDir share)) err)
                  | None =>
                      do! trigger (FsClose logPath) in
                      start_daemons k vmDir (S i) rest (cmds ++ [pid])
                  end
              end
          end
  end.
(* go: internal/snapshotter/kata_restore_linux.go Kata.startVirtiofsDaemons *)
Definition startVirtiofsDaemons (k : kata) (vmDir : string) (shares : list virtiofsShare) : prog SysE (result (list Z)) :=
  start_daemons k vmDir 0 shares [].

(** An interface request: its name in 16 bytes, and the flags of a tap without packet information. *)
(* go: internal/snapshotter/kata_restore_linux.go 554-595 openTapDeviceFDs *)
Fixpoint open_taps (queues : nat) (name : string) (flags : Z) (files : list Z) : prog SysE (result (list Z)) :=
  match queues with
  | O => Ret (Ok files)
  | S queues' =>
      call! f := trigger TunOpen in
      match f with
      | Err err => do! closeFiles files in Ret (Err (wrap_prefix "open /dev/net/tun" err))
      | Ok fd =>
          call! set := trigger (TunSetIff fd (take_bytes 16 name) flags) in
          match set with
          | Some errno =>
              do! trigger (FdClose fd) in
              do! closeFiles files in
              Ret (Err errno)
          | None => open_taps queues' name flags (files ++ [fd])
          end
      end
  end.
Definition iffTap : Z := 2.
Definition iffNoPI : Z := 4096.
Definition iffVnetHdr : Z := 16384.
Definition iffMultiQueue : Z := 256.
(* go: internal/snapshotter/kata_restore_linux.go openTapDeviceFDs *)
Definition openTapDeviceFDs (name : string) (queuePairs : Z) : prog SysE (result (list Z)) :=
  let queuePairs := if (queuePairs <? 1)%Z then 1%Z else queuePairs in
  let flags := Z.lor (Z.lor iffTap iffNoPI) iffVnetHdr in
  open_taps (Z.to_nat queuePairs) name (if (1 <? queuePairs)%Z then Z.lor flags iffMultiQueue else flags) [].

(* go: internal/snapshotter/kata_restore_linux.go attachTapToBridge *)
Definition attachTapToBridge (tapName : string) : prog SysE (option error) :=
  ok! on_failure (wrap_prefix ("tap " +:+ tapName +:+ " master " +:+ guestBridge)) (runIPCommand ["link"; "set"; tapName; "master"; guestBridge]) in
  on_failure (wrap_prefix ("tap " +:+ tapName +:+ " up")) (runIPCommand ["link"; "set"; tapName; "up"]).

(* go: internal/snapshotter/kata_restore_linux.go 521-526 createRestoreTaps *)
Definition tap_name (slotID i : Z) : string :=
  let name := "sft" +:+ itoa slotID +:+ "-" +:+ itoa i in
  if 15 <? String.length name then "s" +:+ itoa slotID +:+ "-" +:+ itoa i else name.

(* go: internal/snapshotter/kata_restore_linux.go 514-540 createRestoreTaps *)
Fixpoint create_taps (slotID : Z) (i : nat) (devs : list kataNetDevice) (nets : list RestoredNet) (files : list Z) :
    prog SysE (result (list RestoredNet * list Z)) :=
  match devs with
  | [] => Ret (Ok (nets, files))
  | d :: rest =>
      let qp := if (nd_QueuePairs d <? 1)%Z then 1%Z else nd_QueuePairs d in
      let tapName := tap_name slotID (Z.of_nat i) in
      call! opened := openTapDeviceFDs tapName qp in
      match opened with
      | Err err => do! closeFiles files in Ret (Err err)
      | Ok opened =>
          call! attached := attachTapToBridge tapName in
          match attached with
          | Some err =>
              do! closeFiles opened in
              do! closeFiles files in
              Ret (Err err)
          | None => create_taps slotID (S i) rest (nets ++ [mkRestoredNet (nd_ID d) opened]) (files ++ opened)
          end
      end
  end.
(** A file is its descriptor. *)
(* go: internal/snapshotter/kata_restore_linux.go createRestoreTaps *)
Definition createRestoreTaps (slotID : Z) (devs : list kataNetDevice) : prog SysE (result (list RestoredNet * list Z)) :=
  check! ensureSharedBridge in
  do! ensureOutboundNAT in
  create_taps slotID 0 devs [] [].

(** The last bytes of a log. *)
Definition last_bytes (n : Z) (s : string) : string := drop_bytes (Z.to_nat (len s - n)) s.

(* go: internal/snapshotter/kata_restore_linux.go 658-674 withCHLog *)
Definition log_tail (path : string) : prog SysE string :=
  call! data := trigger (FsReadFile path) in
  Ret (path_Base path +:+
       match data with
       | Err err => ": <unreadable: " +:+ error_text err +:+ ">"
       | Ok data => if empty data then ": <empty>" else ":" +:+ nl +:+ TrimSpace (last_bytes 8192 data)
       end).
(** An error with the tails of the monitor's logs, of which there is at least one here. *)
(* go: internal/snapshotter/kata_restore_linux.go withCHLog *)
Definition withCHLog (err : error) (flush : string) (paths : list string) : prog SysE error :=
  do! trigger (FsSync flush) in
  call! parts := foldM (fun parts path => call! part := log_tail path in Ret (parts ++ [part])) [] paths in
  Ret (Wrapf (error_text err +:+ "; cloud-hypervisor log tail:" +:+ nl +:+ strings_Join parts (nl +:+ "---" +:+ nl)) err).

(** One entry of the walk. *)
(* go: internal/snapshotter/kata_restore_linux.go 688-714 copyDir *)
Definition copy_entry (src dst rel : string) (isDir : bool) : prog SysE (option error) :=
  let target := path_Join [dst; rel] in
  if isDir then trigger (FsMkdirAll target)
  else
    ok! trigger (FsMkdirAll (path_Dir target)) in
    with_file id (path_Join [src; rel]) false (fun in_ =>
      ok! trigger (FsOpenFile target) in
      call! copied := trigger (FlCopyTo in_ target) in
      call! closed := trigger (FsClose target) in
      Ret (first_of copied closed)).
Fixpoint copy_entries (src dst : string) (entries : list (string * result bool)) : prog SysE (option error) :=
  match entries with
  | [] => Ret None
  | (_, Err err) :: _ => Ret (Some err)
  | (rel, Ok isDir) :: rest => ok! copy_entry src dst rel isDir in copy_entries src dst rest
  end.
(* go: internal/snapshotter/kata_restore_linux.go copyDir *)
Definition copyDir (src dst : string) : prog SysE (option error) :=
  call! entries := trigger (FsWalk src) in copy_entries src dst entries.

(* go: internal/snapshotter/kata_restore_linux.go placeSnapshotDir *)
Definition placeSnapshotDir (src dst : string) : prog SysE (option error) :=
  ok! trigger (FsMkdirAll (path_Dir dst)) in
  do! trigger (FsRemoveAll dst) in
  call! renamed := trigger (FsRename src dst) in
  match renamed with
  | None => Ret None
  | Some _ =>
      call! copied := copyDir src dst in
      match copied with
      | Some err => do! trigger (FsRemoveAll dst) in Ret (Some err)
      | None => Ret None
      end
  end.

(** ** Teardown *)


(* go: internal/snapshotter/kata_restore_linux.go Kata.teardownInstance *)
Definition teardownInstance (k : kata) (inst : kataInstance) : prog SysE unit :=
  do! (if empty (ki_APISocket inst) then Ret None else chClient_Shutdown (ki_APISocket inst)) in
  do! (if (0 <? ki_PID inst)%Z then trigger (ProcKill (ki_PID inst)) else Ret None) in
  do! (if empty (ki_BaseID inst) then Ret tt else CleanupSandboxState (ki_BaseID inst)) in
  do! teardownImageRootfs (ki_BundleDir inst) in
  do! (if empty (ki_BundleDir inst) then Ret None else trigger (FsRemoveAll (ki_BundleDir inst))) in
  if negb (empty (ki_VMDir inst)) && HasPrefix (ki_VMDir inst) (kt_StateDir k) then ignore (trigger (FsRemoveAll (ki_VMDir inst)))
  else Ret tt.

(** A record that cannot be read is no failure. *)
(* go: internal/snapshotter/kata_restore_linux.go Kata.DeleteRestored *)
Definition Kata_DeleteRestored (k : kata) (id : ID) : prog SysE (option error) :=
  match StripPrefix (id_Value id) kataIDPrefix with
  | None => Ret (Some (Plain ("not a kata runtime id: " +:+ quote (id_Value id))))
  | Some name =>
      call! inst := loadInstance k name in
      match inst with
      | Err _ => Ret None
      | Ok inst =>
          do! teardownInstance k inst in
          do! trigger (FsRemove (instancePath k name)) in
          Ret None
      end
  end.

(* go: internal/snapshotter/kata_restore_linux.go Kata.ExecRestored *)
Definition Kata_ExecRestored (k : kata) (id : ID) (req : ExecRequest) : prog SysE (result ExecResult) :=
  match StripPrefix (id_Value id) kataIDPrefix with
  | None => Ret (Err (Plain ("not a kata runtime id: " +:+ quote (id_Value id))))
  | Some name =>
      let! inst := loadInstance k name in
      let timeout := if (ex_Timeout req <=? 0)%Z then (60 * Second)%Z else ex_Timeout req in
      execViaAgent (Some timeout) (ki_VsockPath inst) (ki_ContainerID inst) (ex_Command req)
  end.

(** ** Checkpoint *)

(** A listing of the workload's files for the Worker's log. *)
(* go: internal/snapshotter/kata_restore_linux.go 143-157 logGuestAppFilesBeforePause *)
Definition pre_pause_script : string := raw "
set +e
echo `=== /app listing ===`
ls -la /app 2>&1
echo `=== /app *.txt ===`
for f in /app/*.txt; do
  [ -e `$f` ] || continue
  ls -la -- `$f` 2>&1
  wc -c -- `$f` 2>&1
done
echo `=== overlay upper /run/ateom-upper ===`
find /run/ateom-upper -type f 2>/dev/null | head -50 | while IFS= read -r p; do
  ls -la -- `$p` 2>&1
  wc -c -- `$p` 2>&1
done
".
(* go: internal/snapshotter/kata_restore_linux.go logGuestAppFilesBeforePause *)
Definition logGuestAppFilesBeforePause (limit : option Z) (vsockPath containerID : string) : prog SysE unit :=
  ignore (execViaAgent limit vsockPath containerID ["sh"; "-c"; pre_pause_script]).

(* go: internal/snapshotter/kata_restore_linux.go syncGuestBeforeCheckpoint *)
Definition syncGuestBeforeCheckpoint (vsockPath containerID : string) : prog SysE (option error) :=
  if empty vsockPath || empty containerID then Ret (Some (Plain "vsockPath and containerID are required"))
  else
    let limit := Some (30 * Second)%Z in
    do! logGuestAppFilesBeforePause limit vsockPath containerID in
    call! result := execViaAgent limit vsockPath containerID ["sync"] in
    Ret (match result with
         | Err err => Some err
         | Ok r => if (xr_ExitCode r =? 0)%Z then None
                   else Some (Plain ("sync exit " +:+ itoa (xr_ExitCode r) +:+ " stderr=" +:+ TrimSpace (xr_Stderr r)))
         end).

(** How much of the memory image is holes, for the Worker's log. *)
(* go: internal/snapshotter/kata_restore_linux.go 186-197 logMemoryRangesExtentStats *)
Fixpoint extent_stats (rounds : nat) (fd logical off data : Z) : prog SysE Z :=
  if (off <? logical)%Z then
    match rounds with
    | O => Ret data
    | S rounds' =>
        call! ds := trigger (FlSeekData fd off) in
        match ds with
        | Err _ => Ret data
        | Ok ds =>
            call! de := trigger (FlSeekHole fd ds) in
            match de with
            | Err _ => Ret data
            | Ok de => extent_stats rounds' fd logical de (data + (de - ds))
            end
        end
    end
  else Ret data.
(* go: internal/snapshotter/kata_restore_linux.go logMemoryRangesExtentStats *)
Definition logMemoryRangesExtentStats (path : string) : prog SysE unit :=
  call! fi := trigger (FlSize path) in
  match fi with
  | Err _ => Ret tt
  | Ok logical =>
      call! f := trigger (FlOpen path false) in
      match f with
      | Err _ => Ret tt
      | Ok fd => deferred (trigger (FdClose fd)) (ignore (extent_stats (Z.to_nat logical) fd logical 0 0))
      end
  end.

(** A restored machine's image holds what it changed; the rest is in the image it came from. *)
(* go: internal/snapshotter/kata_restore_linux.go 73-83 Kata.saveSelfManagedSnapshot *)
Definition merge_restore_source (snapshotDir destDir : string) : prog SysE (option error) :=
  if empty snapshotDir then Ret None
  else
    let base := path_Join [snapshotDir; MemoryRangesFile] in
    let delta := path_Join [destDir; MemoryRangesFile] in
    call! st := trigger (FsStat base) in
    match st with
    | Ok _ => on_failure (wrap_prefix "merge nested memory-ranges") (MergeDeltaIntoBase base delta)
    | Err _ => Ret None
    end.

(* go: internal/snapshotter/kata_restore_linux.go 96-105 Kata.saveSelfManagedSnapshot *)
Definition checkpoint_meta (req : SaveRequest) (inst : kataInstance) (containerID baseID : string) (nets : list kataNetDevice)
    (savedAt : string) : kataMeta :=
  mkMeta (id_Value (sv_ID req)) containerID (firstNonEmpty [sv_AppImage req; ki_AppImage inst])
    (kataStableCarrierName containerID (sv_AppContainerName req)) baseID
    [mkShare FsTag (SharedDir baseID) ""] nets savedAt.

(** What is written beside the machine's own files. *)
(* go: internal/snapshotter/kata_restore_linux.go 84-112 Kata.saveSelfManagedSnapshot *)
Definition write_checkpoint_meta (req : SaveRequest) (inst : kataInstance) (containerID baseID : string) : prog SysE (option error) :=
  ok! on_failure (wrap_prefix ("write " +:+ kataBaseIDFile)) (trigger (FsWriteFile (path_Join [sv_DestDir req; kataBaseIDFile]) baseID)) in
  call! nets := readNetDevicesFromConfig (path_Join [sv_DestDir req; "config.json"]) in
  call! now := trigger TmNow in
  trigger (FsWriteFile (path_Join [sv_DestDir req; kataMetaFile])
    (MarshalIndent (enc (checkpoint_meta req inst containerID baseID nets now)))).

(** The checkpoint of an instance; the machine is taken down when everything is on disk. *)
(* go: internal/snapshotter/kata_restore_linux.go 44-118 Kata.saveSelfManagedSnapshot *)
Definition checkpoint_instance (k : kata) (req : SaveRequest) (name : string) (inst : kataInstance) : prog SysE (option error) :=
  let containerID := firstNonEmpty [ki_ContainerID inst; sv_ContainerID req] in
  if empty containerID then Ret (Some (Plain ("kata instance " +:+ quote name +:+ " has empty containerID")))
  else
    let baseID := firstNonEmpty [ki_BaseID inst; name] in
    ok! trigger (FsMkdirAll (sv_DestDir req)) in
    do! syncGuestBeforeCheckpoint (ki_VsockPath inst) containerID in
    ok! on_failure (wrap_prefix "pause vm") (chClient_Pause (ki_APISocket inst)) in
    ok! on_failure (wrap_prefix "snapshot vm") (chClient_Snapshot (ki_APISocket inst) (sv_DestDir req)) in
    do! logMemoryRangesExtentStats (path_Join [sv_DestDir req; MemoryRangesFile]) in
    ok! merge_restore_source (ki_SnapshotDir inst) (sv_DestDir req) in
    ok! write_checkpoint_meta req inst containerID baseID in
    do! teardownInstance k inst in
    Ret None.

(* go: internal/snapshotter/kata_restore_linux.go Kata.saveSelfManagedSnapshot *)
Definition saveSelfManagedSnapshot (k : kata) (req : SaveRequest) : prog SysE (option error) :=
  match StripPrefix (id_Value (sv_ID req)) kataIDPrefix with
  | None => Ret (Some (Plain ("not a kata runtime id: " +:+ quote (id_Value (sv_ID req)))))
  | Some name =>
      call! inst := on_error (wrap_prefix ("read kata instance " +:+ quote name)) (loadInstance k name) in
      match inst with
      | Err err => Ret (Some err)
      | Ok inst => checkpoint_instance k req name inst
      end
  end.

(* go: internal/snapshotter/kata.go Kata.SaveSnapshot *)
Definition Kata_SaveSnapshot (k : kata) (req : SaveRequest) : prog SysE (option error) :=
  if empty (id_Value (sv_ID req)) then Ret (Some (Plain "runtime id is required"))
  else if negb (HasPrefix (id_Value (sv_ID req)) kataIDPrefix) then
    Ret (Some (Plain ("kata snapshotter only checkpoints self-managed ids (" +:+ quote kataIDPrefix +:+ " prefix), got " +:+ quote (id_Value (sv_ID req)))))
  else saveSelfManagedSnapshot k req.

(** ** Restore *)

(** What happened to a machine that was started: whether it is given up, and the answer. *)
Definition boot_result : Type := (bool * result ID)%type.
Definition given_up (err : error) : boot_result := (true, Err err).

(* go: internal/snapshotter/kata_restore_linux.go 358-373 Kata.LoadSnapshot *)
Definition restored_instance (req : LoadRequest) (meta : kataMeta) (name vmDir bundle baseID appImage : string) (pid : Z) : kataInstance :=
  let identity := ld_Identity req in
  mkInstance name (id_Namespace identity) (id_Name identity) (id_UID identity) (ld_SlotID req) vmDir
    (path_Join [vmDir; "clh-api.sock"]) (path_Join [vmDir; "clh.sock"]) (path_Join [vmDir; "snapshot"])
    (km_ContainerID meta) baseID appImage bundle pid.

(** The agent of a machine that runs: when it does not answer, the machine is deleted again. *)
(* go: internal/snapshotter/kata_restore_linux.go 379-389 Kata.LoadSnapshot *)
Definition await_agent (k : kata) (vsockPath name : string) (slotID : Z) : prog SysE (result ID) :=
  let restoredID := mkID (kataIDPrefix +:+ name) in
  call! ac := dialAgentRetry vsockPath (45 * Second) in
  match ac with
  | Err err =>
      do! Kata_DeleteRestored k restoredID in
      Ret (Err (wrap_prefix "wait kata-agent" err))
  | Ok ac =>
      do! configureGuestNetwork (local_agent ac) slotID in
      do! agentClient_Close ac in
      Ret (Ok restoredID)
  end.

(** A monitor that was started: the machine is restored into it, resumed, and recorded. *)
(* go: internal/snapshotter/kata_restore_linux.go 331-389 Kata.LoadSnapshot *)
Definition resume_machine (k : kata) (apiSocket snapDir chErrPath chLogPath : string) (nets : list RestoredNet)
    (inst : kataInstance) : prog SysE boot_result :=
  let fail (err : error) : prog SysE boot_result :=
    do! trigger (FsSync chErrPath) in
    call! err := withCHLog err chErrPath [chLogPath; chErrPath] in Ret (given_up err) in
  call! ready := chClient_WaitReady apiSocket (30 * Second) in
  match ready with
  | Some err => fail err
  | None =>
      call! restored := restoreVMWithNetworkFDs apiSocket kataVMRestoreTimeout snapDir nets "Copy" in
      match restored with
      | Some err => fail (wrap_prefix "vm.restore" err)
      | None =>
          call! resumed := chClient_Resume apiSocket in
          match resumed with
          | Some err => fail (wrap_prefix "resume restored vm" err)
          | None =>
              call! saved := saveInstance k inst in
              match saved with
              | Some err => Ret (given_up err)
              | None =>
                  call! r := await_agent k (ki_VsockPath inst) (ki_Name inst) (ki_SlotID inst) in
                  Ret (false, r)
              end
          end
      end
  end.

(** The monitor and what it needs of the host. *)
(* go: internal/snapshotter/kata_restore_linux.go 293-389 Kata.LoadSnapshot *)
Definition boot_restored (k : kata) (req : LoadRequest) (meta : kataMeta) (name vmDir bundle snapDir baseID appImage : string) :
    prog SysE boot_result :=
  call! taps := createRestoreTaps (ld_SlotID req) (km_NetDevices meta) in
  match taps with
  | Err err => Ret (given_up err)
  | Ok (nets, tapFiles) =>
      deferred (closeFiles tapFiles) (
      let apiSocket := path_Join [vmDir; "clh-api.sock"] in
      let chLogPath := path_Join [vmDir; "cloud-hypervisor.log"] in
      let chErrPath := path_Join [vmDir; "cloud-hypervisor.stderr.log"] in
      call! opened := trigger (FsOpenFile chErrPath) in
      match opened with
      | Some err => Ret (given_up (wrap_prefix "open cloud-hypervisor stderr log" err))
      | None =>
          deferred (trigger (FsClose chErrPath)) (
          do! trigger (FsStat (path_Join [snapDir; "memory-ranges"])) in
          call! started := trigger (ProcStart (kt_CloudHypervisorPath k)
            ["-vv"; "--log-file"; chLogPath; "--api-socket"; apiSocket] (ToFiles None (Some chErrPath))) in
          match started with
          | Err err => Ret (given_up (wrap_prefix "start cloud-hypervisor" err))
          | Ok pid =>
              call! r := resume_machine k apiSocket snapDir chErrPath chLogPath nets
                (restored_instance req meta name vmDir bundle baseID appImage pid) in
              do! (if (fst r : bool) then ignore (trigger (ProcKill pid)) else Ret tt) in
              Ret r
          end)
      end)
  end.

(** The shares of the machine: the directory of this sandbox for the shared tag, and for a device of
    which no directory is known. *)
(* go: internal/snapshotter/kata_restore_linux.go 274-278 Kata.LoadSnapshot *)
Definition own_share (baseID : string) (s : virtiofsShare) : virtiofsShare :=
  if isKataSharedTag (vs_Tag s) || empty (vs_SharedDir s) then mkShare (vs_Tag s) (SharedDir baseID) (vs_Socket s) else s.

(* go: internal/snapshotter/kata_restore_linux.go 247-251 Kata.LoadSnapshot *)
Definition drop_bundle (bundle vmDir : string) : prog SysE unit :=
  do! teardownImageRootfs bundle in
  do! trigger (FsRemoveAll bundle) in
  ignore (trigger (FsRemoveAll vmDir)).

(** The lower layer of the guest's root file system, at the path its handles are pinned to. *)
(* go: internal/snapshotter/kata_restore_linux.go 255-267 Kata.LoadSnapshot *)
Definition stage_rootfs (image bundle baseID carrierID : string) : prog SysE (option error) :=
  let bundleRootfs := path_Join [bundle; "rootfs"] in
  ok! on_failure (wrap_prefix ("compose rootfs for " +:+ quote image)) (setupImageRootfs image bundle) in
  ok! on_failure (wrap_prefix "write guest resolv.conf")
        (trigger (FsWriteFile (path_Join [bundleRootfs; "etc"; "resolv.conf"]) gvisorRestoreResolvConf)) in
  on_failure (wrap_prefix "stage overlay lower") (ReconstructSharedDirFromImage bundleRootfs baseID carrierID).

(* go: internal/snapshotter/kata_restore_linux.go 247-389 Kata.LoadSnapshot *)
Definition restore_machine (k : kata) (req : LoadRequest) (meta : kataMeta) (name vmDir bundle snapDir baseID appImage carrierID : string) :
    prog SysE (result ID) :=
  let fail (err : error) : prog SysE (result ID) := do! drop_bundle bundle vmDir in Ret (Err err) in
  call! staged := stage_rootfs appImage bundle baseID carrierID in
  match staged with
  | Some err => fail err
  | None =>
      call! planned := rewriteRestoreSockets snapDir vmDir (km_VirtiofsShares meta) in
      match planned with
      | Err err => fail err
      | Ok planned =>
          call! daemons := startVirtiofsDaemons k vmDir (own_share baseID <$> planned) in
          match daemons with
          | Err err => fail err
          | Ok vfsdCmds =>
              call! r := boot_restored k req meta name vmDir bundle snapDir baseID appImage in
              do! (if (fst r : bool) then do! killCmds vfsdCmds in drop_bundle bundle vmDir else Ret tt) in
              Ret r.2
          end
      end
  end.

(* go: internal/snapshotter/kata_restore_linux.go Kata.LoadSnapshot *)
Definition Kata_LoadSnapshot (k : kata) (req : LoadRequest) : prog SysE (result ID) :=
  if empty (ld_SourceDir req) then Ret (Err (Plain "source dir is required"))
  else
    let! meta := on_error (wrap_prefix "read snapshot meta") (readKataMeta (ld_SourceDir req)) in
    if empty (km_ContainerID meta) then Ret (Err (Plain "snapshot meta missing containerID"))
    else
      let name := RestoredName (ld_Identity req) in
      let vmDir := path_Join [kt_StateDir k; name] in
      let bundle := bundleDir k name in
      do! teardownImageRootfs bundle in
      do! trigger (FsRemoveAll vmDir) in
      check! trigger (FsMkdirAll vmDir) in
      let snapDir := path_Join [vmDir; "snapshot"] in
      let fail (err : error) : prog SysE (result ID) := do! trigger (FsRemoveAll vmDir) in Ret (Err err) in
      call! placed := placeSnapshotDir (ld_SourceDir req) snapDir in
      match placed with
      | Some err => fail (wrap_prefix "place snapshot" err)
      | None =>
          call! baseID := readKataBaseID snapDir meta in
          let appImage := firstNonEmpty [km_AppImage meta; ld_AppImage req] in
          let carrierID := kataCarrierID meta in
          if empty baseID then
            fail (Plain ("snapshot has no " +:+ kataBaseIDFile +:+ " (base sandbox id) — retake it with a current Worker"))
          else if empty appImage then fail (Plain "snapshot meta missing appImage (needed to rebuild the rootfs lower)")
          else if empty carrierID then fail (Plain "snapshot meta missing appContainerName")
          else restore_machine k req meta name vmDir bundle snapDir baseID appImage carrierID
      end.

(** ** Cold boot (kata_coldboot_linux.go, kata_exec.go, kata_network_diag_linux.go) *)

(** The program's path in the guest: the first directory of the search path that has a file of its
    name below the root file system. *)
(* go: internal/snapshotter/kata_exec.go 30-42 resolveKataArgv0 *)
Fixpoint search_path (rootfs argv0 : string) (dirs : list string) : prog SysE (option string) :=
  match dirs with
  | [] => Ret None
  | dir :: rest =>
      if empty dir then search_path rootfs argv0 rest
      else
        call! st := trigger (FsStat (path_Join [rootfs; TrimPrefix dir "/"; argv0])) in
        match st with
        | Ok DirectoryFile | Err _ => search_path rootfs argv0 rest
        | Ok _ => Ret (Some (dir +:+ "/" +:+ argv0))
        end
  end.
(* go: internal/snapshotter/kata_exec.go resolveKataArgv0 *)
Definition resolveKataArgv0 (rootfs : string) (args : list string) : prog SysE (list string) :=
  match args with
  | argv0 :: rest =>
      if empty rootfs || empty argv0 || IsAbs argv0 then Ret args
      else
        call! found := search_path rootfs argv0 (Split ":"%char (TrimPrefix kataDefaultPATH "PATH=")) in
        Ret (match found with Some p => p :: rest | None => args end)
  | [] => Ret args
  end.

(* go: internal/snapshotter/kata_coldboot_linux.go kataWorkloadSpec *)
Definition kataWorkloadSpec (req : CreateRequest) (bundleRootfs : string) : prog SysE OciSpec :=
  let args := cc_Command (cr_Container req) ++ cc_Args (cr_Container req) in
  call! resolved := resolveKataArgv0 bundleRootfs args in
  Ret (workload_spec req resolved).

Definition process_args (spec : OciSpec) : list string := match oc_Process spec with Some p => op_Args p | None => [] end.
Definition process_cwd (spec : OciSpec) : string :=
  match oc_Process spec with Some p => if empty (op_Cwd p) then "/" else op_Cwd p | None => "/" end.

(* go: internal/snapshotter/kata_coldboot_linux.go logCarrierStagingDiag *)
Definition logCarrierStagingDiag (vsockPath baseID carrierID vmDir : string) (spec : OciSpec) : prog SysE unit :=
  let args := process_args spec in
  do! run_cmd None "sh" ["-c"; hostStagingCmd (SharedDir baseID) carrierID args] CombinedBuffer in
  do! DebugConsoleDump vsockPath (guestCarrierSharedDebugCmd carrierID args (process_cwd spec)) in
  ignore (trigger (FsReadFile (path_Join [vmDir; "virtiofsd.log"]))).

Definition createCarrierAttempts : nat := 15.

(** [left]: the attempts that remain after this one. *)
(* go: internal/snapshotter/kata_coldboot_linux.go 400-429 createCarrierWithRetry *)
Fixpoint create_carrier (left : nat) (first : bool) (conn : Z) (vsockPath carrierID : string) (spec : OciSpec) : prog SysE (option error) :=
  call! created := CreateCarrier conn carrierID spec in
  match created with
  | None => Ret None
  | Some last =>
      if negb (kataErrLooksLikeENOENT last) then Ret (Some last)
      else
        do! (if first then ignore (DebugConsoleDump vsockPath (guestCarrierSharedDebugCmd carrierID (process_args spec) (process_cwd spec)))
             else Ret tt) in
        match left with
        | O => Ret (Some last)
        | S left' =>
            call! ended := trigger (TmPause (200 * Millisecond)) in
            match ended with
            | Some err => Ret (Some (Wrapf ("create carrier " +:+ quote carrierID +:+ ": " +:+ error_text err +:+
                                            " (last: " +:+ error_text last +:+ ")") err))
            | None => create_carrier left' false conn vsockPath carrierID spec
            end
        end
  end.
(* go: internal/snapshotter/kata_coldboot_linux.go createCarrierWithRetry *)
Definition createCarrierWithRetry (conn : Z) (vsockPath carrierID : string) (spec : OciSpec) : prog SysE (option error) :=
  create_carrier (createCarrierAttempts - 1) true conn vsockPath carrierID spec.

(* go: internal/snapshotter/kata_coldboot_linux.go logKataBootDiagnostics *)
Definition logKataBootDiagnostics (paths : list string) : prog SysE unit :=
  foldM (fun _ path => ignore (trigger (FsReadFile path))) tt paths.

(* go: internal/snapshotter/kata_network_diag_linux.go writeKataBridgeDiag *)
Definition writeKataBridgeDiag (path : string) (slotID : Z) : prog SysE (option error) :=
  match guestNetForSlot slotID with
  | Err err => Ret (Some err)
  | Ok netCfg =>
      call! b := foldM (fun b '(title, command) => diag b title command)
        ("slot=" +:+ itoa slotID +:+ " guest_ip=" +:+ gn_IP netCfg +:+ "/" +:+ gn_Mask netCfg +:+ " gw=" +:+ gn_Gateway netCfg +:+
         " gw_mac=" +:+ gn_GatewayMAC netCfg +:+ nl)
        [("ip_forward", ["cat"; "/proc/sys/net/ipv4/ip_forward"]); ("bridge_link", ["ip"; "link"; "show"; guestBridge]);
         ("bridge_addr", ["ip"; "addr"; "show"; guestBridge]); ("host_route", ["ip"; "route"]);
         ("iptables_forward", ["iptables"; "-S"; "FORWARD"]); ("iptables_nat", ["iptables"; "-t"; "nat"; "-S"; "POSTROUTING"])] in
      trigger (FsWriteFile path b)
  end.

Definition guestNetworkDebugCmd : string :=
  "ip addr 2>&1; echo '== route =='; ip route 2>&1; echo '== resolv =='; cat /etc/resolv.conf 2>&1".
(* go: internal/snapshotter/kata_network_diag_linux.go logKataGuestNetworkDiag *)
Definition logKataGuestNetworkDiag (vsockPath diagPath : string) (slotID : Z) : prog SysE unit :=
  do! DebugConsoleDump vsockPath guestNetworkDebugCmd in
  ignore (writeKataBridgeDiag diagPath slotID).

Definition coldBootNetID : string := "_net0".
Definition coldBootAgentTimeout : Z := 90 * Second.

(* go: internal/snapshotter/kata_coldboot_linux.go 199-213 Kata.ColdBoot *)
Definition booted_instance (req : CreateRequest) (name vmDir bundle baseID : string) (pid : Z) : kataInstance :=
  let identity := cr_Identity req in
  mkInstance name (id_Namespace identity) (id_Name identity) (id_UID identity) (cr_SlotID req) vmDir
    (path_Join [vmDir; "clh-api.sock"]) (VsockSocketPath baseID) "" (kataOverlayWorkloadID (id_Name identity)) baseID
    (cc_Image (cr_Container req)) bundle pid.

(** The sandbox inside a guest whose agent answers. *)
(* go: internal/snapshotter/kata_coldboot_linux.go 173-197 Kata.ColdBoot *)
Definition start_workload (req : CreateRequest) (ac : Z) (vmDir vsockPath bundleRootfs baseID : string) : prog SysE (option error) :=
  let carrierID := id_Name (cr_Identity req) in
  let diagPath := path_Join [vmDir; "net.diag.txt"] in
  ok! CreateSandboxForActor ac baseID carrierID false in
  call! configured := configureGuestNetwork (overlay_agent ac) (cr_SlotID req) in
  match configured with
  | Some err =>
      do! logKataGuestNetworkDiag vsockPath diagPath (cr_SlotID req) in
      Ret (Some (wrap_prefix "configure guest network" err))
  | None =>
      do! writeKataBridgeDiag diagPath (cr_SlotID req) in
      call! spec := kataWorkloadSpec req bundleRootfs in
      call! carrier := createCarrierWithRetry ac vsockPath carrierID spec in
      match carrier with
      | Some err => do! logCarrierStagingDiag vsockPath baseID carrierID vmDir spec in Ret (Some err)
      | None => StartOverlayWorkload ac carrierID (kataOverlayWorkloadID carrierID) (OverlayUpperBase carrierID) spec
      end
  end.

(** From a guest that was booted to a record of the instance. *)
(* go: internal/snapshotter/kata_coldboot_linux.go 159-218 Kata.ColdBoot *)
Definition enter_guest (k : kata) (req : CreateRequest) (name vmDir bundle baseID serialLog : string) (pid : Z) : prog SysE (result ID) :=
  let vsockPath := VsockSocketPath baseID in
  let dead (what : string) (err : error) : prog SysE (result ID) :=
    do! logKataBootDiagnostics [serialLog; path_Join [vmDir; "virtiofsd.log"]] in Ret (Err (wrap_prefix what err)) in
  call! ready := waitSocketReady vsockPath (30 * Second) in
  match ready with
  | Some err => dead "kata-agent vsock socket" err
  | None =>
      call! ac := dialOverlayAgentRetry vsockPath coldBootAgentTimeout in
      match ac with
      | Err err => dead "dial kata-agent" err
      | Ok ac =>
          deferred (AgentClient_Close ac) (
            check! start_workload req ac vmDir vsockPath (path_Join [bundle; "rootfs"]) baseID in
            check! saveInstance k (booted_instance req name vmDir bundle baseID pid) in
            Ret (Ok (mkID (kataIDPrefix +:+ name))))
      end
  end.

(** The machine in a monitor that answers. *)
(* go: internal/snapshotter/kata_coldboot_linux.go 136-218 Kata.ColdBoot *)
Definition boot_machine (k : kata) (req : CreateRequest) (cfg : KataConfig) (name vmDir bundle baseID apiSocket : string) (pid : Z) :
    prog SysE (result ID) :=
  let '(kernel, image, _) := kataAssetPaths in
  let serialLog := path_Join [vmDir; "serial.log"] in
  check! CreateVM apiSocket (kataBootVMConfig baseID kernel image (WithDebugConsole (kc_KernelParams cfg)) serialLog
                               (kc_MemoryMiB cfg) (kc_VCPUs cfg)) in
  let! netCfg := Ret (guestNetForSlot (cr_SlotID req)) in
  let! taps := createRestoreTaps (cr_SlotID req) [mkNetDevice coldBootNetID 1] in
  deferred (closeFiles taps.2) (
    let fds := match taps.1 with n :: _ => rn_FDs n | [] => [] end in
    check! AddNetWithFDs apiSocket None (gn_MAC netCfg) (2 * Z.of_nat (length fds)) fds in
    check! BootVM apiSocket in
    enter_guest k req name vmDir bundle baseID serialLog pid).

(** The processes of the machine: the daemon of its shared directory and its monitor. *)
(* go: internal/snapshotter/kata_coldboot_linux.go 80-218 Kata.ColdBoot *)
Definition launch_machine (k : kata) (req : CreateRequest) (name vmDir bundle baseID : string) : prog SysE (result ID) :=
  let vfsdLog := path_Join [vmDir; "virtiofsd.log"] in
  check! on_failure (wrap_prefix "open virtiofsd log") (trigger (FsOpenFile vfsdLog)) in
  deferred (trigger (FsClose vfsdLog)) (
    let! vfsd := on_error (wrap_prefix "start virtiofsd")
      (StartVirtiofsd (mkVirtiofsdOptions (kt_VirtiofsdPath k) (VirtiofsdSocketPath baseID) (SharedDir baseID) "" vfsdLog)) in
    undone_by (killCmds [vfsd]) (
      let '(_, _, configPath) := kataAssetPaths in
      call! cfgBytes := trigger (FsReadFile configPath) in
      let! cfg := Ret (ParseConfig (match cfgBytes with Ok b => b | Err _ => "" end) kataDefaultMemoryMiB kataDefaultVCPUs) in
      let apiSocket := path_Join [vmDir; "clh-api.sock"] in
      let chLog := path_Join [vmDir; "cloud-hypervisor.log"] in
      check! on_failure (wrap_prefix "open cloud-hypervisor log") (trigger (FsOpenFile chLog)) in
      deferred (trigger (FsClose chLog)) (
        let! ch := on_error (wrap_prefix "launch cloud-hypervisor") (LaunchVMM (mkLaunch (kt_CloudHypervisorPath k) apiSocket chLog)) in
        undone_by (do! trigger (ProcKill ch) in ignore (trigger (ProcWait ch)))
          (boot_machine k req cfg name vmDir bundle baseID apiSocket ch)))).

(* go: internal/snapshotter/kata_coldboot_linux.go Kata.ColdBoot *)
Definition ColdBoot (k : kata) (req : CreateRequest) : prog SysE (result ID) :=
  let container := cr_Container req in
  if empty (cc_Image container) then Ret (Err (Plain "container image is required"))
  else if bool_decide (cc_Command container = []) && bool_decide (cc_Args container = []) then
    Ret (Err (Plain "container command is required (image entrypoints are not resolved yet)"))
  else
    let name := RestoredName (cr_Identity req) in
    let baseID := kataSandboxID (cr_Identity req) in
    let vmDir := VMDir baseID in
    let bundle := bundleDir k name in
    do! CleanupSandboxState baseID in
    do! trigger (FsRemove (instancePath k name)) in
    check! on_failure (wrap_prefix "create vm dir") (trigger (FsMkdirAll vmDir)) in
    undone_by (do! CleanupSandboxState baseID in
               do! teardownImageRootfs bundle in
               ignore (trigger (FsRemoveAll bundle))) (
      check! stage_rootfs (cc_Image container) bundle baseID (id_Name (cr_Identity req)) in
      launch_machine k req name vmDir bundle baseID).

(** ** The Worker's runtime (internal/runtime/kata) *)

(** [os.FindProcess] always succeeds. *)
(* go: internal/runtime/kata/runtime.go processAlive *)
Definition processAlive (pid : Z) : prog SysE bool := if (pid <=? 0)%Z then Ret false else trigger (ProcProbe pid).

(* go: internal/runtime/kata/runtime.go Runtime.Create *)
Definition Kata_Create (k : kata) (req : CreateRequest) : prog SysE (result ID) := ColdBoot k req.
(* go: internal/runtime/kata/runtime.go Runtime.Start *)
Definition Kata_Start (k : kata) (id : ID) : prog SysE (option error) := Ret None.
(* go: internal/runtime/kata/runtime.go Runtime.Stop *)
Definition Kata_Stop (k : kata) (id : ID) : prog SysE (option error) := Kata_DeleteRestored k id.
(* go: internal/runtime/kata/runtime.go Runtime.Delete *)
Definition Kata_Delete (k : kata) (id : ID) : prog SysE (option error) := Kata_DeleteRestored k id.

(* go: internal/runtime/kata/runtime.go Runtime.Status *)
Definition Kata_Status (k : kata) (id : ID) : prog SysE (result Status) :=
  let! instance := Kata_Instance k id in
  call! alive := processAlive (in_PID instance) in
  Ret (Ok (if (alive : bool) then mkStatus RtRunning 0 ""
           else mkStatus RtStopped 0 ("cloud-hypervisor (pid " +:+ itoa (in_PID instance) +:+ ") is gone"))).

(* go: internal/runtime/kata/runtime.go Runtime.List *)
Definition Kata_List (k : kata) : prog SysE (result (list RuntimeInfo)) :=
  let! instances := on_error (wrap_prefix "list kata instances") (Instances k) in
  call! infos := foldM (fun out i =>
    call! alive := processAlive (in_PID i) in
    Ret (out ++ [mkRuntimeInfo (in_ID i) (in_Identity i) (in_SlotID i)
                   (mkStatus (if (alive : bool) then RtRunning else RtStopped) 0 "")])) [] instances in
  Ret (Ok infos).

(* go: internal/runtime/kata/runtime.go Runtime.Exec *)
Definition Kata_Exec (k : kata) (id : ID) (req : ExecRequest) : prog SysE (result ExecResult) :=
  if bool_decide (ex_Command req = []) then Ret (Err (Plain "exec command is required")) else Kata_ExecRestored k id req.

(* go: internal/runtime/kata/runtime.go Runtime.PrimaryContainerID *)
Definition Kata_PrimaryContainerID (k : kata) (id : ID) : prog SysE (result string) :=
  let! instance := Kata_Instance k id in Ret (Ok (in_ContainerID instance)).

(* go: internal/runtime/kata/files.go Runtime.ReadFile *)
Definition Kata_ReadFile (k : kata) (id : ID) (absPath : string) : prog SysE (result string) := ReadFileVia (Kata_Exec k id) absPath.
(* go: internal/runtime/kata/files.go Runtime.WriteFile *)
Definition Kata_WriteFile (k : kata) (id : ID) (absPath content : string) : prog SysE (option error) :=
  WriteFileVia (Kata_Exec k id) absPath content.
(* go: internal/runtime/kata/files.go Runtime.ListFiles *)
Definition Kata_ListFiles (k : kata) (id : ID) (absPath : string) : prog SysE (result (list FileEntry)) := ListFilesVia (Kata_Exec k id) absPath.
(* go: internal/runtime/kata/files.go Runtime.FileExists *)
Definition Kata_FileExists (k : kata) (id : ID) (absPath : string) : prog SysE (result bool) := FileExistsVia (Kata_Exec k id) absPath.
End Kata.
