(* ===== verification/KataParts.v ===== *)
(** * What the parts of the Kata adapter hold on the host

    Most of them neither start a process nor mount anything; the rest is proved by the rules at the
    end. *)

From S2P Require Import Prelude Prog Compose Strings Slot Topology Json ApiJson Runtime WorkerEnv AgentApi.
From S2P Require Import Host Snapshotters SnapshottersFacts GVisor HostFacts KataData Vmm Guest Kata.

Section KataParts.
Context {QA : QuantityApi} {HE : HostEnv} {JT : JsonText} {IA : ImageApi} {KL : KataLibs}.
Implicit Types (k : kata) (tr t : trace SysE).

(** The processes of these numbers. *)
Definition processes (pids : list Z) : gset resource := list_to_set (Process <$> pids).

(** ** Parts that hold nothing *)

Section Calm.
Notation calm := (silent change_of).

Lemma calm_poll {A} pauses limit interval (probe : prog SysE (result A + error)) late :
  calm probe -> calm (poll_until pauses limit interval probe late).
Proof.
  intros Hp. induction pauses as [|n IH]; cbn [poll_until]; (apply only_bind; [done|]); intros [r|err]; try (intros tr; exact I).
  apply only_bind; [intros tr; quiet_calls|]. intros [|]; [intros tr; exact I|].
  apply only_bind; [intros tr; quiet_calls|]. intros [|]; [intros tr; exact I|done].
Qed.

Lemma calm_ready socket deadline : calm (chClient_WaitReady socket deadline).
Proof. unfold chClient_WaitReady. apply only_bind; [apply calm_poll; intros tr; quiet_calls|intros r tr; exact I]. Qed.
Lemma calm_client_ready socket deadline : calm (Client_WaitReady socket deadline).
Proof. apply calm_poll. intros tr. quiet_calls. Qed.
Lemma calm_socket path timeout : calm (waitForSocket path timeout).
Proof. unfold waitForSocket. apply only_bind; [apply calm_poll; intros tr; quiet_calls|intros r tr; exact I]. Qed.
Lemma calm_socket_ready path deadline : calm (waitSocketReady path deadline).
Proof. unfold waitSocketReady. apply only_bind; [apply calm_poll; intros tr; quiet_calls|intros r tr; exact I]. Qed.
Lemma calm_dial path timeout : calm (dialAgentRetry path timeout).
Proof. apply calm_poll. intros tr. quiet_calls. Qed.
Lemma calm_overlay_dial path timeout : calm (dialOverlayAgentRetry path timeout).
Proof. apply calm_poll. intros tr. quiet_calls. Qed.

Lemma calm_close_files fds : calm (closeFiles fds).
Proof. apply only_loop. intros [] fd _ tr. quiet_calls. Qed.
Hint Resolve calm_close_files : silent.

Lemma calm_open_taps queues name flags files : calm (open_taps queues name flags files).
Proof. revert files. induction queues as [|n IH]; intros files; cbn [open_taps]; only_parts; apply IH. Qed.
Hint Resolve calm_open_taps : silent.

Lemma calm_create_taps slotID i devs nets files : calm (create_taps slotID i devs nets files).
Proof.
  revert i nets files. induction devs as [|d devs IH]; intros i nets files; cbn [create_taps]; [only_parts|].
  apply only_bind; [apply calm_open_taps|]. intros [opened|err]; only_parts; apply IH.
Qed.
Lemma calm_restore_taps slotID devs : calm (createRestoreTaps slotID devs).
Proof. unfold createRestoreTaps. pose proof calm_create_taps. only_parts. Qed.

Hint Resolve calm_ready calm_client_ready calm_socket calm_socket_ready calm_dial calm_overlay_dial calm_restore_taps : silent.

Lemma calm_command limit name args out :
  (forall ok, command_change args ok = None) -> calm (run_cmd limit name args out).
Proof. intros Hq tr. unfold run_cmd, trigger. wpg_step; [|done]. intros r. apply Hq. Qed.
Lemma calm_diag b title command : (forall ok, command_change (tail command) ok = None) -> calm (diag b title command).
Proof. apply silent_diag. Qed.

Lemma calm_bridge_diag path slotID : calm (writeKataBridgeDiag path slotID).
Proof.
  unfold writeKataBridgeDiag. destruct (guestNetForSlot slotID); [|only_parts].
  apply only_bind; [|intros b; only_parts]. apply only_loop. intros b [title command] Hin. apply calm_diag.
  rewrite !elem_of_cons, elem_of_nil in Hin. repeat destruct Hin as [[= -> ->]|Hin]; try done; by intros [].
Qed.
Hint Resolve calm_bridge_diag : silent.

Lemma calm_dump path cmd : calm (DebugConsoleDump path cmd).
Proof. unfold DebugConsoleDump. only_parts. Qed.
Lemma calm_diagnosis paths : calm (logKataBootDiagnostics paths).
Proof. unfold logKataBootDiagnostics. only_parts. Qed.
Hint Resolve calm_dump calm_diagnosis : silent.
Lemma calm_carrier left first conn path carrierID spec : calm (create_carrier left first conn path carrierID spec).
Proof. revert first. induction left as [|n IH]; intros first; cbn [create_carrier]; unfold CreateCarrier, CreateContainer; only_parts; apply IH. Qed.
Lemma calm_search rootfs argv0 dirs : calm (search_path rootfs argv0 dirs).
Proof. induction dirs as [|d dirs IH]; cbn [search_path]; only_parts; apply IH. Qed.
Hint Resolve calm_carrier calm_search : silent.
Lemma calm_spec req rootfs : calm (kataWorkloadSpec req rootfs).
Proof. unfold kataWorkloadSpec, resolveKataArgv0. only_parts. Qed.
Lemma calm_network_diag vsock path slotID : calm (logKataGuestNetworkDiag vsock path slotID).
Proof. unfold logKataGuestNetworkDiag. only_parts. Qed.
Lemma calm_staging_diag vsock baseID carrierID vmDir spec : calm (logCarrierStagingDiag vsock baseID carrierID vmDir spec).
Proof. unfold logCarrierStagingDiag. only_parts. Qed.
Hint Resolve calm_spec calm_network_diag calm_staging_diag : silent.

Lemma calm_workload req ac vmDir vsock rootfs baseID : calm (start_workload req ac vmDir vsock rootfs baseID).
Proof. unfold start_workload, createCarrierWithRetry, configureGuestNetwork. only_parts; intros tr; cbn [ga_UpdateInterface ga_UpdateRoutes ga_AddARPNeighbors overlay_agent local_agent]; quiet_calls. Qed.
Lemma calm_copy_entries src dst entries : calm (copy_entries src dst entries).
Proof.
  induction entries as [|[rel [isDir|err]] entries IH]; cbn [copy_entries]; [only_parts| |only_parts].
  unfold copy_entry, with_file. only_parts; apply IH.
Qed.
Hint Resolve calm_workload calm_copy_entries : silent.
Lemma calm_place src dst : calm (placeSnapshotDir src dst).
Proof. unfold placeSnapshotDir, copyDir. only_parts. Qed.
Lemma calm_shared_dir rootfs id cid : calm (ReconstructSharedDirFromImage rootfs id cid).
Proof. unfold ReconstructSharedDirFromImage, copyImageRootfs, pathIsMountpoint. only_parts. Qed.
Lemma calm_rewrite dir vmDir shares : calm (rewriteRestoreSockets dir vmDir shares).
Proof. unfold rewriteRestoreSockets. only_parts. Qed.
Lemma calm_ch_log err flush paths : calm (withCHLog err flush paths).
Proof. unfold withCHLog, log_tail. only_parts. Qed.
Lemma calm_save k inst : calm (saveInstance k inst).
Proof. unfold saveInstance. only_parts. Qed.
Lemma calm_load k name : calm (loadInstance k name).
Proof. unfold loadInstance. only_parts. Qed.
Lemma calm_guest_network ac slotID : calm (configureGuestNetwork (local_agent ac) slotID).
Proof. unfold configureGuestNetwork. only_parts; intros tr; cbn [ga_UpdateInterface ga_UpdateRoutes ga_AddARPNeighbors overlay_agent local_agent]; quiet_calls. Qed.
End Calm.
#[local] Hint Resolve calm_close_files calm_ready calm_client_ready calm_socket calm_socket_ready calm_dial calm_overlay_dial
  calm_restore_taps calm_dump calm_diagnosis calm_spec calm_workload calm_place calm_shared_dir calm_rewrite calm_ch_log calm_save
  calm_load calm_guest_network : silent.

(** ** Rules *)

(** After a calm part the history is longer and nothing else is held. *)
Lemma calm_after {A} (p : prog SysE A) (Q : trace SysE -> A -> Prop) tr :
  silent change_of p -> (forall t a, held t = held tr -> tr `prefix_of` t -> Q t a) -> wp p Q tr.
Proof.
  intros Hp HQ. eapply wp_mono; [apply wp_conj; [apply wp_prefix|apply (silent_held _ (fun t _ => held t = held tr)); [exact Hp|done]]|].
  intros t a [Ht Hh]. by apply HQ.
Qed.

Lemma calm_step {A B} (p : prog SysE A) (f : A -> prog SysE B) Q tr :
  silent change_of p -> (forall t a, held t = held tr -> tr `prefix_of` t -> wp (f a) Q t) -> wp (bind f p) Q tr.
Proof. intros Hp Hf. apply wp_bind. by apply calm_after. Qed.

Lemma calm_deferred {A B} (d : prog SysE B) (p : prog SysE A) Q tr :
  silent change_of d -> (forall t t' a, held t' = held t -> t `prefix_of` t' -> Q t a -> Q t' a) -> wp p Q tr -> wp (deferred d p) Q tr.
Proof.
  intros Hd HQ Hp. apply wp_deferred. eapply wp_mono; [exact Hp|]. intros t a Ha. apply calm_after; [done|].
  intros t' _ Hh Ht. by eapply HQ.
Qed.

Lemma wp_undone {A} undo (p : prog SysE (result A)) Q tr :
  wp p (fun t r => match r with Ok a => Q t (Ok a) | Err err => wp undo (fun t' _ => Q t' (Err err)) t end) tr ->
  wp (undone_by undo p) Q tr.
Proof.
  intros Hp. unfold undone_by, then_. apply wp_bind. eapply wp_mono; [exact Hp|]. intros t [a|err]; [done|].
  intros Hu. by apply wp_bind.
Qed.

(** A part that only takes away. *)
Definition shrinks {A} (p : prog SysE A) : Prop := forall tr, wp p (fun t _ => held t ⊆ held tr) tr.

Lemma shrinks_calm {A} (p : prog SysE A) : silent change_of p -> shrinks p.
Proof. intros Hp tr. apply silent_held; [done|]. by intros t _ ->. Qed.
Lemma shrinks_bind {A B} (p : prog SysE A) (f : A -> prog SysE B) : shrinks p -> (forall a, shrinks (f a)) -> shrinks (bind f p).
Proof.
  intros Hp Hf tr. apply wp_bind. eapply wp_mono; [apply Hp|]. intros t a Ht. eapply wp_mono; [apply Hf|].
  cbv beta. intros t' b Ht'. by transitivity (held t).
Qed.
Lemma shrinks_loop {A S} (body : S -> A -> prog SysE S) l s : (forall s0 x, shrinks (body s0 x)) -> shrinks (foldM body s l).
Proof.
  intros Hb. revert s. induction l as [|x l IH]; intros s; [by apply shrinks_calm; intros tr|]. cbn [foldM].
  apply shrinks_bind; [apply Hb|exact IH].
Qed.
Lemma shrinks_call e : (forall r, match change_of (existT e r) with Some (Gain _) => False | _ => True end) -> shrinks (trigger e).
Proof.
  intros He tr. unfold trigger. cbn [wp]. intros r. rewrite held_step. generalize (He r).
  destruct (change_of _) as [[]|]; cbn; [done|set_solver..].
Qed.

Lemma kill_wp pids tr : wp (killCmds pids) (fun t _ => held t = held tr ∖ processes pids) tr.
Proof.
  unfold killCmds. apply (wp_foldM _ (fun done t _ => held t = held tr ∖ processes done) pids tt tr []).
  { unfold processes. cbn. by rewrite difference_empty_L. }
  intros done pid t [] Ht _. unfold ignore, trigger. cbn [bind wp]. intros r. rewrite held_step, Ht. cbn.
  unfold processes. rewrite fmap_app, list_to_set_app_L. cbn. set_solver.
Qed.

Lemma shrinks_cleanup id : shrinks (CleanupSandboxState id).
Proof.
  unfold CleanupSandboxState, kill_orphans, then_, ignore.
  repeat first
    [ apply shrinks_loop; intros [] ?
    | match goal with
      | |- shrinks (bind _ _) => apply shrinks_bind; [|intros ?]
      | |- shrinks (match ?x with _ => _ end) => destruct x
      end
    | solve [apply shrinks_calm; silent_part]
    | solve [apply shrinks_call; by intros r] ].
Qed.

Lemma shrinks_teardown dir : shrinks (teardownImageRootfs dir).
Proof.
  unfold teardownImageRootfs, ignore. destruct (empty dir); [by apply shrinks_calm; intros tr|].
  apply shrinks_bind; [by apply shrinks_call|]. by intros r; apply shrinks_calm; intros tr.
Qed.
End KataParts.

#[export] Hint Resolve calm_close_files calm_ready calm_client_ready calm_socket calm_socket_ready calm_dial calm_overlay_dial
  calm_restore_taps calm_dump calm_diagnosis calm_spec calm_workload calm_place calm_shared_dir calm_rewrite calm_ch_log calm_save
  calm_load calm_guest_network : silent.
