(* ===== verification/KataFacts.v ===== *)
(** * Correctness of the Kata adapter

    What a cold boot and a restore leave on the host, and which processes the clean-up of a sandbox
    kills, for every behaviour of the monitor, the daemon, the agent and the host. *)

From S2P Require Import Prelude Prog Compose Strings Slot Topology Json ApiJson Runtime WorkerEnv AgentApi.
From S2P Require Import Host Snapshotters SnapshottersFacts GVisor HostFacts KataData Vmm Guest Kata KataParts.

Section KataFacts.
Context {QA : QuantityApi} {HE : HostEnv} {JT : JsonText} {IA : ImageApi} {KL : KataLibs}.
Implicit Types (k : kata) (tr t : trace SysE).

(** ** The processes of a machine *)

(** A process when the answer is its number, nothing when it is an error. *)
Definition process_made (before after : gset resource) (r : result Z) : Prop :=
  match r with Ok pid => after = {[Process pid]} ∪ before | Err _ => after ⊆ before end.

Lemma no_process X Y err : Y = X -> process_made X Y (Err err).
Proof. intros ->. cbn. set_solver. Qed.

Lemma start_wp name args out tr : wp (trigger (ProcStart name args out)) (fun t r =>
  held t = match r with Ok pid => {[Process pid]} ∪ held tr | Err _ => held tr end) tr.
Proof. unfold trigger. cbn [wp]. intros r. rewrite held_step. by destruct (r : result Z). Qed.

Lemma kill_one_wp pid tr : wp (trigger (ProcKill pid)) (fun t _ => held t = held tr ∖ {[Process pid]}) tr.
Proof. unfold trigger. cbn [wp]. intros r. by rewrite held_step. Qed.

Lemma take_back (x : resource) (X Y : gset resource) : Y = {[x]} ∪ X -> Y ∖ {[x]} ⊆ X.
Proof. set_solver. Qed.

Lemma StartVirtiofsd_wp o tr : wp (StartVirtiofsd o) (fun t r => process_made (held tr) (held t) r) tr.
Proof.
  unfold StartVirtiofsd, then_. apply calm_step; [silent_part|]. intros t0 _ H0 _.
  apply wp_try_bind, wp_on_error. eapply wp_mono; [apply start_wp|]. cbv beta. intros t1 [pid|err] H1; [|apply no_process; by rewrite H1, H0].
  apply calm_step; [silent_part|]. intros t2 [err|] H2 _; [|cbn; by rewrite H2, H1, H0].
  apply wp_bind. eapply wp_mono; [apply kill_one_wp|]. cbv beta. intros t3 _ H3. cbn. rewrite H3, H2. apply take_back. by rewrite H1, H0.
Qed.

Lemma LaunchVMM_wp o tr : wp (LaunchVMM o) (fun t r => process_made (held tr) (held t) r) tr.
Proof.
  unfold LaunchVMM, then_. destruct (empty _); [by apply no_process|]. apply calm_step; [silent_part|]. intros t0 _ H0 _.
  apply wp_try_bind, wp_on_error. eapply wp_mono; [apply start_wp|]. cbv beta. intros t1 [pid|err] H1; [|apply no_process; by rewrite H1, H0].
  apply calm_step; [silent_part|]. intros t2 [info|err] H2 _; [cbn; by rewrite H2, H1, H0|].
  apply wp_bind. eapply wp_mono; [apply kill_one_wp|]. cbv beta. intros t3 _ H3.
  apply calm_step; [silent_part|]. intros t4 _ H4 _. cbn. rewrite H4, H3, H2. apply take_back. by rewrite H1, H0.
Qed.

(** The root file system of the guest's lower layer. *)
Lemma boot_stage_wp image bundle baseID carrierID tr :
  wp (stage_rootfs image bundle baseID carrierID) (fun t r => bundle_made bundle (held tr) (held t) r) tr.
Proof.
  unfold stage_rootfs, fails_first. apply wp_bind, wp_on_failure. eapply wp_mono; [apply setup_rootfs_wp|]. cbv beta.
  intros t1 [err|] [H1 H1']; [done|]. specialize (H1' eq_refl).
  apply calm_step; [silent_part|]. intros t2 r H2 _. rewrite H1' in H2.
  assert (Hm : forall t (err : option error), held t = {[Overlay (rootfs_of bundle)]} ∪ held tr -> bundle_made bundle (held tr) (held t) err).
  { intros t err Ht. split; [rewrite Ht; set_solver|done]. }
  destruct r; [by apply Hm|]. apply wp_on_failure, silent_held; [silent_part|]. intros t3 r3 H3. rewrite H2 in H3.
  destruct r3; by apply Hm.
Qed.
(** ** The guest *)

(** The record of an instance was written; the agent started a container. *)
Definition recorded k (inst : kataInstance) t : Prop :=
  existT (P := answer) (FsWriteFile (instancePath k (ki_Name inst)) (json_text (enc inst))) None ∈ t.
Definition container_started (containerID : string) t : Prop :=
  exists conn, existT (P := answer) (AgCall conn (StartContainerRequest containerID) None) None ∈ t.

Lemma wp_any {A B} (p : prog SysE A) (f : A -> prog SysE B) Q tr : (forall t a, wp (f a) Q t) -> wp (bind f p) Q tr.
Proof. intros Hf. apply wp_bind. eapply wp_mono; [apply wp_true|]. eauto. Qed.

Lemma save_wp k inst tr : wp (saveInstance k inst) (fun t r => r = None -> recorded k inst t) tr.
Proof.
  unfold saveInstance, fails_first. apply wp_any. intros t [err|]; [done|]. unfold trigger. cbn [wp].
  intros r Hr. apply elem_of_app. right. rewrite <- Hr. left.
Qed.

Lemma workload_wp req ac vmDir vsock rootfs baseID tr :
  wp (start_workload req ac vmDir vsock rootfs baseID)
    (fun t r => r = None -> container_started (kataOverlayWorkloadID (id_Name (cr_Identity req))) t) tr.
Proof.
  unfold start_workload, fails_first. apply wp_any. intros t1 [err|]; [done|].
  apply wp_any. intros t2 [err|]; [unfold then_; by apply wp_any|]. unfold then_ at 1. apply wp_any. intros t3 _.
  apply wp_any. intros t4 spec. apply wp_any. intros t5 [err|]; [unfold then_; by apply wp_any|].
  unfold StartOverlayWorkload, fails_first. apply wp_any. intros t6 [err|]; [done|].
  apply wp_on_failure. unfold StartContainer. apply wp_on_failure. unfold trigger. cbn [wp].
  intros [err|]; [done|]. intros _. exists ac. apply elem_of_app. right. left.
Qed.

Lemma started_prefix c t t' : t `prefix_of` t' -> container_started c t -> container_started c t'.
Proof. intros Hp [conn Hin]. exists conn. by eapply elem_of_prefix. Qed.
Lemma machine_recorded_prefix k inst t t' : t `prefix_of` t' -> recorded k inst t -> recorded k inst t'.
Proof. intros Hp Hin. by eapply elem_of_prefix. Qed.

(** What a successful boot has established in the guest and on disk. *)
Definition boot_completed k req (inst : kataInstance) (id : ID) t : Prop :=
  id = mkID (kataIDPrefix +:+ ki_Name inst) /\ recorded k inst t /\
  container_started (kataOverlayWorkloadID (id_Name (cr_Identity req))) t.

Lemma boot_completed_prefix k req inst id t t' :
  t `prefix_of` t' -> boot_completed k req inst id t -> boot_completed k req inst id t'.
Proof. intros Hp (-> & Hr & Hs). repeat split; [by eapply machine_recorded_prefix|by eapply started_prefix]. Qed.

Definition entered k req inst (before : gset resource) t (r : result ID) : Prop :=
  held t = before /\ forall id, r = Ok id -> boot_completed k req inst id t.

Lemma entered_later k req inst X t t' r :
  held t' = held t -> t `prefix_of` t' -> entered k req inst X t r -> entered k req inst X t' r.
Proof.
  intros Hh Hp [He Hb]. split; [by rewrite Hh|]. intros id Hid. eapply boot_completed_prefix; [done|by apply Hb].
Qed.
Lemma entered_failed k req inst X t err : held t = X -> entered k req inst X t (Err err).
Proof. intros Hh. by split. Qed.

Lemma enter_guest_wp k req name vmDir bundle baseID serialLog pid tr :
  wp (enter_guest k req name vmDir bundle baseID serialLog pid)
    (entered k req (booted_instance req name vmDir bundle baseID pid) (held tr)) tr.
Proof.
  unfold enter_guest. apply calm_step; [silent_part|]. intros t1 [err|] H1 _.
  { unfold then_. apply calm_step; [silent_part|]. intros t2 _ H2 _. apply entered_failed. by rewrite H2. }
  apply calm_step; [silent_part|]. intros t2 [ac|err] H2 _.
  2: { unfold then_. apply calm_step; [silent_part|]. intros t3 _ H3 _. apply entered_failed. by rewrite H3, H2. }
  apply calm_deferred; [silent_part|intros ???; apply entered_later|]. apply wp_check_bind.
  eapply wp_mono; [apply wp_conj; [apply workload_wp|apply (silent_held _ (fun t _ => held t = held t2)); [silent_part|done]]|].
  cbv beta. intros t3 [err|] [Hs H3]; [apply entered_failed; by rewrite H3, H2|]. specialize (Hs eq_refl).
  apply wp_check_bind. set (inst := booted_instance _ _ _ _ _ _).
  eapply wp_mono; [apply wp_conj; [apply save_wp|apply (calm_after _ (fun t _ => held t = held t3 /\ t3 `prefix_of` t)); [silent_part|done]]|].
  cbv beta. intros t4 [err|] (Hr & H4 & Hp); [apply entered_failed; by rewrite H4, H3, H2|].
  split; [by rewrite H4, H3, H2|]. intros id [= <-]. split; [done|]. split; [by apply Hr|]. by eapply started_prefix.
Qed.

Lemma boot_machine_wp k req cfg name vmDir bundle baseID apiSocket pid tr :
  wp (boot_machine k req cfg name vmDir bundle baseID apiSocket pid)
    (entered k req (booted_instance req name vmDir bundle baseID pid) (held tr)) tr.
Proof.
  unfold boot_machine. destruct kataAssetPaths as [[kernel image] config]. apply wp_check_bind.
  apply calm_after; [silent_part|]. intros t1 [err|] H1 _; [by apply entered_failed|].
  apply wp_try_bind. cbn [wp]. destruct (guestNetForSlot _) as [net|err]; [|by apply entered_failed].
  apply wp_try_bind, calm_after; [silent_part|]. intros t2 [taps|err] H2 _; [|apply entered_failed; by rewrite H2].
  apply calm_deferred; [silent_part|intros ???; apply entered_later|].
  apply wp_check_bind, calm_after; [silent_part|]. intros t3 [err|] H3 _; [apply entered_failed; by rewrite H3, H2|].
  apply wp_check_bind, calm_after; [silent_part|]. intros t4 [err|] H4 _; [apply entered_failed; by rewrite H4, H3, H2|].
  rewrite <- H1, <- H2, <- H3, <- H4. apply enter_guest_wp.
Qed.
(** ** A cold boot *)

(** The machine: the daemon of its shared directory and its monitor, on what was held before. *)
Definition launched k req name vmDir bundle baseID (before after : gset resource) t (r : result ID) : Prop :=
  match r with
  | Ok id => exists vfsd ch, after = {[Process vfsd; Process ch]} ∪ before /\
      boot_completed k req (booted_instance req name vmDir bundle baseID ch) id t
  | Err _ => after ⊆ before
  end.

Lemma launched_later k req name vmDir bundle baseID X t t' r :
  held t' = held t -> t `prefix_of` t' ->
  launched k req name vmDir bundle baseID X (held t) t r -> launched k req name vmDir bundle baseID X (held t') t' r.
Proof.
  intros Hh Hp. unfold launched. rewrite Hh. destruct r as [id|err]; [|done]. intros (vfsd & ch & Ht & Hb).
  exists vfsd, ch. split; [done|]. by eapply boot_completed_prefix.
Qed.
Lemma launch_failed k req name vmDir bundle baseID X Y t err :
  Y = X -> launched k req name vmDir bundle baseID X Y t (Err err).
Proof. intros ->. cbn. set_solver. Qed.

Lemma killed_again (x y : resource) (X Y : gset resource) : Y ⊆ {[y]} ∪ ({[x]} ∪ X) -> (Y ∖ {[y]}) ∖ {[x]} ⊆ X.
Proof. set_solver. Qed.

Lemma kill_commands_wp pid tr : wp (killCmds [pid]) (fun t _ => held t = held tr ∖ {[Process pid]}) tr.
Proof.
  eapply wp_mono; [apply kill_wp|]. intros t _ ->. unfold processes. cbn. by rewrite union_empty_r_L.
Qed.

Lemma launch_machine_wp k req name vmDir bundle baseID tr :
  wp (launch_machine k req name vmDir bundle baseID)
    (fun t r => launched k req name vmDir bundle baseID (held tr) (held t) t r) tr.
Proof.
  unfold launch_machine. apply wp_check_bind, wp_on_failure, calm_after; [silent_part|].
  intros t1 [err|] H1 _; [by apply launch_failed|]. rewrite <- H1.
  apply calm_deferred; [silent_part|intros t t' a Hh Hp; by apply launched_later|].
  apply wp_try_bind, wp_on_error. eapply wp_mono; [apply StartVirtiofsd_wp|]. cbv beta. intros t2 [vfsd|err] H2; [|exact H2].
  apply wp_undone. destruct kataAssetPaths as [[kernel image] configPath].
  apply calm_step; [silent_part|]. intros t3 cfgBytes H3 _.
  set (Q := fun t (r : result ID) => match r with
    | Ok id => launched k req name vmDir bundle baseID (held t1) (held t) t (Ok id)
    | Err err => held t ⊆ {[Process vfsd]} ∪ held t1 end).
  cut (wp (let! cfg := Ret (ParseConfig (match cfgBytes with Ok b => b | Err _ => "" end) kataDefaultMemoryMiB kataDefaultVCPUs) in
      let apiSocket := path_Join [vmDir; "clh-api.sock"] in
      let chLog := path_Join [vmDir; "cloud-hypervisor.log"] in
      check! on_failure (wrap_prefix "open cloud-hypervisor log") (trigger (FsOpenFile chLog)) in
      deferred (trigger (FsClose chLog)) (
        let! ch := on_error (wrap_prefix "launch cloud-hypervisor") (LaunchVMM (mkLaunch (kt_CloudHypervisorPath k) apiSocket chLog)) in
        undone_by (do! trigger (ProcKill ch) in ignore (trigger (ProcWait ch)))
          (boot_machine k req cfg name vmDir bundle baseID apiSocket ch))) Q t3).
  { intros HQ. eapply wp_mono; [exact HQ|]. intros t [id|err]; [done|]. cbn [Q]. intros Ht.
    eapply wp_mono; [apply kill_commands_wp|]. cbv beta. intros t' _ Ht'. cbn [launched]. rewrite Ht'. set_solver. }
  assert (H3' : held t3 = {[Process vfsd]} ∪ held t1) by (rewrite H3; exact H2). clear H2 H3.
  assert (Hfail : forall t (err : error), held t ⊆ held t3 -> Q t (Err err)) by (intros t err Ht; cbn; by rewrite <- H3').
  apply wp_try_bind. cbn [wp]. destruct (ParseConfig _ _ _) as [cfg|err]; [|by apply Hfail].
  apply wp_check_bind, wp_on_failure, calm_after; [silent_part|]. intros t4 [err|] H4 _; [apply Hfail; by rewrite H4|].
  apply calm_deferred; [silent_part| |].
  { intros t t' [id|err] Hh Hp; cbn [Q]; [by apply launched_later|by rewrite Hh]. }
  apply wp_try_bind, wp_on_error. eapply wp_mono; [apply LaunchVMM_wp|]. cbv beta. intros t5 [ch|err] H5.
  2: { apply Hfail. cbn in H5. by rewrite <- H4. }
  cbn in H5. rewrite H4, H3' in H5. apply wp_undone. eapply wp_mono; [apply boot_machine_wp|]. cbv beta.
  intros t6 [id|err] [H6 Hb].
  - cbn. exists vfsd, ch. split; [rewrite H6, H5; set_solver|by apply Hb].
  - unfold then_. apply wp_bind. eapply wp_mono; [apply kill_one_wp|]. cbv beta. intros t7 _ H7.
    apply silent_held; [silent_part|]. intros t8 _ H8. cbn. rewrite H8, H7, H6, H5. set_solver.
Qed.

Definition bundle_of k (identity : SandboxIdentity) : string := bundleDir k (RestoredName identity).

Lemma bundle_nonempty k identity : empty (bundle_of k identity) = false.
Proof. apply path_Join_nonempty with "bundles"; [by right; left|done]. Qed.
(** A successful cold boot. *)
Definition cold_booted k (req : CreateRequest) t (id : ID) : Prop :=
  exists vfsd ch,
    let inst := booted_instance req (RestoredName (cr_Identity req)) (VMDir (kataSandboxID (cr_Identity req)))
                  (bundle_of k (cr_Identity req)) (kataSandboxID (cr_Identity req)) ch in
    held t = {[Process vfsd; Process ch; Overlay (rootfs_of (bundle_of k (cr_Identity req)))]} /\
    boot_completed k req inst id t.

(** C29. A cold boot is all or nothing: when [ColdBoot] succeeds, the host runs exactly one daemon and
    one monitor for the sandbox and holds exactly one mount, its root file system; the agent in the
    guest has started the workload, and the record on disk names the monitor. When it fails, at any
    point and for any reason, every process it started was asked to be killed and every mount it
    made to be unmounted. *)
Theorem cold_boot_all_or_nothing k req :
  always (ColdBoot k req) (fun t r =>
    match r with
    | Ok id => cold_booted k req t id
    | Err _ => held t = ∅
    end).
Proof.
  unfold always, ColdBoot. destruct (empty _); [done|]. destruct (_ && _); [done|]. fold (bundle_of k (cr_Identity req)).
  set (bundle := bundle_of k _). set (baseID := kataSandboxID _). unfold then_.
  apply wp_bind. eapply wp_mono; [apply shrinks_cleanup|]. cbv beta. intros t0 _ H0.
  assert (H0' : held t0 = ∅) by set_solver. clear H0.
  apply calm_step; [silent_part|]. intros t1 _ H1 _. apply wp_check_bind, wp_on_failure, calm_after; [silent_part|].
  intros t2 [err|] H2 _; [by rewrite H2, H1|]. rewrite H1, H0' in H2. clear t0 t1 H1 H0'. apply wp_undone.
  set (x := Overlay (rootfs_of bundle)).
  cut (wp (check! stage_rootfs (cc_Image (cr_Container req)) bundle baseID (id_Name (cr_Identity req)) in
           launch_machine k req (RestoredName (cr_Identity req)) (VMDir baseID) bundle baseID)
        (fun t r => match r with Ok id => cold_booted k req t id | Err _ => held t ⊆ {[x]} end) t2).
  { intros Hwp. eapply wp_mono; [exact Hwp|]. cbv beta. intros t [id|err]; [done|]. intros Ht.
    apply wp_bind. eapply wp_mono; [apply shrinks_cleanup|]. cbv beta. intros t3 _ H3.
    apply wp_bind. eapply wp_mono; [apply teardown_rootfs_wp, bundle_nonempty|]. cbv beta. intros t4 _ H4.
    apply silent_held; [silent_part|]. intros t5 _ H5. rewrite H5, H4. clear -H3 Ht. set_solver. }
  apply wp_check_bind. eapply wp_mono; [apply boot_stage_wp|]. cbv beta. intros t3 [err|] [H3 H3'].
  { eapply equal_but_one; [exact H3|rewrite H2; set_solver|set_solver]. }
  specialize (H3' eq_refl). rewrite H2 in H3'. eapply wp_mono; [apply launch_machine_wp|]. cbv beta. rewrite H3'.
  intros t [id|err]; cbn; [|set_solver]. intros (vfsd & ch & Ht & Hb). exists vfsd, ch. split; [|exact Hb].
  rewrite Ht. set_solver.
Qed.
(** ** Deletion *)

Lemma StripPrefix_app p s : StripPrefix (p +:+ s) p = Some s.
Proof. unfold StripPrefix. by rewrite HasPrefix_app, TrimPrefix_app. Qed.

(** The instance that the bytes of a record stand for. *)
Definition instance_of (r : result string) : option kataInstance :=
  match r with
  | Ok raw => match Unmarshal_as raw with Ok inst => Some inst | Err _ => None end
  | Err _ => None
  end.
(** What a record says its machine holds. *)
Definition machine_of (inst : kataInstance) : gset resource :=
  (if (0 <? ki_PID inst)%Z then {[Process (ki_PID inst)]} else ∅) ∪
  (if empty (ki_BundleDir inst) then ∅ else {[Overlay (rootfs_of (ki_BundleDir inst))]}).

Lemma machine_torn_down_wp k inst tr : wp (teardownInstance k inst) (fun t _ => held t ⊆ held tr ∖ machine_of inst) tr.
Proof.
  unfold teardownInstance, then_, machine_of. apply calm_step; [silent_part|]. intros t0 _ H0 _. apply wp_bind.
  eapply wp_mono with (Q := fun t _ => held t = held tr ∖ (if (0 <? ki_PID inst)%Z then {[Process (ki_PID inst)]} else ∅)).
  { destruct (0 <? ki_PID inst)%Z; [|cbn [wp]; by rewrite difference_empty_L].
    eapply wp_mono; [apply kill_one_wp|]. cbv beta. intros t _ ->. by rewrite H0. }
  intros t1 _ H1. apply wp_bind. eapply wp_mono with (Q := fun t _ => held t ⊆ held t1).
  { destruct (empty (ki_BaseID inst)); [cbn [wp]; set_solver|apply shrinks_cleanup]. }
  intros t2 _ H2. apply wp_bind.
  eapply wp_mono with (Q := fun t _ => held t = held t2 ∖ (if empty (ki_BundleDir inst) then ∅ else {[Overlay (rootfs_of (ki_BundleDir inst))]})).
  { destruct (empty (ki_BundleDir inst)) eqn:He; [unfold teardownImageRootfs; rewrite He; cbn [wp]; by rewrite difference_empty_L|].
    by apply teardown_rootfs_wp. }
  intros t3 _ H3. apply calm_step; [silent_part|]. intros t4 _ H4 _.
  apply silent_held; [silent_part|]. intros t5 _ H5. rewrite H5, H4, H3, <- difference_difference_l_L, <- H1.
  clear -H2. set_solver.
Qed.

(** A deletion took down the machine of the record it read, and nothing when it could read none. *)
Definition deleted k name (before after : gset resource) t : Prop :=
  exists r, existT (P := answer) (FsReadFile (instancePath k name)) r ∈ t /\
    match instance_of r with Some inst => after ⊆ before ∖ machine_of inst | None => after = before end.

Lemma deleted_later k name X Y t t' : t `prefix_of` t' -> deleted k name X Y t -> deleted k name X Y t'.
Proof. intros Hp (r & Hin & Hr). exists r. split; [by eapply elem_of_prefix|done]. Qed.

Lemma Kata_DeleteRestored_wp k name tr :
  wp (Kata_DeleteRestored k (mkID (kataIDPrefix +:+ name))) (fun t r => r = None /\ deleted k name (held tr) (held t) t) tr.
Proof.
  unfold Kata_DeleteRestored. cbn [id_Value]. rewrite StripPrefix_app.
  unfold loadInstance, try_bind, trigger. cbn [bind wp]. intros r.
  set (t0 := tr ++ _). assert (H0 : held t0 = held tr) by (unfold t0; by rewrite held_step).
  assert (Hin : existT (P := answer) (FsReadFile (instancePath k name)) r ∈ t0) by (apply elem_of_app; right; left).
  clearbody t0. destruct r as [raw|err]; cbn [bind wp].
  2: { split; [done|]. by exists (Err err). }
  destruct (Unmarshal_as raw) as [inst|err] eqn:Hraw; cbn [bind wp].
  2: { split; [done|]. exists (Ok raw). split; [done|]. cbn. by rewrite Hraw. }
  unfold then_. apply wp_bind. eapply wp_mono; [apply wp_conj; [apply machine_torn_down_wp|apply wp_prefix]|]. cbv beta. intros t1 _ [H1 Hp].
  apply wp_bind, calm_after; [silent_part|]. intros t2 _ H2 Hp2. cbn [wp]. split; [done|]. exists (Ok raw). split.
  - eapply elem_of_prefix; [exact Hin|by transitivity t1].
  - cbn. rewrite Hraw, H2, <- H0. exact H1.
Qed.
(** ** A restore *)

Lemma processes_snoc cmds pid : processes (cmds ++ [pid]) = processes cmds ∪ {[Process pid]}.
Proof. unfold processes. rewrite fmap_app, list_to_set_app_L. cbn. by rewrite union_empty_r_L. Qed.

(** The daemons of the shares, after those in [cmds]. *)
Definition daemons_run (base : gset resource) t (r : result (list Z)) : Prop :=
  match r with Ok cmds => held t = processes cmds ∪ base | Err _ => held t ⊆ base end.

Lemma daemons_given_up cmds (err : error) (base : gset resource) tr :
  held tr = processes cmds ∪ base -> wp (do! killCmds cmds in Ret (Err err)) (daemons_run base) tr.
Proof.
  intros Htr. unfold then_. apply wp_bind. eapply wp_mono; [apply kill_wp|]. cbv beta. intros t _ Ht.
  cbn. rewrite Ht, Htr. set_solver.
Qed.

Lemma start_daemons_wp k vmDir i shares cmds base tr :
  held tr = processes cmds ∪ base -> wp (start_daemons k vmDir i shares cmds) (daemons_run base) tr.
Proof.
  revert i cmds tr. induction shares as [|share shares IH]; intros i cmds tr Htr; cbn [start_daemons]; [exact Htr|].
  destruct (_ || _); [by apply IH|]. apply calm_step; [silent_part|]. intros t1 [|] H1 _; cbn [negb].
  2: { apply daemons_given_up. by rewrite H1. }
  unfold then_ at 1. apply calm_step; [silent_part|]. intros t2 _ H2 _.
  apply calm_step; [silent_part|]. intros t3 [err|] H3 _; [apply daemons_given_up; by rewrite H3, H2, H1|].
  apply wp_bind. eapply wp_mono; [apply start_wp|]. cbv beta. intros t4 [pid|err] H4.
  2: { unfold then_ at 1. apply calm_step; [silent_part|]. intros t5 _ H5 _. apply daemons_given_up. by rewrite H5, H4, H3, H2, H1. }
  rewrite H3, H2, H1, Htr in H4. clear H3 H2 H1 Htr. apply calm_step; [silent_part|]. intros t5 [err|] H5 _; unfold then_ at 1.
  - apply wp_bind. eapply wp_mono; [apply kill_one_wp|]. cbv beta. intros t6 _ H6. unfold then_ at 1.
    apply calm_step; [silent_part|]. intros t7 _ H7 _. unfold then_. apply wp_bind. eapply wp_mono; [apply kill_wp|].
    cbv beta. intros t8 _ H8. cbn. rewrite H8, H7, H6, H5, H4. set_solver.
  - apply calm_step; [silent_part|]. intros t6 _ H6 _. apply IH. rewrite H6, H5, H4, processes_snoc. set_solver.
Qed.

(** A machine that was resumed: it is recorded, and then its agent answers or it is deleted again. *)
Definition resumed k name (inst : kataInstance) (base : gset resource) t (r : result ID) : Prop :=
  let running := {[Process (ki_PID inst)]} ∪ base in
  recorded k inst t /\
  match r with
  | Ok id => id = mkID (kataIDPrefix +:+ name) /\ held t = running
  | Err _ => deleted k name running (held t) t
  end.

Definition boot_outcome k name (instance : Z -> kataInstance) (base : gset resource) t (b : boot_result) : Prop :=
  match b with
  | (true, r) => held t ⊆ base /\ is_ok r = false
  | (false, r) => exists ch, resumed k name (instance ch) base t r
  end.

Lemma boot_outcome_later k name instance base t t' b :
  held t' = held t -> t `prefix_of` t' -> boot_outcome k name instance base t b -> boot_outcome k name instance base t' b.
Proof.
  intros Hh Hp. destruct b as [[|] r]; cbn; [by rewrite Hh|]. intros (ch & Hr & Hd). exists ch.
  split; [by eapply machine_recorded_prefix|]. destruct r as [id|err]; [by rewrite Hh|]. rewrite Hh. by eapply deleted_later.
Qed.

Lemma await_wp k vsock name slotID tr :
  wp (await_agent k vsock name slotID) (fun t r =>
    match r with
    | Ok id => id = mkID (kataIDPrefix +:+ name) /\ held t = held tr
    | Err _ => deleted k name (held tr) (held t) t
    end) tr.
Proof.
  unfold await_agent, then_. apply calm_step; [silent_part|]. intros t1 [ac|err] H1 _.
  - apply calm_step; [silent_part|]. intros t2 _ H2 _. apply calm_step; [silent_part|]. intros t3 _ H3 _.
    cbn [wp]. by rewrite H3, H2, H1.
  - apply wp_bind. eapply wp_mono; [apply Kata_DeleteRestored_wp|]. cbv beta. rewrite H1. by intros t2 _ [_ Hd].
Qed.

Lemma boot_given_up k name instance base t (err : error) : held t ⊆ base -> boot_outcome k name instance base t (given_up err).
Proof. by split. Qed.

Lemma resume_wp k apiSocket snapDir chErr chLog nets inst base tr :
  held tr = {[Process (ki_PID inst)]} ∪ base ->
  wp (resume_machine k apiSocket snapDir chErr chLog nets inst) (fun t b =>
    match b with
    | (true, r) => held t = held tr /\ is_ok r = false
    | (false, r) => resumed k (ki_Name inst) inst base t r
    end) tr.
Proof.
  intros Htr. unfold resume_machine.
  match goal with |- wp _ ?Q _ => assert (Hfail : forall t0 err, held t0 = held tr ->
    wp (do! trigger (FsSync chErr) in call! e := withCHLog err chErr [chLog; chErr] in Ret (given_up e)) Q t0) end.
  { intros t0 err H0. unfold then_. apply calm_step; [silent_part|]. intros t1 _ H1 _.
    apply calm_step; [silent_part|]. intros t2 e H2 _. cbn [wp given_up]. by rewrite H2, H1, H0. }
  apply calm_step; [silent_part|]. intros t1 [err|] H1 _; [by apply Hfail|].
  apply calm_step; [silent_part|]. intros t2 [err|] H2 _; [apply Hfail; by rewrite H2, H1|].
  apply calm_step; [silent_part|]. intros t3 [err|] H3 _; [apply Hfail; by rewrite H3, H2, H1|].
  apply wp_bind. eapply wp_mono; [apply wp_conj; [apply save_wp|apply (silent_held _ (fun t _ => held t = held t3)); [silent_part|done]]|].
  cbv beta. intros t4 [err|] [Hs H4]; [cbn [wp given_up]; by rewrite H4, H3, H2, H1|]. specialize (Hs eq_refl).
  assert (Hh : held t4 = {[Process (ki_PID inst)]} ∪ base) by (by rewrite H4, H3, H2, H1). apply wp_bind.
  eapply wp_mono; [apply wp_conj; [apply await_wp|apply wp_prefix]|]. cbv beta. rewrite Hh. intros t5 r [Hr Hp]. cbn [wp].
  split; [by eapply machine_recorded_prefix|]. exact Hr.
Qed.

Lemma boot_restored_wp k req meta name vmDir bundle snapDir baseID appImage tr :
  wp (boot_restored k req meta name vmDir bundle snapDir baseID appImage)
    (boot_outcome k name (restored_instance req meta name vmDir bundle baseID appImage) (held tr)) tr.
Proof.
  unfold boot_restored. apply calm_step; [silent_part|]. intros t1 [[nets files]|err] H1 _; [|by apply boot_given_up; rewrite H1].
  rewrite <- H1. apply calm_deferred; [silent_part|intros ???; apply boot_outcome_later|].
  apply calm_step; [silent_part|]. intros t2 [err|] H2 _; [by apply boot_given_up; rewrite H2|].
  rewrite <- H2. apply calm_deferred; [silent_part|intros ???; apply boot_outcome_later|]. unfold then_ at 1.
  apply calm_step; [silent_part|]. intros t3 _ H3 _. apply wp_bind. eapply wp_mono; [apply start_wp|]. cbv beta.
  intros t4 [ch|err] H4; [|by apply boot_given_up; rewrite H4, H3]. rewrite H3 in H4. apply wp_bind.
  eapply wp_mono; [by apply (resume_wp _ _ _ _ _ _ _ (held t2))|]. cbv beta. intros t5 [[|] r]; cbn [fst].
  - intros [H5 Hr]. unfold then_, ignore. apply wp_bind, wp_bind. eapply wp_mono; [apply kill_one_wp|]. cbv beta.
    intros t6 _ H6. cbn [wp]. split; [|done]. rewrite H6. apply take_back. by rewrite H5.
  - intros Hr. cbn. by exists ch.
Qed.
(** What a restore leaves: the machine, or what a deletion of it left. *)
Definition restore_outcome k name bundle (instance : Z -> kataInstance) t (r : result ID) : Prop :=
  match r with
  | Ok id => exists daemons ch, id = mkID (kataIDPrefix +:+ name) /\ recorded k (instance ch) t /\
      held t = processes daemons ∪ {[Process ch; Overlay (rootfs_of bundle)]}
  | Err _ => held t = ∅ \/ exists daemons ch, recorded k (instance ch) t /\
      deleted k name (processes daemons ∪ {[Process ch; Overlay (rootfs_of bundle)]}) (held t) t
  end.

Lemma drop_bundle_wp bundle vmDir tr :
  empty bundle = false -> wp (drop_bundle bundle vmDir) (fun t _ => held t = held tr ∖ {[Overlay (rootfs_of bundle)]}) tr.
Proof.
  intros Hb. unfold drop_bundle, then_. apply wp_bind. eapply wp_mono; [by apply teardown_rootfs_wp|]. cbv beta.
  intros t1 _ H1. apply calm_step; [silent_part|]. intros t2 _ H2 _. apply silent_held; [silent_part|].
  intros t3 _ H3. by rewrite H3, H2.
Qed.

Lemma restore_machine_wp k req meta name vmDir bundle snapDir baseID appImage carrierID tr :
  empty bundle = false -> held tr = ∅ ->
  wp (restore_machine k req meta name vmDir bundle snapDir baseID appImage carrierID)
    (restore_outcome k name bundle (restored_instance req meta name vmDir bundle baseID appImage)) tr.
Proof.
  intros Hb Htr. unfold restore_machine. set (instance := restored_instance _ _ _ _ _ _ _). set (x := Overlay (rootfs_of bundle)).
  assert (Hfail : forall t err, held t ⊆ {[x]} ->
    wp (do! drop_bundle bundle vmDir in Ret (Err err)) (restore_outcome k name bundle instance) t).
  { intros t err Ht. unfold then_. apply wp_bind. eapply wp_mono; [by apply drop_bundle_wp|]. cbv beta. intros t' _ Ht'.
    left. rewrite Ht'. set_solver. }
  apply wp_bind. eapply wp_mono; [apply boot_stage_wp|]. cbv beta. intros t1 [err|] [H1 H1'].
  { apply Hfail. eapply equal_but_one; [exact H1|rewrite Htr; set_solver|set_solver]. }
  specialize (H1' eq_refl). rewrite Htr, union_empty_r_L in H1'. clear H1 Htr tr.
  apply calm_step; [silent_part|]. intros t2 [planned|err] H2 _; [|by apply Hfail; rewrite H2, H1'].
  apply wp_bind. eapply wp_mono; [apply (start_daemons_wp _ _ _ _ [] {[x]})|]; cbv beta.
  { rewrite H2, H1'. unfold processes. cbn. by rewrite union_empty_l_L. }
  intros t3 [daemons|err] H3; [|by apply Hfail]. cbn in H3. apply wp_bind.
  eapply wp_mono; [apply boot_restored_wp|]. cbv beta. fold instance. rewrite H3. intros t4 [[|] r]; cbn [fst snd].
  - intros [H4 Hr]. unfold then_. apply wp_bind, wp_bind. eapply wp_mono; [apply kill_wp|]. cbv beta. intros t5 _ H5.
    eapply wp_mono; [by apply drop_bundle_wp|]. cbv beta. intros t6 _ H6. cbn [wp]. destruct r as [id|err]; [done|].
    left. rewrite H6, H5. unfold processes in *. clear -H4. set_solver.
  - intros (ch & Hrec & Hr). unfold then_. cbn [bind wp]. cbn [ki_PID] in Hr.
    assert (Heq : {[Process (ki_PID (instance ch))]} ∪ (processes daemons ∪ {[x]}) = processes daemons ∪ {[Process ch; x]}).
    { change (ki_PID (instance ch)) with ch. clear. set_solver. }
    rewrite Heq in Hr. destruct r as [id|err].
    + destruct Hr as [Hid Hh]. by exists daemons, ch.
    + right. by exists daemons, ch.
Qed.

Lemma bundle_dir_not_empty k name : empty (bundleDir k name) = false.
Proof. unfold bundleDir. apply path_Join_nonempty with "bundles"; [set_solver|done]. Qed.

(** The metadata of the checkpoint, as it was read. *)
Definition read_meta (req : LoadRequest) (meta : kataMeta) t : Prop :=
  exists raw, existT (P := answer) (FsReadFile (path_Join [ld_SourceDir req; kataMetaFile])) (Ok raw) ∈ t /\
    Unmarshal_as raw = Ok meta.

(** The base id: the file beside the metadata, and the metadata when the file says nothing. *)
Definition base_from (r : result string) (meta : kataMeta) : string :=
  firstNonEmpty [match r with Ok raw => TrimSpace raw | Err _ => "" end; km_BaseID meta].
Definition read_base (snapDir : string) (meta : kataMeta) (baseID : string) t : Prop :=
  exists r, existT (P := answer) (FsReadFile (path_Join [snapDir; kataBaseIDFile])) r ∈ t /\ baseID = base_from r meta.

(** A machine that was restored from a checkpoint: what it keeps of its source. *)
Definition restored_from k req (meta : kataMeta) baseID : Z -> kataInstance :=
  let name := RestoredName (ld_Identity req) in
  restored_instance req meta name (path_Join [kt_StateDir k; name]) (bundle_of k (ld_Identity req)) baseID
    (firstNonEmpty [km_AppImage meta; ld_AppImage req]).
Definition snapshot_dir k req : string := path_Join [path_Join [kt_StateDir k; RestoredName (ld_Identity req)]; "snapshot"].

Lemma read_base_wp snapDir meta tr :
  wp (readKataBaseID snapDir meta) (fun t baseID => held t = held tr /\ read_base snapDir meta baseID t) tr.
Proof.
  unfold readKataBaseID, trigger. cbn [bind wp]. intros r. rewrite held_step. split; [done|].
  exists r. split; [apply elem_of_app; right; left|]. unfold base_from, firstNonEmpty. destruct (r : result string) as [raw|err]; cbn.
  - unfold empty. destruct (bool_decide (TrimSpace raw = "")); cbn; [|done]. by destruct (bool_decide (km_BaseID meta = "")) eqn:Hd; cbn; [apply bool_decide_eq_true in Hd|].
  - by destruct (bool_decide (km_BaseID meta = "")) eqn:Hd; cbn; [apply bool_decide_eq_true in Hd|].
Qed.
(** C30. A restore of a micro-VM is all or nothing, and keeps the identity of its source: when
    [LoadSnapshot] succeeds, the host runs one monitor and the daemons of its shares and holds one
    mount, and the record names the monitor, the container of the metadata and the base id that the
    checkpoint carries, which is not empty. When it fails, every process it started was asked to be
    killed and its mount to be unmounted - or the machine had been recorded and its agent did not
    answer: then it was deleted by its record, which leaves everything where it is if that record
    cannot be read. *)
Theorem kata_restore_all_or_nothing k req :
  let name := RestoredName (ld_Identity req) in
  let root := Overlay (rootfs_of (bundle_of k (ld_Identity req))) in
  always (Kata_LoadSnapshot k req) (fun t r =>
    match r with
    | Ok id => exists meta baseID daemons ch,
        read_meta req meta t /\ read_base (snapshot_dir k req) meta baseID t /\ baseID <> "" /\
        id = mkID (kataIDPrefix +:+ name) /\ recorded k (restored_from k req meta baseID ch) t /\
        held t = processes daemons ∪ {[Process ch; root]}
    | Err _ => held t = ∅ \/ exists meta baseID daemons ch,
        recorded k (restored_from k req meta baseID ch) t /\
        deleted k name (processes daemons ∪ {[Process ch; root]}) (held t) t
    end).
Proof.
  intros name root. unfold always, Kata_LoadSnapshot. destruct (empty (ld_SourceDir req)); [by left|].
  apply wp_try_bind, wp_on_error. unfold readKataMeta, try_bind, trigger at 1. cbn [bind wp]. intros r.
  set (t0 := [] ++ _). assert (H0 : held t0 = ∅) by (unfold t0; by rewrite held_step).
  assert (Hread : forall raw meta, r = Ok raw -> Unmarshal_as raw = Ok meta -> read_meta req meta t0).
  { intros raw meta -> Hu. exists raw. split; [by left|done]. }
  clearbody t0. destruct r as [raw|err]; cbn [bind wp]; [|by left]. specialize (Hread raw).
  destruct (Unmarshal_as raw) as [meta|err]; [|by left]. specialize (Hread meta eq_refl eq_refl). clear raw.
  destruct (empty (km_ContainerID meta)); [by left|]. fold name. change (bundleDir k name) with (bundle_of k (ld_Identity req)).
  unfold then_ at 1. apply wp_bind. eapply wp_mono; [apply wp_conj; [apply shrinks_teardown|apply wp_prefix]|]. cbv beta.
  intros t1 _ [H1 P1]. assert (H1' : held t1 = ∅) by set_solver. clear H1. unfold then_ at 1.
  apply calm_step; [silent_part|]. intros t2 _ H2 P2. apply wp_check_bind, calm_after; [silent_part|].
  intros t3 [err|] H3 P3; [left; by rewrite H3, H2|]. rewrite H2, H1' in H3.
  assert (Hfail : forall t err, held t = ∅ -> wp (do! trigger (FsRemoveAll (path_Join [kt_StateDir k; name])) in Ret (Err err))
    (fun t (r : result ID) => match r with Ok _ => False | Err _ => held t = ∅ end) t).
  { intros t err Ht. unfold then_. apply calm_step; [silent_part|]. intros t' _ Ht' _. cbn. by rewrite Ht'. }
  apply calm_step; [silent_part|]. intros t4 [err|] H4 P4; rewrite H3 in H4.
  { eapply wp_mono; [by apply Hfail|]. intros t [id|err']; [done|]. by left. }
  fold (snapshot_dir k req). apply wp_bind. eapply wp_mono; [apply wp_conj; [apply read_base_wp|apply wp_prefix]|]. cbv beta.
  intros t5 baseID [[H5 Hbase] P5]. rewrite H4 in H5.
  destruct (empty baseID) eqn:Hb; [eapply wp_mono; [by apply Hfail|]; intros t [id|err']; [done|]; by left|].
  destruct (empty (firstNonEmpty _)); [eapply wp_mono; [by apply Hfail|]; intros t [id|err']; [done|]; by left|].
  destruct (empty (kataCarrierID meta)); [eapply wp_mono; [by apply Hfail|]; intros t [id|err']; [done|]; by left|].
  eapply wp_mono; [apply wp_conj; [apply restore_machine_wp; [apply bundle_dir_not_empty|done]|apply wp_prefix]|]. cbv beta.
  intros t6 [id|err] [Hr P6]; cbn in Hr.
  - destruct Hr as (daemons & ch & Hid & Hrec & Hh). exists meta, baseID, daemons, ch. repeat split; [| | |done..].
    + destruct Hread as (raw & Hin & Hu). exists raw. split; [|done]. eapply elem_of_prefix; [exact Hin|].
      by rewrite P1, P2, P3, P4, P5.
    + destruct Hbase as (r' & Hin & Heq). exists r'. split; [by eapply elem_of_prefix|done].
    + by apply bool_decide_eq_false in Hb.
  - destruct Hr as [Hh|(daemons & ch & Hrec & Hd)]; [by left|]. right. by exists meta, baseID, daemons, ch.
Qed.
(** ** The sweep of a sandbox's processes *)

Definition cmdline_file (name : string) : string := path_Join ["/proc"; name; "cmdline"].

(** A command line of a sandbox's monitor or daemon: it contains the id, and its program one of the
    two names. *)
Definition sandbox_command (id cmdline : string) : Prop :=
  Contains cmdline id = true /\ exists argv0, head (Split nul cmdline) = Some argv0 /\
    (Contains argv0 "cloud-hypervisor" = true \/ Contains argv0 "virtiofsd" = true).

Lemma orphan_of_spec id cmdline : orphan_of id cmdline = true <-> sandbox_command id cmdline.
Proof.
  unfold orphan_of, sandbox_command. rewrite andb_true_iff, orb_true_iff. destruct (head _) as [argv0|].
  - split; [intros []; eauto|by intros [? (? & [= <-] & ?)]].
  - split; [by intros [_ [|]]|by intros [_ (? & ? & _)]].
Qed.

(** A process that may be killed for a sandbox: it was listed, it is not the Worker, and the command
    line that was read names the sandbox and one of the two programs. *)
Definition named_by_sandbox (id : string) (pid : Z) t : Prop :=
  pid <> Getpid /\ exists name isDir entries cmdline,
    existT (P := answer) (FsReadDir "/proc") (entries, None) ∈ t /\ (name, isDir) ∈ entries /\ ParseInt name 64 = Some pid /\
    existT (P := answer) (FsReadFile (cmdline_file name)) (Ok cmdline) ∈ t /\ sandbox_command id cmdline.

(** Every process on a list was looked at, and killed when it was one of the sandbox's. *)
Definition looked_at (id : string) t (entry : string * bool) : Prop :=
  forall pid, ParseInt entry.1 64 = Some pid -> pid <> Getpid ->
    exists r, existT (P := answer) (FsReadFile (cmdline_file entry.1)) r ∈ t /\
      forall cmdline, r = Ok cmdline -> sandbox_command id cmdline -> ProcKill pid ∈ calls t.
Definition swept (id : string) (entries : list (string * bool)) t : Prop := Forall (looked_at id t) entries.

Lemma calls_prefix t t' e : t `prefix_of` t' -> e ∈ calls t -> e ∈ calls t'.
Proof. intros [s ->] He. unfold calls in *. rewrite fmap_app. apply elem_of_app. by left. Qed.

Lemma swept_prefix id entries t t' : t `prefix_of` t' -> swept id entries t -> swept id entries t'.
Proof.
  intros Hp Hs. eapply Forall_impl; [exact Hs|]. intros entry He pid Hpid Hne. destruct (He pid Hpid Hne) as (r & Hin & Hr).
  exists r. split; [by eapply elem_of_prefix|]. intros cmdline Hc Ho. eapply calls_prefix; [exact Hp|by eapply Hr].
Qed.

(** ** Mounts and directories *)

Lemma called_last (e : SysE) (r : answer e) t : e ∈ calls (t ++ [existT e r]).
Proof. unfold calls. rewrite fmap_app. apply elem_of_app. right. left. Qed.

(** A mount of the sandbox: the mount point of a line of the table, at or below one of its
    directories. *)
Definition sandbox_mount (id mountinfo mp : string) : Prop :=
  exists (fields : list string) (dir : string), fields ∈ mountinfo_fields mountinfo /\ fields !! 4 = Some mp /\ dir ∈ sandbox_dirs id /\
    (mp = dir \/ HasPrefix mp (dir +:+ "/") = true).

Lemma leftover_mounts_spec `{!HostEnvLaws} id mountinfo mp :
  mp ∈ leftover_mounts (sandbox_dirs id) mountinfo <-> sandbox_mount id mountinfo mp.
Proof.
  unfold leftover_mounts, sandbox_mount. rewrite sort_longest_perm, list_elem_of_omap. split.
  - intros (fields & Hin & Hmp). destruct (fields !! 4) as [mp'|] eqn:Hf; [|done]. unfold mbind, option_bind in Hmp.
    destruct (existsb _ (sandbox_dirs id)) eqn:He; [|done]. injection Hmp as ->. apply existsb_exists in He as (d & Hd & Hor).
    exists fields, d. split; [done|]. split; [done|]. split; [by apply list_elem_of_In|].
    by apply orb_true_iff in Hor as [->%bool_decide_eq_true|]; [left|right].
  - intros (fields & d & Hin & Hf & Hd & Hor). exists fields. split; [done|]. rewrite Hf. unfold mbind, option_bind.
    assert (existsb (fun d => bool_decide (mp = d) || HasPrefix mp (d +:+ "/")) (sandbox_dirs id) = true) as ->; [|done].
    apply existsb_exists. exists d. split; [by apply list_elem_of_In|]. apply orb_true_iff.
    destruct Hor as [->|]; [left; by apply bool_decide_eq_true|by right].
Qed.

(** The mount table was read, and every mount of the sandbox on it was asked to go. *)
Definition unmounts_asked (id : string) t : Prop :=
  exists r, existT (P := answer) (FsReadFile "/proc/self/mountinfo") r ∈ t /\
    forall mountinfo mp, r = Ok mountinfo -> sandbox_mount id mountinfo mp -> MtUnmount mp ∈ calls t.

Lemma unmounts_asked_prefix id t t' : t `prefix_of` t' -> unmounts_asked id t -> unmounts_asked id t'.
Proof.
  intros Hp (r & Hin & Hr). exists r. split; [by eapply elem_of_prefix|]. intros m mp Hm Hs. eapply calls_prefix; [exact Hp|by eapply Hr].
Qed.

(** What the clean-up of a sandbox may destroy, and when. *)
Definition cleans (id : string) t (e : SysE) : Prop :=
  match e with
  | MtUnmount mp => exists mountinfo, existT (P := answer) (FsReadFile "/proc/self/mountinfo") (Ok mountinfo) ∈ t /\ sandbox_mount id mountinfo mp
  | FsRemoveAll dir => dir ∈ sandbox_dirs id /\ unmounts_asked id t
  | ProcKill pid => named_by_sandbox id pid t
  | _ => True
  end.

(** Loops that make one call for each element. *)
Lemma each_called {A} G (f : A -> SysE) l tr :
  (forall t x, tr `prefix_of` t -> x ∈ l -> G t (f x)) ->
  wpg G (foldM (fun _ x => ignore (trigger (f x))) tt l) (fun t _ => tr `prefix_of` t /\ Forall (fun x => f x ∈ calls t) l) tr.
Proof.
  intros HG. apply (wpg_foldM _ _ (fun done t _ => tr `prefix_of` t /\ Forall (fun x => f x ∈ calls t) done) l tt tr []); [done|].
  intros done x t [] [Hp Hd] Hx. unfold ignore, trigger. cbn [bind]. apply wpg_call; [by apply HG|]. intros r. apply wpg_ret.
  split; [by etrans; [exact Hp|eexists]|]. apply Forall_app. split; [|constructor; [apply called_last|done]].
  eapply Forall_impl; [exact Hd|]. intros y. apply calls_prefix. by eexists.
Qed.

Lemma kill_orphans_wpg id tr :
  wpg (cleans id) (kill_orphans id) (fun t _ => exists entries err,
    existT (P := answer) (FsReadDir "/proc") (entries, err) ∈ t /\ (err = None -> swept id entries t)) tr.
Proof.
  unfold kill_orphans, trigger at 1. cbn [bind]. apply wpg_call; [exact I|]. intros [entries [err|]].
  { apply wpg_ret. exists entries, (Some err). split; [apply elem_of_app; right; left|done]. }
  set (t0 := tr ++ _). assert (Hin : existT (P := answer) (FsReadDir "/proc") (entries, None) ∈ t0) by (apply elem_of_app; right; left).
  clearbody t0. eapply wpg_mono; [apply (wpg_foldM _ _ (fun done t _ => t0 `prefix_of` t /\ swept id done t) entries tt t0 []); [by split; [|constructor]|]|].
  2: { intros t [] [Hp Hs]. exists entries, None. split; [by eapply elem_of_prefix|done]. }
  intros done [name isDir] t [] [Hp Hs] Hentry.
  assert (Hdone : forall t2, t `prefix_of` t2 -> looked_at id t2 (name, isDir) -> t0 `prefix_of` t2 /\ swept id (done ++ [(name, isDir)]) t2).
  { intros t2 Hp2 Hl. split; [by etrans|]. apply Forall_app. split; [by eapply swept_prefix|by constructor]. }
  destruct (ParseInt name 64) as [pid|] eqn:Hpid.
  2: { apply wpg_ret, Hdone; [done|]. intros pid Hpid'. cbn in Hpid'. congruence. }
  destruct (pid =? Getpid)%Z eqn:Hself.
  { apply wpg_ret, Hdone; [done|]. intros pid' Hpid' Hne. cbn in Hpid'. apply Z.eqb_eq in Hself. congruence. }
  apply Z.eqb_neq in Hself. unfold trigger at 1. cbn [bind]. apply wpg_call; [exact I|]. intros r.
  set (t1 := t ++ _). assert (Hp1 : t `prefix_of` t1) by (by eexists).
  assert (Hread : existT (P := answer) (FsReadFile (cmdline_file name)) r ∈ t1) by (apply elem_of_app; right; left). clearbody t1.
  assert (Hlater : forall t2, t1 `prefix_of` t2 -> (forall cmdline, r = Ok cmdline -> sandbox_command id cmdline -> ProcKill pid ∈ calls t2) ->
    looked_at id t2 (name, isDir)).
  { intros t2 Hp2 Hk pid' Hpid' _. cbn in Hpid'. assert (pid' = pid) as -> by congruence. exists r. split; [by eapply elem_of_prefix|done]. }
  destruct r as [cmdline|err]; [|by apply wpg_ret, Hdone, Hlater]. destruct (orphan_of id cmdline) eqn:Ho.
  - unfold ignore, trigger. cbn [bind]. apply wpg_call.
    + split; [done|]. exists name, isDir, entries, cmdline. apply orphan_of_spec in Ho.
      split; [eapply elem_of_prefix; [exact Hin|by etrans]|done].
    + intros r2. apply wpg_ret, Hdone; [by etrans; [exact Hp1|eexists]|]. apply Hlater; [by eexists|].
      intros cmdline' _ _. unfold calls. rewrite fmap_app. apply elem_of_app. right. left.
  - apply wpg_ret, Hdone; [done|]. apply Hlater; [done|]. intros cmdline' [= <-] Hc%orphan_of_spec. congruence.
Qed.

(** C35. What the clean-up of a sandbox destroys, exactly. It unmounts a mount point only when the mount
    table that it read lists it at or below a directory of the sandbox, and it unmounts all of
    those; it removes no directory but the two of the sandbox, and those only after it asked for
    every one of these unmounts; it kills a process only when /proc listed it, it is not the
    Worker itself, and the command line that it read contains the id and has a program whose name
    contains that of the monitor or of the daemon, and when /proc can be listed it kills every
    such process. The match is by substring: it also hits the processes of other machines of the
    same base id - restored siblings of one snapshot share it - and would hit every monitor and
    daemon of the host for an empty id, which is why the teardown of a machine skips it then. *)
Theorem cleanup_destroys_exactly `{!HostEnvLaws} id :
  wpg (cleans id) (CleanupSandboxState id) (fun t _ =>
    unmounts_asked id t /\ Forall (fun dir => FsRemoveAll dir ∈ calls t) (sandbox_dirs id) /\
    exists entries err, existT (P := answer) (FsReadDir "/proc") (entries, err) ∈ t /\ (err = None -> swept id entries t)) [].
Proof.
  unfold CleanupSandboxState, then_. apply wpg_bind. unfold trigger at 1. apply wpg_call; [exact I|]. intros r. apply wpg_ret.
  set (t0 := [] ++ _). assert (Hread : existT (P := answer) (FsReadFile "/proc/self/mountinfo") r ∈ t0) by (apply elem_of_app; right; left).
  clearbody t0. apply wpg_bind. eapply wpg_mono with (Q := fun t _ => unmounts_asked id t).
  { destruct r as [b|err]; [|by exists (Err err)].
    eapply wpg_mono; [apply each_called|cbv beta; intros t _ [Hp Hall]].
    - intros t mp Hp Hmp. exists b. split; [by eapply elem_of_prefix|by apply leftover_mounts_spec].
    - exists (Ok b). split; [by eapply elem_of_prefix|]. intros mountinfo mp [= <-] Hmp%leftover_mounts_spec.
      rewrite Forall_forall in Hall. by apply Hall. }
  intros t1 _ H1. apply wpg_bind. eapply wpg_mono; [apply each_called|cbv beta; intros t2 _ [P2 Hd]].
  { intros t d Hp Hd. split; [done|by eapply unmounts_asked_prefix]. }
  eapply wpg_mono; [apply wpg_extends, kill_orphans_wpg|]. cbv beta. intros t _ [Hs Hp].
  split; [eapply unmounts_asked_prefix, H1; by etrans|]. split; [|done].
  eapply Forall_impl; [exact Hd|]. intros d. by apply calls_prefix.
Qed.

(** ** What a teardown asks for *)

Lemma cleanup_removes id tr :
  wp (CleanupSandboxState id) (fun t _ => Forall (fun d => FsRemoveAll d ∈ calls t) (sandbox_dirs id)) tr.
Proof.
  unfold CleanupSandboxState, then_. apply wp_any. intros t0 b. apply wp_any. intros t1 _. apply wp_bind.
  eapply wp_mono; [eapply wpg_wp, (each_called (fun _ _ => True)); done|]. cbv beta. intros t2 _ [_ H2].
  eapply wp_mono; [apply wp_prefix|]. cbv beta. intros t3 _ Hp. eapply Forall_impl; [exact H2|]. intros d. by apply calls_prefix.
Qed.
(** A part that establishes something lasting, and what follows it. *)
Lemma wp_lasting {A B} (p : prog SysE A) (f : A -> prog SysE B) (P : trace SysE -> Prop) Q tr :
  wp p (fun t _ => P t) tr -> (forall t t', t `prefix_of` t' -> P t -> P t') ->
  (forall t a, P t -> wp (f a) Q t) -> wp (bind f p) (fun t b => P t /\ Q t b) tr.
Proof.
  intros Hp Hlast Hf. apply wp_bind. eapply wp_mono; [exact Hp|]. intros t a Ht.
  eapply wp_mono; [apply wp_conj; [apply wp_prefix|by apply Hf]|]. cbv beta. intros t' b [Hpre HQ]. split; [by eapply Hlast|done].
Qed.

Lemma wp_trigger_called (e : SysE) tr : wp (trigger e) (fun t _ => e ∈ calls t) tr.
Proof. unfold trigger. cbn [wp]. intros r. apply called_last. Qed.

Definition api_url (path : string) : string := apiBase +:+ path.

(** Everything a record speaks of was asked to go: the monitor was asked to shut down and was killed,
    the root file system was unmounted, and the directories were removed - those of the base id, the
    bundle, and the machine's own when it lies in the state directory. *)
Definition torn_down k (inst : kataInstance) t : Prop :=
  (empty (ki_APISocket inst) = false ->
     Forall (fun path => SockHttp (ki_APISocket inst) "PUT" (api_url path) None ∈ calls t) ["/api/v1/vm.shutdown"; "/api/v1/vmm.shutdown"]) /\
  ((0 < ki_PID inst)%Z -> ProcKill (ki_PID inst) ∈ calls t) /\
  (empty (ki_BaseID inst) = false -> Forall (fun d => FsRemoveAll d ∈ calls t) (sandbox_dirs (ki_BaseID inst))) /\
  (empty (ki_BundleDir inst) = false -> MtUnmount (rootfs_of (ki_BundleDir inst)) ∈ calls t) /\
  (empty (ki_BundleDir inst) = false -> FsRemoveAll (ki_BundleDir inst) ∈ calls t) /\
  (empty (ki_VMDir inst) = false -> HasPrefix (ki_VMDir inst) (kt_StateDir k) = true -> FsRemoveAll (ki_VMDir inst) ∈ calls t).

Lemma torn_down_prefix k inst t t' : t `prefix_of` t' -> torn_down k inst t -> torn_down k inst t'.
Proof.
  intros Hp (H1 & H2 & H3 & H4 & H5 & H6). assert (Hc : forall e, e ∈ calls t -> e ∈ calls t') by (intros e; by apply calls_prefix).
  repeat split; [intros H; eapply Forall_impl; [by apply H1|]; cbv beta; auto|auto|intros H; eapply Forall_impl; [by apply H3|]; auto|auto..].
Qed.

(** A part made under a condition, which asks for something, and what follows it. *)
Lemma wp_asked {A B} (b : bool) (c : A) (p : prog SysE A) (f : A -> prog SysE B) (P : trace SysE -> Prop) Q tr :
  wp p (fun t _ => P t) tr -> (forall t t', t `prefix_of` t' -> P t -> P t') ->
  (forall t a, wp (f a) Q t) -> wp (bind f (if b then Ret c else p)) (fun t b' => (b = false -> P t) /\ Q t b') tr.
Proof.
  intros Hp Hlast Hf. apply (wp_lasting _ _ (fun t => b = false -> P t)); [|eauto..].
  destruct b; [by cbn|]. by eapply wp_mono.
Qed.

Lemma do_asks socket method path body tr :
  wp (chClient_do socket method path body) (fun t _ => SockHttp socket method (api_url path) (option_map json_text body) ∈ calls t) tr.
Proof. unfold chClient_do, trigger. cbn [bind wp]. intros r. destruct r as [[status msg]|err]; [destruct (300 <=? status)%Z|]; apply called_last. Qed.

Lemma shutdown_asks socket tr :
  wp (chClient_Shutdown socket) (fun t _ =>
    Forall (fun path => SockHttp socket "PUT" (api_url path) None ∈ calls t) ["/api/v1/vm.shutdown"; "/api/v1/vmm.shutdown"]) tr.
Proof.
  unfold chClient_Shutdown, then_. apply wp_bind. eapply wp_mono; [apply do_asks|]. cbv beta. intros t _ H1.
  eapply wp_mono; [apply wp_conj; [apply do_asks|apply wp_prefix]|]. cbv beta. intros t' _ [H2 Hp].
  constructor; [by eapply calls_prefix|by constructor].
Qed.

Lemma teardown_asks k inst tr : wp (teardownInstance k inst) (fun t _ => torn_down k inst t) tr.
Proof.
  unfold teardownInstance, then_, torn_down. apply wp_asked; [apply shutdown_asks| |intros t0 _].
  { intros t t' Hp H. eapply Forall_impl; [exact H|]. cbv beta. intros path. by apply calls_prefix. }
  apply (wp_lasting _ _ (fun t => (0 < ki_PID inst)%Z -> ProcKill (ki_PID inst) ∈ calls t)).
  { destruct (0 <? ki_PID inst)%Z eqn:Hpid; [eapply wp_mono; [apply wp_trigger_called|done]|]. cbn [wp]. lia. }
  { intros t t' Hp Hk Hpid. by eapply calls_prefix, Hk. }
  intros t1 _ _. apply wp_asked; [apply cleanup_removes| |intros t2 _].
  { intros t t' Hp H. eapply Forall_impl; [exact H|]. intros d. by apply calls_prefix. }
  unfold teardownImageRootfs. apply (wp_asked _ tt); [unfold ignore; cbn [bind trigger wp]; intros r; apply called_last| |intros t3 _].
  { intros t t' Hp. by apply calls_prefix. }
  apply wp_asked; [apply wp_trigger_called|intros t t' Hp; by apply calls_prefix|intros t4 _].
  destruct (empty (ki_VMDir inst)); [done|]. destruct (HasPrefix _ _); [|done].
  unfold ignore. cbn [negb andb bind trigger wp]. intros r _ _. apply called_last.
Qed.
End KataFacts.

(** ** The clean-up of one sandbox *)

Module CleanupWitness.
Import HostWitness.
#[local] Existing Instances env env_laws.

Definition table : string := "90 1 0:45 / /run/kata-containers/shared/sandboxes/11111111-aaaa/mounts rw - tmpfs tmpfs rw".
Definition shared_mount : string := "/run/kata-containers/shared/sandboxes/11111111-aaaa/mounts".

Lemma cleanup_destroys_exactly_witness :
  sandbox_mount "11111111-aaaa" table shared_mount /\
  wpg (cleans "11111111-aaaa") (CleanupSandboxState "11111111-aaaa") (fun t _ =>
    unmounts_asked "11111111-aaaa" t /\ Forall (fun dir => FsRemoveAll dir ∈ calls t) (sandbox_dirs "11111111-aaaa") /\
    exists entries err, existT (P := answer) (FsReadDir "/proc") (entries, err) ∈ t /\
      (err = None -> swept "11111111-aaaa" entries t)) [].
Proof.
  split; [|apply cleanup_destroys_exactly]. apply leftover_mounts_spec. apply (bool_decide_eq_true_1 _). by vm_compute.
Defined.
End CleanupWitness.
