(* ===== verification/KataCheckpoint.v ===== *)
(** * Checkpoints of micro-VMs

    A machine is taken down only when its checkpoint is complete; what a checkpoint carries is what
    its restores run with, generation after generation. *)

From S2P Require Import Prelude Prog Compose Strings Slot Topology Json ApiJson Runtime WorkerEnv AgentApi.
From S2P Require Import Host Snapshotters SnapshottersFacts GVisor HostFacts KataData Vmm Guest Kata KataParts KataFacts.

Section KataCheckpoint.
Context {QA : QuantityApi} {HE : HostEnv} {JT : JsonText} {IA : ImageApi} {KL : KataLibs}.
Implicit Types (k : kata) (tr t : trace SysE).

(** ** Calls that matter *)

(** A call that destroys a part of a machine. *)
Definition undoing (e : SysE) : bool :=
  match e with
  | ProcKill _ | MtUnmount _ | FsRemoveAll _ => true
  | SockHttp _ _ url _ => bool_decide (url = api_url "/api/v1/vm.shutdown") || bool_decide (url = api_url "/api/v1/vmm.shutdown")
  | _ => false
  end.
(** The monitor that a call asks for a snapshot of its machine. *)
Definition snapshotted (e : SysE) : option string :=
  match e with SockHttp socket _ url _ => if bool_decide (url = api_url "/api/v1/vm.snapshot") then Some socket else None | _ => None end.
Definition snapshotting (e : SysE) : bool := if snapshotted e then true else false.

Definition harmless (e : SysE) : Prop := undoing e || snapshotting e = false.
Notation plain := (only harmless).

(** A request that the monitor accepted. *)
Definition accepted (socket method path : string) (body : option json) t : Prop :=
  exists status msg, existT (P := answer) (SockHttp socket method (api_url path) (option_map json_text body)) (Ok (status, msg)) ∈ t /\
    (status < 300)%Z.
(** The guest stands still: it was paused before, or it is now. *)
Definition guest_paused (socket : string) t : Prop :=
  accepted socket "PUT" "/api/v1/vm.pause" None t \/
  exists status body info, existT (P := answer) (SockHttp socket "GET" (api_url "/api/v1/vm.info") None) (Ok (status, Ok body)) ∈ t /\
    (status < 300)%Z /\ Unmarshal_as body = Ok info /\ vi_State info = "Paused".

Lemma accepted_prefix socket method path body t t' : t `prefix_of` t' -> accepted socket method path body t -> accepted socket method path body t'.
Proof. intros Hp (s & m & Hin & Hs). exists s, m. split; [by eapply elem_of_prefix|done]. Qed.
Lemma guest_paused_prefix socket t t' : t `prefix_of` t' -> guest_paused socket t -> guest_paused socket t'.
Proof.
  intros Hp [Ha|(s & b & i & Hin & H)]; [left; by eapply accepted_prefix|right]. exists s, b, i. split; [by eapply elem_of_prefix|done].
Qed.

Lemma do_wp socket method path body tr :
  wp (chClient_do socket method path body) (fun t r => r = None -> accepted socket method path body t) tr.
Proof.
  unfold chClient_do, trigger. cbn [bind wp]. intros [[status msg]|err]; [|done].
  destruct (300 <=? status)%Z eqn:Hs; [done|]. intros _. exists status, msg. split; [apply elem_of_app; right; left|lia].
Qed.

Lemma pause_wp socket tr : wp (chClient_Pause socket) (fun t r => r = None -> guest_paused socket t) tr.
Proof.
  unfold chClient_Pause, chClient_state, getJSON, try_bind, trigger. cbn [bind wp]. intros r. set (t0 := tr ++ _).
  assert (Hdo : wp (chClient_do socket "PUT" "/api/v1/vm.pause" None) (fun t r => r = None -> guest_paused socket t) t0).
  { eapply wp_mono; [apply do_wp|]. intros t a Ha Hn. left. by apply Ha. }
  destruct r as [[status [b|err]]|err]; cbn [bind]; try exact Hdo.
  destruct (300 <=? status)%Z eqn:Hs; cbn [bind]; [exact Hdo|]. destruct (Unmarshal_as b) as [info|err] eqn:Hu; cbn [bind]; [|exact Hdo].
  case_bool_decide as Hp; [|exact Hdo]. cbn [wp]. intros _. right. exists status, b, info.
  split; [unfold t0; apply elem_of_app; right; left|]. split; [lia|done].
Qed.

(** ** What a checkpoint consists of *)

(** The machine's own files, the base id and the metadata. *)
Definition checkpoint_written (req : SaveRequest) (inst : kataInstance) (containerID baseID : string) t : Prop :=
  accepted (ki_APISocket inst) "PUT" "/api/v1/vm.snapshot" (Some (snapshot_body (sv_DestDir req))) t /\
  existT (P := answer) (FsWriteFile (path_Join [sv_DestDir req; kataBaseIDFile]) baseID) None ∈ t /\
  exists nets now, existT (P := answer) (FsWriteFile (path_Join [sv_DestDir req; kataMetaFile])
    (MarshalIndent (enc (checkpoint_meta req inst containerID baseID nets now)))) None ∈ t.

Lemma checkpoint_written_prefix req inst c b t t' :
  t `prefix_of` t' -> checkpoint_written req inst c b t -> checkpoint_written req inst c b t'.
Proof.
  intros Hp (Ha & Hb & nets & now & Hm). split; [by eapply accepted_prefix|]. split; [by eapply elem_of_prefix|].
  exists nets, now. by eapply elem_of_prefix.
Qed.

Definition saved_container (req : SaveRequest) (inst : kataInstance) : string := firstNonEmpty [ki_ContainerID inst; sv_ContainerID req].
Definition saved_base (name : string) (inst : kataInstance) : string := firstNonEmpty [ki_BaseID inst; name].
Definition checkpoint_complete (req : SaveRequest) name inst t : Prop :=
  checkpoint_written req inst (saved_container req inst) (saved_base name inst) t.

(** The record of the machine that the request names, as it was read in this run. *)
Definition record_read k (req : SaveRequest) name (inst : kataInstance) t : Prop :=
  StripPrefix (id_Value (sv_ID req)) kataIDPrefix = Some name /\
  exists raw, existT (P := answer) (FsReadFile (instancePath k name)) (Ok raw) ∈ t /\ Unmarshal_as raw = Ok inst.

Lemma record_read_prefix k req name inst t t' : t `prefix_of` t' -> record_read k req name inst t -> record_read k req name inst t'.
Proof. intros Hp (Hn & raw & Hin & Hu). split; [done|]. exists raw. split; [by eapply elem_of_prefix|done]. Qed.

(** What a checkpoint may do, and when: ask the monitor of the record for a snapshot while its guest
    stands still, and destroy something when the checkpoint of that machine is complete. *)
Definition orderly k (req : SaveRequest) t (e : SysE) : Prop :=
  (forall socket, snapshotted e = Some socket ->
     exists name inst, record_read k req name inst t /\ socket = ki_APISocket inst /\ guest_paused socket t) /\
  (undoing e = true -> exists name inst, record_read k req name inst t /\ checkpoint_complete req name inst t).

Lemma harmless_orderly k req t e : harmless e -> orderly k req t e.
Proof. unfold harmless, orderly, snapshotting. destruct (undoing e), (snapshotted e); done. Qed.

(** A harmless part may be made at any time; what it establishes is known of it alone. *)
Lemma plain_part {A} k req (p : prog SysE A) (Q R : trace SysE -> A -> Prop) tr :
  plain p -> wp p R tr -> (forall t a, R t a -> tr `prefix_of` t -> Q t a) -> wpg (orderly k req) p Q tr.
Proof.
  intros Hp HR HQ. eapply wpg_guard with (G := fun _ e => harmless e); [|intros t e; apply harmless_orderly].
  specialize (Hp tr). assert (HR' : wp p (fun t a => Q t a) tr).
  { eapply wp_mono; [apply wp_conj; [exact HR|apply wp_prefix]|]. intros t a [Hr Ht]. by apply HQ. }
  clear HR HQ. revert tr Hp HR'. induction p as [a|e kont IH]; cbn [wpg wp]; intros tr; [done|]. intros [He Hk] HQ. eauto.
Qed.
(** ** The harmless parts *)

Lemma plain_pause socket : plain (chClient_Pause socket).
Proof. unfold chClient_Pause, chClient_state, getJSON, chClient_do. only_parts. Qed.
Lemma plain_exec limit vsock containerID command : plain (execViaAgent limit vsock containerID command).
Proof. unfold execViaAgent, dialAgent. only_parts. Qed.
#[local] Hint Resolve plain_pause plain_exec : silent.
Lemma plain_sync vsock containerID : plain (syncGuestBeforeCheckpoint vsock containerID).
Proof. unfold syncGuestBeforeCheckpoint, logGuestAppFilesBeforePause. only_parts. Qed.
Lemma plain_extents rounds fd logical off data : plain (extent_stats rounds fd logical off data).
Proof. revert off data. induction rounds as [|n IH]; intros off data; cbn [extent_stats]; only_parts; apply IH. Qed.
#[local] Hint Resolve plain_sync plain_extents : silent.
Lemma plain_stats path : plain (logMemoryRangesExtentStats path).
Proof. unfold logMemoryRangesExtentStats. only_parts. Qed.

Lemma plain_region chunks src dst remaining copied : plain (copy_region chunks src dst remaining copied).
Proof. revert remaining copied. induction chunks as [|n IH]; intros remaining copied; cbn [copy_region]; only_parts; apply IH. Qed.
#[local] Hint Resolve plain_region plain_stats : silent.
Lemma plain_sparse rounds src dst size off copied : plain (copy_sparse rounds src dst size off copied).
Proof. revert off copied. induction rounds as [|n IH]; intros off copied; cbn [copy_sparse]; only_parts; apply IH. Qed.
#[local] Hint Resolve plain_sparse : silent.
Lemma plain_copy_over d tmp rename : plain rename -> plain (copy_over d tmp rename).
Proof. intros Hr. unfold copy_over, with_file, copySparseRegions. only_parts; done. Qed.
Lemma plain_merge base delta : plain (MergeDeltaIntoBase base delta).
Proof.
  unfold MergeDeltaIntoBase, MergeSparseOverlay, with_file.
  repeat first [apply plain_copy_over | progress only_parts].
Qed.
#[local] Hint Resolve plain_merge : silent.
Lemma plain_merge_source snapshotDir destDir : plain (merge_restore_source snapshotDir destDir).
Proof. unfold merge_restore_source. only_parts. Qed.
Lemma plain_write_meta req inst c b : plain (write_checkpoint_meta req inst c b).
Proof. unfold write_checkpoint_meta, readNetDevicesFromConfig. only_parts. Qed.

Lemma write_meta_wp req inst c b tr :
  wp (write_checkpoint_meta req inst c b) (fun t r => r = None ->
    existT (P := answer) (FsWriteFile (path_Join [sv_DestDir req; kataBaseIDFile]) b) None ∈ t /\
    exists nets now, existT (P := answer) (FsWriteFile (path_Join [sv_DestDir req; kataMetaFile])
      (MarshalIndent (enc (checkpoint_meta req inst c b nets now)))) None ∈ t) tr.
Proof.
  unfold write_checkpoint_meta, fails_first. apply wp_bind, wp_on_failure. unfold trigger at 1. cbn [wp].
  intros [err|]; [done|]. set (t0 := tr ++ _).
  assert (H0 : existT (P := answer) (FsWriteFile (path_Join [sv_DestDir req; kataBaseIDFile]) b) None ∈ t0) by (apply elem_of_app; right; left).
  clearbody t0. apply wp_bind. eapply wp_mono; [apply wp_prefix|]. intros t1 nets P1. apply wp_bind.
  unfold trigger. cbn [wp]. intros now r Hr. split; [rewrite !elem_of_app; left; left; by eapply elem_of_prefix|].
  exists nets, now. rewrite <- Hr. apply elem_of_app. right. left.
Qed.
(** ** The checkpoint as a whole *)

(** Nothing was destroyed. *)
Definition machine_kept t : Prop := Forall (fun ev => undoing (projT1 ev) = false) t.

Lemma plain_kept {A} (p : prog SysE A) tr : plain p -> machine_kept tr -> wp p (fun t _ => machine_kept t) tr.
Proof.
  intros Hp Ht. apply (wpg_wp (fun _ e => harmless e)). specialize (Hp tr). revert tr Ht Hp.
  induction p as [a|e kont IH]; cbn [wpg]; intros tr Ht; [done|]. intros [He Hk]. split; [done|]. intros r. apply IH; [|done].
  apply Forall_app. split; [done|]. constructor; [|done]. cbn. unfold harmless in He. by destruct (undoing e).
Qed.

(** The next part of a checkpoint that has destroyed nothing. *)
Lemma next_part {A B} k req (p : prog SysE A) (f : A -> prog SysE B) (R : trace SysE -> A -> Prop) Q tr :
  plain p -> machine_kept tr -> wp p R tr ->
  (forall t a, machine_kept t -> R t a -> tr `prefix_of` t -> wpg (orderly k req) (f a) Q t) -> wpg (orderly k req) (bind f p) Q tr.
Proof.
  intros Hp Ht HR Hf. apply wpg_bind. eapply plain_part; [done|by apply wp_conj; [exact HR|apply plain_kept]|].
  cbv beta. intros t a [Ha Hk] Hpre. by apply Hf.
Qed.

Lemma wrapped_wp f (p : prog SysE (option error)) (P : trace SysE -> Prop) tr :
  wp p (fun t r => r = None -> P t) tr -> wp (on_failure f p) (fun t r => r = None -> P t) tr.
Proof. intros Hp. apply wp_on_failure. eapply wp_mono; [exact Hp|]. by intros t [err|]. Qed.

(** After the metadata is written everything is allowed. *)
Lemma taken_down {A} k req name inst (p : prog SysE A) (Q : trace SysE -> A -> Prop) tr :
  record_read k req name inst tr -> checkpoint_complete req name inst tr -> only (fun e => snapshotting e = false) p -> wp p Q tr ->
  wpg (orderly k req) p Q tr.
Proof.
  intros Hr Hc Hp HQ. specialize (Hp tr). revert tr Hr Hc Hp HQ. induction p as [a|e kont IH]; cbn [wpg wp]; intros tr Hr Hc; [done|].
  intros [He Hk] HQ. split.
  - unfold snapshotting in He. split; [by destruct (snapshotted e)|]. intros _. by exists name, inst.
  - intros r. apply IH; [..|done|done]; [by eapply record_read_prefix; [eexists|]|by eapply checkpoint_written_prefix; [eexists|]].
Qed.

Lemma teardown_snapshots_not k inst : only (fun e => snapshotting e = false) (teardownInstance k inst).
Proof.
  unfold teardownInstance, chClient_Shutdown, chClient_do, CleanupSandboxState, kill_orphans, teardownImageRootfs. only_parts.
Qed.

Definition checkpoint_outcome k (req : SaveRequest) name inst t (r : option error) : Prop :=
  match r with
  | None => record_read k req name inst t /\ checkpoint_complete req name inst t /\ torn_down k inst t
  | Some _ => machine_kept t
  end.

Lemma checkpoint_instance_wp k req name inst tr :
  record_read k req name inst tr -> machine_kept tr ->
  wpg (orderly k req) (checkpoint_instance k req name inst) (checkpoint_outcome k req name inst) tr.
Proof.
  intros Hrec Ht. unfold checkpoint_instance. fold (saved_container req inst) (saved_base name inst).
  destruct (empty (saved_container req inst)); [done|]. unfold fails_first, then_.
  eapply (next_part _ _ _ _ (fun _ _ => True)); [silent_part|done|apply wp_true|]. intros t1 [err|] H1 _ P1; [done|].
  eapply (next_part _ _ _ _ (fun _ _ => True)); [silent_part|done|apply wp_true|]. intros t2 _ H2 _ P2.
  eapply next_part; [silent_part|done|apply wrapped_wp, pause_wp|]. intros t3 [err|] H3 Hpaused P3; [done|].
  specialize (Hpaused eq_refl). assert (Hrec3 : record_read k req name inst t3) by (eapply record_read_prefix, Hrec; by rewrite P1, P2).
  unfold on_failure at 1, chClient_Snapshot, chClient_do, trigger. apply wpg_bind, wpg_bind, wpg_bind.
  apply wpg_call. { split; [|done]. intros socket [= <-]. by exists name, inst. }
  intros answer_. set (t4 := t3 ++ _). assert (H4 : machine_kept t4) by (apply Forall_app; split; [done|by constructor]).
  apply wpg_ret, wpg_ret. destruct answer_ as [[status msg]|err]; [|done]. destruct (300 <=? status)%Z eqn:Hs; [done|].
  assert (Hacc : accepted (ki_APISocket inst) "PUT" "/api/v1/vm.snapshot" (Some (snapshot_body (sv_DestDir req))) t4).
  { exists status, msg. split; [apply elem_of_app; right; left|lia]. }
  assert (Hrec4 : record_read k req name inst t4) by (by eapply record_read_prefix; [eexists|]). clearbody t4. apply wpg_ret.
  eapply (next_part _ _ _ _ (fun _ _ => True)); [apply plain_stats|done|apply wp_true|]. intros t5 _ H5 _ P5.
  eapply (next_part _ _ _ _ (fun _ _ => True)); [apply plain_merge_source|done|apply wp_true|]. intros t6 [err|] H6 _ P6; [done|].
  eapply next_part; [apply plain_write_meta|done|apply write_meta_wp|]. intros t7 [err|] H7 Hmeta P7; [done|].
  destruct (Hmeta eq_refl) as (Hb & nets & now & Hm).
  assert (Hrec7 : record_read k req name inst t7) by (eapply record_read_prefix, Hrec4; by rewrite P5, P6).
  assert (Hc : checkpoint_complete req name inst t7).
  { split; [eapply accepted_prefix; [|exact Hacc]; by rewrite P5, P6|]. split; [done|]. by exists nets, now. }
  apply wpg_bind. apply (taken_down k req name inst); [done|done|apply teardown_snapshots_not|].
  eapply wp_mono; [apply wp_conj; [apply teardown_asks|apply wp_prefix]|]. cbv beta. intros t _ [Hk Hp].
  apply wpg_ret. split; [by eapply record_read_prefix|]. split; [by eapply checkpoint_written_prefix|done].
Qed.
(** C31. A machine survives a checkpoint that fails. [SaveSnapshot] reads the record of the machine that
    the request names; it asks the monitor of that record, and no other, for a snapshot, and only
    while that monitor's guest stands still; and it destroys nothing - kills no process, unmounts
    nothing, removes no directory, shuts no monitor down - before that machine's files, base id and
    metadata are all written. In a checkpoint that succeeds everything the record speaks of is
    then asked to go: the monitor to shut down, its process to be killed, the root file system to be
    unmounted and the directories to be removed. In one that fails nothing was destroyed. *)
Theorem machine_kept_until_saved k req :
  wpg (orderly k req) (Kata_SaveSnapshot k req) (fun t r =>
    match r with
    | None => exists name inst, record_read k req name inst t /\ checkpoint_complete req name inst t /\ torn_down k inst t
    | Some _ => machine_kept t
    end) [].
Proof.
  unfold Kata_SaveSnapshot, saveSelfManagedSnapshot.
  destruct (empty _); [by constructor|]. destruct (negb _); [by constructor|].
  destruct (StripPrefix _ _) as [name|] eqn:Hname; [|by constructor].
  eapply (next_part _ _ _ _ (fun t r => forall inst, r = Ok inst -> record_read k req name inst t)); [unfold loadInstance; silent_part|by constructor| |].
  { apply wp_on_error. unfold loadInstance, try_bind, trigger. cbn [bind wp]. intros [raw|err]; [|done].
    destruct (Unmarshal_as raw) as [inst|err] eqn:Hraw; [|done]. intros inst' [= <-]. split; [done|]. exists raw. split; [left|done]. }
  intros t1 [inst|err] H1 Hrec _; [|done]. eapply wpg_mono; [apply checkpoint_instance_wp; [by apply Hrec|done]|].
  intros t [err|] Hr; [done|]. by exists name, inst.
Qed.

(** ** Metadata *)

#[export, refine] Instance virtiofsShare_laws : JsonLaws virtiofsShare := { valid x :=
  valid (vs_Tag x) /\ valid (vs_SharedDir x) /\ valid (vs_Socket x) }.
Proof. solve_json. Defined.

#[export, refine] Instance kataNetDevice_laws : JsonLaws kataNetDevice := { valid x :=
  valid (nd_ID x) /\ in_int64 (nd_QueuePairs x) }.
Proof. solve_json. Defined.
Lemma time_field_dec {T} key (set : string -> T -> T) s cur :
  is_time s = true -> f_dec (time_field key set) (JStr s) cur = Some (set s cur).
Proof. intros Ht. unfold time_field, f_dec. by rewrite Ht. Qed.

Ltac field_value ::=
  first [ apply json_field_dec; [reflexivity|assumption || done]
        | apply int_field_dec; unfold in_int32, in_int64, int32_min, int32_max in *; lia
        | apply time_field_dec; assumption ].
Ltac omitted ::=
  let H := fresh in intros H;
  first [apply bool_decide_eq_true in H | apply Nat.eqb_eq, nil_length_inv in H]; simpl in H; subst; reflexivity.

#[export, refine] Instance kataMeta_laws : JsonLaws kataMeta := { valid x :=
  valid (km_SourceSandboxID x) /\ valid (km_ContainerID x) /\ valid (km_AppImage x) /\ valid (km_AppContainerName x) /\
  valid (km_BaseID x) /\ valid (km_VirtiofsShares x) /\ valid (km_NetDevices x) /\ is_time (km_SavedAt x) = true }.
Proof. solve_json. Defined.
(** ** Its text *)

(** The members of an object, each readable. *)
Definition members_readable (members : list (string * json)) : Prop := Forall (fun kv => utf8 kv.1 /\ readable kv.2) members.

Lemma readable_object members : members_readable members -> readable (JObj members).
Proof. intros Hm. apply readable_obj; (eapply Forall_impl; [exact Hm|]); by intros kv []. Qed.
Lemma members_omitempty b key j members : utf8 key -> readable j -> members_readable members -> members_readable (omitempty b key j ++ members).
Proof. intros Hk Hj Hm. apply Forall_app. split; [destruct b; by repeat constructor|done]. Qed.
Lemma members_cons key j members : utf8 key -> readable j -> members_readable members -> members_readable ((key, j) :: members).
Proof. by repeat constructor. Qed.
Lemma readable_list {T} `{Json T} (l : list T) : Forall (fun x => readable (enc x)) l -> readable (enc l).
Proof. intros Hl. constructor. by apply Forall_fmap. Qed.

Ltac readable_members :=
  repeat first
    [ apply members_omitempty; [done| |]
    | apply members_cons; [done| |]
    | match goal with |- members_readable (omitempty ?b ?k ?j) => rewrite <- (app_nil_r (omitempty b k j)) end
    | by apply Forall_nil
    | by apply readable_string
    | by constructor ].

Lemma readable_share (s : virtiofsShare) : valid s -> readable (enc s).
Proof. destruct s as [tag dir socket]. intros (Ht & Hd & Hs). apply readable_object. readable_members. Qed.
Lemma readable_device (d : kataNetDevice) : valid d -> readable (enc d).
Proof. destruct d as [id qp]. intros (Hi & _). apply readable_object. readable_members. Qed.
Lemma readable_meta (m : kataMeta) : valid m -> utf8 (km_SavedAt m) -> readable (enc m).
Proof.
  destruct m as [src c im app b shares nets at_]. intros (H1 & H2 & H3 & H4 & H5 & H6 & H7 & _) Hat.
  cbn [km_SourceSandboxID km_ContainerID km_AppImage km_AppContainerName km_BaseID km_VirtiofsShares km_NetDevices km_SavedAt] in *.
  apply readable_object.
  readable_members; apply readable_list.
  - eapply Forall_impl; [exact H6|apply readable_share].
  - eapply Forall_impl; [exact H7|apply readable_device].
Qed.

Lemma meta_read_back `{!JsonTextLaws} (m : kataMeta) : valid m -> utf8 (km_SavedAt m) -> Unmarshal_as (MarshalIndent (enc m)) = Ok m.
Proof.
  intros Hv Hat. unfold Unmarshal_as. rewrite unmarshal_marshal by (by apply readable_meta). unfold decode. by rewrite dec_enc.
Qed.

(** ** Generations *)

(** The machines that come from one cold boot: restores, under any identity and in any Slot, of
    checkpoints of such machines. A restore reads the metadata and the base id that the checkpoint
    wrote. *)
Inductive generation (req : CreateRequest) : kataInstance -> Prop :=
  | first_generation name vmDir bundle pid :
      generation req (booted_instance req name vmDir bundle (kataSandboxID (cr_Identity req)) pid)
  | next_generation k save load name inst nets now meta meta' pid :
      generation req inst ->
      meta = checkpoint_meta save inst (saved_container save inst) (saved_base name inst) nets now ->
      valid meta -> utf8 now -> Unmarshal_as (MarshalIndent (enc meta)) = Ok meta' ->
      generation req (restored_from k load meta' (base_from (Ok (saved_base name inst)) meta') pid).

Lemma firstNonEmpty_head v rest : v <> "" -> firstNonEmpty (v :: rest) = v.
Proof. intros Hv. unfold firstNonEmpty. cbn. by rewrite bool_decide_eq_false_2. Qed.

Lemma stable_carrier name reqName : name <> "" -> kataStableCarrierName (kataOverlayWorkloadID name) reqName = name.
Proof.
  intros Hn. unfold kataStableCarrierName, kataOverlayWorkloadID. rewrite TrimSuffix_app. unfold empty.
  rewrite !bool_decide_eq_false_2; [done| |done]. intros Heq. apply (f_equal String.length) in Heq.
  rewrite length_app_string in Heq. cbn in Heq. lia.
Qed.

Lemma workload_id_nonempty name : kataOverlayWorkloadID name <> "".
Proof. unfold kataOverlayWorkloadID. intros Heq. apply (f_equal String.length) in Heq. rewrite length_app_string in Heq. cbn in Heq. lia. Qed.

(** C32. The identity of a machine is frozen: through any number of checkpoints and restores, under
    whatever identities and in whatever Slots, a machine keeps the container id and the base id of
    its cold boot; and every checkpoint on the way records the carrier of that boot, whatever name
    the request gives. *)
Theorem lineage_frozen `{!JsonTextLaws} req inst :
  id_Name (cr_Identity req) <> "" ->
  kataSandboxID (cr_Identity req) <> "" -> TrimSpace (kataSandboxID (cr_Identity req)) = kataSandboxID (cr_Identity req) ->
  generation req inst ->
  ki_ContainerID inst = kataOverlayWorkloadID (id_Name (cr_Identity req)) /\
  ki_BaseID inst = kataSandboxID (cr_Identity req) /\
  forall save name nets now,
    kataCarrierID (checkpoint_meta save inst (saved_container save inst) (saved_base name inst) nets now) = id_Name (cr_Identity req).
Proof.
  intros Hname Hbase Htrim Hgen.
  cut (ki_ContainerID inst = kataOverlayWorkloadID (id_Name (cr_Identity req)) /\ ki_BaseID inst = kataSandboxID (cr_Identity req)).
  { intros [Hc Hb]. split; [done|]. split; [done|]. intros save name nets now. unfold saved_container, checkpoint_meta, kataCarrierID.
    cbn [km_AppContainerName]. rewrite Hc, firstNonEmpty_head by apply workload_id_nonempty. rewrite stable_carrier by done.
    unfold empty. by rewrite bool_decide_eq_false_2. }
  induction Hgen as [name vmDir bundle pid|k save load name inst nets now meta meta' pid _ [IHc IHb] Hmeta Hv Hnow Hread]; [done|].
  assert (meta' = meta) as ->.
  { rewrite (meta_read_back meta) in Hread; [congruence|done|by subst meta]. }
  assert (Hb : saved_base name inst = kataSandboxID (cr_Identity req)) by (unfold saved_base; by rewrite IHb, firstNonEmpty_head).
  subst meta. unfold restored_from, restored_instance, base_from. cbn [ki_ContainerID ki_BaseID checkpoint_meta km_ContainerID].
  rewrite Hb, Htrim, firstNonEmpty_head by done. split; [|done]. unfold saved_container.
  rewrite IHc. apply firstNonEmpty_head, workload_id_nonempty.
Qed.
End KataCheckpoint.

(** ** Two generations of a machine *)

Module CheckpointWitness.
Import HostWitness.
#[local] Existing Instances ZQuantity codec codec_laws env.

Definition boot : CreateRequest := mkCreateRequest _ (mkIdentity "ns" "app" "11111111-aaaa") 1 no_resources (mkContainerConfig "python:3.12" ["/bin/run"] [] []).
Definition host_kata : kata := mkKata "/opt/bin/cloud-hypervisor" "/opt/bin/virtiofsd" "/var/lib/kata".
Definition first : kataInstance := booted_instance boot "app-11111111" "/run/vc/vm/11111111-aaaa" "/var/lib/kata/bundles/app-11111111" "11111111-aaaa" 101.
(** The request of the checkpoint names another container, which changes nothing. *)
Definition saving : SaveRequest := mkSaveRequest (mkID "kata:app-11111111") "/snap" "" "renamed" "python:3.12".
Definition loading : LoadRequest := mkLoadRequest "/snap" (mkIdentity "ns" "child" "22222222-bbbb") 2 "".
Definition first_meta : kataMeta :=
  checkpoint_meta saving first (saved_container saving first) (saved_base "app-11111111" first) [mkNetDevice "_net0" 1] "2026-01-01T00:00:00Z".
Definition second : kataInstance := restored_from host_kata loading first_meta "11111111-aaaa" 102.

Lemma lineage_frozen_witness :
  ki_ContainerID second = "app_ovl" /\ ki_BaseID second = "11111111-aaaa" /\
  forall save name nets now,
    kataCarrierID (checkpoint_meta save second (saved_container save second) (saved_base name second) nets now) = "app".
Proof.
  apply (lineage_frozen boot second); [done|done|by vm_compute|].
  assert (Hv : valid first_meta).
  { assert (Htext : forall s, bool_decide (utf8 s) = true -> @valid string _ _ s) by (intros s; apply bool_decide_eq_true_1).
    split; [by apply Htext|]. do 4 (split; [by apply Htext|]).
    split; [|split; [|done]]; apply Forall_singleton; (split; [by apply Htext|]).
    - by split; apply Htext.
    - by cbn. }
  apply (next_generation boot host_kata saving loading "app-11111111" first [mkNetDevice "_net0" 1] "2026-01-01T00:00:00Z" first_meta first_meta).
  - constructor.
  - done.
  - done.
  - by vm_compute.
  - by apply meta_read_back; [|vm_compute].
Defined.
End CheckpointWitness.
