(* ===== verification/KataMerge.v ===== *)
(** * The merge of memory images (ch/merge.go)

    A file system with sparse files, as far as the merge uses it, and what the merge makes of a base
    and a delta on it: the base, with the data of the delta over it. *)

From Stdlib Require String.
From S2P Require Import Prelude Prog Compose Strings Slot Json Runtime WorkerEnv AgentApi Host Snapshotters KataData Vmm Kata.

(** ** Sparse files

    A cell of a file is a byte of data, or in a hole and reads as zero. *)

Definition cell : Type := option ascii.
Definition byte_of (c : cell) : ascii := default Ascii.zero c.
Definition contents (f : list cell) : list ascii := byte_of <$> f.
Definition read_text (f : list cell) : string := String.string_of_list_ascii (contents f).
Definition written (data : string) : list cell := Some <$> String.list_ascii_of_string data.

Definition is_data (c : cell) : bool := match c with Some _ => true | None => false end.
(** The first cell at or after a place that is data, or a hole. *)
Fixpoint find_cell (data : bool) (f : list cell) : option nat :=
  match f with
  | [] => None
  | c :: f' => if Bool.eqb (is_data c) data then Some 0 else S <$> find_cell data f'
  end.
Definition next_cell (data : bool) (f : list cell) (off : nat) : option nat := Nat.add off <$> find_cell data (drop off f).

(** A write inside a file. *)
Definition splice (f : list cell) (off : nat) (d : list cell) : list cell := take off f ++ d ++ drop (off + length d) f.

(** The data of one file over another. *)
Definition over (base delta : list cell) : list cell := zip_with (fun b d => if is_data d then d else b) base delta.
(** The same, as far as a place. *)
Definition merged (base delta : list cell) (off : nat) : list cell := take off (over base delta) ++ drop off base.

Lemma find_cell_Some data f i :
  find_cell data f = Some i ->
  (exists c, f !! i = Some c /\ is_data c = data) /\ forall j c, j < i -> f !! j = Some c -> is_data c = negb data.
Proof.
  revert i. induction f as [|c f IH]; intros i; cbn; [done|]. destruct (Bool.eqb (is_data c) data) eqn:Hc.
  - intros [= <-]. split; [exists c; split; [done|by apply eqb_prop in Hc]|]. intros j c' Hj. lia.
  - intros Hi. apply fmap_Some in Hi as (i' & Hi & ->). destruct (IH i' Hi) as [Hat Hbefore]. split; [done|].
    intros [|j] c' Hj; cbn; [|apply Hbefore; lia]. intros [= <-]. by destruct (is_data c), data.
Qed.

Lemma find_cell_None data f j c : find_cell data f = None -> f !! j = Some c -> is_data c = negb data.
Proof.
  revert j. induction f as [|c' f IH]; intros j; cbn; [done|]. destruct (Bool.eqb (is_data c') data) eqn:Hc; [done|].
  intros Hf%fmap_None. destruct j as [|j]; cbn; [|by apply IH]. intros [= <-]. by destruct (is_data c'), data.
Qed.

(** What is at the place that was found, and what is before it. *)
Lemma next_cell_Some data f off i :
  next_cell data f off = Some i ->
  off <= i < length f /\ (exists c, f !! i = Some c /\ is_data c = data) /\
  forall j c, off <= j < i -> f !! j = Some c -> is_data c = negb data.
Proof.
  unfold next_cell. intros Hi. apply fmap_Some in Hi as (i' & Hf & ->). apply find_cell_Some in Hf as [(c & Hc & Hd) Hb].
  rewrite lookup_drop in Hc. split; [apply lookup_lt_Some in Hc; lia|]. split; [by exists c|].
  intros j c' Hj Hc'. apply (Hb (j - off)); [lia|]. rewrite lookup_drop. by replace (off + (j - off)) with j by lia.
Qed.

Lemma next_cell_None data f off j c : next_cell data f off = None -> off <= j -> f !! j = Some c -> is_data c = negb data.
Proof.
  unfold next_cell. intros Hf%fmap_None Hj Hc. eapply (find_cell_None _ _ (j - off)); [exact Hf|].
  rewrite lookup_drop. by replace (off + (j - off)) with j by lia.
Qed.

(** ** The merge, cell by cell *)

Section Merged.
Context (base delta : list cell) (Hlen : length delta = length base).

Lemma over_length : length (over base delta) = length base.
Proof. unfold over. rewrite length_zip_with. lia. Qed.

Lemma merged_length off : length (merged base delta off) = length base.
Proof. unfold merged. rewrite length_app, length_take, length_drop, over_length. lia. Qed.

Lemma lookup_merged off j : merged base delta off !! j = if decide (j < off) then over base delta !! j else base !! j.
Proof.
  unfold merged. pose proof over_length as Ho. case_decide as Hj.
  - destruct (decide (j < length base)).
    + rewrite lookup_app_l by (rewrite length_take; lia). by rewrite lookup_take_lt.
    + rewrite !(proj2 (lookup_ge_None _ _)); [done|lia|]. rewrite length_app, length_take, length_drop. lia.
  - destruct (decide (off <= length base)).
    + rewrite lookup_app_r by (rewrite length_take; lia). rewrite lookup_drop, length_take, Ho. f_equal. lia.
    + rewrite !(proj2 (lookup_ge_None _ _)); [done|lia|]. rewrite length_app, length_take, length_drop. lia.
Qed.

Lemma merged_none : merged base delta 0 = base.
Proof. done. Qed.
Lemma merged_all off : length base <= off -> merged base delta off = over base delta.
Proof.
  intros Hoff. unfold merged. rewrite (drop_ge base), app_nil_r by lia. rewrite take_ge; [done|]. rewrite over_length. lia.
Qed.

Lemma lookup_over j : over base delta !! j = match base !! j, delta !! j with
  | Some b, Some d => Some (if is_data d then d else b) | _, _ => None end.
Proof. unfold over. rewrite lookup_zip_with. by destruct (base !! j), (delta !! j). Qed.

(** Nothing is to be done for a hole. *)
Lemma merged_hole off to :
  off <= to -> (forall j c, off <= j < to -> delta !! j = Some c -> is_data c = false) ->
  merged base delta to = merged base delta off.
Proof.
  intros Hle Hhole. apply list_eq. intros j. rewrite !lookup_merged. repeat case_decide; try done; try lia.
  rewrite lookup_over. destruct (base !! j) as [b|] eqn:Hb; [|done].
  assert (Hd : exists d, delta !! j = Some d) by (apply lookup_lt_is_Some; apply lookup_lt_Some in Hb; lia).
  destruct Hd as [d Hd]. rewrite Hd. by rewrite (Hhole j d) by (done || lia).
Qed.

(** The data of a region, written over what is merged so far. *)
Lemma merged_data off n :
  off + n <= length base -> (forall j c, off <= j < off + n -> delta !! j = Some c -> is_data c = true) ->
  splice (merged base delta off) off (take n (drop off delta)) = merged base delta (off + n).
Proof.
  intros Hle Hdata. assert (Hd : length (take n (drop off delta)) = n) by (rewrite length_take, length_drop; lia).
  assert (Hm : length (merged base delta off) = length base) by apply merged_length.
  apply list_eq. intros j. rewrite lookup_merged. unfold splice. rewrite Hd.
  destruct (decide (j < off)) as [Hj|Hj].
  - rewrite lookup_app_l by (rewrite length_take; lia). rewrite lookup_take_lt, lookup_merged by lia.
    by rewrite !decide_True by lia.
  - rewrite lookup_app_r by (rewrite length_take; lia). rewrite length_take, Hm, (Nat.min_l off) by lia.
    destruct (decide (j < off + n)) as [Hj'|Hj'].
    + rewrite lookup_app_l by lia. rewrite lookup_take_lt, lookup_drop, lookup_over by lia.
      replace (off + (j - off)) with j by lia.
      destruct (lookup_lt_is_Some_2 base j) as [b Hb]; [lia|]. destruct (lookup_lt_is_Some_2 delta j) as [d Hdj]; [lia|].
      rewrite Hb, Hdj. by rewrite (Hdata j d) by (done || lia).
    + rewrite lookup_app_r by lia. rewrite Hd, lookup_drop, lookup_merged, decide_False by lia. f_equal. lia.
Qed.
End Merged.

(** ** The file system

    Names, files, and open descriptors with their positions. *)

Record disk := mkDisk {
  d_names : gmap string nat;
  d_files : gmap nat (list cell);
  d_fds : gmap Z (nat * nat);
}.
Definition named (D : disk) (path : string) (f : list cell) : Prop :=
  exists i, d_names D !! path = Some i /\ d_files D !! i = Some f.
Definition opened (D : disk) (fd : Z) (i p : nat) (f : list cell) : Prop :=
  d_fds D !! fd = Some (i, p) /\ d_files D !! i = Some f.

Definition set_names g (D : disk) : disk := mkDisk (g (d_names D)) (d_files D) (d_fds D).
Definition set_files g (D : disk) : disk := mkDisk (d_names D) (g (d_files D)) (d_fds D).
Definition set_fds g (D : disk) : disk := mkDisk (d_names D) (d_files D) (g (d_fds D)).

Section Disk.
Context {HE : HostEnv} {JT : JsonText}.

(** An error of the host is not the mark of the model for a loop that ran out of rounds. *)
Definition foreign (err : error) : Prop := err <> out_of_rounds.

(** What may be answered, and what is true then. Every call may fail; of a failed write, read or
    command nothing is known. *)
Definition file_system (D : disk) (e : SysE) : answer e -> disk -> Prop :=
  match e with
  | FlSize path => fun r D' => D' = D /\ match r with Ok n => exists f, named D path f /\ n = Z.of_nat (length f) | Err _ => True end
  | FlOpen path _ => fun r D' =>
      match r with
      | Ok fd => d_fds D !! fd = None /\ exists i, d_names D !! path = Some i /\ D' = set_fds <[fd := (i, 0)]> D
      | Err _ => D' = D
      end
  | FlFdSize fd => fun r D' => D' = D /\
      match r with Ok n => exists i p f, opened D fd i p f /\ n = Z.of_nat (length f) | Err err => foreign err end
  | FlSeekData fd off => fun r D' => D' = D /\
      match r with
      | Ok n => exists i p f at_, opened D fd i p f /\ next_cell true f (Z.to_nat off) = Some at_ /\ n = Z.of_nat at_
      | Err err => Is_ENXIO err = true -> exists i p f, opened D fd i p f /\ next_cell true f (Z.to_nat off) = None
      end
  | FlSeekHole fd off => fun r D' => D' = D /\
      match r with
      | Ok n => exists i p f, opened D fd i p f /\ n = Z.of_nat (default (length f) (next_cell false f (Z.to_nat off)))
      | Err _ => True
      end
  | FlSeek fd off => fun r D' =>
      match r with
      | None => exists i p f, opened D fd i p f /\ D' = set_fds <[fd := (i, Z.to_nat off)]> D
      | Some err => foreign err
      end
  | FlReadFull fd n => fun r D' =>
      match r with
      | (data, None) => exists i p f, opened D fd i p f /\ p + Z.to_nat n <= length f /\
          data = read_text (take (Z.to_nat n) (drop p f)) /\ D' = set_fds <[fd := (i, p + Z.to_nat n)]> D
      | (_, Some _) => True
      end
  | FlWrite fd data => fun r D' =>
      match r with
      | None => exists i p f, opened D fd i p f /\
          D' = set_files <[i := splice f p (written data)]> (set_fds <[fd := (i, p + String.length data)]> D)
      | Some err => foreign err
      end
  | FsRemove path => fun r D' => D' = match r with None => set_names (delete path) D | Some _ => D end
  | FsRename old new => fun r D' =>
      match r with
      | None => exists i, d_names D !! old = Some i /\ D' = set_names (fun names => <[new := i]> (delete old names)) D
      | Some _ => D' = D
      end
  | FdClose fd => fun _ D' => D' = set_fds (delete fd) D
  | FsStat path => fun r D' => D' = D /\ match r with Ok _ => is_Some (d_names D !! path) | Err _ => True end
  | CmdRun _ name args _ => fun r D' => forall from to, name = "cp" -> args = ["--sparse=always"; from; to] ->
      match r with
      | (_, None) => exists i f f', named D from f /\ contents f' = contents f /\ d_files D !! i = None /\
          D' = set_names <[to := i]> (set_files <[i := f']> D)
      | (_, Some _) => True
      end
  | _ => fun _ _ => True
  end.
Notation wpd := (wpe file_system).

(** ** The copy of a region *)

Lemma read_text_length l : String.length (read_text l) = length l.
Proof. unfold read_text, contents. induction l as [|c l IH]; [done|]. cbn. by rewrite IH. Qed.

Lemma written_read l : Forall (fun c => is_data c = true) l -> written (read_text l) = l.
Proof.
  unfold written, read_text, contents. induction 1 as [|c l Hc _ IH]; [done|]. cbn. rewrite IH. by destruct c.
Qed.

Lemma read_text_empty l : empty (read_text l) = bool_decide (l = []).
Proof. by destruct l. Qed.

Section Copy.
Context (N : gmap string nat) (F : gmap nat (list cell)) (ib id : nat) (base delta : list cell) (src dst : Z).
Context (Hdelta : F !! id = Some delta) (Hne : ib <> id) (Hlen : length delta = length base) (Hfds : src <> dst).

(** The copy so far: the base merged up to a place, and both descriptors somewhere. *)
Definition copied_to (off : nat) (D : disk) : Prop :=
  d_names D = N /\ d_files D = <[ib := merged base delta off]> F /\
  (exists p, d_fds D !! src = Some (id, p)) /\ (exists p, d_fds D !! dst = Some (ib, p)).
Definition copying (off : nat) (D : disk) : Prop :=
  d_names D = N /\ d_files D = <[ib := merged base delta off]> F /\
  d_fds D !! src = Some (id, off) /\ d_fds D !! dst = Some (ib, off).

Lemma copying_copied off D : copying off D -> copied_to off D.
Proof. intros (HN & HF & Hs & Hd). repeat split; eauto. Qed.

Lemma copied_source off D i p f : copied_to off D -> opened D src i p f -> i = id /\ f = delta.
Proof.
  intros (_ & HF & [q Hs] & _) [Hfd Hf]. rewrite Hs in Hfd. injection Hfd as <- <-. split; [done|].
  rewrite HF, lookup_insert_ne in Hf by done. congruence.
Qed.

Lemma copy_region_wp chunks n off copied D :
  (Z.of_nat n <= Z.of_nat chunks * chunk)%Z -> off + n <= length base ->
  (forall j c, off <= j < off + n -> delta !! j = Some c -> is_data c = true) -> copying off D ->
  wpd (copy_region chunks src dst (Z.of_nat n) copied) (fun D' r =>
    match r.2 with
    | None => copying (off + n) D' /\ r.1 = (copied + Z.of_nat n)%Z
    | Some err => foreign err
    end) D.
Proof.
  revert n off copied D. induction chunks as [|chunks IH]; intros n off copied D Hn Hle Hdata HD; cbn [copy_region].
  { assert (n = 0) as -> by (unfold chunk in Hn; lia). cbn. rewrite Nat.add_0_r. split; [done|lia]. }
  set (m := Z.to_nat (Z.min chunk (Z.of_nat n))). assert (Hm : Z.min chunk (Z.of_nat n) = Z.of_nat m) by (unfold m, chunk; lia).
  assert (Hmn : m <= n) by (unfold m; lia). clearbody m. rewrite Hm. unfold trigger at 1. cbn [bind wpe]. intros [data err] D1 H1. cbn [bind].
  destruct err as [err|]; cbn [file_system] in H1.
  { apply wpe_seq with (R := fun _ r => match r with Some werr => foreign werr | None => True end).
    - destruct (empty data); cbn [wpe trigger]; [done|]. by intros [werr|] D2 H2.
    - intros D2 [werr|] H2; [exact H2|]. cbn. unfold foreign, wrap_prefix. by destruct err. }
  destruct H1 as (i & p & f & Hopen & Hp & -> & ->). destruct HD as (HN & HF & Hs & Hd).
  assert (Hsrc : i = id /\ f = delta /\ p = off).
  { destruct Hopen as [Hfd Hf]. rewrite Hs in Hfd. injection Hfd as <- <-. rewrite HF, lookup_insert_ne in Hf by done. repeat split; congruence. }
  destruct Hsrc as (-> & -> & ->). rewrite Nat2Z.id in *. clear Hopen.
  set (part := take m (drop off delta)). assert (Hpart : length part = m) by (unfold part; rewrite length_take, length_drop; lia).
  assert (Hall : Forall (fun c => is_data c = true) part).
  { apply Forall_lookup. intros j c Hj. unfold part in Hj. apply lookup_take_Some in Hj as [Hj Hjm]. rewrite lookup_drop in Hj.
    by apply (Hdata (off + j)); [lia|]. }
  rewrite read_text_empty.
  apply wpe_seq with (R := fun D' r => match r with None => copying (off + m) D' | Some werr => foreign werr end).
  - case_bool_decide as Hemp; cbn [wpe trigger].
    + assert (H0 : m = 0) by (by rewrite <- Hpart, Hemp). rewrite H0, Nat.add_0_r. repeat split; [done|done| |].
      * cbn. by rewrite lookup_insert_eq.
      * cbn. by rewrite lookup_insert_ne.
    + intros [werr|] D2 H2; cbn [file_system] in H2; [done|]. destruct H2 as (i & p & f & [Hfd Hf] & ->). cbn in Hfd, Hf.
      rewrite lookup_insert_ne, Hd in Hfd by done. injection Hfd as <- <-. rewrite HF, lookup_insert_eq in Hf. injection Hf as <-.
      rewrite (written_read part Hall), read_text_length, Hpart. unfold part.
      rewrite (merged_data base delta Hlen off m) by (lia || (intros j c Hj; apply Hdata; lia)).
      repeat split; cbn; [done|by rewrite HF, insert_insert_eq| |by rewrite lookup_insert_eq].
      by rewrite lookup_insert_ne, lookup_insert_eq.
  - intros D2 [werr|] H2; [exact H2|]. unfold len. rewrite read_text_length, Hpart.
    replace (Z.of_nat n - Z.of_nat m)%Z with (Z.of_nat (n - m)) by lia.
    eapply wpe_mono; [apply (IH (n - m) (off + m)); [unfold chunk in *; lia|lia|intros j c Hj; apply Hdata; lia|exact H2]|].
    intros D3 [c3 [err|]]; cbn; [done|]. replace (off + m + (n - m)) with (off + n) by lia. intros [? ->]. split; [done|lia].
Qed.
Lemma chunks_enough n : (Z.of_nat n <= Z.of_nat (chunks_of (Z.of_nat n)) * chunk)%Z.
Proof.
  unfold chunks_of. assert (Hc : (0 < chunk)%Z) by done.
  pose proof (Z.div_mod (Z.of_nat n + chunk - 1) chunk ltac:(lia)) as Hdm.
  pose proof (Z.mod_pos_bound (Z.of_nat n + chunk - 1) chunk Hc) as Hb.
  assert (0 <= (Z.of_nat n + chunk - 1) / chunk)%Z by (apply Z.div_pos; lia). rewrite Z2Nat.id by done. nia.
Qed.

Lemma foreign_wrapped what err : foreign (wrap_prefix what err).
Proof. done. Qed.

Lemma find_hole_after at_ c :
  delta !! at_ = Some c -> is_data c = true ->
  let de := default (length delta) (next_cell false delta at_) in
  at_ < de <= length delta /\ forall j c', at_ <= j < de -> delta !! j = Some c' -> is_data c' = true.
Proof.
  intros Hc Hdata de. assert (Hlt := lookup_lt_Some _ _ _ Hc). unfold de. destruct (next_cell false delta at_) as [i|] eqn:Hn; cbn.
  - apply next_cell_Some in Hn as (Hi & (c' & Hc' & Hd') & Hb). split; [|exact Hb].
    destruct (decide (i = at_)) as [->|]; [congruence|lia].
  - split; [lia|]. intros j c' Hj Hc'. apply (next_cell_None false delta at_ j c'); [done|lia|done].
Qed.

Lemma copy_sparse_wp rounds off copied D :
  length base - off <= rounds -> copied_to off D ->
  wpd (copy_sparse rounds src dst (Z.of_nat (length base)) (Z.of_nat off) copied) (fun D' r =>
    match r.2 with None => copied_to (length base) D' | Some err => foreign err end) D.
Proof.
  revert off copied D. induction rounds as [|rounds IH]; intros off copied D Hr HD; cbn [copy_sparse];
    destruct (Z.of_nat off <? Z.of_nat (length base))%Z eqn:Hoff.
  1: lia.
  1,3: cbn [wpe snd]; destruct HD as (HN & HF & Hs & Hd); repeat split; try done;
       rewrite HF; f_equal; rewrite !merged_all by (done || lia); done.
  unfold trigger at 1. cbn [bind wpe]. intros r1 D1 H1. cbn [file_system] in H1. destruct H1 as [-> H1].
  destruct r1 as [ds|err].
  2: { cbn. destruct (Is_ENXIO err) eqn:Hx; [|apply foreign_wrapped].
    destruct (H1 eq_refl) as (i & p & f & Hopen & Hnone). destruct (copied_source _ _ _ _ _ HD Hopen) as [-> ->].
    rewrite Nat2Z.id in Hnone. destruct HD as (HN & HF & Hs & Hd). repeat split; try done. rewrite HF. f_equal. symmetry.
    apply merged_hole; [done|lia|]. intros j c Hj Hc. apply (next_cell_None true delta off j c); [done|lia|done]. }
  destruct H1 as (i & p & f & at_ & Hopen & Hnext & ->). destruct (copied_source _ _ _ _ _ HD Hopen) as [-> ->].
  rewrite Nat2Z.id in Hnext. apply next_cell_Some in Hnext as (Hat & (c & Hc & Hcd) & Hbefore). clear p Hopen.
  unfold trigger at 1. cbn [bind wpe]. intros r2 D2 H2. cbn [file_system] in H2. destruct H2 as [-> H2].
  destruct r2 as [de|err]; [|apply foreign_wrapped]. destruct H2 as (i & p & f & Hopen & ->).
  destruct (copied_source _ _ _ _ _ HD Hopen) as [-> ->]. rewrite Nat2Z.id. clear p Hopen.
  destruct (find_hole_after at_ c Hc Hcd) as [Hde Hdata]. set (de := default _ _) in *. clearbody de. rewrite Hlen in Hde.
  assert (Hm : merged base delta at_ = merged base delta off) by (apply merged_hole; [done|lia|exact Hbefore]).
  apply wpe_seq with (R := fun D' r => match r with None => copying at_ D' | Some err => foreign err end).
  { destruct HD as (HN & HF & [ps Hs] & [pd Hd]). unfold fails_first, trigger. cbn [bind wpe]. intros [err|] D3 H3; cbn [file_system] in H3; [exact H3|].
    destruct H3 as (i & p & f & [Hfd _] & ->). rewrite Hs in Hfd. injection Hfd as <- <-. cbn [wpe].
    intros [err|] D4 H4; cbn [file_system] in H4; [exact H4|]. destruct H4 as (i4 & p4 & f4 & [Hfd _] & ->). cbn in Hfd.
    rewrite lookup_insert_ne, Hd in Hfd by done. injection Hfd as <- <-. rewrite !Nat2Z.id.
    repeat split; cbn; [done|by rewrite Hm| |by rewrite lookup_insert_eq]. by rewrite lookup_insert_ne, lookup_insert_eq. }
  intros D3 [err|] H3; [exact H3|]. replace (Z.of_nat de - Z.of_nat at_)%Z with (Z.of_nat (de - at_)) by lia.
  apply wpe_seq with (R := fun D' r => match r.2 with None => copying de D' | Some err => foreign err end).
  { eapply wpe_mono; [apply (copy_region_wp _ (de - at_) at_); [apply chunks_enough|lia| |exact H3]|].
    - intros j c' Hj. apply Hdata. lia.
    - intros D4 [c4 [err|]]; cbn; [done|]. replace (at_ + (de - at_)) with de by lia. by intros []. }
  intros D4 [c4 [err|]] H4; cbn in H4; [exact H4|]. apply IH; [lia|by apply copying_copied].
Qed.

Lemma copySparseRegions_wp D :
  d_names D = N -> d_files D = F -> F !! ib = Some base -> d_fds D !! src = Some (id, 0) -> d_fds D !! dst = Some (ib, 0) ->
  wpd (copySparseRegions src dst) (fun D' r =>
    match r.2 with None => copied_to (length base) D' | Some err => foreign err end) D.
Proof.
  intros HN HF Hbase Hs Hd.
  assert (HD : copied_to 0 D) by (repeat split; eauto; by rewrite merged_none, insert_id).
  unfold copySparseRegions, trigger. cbn [bind wpe]. intros r D1 H1. cbn [file_system] in H1. destruct H1 as [-> H1].
  destruct r as [size|err]; [|exact H1]. destruct H1 as (i & p & f & Hopen & ->).
  destruct (copied_source _ _ _ _ _ HD Hopen) as [-> ->]. rewrite Hlen. apply (copy_sparse_wp _ 0); [lia|done].
Qed.
End Copy.
(** ** The merge *)

(** A file with these bytes has this name. *)
Definition holds_bytes (path : string) (bytes : list ascii) (D : disk) : Prop :=
  exists f, named D path f /\ contents f = bytes.
Definition merge_done (path : string) (base delta : list cell) (D : disk) (r : option error) : Prop :=
  r = None -> holds_bytes path (contents (over base delta)) D.

Lemma merge_done_fds path base delta g D r : merge_done path base delta D r -> merge_done path base delta (set_fds g D) r.
Proof. done. Qed.

Lemma with_file_wp f path write (k : Z -> prog SysE (option error)) out base delta D :
  (forall fd i, d_fds D !! fd = None -> d_names D !! path = Some i ->
    wpd (k fd) (merge_done out base delta) (set_fds <[fd := (i, 0)]> D)) ->
  wpd (with_file f path write k) (merge_done out base delta) D.
Proof.
  intros Hk. unfold with_file. apply wpe_bind, wpe_on_error. unfold trigger at 1. cbn [wpe]. intros [fd|err] D1 H1; cbn [file_system] in H1.
  - destruct H1 as (Hfd & i & Hi & ->). apply wpe_deferred. eapply wpe_mono; [by apply Hk|].
    intros D2 r HQ. unfold trigger. cbn [wpe]. intros r3 D3 ->. by apply merge_done_fds.
  - by cbn.
Qed.

Lemma copy_over_wp d tmp rename ib id base delta out D :
  d_names D !! tmp = Some ib -> d_files D !! ib = Some base -> d_files D !! id = Some delta -> ib <> id ->
  length delta = length base -> d_fds D !! d = Some (id, 0) ->
  (forall D', d_names D' = d_names D -> d_files D' = <[ib := over base delta]> (d_files D) ->
    wpd rename (merge_done out base delta) D') ->
  wpd (copy_over d tmp rename) (merge_done out base delta) D.
Proof.
  intros Htmp Hb Hd Hne Hlen Hfd Hrename. unfold copy_over. apply with_file_wp. intros o i Ho Hi.
  rewrite Htmp in Hi. injection Hi as <-. assert (Hdo : d <> o) by congruence.
  eapply wpe_seq.
  { apply (copySparseRegions_wp (d_names D) (d_files D) ib id base delta d o); try done; cbn.
    - by rewrite lookup_insert_ne.
    - by rewrite lookup_insert_eq. }
  intros D2 [n [err|]] H2; [done|]. destruct H2 as (HN & HF & _). rewrite merged_all in HF by done.
  unfold fails_first, trigger at 1. cbn [bind wpe]. intros [err|] D3 ->; [done|]. by apply Hrename.
Qed.

Lemma contents_over base base' delta :
  contents base' = contents base -> contents (over base' delta) = contents (over base delta).
Proof.
  unfold contents, over. revert base' delta. induction base as [|b base IH]; intros [|b' base'] [|d delta] Heq; try done.
  cbn in Heq. injection Heq as Hb Heq. cbn. f_equal; [by destruct d|by apply IH].
Qed.

Lemma suffix_differs (a b : string) : b <> "" -> a +:+ b <> a.
Proof.
  intros Hb Heq. apply (f_equal String.length) in Heq. rewrite length_app_string in Heq. destruct b; [done|cbn in Heq; lia].
Qed.

Lemma MergeSparseOverlay_wp basePath deltaPath base delta D :
  named D basePath base -> named D deltaPath delta ->
  basePath <> deltaPath +:+ ".merge.tmp" -> length delta = length base ->
  wpd (MergeSparseOverlay basePath deltaPath deltaPath) (merge_done deltaPath base delta) D.
Proof.
  intros Hbase Hdelta Hbt Hlen. unfold MergeSparseOverlay. set (tmp := deltaPath +:+ ".merge.tmp").
  assert (Htd : tmp <> deltaPath) by (by apply suffix_differs).
  apply wpe_bind, wpe_on_error. unfold trigger at 1. cbn [wpe]. intros [bi|err] D1 [-> H1]; [|done].
  unfold then_ at 1. apply wpe_seq with (R := fun D' _ => named D' basePath base /\ named D' deltaPath delta).
  { unfold trigger. cbn [wpe]. intros [err|] D2 ->; [done|]. destruct Hbase as (ib & Hb & Hbf). destruct Hdelta as (id & Hd & Hdf).
    split; [exists ib|exists id]; (split; [|done]); cbn; by rewrite lookup_delete_ne. }
  intros D2 _ [Hbase2 Hdelta2]. unfold run_cmd, trigger at 1. cbn [bind wpe]. intros [o [err|]] D3 H3; cbn [file_system] in H3; [done|].
  destruct (H3 basePath tmp eq_refl eq_refl) as (i & f & f' & Hnf & Heq & Hfree & ->).
  assert (f = base) as -> by (destruct Hnf as (j & Hj & Hjf), Hbase2 as (ib & Hb & Hbf); congruence).
  destruct Hdelta2 as (id & Hd & Hdf). assert (Hi : i <> id) by congruence. apply with_file_wp. intros d id' Hfd Hid.
  cbn in Hid, Hfd. rewrite lookup_insert_ne in Hid by done. assert (id' = id) as -> by congruence.
  unfold trigger at 1. cbn [bind wpe]. intros [di|err] D4 [-> H4]; [|done].
  destruct (negb _); [done|].
  assert (Hlen' : length delta = length f').
  { apply (f_equal length) in Heq. unfold contents in Heq. rewrite !length_fmap in Heq. lia. }
  eapply wpe_mono with (Q := merge_done deltaPath f' delta).
  2: { intros D5 r HQ Hr. destruct (HQ Hr) as (g & Hg & Hc). exists g. split; [done|]. rewrite Hc. by apply contents_over. }
  apply (copy_over_wp d tmp _ i id); try done; cbn.
  - by rewrite lookup_insert_eq.
  - by rewrite lookup_insert_eq.
  - by rewrite lookup_insert_ne.
  - by rewrite lookup_insert_eq.
  - intros D5 HN HF. unfold trigger. cbn [wpe]. intros [err|] D6 H6; [done|]. destruct H6 as (j & Hj & ->). intros _.
    exists (over f' delta). split; [|done]. exists j. cbn. rewrite lookup_insert_eq. split; [done|].
    rewrite HN in Hj. cbn in Hj. rewrite lookup_insert_eq in Hj. injection Hj as <-. by rewrite HF, lookup_insert_eq.
Qed.
(** The two files are not one. *)
Definition separate (D : disk) (path path' : string) : Prop := forall i, d_names D !! path = Some i -> d_names D !! path' <> Some i.

(** C34. The merge is an overlay: on a file system where every call may fail, and where the free space
    of files can be laid out in any way, a merge that reports success leaves at the path of the delta
    a file whose bytes are those of the base, with every byte of data of the delta over it - also
    when the two files are on different devices and the base is copied first. *)
Theorem merge_overlays_delta basePath deltaPath base delta D :
  named D basePath base -> named D deltaPath delta -> separate D basePath deltaPath ->
  basePath <> deltaPath +:+ ".merged.tmp" -> basePath <> deltaPath +:+ ".merge.tmp" ->
  wpe file_system (MergeDeltaIntoBase basePath deltaPath) (fun D' r =>
    r = None -> holds_bytes deltaPath (contents (over base delta)) D') D.
Proof.
  intros (ib & Hb & Hbf) (id & Hd & Hdf) Hsep Hm Hm'. assert (Hne : ib <> id) by (intros ->; by apply (Hsep id)).
  change (wpd (MergeDeltaIntoBase basePath deltaPath) (merge_done deltaPath base delta) D).
  unfold MergeDeltaIntoBase. set (tmp := deltaPath +:+ ".merged.tmp") in *.
  assert (Htd : tmp <> deltaPath) by (by apply suffix_differs). assert (Hbd : basePath <> deltaPath) by (intros ->; congruence).
  apply wpe_bind, wpe_on_error. unfold trigger at 1. cbn [wpe]. intros [bi|err] D1 [-> H1]; [|done].
  destruct H1 as (f & (j & Hj & Hjf) & ->). assert (f = base) as -> by congruence. clear j Hj Hjf.
  apply wpe_bind, wpe_on_error. unfold trigger at 1. cbn [wpe]. intros [di|err] D1 [-> H1]; [|done].
  destruct H1 as (f & (j & Hj & Hjf) & ->). assert (f = delta) as -> by congruence. clear j Hj Hjf.
  destruct (negb _) eqn:Hsize; [done|]. assert (Hlen : length delta = length base).
  { apply negb_false_iff, Z.eqb_eq in Hsize. lia. }
  clear Hsize. unfold then_ at 1.
  apply wpe_seq with (R := fun D' _ => d_names D' !! basePath = Some ib /\ d_names D' !! deltaPath = Some id /\ d_files D' = d_files D).
  { unfold trigger. cbn [wpe]. intros [err|] D2 ->; [done|]. cbn. by rewrite !lookup_delete_ne. }
  intros D2 _ (Hb2 & Hd2 & HF2). rewrite <- HF2 in Hbf, Hdf. clear Hb Hd HF2 Hsep D. unfold trigger at 1. cbn [bind wpe].
  intros [err|] D3 H3; cbn [file_system] in H3.
  { subst D3. cbn [bind]. destruct (Is_EXDEV err); [|done]. apply MergeSparseOverlay_wp; [by exists ib|by exists id|done|done]. }
  destruct H3 as (j & Hj & ->). assert (j = ib) as -> by congruence. clear Hj. apply with_file_wp. intros d id' Hfd Hid.
  cbn in Hid. rewrite lookup_insert_ne, lookup_delete_ne in Hid by done. assert (id' = id) as -> by congruence.
  apply (copy_over_wp d tmp _ ib id base delta); try done; cbn.
  - by rewrite lookup_insert_eq.
  - by rewrite lookup_insert_eq.
  - intros D4 HN HF. cbn in HN, HF. 
    intros [err|] D5 ->; [done|]. unfold trigger. cbn [bind wpe]. intros [err|] D6 H6; cbn [file_system] in H6; [done|].
    destruct H6 as (i & Hi & ->). cbn in Hi. rewrite lookup_delete_ne, HN, lookup_insert_eq in Hi by done. injection Hi as <-.
    intros _. exists (over base delta). split; [|done]. exists ib. cbn. by rewrite lookup_insert_eq, HF, lookup_insert_eq.
Qed.

(** The rounds of the model's copy are enough: it never stops for want of them. *)
Theorem copy_rounds_enough src dst id ib base delta D :
  opened D src id 0 delta -> opened D dst ib 0 base -> ib <> id -> src <> dst -> length delta = length base ->
  wpe file_system (copySparseRegions src dst) (fun _ r => r.2 <> Some out_of_rounds) D.
Proof.
  intros [Hs Hd] [Ht Hb] Hne Hfds Hlen. eapply wpe_mono.
  - by apply (copySparseRegions_wp (d_names D) (d_files D) ib id base delta src dst).
  - intros D' [n [err|]]; cbn; [|done]. unfold foreign. congruence.
Qed.
End Disk.

(** ** A concrete file system *)

Module MergeWitness.
Import HostWitness.
#[local] Existing Instance codec.
Definition no_data : error := Plain "no such device or address".
#[local] Instance enxio_env : HostEnv := { Getenv _ := ""; Getpid := 1; GOARCH := "amd64"; IsExist _ := false;
  IsNotExist _ := false; Is_ErrNotExist _ := false; Is_ENXIO err := String.eqb (error_text err) (error_text no_data);
  Is_EXDEV _ := false; range_map l := l; sort_longest l := l }.

Definition bad_file : error := Plain "bad file descriptor".
Definition file_at (D : disk) (path : string) : option (list cell) := i ← d_names D !! path; d_files D !! i.
Definition open_file (D : disk) (fd : Z) : option (nat * nat * list cell) :=
  '(i, p) ← d_fds D !! fd; f ← d_files D !! i; Some (i, p, f).

Definition serve_disk (D : disk) (e : SysE) : disk * answer e :=
  match e as e return answer e -> disk * answer e with
  | FlSize path => fun _ => (D, match file_at D path with Some f => Ok (Z.of_nat (length f)) | None => Err bad_file end)
  | FlOpen path _ => fun _ =>
      let fd := Z.of_nat (3 + size (d_fds D)) in
      match d_names D !! path, d_fds D !! fd with
      | Some i, None => (set_fds <[fd := (i, 0)]> D, Ok fd)
      | _, _ => (D, Err bad_file)
      end
  | FlFdSize fd => fun _ => (D, match open_file D fd with Some (_, _, f) => Ok (Z.of_nat (length f)) | None => Err bad_file end)
  | FlSeekData fd off => fun _ =>
      (D, match open_file D fd with
          | Some (_, _, f) => match next_cell true f (Z.to_nat off) with Some i => Ok (Z.of_nat i) | None => Err no_data end
          | None => Err bad_file
          end)
  | FlSeekHole fd off => fun _ =>
      (D, match open_file D fd with
          | Some (_, _, f) => Ok (Z.of_nat (default (length f) (next_cell false f (Z.to_nat off))))
          | None => Err bad_file
          end)
  | FlSeek fd off => fun _ =>
      match open_file D fd with
      | Some (i, _, _) => (set_fds <[fd := (i, Z.to_nat off)]> D, None)
      | None => (D, Some bad_file)
      end
  | FlReadFull fd n => fun _ =>
      match open_file D fd with
      | Some (i, p, f) =>
          if p + Z.to_nat n <=? length f then (set_fds <[fd := (i, p + Z.to_nat n)]> D, (read_text (take (Z.to_nat n) (drop p f)), None))
          else (D, ("", Some bad_file))
      | None => (D, ("", Some bad_file))
      end
  | FlWrite fd data => fun _ =>
      match open_file D fd with
      | Some (i, p, f) => (set_files <[i := splice f p (written data)]> (set_fds <[fd := (i, p + String.length data)]> D), None)
      | None => (D, Some bad_file)
      end
  | FsRemove path => fun _ => (set_names (delete path) D, None)
  | FsRename old new => fun _ =>
      match d_names D !! old with
      | Some i => (set_names (fun names => <[new := i]> (delete old names)) D, None)
      | None => (D, Some bad_file)
      end
  | FdClose fd => fun _ => (set_fds (delete fd) D, None)
  | FsStat path => fun _ => (D, match d_names D !! path with Some _ => Ok RegularFile | None => Err bad_file end)
  | CmdRun _ _ [_; from; to] _ => fun _ =>
      let i := size (d_files D) in
      match file_at D from, d_files D !! i with
      | Some f, None => (set_names <[to := i]> (set_files <[i := f]> D), ("", None))
      | _, _ => (D, ("", Some (CmdError bad_file)))
      end
  | _ => fun answer => (D, answer)
  end (plain e).

Lemma file_at_Some D path f : file_at D path = Some f -> named D path f.
Proof. unfold file_at. intros Hf. apply bind_Some in Hf as (i & Hi & Hf). by exists i. Qed.
Lemma open_file_Some D fd i p f : open_file D fd = Some (i, p, f) -> opened D fd i p f.
Proof.
  unfold open_file. intros Hf. apply bind_Some in Hf as ([i' p'] & Hi & Hf). apply bind_Some in Hf as (f' & Hf' & [= -> -> ->]). by split.
Qed.
Lemma bad_foreign : foreign bad_file.
Proof. done. Qed.

(** It is a file system as the theorems understand it. *)
Lemma serve_disk_sound D e : file_system D e (serve_disk D e).2 (serve_disk D e).1.
Proof.
  destruct e; try exact I; cbn [serve_disk file_system].
  all: try match goal with |- forall from to, _ => intros from to -> -> end.
  all: repeat match goal with
    | |- context [open_file ?D0 ?fd] => let H := fresh "Ho" in destruct (open_file D0 fd) as [[[i p] f]|] eqn:H; [apply open_file_Some in H|]
    | |- context [file_at ?D0 ?path] => let H := fresh "Hf" in destruct (file_at D0 path) as [f|] eqn:H; [apply file_at_Some in H|]
    | |- context [next_cell true ?f ?off] => destruct (next_cell true f off) as [at_|] eqn:?
    | |- context [?m !! ?x] => destruct (m !! x) eqn:?
    | |- context [?a <=? ?b] => destruct (Nat.leb_spec a b)
    end; cbn.
  all: try (split; [done|]); eauto 10 using bad_foreign.
  done.
Qed.

(** A base of six bytes of data, and a delta with two regions. *)
Definition base : list cell := Some <$> ["a"; "b"; "c"; "d"; "e"; "f"]%char.
Definition delta : list cell := [None; Some "X"; Some "Y"; None; None; Some "Z"]%char.
Definition two_files : disk := mkDisk {["/old/memory-ranges" := 1; "/new/memory-ranges" := 2]} {[1 := base; 2 := delta]} ∅.

Lemma merge_overlays_delta_witness :
  wpe file_system (MergeDeltaIntoBase "/old/memory-ranges" "/new/memory-ranges") (fun D' r =>
    r = None -> holds_bytes "/new/memory-ranges" (contents (over base delta)) D') two_files.
Proof.
  apply merge_overlays_delta.
  - by exists 1.
  - by exists 2.
  - intros i. by intros [= <-].
  - done.
  - done.
Defined.

Lemma copy_rounds_enough_witness :
  wpe file_system (copySparseRegions 3 4) (fun _ r => r.2 <> Some out_of_rounds) (set_fds (fun _ => {[3%Z := (2, 0); 4%Z := (1, 0)]}) two_files).
Proof. by apply (copy_rounds_enough 3 4 2 1 base delta). Defined.

Definition bytes_at (D : disk) (path : string) : option string := read_text <$> file_at D path.
Example merges :
  let '(D, _, r) := run serve_disk (MergeDeltaIntoBase "/old/memory-ranges" "/new/memory-ranges") two_files [] in
  r = None /\ bytes_at D "/new/memory-ranges" = Some "aXYdeZ" /\ bytes_at D "/old/memory-ranges" = None.
Proof. by vm_compute. Qed.
(** A merge that fails after the base was renamed leaves no base behind: when the checkpoint is tried
    again, there is nothing to merge any more, and the image of the restored machine, which holds
    only what it changed, passes for a whole one. *)
Definition serve_faulty (D : disk) (e : SysE) : disk * answer e :=
  match e as e return disk * answer e -> disk * answer e with
  | FlOpen _ _ => fun _ => (D, Err bad_file)
  | _ => fun served => served
  end (serve_disk D e).
Theorem retried_merge_loses_base :
  let '(D1, _, r1) := run serve_faulty (merge_restore_source "/old" "/new") two_files [] in
  let '(D2, _, r2) := run serve_disk (merge_restore_source "/old" "/new") D1 [] in
  (exists err, r1 = Some err) /\ r2 = None /\ bytes_at D2 "/old/memory-ranges" = None /\
  bytes_at D2 "/new/memory-ranges" = Some (read_text delta) /\ read_text delta <> read_text (over base delta).
Proof. vm_compute. by split; [eexists|]. Qed.
End MergeWitness.
