(* ===== verification/WorkerOnKata.v ===== *)
(** * The Worker over micro-VMs

    The calls of the Slot manager to its runtime and its snapshotter, served by the Kata adapter:
    what the release of a Slot means for the machine it held, and what it can miss. *)

From S2P Require Import Prelude Prog Compose Strings Slot Topology Runtime Api WorkerEnv SnapshotStore Manager ManagerFacts.
From S2P Require Import Json AgentApi Host Snapshotters SnapshottersFacts GVisor HostFacts KataData Vmm Guest Kata KataParts KataFacts.

Section OnKata.
Context {QA : QuantityApi} `{ManifestJson} `{ZstdApi} {HE : HostEnv} {JT : JsonText} {IA : ImageApi} {KL : KataLibs}.
Implicit Types (k : kata) (t : trace SysE).

(** The runtime and the snapshotter of the Worker are the adapter; its other calls stay calls. *)
Definition on_kata k (e : WorkerE) : prog (SysE + WorkerE) (answer e) :=
  match e as e0 return prog (SysE + WorkerE) (WorkerE_effect e0) -> prog (SysE + WorkerE) (WorkerE_effect e0) with
  | RtCreate req => fun _ => lift_left (Kata_Create k req)
  | RtStart id => fun _ => lift_left (Kata_Start k id)
  | RtStop id => fun _ => lift_left (Kata_Stop k id)
  | RtDelete id => fun _ => lift_left (Kata_Delete k id)
  | RtStatus id => fun _ => lift_left (Kata_Status k id)
  | RtList => fun _ => lift_left (Kata_List k)
  | RtExec id req => fun _ => lift_left (Kata_Exec k id req)
  | RtReadFile id absPath => fun _ => lift_left (Kata_ReadFile k id absPath)
  | RtWriteFile id absPath content => fun _ => lift_left (Kata_WriteFile k id absPath content)
  | RtListFiles id absPath => fun _ => lift_left (Kata_ListFiles k id absPath)
  | RtFileExists id absPath => fun _ => lift_left (Kata_FileExists k id absPath)
  | RtPrimaryContainerID id => fun _ => lift_left (Kata_PrimaryContainerID k id)
  | SnSave _ req => fun _ => lift_left (Kata_SaveSnapshot k req)
  | SnLoad _ req => fun _ => lift_left (Kata_LoadSnapshot k req)
  | SnDeleteRestored _ id => fun _ => lift_left (Kata_DeleteRestored k id)
  | SnExecRestored _ id req => fun _ => lift_left (Kata_ExecRestored k id req)
  | _ => fun call => call
  end (trigger (inr e : SysE + WorkerE)).

(** ** What a deletion asks the host for *)

(** Everything the record of a machine speaks of was asked to go: the monitor and the root file
    system, the directories under the base id, and the record. *)
Definition taken_apart k name (inst : kataInstance) t : Prop := torn_down k inst t /\ FsRemove (instancePath k name) ∈ calls t.

Definition machine_deleted k (id : ID) t : Prop :=
  exists name r, StripPrefix (id_Value id) kataIDPrefix = Some name /\
    existT (P := answer) (FsReadFile (instancePath k name)) r ∈ t /\
    forall inst, instance_of r = Some inst -> taken_apart k name inst t.

Lemma taken_apart_prefix k name inst t t' : t `prefix_of` t' -> taken_apart k name inst t -> taken_apart k name inst t'.
Proof. intros Hp [Hd Hf]. split; [by eapply torn_down_prefix|by eapply calls_prefix]. Qed.
Lemma machine_deleted_prefix k id t t' : t `prefix_of` t' -> machine_deleted k id t -> machine_deleted k id t'.
Proof.
  intros Hp (name & r & Hn & Hin & Hr). exists name, r. split; [done|]. split; [by eapply elem_of_prefix|].
  intros inst Hinst. by eapply taken_apart_prefix, Hr.
Qed.

Lemma delete_calls k id tr : wp (Kata_DeleteRestored k id) (fun t r => r = None -> machine_deleted k id t) tr.
Proof.
  unfold Kata_DeleteRestored. destruct (StripPrefix _ _) as [name|] eqn:Hs; [|done].
  unfold loadInstance, try_bind, trigger. cbn [bind wp]. intros r.
  set (t0 := tr ++ _). assert (Hin : existT (P := answer) (FsReadFile (instancePath k name)) r ∈ t0) by (apply elem_of_app; right; left).
  clearbody t0. destruct r as [raw|err]; cbn [bind wp]; [|intros _; by exists name, (Err err)].
  destruct (Unmarshal_as raw) as [inst|err] eqn:Hraw; cbn [bind wp].
  2: { intros _. exists name, (Ok raw). split; [done|]. split; [done|]. cbn. by rewrite Hraw. }
  unfold then_. apply wp_bind. eapply wp_mono; [apply wp_conj; [apply teardown_asks|apply wp_prefix]|]. cbv beta.
  intros t1 _ [Hd Hp]. cbn [bind trigger wp]. intros r _. exists name, (Ok raw). split; [done|].
  split; [apply elem_of_app; left; by eapply elem_of_prefix|]. cbn. rewrite Hraw. intros inst' [= <-].
  split; [eapply torn_down_prefix, Hd; by eexists|apply called_last].
Qed.

(** ** Release *)

(** The deletions that the Worker saw succeed, of whatever kind. *)
Definition any_deletion (ev : event WorkerE) : option ID :=
  match ev with
  | existT (SnDeleteRestored _ id) None | existT (RtDelete id) None => Some id
  | _ => None
  end.
Definition sys_part (t : trace (SysE + WorkerE)) : trace SysE := left_part t.

Lemma on_kata_deletions k e (t : trace (SysE + WorkerE)) :
  wp (on_kata k e) (fun (t' : trace (SysE + WorkerE)) r => forall id, any_deletion (existT e r) = Some id -> machine_deleted k id (sys_part t')) t.
Proof.
  destruct e; try (eapply wp_mono; [apply wp_true|]; by intros t' r _ ?).
  all: cbn [on_kata]; eapply wp_mono; [apply (wp_lift_left _ (fun t r => r = None -> machine_deleted k id t)), delete_calls|].
  all: intros t' r Hr id'; cbn; destruct (r : option error); [done|]; intros [= <-]; by apply Hr.
Qed.

(** C33. A released Slot leaves no machine it knows of: when the Worker, running over the Kata
    adapter, releases a Slot and reports success, the Slot is free, and if the record of the machine
    it held could be read, its monitor was asked to shut down and to be killed, its root file system
    to be unmounted, and its directories and its record to be removed - for a restored machine as for one
    that was booted, whatever the host answered on the way. *)
Theorem released_slot_leaves_no_machine k registry handler ref s id :
  ms_state s <> StateFree -> id_UID (ms_sandbox s) = id_UID (ref_Identity ref) -> ms_runtimeRef s = Some id ->
  always (interp (on_kata k) (ReleaseSlot_locked registry handler ref s)) (fun (t : trace (SysE + WorkerE)) r =>
    r.2 = None -> ms_state r.1 = StateFree /\ ms_runtimeRef r.1 = None /\ machine_deleted k id (sys_part t)).
Proof.
  intros Hst Hown Href. unfold always. eapply wp_mono.
  - apply (wp_interp_marks (on_kata k) any_deletion (fun id (t : trace (SysE + WorkerE)) => machine_deleted k id (sys_part t)));
      [|intros e t; apply on_kata_deletions|apply (ReleaseSlot_outcome registry handler ref s Hst Hown)].
    intros x t t' Hp. by apply machine_deleted_prefix, left_part_prefix.
  - cbv beta. intros t r (t1 & Hout & HR) Hnone. rewrite Hnone in Hout. destruct Hout as [-> Hdel].
    split; [done|]. split; [done|]. apply HR. specialize (Hdel id Href). unfold deleted_ok in Hdel.
    destruct (ms_restored s); [destruct Hdel as [snap Hin]|]; apply list_elem_of_omap; by eexists.
Qed.
End OnKata.
