(* ===== verification/KataHost.v ===== *)
(** * A concrete host for micro-VMs

    A host with files, numbered processes and their command lines, a monitor and an agent that
    accept every request, and faults on demand; and a reader of JSON text. The runs of the adapter
    and of the Worker over it are the witnesses of the theorems and show what the code misses. *)

From S2P Require Import Prelude Prog Compose Strings Slot Topology Runtime Api WorkerEnv SnapshotStore Manager ManagerFacts.
From S2P Require Import Json ApiJson AgentApi Host Snapshotters SnapshottersFacts GVisor HostFacts KataData Vmm Guest Kata.
From S2P Require Import KataParts KataFacts KataCheckpoint WorkerOnKata.

Module KataHost.
Import HostWitness.

(** ** A reader of JSON *)

Definition quote_char : ascii := Ascii.ascii_of_nat 34.
Fixpoint read_chars (s : string) : string * string :=
  match s with
  | EmptyString => ("", "")
  | String c rest =>
      if bool_decide (c = quote_char) then ("", rest)
      else if bool_decide (c = backslash) then
        match rest with
        | EmptyString => ("", "")
        | String d rest' => let '(text, tail) := read_chars rest' in (String (if bool_decide (d = "n"%char) then newline else d) text, tail)
        end
      else let '(text, tail) := read_chars rest in (String c text, tail)
  end.
Definition is_digit (c : ascii) : bool := bool_decide (c = "-"%char) || byte_in 48 57 c.
Fixpoint read_digits (s : string) : string * string :=
  match s with
  | String c rest => if is_digit c then let '(d, tail) := read_digits rest in (String c d, tail) else ("", s)
  | EmptyString => ("", "")
  end.

Fixpoint read_json (fuel : nat) (s : string) : option (json * string) :=
  match fuel with
  | O => None
  | S fuel' =>
      let fix items (n : nat) (s : string) : option (list json * string) :=
        match n with
        | O => None
        | S n' =>
            '(j, rest) ← read_json fuel' s;
            match rest with
            | String "," rest' => '(js, tail) ← items n' rest'; Some (j :: js, tail)
            | String "]" rest' => Some ([j], rest')
            | _ => None
            end
        end in
      let fix members (n : nat) (s : string) : option (list (string * json) * string) :=
        match n with
        | O => None
        | S n' =>
            let '(k, rest) := read_chars (drop_bytes 1 s) in
            '(j, rest) ← read_json fuel' (drop_bytes 1 rest);
            match rest with
            | String "," rest' => '(ms, tail) ← members n' rest'; Some ((k, j) :: ms, tail)
            | String "}" rest' => Some ([(k, j)], rest')
            | _ => None
            end
        end in
      match s with
      | String "{" (String "}" rest) => Some (JObj [], rest)
      | String "{" rest => '(ms, tail) ← members (String.length s) rest; Some (JObj ms, tail)
      | String "[" (String "]" rest) => Some (JArr [], rest)
      | String "[" rest => '(js, tail) ← items (String.length s) rest; Some (JArr js, tail)
      | String "n" _ => Some (JNull, drop_bytes 4 s)
      | String "t" _ => Some (JBool true, drop_bytes 4 s)
      | String "f" _ => Some (JBool false, drop_bytes 5 s)
      | String c rest =>
          if bool_decide (c = quote_char) then let '(text, tail) := read_chars rest in Some (JStr text, tail)
          else let '(d, tail) := read_digits s in z ← ParseInt d 64; Some (JInt z, tail)
      | EmptyString => None
      end
  end.

#[export] Instance text_codec : JsonText := {
  MarshalIndent := json_text;
  Unmarshal raw := match read_json 12 raw with Some (j, "") => Ok j | _ => Err (Plain "unexpected end of JSON input") end;
  any_number j := j;
  number_int j := match j with JInt z => z | _ => 0%Z end;
  is_time _ := true;
}.

Example reads_text :
  let j := JObj [("a", JInt (-5)); ("b", JArr [JStr "x y"; JObj []]); ("c", JBool false)] in
  Unmarshal (json_text j) = Ok j.
Proof. by vm_compute. Qed.

#[export] Instance libs : KataLibs := { toml_clh _ := Ok (0, 0, "")%Z; specs_Version := "1.2.0" }.
(** ** The host *)

(** Its files; its processes, each with its command line; the next number; the calls that fail. *)
Record host := mkHost {
  h_files : gmap string string;
  h_procs : list (Z * list string);
  h_next : Z;
  h_broken : SysE -> bool;
}.
Definition set_files f (s : host) : host := mkHost (f (h_files s)) (h_procs s) (h_next s) (h_broken s).
Definition set_procs f (s : host) : host := mkHost (h_files s) (f (h_procs s)) (h_next s) (h_broken s).
Definition broken (b : SysE -> bool) (s : host) : host := mkHost (h_files s) (h_procs s) (h_next s) b.

Definition io_error : error := Plain "input/output error".
Definition no_file : error := Plain "no such file or directory".
Definition under (dir path : string) : bool := bool_decide (path = dir) || HasPrefix path (dir +:+ "/").
Definition moved (old new : string) (files : gmap string string) : gmap string string :=
  list_to_map ((fun '(path, data) => (if under old path then new +:+ TrimPrefix path old else path, data)) <$> map_to_list files).

(** The command line of a process as /proc shows it. *)
Definition cmdline_of (name : string) (args : list string) : list string := name :: args.
Definition proc_file (s : host) (path : string) : option string :=
  pid ← ParseInt (TrimSuffix (TrimPrefix path "/proc/") "/cmdline") 64;
  p ← List.find (fun p => bool_decide (p.1 = pid)) (h_procs s);
  Some (strings_Join p.2 (String nul "")).

(** The configuration that the monitor writes with a snapshot. *)
Definition snapshot_config : string :=
  json_text (JObj [("fs", JArr [JObj [("tag", JStr FsTag); ("socket", JStr "/run/virtiofsd.sock")]]);
                   ("net", JArr [JObj [("id", JStr coldBootNetID); ("num_queues", JInt 2)]])]).

Definition serve_working (s : host) (e : SysE) : host * answer e :=
  match e as e return answer e -> host * answer e with
  | FsReadFile path => fun _ =>
      (s, match h_files s !! path with
          | Some data => Ok data
          | None =>
              if bool_decide (path = "/proc/self/mountinfo") then Ok ""
              else match proc_file s path with Some line => Ok line | None => Err no_file end
          end)
  | FsWriteFile path data => fun _ => (set_files <[path := data]> s, None)
  | FsRemove path => fun _ => (set_files (delete path) s, None)
  | FsRemoveAll path => fun _ => (set_files (filter (fun kv => under path kv.1 = false)) s, None)
  | FsRename old new => fun _ => (set_files (moved old new) s, None)
  | FsStat path => fun _ => (s, if HasSuffix path "/shared" then Ok DirectoryFile else if HasSuffix path ".sock" then Ok OtherFile
                               else match h_files s !! path with Some _ => Ok RegularFile | None => Err no_file end)
  | FsReadDir path => fun _ =>
      (s, if bool_decide (path = "/proc") then ((fun p => (itoa p.1, true)) <$> h_procs s, None) else ([], None))
  | ProcStart name args _ => fun _ =>
      (mkHost (h_files s) (h_procs s ++ [(h_next s, cmdline_of name args)]) (h_next s + 1)%Z (h_broken s), Ok (h_next s))
  | ProcKill pid => fun _ => (set_procs (filter (fun p => p.1 <> pid)) s, None)
  | ProcProbe pid => fun _ => (s, existsb (fun p => bool_decide (p.1 = pid)) (h_procs s))
  | SockDial path _ => fun _ => (s, Ok (if HasSuffix path "clh-api.sock" then 5 else 6)%Z)
  | SockReadLine conn => fun _ => (s, Ok (if (conn =? 5)%Z then "HTTP/1.1 204 No Content" else "OK 1024"))
  | SockHttp _ "GET" _ _ => fun _ => (s, Ok (200%Z, Ok "{}"))
  | SockHttp _ _ url _ => fun _ =>
      (if bool_decide (url = api_url "/api/v1/vm.snapshot") then set_files <["/snap/config.json" := snapshot_config]> s else s, Ok (204%Z, Ok ""))
  | _ => fun answer => (s, answer)
  end (plain e).

(** A broken call answers with an error. *)
Definition failing (e : SysE) : answer e :=
  match e as e return answer e -> answer e with
  | FsReadFile _ => fun _ => Err io_error
  | FsWriteFile _ _ => fun _ => Some io_error
  | FlOpen _ _ => fun _ => Err io_error
  | AgCall _ _ _ => fun _ => Some io_error
  | SockDial _ _ => fun _ => Err io_error
  | _ => fun answer => answer
  end (plain e).
Definition serve_host (s : host) (e : SysE) : host * answer e :=
  if h_broken s e then (s, failing e) else serve_working s e.

#[export] Existing Instances ManagerWitness.json ManagerWitness.zstd env images.
#[export] Existing Instance ZQuantity.

Definition k : kata := mkKata "/opt/bin/cloud-hypervisor" "/opt/bin/virtiofsd" "/var/lib/kata".
Definition fresh : host := mkHost ∅ [] 100 (fun _ => false).
Definition parent : SandboxIdentity := mkIdentity "ns" "app" "11111111-aaaa".
Definition create (slot : Z) : CreateRequest :=
  mkCreateRequest _ parent slot no_resources (mkContainerConfig "python:3.12" ["/bin/run"] [] []).
(** ** Runs *)

Definition host_after {A} (p : prog SysE A) (s : host) : host := (run serve_host p s []).1.1.
Definition calls_of {A} (p : prog SysE A) (s : host) : list SysE := calls (run serve_host p s []).1.2.
Definition result_of {A} (p : prog SysE A) (s : host) : A := (run serve_host p s []).2.

(** A sandbox is booted in Slot 1 and checkpointed; the checkpoint is downloaded for two others,
    which are restored into Slots 2 and 3 of the same Worker. *)
Definition booted : host := host_after (ColdBoot k (create 1)) fresh.
Definition app : ID := mkID "kata:app-11111111".
Definition save : SaveRequest := mkSaveRequest app "/snap" "" "app" "python:3.12".
Definition saved : host := host_after (Kata_SaveSnapshot k save) booted.
Definition downloaded (dst : string) (s : host) : host :=
  set_files (fun files => list_to_map ((fun '(path, data) => (dst +:+ TrimPrefix path "/snap", data)) <$>
    filter (fun kv => under "/snap" kv.1 = true) (map_to_list files)) ∪ files) s.
Definition child (n : string) : SandboxIdentity := mkIdentity "ns" ("child-" +:+ n) ("2222222" +:+ n +:+ "-bbbb").
Definition child_id (n : string) : ID := mkID (kataIDPrefix +:+ RestoredName (child n)).
Definition load (n : string) (slot : Z) : LoadRequest := mkLoadRequest ("/dl-" +:+ n) (child n) slot "".
Definition with_a : host := host_after (Kata_LoadSnapshot k (load "a" 2)) (downloaded "/dl-a" saved).
Definition with_both : host := host_after (Kata_LoadSnapshot k (load "b" 3)) (downloaded "/dl-b" with_a).

Example boots_checkpoints_restores :
  result_of (ColdBoot k (create 1)) fresh = Ok app /\ fst <$> h_procs booted = [100; 101]%Z /\
  result_of (Kata_SaveSnapshot k save) booted = None /\ h_procs saved = [] /\
  result_of (Kata_LoadSnapshot k (load "a" 2)) (downloaded "/dl-a" saved) = Ok (child_id "a") /\
  result_of (Kata_LoadSnapshot k (load "b" 3)) (downloaded "/dl-b" with_a) = Ok (child_id "b") /\
  fst <$> h_procs with_both = [102; 103; 104; 105]%Z.
Proof. by vm_compute. Qed.
(** ** What goes wrong *)

(** Siblings restored from one checkpoint share its base id, and with it the shared directory and
    the text by which orphans are found. The restore of the second removes the files that the daemon
    of the first serves, and the deletion of the first kills the daemon of the second, whose monitor
    goes on without a root file system. *)
Definition shared_root : string := path_Join [SharedDir (kataSandboxID parent); "app"; "rootfs"].
Definition removing (path : string) (e : SysE) : bool := match e with FsRemoveAll p => bool_decide (p = path) | _ => false end.
Theorem siblings_disturb_each_other :
  let delete_a := Kata_DeleteRestored k (child_id "a") in
  (exists args, h_procs with_a = [(102, "/opt/bin/virtiofsd" :: args); (103, "/opt/bin/cloud-hypervisor" :: [
      "-vv"; "--log-file"; "/var/lib/kata/child-a-2222222a/cloud-hypervisor.log"; "--api-socket"; "/var/lib/kata/child-a-2222222a/clh-api.sock"])]%Z /\
    "--shared-dir=" +:+ SharedDir (kataSandboxID parent) ∈ args) /\
  existsb (removing shared_root) (calls_of (Kata_LoadSnapshot k (load "b" 3)) (downloaded "/dl-b" with_a)) = true /\
  fst <$> h_procs with_both = [102; 103; 104; 105]%Z /\
  result_of delete_a with_both = None /\ fst <$> h_procs (host_after delete_a with_both) = [105]%Z.
Proof.
  split; [eexists; split; [by vm_compute|by right; left]|]. by vm_compute.
Qed.

(** A checkpoint whose metadata cannot be written fails; the machine is kept, and its guest stays
    paused: nothing ever resumes it. *)
Definition no_meta (e : SysE) : bool :=
  match e with FsWriteFile path _ => bool_decide (path = path_Join ["/snap"; kataMetaFile]) | _ => false end.
Definition resuming (e : SysE) : bool :=
  match e with SockHttp _ _ url _ => bool_decide (url = api_url "/api/v1/vm.resume") | _ => false end.
Definition pausing (e : SysE) : bool :=
  match e with SockHttp _ _ url _ => bool_decide (url = api_url "/api/v1/vm.pause") | _ => false end.
Theorem failed_checkpoint_leaves_guest_paused :
  let s := broken no_meta booted in
  result_of (Kata_SaveSnapshot k save) s = Some io_error /\
  fst <$> h_procs (host_after (Kata_SaveSnapshot k save) s) = [100; 101]%Z /\
  existsb pausing (calls_of (Kata_SaveSnapshot k save) s) = true /\
  existsb resuming (calls_of (Kata_SaveSnapshot k save) s) = false.
Proof. by vm_compute. Qed.

(** The Worker over this host. *)
Definition serve_both (s : host) (e : SysE + WorkerE) : host * answer e :=
  match e as e return host * answer e with
  | inl e => serve_host s e
  | inr e => (s, (ManagerWitness.happy tt e).2)
  end.
Definition app_slot : managedSlot := mkSlot 1 "small" no_resources StateRunning parent (Some app) false "".
Definition release : prog (SysE + WorkerE) (managedSlot * option error) :=
  interp (on_kata k) (ReleaseSlot_locked ManagerWitness.registry "kata" (mkRef 1 parent) app_slot).

Lemma released_slot_leaves_no_machine_witness :
  always release (fun t r => r.2 = None -> ms_state r.1 = StateFree /\ ms_runtimeRef r.1 = None /\ machine_deleted k app (sys_part t)).
Proof. by apply (released_slot_leaves_no_machine k ManagerWitness.registry "kata" (mkRef 1 parent) app_slot app). Defined.

Example release_stops_machine :
  let '(s, _, (slot, err)) := run serve_both release booted [] in
  err = None /\ ms_state slot = StateFree /\ h_procs s = [].
Proof. by vm_compute. Qed.

(** When the record of the machine cannot be read, its deletion reports success: the Slot is free
    while the machine runs on. *)
Definition no_record (e : SysE) : bool :=
  match e with FsReadFile path => HasPrefix path (instancesDir k) | _ => false end.
Theorem unreadable_record_frees_slot :
  let '(s, _, (slot, err)) := run serve_both release (broken no_record booted) [] in
  err = None /\ ms_state slot = StateFree /\ ms_runtimeRef slot = None /\ fst <$> h_procs s = [100; 101]%Z.
Proof. by vm_compute. Qed.

(** A restored machine whose agent does not answer is deleted by its record; when that cannot be
    read, the restore fails and its machine runs on. *)
Definition no_agent (e : SysE) : bool :=
  match e with SockDial path _ => HasSuffix path "/clh.sock" | FsReadFile path => HasPrefix path (instancesDir k) | _ => false end.
Theorem failed_restore_leaks_machine :
  let s := broken no_agent (downloaded "/dl-a" saved) in
  is_ok (result_of (Kata_LoadSnapshot k (load "a" 2)) s) = false /\
  fst <$> h_procs (host_after (Kata_LoadSnapshot k (load "a" 2)) s) = [102; 103]%Z.
Proof. by vm_compute. Qed.
End KataHost.
