(* ===== verification/WorkerProgram.v ===== *)
(** * The Worker program

    The Slot manager over the adapters that its program gives it (cmd/worker): containerd, with
    runsc's clean-up as its hook, and runsc for restored Sandboxes; or micro-VMs for everything. What
    a deletion means for the host that is underneath, whichever it is. *)

From S2P Require Import Prelude Prog Compose Strings Slot Topology Runtime Api WorkerEnv SnapshotStore Manager ManagerFacts.
From S2P Require Import Cri CriFacts WorkerOnCri Json AgentApi Host Snapshotters GVisor HostFacts GVisorFacts WorkerOnGVisor.
From S2P Require Import KataData Vmm Guest Kata KataParts KataFacts WorkerOnKata.

(** The calls below the Worker: containerd's and the host's; and beside them the Worker's own, of
    files and object storage. *)
Notation BelowE := ((CriE + SysE) + WorkerE)%type.

Section Program.
Context {QA : QuantityApi} {QV : QuantityValues QA} `{ManifestJson} `{ZstdApi}.
Context {HE : HostEnv} {JT : JsonText} {IA : ImageApi} {KL : KataLibs}.

(** What the Worker is built with: the runtime is made from the snapshotter. *)
(* go: cmd/worker/main.go newRuntime *)
Inductive backend :=
  | GVisorBackend (config : CriConfig) (g : gvisor)
  | KataBackend (k : kata).

(** The hook of the CRI adapter: the clean-up of the snapshotter, which gVisor's has. *)
(* go: cmd/worker/main.go criPreDelete *)
Definition criPreDelete (g : gvisor) (podSandboxID : string) : prog SysE unit := BestEffortCleanupCRI (Some g) podSandboxID.

Definition containerd_call (g : gvisor) (e : CriE) : prog (CriE + SysE) (answer e) :=
  match e as e0 return prog (CriE + SysE) (CriE_effect e0) -> prog (CriE + SysE) (CriE_effect e0) with
  | PreDelete pod => fun _ => lift_right (criPreDelete g pod)
  | _ => fun call => call
  end (trigger (inl e : CriE + SysE)).

(** A call of the host, or one of the Worker that no adapter serves. *)
Definition host_call (e : SysE + WorkerE) : prog BelowE (answer e) :=
  match e as e0 return prog BelowE (sum_effect e0) with
  | inl e0 => trigger (inl (inr e0) : BelowE)
  | inr e0 => trigger (inr e0 : BelowE)
  end.
Definition gvisor_call (g : gvisor) (e : CriE + WorkerE) : prog BelowE (answer e) :=
  match e as e0 return prog BelowE (sum_effect e0) with
  | inl e0 => lift_left (containerd_call g e0)
  | inr e0 => interp host_call (on_gvisor g e0)
  end.

(** The calls of the Slot manager, served. *)
(* go: cmd/worker/main.go newRuntime *)
Definition adapter (b : backend) (e : WorkerE) : prog BelowE (answer e) :=
  match b with
  | GVisorBackend config g => interp (gvisor_call g) (on_cri config e)
  | KataBackend k => interp host_call (on_kata k e)
  end.

(** ** What is below, in a history *)

Definition containerd_part (t : trace BelowE) : trace CriE := left_part (left_part t).
Definition host_part (t : trace BelowE) : trace SysE := right_part (left_part t).

(** What a deletion of a runtime that succeeds amounts to, below the Worker. Over containerd: it
    removed the pod sandbox or knows none, or it listed no container of it. Over runsc, for a
    restored Sandbox: it deleted each container on the list that was found. Over virtual machines:
    everything the machine's record speaks of was asked to go, if that record could be read; if it
    could not, nothing. *)
Definition deletion_carried_out (b : backend) (restored : bool) (id : ID) (t : trace BelowE) : Prop :=
  match b with
  | GVisorBackend _ g =>
      if restored then containers_gone g id (host_part t) else pod_gone (id_Value id) (containerd_part t)
  | KataBackend k => machine_deleted k id (host_part t)
  end.

Lemma deletion_carried_out_prefix b restored id t t' : t `prefix_of` t' -> deletion_carried_out b restored id t -> deletion_carried_out b restored id t'.
Proof.
  intros Hp. assert (Hl : left_part t `prefix_of` left_part t') by by apply left_part_prefix.
  destruct b; cbn [deletion_carried_out]; [destruct restored|]; [apply containers_gone_prefix|apply pod_gone_prefix|apply machine_deleted_prefix].
  1,3: by apply right_part_prefix.
  by apply left_part_prefix.
Qed.

(** The host, and the Worker's own calls, as the adapters see them. *)
Definition host_event (ev : event BelowE) : option (event (SysE + WorkerE)) :=
  match ev with
  | existT e r =>
      match e as e return answer e -> option (event (SysE + WorkerE)) with
      | inl (inl _) => fun _ => None
      | inl (inr e) => fun r => Some (existT (inl e : SysE + WorkerE) r)
      | inr e => fun r => Some (existT (inr e : SysE + WorkerE) r)
      end r
  end.
Definition host_view (t : trace BelowE) : trace (SysE + WorkerE) := omap host_event t.

Lemma host_view_part t : left_part (host_view t) = host_part t.
Proof.
  unfold host_part, left_part, right_part, host_view. induction t as [|[e r] t IH]; [done|].
  by destruct e as [[e|e]|e]; cbn; rewrite <- ?IH.
Qed.

Lemma wp_host_call {A} (p : prog (SysE + WorkerE) A) Q t :
  wp p Q (host_view t) -> wp (interp host_call p) (fun t' a => Q (host_view t') a) t.
Proof.
  apply wp_embed. intros e t'. destruct e as [e|e]; cbn [host_call]; unfold trigger; cbn [wp]; intros r; unfold host_view;
    by rewrite omap_app.
Qed.

(** What the CRI adapter was told, all but the return of its hook, containerd said. *)
Definition hook (ev : event CriE) : Prop := match projT1 ev with PreDelete _ => True | _ => False end.
Definition told (t1 : trace CriE) (t2 : trace BelowE) : Prop := forall ev, ev ∈ t1 -> hook ev \/ ev ∈ containerd_part t2.

Lemma told_later t1 t2 t3 : t2 `prefix_of` t3 -> told t1 t2 -> told t1 t3.
Proof.
  intros Hp Ht ev Hin. destruct (Ht ev Hin) as [?|Hc]; [by left|right]. eapply elem_of_prefix; [exact Hc|].
  by apply left_part_prefix, left_part_prefix.
Qed.

Lemma told_pod_gone pod t1 t2 : told t1 t2 -> pod_gone pod t1 -> pod_gone pod (containerd_part t2).
Proof.
  intros Ht [(r & Hin & Hr)|[Hin|(err & Hin & Hr)]]; destruct (Ht _ Hin) as [[]|Hc];
    [left; by exists r|right; by left|right; right; by exists err].
Qed.

Lemma containerd_call_told g e t1 t2 :
  told t1 t2 -> wp (lift_left (containerd_call g e) : prog BelowE (answer e)) (fun t r => told (t1 ++ [existT e r]) t) t2.
Proof.
  intros Ht. assert (Hgrows : forall r t, t2 `prefix_of` t -> hook (existT e r) \/ existT e r ∈ containerd_part t ->
      told (t1 ++ [existT e r]) t).
  { intros r t Hp Hr ev [Hin|Hin]%elem_of_app; [by apply (told_later t1 t2 t)|]. by apply list_elem_of_singleton in Hin as ->. }
  destruct e; cbn [containerd_call]; try (eapply wp_mono; [apply wp_prefix|]; intros t r Hp; apply Hgrows; [done|by left]).
  all: unfold lift_left, trigger; cbn [interp bind wp]; intros r; apply Hgrows; [by eexists|right].
  all: unfold containerd_part, left_part; rewrite !omap_app; apply elem_of_app; right; by left.
Qed.

Lemma wp_on_containerd {A} g (p : prog CriE A) Q t1 t2 :
  wp p Q t1 -> told t1 t2 ->
  wp (interp (gvisor_call g) (lift_left p)) (fun t a => exists t1', told t1' t /\ Q t1' a) t2.
Proof.
  revert t1 t2. induction p as [a|e k IH]; intros t1 t2; [cbn; eauto|]. intros Hk Ht. unfold lift_left. cbn [interp bind trigger].
  apply wp_bind. eapply wp_mono; [by apply (containerd_call_told g e t1 t2)|]. cbv beta. intros t r Htold.
  by apply (IH r (t1 ++ [existT e r])).
Qed.

(** ** Deletions *)

(** The deletions that the Worker saw succeed: of a restored Sandbox or not, and of which runtime. *)
Definition saw_deletion (ev : event WorkerE) : option (bool * ID) :=
  match ev with
  | existT (RtDelete id) None => Some (false, id)
  | existT (SnDeleteRestored _ id) None => Some (true, id)
  | _ => None
  end.

(** The contract of an adapter, whichever it is: a deletion that succeeds was carried out below. *)
Lemma adapter_deletions b e t :
  wp (adapter b e) (fun t' r => forall x, saw_deletion (existT e r) = Some x -> deletion_carried_out b x.1 x.2 t') t.
Proof.
  destruct b as [config g|k]; cbn [adapter deletion_carried_out].
  - destruct e; try (eapply wp_mono; [apply wp_true|]; by intros t' r _ ?).
    + cbn [on_cri]. eapply wp_mono; [apply (wp_on_containerd g _ _ [] t (Delete_gone config id [])); by intros ev ?%elem_of_nil|].
      intros t' r (t1 & Ht & Hr) x. cbn. destruct (r : option error); [done|]. intros [= <-]. cbn.
      eapply told_pod_gone; [exact Ht|by apply Hr].
    + cbn [on_cri]. unfold trigger. cbn [interp]. apply wp_bind.
      eapply wp_mono; [eapply wp_host_call, on_gvisor_deletions|].
      cbv beta. intros t' r Hr. cbn [interp wp]. intros x. cbn in *. destruct (r : option error); [done|]. intros [= <-]. cbn.
      rewrite <- host_view_part. by apply Hr.
  - eapply wp_mono; [eapply wp_host_call, on_kata_deletions|].
    intros t' r Hr [restored id] Hx. cbn. rewrite <- host_view_part. apply Hr.
    destruct e; try done; cbn in *; destruct (r : option error); congruence.
Qed.
End Program.
