(* ===== verification/Kube.v ===== *)
(** * The Kubernetes objects and what the controllers call

    The custom resources of api/v1alpha1 as the controllers see them, the parts of the core
    objects they read and write, and the effects of a controller: the API client, the Worker
    client, the Scheduler, the endpoint resolver and the clock. Every answer is arbitrary.
    Condition and finalizer helpers come from Kubernetes libraries: [KubeApi] lists them,
    [KubeLaws] what the controllers rely on. Validation the API server does from the
    kubebuilder markers is not part of these definitions. *)

From S2P Require Import Prelude Prog Strings Slot Runtime Scheduler Api.

(** ** Metadata and conditions *)

(** The fields of [metav1.ObjectMeta] the program uses; [om_Deleted] says that the deletion
    timestamp is set, [om_Owner] is the controlling owner's UID. *)
Record ObjectMeta := mkMeta {
  om_Name : string;
  om_Namespace : string;
  om_UID : UID;
  om_Generation : Z;
  om_ResourceVersion : string;
  om_Finalizers : list string;
  om_Deleted : bool;
  om_Labels : gmap string string;
  om_Owner : option UID;
}.

#[export] Instance ObjectMeta_eq_dec : EqDecision ObjectMeta.
Proof. solve_decision. Defined.

Definition no_meta : ObjectMeta := mkMeta "" "" "" 0 "" [] false ∅ None.

Definition set_Finalizers (fs : list string) (m : ObjectMeta) : ObjectMeta :=
  mkMeta (om_Name m) (om_Namespace m) (om_UID m) (om_Generation m) (om_ResourceVersion m) fs
    (om_Deleted m) (om_Labels m) (om_Owner m).

Inductive ConditionStatus := ConditionTrue | ConditionFalse | ConditionUnknown.
#[export] Instance ConditionStatus_eq_dec : EqDecision ConditionStatus.
Proof. solve_decision. Defined.

(** [metav1.Condition]. *)
Record Condition := mkCondition {
  cn_Type : string;
  cn_Status : ConditionStatus;
  cn_ObservedGeneration : Z;
  cn_LastTransitionTime : Z;
  cn_Reason : string;
  cn_Message : string;
}.
#[export] Instance Condition_eq_dec : EqDecision Condition.
Proof. solve_decision. Defined.

(** [meta.SetStatusCondition] (at a time), [meta.FindStatusCondition], the finalizer helpers of
    controllerutil on the finalizers of an object, and [ctrl.SetControllerReference]. *)
Class KubeApi := {
  SetStatusCondition : Z -> list Condition -> Condition -> list Condition;
  FindStatusCondition : list Condition -> string -> option Condition;
  ContainsFinalizer : list string -> string -> bool;
  AddFinalizer : list string -> string -> list string;
  RemoveFinalizer : list string -> string -> list string;
  SetControllerReference : ObjectMeta -> ObjectMeta -> result ObjectMeta;
}.

(** A condition that was set is found with the status, reason, message and generation it was
    set to, and the other types keep theirs. *)
Class KubeLaws `{!KubeApi} : Prop := {
  find_set_same now cs c : exists c', FindStatusCondition (SetStatusCondition now cs c) (cn_Type c) = Some c' /\
    cn_Status c' = cn_Status c /\ cn_Reason c' = cn_Reason c /\ cn_Message c' = cn_Message c /\
    cn_ObservedGeneration c' = cn_ObservedGeneration c;
  find_set_other now cs c t : t <> cn_Type c ->
    FindStatusCondition (SetStatusCondition now cs c) t = FindStatusCondition cs t;
  contains_add fs f : ContainsFinalizer (AddFinalizer fs f) f = true;
  contains_remove fs f : ContainsFinalizer (RemoveFinalizer fs f) f = false;
  owner_keeps_name owner m m' : SetControllerReference owner m = Ok m' -> om_Name m' = om_Name m;
}.

(** [apierrors.IsNotFound]. *)
Fixpoint IsNotFound (e : error) : bool :=
  match e with
  | KubeNotFound _ => true
  | Wrapf _ e' => IsNotFound e'
  | Wrapf2 _ e1 e2 => IsNotFound e1 || IsNotFound e2
  | _ => false
  end.

(** ** Sandbox *)

(* go: api/v1alpha1/sandbox_types.go SandboxFinalizer *)
Definition SandboxFinalizer : string := "sandboxfleet.io/runtime-cleanup".

(** The empty phase is the phase of a new object. *)
(* go: api/v1alpha1/sandbox_types.go 10-18 SandboxPhase *)
Inductive SandboxPhase :=
  | SandboxPhaseNone
  | SandboxPhasePending
  | SandboxPhaseStarting
  | SandboxPhaseRunning
  | SandboxPhaseStopping
  | SandboxPhaseFailed.
#[export] Instance SandboxPhase_eq_dec : EqDecision SandboxPhase.
Proof. solve_decision. Defined.

(* go: api/v1alpha1/sandbox_types.go 20-25 ConditionReady *)
Definition ConditionReady : string := "Ready".
(* go: api/v1alpha1/sandbox_types.go 20-25 ConditionScheduled *)
Definition ConditionScheduled : string := "Scheduled".
(* go: api/v1alpha1/sandbox_types.go 20-25 ConditionWorkersReady *)
Definition ConditionWorkersReady : string := "WorkersReady".
(* go: api/v1alpha1/sandbox_types.go 20-25 ConditionUpdating *)
Definition ConditionUpdating : string := "Updating".

(* go: api/v1alpha1/sandbox_types.go SandboxSpec *)
Record SandboxSpec := mkSandboxSpec {
  sp_PoolRef : string;
  sp_SlotProfile : string;
  sp_Container : option ContainerSpec;
  sp_FromSnapshot : string;
}.

(** The status' copy of an assignment ([Assignment] is the Scheduler's). *)
(* go: api/v1alpha1/sandbox_types.go Assignment *)
Record SandboxAssignment := mkSandboxAssignment {
  sa_Worker : string;
  sa_SlotID : Z;
  sa_SlotProfile : string;
}.
#[export] Instance SandboxAssignment_eq_dec : EqDecision SandboxAssignment.
Proof. solve_decision. Defined.

(* go: api/v1alpha1/sandbox_types.go SandboxStatus *)
Record SandboxStatus := mkSandboxStatus {
  ss_ObservedGeneration : Z;
  ss_Phase : SandboxPhase;
  ss_Assignment : option SandboxAssignment;
  ss_Conditions : list Condition;
}.
#[export] Instance SandboxStatus_eq_dec : EqDecision SandboxStatus.
Proof. solve_decision. Defined.

(* go: api/v1alpha1/sandbox_types.go Sandbox *)
Record Sandbox := mkSandbox {
  sb_Meta : ObjectMeta;
  sb_Spec : SandboxSpec;
  sb_Status : SandboxStatus;
}.

Definition set_sb_Meta (m : ObjectMeta) (s : Sandbox) : Sandbox := mkSandbox m (sb_Spec s) (sb_Status s).
Definition set_sb_Status (st : SandboxStatus) (s : Sandbox) : Sandbox := mkSandbox (sb_Meta s) (sb_Spec s) st.
Definition set_ss_ObservedGeneration (g : Z) (st : SandboxStatus) : SandboxStatus :=
  mkSandboxStatus g (ss_Phase st) (ss_Assignment st) (ss_Conditions st).
Definition set_ss_Phase (p : SandboxPhase) (st : SandboxStatus) : SandboxStatus :=
  mkSandboxStatus (ss_ObservedGeneration st) p (ss_Assignment st) (ss_Conditions st).
Definition set_ss_Assignment (a : option SandboxAssignment) (st : SandboxStatus) : SandboxStatus :=
  mkSandboxStatus (ss_ObservedGeneration st) (ss_Phase st) a (ss_Conditions st).
Definition set_ss_Conditions (cs : list Condition) (st : SandboxStatus) : SandboxStatus :=
  mkSandboxStatus (ss_ObservedGeneration st) (ss_Phase st) (ss_Assignment st) cs.

Definition set_Phase (p : SandboxPhase) (s : Sandbox) : Sandbox :=
  set_sb_Status (set_ss_Phase p (sb_Status s)) s.

(** ** SandboxSnapshot *)

(* go: api/v1alpha1/sandboxsnapshot_types.go SandboxSnapshotFinalizer *)
Definition SandboxSnapshotFinalizer : string := "sandboxfleet.io/snapshot-cleanup".

(* go: api/v1alpha1/sandboxsnapshot_types.go 9-15 SandboxSnapshotPhase *)
Inductive SnapshotPhase :=
  | SnapshotPhaseNone
  | SnapshotPhasePending
  | SnapshotPhaseReady
  | SnapshotPhaseFailed.
#[export] Instance SnapshotPhase_eq_dec : EqDecision SnapshotPhase.
Proof. solve_decision. Defined.

Definition SnapshotPhase_string (p : SnapshotPhase) : string :=
  match p with
  | SnapshotPhaseNone => ""
  | SnapshotPhasePending => "Pending"
  | SnapshotPhaseReady => "Ready"
  | SnapshotPhaseFailed => "Failed"
  end.

(* go: api/v1alpha1/sandboxsnapshot_types.go SandboxSnapshotSpec *)
Record SnapshotSpec := mkSnapshotSpec {
  np_SourceSandbox : string;
  np_Pool : string;
}.

(* go: api/v1alpha1/sandboxsnapshot_types.go SandboxSnapshotStatus *)
Record SnapshotStatus := mkSnapshotStatus {
  ns_ObservedGeneration : Z;
  ns_Phase : SnapshotPhase;
  ns_StoragePath : string;
  ns_SnapshotFiles : list string;
  ns_Runtime : string;
  ns_FormatVersion : string;
  ns_SizeBytes : Z;
  ns_SourceWorker : string;
  ns_Message : string;
  ns_Conditions : list Condition;
}.

(* go: api/v1alpha1/sandboxsnapshot_types.go SandboxSnapshot *)
Record SandboxSnapshot := mkSnapshot {
  sn_Meta : ObjectMeta;
  sn_Spec : SnapshotSpec;
  sn_Status : SnapshotStatus;
}.

Definition set_sn_Meta (m : ObjectMeta) (s : SandboxSnapshot) : SandboxSnapshot :=
  mkSnapshot m (sn_Spec s) (sn_Status s).
Definition set_sn_Status (st : SnapshotStatus) (s : SandboxSnapshot) : SandboxSnapshot :=
  mkSnapshot (sn_Meta s) (sn_Spec s) st.
Definition set_ns_ObservedGeneration (g : Z) (st : SnapshotStatus) : SnapshotStatus :=
  mkSnapshotStatus g (ns_Phase st) (ns_StoragePath st) (ns_SnapshotFiles st) (ns_Runtime st)
    (ns_FormatVersion st) (ns_SizeBytes st) (ns_SourceWorker st) (ns_Message st) (ns_Conditions st).
Definition set_ns_Phase (p : SnapshotPhase) (st : SnapshotStatus) : SnapshotStatus :=
  mkSnapshotStatus (ns_ObservedGeneration st) p (ns_StoragePath st) (ns_SnapshotFiles st) (ns_Runtime st)
    (ns_FormatVersion st) (ns_SizeBytes st) (ns_SourceWorker st) (ns_Message st) (ns_Conditions st).
Definition set_ns_Message (m : string) (st : SnapshotStatus) : SnapshotStatus :=
  mkSnapshotStatus (ns_ObservedGeneration st) (ns_Phase st) (ns_StoragePath st) (ns_SnapshotFiles st)
    (ns_Runtime st) (ns_FormatVersion st) (ns_SizeBytes st) (ns_SourceWorker st) m (ns_Conditions st).
Definition set_ns_Conditions (cs : list Condition) (st : SnapshotStatus) : SnapshotStatus :=
  mkSnapshotStatus (ns_ObservedGeneration st) (ns_Phase st) (ns_StoragePath st) (ns_SnapshotFiles st)
    (ns_Runtime st) (ns_FormatVersion st) (ns_SizeBytes st) (ns_SourceWorker st) (ns_Message st) cs.

(** ** SandboxPool *)

(** [RuntimeBackend] is a string with one constant. *)
(* go: api/v1alpha1/sandboxpool_types.go RuntimeBackendCRI *)
Definition RuntimeBackendCRI : string := "cri".

(* go: api/v1alpha1/sandboxpool_types.go CRIRuntimeConfig *)
Record CRIRuntimeConfig := mkCRI {
  cri_RuntimeHandler : string;
  cri_Snapshotter : string;
  cri_HostDevices : list string;
}.

(* go: api/v1alpha1/sandboxpool_types.go RuntimeConfig *)
Record RuntimeConfig := mkRuntimeConfig {
  rc_Backend : string;
  rc_CRI : option CRIRuntimeConfig;
}.

(* go: api/v1alpha1/sandboxpool_types.go S3SnapshotStorage *)
Record S3SnapshotStorage := mkS3Storage {
  st_Endpoint : string;
  st_Bucket : string;
  st_Region : string;
  st_CredentialsSecretRef : string;
}.

(** [SnapshotStorageSpec] holds only the S3 configuration. *)
(* go: api/v1alpha1/sandboxpool_types.go SnapshotStorageSpec *)
Definition SnapshotStorageSpec : Type := option S3SnapshotStorage.

(* go: api/v1alpha1/sandboxpool_types.go SlotGroup *)
Record SlotGroup := mkSlotGroup {
  sg_Profile : string;
  sg_Count : Z;
}.

(* go: api/v1alpha1/sandboxpool_types.go WorkerTemplate *)
Record WorkerTemplate := mkWorkerTemplate {
  wt_Name : string;
  wt_Replicas : Z;
  wt_Slots : list SlotGroup;
}.

(* go: api/v1alpha1/sandboxpool_types.go AppliedSlot *)
Record AppliedSlot := mkAppliedSlot {
  ap_ID : Z;
  ap_Profile : string;
}.
#[export] Instance AppliedSlot_eq_dec : EqDecision AppliedSlot.
Proof. solve_decision. Defined.

(** [ts_AppliedSlots] is [None] for a nil slice. The other lists of the status are never empty
    in a valid object. *)
(* go: api/v1alpha1/sandboxpool_types.go WorkerTemplateStatus *)
Record WorkerTemplateStatus := mkTemplateStatus {
  ts_Name : string;
  ts_Replicas : Z;
  ts_ReadyReplicas : Z;
  ts_AppliedSlots : option (list AppliedSlot);
}.
#[export] Instance WorkerTemplateStatus_eq_dec : EqDecision WorkerTemplateStatus.
Proof. solve_decision. Defined.

(* go: api/v1alpha1/sandboxpool_types.go SlotProfileStatus *)
Record SlotProfileStatus := mkProfileStatus {
  ps_Name : string;
  ps_Total : Z;
  ps_Used : Z;
  ps_Available : Z;
}.
#[export] Instance SlotProfileStatus_eq_dec : EqDecision SlotProfileStatus.
Proof. solve_decision. Defined.

(* go: api/v1alpha1/sandboxpool_types.go SandboxPoolStatus *)
Record SandboxPoolStatus := mkPoolStatus {
  pt_ObservedGeneration : Z;
  pt_CurrentWorkers : Z;
  pt_ReadyWorkers : Z;
  pt_UsedSlots : Z;
  pt_AvailableSlots : Z;
  pt_Templates : list WorkerTemplateStatus;
  pt_Profiles : list SlotProfileStatus;
  pt_Conditions : list Condition;
}.
#[export] Instance SandboxPoolStatus_eq_dec : EqDecision SandboxPoolStatus.
Proof. solve_decision. Defined.

Definition set_pt_Templates (ts : list WorkerTemplateStatus) (s : SandboxPoolStatus) : SandboxPoolStatus :=
  mkPoolStatus (pt_ObservedGeneration s) (pt_CurrentWorkers s) (pt_ReadyWorkers s) (pt_UsedSlots s)
    (pt_AvailableSlots s) ts (pt_Profiles s) (pt_Conditions s).
Definition set_pt_Conditions (cs : list Condition) (s : SandboxPoolStatus) : SandboxPoolStatus :=
  mkPoolStatus (pt_ObservedGeneration s) (pt_CurrentWorkers s) (pt_ReadyWorkers s) (pt_UsedSlots s)
    (pt_AvailableSlots s) (pt_Templates s) (pt_Profiles s) cs.

Section Kube.
Context {QA : QuantityApi}.

(* go: api/v1alpha1/sandboxpool_types.go SlotProfile *)
Record SlotProfile := mkSlotProfile {
  pf_Name : string;
  pf_Resources : ResourceRequirements;
}.

(* go: api/v1alpha1/sandboxpool_types.go SandboxPoolSpec *)
Record SandboxPoolSpec := mkPoolSpec {
  pl_Runtime : RuntimeConfig;
  pl_SnapshotStorage : option SnapshotStorageSpec;
  pl_SlotProfiles : list SlotProfile;
  pl_WorkerTemplates : list WorkerTemplate;
}.

(* go: api/v1alpha1/sandboxpool_types.go SandboxPool *)
Record SandboxPool := mkPool {
  po_Meta : ObjectMeta;
  po_Spec : SandboxPoolSpec;
  po_Status : SandboxPoolStatus;
}.

Definition set_po_Status (s : SandboxPoolStatus) (p : SandboxPool) : SandboxPool :=
  mkPool (po_Meta p) (po_Spec p) s.

(** ** Core objects *)

(** A Pod: its metadata, its IP, its conditions (type and status), the resources of its
    containers. *)
Record Pod := mkPod {
  pod_Meta : ObjectMeta;
  pod_IP : string;
  pod_Conditions : list (string * ConditionStatus);
  pod_Containers : list ResourceRequirements;
}.

(** A headless Service: its selector and its one port. *)
Record Service := mkService {
  svc_Meta : ObjectMeta;
  svc_Selector : gmap string string;
  svc_Port : Z;
}.

(** The data of a Secret. *)
Definition Secret : Type := gmap string string.

Inductive VolumeSource := EmptyDir | HostPathCharDev (path : string).

(** The container of a Worker Pod, with the fields the builder sets. *)
Record Container := mkContainer {
  ct_Name : string;
  ct_Image : string;
  ct_Args : list string;
  ct_EnvFieldRefs : list (string * string);
  ct_Port : Z;
  ct_Resources : ResourceRequirements;
  ct_ReadinessPath : string;
  ct_Privileged : bool;
  ct_VolumeMounts : list (string * string);
}.

Record PodTemplate := mkPodTemplate {
  tp_Labels : gmap string string;
  tp_Container : Container;
  tp_Volumes : list (string * VolumeSource);
}.

(** A StatefulSet; [set_Replicas] is a pointer in the code. The Pod template of an object read
    from the API server may differ from the built one by defaulted fields: [set_Template] is
    [inr] then. *)
Record StatefulSet := mkStatefulSet {
  set_Meta : ObjectMeta;
  set_ServiceName : string;
  set_Replicas : option Z;
  set_Selector : gmap string string;
  set_Template : PodTemplate + string;
}.

(** ** Effects *)

(* go: internal/controller/worker_dependencies.go WorkerClient *)
Inductive ControllerE :=
  (* the API server *)
  | GetSandbox (namespace name : string)
  | UpdateSandbox (s : Sandbox)
  | UpdateSandboxStatus (s : Sandbox)
  | ListSandboxes (namespace : string)
  | GetPool (namespace name : string)
  | UpdatePoolStatus (p : SandboxPool)
  | GetSnapshot (namespace name : string)
  | UpdateSnapshot (s : SandboxSnapshot)
  | UpdateSnapshotStatus (s : SandboxSnapshot)
  | GetPod (namespace name : string)
  | ListPods (namespace : string) (labels : gmap string string)
  | GetSecret (namespace name : string)
  | GetService (namespace name : string)
  | CreateService (s : Service)
  | GetStatefulSet (namespace name : string)
  | CreateStatefulSet (s : StatefulSet)
  | UpdateStatefulSet (s : StatefulSet)
  (* the endpoint resolver and the Worker client *)
  | Endpoint (pod : Pod)
  | WHealth (endpoint : string)
  | WListSlots (endpoint : string)
  | WApplyTopology (endpoint : string) (configs : list Config)
  | WReserveSlot (endpoint : string) (ref : SandboxSlotRef)
  | WStartSandbox (endpoint : string) (req : StartSandboxRequest)
  | WStopSandbox (endpoint : string) (ref : SandboxSlotRef)
  | WReleaseSlot (endpoint : string) (ref : SandboxSlotRef)
  | WCreateSnapshot (endpoint : string) (req : CreateSnapshotRequest)
  | WRestoreFromSnapshot (endpoint : string) (req : RestoreFromSnapshotRequest)
  | WDeleteSnapshotObjects (endpoint : string) (req : DeleteSnapshotObjectsRequest)
  (* the Scheduler *)
  | SAssign (req : AssignRequest)
  | SRestore (a : Assignment)
  | SRelease (uid : UID)
  | SUpdateWorker (w : WorkerState)
  | SRemoveWorker (key : WorkerKey)
  (* the clock *)
  | Now.

(** An update answers with the object the server stored. *)
#[export] Instance ControllerE_effect : Effect ControllerE := fun e =>
  match e with
  | GetSandbox _ _ | UpdateSandbox _ | UpdateSandboxStatus _ => result Sandbox
  | ListSandboxes _ => result (list Sandbox)
  | GetPool _ _ | UpdatePoolStatus _ => result SandboxPool
  | GetSnapshot _ _ | UpdateSnapshot _ | UpdateSnapshotStatus _ => result SandboxSnapshot
  | GetPod _ _ => result Pod
  | ListPods _ _ => result (list Pod)
  | GetSecret _ _ => result Secret
  | GetService _ _ => result Service
  | GetStatefulSet _ _ => result StatefulSet
  | CreateService _ | CreateStatefulSet _ | UpdateStatefulSet _ => option error
  | Endpoint _ => result string
  | WHealth _ => option error
  | WListSlots _ => result (list Info)
  | WApplyTopology _ _ | WReserveSlot _ _ | WStartSandbox _ _ | WStopSandbox _ _ | WReleaseSlot _ _ => option error
  | WCreateSnapshot _ _ => result CreateSnapshotResult
  | WRestoreFromSnapshot _ _ | WDeleteSnapshotObjects _ _ => option error
  | SAssign _ => result Assignment
  | SRestore _ | SRelease _ => option error
  | SUpdateWorker _ | SRemoveWorker _ => unit
  | Now => Z
  end.

(** [ctrl.Result] is the delay of [RequeueAfter] in nanoseconds, 0 for none. *)
Definition Result : Type := result Z.
Definition no_requeue : Result := Ok 0%Z.
End Kube.

Arguments ControllerE {QA}.

(** ** A reference for the helpers

    What Kubernetes' helpers do, as far as [KubeLaws] asks: the instance the witnesses use. *)
Module KubeRef.

Definition find (cs : list Condition) (t : string) : option Condition :=
  List.find (fun c => bool_decide (cn_Type c = t)) cs.

(** Replace the condition of the type, or append it; the transition time moves only when the
    status changes. *)
Fixpoint set (now : Z) (cs : list Condition) (c : Condition) : list Condition :=
  match cs with
  | [] => [mkCondition (cn_Type c) (cn_Status c) (cn_ObservedGeneration c) now (cn_Reason c) (cn_Message c)]
  | old :: cs' =>
      if bool_decide (cn_Type old = cn_Type c) then
        mkCondition (cn_Type c) (cn_Status c) (cn_ObservedGeneration c)
          (if bool_decide (cn_Status old = cn_Status c) then cn_LastTransitionTime old else now)
          (cn_Reason c) (cn_Message c) :: cs'
      else old :: set now cs' c
  end.

#[export] Instance api : KubeApi := {|
  SetStatusCondition := set;
  FindStatusCondition := find;
  ContainsFinalizer fs f := bool_decide (f ∈ fs);
  AddFinalizer fs f := if bool_decide (f ∈ fs) then fs else fs ++ [f];
  RemoveFinalizer fs f := filter (fun g => g <> f) fs;
  SetControllerReference owner m := Ok (mkMeta (om_Name m) (om_Namespace m) (om_UID m) (om_Generation m)
    (om_ResourceVersion m) (om_Finalizers m) (om_Deleted m) (om_Labels m) (Some (om_UID owner)));
|}.

#[export] Instance laws : KubeLaws.
Proof.
  split; cbn [SetStatusCondition FindStatusCondition ContainsFinalizer AddFinalizer RemoveFinalizer api].
  - intros now cs c. induction cs as [|old cs IH]; cbn [set].
    + eexists. unfold find. cbn. by rewrite bool_decide_true.
    + case_bool_decide as Ht.
      * eexists. unfold find. cbn. by rewrite bool_decide_true.
      * unfold find in *. cbn. by rewrite bool_decide_false.
  - intros now cs c t Ht. induction cs as [|old cs IH]; cbn [set].
    + unfold find. cbn. by rewrite bool_decide_false.
    + case_bool_decide as Hold; unfold find in *; cbn.
      * rewrite bool_decide_false by done. by rewrite bool_decide_false by congruence.
      * by rewrite IH.
  - intros fs f. apply bool_decide_eq_true. case_bool_decide; set_solver.
  - intros fs f. apply bool_decide_eq_false. intros [Hne _]%list_elem_of_filter. done.
  - by intros owner m m' [= <-].
Qed.
End KubeRef.
