(* ===== verification/Controller.v ===== *)
(** * What the controllers share (internal/controller)

    Worker labels and names, the endpoint of a Worker Pod, readiness, conditions, and the
    storage credentials of a Pool (snapshot_helpers.go). *)

From S2P Require Import Prelude Prog Strings Slot Runtime Scheduler Api Kube.

(* go: internal/controller/pool_controller.go poolPollInterval *)
Definition poolPollInterval : Z := 5 * Second.

(* go: internal/controller/worker_dependencies.go 19-23 labelManaged *)
Definition labelManaged : string := "sandboxfleet.io/managed".
(* go: internal/controller/worker_dependencies.go 19-23 labelPool *)
Definition labelPool : string := "sandboxfleet.io/pool".
(* go: internal/controller/worker_dependencies.go 19-23 labelTemplate *)
Definition labelTemplate : string := "sandboxfleet.io/template".

(* go: internal/controller/worker_dependencies.go workerLabels *)
Definition workerLabels (poolName templateName : string) : gmap string string :=
  <[labelManaged := "true"]> (<[labelPool := poolName]> (<[labelTemplate := templateName]> ∅)).

(** The labels of the Workers of a Pool, whatever their template. *)
Definition poolLabels (poolName : string) : gmap string string :=
  <[labelManaged := "true"]> (<[labelPool := poolName]> ∅).

(* go: internal/controller/worker_dependencies.go workerServiceName *)
Definition workerServiceName (poolName : string) : string := poolName +:+ "-worker".

(* go: internal/controller/worker_dependencies.go workerSetName *)
Definition workerSetName (poolName templateName : string) : string :=
  poolName +:+ "-" +:+ templateName +:+ "-worker".

Section Conditions.
Context {KA : KubeApi}.

(* go: internal/controller/sandbox_controller.go conditionTrue *)
Definition conditionTrue (conditions : list Condition) (conditionType : string) : bool :=
  match FindStatusCondition conditions conditionType with
  | Some condition => bool_decide (cn_Status condition = ConditionTrue)
  | None => false
  end.
End Conditions.

(* go: internal/controller/pool_controller.go conditionStatus *)
Definition conditionStatus (value : bool) : ConditionStatus :=
  if value then ConditionTrue else ConditionFalse.

Section Controller.
Context {QA : QuantityApi}.

(** The first condition of type Ready decides. *)
(* go: internal/controller/pool_controller.go podReady *)
Definition podReady (pod : Pod) : bool :=
  match List.find (fun c => bool_decide (c.1 = "Ready")) (pod_Conditions pod) with
  | Some c => bool_decide (c.2 = ConditionTrue)
  | None => false
  end.

(* go: internal/controller/sandbox_controller.go sandboxIdentity *)
Definition sandboxIdentity (sandbox : Sandbox) : SandboxIdentity :=
  mkIdentity (om_Namespace (sb_Meta sandbox)) (om_Name (sb_Meta sandbox)) (om_UID (sb_Meta sandbox)).

(* go: internal/controller/sandbox_controller.go SandboxReconciler.resolveWorkerEndpoint *)
Definition resolveWorkerEndpoint (namespace name : string) : prog ControllerE (result string) :=
  let! pod := on_error (wrap_prefix ("get Worker Pod " +:+ quote name)) (trigger (GetPod namespace name)) in
  trigger (Endpoint pod).

(** [net.JoinHostPort]. *)
Definition JoinHostPort (host port : string) : string :=
  if has_char ":"%char host || has_char "%"%char host
  then "[" +:+ host +:+ "]:" +:+ port else host +:+ ":" +:+ port.

(** The resolver the manager is built with; the theorems about the controllers do not depend on
    the resolver. *)
(* go: internal/controller/worker_dependencies.go PodIPResolver.Endpoint *)
Definition PodIPResolver_Endpoint (port : Z) (pod : Pod) : result string :=
  if bool_decide (pod_IP pod = "") then
    Err (Plain ("worker pod " +:+ quote (om_Name (pod_Meta pod)) +:+ " has no IP"))
  else Ok ("http://" +:+ JoinHostPort (pod_IP pod) (itoa port)).

(** ** Snapshot storage (snapshot_helpers.go) *)

(* go: internal/controller/snapshot_helpers.go 13-16 secretAccessKeyID *)
Definition secretAccessKeyID : string := "accessKeyID".
(* go: internal/controller/snapshot_helpers.go 13-16 secretSecretAccessKey *)
Definition secretSecretAccessKey : string := "secretAccessKey".

Definition pool_error (pool : SandboxPool) (what : string) : error :=
  Plain ("SandboxPool " +:+ quote (om_Name (po_Meta pool)) +:+ " " +:+ what).

(* go: internal/controller/snapshot_helpers.go snapshotStorageConfig *)
Definition snapshotStorageConfig (pool : SandboxPool) : prog ControllerE (result ObjectStorageConfig) :=
  match mjoin (pl_SnapshotStorage (po_Spec pool)) with
  | None => Ret (Err (pool_error pool "has no snapshotStorage.s3"))
  | Some s3 =>
      if bool_decide (st_Bucket s3 = "") || bool_decide (st_CredentialsSecretRef s3 = "") then
        Ret (Err (pool_error pool "snapshotStorage.s3 needs bucket and credentialsSecretRef"))
      else
        let ref := st_CredentialsSecretRef s3 in
        let! secret := on_error (wrap_prefix ("get snapshot credentials secret " +:+ quote ref))
          (trigger (GetSecret (om_Namespace (po_Meta pool)) ref)) in
        let accessKey := default "" (secret !! secretAccessKeyID) in
        let secretKey := default "" (secret !! secretSecretAccessKey) in
        if bool_decide (accessKey = "") || bool_decide (secretKey = "") then
          Ret (Err (Plain ("secret " +:+ quote ref +:+ " must contain " +:+ secretAccessKeyID +:+
                           " and " +:+ secretSecretAccessKey)))
        else Ret (Ok (mkObjectStorage (st_Endpoint s3) (st_Bucket s3) (st_Region s3) accessKey secretKey
                        (negb (bool_decide (st_Endpoint s3 = "")))))
  end.

(* go: internal/controller/snapshot_helpers.go poolRuntime *)
Definition poolRuntime (pool : SandboxPool) : string :=
  match rc_CRI (pl_Runtime (po_Spec pool)) with
  | Some cri => cri_RuntimeHandler cri
  | None => ""
  end.
End Controller.
