(* ===== verification/Workload.v ===== *)
(** * Worker workloads (internal/controller/worker_dependencies.go)

    The StatefulSet of a Worker template: the shape of its Pods, the budget of the Worker
    container, the host devices it mounts. [MustParse] of a quantity literal is not part of the
    repository. *)

From S2P Require Import Prelude Strings Slot Runtime Api Kube Controller.

(** [resource.MustParse] of a literal the program holds. *)
Class QuantityParse (QA : QuantityApi) := MustParse : string -> Quantity.

(** The name of the memory resource ([corev1.ResourceMemory]). *)
Definition ResourceMemory : string := "memory".

(** The interface the Pool controller builds workloads through. *)
(* go: internal/controller/worker_dependencies.go WorkerWorkloadBuilder *)
Class WorkloadBuilder (QA : QuantityApi) :=
  Build : SandboxPool -> WorkerTemplate -> list Config -> StatefulSet.

(** What the Pool controller relies on: a StatefulSet is named after its Pool and template. *)
Class NamesSets {QA : QuantityApi} (WB : WorkloadBuilder QA) : Prop :=
  build_name pool template configs :
    om_Name (set_Meta (Build pool template configs)) = workerSetName (om_Name (po_Meta pool)) (wt_Name template).

(* go: internal/controller/worker_dependencies.go WorkerProfile *)
Record WorkerProfile := mkWorkerProfile {
  wp_Image : string;
  wp_Privileged : bool;
}.

(* go: internal/controller/worker_dependencies.go StatefulSetBuilder *)
Record StatefulSetBuilder := mkBuilder {
  bd_Port : Z;
  bd_DefaultImage : string;
  bd_Profiles : gmap string WorkerProfile;
}.

Section Workload.
Context {QA : QuantityApi} {QP : QuantityParse QA}.

(** ** The budget of the Worker container *)

(* go: internal/controller/worker_dependencies.go cloneResourceList *)
Definition cloneResourceList (l : gmap string Quantity) : gmap string Quantity :=
  if decide (size l = 0) then ∅ else map_fold (fun k v out => <[k := v]> out) ∅ l.

(* go: internal/controller/worker_dependencies.go addMemory *)
Definition addMemory (list : gmap string Quantity) (extra : Quantity) : gmap string Quantity :=
  match list !! ResourceMemory with
  | None => <[ResourceMemory := extra]> list
  | Some current => <[ResourceMemory := q_add current extra]> list
  end.

(** Resource claims are not copied. *)
(* go: internal/controller/worker_dependencies.go withMemoryOverhead *)
Definition withMemoryOverhead (r : ResourceRequirements) (extra : Quantity) : ResourceRequirements :=
  if q_is_zero extra then r
  else mkResources (addMemory (cloneResourceList (rr_Requests r)) extra)
                   (addMemory (cloneResourceList (rr_Limits r)) extra) [].

(* go: internal/controller/worker_dependencies.go maxSlotMemoryLimit *)
Definition maxSlotMemoryLimit (configs : list Config) : Quantity :=
  foldl (fun max cfg =>
    match rr_Limits (cfg_Resources cfg) !! ResourceMemory with
    | Some q => match q_cmp q max with Gt => q | _ => max end
    | None => max
    end) q_zero configs.

(* go: internal/controller/worker_dependencies.go workerPodResources *)
Definition workerPodResources (pool : SandboxPool) (configs : list Config) : ResourceRequirements :=
  let sum := SumResources configs in
  if negb (bool_decide (rc_Backend (pl_Runtime (po_Spec pool)) = RuntimeBackendCRI)) then sum
  else withMemoryOverhead (withMemoryOverhead sum (maxSlotMemoryLimit configs)) (MustParse "2Gi").

(** ** The Pod *)

(* go: internal/controller/worker_dependencies.go StatefulSetBuilder.profileFor *)
Definition profileFor (b : StatefulSetBuilder) (pool : SandboxPool) : WorkerProfile :=
  let backend := rc_Backend (pl_Runtime (po_Spec pool)) in
  match bd_Profiles b !! backend with
  | Some override =>
      mkWorkerProfile (if bool_decide (wp_Image override = "") then bd_DefaultImage b else wp_Image override)
        (wp_Privileged override)
  | None => mkWorkerProfile (bd_DefaultImage b) (bool_decide (backend = RuntimeBackendCRI))
  end.

(** The volume and the mount of the [i]-th declared device, if its path is usable. *)
Definition host_device (i : nat) (devicePath : string) : option (string * VolumeSource * (string * string)) :=
  let devicePath := Clean devicePath in
  if bool_decide (devicePath = ".") || bool_decide (devicePath = "/") || negb (HasPrefix devicePath "/") then None
  else
    let name := "host-device-" +:+ itoa (Z.of_nat i) in
    Some (name, HostPathCharDev devicePath, (name, devicePath)).

(* go: internal/controller/worker_dependencies.go mountHostDevices *)
Definition mountHostDevices (volumes : list (string * VolumeSource)) (mounts : list (string * string))
    (devices : list string) : list (string * VolumeSource) * list (string * string) :=
  let added := omap (fun '(i, d) => host_device i d) (zip (seq 0 (length devices)) devices) in
  (volumes ++ added.*1, mounts ++ added.*2).

(** The volumes and mounts every CRI Worker has. *)
(* go: internal/controller/worker_dependencies.go 132-136 StatefulSetBuilder.Build *)
Definition cri_volumes : list (string * VolumeSource) :=
  [("containerd-root", EmptyDir); ("containerd-state", EmptyDir); ("sandboxfleet-data", EmptyDir)].
(* go: internal/controller/worker_dependencies.go 137-141 StatefulSetBuilder.Build *)
Definition cri_mounts : list (string * string) :=
  [("containerd-root", "/var/lib/containerd"); ("containerd-state", "/run/containerd");
   ("sandboxfleet-data", "/var/lib/sandboxfleet")].

(* go: internal/controller/worker_dependencies.go StatefulSetBuilder.Build *)
Definition StatefulSetBuilder_Build (b : StatefulSetBuilder) (pool : SandboxPool)
    (template : WorkerTemplate) (configs : list Config) : StatefulSet :=
  let poolName := om_Name (po_Meta pool) in
  let runtime := pl_Runtime (po_Spec pool) in
  let labels := workerLabels poolName (wt_Name template) in
  let profile := profileFor b pool in
  let handler := from_option cri_RuntimeHandler "" (rc_CRI runtime) in
  let snapshotterKind := from_option cri_Snapshotter "" (rc_CRI runtime) in
  let hostDevices := from_option cri_HostDevices [] (rc_CRI runtime) in
  let '(volumes, mounts) :=
    if bool_decide (rc_Backend runtime = RuntimeBackendCRI)
    then mountHostDevices cri_volumes cri_mounts hostDevices else ([], []) in
  let container := mkContainer "worker" (wp_Image profile)
    ["--name=$(WORKER_NAME)"; "--namespace=$(WORKER_NAMESPACE)"; "--pool=" +:+ poolName;
     "--runtime-handler=" +:+ handler; "--snapshotter=" +:+ snapshotterKind;
     "--listen=:" +:+ itoa (bd_Port b)]
    [("WORKER_NAME", "metadata.name"); ("WORKER_NAMESPACE", "metadata.namespace")]
    (bd_Port b) (workerPodResources pool configs) "/healthz" (wp_Privileged profile) mounts in
  mkStatefulSet
    (mkMeta (workerSetName poolName (wt_Name template)) (om_Namespace (po_Meta pool)) "" 0 "" [] false labels None)
    (workerServiceName poolName) (Some (wt_Replicas template)) labels
    (inl (mkPodTemplate labels container volumes)).

#[export] Instance StatefulSetBuilder_names b : NamesSets (StatefulSetBuilder_Build b).
Proof. intros pool template configs. unfold Build, StatefulSetBuilder_Build. by case_bool_decide. Qed.
End Workload.
