(* ===== verification/WorkloadFacts.v ===== *)
(** * Correctness of the Worker workloads

    A Pod built for a layout has room for it, so the headroom check of the Pool controller
    accepts the Pods it created itself; and its devices are mounted from declared volumes. *)

From S2P Require Import Prelude Strings Slot Runtime Api Kube Controller Workload.

Section Budget.
Context {QA : QuantityApi} {QL : QuantityLaws QA} {QP : QuantityParse QA}.

Lemma q_le_refl q : q_cmp q q <> Gt.
Proof using QL. by rewrite q_cmp_refl. Qed.

Lemma q_ge_le q1 q2 : q_cmp q1 q2 <> Lt <-> q_cmp q2 q1 <> Gt.
Proof using QL. rewrite (q_cmp_flip q1 q2). by destruct (q_cmp q1 q2). Qed.

Lemma q_eq_sym q1 q2 : q_cmp q1 q2 = Eq -> q_cmp q2 q1 = Eq.
Proof using QL. intros H. by rewrite q_cmp_flip, H. Qed.

(** Adding an amount that is not negative does not lower a quantity. *)
Lemma q_add_ge q extra : q_cmp q_zero extra <> Gt -> q_cmp q (q_add q extra) <> Gt.
Proof using QL.
  intros H. apply (q_cmp_le_trans q (q_add q q_zero)); [by rewrite (q_eq_sym _ _ (q_add_zero_r q))|].
  by apply q_add_mono; [apply q_le_refl|].
Qed.

Lemma resourceListCovers_refl l : resourceListCovers l l = true.
Proof using QL.
  apply resourceListCovers_spec. intros name required Hn. rewrite Hn. by rewrite q_cmp_refl.
Qed.

Lemma cloneResourceList_eq l : Workload.cloneResourceList l = l.
Proof. apply Slot.cloneResourceList_id. Qed.

(** More memory covers whatever the list covered. *)
Lemma addMemory_covers have need extra :
  q_cmp q_zero extra <> Gt -> resourceListCovers have need = true ->
  resourceListCovers (addMemory have extra) need = true.
Proof using QL.
  rewrite !resourceListCovers_spec. intros Hx Hc name required Hn. specialize (Hc _ _ Hn).
  unfold addMemory. destruct (have !! ResourceMemory) as [cur|] eqn:Hm;
    (destruct (decide (name = ResourceMemory)) as [->|Hne];
      [rewrite lookup_insert_eq; rewrite Hm in Hc | rewrite lookup_insert_ne by done; exact Hc]).
  - apply q_ge_le. apply q_ge_le in Hc. eapply q_cmp_le_trans; [exact Hc|by apply q_add_ge].
  - apply q_ge_le. apply q_is_zero_cmp in Hc. eapply q_cmp_le_trans; [|exact Hx]. by rewrite Hc.
Qed.

Lemma withMemoryOverhead_covers r need extra :
  q_cmp q_zero extra <> Gt -> ResourcesEnough r need = true ->
  ResourcesEnough (withMemoryOverhead r extra) need = true.
Proof using QL.
  unfold ResourcesEnough, withMemoryOverhead. intros Hx [H1 H2]%andb_true_iff.
  destruct (q_is_zero extra); [by rewrite H1, H2|]. cbn [rr_Requests rr_Limits].
  by rewrite !cloneResourceList_eq, !addMemory_covers.
Qed.

(** The largest memory limit of the Slots is not negative: the search starts from zero. *)
Lemma maxSlotMemoryLimit_nonneg configs : q_cmp q_zero (maxSlotMemoryLimit configs) <> Gt.
Proof using QL.
  unfold maxSlotMemoryLimit. generalize (q_le_refl q_zero). generalize q_zero at 2 4 as m.
  induction configs as [|c configs IH]; intros m Hm; cbn [foldl]; [done|]. apply IH.
  destruct (rr_Limits (cfg_Resources c) !! ResourceMemory) as [q|]; [|done].
  destruct (q_cmp q m) eqn:Hq; try done. eapply q_cmp_le_trans; [exact Hm|].
  apply q_ge_le. by rewrite Hq.
Qed.

(** C15. A Worker Pod built for a layout can hold it: the requests and limits of its container
    cover the sum of the Slots' requests and limits, in every resource, whatever memory the
    runtime's overhead adds (the fixed overhead being a quantity that is not negative). So the
    headroom check accepts the layout on Pods built for it. *)
Theorem built_pod_fits_layout (b : StatefulSetBuilder) pool template configs
  (Hfixed : q_cmp q_zero (MustParse "2Gi") <> Gt) :
  match set_Template (StatefulSetBuilder_Build b pool template configs) with
  | inl pod => ResourcesEnough (ct_Resources (tp_Container pod)) (SumResources configs) = true
  | inr _ => False
  end.
Proof using QL.
  assert (Hsum : ResourcesEnough (SumResources configs) (SumResources configs) = true).
  { unfold ResourcesEnough. by rewrite !resourceListCovers_refl. }
  unfold StatefulSetBuilder_Build. destruct (if bool_decide _ then _ else _) as [volumes mounts].
  cbn [set_Template tp_Container ct_Resources]. unfold workerPodResources.
  destruct (negb _); [done|].
  auto using withMemoryOverhead_covers, maxSlotMemoryLimit_nonneg.
Qed.
End Budget.

(** ** Volumes and mounts *)

Section Mounts.
Context {QA : QuantityApi} {QP : QuantityParse QA}.

Lemma host_device_Some i d v m :
  host_device i d = Some (v, m) ->
  v.1 = "host-device-" +:+ itoa (Z.of_nat i) /\ m.1 = v.1 /\ v.2 = HostPathCharDev m.2 /\
  HasPrefix m.2 "/" = true.
Proof.
  unfold host_device. destruct (_ || _ || negb _) eqn:Hc; [done|].
  apply orb_false_iff in Hc as [_ Hp%negb_false_iff]. by intros [= <- <-].
Qed.

(** The devices that are mounted, in their order, from the [i]-th on. *)
Definition device_entries (i : nat) (devices : list string) :=
  omap (fun '(i, d) => host_device i d) (zip (seq i (length devices)) devices).

Lemma device_entries_elem i devices v m :
  (v, m) ∈ device_entries i devices ->
  exists j, i <= j /\ v.1 = "host-device-" +:+ itoa (Z.of_nat j) /\ m.1 = v.1 /\ v.2 = HostPathCharDev m.2 /\
    HasPrefix m.2 "/" = true.
Proof.
  revert i. induction devices as [|d devices IH]; intros i; [by intros ?%elem_of_nil|].
  unfold device_entries. cbn. destruct (host_device i d) as [[v0 m0]|] eqn:Hd.
  - intros [[= -> ->]|Hin]%elem_of_cons.
    + exists i. split; [lia|]. by apply (host_device_Some i d).
    + destruct (IH (S i) Hin) as (j & ? & ?). exists j. split; [lia|done].
  - intros Hin. destruct (IH (S i) Hin) as (j & ? & ?). exists j. split; [lia|done].
Qed.

Lemma device_entries_NoDup i devices : NoDup (device_entries i devices).*1.*1.
Proof.
  revert i. induction devices as [|d devices IH]; intros i; [constructor|].
  unfold device_entries. cbn. destruct (host_device i d) as [[v m]|] eqn:Hd; [|apply IH].
  cbn. apply NoDup_cons. split; [|apply IH].
  intros (v' & Hv & ((v'' & m'') & -> & Hin)%list_elem_of_fmap)%list_elem_of_fmap.
  apply (device_entries_elem (S i)) in Hin as (j & Hj & Hn & _).
  apply host_device_Some in Hd as (Hn' & _). cbn in *. rewrite Hv, Hn in Hn'.
  apply (inj (String.app "host-device-")) in Hn'. unfold itoa in Hn'. apply (inj pretty) in Hn'. lia.
Qed.

(** The declared devices that can be mounted, by their clean paths. *)
Definition usable_device (d : string) : bool :=
  negb (bool_decide (Clean d = ".")) && negb (bool_decide (Clean d = "/")) && HasPrefix (Clean d) "/".
Definition device_paths (devices : list string) : list string := Clean <$> filter (fun d => usable_device d = true) devices.

Lemma device_entries_paths i devices :
  (device_entries i devices).*2.*2 = device_paths devices /\
  (device_entries i devices).*1.*2 = HostPathCharDev <$> device_paths devices /\
  (device_entries i devices).*2.*1 = (device_entries i devices).*1.*1.
Proof.
  revert i. induction devices as [|d devices IH]; intros i; [done|]. destruct (IH (S i)) as (H1 & H2 & H3).
  assert (He : device_entries i (d :: devices) = option_list (host_device i d) ++ device_entries (S i) devices)
    by (unfold device_entries; cbn; by destruct (host_device i d)).
  assert (Hd : host_device i d = if usable_device d then
      Some ("host-device-" +:+ itoa (Z.of_nat i), HostPathCharDev (Clean d), ("host-device-" +:+ itoa (Z.of_nat i), Clean d)) else None).
  { unfold host_device, usable_device. cbv zeta.
    by destruct (bool_decide (Clean d = ".")), (bool_decide (Clean d = "/")), (HasPrefix (Clean d) "/"). }
  rewrite He, Hd, !fmap_app, H1, H2, H3. unfold device_paths. rewrite filter_cons.
  destruct (decide (usable_device d = true)) as [Hu|Hu%not_true_is_false]; by rewrite Hu.
Qed.

Lemma device_paths_absolute devices : Forall (fun p => HasPrefix p "/" = true) (device_paths devices).
Proof.
  apply Forall_fmap, Forall_forall. intros d [Hd _]%list_elem_of_filter. by apply andb_true_iff in Hd as [_ ?].
Qed.

(** C16. What a Worker Pod mounts: with the CRI backend, exactly three empty data directories and every
    declared device whose clean path is absolute and not the root, in their order. Each volume has
    a name of its own and is mounted once, a data directory at its fixed path and a device, as a
    character device of the host, at its own clean path; every mount path is absolute. With another
    backend there are no volumes and no mounts. Mount paths are distinct when the clean paths of
    the devices are and differ from the data directories: the code does not check that. *)
Theorem pod_mounts_well_formed (b : StatefulSetBuilder) pool template configs :
  match set_Template (StatefulSetBuilder_Build b pool template configs) with
  | inl pod =>
      let volumes := tp_Volumes pod in
      let mounts := ct_VolumeMounts (tp_Container pod) in
      let runtime := pl_Runtime (po_Spec pool) in
      if bool_decide (rc_Backend runtime = RuntimeBackendCRI) then
        let devices := device_paths (from_option cri_HostDevices [] (rc_CRI runtime)) in
        let data := ["/var/lib/containerd"; "/run/containerd"; "/var/lib/sandboxfleet"] in
        NoDup volumes.*1 /\ mounts.*1 = volumes.*1 /\
        volumes.*2 = [EmptyDir; EmptyDir; EmptyDir] ++ (HostPathCharDev <$> devices) /\
        mounts.*2 = data ++ devices /\
        Forall (fun p => HasPrefix p "/" = true) mounts.*2
      else volumes = [] /\ mounts = []
  | inr _ => False
  end.
Proof.
  unfold StatefulSetBuilder_Build.
  case_bool_decide; cbn; [|done].
  set (devices := from_option cri_HostDevices [] _).
  change (omap _ _) with (device_entries 0 devices). destruct (device_entries_paths 0 devices) as (H1 & H2 & H3).
  rewrite H1, H2, H3. split_and!; try done.
  - change (NoDup (cri_volumes.*1 ++ (device_entries 0 devices).*1.*1)). rewrite NoDup_app. split_and!; [by apply (bool_decide_eq_true_1 _) | |apply device_entries_NoDup].
    intros x Hx (v & -> & ((v' & m) & -> & Hin)%list_elem_of_fmap)%list_elem_of_fmap.
    apply device_entries_elem in Hin as (j & _ & Hn & _). cbn in Hx, Hn. rewrite Hn, !elem_of_cons in Hx.
    by destruct Hx as [?|[?|[?|?%elem_of_nil]]].
  - repeat (apply Forall_cons; split; [done|]). apply device_paths_absolute.
Qed.
End Mounts.

Module WorkloadWitness.
#[local] Existing Instance ZQuantity.
#[local] Existing Instance ZQuantityLaws.
#[local] Instance parse_2Gi : QuantityParse ZQuantity := fun _ => 2147483648%Z.

Definition builder : StatefulSetBuilder := mkBuilder 8090 "worker:latest" ∅.
Definition pool : SandboxPool :=
  mkPool (mkMeta "pool" "team" "uid-p" 1 "3" [] false ∅ None)
    (mkPoolSpec (mkRuntimeConfig "cri" (Some (mkCRI "kata" "kata" ["/dev/kvm"; "/dev/vhost-net/"]))) None [] [])
    (mkPoolStatus 0 0 0 0 0 [] [] []).
Definition template : WorkerTemplate := mkWorkerTemplate "t" 1 [].
Definition small : ResourceRequirements := mkResources {["cpu" := 500%Z]} {["memory" := 1024%Z]} [].

(** A device that is declared twice, or under two spellings, is mounted twice at one path, which
    Kubernetes refuses. *)
Theorem duplicate_devices_share_a_path :
  let twice := mkPool (po_Meta pool) (mkPoolSpec (mkRuntimeConfig "cri" (Some (mkCRI "kata" "kata" ["/dev/kvm"; "/dev//kvm"]))) None [] [])
    (po_Status pool) in
  match set_Template (StatefulSetBuilder_Build builder twice template []) with
  | inl pod => (ct_VolumeMounts (tp_Container pod)).*2 =
      ["/var/lib/containerd"; "/run/containerd"; "/var/lib/sandboxfleet"; "/dev/kvm"; "/dev/kvm"]
  | inr _ => False
  end.
Proof. by vm_compute. Qed.

Lemma built_pod_fits_layout_witness :
  match set_Template (StatefulSetBuilder_Build builder pool template [mkConfig 0 "small" small; mkConfig 1 "small" small]) with
  | inl pod => ResourcesEnough (ct_Resources (tp_Container pod))
                 (SumResources [mkConfig 0 "small" small; mkConfig 1 "small" small]) = true
  | inr _ => False
  end.
Proof.
  apply (built_pod_fits_layout builder pool template [mkConfig 0 "small" small; mkConfig 1 "small" small]).
  by vm_compute.
Defined.
End WorkloadWitness.
