(* ===== verification/PoolController.v ===== *)
(** * The SandboxPool controller (internal/controller/pool_controller.go)

    [Reconcile] keeps the Workers of a Pool: their Service, for each template the layout of
    Slots and the StatefulSet, then the Scheduler's inventory and the Pool's status. The Pool
    object is threaded where the code changes it in place. A panic ([PlanTopology]'s slice
    bound) is an error: controller-runtime recovers it. *)

From S2P Require Import Prelude Prog Strings Slot Topology Runtime Scheduler Api Kube Controller Workload.

Section PoolController.
Context {QA : QuantityApi} {QEq : EqDecision Quantity} {KA : KubeApi} {WB : WorkloadBuilder QA}.

Definition po_name (p : SandboxPool) : string := om_Name (po_Meta p).
Definition po_ns (p : SandboxPool) : string := om_Namespace (po_Meta p).

#[export] Instance ResourceRequirements_eq_dec : EqDecision ResourceRequirements.
Proof using QEq. solve_decision. Defined.
#[export] Instance VolumeSource_eq_dec : EqDecision VolumeSource.
Proof. solve_decision. Defined.
#[export] Instance Container_eq_dec : EqDecision Container.
Proof using QEq. solve_decision. Defined.
#[export] Instance PodTemplate_eq_dec : EqDecision PodTemplate.
Proof using QEq. solve_decision. Defined.

(** [x++] on an int32. *)
Definition incr (z : Z) : Z := wrap32 (z + 1).

Definition template_prefix (templateName : string) : string := "template " +:+ templateName +:+ ": ".

(** The Pods of a template. *)
Definition list_template_pods (pool : SandboxPool) (templateName : string) : prog ControllerE (result (list Pod)) :=
  on_error (wrap_prefix "list Worker Pods") (trigger (ListPods (po_ns pool) (workerLabels (po_name pool) templateName))).

(** ** The Service *)

(* go: internal/controller/pool_controller.go PoolReconciler.syncService *)
Definition syncService (workerPort : Z) (pool : SandboxPool) : prog ControllerE (result unit) :=
  let port := if bool_decide (workerPort = 0%Z) then 8090%Z else workerPort in
  let meta := mkMeta (workerServiceName (po_name pool)) (po_ns pool) "" 0 "" [] false ∅ None in
  match SetControllerReference (po_Meta pool) meta with
  | Err err => Ret (Err (wrap_prefix "set Worker Service owner" err))
  | Ok meta =>
      let desired := mkService meta (poolLabels (po_name pool)) port in
      call! got := trigger (GetService (om_Namespace meta) (om_Name meta)) in
      match got : result Service with
      | Ok _ => Ret (Ok tt)
      | Err err =>
          if IsNotFound err then
            as_result (on_failure (wrap_prefix "create Worker Service") (trigger (CreateService desired)))
          else Ret (Err (wrap_prefix "get Worker Service" err))
      end
  end.

(** ** Topology *)

Definition profile_resources (profiles : list SlotProfile) : gmap string ResourceRequirements :=
  foldl (fun m profile => <[pf_Name profile := pf_Resources profile]> m) ∅ profiles.

(* go: internal/controller/pool_controller.go appliedConfigs *)
Definition appliedConfigs (pool : SandboxPool) (templateName : string)
    (profileResources : gmap string ResourceRequirements) : list Config :=
  match List.find (fun t => bool_decide (ts_Name t = templateName)) (pt_Templates (po_Status pool)) with
  | Some template =>
      (fun applied => mkConfig (ap_ID applied) (ap_Profile applied)
        (default no_resources (profileResources !! ap_Profile applied))) <$> default [] (ts_AppliedSlots template)
  | None => []
  end.

Fixpoint set_template_applied (templateName : string) (applied : list AppliedSlot)
    (templates : list WorkerTemplateStatus) : list WorkerTemplateStatus :=
  match templates with
  | [] => [mkTemplateStatus templateName 0 0 (Some applied)]
  | t :: rest =>
      if bool_decide (ts_Name t = templateName)
      then mkTemplateStatus (ts_Name t) (ts_Replicas t) (ts_ReadyReplicas t) (Some applied) :: rest
      else t :: set_template_applied templateName applied rest
  end.

(* go: internal/controller/pool_controller.go setAppliedSlots *)
Definition setAppliedSlots (pool : SandboxPool) (templateName : string) (configs : list Config) : SandboxPool :=
  let applied := (fun cfg => mkAppliedSlot (cfg_ID cfg) (cfg_Profile cfg)) <$> configs in
  set_po_Status (set_pt_Templates
    (set_template_applied templateName applied (pt_Templates (po_Status pool))) (po_Status pool)) pool.

Fixpoint count_groups (templateName : string) (profileResources : gmap string ResourceRequirements)
    (groups : list SlotGroup) (counts : gmap string Z) (order : list string) : result (gmap string Z * list string) :=
  match groups with
  | [] => Ok (counts, order)
  | group :: groups' =>
      let profile := sg_Profile group in
      if bool_decide (profileResources !! profile = None) then
        Err (Plain ("template " +:+ quote templateName +:+ " references unknown profile " +:+ quote profile))
      else if bool_decide (is_Some (counts !! profile)) then
        Err (Plain ("template " +:+ quote templateName +:+ " repeats profile " +:+ quote profile))
      else count_groups templateName profileResources groups' (<[profile := sg_Count group]> counts) (order ++ [profile])
  end.

(* go: internal/controller/pool_controller.go slotCountsFromTemplate *)
Definition slotCountsFromTemplate (template : WorkerTemplate)
    (profileResources : gmap string ResourceRequirements) : result (gmap string Z * list string) :=
  count_groups (wt_Name template) profileResources (wt_Slots template) ∅ [].

(** The Slots of one Pod that are not free; a Pod that does not answer has none. *)
Definition occupied_on (occupied : gmap Z bool) (pod : Pod) : prog ControllerE (gmap Z bool) :=
  call! resolved := trigger (Endpoint pod) in
  match resolved : result string with
  | Err _ => Ret occupied
  | Ok endpoint =>
      call! listed := trigger (WListSlots endpoint) in
      match listed : result (list Info) with
      | Err _ => Ret occupied
      | Ok slots => Ret (foldl (fun occupied slotInfo =>
          if bool_decide (info_State slotInfo = StateFree) then occupied
          else <[info_ID slotInfo := true]> occupied) occupied slots)
      end
  end.

(* go: internal/controller/pool_controller.go PoolReconciler.occupiedSlots *)
Definition occupiedSlots (pool : SandboxPool) (templateName : string) : prog ControllerE (result (gmap Z bool)) :=
  let! pods := list_template_pods pool templateName in
  call! occupied := foldM occupied_on ∅ pods in Ret (Ok occupied).

(* go: internal/controller/pool_controller.go PoolReconciler.workersCanFit *)
Definition workersCanFit (pool : SandboxPool) (templateName : string) (need : ResourceRequirements) : prog ControllerE (result bool) :=
  let! pods := list_template_pods pool templateName in
  Ret (Ok (forallb (fun pod => match pod_Containers pod with
                               | [] => false
                               | resources :: _ => ResourcesEnough resources need
                               end) pods)).

(** Push the layout to one Pod; the names of the Pods that could not be updated. *)
Definition push_to (configs : list Config) (failed : list string) (pod : Pod) : prog ControllerE (list string) :=
  if negb (podReady pod) then Ret failed
  else
    call! resolved := trigger (Endpoint pod) in
    match resolved : result string with
    | Err _ => Ret (failed ++ [om_Name (pod_Meta pod)])
    | Ok endpoint =>
        call! err := trigger (WApplyTopology endpoint configs) in
        match err : option error with
        | Some _ => Ret (failed ++ [om_Name (pod_Meta pod)])
        | None => Ret failed
        end
    end.

(** The reason is empty when every Ready Worker took the layout. *)
(* go: internal/controller/pool_controller.go PoolReconciler.syncTopology *)
Definition syncTopology (pool : SandboxPool) (templateName : string) (configs : list Config) :
    prog ControllerE (result (SandboxPool * string)) :=
  let! pods := list_template_pods pool templateName in
  call! failed := foldM (push_to configs) [] pods in
  match failed with
  | [] => Ret (Ok (setAppliedSlots pool templateName configs, ""))
  | _ => Ret (Ok (pool, template_prefix templateName +:+ "failed to push topology to workers " +:+ strings_Join failed ","))
  end.

(** ** Workers *)

Definition worker_pod_name (pool : SandboxPool) (templateName : string) (ordinal : Z) : string :=
  workerSetName (po_name pool) templateName +:+ "-" +:+ itoa ordinal.

Fixpoint any_busy (pool : SandboxPool) (templateName : string) (ordinals : list Z) : prog ControllerE (result bool) :=
  match ordinals with
  | [] => Ret (Ok false)
  | ordinal :: ordinals' =>
      let name := worker_pod_name pool templateName ordinal in
      call! got := trigger (GetPod (po_ns pool) name) in
      match got : result Pod with
      | Err err => if IsNotFound err then any_busy pool templateName ordinals'
                   else Ret (Err (wrap_prefix ("get Worker " +:+ quote name) err))
      | Ok pod =>
          call! resolved := trigger (Endpoint pod) in
          match resolved : result string with
          | Err _ => Ret (Ok true)
          | Ok endpoint =>
              call! listed := trigger (WListSlots endpoint) in
              match listed : result (list Info) with
              | Err _ => Ret (Ok true)
              | Ok slots => if forallb (fun s => bool_decide (info_State s = StateFree)) slots
                            then any_busy pool templateName ordinals' else Ret (Ok true)
              end
          end
      end
  end.

(* go: internal/controller/pool_controller.go PoolReconciler.workersStillBusy *)
Definition workersStillBusy (pool : SandboxPool) (templateName : string) (keep have : Z) : prog ControllerE (result bool) :=
  any_busy pool templateName (seqZ keep (have - keep)).

Definition set_set_Template (t : PodTemplate + string) (s : StatefulSet) : StatefulSet :=
  mkStatefulSet (set_Meta s) (set_ServiceName s) (set_Replicas s) (set_Selector s) t.
Definition set_set_Replicas (n : option Z) (s : StatefulSet) : StatefulSet :=
  mkStatefulSet (set_Meta s) (set_ServiceName s) n (set_Selector s) (set_Template s).
Definition set_set_Meta (m : ObjectMeta) (s : StatefulSet) : StatefulSet :=
  mkStatefulSet m (set_ServiceName s) (set_Replicas s) (set_Selector s) (set_Template s).

(** Whether Workers that a smaller replica count would remove are still busy. *)
(* go: internal/controller/pool_controller.go 232-242 PoolReconciler.syncWorkers *)
Definition removed_busy (pool : SandboxPool) (templateName : string) (current desired : StatefulSet) : prog ControllerE (result bool) :=
  match set_Replicas current, set_Replicas desired with
  | Some have, Some want => if (want <? have)%Z then workersStillBusy pool templateName want have else Ret (Ok false)
  | _, _ => Ret (Ok false)
  end.

(** Bring an existing StatefulSet to the desired template and to [replicas]. *)
(* go: internal/controller/pool_controller.go 244-257 PoolReconciler.syncWorkers *)
Definition update_set (current desired : StatefulSet) (replicas : option Z) : prog ControllerE (result unit) :=
  let template_changed := negb (bool_decide (set_Template current = set_Template desired)) in
  let replicas_changed := match set_Replicas current, replicas with
                          | Some have, Some want => negb (bool_decide (have = want))
                          | _, _ => true
                          end in
  if template_changed || replicas_changed then
    as_result (on_failure (wrap_prefix "update Worker StatefulSet")
      (trigger (UpdateStatefulSet (set_set_Replicas replicas (set_set_Template (set_Template desired) current)))))
  else Ret (Ok tt).

(* go: internal/controller/pool_controller.go PoolReconciler.syncWorkers *)
Definition syncWorkers (pool : SandboxPool) (template : WorkerTemplate) (configs : list Config) : prog ControllerE (result bool) :=
  let desired := Build pool template configs in
  match SetControllerReference (po_Meta pool) (set_Meta desired) with
  | Err err => Ret (Err (wrap_prefix "set Worker StatefulSet owner" err))
  | Ok meta =>
      let desired := set_set_Meta meta desired in
      call! got := trigger (GetStatefulSet (po_ns pool) (om_Name (set_Meta desired))) in
      match got : result StatefulSet with
      | Err err =>
          if IsNotFound err then
            let! _ := as_result (on_failure (wrap_prefix "create Worker StatefulSet") (trigger (CreateStatefulSet desired))) in
            Ret (Ok false)
          else Ret (Err (wrap_prefix "get Worker StatefulSet" err))
      | Ok current =>
          let! busy := removed_busy pool (wt_Name template) current desired in
          let! _ := update_set current desired (if busy then set_Replicas current else set_Replicas desired) in
          Ret (Ok busy)
      end
  end.

(** Keep the planned layout only if the existing Workers have room for its new Slots. *)
(* go: internal/controller/pool_controller.go 137-150 PoolReconciler.syncTemplate *)
Definition fit_layout (pool : SandboxPool) (templateName : string) (current next : list Config) :
    prog ControllerE (result (list Config * list string)) :=
  if (0 <? CountNewSlots current next)%nat then
    let! canFit := workersCanFit pool templateName (SumResources next) in
    if canFit : bool then Ret (Ok (next, []))
    else Ret (Ok (KeepExistingSlots current next,
      [template_prefix templateName +:+ "workers lack resource headroom for more slots; increase replicas"]))
  else Ret (Ok (next, [])).

(* go: internal/controller/pool_controller.go PoolReconciler.syncTemplate *)
Definition syncTemplate (pool : SandboxPool) (template : WorkerTemplate) : prog ControllerE (result (SandboxPool * list string)) :=
  let name := wt_Name template in
  let profileResources := profile_resources (pl_SlotProfiles (po_Spec pool)) in
  let currentSlots := appliedConfigs pool name profileResources in
  match slotCountsFromTemplate template profileResources with
  | Err err => Ret (Err err)
  | Ok (counts, order) =>
      let! occupied := occupiedSlots pool name in
      match PlanTopology currentSlots counts profileResources occupied order with
      | None => Ret (Err (Plain "panic: slice bounds out of range"))
      | Some plan =>
          let blocked := if plan_Blocked plan then [template_prefix name +:+ plan_Reason plan] else [] in
          let! fitted := fit_layout pool name currentSlots (plan_Slots plan) in
          let '(nextSlots, lacking) := fitted in
          let! pushed := syncTopology pool name nextSlots in
          let '(pool, pushPending) := pushed in
          let! workersBusy := syncWorkers pool template nextSlots in
          Ret (Ok (pool, blocked ++ lacking ++
            (if bool_decide (pushPending = "") then [] else [pushPending]) ++
            (if workersBusy : bool then [template_prefix name +:+ "cannot remove Workers that still have busy slots"] else [])))
      end
  end.

(** ** Status *)

(* go: internal/controller/pool_controller.go desiredWorkerCount *)
Definition desiredWorkerCount (spec : SandboxPoolSpec) : Z :=
  foldl (fun total template => wrap32 (total + wt_Replicas template)) 0%Z (pl_WorkerTemplates spec).

Definition set_pool_condition (conditionType : string) (status : ConditionStatus) (reason message : string)
    (pool : SandboxPool) : prog ControllerE SandboxPool :=
  call! now := trigger Now in
  let condition := mkCondition conditionType status (om_Generation (po_Meta pool)) 0 reason message in
  let st := po_Status pool in
  Ret (set_po_Status (set_pt_Conditions (SetStatusCondition now (pt_Conditions st) condition) st) pool).

(* go: internal/controller/pool_controller.go setPoolConditions *)
Definition setPoolConditions (pool : SandboxPool) (readyWorkers : Z) (pending : list string) : prog ControllerE SandboxPool :=
  let wantWorkers := desiredWorkerCount (po_Spec pool) in
  let workersReady := bool_decide (readyWorkers = wantWorkers) && (0 <? wantWorkers)%Z in
  call! pool := set_pool_condition ConditionWorkersReady (conditionStatus workersReady)
    (if workersReady then "WorkersReady" else "WorkersNotReady")
    (itoa readyWorkers +:+ " of " +:+ itoa wantWorkers +:+ " Workers are ready") pool in
  let poolReady := (0 <? wantWorkers)%Z && (0 <? readyWorkers)%Z in
  call! pool := set_pool_condition ConditionReady (conditionStatus poolReady)
    (if poolReady then "WorkerAvailable" else "NoReadyWorkers")
    (itoa readyWorkers +:+ " Workers can accept Sandbox operations") pool in
  let updating := negb (bool_decide (pending = [])) in
  set_pool_condition ConditionUpdating (conditionStatus updating)
    (if updating then "TopologyPending" else "TopologySettled")
    (if updating then strings_Join pending "; " else "pool topology matches the desired replicas and slot counts") pool.

(** What the loop over the Pods counts. *)
Record inventory := mkInventory {
  iv_ready : Z;
  iv_used : Z;
  iv_available : Z;
  iv_profiles : gmap string SlotProfileStatus;
  iv_templateReady : gmap string Z;
  iv_templateTotal : gmap string Z;
  iv_seen : gset string;
}.

(** One Slot a Worker reports: the counters of its profile, which is new if the Pool does not
    declare it, and not counted if it has no name. *)
(* go: internal/controller/pool_controller.go 430-450 PoolReconciler.syncStatus *)
Definition count_slot (iv : inventory) (slotInfo : Info) : inventory :=
  let free := bool_decide (info_State slotInfo = StateFree) in
  let profile := info_Profile slotInfo in
  let stats := match iv_profiles iv !! profile with
               | Some stats => Some stats
               | None => if bool_decide (profile = "") then None else Some (mkProfileStatus profile 0 0 0)
               end in
  let count stats :=
    if free then mkProfileStatus (ps_Name stats) (incr (ps_Total stats)) (ps_Used stats) (incr (ps_Available stats))
    else mkProfileStatus (ps_Name stats) (incr (ps_Total stats)) (incr (ps_Used stats)) (ps_Available stats) in
  mkInventory (iv_ready iv)
    (if free then iv_used iv else incr (iv_used iv))
    (if free then incr (iv_available iv) else iv_available iv)
    (match stats with Some stats => <[profile := count stats]> (iv_profiles iv) | None => iv_profiles iv end)
    (iv_templateReady iv) (iv_templateTotal iv) (iv_seen iv).

Definition slot_map (slots : list Info) : gmap Z Info :=
  foldl (fun m slotInfo => <[info_ID slotInfo := slotInfo]> m) ∅ slots.

Definition worker_key (pool : SandboxPool) (name : string) : WorkerKey := mkWorkerKey (po_ns pool) (po_name pool) name.

(** One Pod: its Worker goes into the Scheduler with the Slots it reports, or out of it. *)
(* go: internal/controller/pool_controller.go 408-459 PoolReconciler.syncStatus *)
Definition observe_pod (pool : SandboxPool) (iv : inventory) (pod : Pod) : prog ControllerE inventory :=
  let name := om_Name (pod_Meta pod) in
  let templateName := default "" (om_Labels (pod_Meta pod) !! labelTemplate) in
  let bump m := <[templateName := incr (default 0%Z (m !! templateName))]> m in
  let iv := mkInventory (iv_ready iv) (iv_used iv) (iv_available iv) (iv_profiles iv) (iv_templateReady iv)
              (bump (iv_templateTotal iv)) ({[name]} ∪ iv_seen iv) in
  let key := worker_key pool name in
  let gone := call! _ := trigger (SRemoveWorker key) in Ret iv in
  if negb (podReady pod) then gone
  else
    call! resolved := trigger (Endpoint pod) in
    match resolved : result string with
    | Err _ => gone
    | Ok endpoint =>
        call! health := trigger (WHealth endpoint) in
        match health : option error with
        | Some _ => gone
        | None =>
            call! listed := trigger (WListSlots endpoint) in
            match listed : result (list Info) with
            | Err _ => gone
            | Ok slots =>
                let iv := foldl count_slot iv slots in
                call! now := trigger Now in
                call! _ := trigger (SUpdateWorker (mkWorkerState key true now (slot_map slots))) in
                Ret (mkInventory (incr (iv_ready iv)) (iv_used iv) (iv_available iv) (iv_profiles iv)
                       (bump (iv_templateReady iv)) (iv_templateTotal iv) (iv_seen iv))
            end
        end
    end.

(** Workers of a template that have no Pod leave the Scheduler. *)
Definition forget_missing (pool : SandboxPool) (iv : inventory) (templateName : string) (_ : unit) (ordinal : Z) : prog ControllerE unit :=
  let name := worker_pod_name pool templateName ordinal in
  if decide (name ∈ iv_seen iv) then Ret tt else trigger (SRemoveWorker (worker_key pool name)).

(* go: internal/controller/pool_controller.go 461-472 PoolReconciler.syncStatus *)
Definition forget_template (pool : SandboxPool) (iv : inventory) (_ : unit) (template : WorkerTemplate) : prog ControllerE unit :=
  let total := default 0%Z (iv_templateTotal iv !! wt_Name template) in
  let known := Z.max total (wt_Replicas template) in
  foldM (forget_missing pool iv (wt_Name template)) tt (seqZ 0 known).

(** The status fields computed from the inventory; conditions are set afterwards. *)
(* go: internal/controller/pool_controller.go 475-509 PoolReconciler.syncStatus *)
Definition inventory_status (pool : SandboxPool) (iv : inventory) (podCount : Z) : SandboxPoolStatus :=
  let st := po_Status pool in
  let applied := foldl (fun (m : gmap string (list AppliedSlot)) t =>
    match default [] (ts_AppliedSlots t) with [] => m | slots => <[ts_Name t := slots]> m end) ∅ (pt_Templates st) in
  let names := sort_strings (pf_Name <$> pl_SlotProfiles (po_Spec pool)) in
  mkPoolStatus (om_Generation (po_Meta pool)) (wrap32 podCount) (iv_ready iv) (iv_used iv) (iv_available iv)
    ((fun t => let name := wt_Name t in
       mkTemplateStatus name (default 0%Z (iv_templateTotal iv !! name)) (default 0%Z (iv_templateReady iv !! name))
         (applied !! name)) <$> pl_WorkerTemplates (po_Spec pool))
    ((fun name => default (mkProfileStatus name 0 0 0) (iv_profiles iv !! name)) <$> names)
    (pt_Conditions st).

Definition initial_inventory (pool : SandboxPool) : inventory :=
  mkInventory 0 0 0
    (foldl (fun m profile => <[pf_Name profile := mkProfileStatus (pf_Name profile) 0 0 0]> m) ∅
       (pl_SlotProfiles (po_Spec pool))) ∅ ∅ ∅.

(** [previous] is what the status was when this function was called; the comparison
    ([reflect.DeepEqual]) tells a nil list of applied Slots from an empty one. *)
(* go: internal/controller/pool_controller.go PoolReconciler.syncStatus *)
Definition syncStatus (pool : SandboxPool) (pending : list string) : prog ControllerE (result unit) :=
  let! pods := on_error (wrap_prefix "list Worker Pods") (trigger (ListPods (po_ns pool) (poolLabels (po_name pool)))) in
  call! iv := foldM (observe_pod pool) (initial_inventory pool) pods in
  call! _ := foldM (forget_template pool iv) tt (pl_WorkerTemplates (po_Spec pool)) in
  let previous := po_Status pool in
  let pool := set_po_Status (inventory_status pool iv (Z.of_nat (length pods))) pool in
  call! pool := setPoolConditions pool (iv_ready iv) pending in
  if bool_decide (previous = po_Status pool) then Ret (Ok tt)
  else
    let! _ := on_error (wrap_prefix "update SandboxPool status") (trigger (UpdatePoolStatus pool)) in
    Ret (Ok tt).

(** ** Reconcile *)

Fixpoint sync_templates (pool : SandboxPool) (pending : list string) (templates : list WorkerTemplate) :
    prog ControllerE (result (SandboxPool * list string)) :=
  match templates with
  | [] => Ret (Ok (pool, pending))
  | template :: templates' =>
      let! synced := syncTemplate pool template in
      let '(pool, reasons) := synced in
      sync_templates pool (pending ++ reasons) templates'
  end.

(* go: internal/controller/pool_controller.go PoolReconciler.Reconcile *)
Definition Reconcile (workerPort : Z) (namespace name : string) : prog ControllerE Result :=
  call! got := trigger (GetPool namespace name) in
  match got : result SandboxPool with
  | Err err => Ret (if IsNotFound err then no_requeue else Err err)
  | Ok pool =>
      let! _ := syncService workerPort pool in
      let! synced := sync_templates pool [] (pl_WorkerTemplates (po_Spec pool)) in
      let '(pool, pending) := synced in
      let! _ := syncStatus pool pending in
      Ret (Ok poolPollInterval)
  end.
End PoolController.
