(* ===== verification/PoolControllerFacts.v ===== *)
(** * Correctness of the SandboxPool controller

    What a reconciliation may do to the Workers of a Pool, and what its status and the
    Scheduler's inventory say, whatever the API server and the Workers answer. *)

From S2P Require Import Prelude Prog Strings Slot Topology TopologyFacts Runtime Scheduler Api Kube Controller Workload PoolController.

Section PoolFacts.
Context {QA : QuantityApi} {QEq : EqDecision Quantity} {KA : KubeApi} {WB : WorkloadBuilder QA}.
Implicit Types (tr : trace ControllerE) (e : ControllerE) (pool : SandboxPool).

(** The run read the Pool [p] first. *)
Definition read_pool namespace name (p : SandboxPool) tr : Prop :=
  exists tl, tr = existT (P := answer) (GetPool namespace name) (Ok p) :: tl.

Lemma prefix_elem {ev : event ControllerE} tr tr' : ev ∈ tr -> tr `prefix_of` tr' -> ev ∈ tr'.
Proof. intros H [k ->]. apply elem_of_app. by left. Qed.

Lemma read_pool_prefix namespace name p tr tr' :
  read_pool namespace name p tr -> tr `prefix_of` tr' -> read_pool namespace name p tr'.
Proof. intros [tl ->] [k ->]. by eexists. Qed.

(** The calls that only look. *)
Definition looks e : Prop :=
  match e with
  | GetPod _ _ | ListPods _ _ | Endpoint _ | WHealth _ | WListSlots _ | GetStatefulSet _ _ | GetService _ _ => True
  | _ => False
  end.

(** The Slots the Workers reported, one list for each answer. *)
Definition report (ev : event ControllerE) : option (list Info) :=
  match ev with existT (WListSlots _) (Ok slots) => Some slots | _ => None end.
Definition reports tr : list (list Info) := omap report tr.

(** ** Scale-down *)

(** The Worker [name] has no Pod, or reported every one of its Slots free. *)
Definition worker_idle namespace name tr : Prop :=
  (exists err, existT (P := answer) (GetPod namespace name) (Err err) ∈ tr /\ IsNotFound err = true) \/
  (exists pod endpoint slots,
     existT (P := answer) (GetPod namespace name) (Ok pod) ∈ tr /\
     existT (P := answer) (Endpoint pod) (Ok endpoint) ∈ tr /\
     existT (P := answer) (WListSlots endpoint) (Ok slots) ∈ tr /\
     Forall (fun s => info_State s = StateFree) slots).

Lemma worker_idle_prefix namespace name tr tr' :
  worker_idle namespace name tr -> tr `prefix_of` tr' -> worker_idle namespace name tr'.
Proof.
  intros [(err & H1 & H2)|(pod & ep & slots & H1 & H2 & H3 & H4)] Hp; [left|right];
    eauto 10 using prefix_elem.
Qed.

(** A StatefulSet that is updated is the one of a template of [pool], as read in this run by its name,
    and gets fewer replicas only when every Worker of that template which it loses is idle. *)
Definition scales_idle pool tr e : Prop :=
  match e with
  | UpdateStatefulSet s =>
      exists template current, template ∈ pl_WorkerTemplates (po_Spec pool) /\
        existT (P := answer) (GetStatefulSet (po_ns pool) (workerSetName (po_name pool) (wt_Name template))) (Ok current) ∈ tr /\
        set_Meta s = set_Meta current /\ set_Selector s = set_Selector current /\
        forall have want, set_Replicas current = Some have -> set_Replicas s = Some want ->
          forall ordinal, (want <= ordinal < have)%Z ->
            worker_idle (po_ns pool) (worker_pod_name pool (wt_Name template) ordinal) tr
  | _ => True
  end.

Lemma any_busy_idle G pool templateName ordinals : forall tr,
  (forall t e, looks e -> G t e) ->
  wpg G (any_busy pool templateName ordinals) (fun t r => tr `prefix_of` t /\
    (r = Ok false -> forall o, o ∈ ordinals -> worker_idle (po_ns pool) (worker_pod_name pool templateName o) t)) tr.
Proof.
  induction ordinals as [|o ordinals IH]; intros tr HG; cbn [any_busy].
  { apply wpg_ret. split; [done|]. intros _ o ?%elem_of_nil. done. }
  assert (Hnext : forall t, tr `prefix_of` t ->
    worker_idle (po_ns pool) (worker_pod_name pool templateName o) t ->
    wpg G (any_busy pool templateName ordinals) (fun t r => tr `prefix_of` t /\
      (r = Ok false -> forall o', o' ∈ o :: ordinals -> worker_idle (po_ns pool) (worker_pod_name pool templateName o') t)) t).
  { intros t Ht Hidle. eapply wpg_mono; [by apply IH|]. intros t' r [Ht' Hr].
    split; [by etransitivity|]. intros Hok o' [->|Ho]%elem_of_cons; [by eapply worker_idle_prefix|by apply Hr]. }
  wpg_step; try (by apply HG); try solve [split; [grows|by intros ?]].
  - apply Hnext; [grows|]. right. eexists _, _, _. split_and!; [by in_trace..|].
    apply Forall_forall. intros s Hs%list_elem_of_In.
    match goal with H : forallb _ _ = true |- _ => rewrite forallb_forall in H; specialize (H s Hs) end.
    by eapply bool_decide_eq_true.
  - apply Hnext; [grows|]. left. eexists. split; [by in_trace|done].
Qed.

(** ** Rules for the parts of [Reconcile] *)

(** Looking at the Workers of a template is safe for a guard that allows the calls that only
    look. *)
Lemma wpg_occupiedSlots G pool templateName tr :
  (forall t e, looks e -> G t e) -> wpg G (occupiedSlots pool templateName) (fun _ _ => True) tr.
Proof.
  intros HG. unfold occupiedSlots, list_template_pods. wpg_step; try (by apply HG); try done.
  apply wpg_loop. intros occupied pod t _. unfold occupied_on. wpg_step; try (by apply HG); done.
Qed.

Lemma wpg_workersCanFit G pool templateName need tr :
  (forall t e, looks e -> G t e) -> wpg G (workersCanFit pool templateName need) (fun _ _ => True) tr.
Proof. intros HG. unfold workersCanFit, list_template_pods. wpg_step; by try apply HG. Qed.

(** [syncTemplate] is safe if pushing the layout and syncing the StatefulSet are, the former
    establishing [J] of the Pool it leaves. *)
Lemma wpg_syncTemplate G (J : SandboxPool -> trace ControllerE -> Prop) pool template tr :
  (forall t e, looks e -> G t e) ->
  (forall p t t', J p t -> t `prefix_of` t' -> J p t') ->
  (forall configs t, tr `prefix_of` t ->
     wpg G (syncTopology pool (wt_Name template) configs)
       (fun t' r => forall p s, r = Ok (p, s) -> J p t' /\
          wpg G (syncWorkers p template configs) (fun _ _ => True) t') t) ->
  wpg G (syncTemplate pool template)
    (fun t r => forall p reasons, r = Ok (p, reasons) -> J p t) tr.
Proof.
  intros HG HJ Hpush. unfold syncTemplate. destruct (slotCountsFromTemplate _ _) as [[counts order]|err]; [|by apply wpg_ret].
  unfold try_bind at 1. apply wpg_bind. eapply wpg_mono; [apply wpg_extends, wpg_occupiedSlots, HG|].
  intros t1 [occupied|err] [_ Ht1]; [|by apply wpg_ret]. destruct (PlanTopology _ _ _ _ _) as [plan|]; [|by apply wpg_ret].
  assert (Hfit : forall current next, wpg G (fit_layout pool (wt_Name template) current next) (fun _ _ => True) t1).
  { intros current next. unfold fit_layout. destruct (_ <? _)%nat; [|by apply wpg_ret]. unfold try_bind.
    apply wpg_bind. eapply wpg_mono; [by apply wpg_workersCanFit|]. intros t [[]|] _; by apply wpg_ret. }
  unfold try_bind at 1. apply wpg_bind. eapply wpg_mono; [apply wpg_extends, Hfit|]. clear Hfit.
  intros t2 [[next lacking]|err] [_ Ht2]; [|by apply wpg_ret].
  unfold try_bind at 1. apply wpg_bind. eapply wpg_mono; [apply Hpush; by etransitivity|].
  intros t3 [[p s]|err] Hp; [|by apply wpg_ret]. destruct (Hp p s eq_refl) as [Hj Hw].
  unfold try_bind. apply wpg_bind. eapply wpg_mono; [apply wpg_extends, Hw|].
  intros t4 [busy|err] [_ Ht4]; apply wpg_ret; [|done]. intros p' reasons [= <- _]. by eapply HJ.
Qed.

Lemma wpg_sync_templates G (J : SandboxPool -> trace ControllerE -> Prop) templates : forall pool pending tr,
  J pool tr ->
  (forall p template t, J p t -> template ∈ templates ->
     wpg G (syncTemplate p template) (fun t' r => forall p' reasons, r = Ok (p', reasons) -> J p' t') t) ->
  wpg G (sync_templates pool pending templates)
    (fun t r => forall p reasons, r = Ok (p, reasons) -> J p t) tr.
Proof.
  induction templates as [|template templates IH]; intros pool pending tr HJ Hstep; cbn [sync_templates].
  { apply wpg_ret. by intros p reasons [= <- _]. }
  unfold try_bind. apply wpg_bind. eapply wpg_mono; [apply Hstep; [done|left]|].
  intros t [[p reasons]|err] Hp; [|by apply wpg_ret]. apply IH; [by eapply Hp|].
  intros p0 template0 t0 ? ?. apply Hstep; [done|by right].
Qed.

(** The rule for a run: an invariant [J] of the Pool it read, the Pool it holds and the
    history. *)
Lemma wpg_Reconcile G (J : SandboxPool -> SandboxPool -> trace ControllerE -> Prop) port namespace name :
  (forall t e, looks e -> G t e) -> (forall t s, G t (CreateService s)) -> (forall t, G t (GetPool namespace name)) ->
  (forall pool t, read_pool namespace name pool t -> J pool pool t) ->
  (forall pool0 pool template t, J pool0 pool t -> template ∈ pl_WorkerTemplates (po_Spec pool0) ->
     wpg G (syncTemplate pool template) (fun t' r => forall p reasons, r = Ok (p, reasons) -> J pool0 p t') t) ->
  (forall pool0 pool pending t, J pool0 pool t -> wpg G (syncStatus pool pending) (fun _ _ => True) t) ->
  safe G (Reconcile port namespace name).
Proof.
  intros HG Hsvc Hget Hinit Htemplate Hstatus. unfold Reconcile. wpg_step; [apply Hget| |done].
  eapply wpg_mono with (Q := fun t _ => read_pool namespace name a t).
  { unfold syncService. wpg_step; try (by apply HG); try apply Hsvc; by eexists. }
  intros t [[]|err] Hread; wpg_step; [|done].
  eapply wpg_mono; [apply (wpg_sync_templates G (J a)); eauto|].
  intros t' [[p pending]|err] Hp; wpg_step; [|done].
  eapply wpg_mono; [eapply Hstatus; by eapply Hp|]. intros t'' [[]|err] _; by wpg_step.
Qed.

(** ** Only idle Workers are removed *)

(** A run changes only the status of the Pool it holds. *)
Definition same_pool pool0 pool : Prop := po_Meta pool = po_Meta pool0 /\ po_Spec pool = po_Spec pool0.

Lemma syncTopology_same G pool templateName configs tr :
  (forall t e, looks e -> G t e) -> (forall t ep, G t (WApplyTopology ep configs)) ->
  wpg G (syncTopology pool templateName configs) (fun _ r => forall p s, r = Ok (p, s) -> same_pool pool p) tr.
Proof.
  intros HG Hpush. unfold syncTopology, list_template_pods. wpg_step; try (by apply HG); [|done].
  eapply wpg_mono.
  { apply wpg_loop. intros failed pod t _. unfold push_to. wpg_step; try (by apply HG); try apply Hpush; done. }
  intros t failed _. destruct failed; apply wpg_ret; by intros ? ? [= <- _].
Qed.

Lemma scales_idle_looks pool t e : looks e -> scales_idle pool t e.
Proof. by destruct e. Qed.

(** The Workers that go from the current replicas to the desired ones are idle. *)
Definition removed_idle pool templateName (current desired : StatefulSet) tr : Prop :=
  forall have want, set_Replicas current = Some have -> set_Replicas desired = Some want ->
    forall ordinal, (want <= ordinal < have)%Z ->
      worker_idle (po_ns pool) (worker_pod_name pool templateName ordinal) tr.

Lemma removed_busy_idle G pool templateName current desired tr :
  (forall t e, looks e -> G t e) ->
  wpg G (removed_busy pool templateName current desired)
    (fun t r => r = Ok false -> removed_idle pool templateName current desired t) tr.
Proof.
  intros HG. unfold removed_busy.
  destruct (set_Replicas current) as [have|] eqn:Hh; [|apply wpg_ret; intros _ h w ?; congruence].
  destruct (set_Replicas desired) as [want|] eqn:Hw; [|apply wpg_ret; intros _ h w ??; congruence].
  destruct (Z.ltb_spec want have); [|apply wpg_ret; intros _ h w ?? o ?; simplify_eq; lia].
  eapply wpg_mono; [by apply any_busy_idle|]. intros t r [_ Hr] -> h w ?? o Ho. simplify_eq.
  apply Hr; [done|]. apply elem_of_seqZ. lia.
Qed.

Lemma worker_pod_name_same pool0 pool templateName ordinal :
  same_pool pool0 pool -> worker_pod_name pool templateName ordinal = worker_pod_name pool0 templateName ordinal.
Proof. intros [Hm _]. unfold worker_pod_name, po_name. by rewrite Hm. Qed.

Lemma po_ns_same pool0 pool : same_pool pool0 pool -> po_ns pool = po_ns pool0.
Proof. intros [Hm _]. unfold po_ns. by rewrite Hm. Qed.

Lemma syncWorkers_scales `{!KubeLaws} `{!NamesSets WB} pool0 pool template configs tr :
  same_pool pool0 pool -> template ∈ pl_WorkerTemplates (po_Spec pool0) ->
  wpg (scales_idle pool0) (syncWorkers pool template configs) (fun _ _ => True) tr.
Proof.
  intros Hsame Ht. unfold syncWorkers. wpg_step; try exact I; try done.
  eapply wpg_mono; [apply wpg_extends, removed_busy_idle, scales_idle_looks|].
  intros t [busy|err] [Hidle Hp]; wpg_step; [|done].
  eapply wpg_mono with (Q := fun _ _ => True); [|intros t' [[]|err] _; by wpg_step].
  unfold update_set. wpg_step; try done. eexists template, _. split; [done|]. split.
  { match goal with H : SetControllerReference _ _ = Ok ?m |- _ => apply owner_keeps_name in H; rewrite build_name in H; cbn [set_Meta set_set_Meta] in Hp end.
    unfold po_name. rewrite <- (po_ns_same _ _ Hsame), <- (proj1 Hsame). eapply prefix_elem; [|exact Hp].
    cbn in *. match goal with H : om_Name _ = workerSetName _ _ |- _ => rewrite <- H end. in_trace. }
  split; [done|]. split; [done|]. intros have want Hh Hw o Ho. cbn in Hw.
  rewrite <- (po_ns_same _ _ Hsame), <- (worker_pod_name_same _ _ _ _ Hsame).
  destruct busy; [simplify_eq; lia|]. by eapply Hidle.
Qed.

(** Syncing the StatefulSet looks at the Workers and writes no other object. *)
Lemma syncWorkers_calls pool template configs tr :
  wpg (fun _ e => match e with CreateStatefulSet _ | UpdateStatefulSet _ => True | _ => looks e end)
    (syncWorkers pool template configs) (fun _ _ => True) tr.
Proof.
  unfold syncWorkers. wpg_step; try exact I; try done.
  eapply wpg_mono; [apply removed_busy_idle; by intros t []|].
  intros t [busy|err] _; unfold update_set; by wpg_step.
Qed.

(** The status is computed from what the Workers answer, then written. *)
Lemma syncStatus_calls pool pending tr :
  wpg (fun _ e => match e with
         | GetPool _ _ | SUpdateWorker _ | SRemoveWorker _ | UpdatePoolStatus _ | Now => True
         | _ => looks e
         end) (syncStatus pool pending) (fun _ _ => True) tr.
Proof.
  unfold syncStatus. wpg_step; try exact I; try done.
  eapply wpg_mono; [apply wpg_loop; intros iv pod t _; unfold observe_pod; wpg_step; done|]. intros t iv _.
  wpg_step. eapply wpg_mono.
  { apply wpg_loop. intros [] template t' _. unfold forget_template. apply wpg_loop. intros [] o t'' _.
    unfold forget_missing. by wpg_step. }
  intros t' [] _. unfold setPoolConditions, set_pool_condition. by wpg_step.
Qed.

Definition scale_guard namespace name tr e : Prop :=
  match e with
  | UpdateStatefulSet s => exists pool, read_pool namespace name pool tr /\ scales_idle pool tr e
  | _ => True
  end.

(** C12. Scaling down removes only idle Workers: whenever [Reconcile] updates a StatefulSet, it is the
    one it read in this run under the name of a template of the Pool, and if it gets fewer replicas,
    each Worker of that template that goes was, in this run, found to have no Pod or reported every
    Slot free. A Worker that cannot be reached is never removed. It holds for every builder that names
    a StatefulSet after its Pool and template, as the controller's own does. *)
Theorem scale_down_only_idle `{!KubeLaws} `{!NamesSets WB} port namespace name :
  safe (scale_guard namespace name) (Reconcile port namespace name).
Proof.
  assert (Hlooks : forall t e, looks e -> scale_guard namespace name t e) by (intros t e; by destruct e).
  apply (wpg_Reconcile _ (fun pool0 pool t => read_pool namespace name pool0 t /\ same_pool pool0 pool)); try done.
  - intros pool0 pool template t0 [Hread Hsame] Ht.
    apply wpg_syncTemplate; [done|intros p t t' [??] ?; split; [by eapply read_pool_prefix|done]|].
    intros configs t Hp. eapply wpg_mono; [apply wpg_extends, syncTopology_same; done|].
    intros t' r [Hr Hp'] p s ->. destruct (Hr p s eq_refl), Hsame as [??].
    assert (Hread' : read_pool namespace name pool0 t') by (eapply read_pool_prefix; [done|by etransitivity]).
    assert (Hsame' : same_pool pool0 p) by (split; congruence).
    split; [done|]. eapply wpg_guard; [by apply wpg_from, (syncWorkers_scales pool0)|].
    intros t1 e [He ?]. destruct e; try done. exists pool0. split; [by eapply read_pool_prefix|done].
  - intros pool0 pool pending t _. eapply wpg_guard; [apply syncStatus_calls|]. intros t' e. by destruct e.
Qed.

(** ** What the status records as applied *)

(** The Ready Worker [pod] took the layout in this run. *)
Definition took_layout (configs : list Config) pod tr : Prop :=
  exists endpoint, existT (P := answer) (Endpoint pod) (Ok endpoint) ∈ tr /\
    existT (P := answer) (WApplyTopology endpoint configs) None ∈ tr.

Lemma took_layout_prefix configs pod tr tr' :
  took_layout configs pod tr -> tr `prefix_of` tr' -> took_layout configs pod tr'.
Proof. intros (ep & H1 & H2) Hp. exists ep. eauto using prefix_elem. Qed.

Definition applied_slots (configs : list Config) : list AppliedSlot :=
  (fun cfg => mkAppliedSlot (cfg_ID cfg) (cfg_Profile cfg)) <$> configs.

(** Every Ready Worker of a list of the template's Pods took a layout with these Slots. *)
Definition applied_everywhere pool templateName (slots : list AppliedSlot) tr : Prop :=
  exists pods configs,
    existT (P := answer) (ListPods (po_ns pool) (workerLabels (po_name pool) templateName)) (Ok pods) ∈ tr /\
    slots = applied_slots configs /\
    forall pod, pod ∈ pods -> podReady pod = true -> took_layout configs pod tr.

Lemma applied_everywhere_prefix pool templateName slots tr tr' :
  applied_everywhere pool templateName slots tr -> tr `prefix_of` tr' -> applied_everywhere pool templateName slots tr'.
Proof.
  intros (pods & configs & H1 & H2 & H3) Hp. exists pods, configs.
  eauto 10 using prefix_elem, took_layout_prefix.
Qed.

(** What [pool] says is applied was said of the same template in [pool0], or is applied
    everywhere. *)
Definition applied_known pool0 (templates : list WorkerTemplateStatus) tr : Prop :=
  forall ts slots, ts ∈ templates -> ts_AppliedSlots ts = Some slots ->
    (exists ts0, ts0 ∈ pt_Templates (po_Status pool0) /\ ts_Name ts0 = ts_Name ts /\ ts_AppliedSlots ts0 = Some slots) \/
    applied_everywhere pool0 (ts_Name ts) slots tr.

Lemma applied_known_prefix pool0 templates tr tr' :
  applied_known pool0 templates tr -> tr `prefix_of` tr' -> applied_known pool0 templates tr'.
Proof. intros H Hp ts slots H1 H2. destruct (H ts slots H1 H2); [by left|right]. by eapply applied_everywhere_prefix. Qed.

Lemma push_all_took G configs pods tr :
  (forall t e, looks e -> G t e) -> (forall t ep, G t (WApplyTopology ep configs)) ->
  wpg G (foldM (push_to configs) [] pods)
    (fun t failed => tr `prefix_of` t /\
       (failed = [] -> forall pod, pod ∈ pods -> podReady pod = true -> took_layout configs pod t)) tr.
Proof.
  intros HG Hpush.
  apply (wpg_foldM G _ (fun dn t failed => tr `prefix_of` t /\
    (failed = [] -> forall pod, pod ∈ dn -> podReady pod = true -> took_layout configs pod t)) pods [] tr []).
  { split; [done|]. by intros _ pod ?%elem_of_nil. }
  intros pre pod t failed [Hp Hacc] _. unfold push_to.
  assert (Hlater : forall t' : trace ControllerE, t `prefix_of` t' -> failed = [] -> (podReady pod = true -> took_layout configs pod t') ->
    forall p, p ∈ pre ++ [pod] -> podReady p = true -> took_layout configs p t').
  { intros t' Ht Hf Hpod p [Hin| ->%list_elem_of_singleton]%elem_of_app Hready; [|by apply Hpod].
    eapply took_layout_prefix; [by apply Hacc|done]. }
  wpg_step; try (by apply HG); try apply Hpush; (split; [grows|]); try (by intros [? ?]%app_nil).
  - intros Hf. apply Hlater; [done|done|]. intros Hr. by rewrite Hr in *.
  - intros Hf. apply Hlater; [grows|done|]. intros _. eexists. split; in_trace.
Qed.

Lemma set_template_applied_elem templateName applied templates ts :
  ts ∈ set_template_applied templateName applied templates ->
  ts ∈ templates \/ ts_Name ts = templateName /\ ts_AppliedSlots ts = Some applied.
Proof.
  induction templates as [|t rest IH]; cbn [set_template_applied].
  - intros ->%list_elem_of_singleton. by right.
  - case_bool_decide; intros [->|Hin]%elem_of_cons; [by right|left; by right|left; by left|].
    destruct (IH Hin) as [?|?]; [left; by right|by right].
Qed.

Lemma syncTopology_applied G pool0 pool templateName configs tr :
  (forall t e, looks e -> G t e) -> (forall t ep, G t (WApplyTopology ep configs)) ->
  same_pool pool0 pool -> applied_known pool0 (pt_Templates (po_Status pool)) tr ->
  wpg G (syncTopology pool templateName configs)
    (fun t r => forall p s, r = Ok (p, s) ->
       tr `prefix_of` t /\ same_pool pool0 p /\ applied_known pool0 (pt_Templates (po_Status p)) t) tr.
Proof.
  intros HG Hpush Hsame Hknown. unfold syncTopology, list_template_pods. wpg_step; try (by apply HG); [|done].
  eapply wpg_mono; [by apply push_all_took|]. intros t failed [Hp Htook].
  assert (Hp0 : tr `prefix_of` t) by (etransitivity; [|exact Hp]; grows).
  assert (Hold : applied_known pool0 (pt_Templates (po_Status pool)) t) by by eapply applied_known_prefix.
  destruct failed; apply wpg_ret; intros p s' [= <- _]; split_and!; try done.
  cbn. intros ts slots [Hin|[Hn Ha]]%set_template_applied_elem Hs; [by apply Hold|]. right. subst templateName.
  rewrite Ha in Hs. injection Hs as <-. eexists _, configs. split; [|split; [done|by apply Htook]].
  eapply prefix_elem; [|exact Hp]. rewrite <- (po_ns_same _ _ Hsame). destruct Hsame as [Hm _]. unfold po_name.
  rewrite <- Hm. in_trace.
Qed.

(** The layouts in a computed status are those the Pool held, by name. *)
Lemma inventory_status_applied pool iv n ts slots :
  ts ∈ pt_Templates (inventory_status pool iv n) -> ts_AppliedSlots ts = Some slots ->
  exists ts0, ts0 ∈ pt_Templates (po_Status pool) /\ ts_Name ts0 = ts_Name ts /\ ts_AppliedSlots ts0 = Some slots.
Proof.
  unfold inventory_status. cbn [pt_Templates]. intros (wt & -> & _)%list_elem_of_fmap. cbn. clear iv n.
  generalize (pt_Templates (po_Status pool)) as templates. intros templates Hl.
  assert (H : forall m : gmap string (list AppliedSlot),
    foldl (fun (m : gmap string (list AppliedSlot)) t =>
      match default [] (ts_AppliedSlots t) with [] => m | slots => <[ts_Name t := slots]> m end) m templates
      !! wt_Name wt = Some slots ->
    m !! wt_Name wt = Some slots \/ exists ts0, ts0 ∈ templates /\ ts_Name ts0 = wt_Name wt /\ ts_AppliedSlots ts0 = Some slots).
  { clear Hl. induction templates as [|t templates IH]; intros m Hm; [by left|]. cbn in Hm.
    destruct (IH _ Hm) as [Hm'|(ts0 & ? & ?)]; [|right; exists ts0; split; [by right|done]].
    destruct (ts_AppliedSlots t) as [[|s l]|] eqn:Ht; cbn in Hm'; try by left.
    destruct (decide (ts_Name t = wt_Name wt)) as [Hn|Hn].
    - rewrite Hn, lookup_insert_eq in Hm'. simplify_eq. right. exists t. split; [by left|done].
    - rewrite lookup_insert_ne in Hm' by done. by left. }
  by destruct (H ∅ Hl) as [?|?].
Qed.

Lemma setPoolConditions_status G pool ready pending tr :
  (forall t, G t Now) ->
  wpg G (setPoolConditions pool ready pending)
    (fun t p => tr `prefix_of` t /\ same_pool pool p /\ exists cs, po_Status p = set_pt_Conditions cs (po_Status pool)) tr.
Proof.
  intros HG. unfold setPoolConditions, set_pool_condition. wpg_step; try apply HG.
  split; [grows|]. split; [done|]. by eexists.
Qed.

(** After its loop over the Pods, [syncStatus] only removes Workers and reads the clock. *)
Definition settles e : Prop := match e with SRemoveWorker _ | Now => True | _ => False end.

Lemma wpg_settles {A} G (p : prog ControllerE A) (Q : trace ControllerE -> A -> Prop) tr :
  (forall t e, settles e -> G t e) -> wpg (fun _ e => settles e) p Q tr ->
  wpg G p (fun t a => Q t a /\ tr `prefix_of` t /\ reports t = reports tr) tr.
Proof.
  intros HG H. eapply wpg_mono.
  - eapply wpg_guard; [apply (wpg_silent report), wpg_extends, H|]; [by intros t []|]. intros t e [He _]. by apply HG.
  - by intros t a [[? ?] ?].
Qed.

(** The rule for [syncStatus]: an invariant of its loop over the Pods, what is known when the
    status is written, and what holds when the run succeeds. *)
Lemma wpg_syncStatus G (I : list Pod -> trace ControllerE -> inventory -> Prop) (Q : trace ControllerE -> Prop) pool pending tr :
  (forall t e, looks e -> G t e) -> (forall t e, settles e -> G t e) ->
  (forall pods, I [] (tr ++ [existT (P := answer) (ListPods (po_ns pool) (poolLabels (po_name pool))) (Ok pods)])
     (initial_inventory pool)) ->
  (forall pods pre pod t iv,
     tr ++ [existT (P := answer) (ListPods (po_ns pool) (poolLabels (po_name pool))) (Ok pods)] `prefix_of` t ->
     pod ∈ pods -> I pre t iv ->
     wpg G (observe_pod pool iv pod) (fun t' iv' => I (pre ++ [pod]) t' iv') t) ->
  (forall pods iv t t' cs p, tr `prefix_of` t -> I pods t iv -> t `prefix_of` t' -> reports t' = reports t -> same_pool pool p ->
     (po_Status p = set_pt_Conditions cs (inventory_status pool iv (Z.of_nat (length pods))) -> G t' (UpdatePoolStatus p))) ->
  (forall pods iv t t',
     tr ++ [existT (P := answer) (ListPods (po_ns pool) (poolLabels (po_name pool))) (Ok pods)] `prefix_of` t ->
     I pods t iv -> t `prefix_of` t' -> Q t') ->
  wpg G (syncStatus pool pending) (fun t r => r = Ok tt -> Q t) tr.
Proof.
  intros HG Hset H0 Hstep Hend Hq. unfold syncStatus. wpg_step; try (by apply HG); try done. rename a into pods.
  set (t0 := tr ++ _) in *.
  eapply wpg_mono.
  { apply (wpg_foldM G _ (fun dn t iv => t0 `prefix_of` t /\ I dn t iv) pods _ _ []); [split; [done|apply H0]|].
    intros pre pod t iv [Hp Hi] Hpod. eapply wpg_mono; [apply wpg_extends; by eapply Hstep|]. cbn. intros t' iv' [? ?].
    split; [by transitivity t|done]. }
  cbn [app]. intros t iv [Hp Hi]. wpg_step. eapply wpg_mono.
  { apply wpg_settles; [done|]. apply wpg_loop. intros [] template t1 _. unfold forget_template. apply wpg_loop.
    intros [] o t2 _. unfold forget_missing. by wpg_step. }
  intros t1 [] (_ & Hp1 & Hr1). wpg_step. eapply wpg_mono; [by apply wpg_settles, setPoolConditions_status|].
  intros t2 p ((_ & [Hm Hs] & cs & Hcs) & Hp2 & Hr2). assert (Hp3 : t `prefix_of` t2) by by transitivity t1.
  assert (Hr3 : reports t2 = reports t) by by rewrite Hr2.
  assert (Hp4 : tr `prefix_of` t) by (transitivity t0; [unfold t0; grows|done]).
  wpg_step; try done.
  - intros _. by eapply Hq.
  - by eapply (Hend pods iv t).
  - intros _. eapply Hq; [done..|grows].
Qed.

Definition applied_guard namespace name tr e : Prop :=
  match e with
  | UpdatePoolStatus p => exists pool, read_pool namespace name pool tr /\
      applied_known pool (pt_Templates (po_Status p)) tr
  | _ => True
  end.

(** C14. A layout is recorded as applied only when it is: every list of applied Slots in a status
    [Reconcile] writes is the one the status it read had for that template, or one that every
    Ready Worker of the template, as listed in the same run, accepted. *)
Theorem applied_slots_were_accepted port namespace name :
  safe (applied_guard namespace name) (Reconcile port namespace name).
Proof.
  assert (Hlooks : forall t e, looks e -> applied_guard namespace name t e) by (intros t e; by destruct e).
  apply (wpg_Reconcile _ (fun pool0 pool t => read_pool namespace name pool0 t /\ same_pool pool0 pool /\
    applied_known pool0 (pt_Templates (po_Status pool)) t)); try done.
  - intros pool t Hread. split_and!; try done. intros ts slots ? ?. left. eauto.
  - intros pool0 pool template t0 (Hread & Hsame & Hknown) Ht. apply wpg_syncTemplate; [done| |].
    { intros p t t' (? & ? & ?) Hp. split_and!; [by eapply read_pool_prefix|done|by eapply applied_known_prefix]. }
    intros configs t Hp. eapply wpg_mono.
    { apply (syncTopology_applied _ pool0); try done. by eapply applied_known_prefix. }
    intros t' r Hr p s Heq. destruct (Hr p s Heq) as (Hp' & Hsame' & Hk). split.
    { split_and!; try done. eapply read_pool_prefix; [done|by transitivity t]. }
    eapply wpg_guard; [apply syncWorkers_calls|]. intros t1 e. by destruct e.
  - intros pool0 pool pending t (Hread & [Hm _] & Hknown).
    eapply wpg_mono; [|done]. apply (wpg_syncStatus _ (fun _ _ _ => True) (fun _ => True)); try done.
    + intros t1 e. by destruct e.
    + intros pods pre pod t1 iv _ _ _. unfold observe_pod. by wpg_step.
    + intros pods iv t1 t2 cs p Hp _ Hp2 _ _ Hst. exists pool0. split; [eapply read_pool_prefix; [done|by transitivity t1]|].
      rewrite Hst. intros ts slots Hin Hs. destruct (inventory_status_applied pool iv (Z.of_nat (length pods)) ts slots Hin Hs) as (ts0 & Hin0 & Hn & Hs0).
      rewrite <- Hn. apply (applied_known_prefix _ _ t t2 Hknown); [by transitivity t1|done|done].
Qed.

(** ** Busy Slots stay *)

Definition reported_busy tr (id : Z) : Prop :=
  exists slots info, slots ∈ reports tr /\ info ∈ slots /\ info_ID info = id /\ info_State info <> StateFree.

Lemma mark_busy (slots : list Info) : forall (occupied : gmap Z bool) id,
  default false (occupied !! id) = true \/ (exists info, info ∈ slots /\ info_ID info = id /\ info_State info <> StateFree) ->
  default false (foldl (fun occupied slotInfo =>
    if bool_decide (info_State slotInfo = StateFree) then occupied
    else <[info_ID slotInfo := true]> occupied) occupied slots !! id) = true.
Proof.
  induction slots as [|i slots IH]; intros occupied id H; cbn [foldl].
  { destruct H as [?|(info & ?%elem_of_nil & _)]; done. }
  apply IH. case_bool_decide as Hf.
  - destruct H as [?|(info & [->|?]%elem_of_cons & ?)]; [by left|naive_solver|right; eauto].
  - destruct (decide (info_ID i = id)) as [<-|Hne]; [left; by rewrite lookup_insert_eq|].
    rewrite lookup_insert_ne by done. destruct H as [?|(info & [->|?]%elem_of_cons & ?)]; [by left|naive_solver|right; eauto].
Qed.

Definition occupied_covers tr (occupied : gmap Z bool) : Prop :=
  forall id, reported_busy tr id -> default false (occupied !! id) = true.

Lemma reports_snoc tr ev : reports (tr ++ [ev]) = reports tr ++ match report ev with Some s => [s] | None => [] end.
Proof. unfold reports. rewrite omap_app. cbn. by destruct (report ev). Qed.

Lemma occupied_covers_snoc tr ev occupied :
  occupied_covers tr occupied -> report ev = None -> occupied_covers (tr ++ [ev]) occupied.
Proof. unfold occupied_covers, reported_busy. rewrite reports_snoc. intros H ->. by rewrite app_nil_r. Qed.

Lemma occupiedSlots_covers G pool templateName :
  (forall t e, looks e -> G t e) ->
  wpg G (occupiedSlots pool templateName) (fun t r => forall occupied, r = Ok occupied -> occupied_covers t occupied) [].
Proof.
  intros HG. unfold occupiedSlots, list_template_pods. wpg_step; try (by apply HG); [|done].
  eapply wpg_mono.
  { apply (wpg_foldM G _ (fun _ t occupied => occupied_covers t occupied) _ _ _ []).
    { intros id (slots & info & Hin & _). by apply elem_of_nil in Hin. }
    intros pre pod t occupied Hc _. unfold occupied_on.
    wpg_step; try (by apply HG); try (by repeat apply occupied_covers_snoc).
    intros id (slots & info & Hin & Hrest). unfold reports in Hin. rewrite !omap_app in Hin. cbn in Hin.
    rewrite app_nil_r in Hin. apply mark_busy.
    apply elem_of_app in Hin as [Hin| ->%list_elem_of_singleton]; [left; apply Hc; by exists slots, info|right; by exists info]. }
  intros t occupied Hc. apply wpg_ret. by intros ? [= <-].
Qed.

(** A pushed layout has every Slot of [current] that was reported busy. *)
Definition keeps_busy (current : list Config) tr e : Prop :=
  match e with
  | WApplyTopology _ configs => forall c, c ∈ current -> reported_busy tr (cfg_ID c) -> c ∈ configs
  | _ => True
  end.

Definition no_report e : Prop := match e with WListSlots _ => False | _ => True end.

Lemma fit_layout_keeps pool templateName current next tr :
  wpg (fun _ e => looks e /\ no_report e) (fit_layout pool templateName current next)
    (fun _ r => forall layout lacking, r = Ok (layout, lacking) -> forall c, c ∈ current -> c ∈ next -> c ∈ layout) tr.
Proof.
  unfold fit_layout, workersCanFit, list_template_pods.
  wpg_step; try done; intros ? ? [= <- _] c Hc Hn; try done.
  apply list_elem_of_filter. split; [|done].
  apply elem_of_list_to_set, list_elem_of_fmap. by exists c.
Qed.

Lemma no_report_silent e (r : answer e) : no_report e -> report (existT e r) = None.
Proof. by destruct e. Qed.

Lemma syncTopology_calls pool templateName configs tr :
  wpg (fun _ e => no_report e /\ match e with WApplyTopology _ cs => cs = configs | _ => looks e end)
    (syncTopology pool templateName configs) (fun _ _ => True) tr.
Proof.
  unfold syncTopology, list_template_pods. wpg_step; try done. eapply wpg_mono.
  { apply wpg_loop. intros failed pod t _. unfold push_to. by wpg_step. }
  intros t failed _. by destruct failed; apply wpg_ret.
Qed.

(** C13. A busy Slot stays in the layout: whatever the spec asks for, a layout that [syncTemplate]
    pushes to a Worker has every Slot of the recorded layout that some Worker of the template
    reported as not free in the same run, with its id, profile and resources. The counts and the order
    are the template's, and with the recorded layout they are an input of the planner ([plan_input]:
    distinct int32 ids, counts from 0 on, every counted profile in the order, fewer than 2^31 - 1 Slots
    recorded and wanted in all). *)
Theorem busy_slots_stay pool template counts order
  (Hcounts : slotCountsFromTemplate template (profile_resources (pl_SlotProfiles (po_Spec pool))) = Ok (counts, order))
  (Hin : plan_input (appliedConfigs pool (wt_Name template) (profile_resources (pl_SlotProfiles (po_Spec pool)))) counts order) :
  safe (keeps_busy (appliedConfigs pool (wt_Name template) (profile_resources (pl_SlotProfiles (po_Spec pool)))))
    (syncTemplate pool template).
Proof.
  unfold safe, syncTemplate. rewrite Hcounts. set (current := appliedConfigs _ _ _) in *.
  assert (Hlooks : forall t e, looks e -> keeps_busy current t e) by (intros t e; by destruct e).
  unfold try_bind at 1. apply wpg_bind. eapply wpg_mono; [by apply occupiedSlots_covers|].
  intros t1 [occupied|err] Hocc; [|by apply wpg_ret]. specialize (Hocc _ eq_refl).
  destruct (PlanTopology_spec current counts (profile_resources (pl_SlotProfiles (po_Spec pool))) occupied order Hin)
    as (plan & -> & _ & _ & _ & _ & Hkept & _).
  unfold try_bind at 1. apply wpg_bind. eapply wpg_mono.
  { eapply wpg_guard; [apply (wpg_silent report), fit_layout_keeps; intros ? ? ? [_ ?]; by apply no_report_silent|].
    intros t e [[? _] _]. by apply Hlooks. }
  intros t2 [[layout lacking]|err] [Hl Ht2]; [|by apply wpg_ret]. specialize (Hl _ _ eq_refl).
  unfold try_bind at 1. apply wpg_bind. eapply wpg_mono.
  { eapply wpg_guard; [apply (wpg_silent report), syncTopology_calls; intros ? ? ? [? _]; by apply no_report_silent|].
    intros t e [[_ He] Ht]. destruct e; try done. subst configs. intros c Hc Hbusy. apply Hl; [done|].
    destruct (Hkept c Hc) as [?|[Hb _]]; [done|]. destruct Hb. apply Hocc.
    unfold reported_busy, reports in *. by rewrite <- Ht2, <- Ht. }
  intros t3 [[p pending]|err] _; [|by apply wpg_ret].
  unfold try_bind. apply wpg_bind. eapply wpg_mono with (Q := fun _ _ => True); [|intros t4 [busy|err] _; by apply wpg_ret].
  eapply wpg_guard; [apply syncWorkers_calls|]. intros t e. by destruct e.
Qed.
End PoolFacts.

(** ** A concrete Pool *)

Module PoolWitness.
#[local] Existing Instance ZQuantity.
#[local] Existing Instance KubeRef.api.
#[local] Instance quantity_eq_dec : EqDecision (Quantity (QuantityApi := ZQuantity)) := Z.eq_dec.
#[local] Instance parse_2Gi : QuantityParse ZQuantity := fun _ => 2147483648%Z.
#[local] Instance builder : WorkloadBuilder ZQuantity := StatefulSetBuilder_Build (mkBuilder 8090 "worker:latest" ∅).

Definition small : ResourceRequirements := mkResources {["cpu" := 500%Z]} {["memory" := 1024%Z]} [].

(** Two Slots are recorded, one is wanted. *)
Definition template : WorkerTemplate := mkWorkerTemplate "t" 1 [mkSlotGroup "small" 1].
Definition pool : SandboxPool :=
  mkPool (mkMeta "pool" "team" "uid-p" 1 "3" [] false ∅ None)
    (mkPoolSpec (mkRuntimeConfig "cri" (Some (mkCRI "kata" "kata" []))) None [mkSlotProfile "small" small] [template])
    (mkPoolStatus 1 1 1 1 1 [mkTemplateStatus "t" 1 1 (Some [mkAppliedSlot 0 "small"; mkAppliedSlot 1 "small"])] [] []).

Lemma scale_down_only_idle_witness : safe (scale_guard "team" "pool") (Reconcile 8090 "team" "pool").
Proof. apply (@scale_down_only_idle _ _ KubeRef.api builder KubeRef.laws (StatefulSetBuilder_names _)). Defined.

Lemma busy_slots_stay_witness :
  safe (keeps_busy [mkConfig 0 "small" small; mkConfig 1 "small" small]) (syncTemplate pool template).
Proof.
  apply (busy_slots_stay pool template {["small" := 1%Z]} ["small"]); [by vm_compute|].
  by apply plan_input_intro; vm_compute.
Defined.

(** A world of one StatefulSet and Workers that all answer alike. *)
Record world := mkWorld {
  w_pool : SandboxPool;
  w_replicas : Z;
  w_pods : list Pod;
  w_slots : result (list Info);
}.

Definition pod (name : string) : Pod :=
  mkPod (mkMeta name "team" "uid-w" 1 "4" [] false {[labelTemplate := "t"]} None) "10.0.0.1" [("Ready", ConditionTrue)] [small].

Definition serve (w : world) (e : ControllerE) : world * answer e :=
  (w, match e as e0 return answer e0 with
   | GetSandbox _ _ | UpdateSandbox _ | UpdateSandboxStatus _ => Err (KubeNotFound "not found")
   | ListSandboxes _ => Ok []
   | GetPool _ _ => Ok (w_pool w)
   | UpdatePoolStatus p => Ok p
   | GetSnapshot _ _ | UpdateSnapshot _ | UpdateSnapshotStatus _ => Err (KubeNotFound "not found")
   | GetPod _ name => match List.find (fun p => bool_decide (om_Name (pod_Meta p) = name)) (w_pods w) with
                      | Some p => Ok p
                      | None => Err (KubeNotFound "not found")
                      end
   | ListPods _ _ => Ok (w_pods w)
   | GetSecret _ _ => Err (KubeNotFound "not found")
   | GetService _ _ => Ok (mkService no_meta ∅ 8090)
   | GetStatefulSet _ name => Ok (mkStatefulSet (mkMeta name "team" "" 0 "" [] false ∅ None) "" (Some (w_replicas w)) ∅ (inr "old"))
   | CreateService _ | CreateStatefulSet _ | UpdateStatefulSet _ => None
   | Endpoint p => Ok ("http://" +:+ pod_IP p +:+ ":8090")
   | WListSlots _ => w_slots w
   | WHealth _ | WApplyTopology _ _ | WReserveSlot _ _ | WStartSandbox _ _ | WStopSandbox _ _ | WReleaseSlot _ _ => None
   | WCreateSnapshot _ _ => Err (Plain "unused")
   | WRestoreFromSnapshot _ _ | WDeleteSnapshotObjects _ _ => None
   | SAssign _ => Err ErrNoCapacity
   | SRestore _ | SRelease _ => None
   | SUpdateWorker _ | SRemoveWorker _ => tt
   | Now => 0%Z
   end).

Definition reconcile (w : world) : trace ControllerE * Result :=
  let '(_, t, r) := run serve (Reconcile 0 "team" "pool") w [] in (t, r).

Definition scales_to (n : Z) (e : ControllerE) : bool :=
  match e with UpdateStatefulSet s => bool_decide (set_Replicas s = Some n) | _ => false end.
Definition forgets (name : string) (e : ControllerE) : bool :=
  match e with SRemoveWorker key => bool_decide (wk_Name key = name) | _ => false end.
Definition pushes (ids : list Z) (e : ControllerE) : bool :=
  match e with WApplyTopology _ configs => bool_decide (cfg_ID <$> configs = ids) | _ => false end.
Definition writes_status (e : ControllerE) : bool := match e with UpdatePoolStatus _ => true | _ => false end.

Definition busy : list Info := [mkInfo 0 "small" StateFree ""; mkInfo 1 "small" StateRunning "uid-b"].
Definition idle : list Info := [mkInfo 0 "small" StateFree ""; mkInfo 1 "small" StateFree ""].
Definition worker (i : Z) : Pod := pod (worker_pod_name pool "t" i).

(** Scaling from two Workers to one waits for the second to become idle. *)
Example scale_down_waits :
  let run slots := let '(t, _) := reconcile (mkWorld pool 2 [worker 0; worker 1] slots) in
    (existsb (scales_to 1) (calls t), existsb (scales_to 2) (calls t)) in
  (run (Ok busy), run (Err (Plain "unreachable")), run (Ok idle)) = ((false, true), (false, true), (true, false)).
Proof. by vm_compute. Qed.

(** A Slot of a Worker that does not answer is dropped from the layout although it may be busy:
    only Workers that answer protect their Slots. *)
Example unreachable_slots_are_dropped :
  let run slots := let '(t, _) := reconcile (mkWorld pool 1 [worker 0] slots) in
    (existsb (pushes [0; 1]%Z) (calls t), existsb (pushes [0]%Z) (calls t)) in
  (run (Ok busy), run (Err (Plain "unreachable"))) = ((true, false), (false, true)).
Proof. by vm_compute. Qed.

(** A Worker that was scaled away, its Pod gone and its ordinal above the count, is never taken
    out of the Scheduler. *)
Example scaled_away_worker_is_kept :
  let '(t, r) := reconcile (mkWorld pool 1 [worker 0] (Ok idle)) in
  (is_ok r, existsb (forgets (worker_pod_name pool "t" 1)) (calls t)) = (true, false).
Proof. by vm_compute. Qed.
End PoolWitness.
