(* ===== verification/PoolStatusFacts.v ===== *)
(** * What the SandboxPool controller reports

    The Scheduler's inventory is what healthy Workers report, and the numbers in the status are
    counts of it. *)

From S2P Require Import Prelude Prog Strings Slot Topology Runtime Scheduler Api Kube Controller Workload PoolController PoolControllerFacts.

(** ** Counting with int32 counters *)

Definition count (P : Info -> bool) (l : list Info) : Z := Z.of_nat (length (List.filter P l)).

Lemma count_snoc P l x : count P (l ++ [x]) = (count P l + if P x then 1 else 0)%Z.
Proof. unfold count. rewrite List.filter_app, length_app. cbn. destruct (P x); cbn; lia. Qed.

Lemma incr_wrap z : incr (wrap32 z) = wrap32 (z + 1).
Proof.
  unfold incr, wrap32. f_equal.
  replace ((z + 2 ^ 31) mod 2 ^ 32 - 2 ^ 31 + 1 + 2 ^ 31)%Z with ((z + 2 ^ 31) mod 2 ^ 32 + 1)%Z by lia.
  rewrite Z.add_mod_idemp_l by lia. f_equal. lia.
Qed.

Definition is_free (i : Info) : bool := bool_decide (info_State i = StateFree).
Definition is_used (i : Info) : bool := negb (is_free i).
Definition of_profile (p : string) (i : Info) : bool := bool_decide (info_Profile i = p).

(** The counters of a profile for a list of reported Slots. *)
Definition profile_counts (p : string) (l : list Info) : SlotProfileStatus :=
  mkProfileStatus p (wrap32 (count (of_profile p) l))
    (wrap32 (count (fun i => of_profile p i && is_used i) l))
    (wrap32 (count (fun i => of_profile p i && is_free i) l)).

(** The inventory after the Slots [l]; a Slot without a profile is counted only if the Pool
    declares the empty name. *)
Record counted (l : list Info) (iv : inventory) : Prop := {
  cn_used : iv_used iv = wrap32 (count is_used l);
  cn_available : iv_available iv = wrap32 (count is_free l);
  cn_profiles : forall p, iv_profiles iv !! p = Some (profile_counts p l) \/
    iv_profiles iv !! p = None /\ (p <> "" -> count (of_profile p) l = 0%Z);
}.

Lemma count_zero_sub (P Q : Info -> bool) l : count P l = 0%Z -> count (fun i => P i && Q i) l = 0%Z.
Proof.
  unfold count. induction l as [|x l IH]; cbn; [done|]. destruct (P x); cbn; [lia|]. done.
Qed.

Lemma profile_counts_zero p l : count (of_profile p) l = 0%Z -> profile_counts p l = mkProfileStatus p 0 0 0.
Proof. intros H. unfold profile_counts. by rewrite !count_zero_sub, H. Qed.

Lemma profile_counts_snoc p l i :
  profile_counts p (l ++ [i]) =
  let st := profile_counts p l in
  if of_profile p i then
    if is_free i then mkProfileStatus p (incr (ps_Total st)) (ps_Used st) (incr (ps_Available st))
    else mkProfileStatus p (incr (ps_Total st)) (incr (ps_Used st)) (ps_Available st)
  else st.
Proof.
  unfold profile_counts, is_used. cbn. rewrite !count_snoc, !incr_wrap.
  destruct (of_profile p i), (is_free i); cbn; by rewrite ?Z.add_0_r.
Qed.

Lemma count_slot_counted l iv i : counted l iv -> counted (l ++ [i]) (count_slot iv i).
Proof.
  intros [Hu Ha Hp]. split; unfold count_slot; cbn [iv_used iv_available iv_profiles]; fold (is_free i).
  - rewrite count_snoc, Hu, incr_wrap. unfold is_used. destruct (is_free i); cbn; by rewrite ?Z.add_0_r.
  - rewrite count_snoc, Ha, incr_wrap. destruct (is_free i); by rewrite ?Z.add_0_r.
  - intros p. rewrite profile_counts_snoc, count_snoc. cbn zeta.
    destruct (decide (info_Profile i = p)) as [Hip|Hip]; unfold of_profile at 1 3;
      [rewrite (bool_decide_true _ Hip) | rewrite (bool_decide_false _ Hip), Z.add_0_r].
    + rewrite Hip. destruct (Hp p) as [Hl|[Hl Hz]]; rewrite Hl.
      * left. rewrite lookup_insert_eq. by destruct (is_free i).
      * case_bool_decide as He.
        { right. by split; [|intros []]. }
        left. rewrite lookup_insert_eq, profile_counts_zero by auto. by destruct (is_free i).
    + assert (Hsame : forall st, (match st with Some stats => <[info_Profile i := (if is_free i
          then mkProfileStatus (ps_Name stats) (incr (ps_Total stats)) (ps_Used stats) (incr (ps_Available stats))
          else mkProfileStatus (ps_Name stats) (incr (ps_Total stats)) (incr (ps_Used stats)) (ps_Available stats))]>
          (iv_profiles iv) | None => iv_profiles iv end) !! p = iv_profiles iv !! p).
      { intros [?|]; [by rewrite lookup_insert_ne|done]. }
      rewrite Hsame. apply Hp.
Qed.

Lemma count_slots_counted slots : forall l iv, counted l iv -> counted (l ++ slots) (foldl count_slot iv slots).
Proof.
  induction slots as [|i slots IH]; intros l iv H; cbn [foldl]; [by rewrite app_nil_r|].
  replace (l ++ i :: slots) with ((l ++ [i]) ++ slots) by (by rewrite <- app_assoc). by apply IH, count_slot_counted.
Qed.

Lemma counted_same l iv iv' :
  counted l iv -> iv_used iv' = iv_used iv -> iv_available iv' = iv_available iv ->
  iv_profiles iv' = iv_profiles iv -> counted l iv'.
Proof. intros [Hu Ha Hp] H1 H2 H3. split; [by rewrite H1|by rewrite H2|by rewrite H3]. Qed.

Lemma count_slots_ready slots : forall iv, iv_ready (foldl count_slot iv slots) = iv_ready iv.
Proof. induction slots as [|i slots IH]; intros iv; cbn [foldl]; [done|]. by rewrite IH. Qed.

Section StatusFacts.
Context {QA : QuantityApi} {QEq : EqDecision Quantity} {KA : KubeApi}.
Implicit Types (tr : trace ControllerE) (e : ControllerE) (pool : SandboxPool).

(** ** The Scheduler's inventory *)

(** A Worker of a listed Ready Pod that was healthy and reported these Slots. *)
Definition observed_worker pool (w : WorkerState) tr : Prop :=
  exists pods pod endpoint slots,
    existT (P := answer) (ListPods (po_ns pool) (poolLabels (po_name pool))) (Ok pods) ∈ tr /\ pod ∈ pods /\
    podReady pod = true /\ existT (P := answer) (Endpoint pod) (Ok endpoint) ∈ tr /\
    existT (P := answer) (WHealth endpoint) None ∈ tr /\
    existT (P := answer) (WListSlots endpoint) (Ok slots) ∈ tr /\
    ws_Key w = worker_key pool (om_Name (pod_Meta pod)) /\ ws_Healthy w = true /\ ws_Slots w = slot_map slots.

Definition observed_guard pool tr e : Prop :=
  match e with SUpdateWorker w => observed_worker pool w tr | _ => True end.

(** The Scheduler was told about the Worker of the Pod. *)
Definition settled pool tr (pod : Pod) : Prop :=
  let key := worker_key pool (om_Name (pod_Meta pod)) in
  existT (P := answer) (SRemoveWorker key) tt ∈ tr \/
  exists w, ws_Key w = key /\ existT (P := answer) (SUpdateWorker w) tt ∈ tr.

Lemma settled_prefix pool tr tr' pod : settled pool tr pod -> tr `prefix_of` tr' -> settled pool tr' pod.
Proof. intros [H|(w & Hw & H)] Hp; [left|right; exists w; split; [done|]]; by eapply prefix_elem. Qed.

(** The Scheduler knows exactly what healthy Workers report: [syncStatus] puts a Worker into
    the Scheduler only for a listed Pod that is Ready, whose Worker answered the health check and
    listed its Slots in the same run, with exactly those Slots; and when it succeeds, the Worker
    of every listed Pod has been put in or taken out. *)
Theorem inventory_is_observed pool pending :
  wpg (observed_guard pool) (syncStatus pool pending)
    (fun t r => r = Ok tt -> exists pods,
       existT (P := answer) (ListPods (po_ns pool) (poolLabels (po_name pool))) (Ok pods) ∈ t /\
       forall pod, pod ∈ pods -> settled pool t pod) [].
Proof.
  apply (wpg_syncStatus _ (fun dn t _ => forall pod, pod ∈ dn -> settled pool t pod)); try done.
  1-2: intros t e; by destruct e.
  - by intros pods pod ?%elem_of_nil.
  - intros pods pre pod t iv Hp Hpod Hold.
    assert (Hlist : existT (P := answer) (ListPods (po_ns pool) (poolLabels (po_name pool))) (Ok pods) ∈ t).
    { eapply prefix_elem; [|exact Hp]. in_trace. }
    assert (Hnew : forall t' : trace ControllerE, t `prefix_of` t' -> settled pool t' pod ->
      forall p, p ∈ pre ++ [pod] -> settled pool t' p).
    { intros t' Ht Hs p [Hin| ->%list_elem_of_singleton]%elem_of_app; [|done]. by eapply settled_prefix; [apply Hold|]. }
    unfold observe_pod. wpg_step; try done;
      repeat match goal with
      | r : answer (SRemoveWorker _) |- _ => destruct r
      | r : answer (SUpdateWorker _) |- _ => destruct r
      end; try solve [apply Hnew; [grows|left; find_event]].
    + exists pods, pod. eexists _, _. split; [in_trace|]. split; [done|].
      split; [by apply negb_false_iff|]. split_and!; try done; in_trace.
    + apply Hnew; [grows|]. right. eexists. split; [|in_trace]. done.
  - intros pods iv t t' Hp Hall Hp'. exists pods. split.
    + eapply prefix_elem; [|exact Hp']. eapply prefix_elem; [|exact Hp]. in_trace.
    + intros pod Hpod. eapply settled_prefix; [by apply Hall|done].
Qed.

(** ** The numbers in the status *)

(** The status counts the Workers that answered and the Slots they reported, in total and for
    each profile the Pool declares, with int32 counters. *)
Definition counts_guard tr e : Prop :=
  match e with
  | UpdatePoolStatus p =>
      let st := po_Status p in
      let slots := concat (reports tr) in
      pt_ReadyWorkers st = wrap32 (Z.of_nat (length (reports tr))) /\
      pt_UsedSlots st = wrap32 (count is_used slots) /\
      pt_AvailableSlots st = wrap32 (count is_free slots) /\
      (ps_Name <$> pt_Profiles st) ≡ₚ (pf_Name <$> pl_SlotProfiles (po_Spec p)) /\
      forall ps, ps ∈ pt_Profiles st -> ps_Name ps <> "" -> ps = profile_counts (ps_Name ps) slots
  | _ => True
  end.

Lemma initial_profiles (profiles : list SlotProfile) p :
  let m := foldl (fun (m : gmap string SlotProfileStatus) profile => <[pf_Name profile := mkProfileStatus (pf_Name profile) 0 0 0]> m) ∅ profiles in
  m !! p = Some (mkProfileStatus p 0 0 0) \/ m !! p = None.
Proof.
  cbn zeta. assert (H : (∅ : gmap string SlotProfileStatus) !! p = Some (mkProfileStatus p 0 0 0) \/
    (∅ : gmap string SlotProfileStatus) !! p = None) by (right; apply lookup_empty).
  revert H. generalize (∅ : gmap string SlotProfileStatus) as m.
  induction profiles as [|q profiles IH]; intros m H; cbn [foldl]; [done|]. apply IH.
  destruct (decide (pf_Name q = p)) as [->|?]; [left; by rewrite lookup_insert_eq|by rewrite lookup_insert_ne].
Qed.

Lemma initial_counted pool : counted [] (initial_inventory pool).
Proof.
  split; [done..|]. intros p. destruct (initial_profiles (pl_SlotProfiles (po_Spec pool)) p) as [H|H]; [by left|by right].
Qed.

Lemma inventory_profiles pool iv n l :
  counted l iv ->
  (ps_Name <$> pt_Profiles (inventory_status pool iv n)) ≡ₚ (pf_Name <$> pl_SlotProfiles (po_Spec pool)) /\
  forall ps, ps ∈ pt_Profiles (inventory_status pool iv n) -> ps_Name ps <> "" -> ps = profile_counts (ps_Name ps) l.
Proof.
  intros [_ _ Hp]. unfold inventory_status. cbn [pt_Profiles].
  assert (Hname : forall name, ps_Name (default (mkProfileStatus name 0 0 0) (iv_profiles iv !! name)) = name).
  { intros name. by destruct (Hp name) as [->|[-> _]]. }
  split.
  - rewrite <- list_fmap_compose. etransitivity; [|apply (merge_sort_Permutation string_le)].
    apply reflexive_eq. transitivity (id <$> sort_strings (pf_Name <$> pl_SlotProfiles (po_Spec pool))); [|apply list_fmap_id].
    apply list_fmap_ext. intros i name _. apply Hname.
  - intros ps (name & -> & _)%list_elem_of_fmap. rewrite Hname. intros Hne.
    destruct (Hp name) as [->|[-> Hz]]; [done|]. cbn. by rewrite profile_counts_zero by auto.
Qed.

(** The numbers add up: in every status [syncStatus] writes, the Ready Workers are those that
    answered in that run, used and available Slots are the Slots they reported that are not free
    and free, and the entry of each declared profile, in the order of their names, counts the
    reported Slots of that profile; all modulo the 32 bits of the counters. *)
Theorem status_counts_reports pool pending :
  safe counts_guard (syncStatus pool pending).
Proof.
  eapply wpg_mono; [|done].
  apply (wpg_syncStatus _ (fun dn t iv => counted (concat (reports t)) iv /\
    iv_ready iv = wrap32 (Z.of_nat (length (reports t)))) (fun _ => True)); try done.
  1-2: intros t e; by destruct e.
  - intros pods. split; [apply initial_counted|done].
  - intros pods pre pod t iv _ _ [Hc Hr]. unfold observe_pod.
    wpg_step; try done; unfold reports in *; rewrite !omap_app; cbn; rewrite ?app_nil_r.
    all: try (split; [by eapply counted_same|done]).
    rewrite concat_app, length_app. cbn. rewrite app_nil_r, count_slots_ready, Nat2Z.inj_add. cbn. split.
    + match goal with |- context [foldl count_slot ?iv0 _] =>
        apply (counted_same _ (foldl count_slot iv0 a0)); [apply count_slots_counted; by eapply counted_same|done..]
      end.
    + rewrite Hr. apply incr_wrap.
  - intros pods iv t t' cs p Hp [Hc Hr] Hp' Hrep [_ Hspec] Hst. cbn [counts_guard].
    rewrite Hst, Hrep, Hspec. cbn [set_pt_Conditions pt_ReadyWorkers pt_UsedSlots pt_AvailableSlots pt_Profiles inventory_status].
    split; [done|]. split; [apply Hc|]. split; [apply Hc|]. by apply (inventory_profiles pool iv (Z.of_nat (length pods))).
Qed.
End StatusFacts.
