(* ===== verification/SandboxController.v ===== *)
(** * The Sandbox controller (internal/controller/sandbox_controller.go, sandbox_restore.go)

    [Reconcile] drives one Sandbox: finalizer, assignment, start (cold or from a snapshot),
    deletion. A handler that changes the object in place threads it; a [Result] is an error,
    or the delay until the next run. *)

From S2P Require Import Prelude Prog Strings Slot Runtime Scheduler Api WorkerClient Kube Controller.

(* go: internal/controller/sandbox_controller.go sandboxRetryInterval *)
Definition sandboxRetryInterval : Z := 2 * Second.

Section SandboxController.
Context {QA : QuantityApi} {KA : KubeApi}.

Definition sb_name (s : Sandbox) : string := om_Name (sb_Meta s).
Definition sb_ns (s : Sandbox) : string := om_Namespace (sb_Meta s).

(* go: internal/controller/sandbox_controller.go setSandboxCondition *)
Definition setSandboxCondition (conditionType : string) (status : ConditionStatus)
    (reason message : string) (sandbox : Sandbox) : prog ControllerE Sandbox :=
  call! now := trigger Now in
  let condition := mkCondition conditionType status (om_Generation (sb_Meta sandbox)) 0 reason message in
  let st := sb_Status sandbox in
  Ret (set_sb_Status (set_ss_Conditions (SetStatusCondition now (ss_Conditions st) condition) st) sandbox).

(** The answer is the object with the metadata and status of the server. *)
(* go: internal/controller/sandbox_controller.go SandboxReconciler.syncStatus *)
Definition syncStatus (sandbox : Sandbox) : prog ControllerE (result Sandbox) :=
  let desired := set_ss_ObservedGeneration (om_Generation (sb_Meta sandbox)) (sb_Status sandbox) in
  let! current := on_error (wrap_prefix "get current Sandbox before status update")
    (trigger (GetSandbox (sb_ns sandbox) (sb_name sandbox))) in
  if bool_decide (sb_Status current = desired) then
    Ret (Ok (mkSandbox (sb_Meta current) (sb_Spec sandbox) (sb_Status current)))
  else
    let! current := on_error (wrap_prefix "update Sandbox status")
      (trigger (UpdateSandboxStatus (set_sb_Status desired current))) in
    Ret (Ok (mkSandbox (sb_Meta current) (sb_Spec sandbox) (sb_Status current))).

(** Write the status, then end the run with [result]. *)
Definition finish (sandbox : Sandbox) (result : Result) : prog ControllerE Result :=
  let! _ := syncStatus sandbox in Ret result.

(** The type assertion sees only the error itself, not what it wraps. *)
(* go: internal/controller/sandbox_controller.go SandboxReconciler.handleWorkerError *)
Definition is_permanent (operationErr : error) : bool :=
  match operationErr with
  | WorkerAPIError status _ _ => negb (Retryable status)
  | _ => false
  end.

(* go: internal/controller/sandbox_controller.go SandboxReconciler.handleWorkerError *)
Definition handleWorkerError (sandbox : Sandbox) (reason : string) (operationErr : error) : prog ControllerE Result :=
  call! sandbox := setSandboxCondition ConditionReady ConditionFalse reason (error_text operationErr) sandbox in
  if is_permanent operationErr then finish (set_Phase SandboxPhaseFailed sandbox) no_requeue
  else finish sandbox (Ok sandboxRetryInterval).

(** The callers have checked that the Sandbox has an assignment, [a]. *)
(* go: internal/controller/sandbox_controller.go assignmentFromSandbox *)
Definition assignmentFromSandbox (sandbox : Sandbox) (a : SandboxAssignment) : Assignment :=
  mkAssignment (om_UID (sb_Meta sandbox)) (sb_ns sandbox) (sb_name sandbox)
    (mkWorkerKey (sb_ns sandbox) (sp_PoolRef (sb_Spec sandbox)) (sa_Worker a))
    (sa_SlotID a) (sp_SlotProfile (sb_Spec sandbox)).

(* go: internal/controller/pool_controller.go hasSlotProfile *)
Definition hasSlotProfile (spec : SandboxPoolSpec) (name : string) : bool :=
  existsb (fun profile => bool_decide (pf_Name profile = name)) (pl_SlotProfiles spec).

(* go: internal/controller/sandbox_controller.go SandboxReconciler.syncAssign *)
Definition syncAssign (sandbox : Sandbox) (pool : SandboxPool) : prog ControllerE Result :=
  let spec := sb_Spec sandbox in
  if negb (hasSlotProfile (po_Spec pool) (sp_SlotProfile spec)) then
    call! sandbox := setSandboxCondition ConditionScheduled ConditionFalse "InvalidSlotProfile"
      ("slotProfile " +:+ quote (sp_SlotProfile spec) +:+ " is not defined by SandboxPool " +:+
       quote (om_Name (po_Meta pool))) sandbox in
    finish (set_Phase SandboxPhaseFailed sandbox) no_requeue
  else
    call! assigned := trigger (SAssign (mkAssignRequest (om_UID (sb_Meta sandbox)) (sb_ns sandbox) (sb_name sandbox)
      (sp_PoolRef spec) (sp_SlotProfile spec))) in
    match assigned : result Assignment with
    | Err err =>
        if errors_Is err (error_text ErrNoCapacity) then
          call! sandbox := setSandboxCondition ConditionScheduled ConditionFalse "NoCapacity"
            "the SandboxPool has no available Slot" sandbox in
          finish (set_Phase SandboxPhasePending sandbox) (Ok sandboxRetryInterval)
        else Ret (Err (wrap_prefix "assign Sandbox" err))
    | Ok assignment =>
        let a := mkSandboxAssignment (wk_Name (as_Worker assignment)) (as_SlotID assignment) (as_SlotProfile assignment) in
        let sandbox := set_sb_Status (set_ss_Assignment (Some a) (sb_Status sandbox)) sandbox in
        let sandbox := set_Phase SandboxPhaseStarting sandbox in
        call! sandbox := setSandboxCondition ConditionScheduled ConditionTrue "Assigned" "a Worker and Slot were assigned" sandbox in
        call! sandbox := setSandboxCondition ConditionReady ConditionFalse "Starting" "the Sandbox is starting" sandbox in
        finish sandbox no_requeue
    end.

Definition snapshot_error (snap : SandboxSnapshot) (what : string) : error :=
  Plain ("SandboxSnapshot " +:+ quote (om_Name (sn_Meta snap)) +:+ " " +:+ what).

(* go: internal/controller/sandbox_restore.go SandboxReconciler.startFromSnapshot *)
Definition startFromSnapshot (sandbox : Sandbox) (endpoint : string) (ref : SandboxSlotRef) : prog ControllerE (result unit) :=
  let spec := sb_Spec sandbox in
  let name := sp_FromSnapshot spec in
  let! snap := on_error (fun err => if IsNotFound err then Plain ("fromSnapshot " +:+ quote name +:+ " not found")
                                    else wrap_prefix ("get SandboxSnapshot " +:+ quote name) err)
    (trigger (GetSnapshot (sb_ns sandbox) name)) in
  let st := sn_Status snap in
  if negb (bool_decide (ns_Phase st = SnapshotPhaseReady)) then
    Ret (Err (snapshot_error snap ("is " +:+ quote (SnapshotPhase_string (ns_Phase st)) +:+ ", want Ready")))
  else if bool_decide (ns_StoragePath st = "") then Ret (Err (snapshot_error snap "has empty storagePath"))
  else if negb (bool_decide (np_Pool (sn_Spec snap) = sp_PoolRef spec)) then
    Ret (Err (snapshot_error snap ("pool " +:+ quote (np_Pool (sn_Spec snap)) +:+
      " does not match Sandbox poolRef " +:+ quote (sp_PoolRef spec))))
  else
    let! pool := on_error (wrap_prefix ("get SandboxPool " +:+ quote (sp_PoolRef spec)))
      (trigger (GetPool (sb_ns sandbox) (sp_PoolRef spec))) in
    let! storage := snapshotStorageConfig pool in
    let handler := if bool_decide (ns_Runtime st = "") then poolRuntime pool else ns_Runtime st in
    as_result (trigger (WRestoreFromSnapshot endpoint
      (mkRestore (ref_SlotID ref) (ref_Identity ref) (ns_StoragePath st) storage handler))).

(** The start proper: what the Sandbox is started from, and how a failure is reported. [None]
    is a Sandbox with neither a snapshot nor a container. *)
(* go: internal/controller/sandbox_controller.go 143-163 SandboxReconciler.syncStart *)
Definition start_on_worker (sandbox : Sandbox) (endpoint : string) (ref : SandboxSlotRef) :
    prog ControllerE (option (string * result unit)) :=
  if negb (bool_decide (sp_FromSnapshot (sb_Spec sandbox) = "")) then
    call! outcome := startFromSnapshot sandbox endpoint ref in Ret (Some ("RestoreFailed", outcome))
  else match sp_Container (sb_Spec sandbox) with
  | None => Ret None
  | Some container =>
      call! outcome := as_result (trigger (WStartSandbox endpoint (mkStart (ref_SlotID ref) (ref_Identity ref) container))) in
      Ret (Some ("StartFailed", outcome))
  end.

(* go: internal/controller/sandbox_controller.go SandboxReconciler.syncStart *)
Definition syncStart (sandbox : Sandbox) (a : SandboxAssignment) : prog ControllerE Result :=
  check! on_failure (wrap_prefix "restore Sandbox assignment")
    (trigger (SRestore (assignmentFromSandbox sandbox a))) in
  call! resolved := resolveWorkerEndpoint (sb_ns sandbox) (sa_Worker a) in
  match resolved with
  | Err err =>
      call! sandbox := setSandboxCondition ConditionReady ConditionFalse "WorkerUnavailable" (error_text err) sandbox in
      finish sandbox (Ok sandboxRetryInterval)
  | Ok endpoint =>
      let ref := mkRef (sa_SlotID a) (sandboxIdentity sandbox) in
      call! reserved := trigger (WReserveSlot endpoint ref) in
      match reserved : option error with
      | Some err => handleWorkerError sandbox "ReserveFailed" err
      | None =>
          call! started := start_on_worker sandbox endpoint ref in
          match started with
          | None =>
              call! sandbox := setSandboxCondition ConditionReady ConditionFalse "InvalidSpec"
                "container is required when fromSnapshot is empty" sandbox in
              finish (set_Phase SandboxPhaseFailed sandbox) no_requeue
          | Some (reason, Err err) => handleWorkerError sandbox reason err
          | Some (_, Ok _) =>
              call! sandbox := setSandboxCondition ConditionReady ConditionTrue "Running" "the Sandbox is running"
                (set_Phase SandboxPhaseRunning sandbox) in
              finish sandbox (Ok poolPollInterval)
          end
      end
  end.

(** Stop the Sandbox on its Worker and release its Slot; [None] when the Worker cannot be
    reached, and the run ends early. The assignment is read again from the object the server
    gave back; without one the code panics, which the controller's runtime reports as an error. *)
(* go: internal/controller/sandbox_controller.go 178-198 SandboxReconciler.syncDelete *)
Definition clean_worker (sandbox : Sandbox) (a : SandboxAssignment) : prog ControllerE (result (option Sandbox)) :=
  let! sandbox := syncStatus (set_Phase SandboxPhaseStopping sandbox) in
  match ss_Assignment (sb_Status sandbox) with
  | None => Ret (Err (Plain "nil pointer dereference"))
  | Some a =>
      call! resolved := resolveWorkerEndpoint (sb_ns sandbox) (sa_Worker a) in
      match resolved with
      | Err _ => Ret (Ok None)
      | Ok endpoint =>
          let ref := mkRef (sa_SlotID a) (sandboxIdentity sandbox) in
          check! on_failure (wrap_prefix "stop Sandbox") (trigger (WStopSandbox endpoint ref)) in
          check! on_failure (wrap_prefix "release Sandbox Slot") (trigger (WReleaseSlot endpoint ref)) in
          Ret (Ok (Some sandbox))
      end
  end.

(* go: internal/controller/sandbox_controller.go SandboxReconciler.syncDelete *)
Definition syncDelete (sandbox : Sandbox) : prog ControllerE Result :=
  if negb (ContainsFinalizer (om_Finalizers (sb_Meta sandbox)) SandboxFinalizer) then Ret no_requeue
  else
    let! cleaned := match ss_Assignment (sb_Status sandbox) with
                    | Some a => clean_worker sandbox a
                    | None => Ret (Ok (Some sandbox))
                    end in
    match cleaned with
    | None => Ret (Ok sandboxRetryInterval)
    | Some sandbox =>
        check! on_failure (wrap_prefix "release Scheduler assignment") (trigger (SRelease (om_UID (sb_Meta sandbox)))) in
        let m := set_Finalizers (RemoveFinalizer (om_Finalizers (sb_Meta sandbox)) SandboxFinalizer) (sb_Meta sandbox) in
        let! _ := on_error (wrap_prefix "remove Sandbox finalizer") (trigger (UpdateSandbox (set_sb_Meta m sandbox))) in
        Ret no_requeue
    end.

(* go: internal/controller/sandbox_controller.go SandboxReconciler.Reconcile *)
Definition Reconcile (namespace name : string) : prog ControllerE Result :=
  call! got := trigger (GetSandbox namespace name) in
  match got : result Sandbox with
  | Err err => Ret (if IsNotFound err then no_requeue else Err err)
  | Ok sandbox =>
      if om_Deleted (sb_Meta sandbox) then syncDelete sandbox
      else if negb (ContainsFinalizer (om_Finalizers (sb_Meta sandbox)) SandboxFinalizer) then
        let m := set_Finalizers (AddFinalizer (om_Finalizers (sb_Meta sandbox)) SandboxFinalizer) (sb_Meta sandbox) in
        let! _ := on_error (wrap_prefix "add Sandbox finalizer") (trigger (UpdateSandbox (set_sb_Meta m sandbox))) in
        Ret no_requeue
      else
        let poolRef := sp_PoolRef (sb_Spec sandbox) in
        let! pool := on_error (wrap_prefix ("get SandboxPool " +:+ quote poolRef))
          (trigger (GetPool (sb_ns sandbox) poolRef)) in
        if negb (conditionTrue (pt_Conditions (po_Status pool)) ConditionReady) then
          call! sandbox := setSandboxCondition ConditionScheduled ConditionFalse "PoolNotReady"
            "the SandboxPool has no ready Worker" sandbox in
          finish (set_Phase SandboxPhasePending sandbox) (Ok sandboxRetryInterval)
        else match ss_Assignment (sb_Status sandbox) with
        | None => syncAssign sandbox pool
        | Some a => syncStart sandbox a
        end
  end.
End SandboxController.
