(* ===== verification/SandboxControllerFacts.v ===== *)
(** * Correctness of the Sandbox controller

    What [Reconcile] may do, and when, whatever the API server, the Scheduler and the Workers
    answer: the guards are about the history of calls of the run. *)

From S2P Require Import Prelude Prog Strings Slot Runtime Scheduler Api Json ApiJson WorkerServer WorkerClient WorkerHttp.
From S2P Require Import Kube Controller SandboxController.

(** The events of a list, found in this order in a concrete history. *)
Ltac in_order :=
  cbn [app]; repeat first [apply sublist_skip; reflexivity | apply sublist_skip | apply sublist_cons]; try apply sublist_nil_l.

Section SandboxFacts.
Context {QA : QuantityApi} {KA : KubeApi}.
Implicit Types (tr : trace ControllerE) (e : ControllerE).

(** The run read the Sandbox [s] first. *)
Definition read_sandbox namespace name (s : Sandbox) tr : Prop :=
  exists tl, tr = existT (P := answer) (GetSandbox namespace name) (Ok s) :: tl.

(** The Worker of the assignment [a] of [sb], as its Pod resolved in this run. *)
Definition resolved_worker (sb : Sandbox) (a : SandboxAssignment) endpoint tr : Prop :=
  exists pod, existT (P := answer) (GetPod (sb_ns sb) (sa_Worker a)) (Ok pod) ∈ tr /\
    existT (P := answer) (Endpoint pod) (Ok endpoint) ∈ tr.

(** These calls succeeded in this run, in this order. *)
Definition in_this_order (calls : list (event ControllerE)) tr : Prop := calls `sublist_of` tr.

(** The Slot of [sb]'s assignment was given back: its Worker stopped [sb] there and released the Slot,
    and then the Scheduler released [sb]. *)
Definition worker_cleaned (sb : Sandbox) tr : Prop :=
  exists a endpoint, ss_Assignment (sb_Status sb) = Some a /\ resolved_worker sb a endpoint tr /\
    let ref := mkRef (sa_SlotID a) (sandboxIdentity sb) in
    in_this_order [existT (P := answer) (WStopSandbox endpoint ref) None;
                   existT (P := answer) (WReleaseSlot endpoint ref) None;
                   existT (P := answer) (SRelease (om_UID (sb_Meta sb))) None] tr.

(** A write of the Sandbox [sb] without its finalizer is a deletion: the Sandbox is being deleted,
    its Worker has cleaned up (unless nothing was ever assigned), and the Scheduler has dropped the
    assignment of [sb]. *)
Definition finalizer_guard namespace name tr e : Prop :=
  match e with
  | UpdateSandbox sb =>
      ContainsFinalizer (om_Finalizers (sb_Meta sb)) SandboxFinalizer = false ->
      exists s0, read_sandbox namespace name s0 tr /\ om_Deleted (sb_Meta s0) = true /\
        (ss_Assignment (sb_Status s0) = None \/ worker_cleaned sb tr) /\
        existT (P := answer) (SRelease (om_UID (sb_Meta sb))) None ∈ tr
  | _ => True
  end.

(** C10. The finalizer of a Sandbox is removed only after cleanup: whenever [Reconcile] writes a
    Sandbox that no longer carries it, the Sandbox it read is being deleted, and earlier in the same
    run the Scheduler released the UID of the Sandbox that is written; and unless no Slot was
    assigned when it was read, before that the Worker of the assignment in the written status,
    resolved from its Pod, stopped that Sandbox on that Slot and then released that Slot for it -
    whatever fails or is answered on the way. *)
Theorem finalizer_removed_after_cleanup `{!KubeLaws} namespace name :
  safe (finalizer_guard namespace name) (Reconcile namespace name).
Proof.
  wpg_auto; try exact I; cbn [finalizer_guard]; intros Hf;
    try (cbn in Hf; by rewrite contains_add in Hf);
    eexists; (split; [by eexists|]); (split; [done|]); (split; [|by in_trace]);
    first [by left | right; eexists _, _; split; [eassumption|]; split; [eexists; split; in_trace|]; in_order].
Qed.

(** *** What a status may say *)

(** The Worker reserved the Slot assigned to [s0] and started [s0] there, from its image or
    from a snapshot, in this run. *)
Definition worker_started (s0 : Sandbox) tr : Prop :=
  exists a endpoint, ss_Assignment (sb_Status s0) = Some a /\
    let id := sandboxIdentity s0 in
    existT (P := answer) (WReserveSlot endpoint (mkRef (sa_SlotID a) id)) None ∈ tr /\
    ((exists container, existT (P := answer)
        (WStartSandbox endpoint (mkStart (sa_SlotID a) id container)) None ∈ tr) \/
     (exists path storage handler, existT (P := answer)
        (WRestoreFromSnapshot endpoint (mkRestore (sa_SlotID a) id path storage handler)) None ∈ tr)).

(** A status says Running only if it was read so, or the Worker just started the Sandbox. *)
Definition running_guard namespace name tr e : Prop :=
  match e with
  | UpdateSandboxStatus s =>
      ss_Phase (sb_Status s) = SandboxPhaseRunning ->
      exists s0, read_sandbox namespace name s0 tr /\
        (ss_Phase (sb_Status s0) = SandboxPhaseRunning \/ worker_started s0 tr)
  | _ => True
  end.

(** A Sandbox becomes Running only when it runs: a status update of [Reconcile] with phase
    Running follows, in the same run, a reservation of the assigned Slot and a successful start
    or restore of this Sandbox on it, unless the Sandbox was Running already. *)
Theorem running_after_start namespace name :
  safe (running_guard namespace name) (Reconcile namespace name).
Proof.
  wpg_auto; try exact I; cbn [running_guard]; cbn; intros Hf; try done;
    eexists; (split; [by eexists|]); try (by left);
    right; eexists _, _; (split; [done|]); (split; [in_trace|]);
    first [solve [left; eexists; in_trace] | solve [right; eexists _, _, _; in_trace]].
Qed.

(** An assignment in a status is the one that was read, or the Scheduler's answer to this run's
    request for this Sandbox. *)
Definition assignment_guard namespace name tr e : Prop :=
  match e with
  | UpdateSandboxStatus s =>
      exists s0, read_sandbox namespace name s0 tr /\
        (ss_Assignment (sb_Status s) = ss_Assignment (sb_Status s0) \/
         ss_Assignment (sb_Status s0) = None /\
         exists req a, rq_SandboxUID req = om_UID (sb_Meta s0) /\
           rq_SlotProfile req = sp_SlotProfile (sb_Spec s0) /\
           existT (P := answer) (SAssign req) (Ok a) ∈ tr /\
           ss_Assignment (sb_Status s) =
             Some (mkSandboxAssignment (wk_Name (as_Worker a)) (as_SlotID a) (as_SlotProfile a)))
  | _ => True
  end.

(** C11. A Sandbox never changes Slots: every status [Reconcile] writes keeps the assignment it
    read, and a Sandbox without one gets exactly what the Scheduler assigned to its UID and
    profile in that run. *)
Theorem assignment_is_stable namespace name :
  safe (assignment_guard namespace name) (Reconcile namespace name).
Proof.
  wpg_auto; try exact I; cbn [assignment_guard]; cbn; (eexists; split; [by eexists|]);
    try (by left); right; (split; [done|]); eexists _, _; split_and!; by in_trace.
Qed.

(** *** Worker errors *)

(** The status written for a failed Worker call: not Ready, for this reason; Failed exactly when
    the error is permanent. *)
Definition failure_guard (sandbox : Sandbox) (reason : string) (err : error) tr e : Prop :=
  match e with
  | UpdateSandboxStatus s =>
      conditionTrue (ss_Conditions (sb_Status s)) ConditionReady = false /\
      (exists c, FindStatusCondition (ss_Conditions (sb_Status s)) ConditionReady = Some c /\
         cn_Reason c = reason /\ cn_Message c = error_text err) /\
      ss_Phase (sb_Status s) =
        (if is_permanent err then SandboxPhaseFailed else ss_Phase (sb_Status sandbox))
  | _ => True
  end.

(** A failed Worker call is reported and retried unless it is permanent: the status carries
    Ready=False with the operation's reason and the error's text; a permanent error makes the
    Sandbox Failed and is not retried, any other keeps the phase and is retried after two
    seconds. The run fails only if the status could not be written. *)
Theorem worker_error_outcome `{!KubeLaws} sandbox reason err :
  wpg (failure_guard sandbox reason err) (handleWorkerError sandbox reason err)
    (fun _ r => match r with
      | Ok delay => delay = if is_permanent err then 0%Z else sandboxRetryInterval
      | Err e => exists cause : error, e = wrap_prefix "get current Sandbox before status update" cause \/
                            e = wrap_prefix "update Sandbox status" cause
      end) [].
Proof.
  assert (Hready : forall now cs g, conditionTrue (SetStatusCondition now cs
      (mkCondition ConditionReady ConditionFalse g 0 reason (error_text err))) ConditionReady = false /\
      exists c, FindStatusCondition (SetStatusCondition now cs
        (mkCondition ConditionReady ConditionFalse g 0 reason (error_text err))) ConditionReady = Some c /\
        cn_Reason c = reason /\ cn_Message c = error_text err).
  { intros now cs g. unfold conditionTrue.
    destruct (find_set_same now cs (mkCondition ConditionReady ConditionFalse g 0 reason (error_text err)))
      as (c & Hc & Hs & Hr & Hm & _). cbn [cn_Type] in Hc. rewrite Hc. simpl in *.
    rewrite Hs. split; [done|]. by exists c. }
  unfold handleWorkerError. destruct (is_permanent err) eqn:Hp; wpg_auto; try exact I; try done;
    try (cbn [failure_guard]; rewrite Hp; cbn; destruct (Hready r (ss_Conditions (sb_Status sandbox))
      (om_Generation (sb_Meta sandbox))) as [H1 H2]; by split_and!); eauto.
Qed.

(** What the Worker reports decides: an error of the Worker's Manager, as the client sees it, is
    permanent exactly when the Manager classified it. *)
Lemma is_permanent_remote (err : error) :
  is_permanent (remote_error err) =
  existsb (errors_Is err) [ErrInvalidRequest; ErrSlotConfigInvalid; ErrSnapshotLoad;
                           ErrSlotNotFound; ErrSandboxNotFound; ErrSlotConflict].
Proof. unfold remote_error. cbn [is_permanent]. by rewrite retryable_iff_unclassified, negb_involutive. Qed.

(** *** Restores *)

(** What a restore loads. *)
Definition restore_guard namespace name tr e : Prop :=
  match e with
  | WRestoreFromSnapshot _ req =>
      exists s0 snap, read_sandbox namespace name s0 tr /\
        existT (P := answer) (GetSnapshot (sb_ns s0) (sp_FromSnapshot (sb_Spec s0))) (Ok snap) ∈ tr /\
        ns_Phase (sn_Status snap) = SnapshotPhaseReady /\
        np_Pool (sn_Spec snap) = sp_PoolRef (sb_Spec s0) /\
        rs_StoragePath req = ns_StoragePath (sn_Status snap) /\ rs_StoragePath req <> "" /\
        (ns_Runtime (sn_Status snap) <> "" -> rs_Runtime req = ns_Runtime (sn_Status snap))
  | WStartSandbox _ req =>
      exists s0, read_sandbox namespace name s0 tr /\ sp_FromSnapshot (sb_Spec s0) = "" /\
        sp_Container (sb_Spec s0) = Some (sr_Container req)
  | _ => True
  end.

(** A Sandbox starts from what its spec names: a restore loads the snapshot of that name only
    when it is Ready, belongs to the same Pool and has bytes in storage, from its storage path
    and with the runtime it was made with; a cold start happens only without a snapshot, and
    runs the spec's container. *)
Theorem start_follows_spec namespace name :
  safe (restore_guard namespace name) (Reconcile namespace name).
Proof.
  wpg_auto; try exact I; cbn [restore_guard];
    repeat match goal with
    | H : negb (bool_decide _) = _ |- _ => apply negb_false_iff, bool_decide_eq_true in H || apply negb_true_iff, bool_decide_eq_false in H
    | H : bool_decide _ = false |- _ => apply bool_decide_eq_false in H
    | H : bool_decide _ = true |- _ => apply bool_decide_eq_true in H
    end; cbn.
  all: eexists; first [by (split; [by eexists|]; split) | eexists; (split; [by eexists|]); (split; [in_trace|])];
    split_and!; try done; intros ?; by rewrite bool_decide_false.
Qed.
End SandboxFacts.

Module SandboxWitness.
#[local] Existing Instance ZQuantity.
#[local] Existing Instance KubeRef.api.
#[local] Existing Instance KubeRef.laws.

Definition box : Sandbox :=
  mkSandbox (mkMeta "box" "team" "uid-b" 1 "9" [SandboxFinalizer] false ∅ None) (mkSandboxSpec "pool" "small" None "")
    (mkSandboxStatus 1 SandboxPhaseStarting (Some (mkSandboxAssignment "w-0" 0 "small")) []).
Definition conflict : error := WorkerAPIError 409 "SlotConflict" "slot 0 is owned by another Sandbox".

Lemma finalizer_removed_after_cleanup_witness :
  safe (finalizer_guard "team" "box") (Reconcile "team" "box").
Proof. apply (@finalizer_removed_after_cleanup _ KubeRef.api KubeRef.laws "team" "box"). Defined.

Lemma worker_error_outcome_witness :
  wpg (failure_guard box "ReserveFailed" conflict) (handleWorkerError box "ReserveFailed" conflict)
    (fun _ r => match r with
      | Ok delay => delay = 0%Z
      | Err e => exists cause : error, e = wrap_prefix "get current Sandbox before status update" cause \/
                            e = wrap_prefix "update Sandbox status" cause
      end) [].
Proof. apply (@worker_error_outcome _ KubeRef.api KubeRef.laws box "ReserveFailed" conflict). Defined.
End SandboxWitness.
