(* ===== verification/SandboxLiveness.v ===== *)
(** * A Sandbox gets to run

    The Sandbox controller against a cluster that cooperates: an API server that stores what it
    is given, a ready Pool, a Scheduler with capacity and a Worker that accepts. The cluster is
    described by its answers along the history, whatever else it does. *)

From S2P Require Import Prelude Prog Strings Slot Runtime Scheduler Api Kube Controller SandboxController.

Section Liveness.
Context {QA : QuantityApi} {KA : KubeApi}.
Implicit Types (s : Sandbox) (tr : trace ControllerE).

(** The object the server holds after an event: [Update] writes metadata and spec, the status
    subresource the status. *)
Definition store s (ev : event ControllerE) : Sandbox :=
  match ev with
  | existT (UpdateSandbox s') (Ok _) => mkSandbox (sb_Meta s') (sb_Spec s') (sb_Status s)
  | existT (UpdateSandboxStatus s') (Ok _) => set_sb_Status (sb_Status s') s
  | _ => s
  end.

(** A cooperative answer while the server holds [s]. *)
Definition cooperates s (ev : event ControllerE) : Prop :=
  match ev with
  | existT (GetSandbox _ _) r => r = Ok s
  | existT (UpdateSandbox _) r => is_ok r = true
  | existT (UpdateSandboxStatus s') r => exists s'', r = Ok s'' /\ sb_Status s'' = sb_Status s'
  | existT (GetPool _ _) r => exists pool, r = Ok pool /\ conditionTrue (pt_Conditions (po_Status pool)) ConditionReady = true /\
      existsb (fun profile => bool_decide (pf_Name profile = sp_SlotProfile (sb_Spec s))) (pl_SlotProfiles (po_Spec pool)) = true
  | existT (SAssign _) r => is_ok r = true
  | existT (SRestore _) r => r = None
  | existT (GetPod _ _) r => is_ok r = true
  | existT (Endpoint _) r => is_ok r = true
  | existT (WReserveSlot _ _) r => r = None
  | existT (WStartSandbox _ _) r => r = None
  | _ => True
  end.

(** Every event of the history is cooperative for the object held when it happened. *)
Fixpoint cooperative s tr : Prop :=
  match tr with
  | [] => True
  | ev :: tr' => cooperates s ev /\ cooperative (store s ev) tr'
  end.

Definition held s tr : Sandbox := foldl store s tr.

Lemma cooperative_snoc s tr ev : cooperative s (tr ++ [ev]) <-> cooperative s tr /\ cooperates (held s tr) ev.
Proof.
  revert s. induction tr as [|x tr IH]; intros s; cbn; [tauto|]. rewrite IH. tauto.
Qed.

Lemma held_snoc s tr ev : held s (tr ++ [ev]) = store (held s tr) ev.
Proof. unfold held. by rewrite foldl_snoc. Qed.

(** Weakest preconditions for a cooperative cluster: the postcondition is about the object held
    at the end. *)
Fixpoint wpc {A} (p : prog ControllerE A) (Q : Sandbox -> A -> Prop) s : Prop :=
  match p with
  | Ret a => Q s a
  | Call e k => forall r : answer e, cooperates s (existT e r) -> wpc (k r) Q (store s (existT e r))
  end.

Lemma wpc_wp {A} (p : prog ControllerE A) Q s tr :
  wpc p Q (held s tr) -> wp p (fun t a => cooperative s t -> Q (held s t) a) tr.
Proof.
  enough (G : forall tr, (cooperative s tr -> wpc p Q (held s tr)) ->
    wp p (fun t a => cooperative s t -> Q (held s t) a) tr) by (intros; apply G; auto).
  clear tr. induction p as [a|e k IH]; cbn; intros tr H; [done|].
  intros r. apply IH. rewrite cooperative_snoc, held_snoc. intros [Hc Hr]. by apply H.
Qed.

Lemma wpc_mono {A} (p : prog ControllerE A) (Q R : Sandbox -> A -> Prop) s :
  wpc p Q s -> (forall s' a, Q s' a -> R s' a) -> wpc p R s.
Proof. revert s. induction p; cbn; intros s; eauto. Qed.

Lemma wpc_bind {A B} (p : prog ControllerE A) (f : A -> prog ControllerE B) Q s :
  wpc (bind f p) Q s <-> wpc p (fun s' a => wpc (f a) Q s') s.
Proof.
  revert s. induction p as [a|e k IH]; cbn; intros s; [done|].
  split; intros H r Hr; by apply IH, H.
Qed.

Lemma wpc_call {A} e (k : answer e -> prog ControllerE A) Q s :
  (forall r, cooperates s (existT e r) -> wpc (k r) Q (store s (existT e r))) -> wpc (Call e k) Q s.
Proof. done. Qed.

(** How many runs a Sandbox still needs. *)
Definition distance s : nat :=
  if negb (ContainsFinalizer (om_Finalizers (sb_Meta s)) SandboxFinalizer) then 3
  else match ss_Assignment (sb_Status s) with
       | None => 2
       | Some _ => if bool_decide (ss_Phase (sb_Status s) = SandboxPhaseRunning) then 0 else 1
       end.

(** A Sandbox with a container, not being deleted. *)
Definition startable s : Prop :=
  om_Deleted (sb_Meta s) = false /\ sp_FromSnapshot (sb_Spec s) = "" /\ sp_Container (sb_Spec s) <> None.

Lemma wpc_ret {A} (a : A) (Q : Sandbox -> A -> Prop) s : Q s a -> wpc (Ret a) Q s.
Proof. done. Qed.

Ltac coop_answer :=
  let r := fresh "r" in let Hr := fresh "Hr" in
  intros r Hr; cbn [cooperates] in Hr; cbn [store];
  lazymatch type of Hr with
  | is_ok r = true => destruct r as [r|]; [clear Hr|discriminate Hr]
  | r = _ => subst r
  | exists _, r = _ /\ _ => let x := fresh "x" in destruct Hr as (x & -> & Hr)
  | _ => idtac
  end; cbv beta iota.

Ltac coop_step :=
  repeat (match goal with
  | |- wpc (Ret _) _ _ => apply wpc_ret; cbv beta
  | |- wpc (Call _ _) _ _ => apply wpc_call; coop_answer
  | |- wpc (trigger _) _ _ => unfold trigger
  | |- wpc (try_bind _ _) _ _ => unfold try_bind
  | |- wpc (check_bind _ _) _ _ => unfold check_bind
  | |- wpc (on_error _ _) _ _ => unfold on_error
  | |- wpc (on_failure _ _) _ _ => unfold on_failure
  | |- wpc (as_result _) _ _ => unfold as_result
  | |- wpc (bind _ _) _ _ => apply wpc_bind; cbv beta
  end; cbv beta zeta iota).

(** A status update: the server holds the new status, and the caller gets it back. *)
Lemma wpc_finish sandbox result Q s :
  sb_ns sandbox = sb_ns s -> sb_name sandbox = sb_name s ->
  Q (set_sb_Status (set_ss_ObservedGeneration (om_Generation (sb_Meta sandbox)) (sb_Status sandbox)) s) result ->
  wpc (finish sandbox result) Q s.
Proof.
  intros Hns Hn HQ. unfold finish, syncStatus. coop_step. case_bool_decide as Hst; coop_step.
  - rewrite <- Hst in HQ. by destruct s.
  - done.
Qed.

(** ** Progress *)

Definition closer (s s' : Sandbox) : Prop := startable s' /\ distance s' <= pred (distance s).

Lemma distance_assigned s a : ss_Assignment (sb_Status s) = Some a ->
  ContainsFinalizer (om_Finalizers (sb_Meta s)) SandboxFinalizer = true ->
  distance s = if bool_decide (ss_Phase (sb_Status s) = SandboxPhaseRunning) then 0 else 1.
Proof. intros Ha Hf. unfold distance. by rewrite Hf, Ha. Qed.

Lemma syncAssign_closer s pool :
  startable s -> ContainsFinalizer (om_Finalizers (sb_Meta s)) SandboxFinalizer = true ->
  ss_Assignment (sb_Status s) = None -> hasSlotProfile (po_Spec pool) (sp_SlotProfile (sb_Spec s)) = true ->
  wpc (syncAssign s pool) (fun s' r => closer s s' /\ is_ok r = true) s.
Proof.
  intros Hs Hf Ha Hp. unfold syncAssign. rewrite Hp. cbn [negb]. coop_step. unfold setSandboxCondition.
  coop_step. apply wpc_finish; [done..|]. split; [|done]. split; [exact Hs|].
  unfold distance at 2. rewrite Hf, Ha. cbn [negb]. erewrite distance_assigned; [|done|done]. by case_bool_decide.
Qed.

Lemma syncStart_closer s a :
  startable s -> ContainsFinalizer (om_Finalizers (sb_Meta s)) SandboxFinalizer = true ->
  ss_Assignment (sb_Status s) = Some a ->
  wpc (syncStart s a) (fun s' r => closer s s' /\ is_ok r = true) s.
Proof.
  intros Hs Hf Ha. unfold syncStart, resolveWorkerEndpoint, start_on_worker, setSandboxCondition.
  pose proof Hs as (_ & Hsnap & Hct). coop_step. rewrite (bool_decide_true _ Hsnap). cbn [negb].
  destruct (sp_Container (sb_Spec s)) as [container|]; [|done]. coop_step.
  apply wpc_finish; [done..|]. split; [|done]. split; [exact Hs|].
  erewrite (distance_assigned _ a); [|done|done]. cbn. rewrite bool_decide_true by done. lia.
Qed.

(** One run against a cooperative cluster succeeds and brings the Sandbox closer. *)
Lemma Reconcile_closer `{!KubeLaws} namespace name s :
  startable s -> wpc (Reconcile namespace name) (fun s' r => closer s s' /\ is_ok r = true) s.
Proof.
  intros Hs. pose proof Hs as (Hdel & _). unfold Reconcile. coop_step. rewrite Hdel.
  destruct (ContainsFinalizer (om_Finalizers (sb_Meta s)) SandboxFinalizer) eqn:Hf; cbn [negb]; coop_step.
  - destruct Hr as [Hready Hprofile]. rewrite Hready. cbn [negb].
    destruct (ss_Assignment (sb_Status s)) as [a|] eqn:Ha; [by apply syncStart_closer|by apply syncAssign_closer].
  - split; [|done]. split; [exact Hs|]. unfold distance at 2. rewrite Hf. unfold distance. cbn.
    rewrite contains_add. cbn. destruct (ss_Assignment _); [case_bool_decide|]; lia.
Qed.

(** [n] runs, one after another. *)
Fixpoint runs (n : nat) (namespace name : string) : prog ControllerE (list Result) :=
  match n with
  | O => Ret []
  | S n => call! r := Reconcile namespace name in call! rs := runs n namespace name in Ret (r :: rs)
  end.

Lemma runs_closer `{!KubeLaws} n namespace name s :
  startable s ->
  wpc (runs n namespace name) (fun s' rs => startable s' /\ distance s' <= distance s - n /\ Forall (fun r => is_ok r = true) rs) s.
Proof.
  revert s. induction n as [|n IH]; intros s Hs; cbn [runs].
  { cbn. split_and!; [done|lia|constructor]. }
  apply wpc_bind. eapply wpc_mono; [by apply Reconcile_closer|]. intros s1 r [[Hs1 Hd1] Hr].
  apply wpc_bind. eapply wpc_mono; [by apply IH|]. intros s2 rs (Hs2 & Hd2 & Hrs). cbn.
  split_and!; [done|lia|by constructor].
Qed.

(** C9. A Sandbox gets to run: when every run of [Reconcile] finds a cluster that cooperates (the
    API server stores what is written and gives back what it holds, the Pool is Ready and has
    the profile, the Scheduler assigns a Slot, the Worker accepts), then after three runs or
    more a Sandbox with a container that is not being deleted has a Slot and is Running, no run
    having failed; whatever its status was. *)
Theorem eventually_running `{!KubeLaws} namespace name s n (Hs : startable s) (Hn : 3 <= n) :
  always (runs n namespace name) (fun t rs => cooperative s t ->
    ss_Phase (sb_Status (held s t)) = SandboxPhaseRunning /\
    is_Some (ss_Assignment (sb_Status (held s t))) /\ Forall (fun r => is_ok r = true) rs).
Proof.
  unfold always. eapply wp_mono; [apply wpc_wp, runs_closer, Hs|]. cbn. intros t rs Hend Hc.
  destruct (Hend Hc) as (_ & Hd & Hrs). unfold held in Hd |- *.
  assert (Hle : distance s <= 3). { unfold distance. destruct (negb _); [lia|]. destruct (ss_Assignment _); [case_bool_decide|]; lia. }
  revert Hd. unfold distance at 1. destruct (negb _); [lia|]. destruct (ss_Assignment _); [|lia].
  case_bool_decide; [|lia]. intros _. split_and!; [done|by eexists|done].
Qed.
End Liveness.

(** ** A cluster that cooperates *)

Module LivenessWitness.
#[local] Existing Instance ZQuantity.
#[local] Existing Instance KubeRef.api.
#[local] Existing Instance KubeRef.laws.

(** A new Sandbox. *)
Definition container : ContainerSpec := mkContainerSpec "app:1" ["sh"] [] [].
Definition box : Sandbox :=
  mkSandbox (mkMeta "box" "team" "uid-b" 1 "9" [] false ∅ None) (mkSandboxSpec "pool" "small" (Some container) "")
    (mkSandboxStatus 0 SandboxPhaseNone None []).
Definition pool : SandboxPool :=
  mkPool (mkMeta "pool" "team" "uid-p" 1 "3" [] false ∅ None)
    (mkPoolSpec (mkRuntimeConfig "cri" (Some (mkCRI "kata" "kata" []))) None [mkSlotProfile "small" no_resources] [])
    (mkPoolStatus 1 1 1 0 1 [] [] [mkCondition ConditionReady ConditionTrue 1 0 "WorkerAvailable" ""]).
Definition assigned : Assignment := mkAssignment "uid-b" "team" "box" (mkWorkerKey "team" "pool" "w-0") 0 "small".
Definition pod : Pod := mkPod (mkMeta "w-0" "team" "uid-w" 1 "4" [] false ∅ None) "10.0.0.1" [] [].

Definition answers (s : Sandbox) (e : ControllerE) : answer e :=
  match e as e0 return answer e0 with
  | GetSandbox _ _ => Ok s
  | UpdateSandbox s' | UpdateSandboxStatus s' => Ok s'
  | ListSandboxes _ => Ok []
  | GetPool _ _ => Ok pool
  | UpdatePoolStatus p => Ok p
  | GetSnapshot _ _ | UpdateSnapshot _ | UpdateSnapshotStatus _ => Err (KubeNotFound "not found")
  | GetPod _ _ => Ok pod
  | ListPods _ _ => Ok [pod]
  | GetSecret _ _ | GetService _ _ | GetStatefulSet _ _ => Err (KubeNotFound "not found")
  | CreateService _ | CreateStatefulSet _ | UpdateStatefulSet _ => None
  | Endpoint _ => Ok "http://10.0.0.1:8090"
  | WListSlots _ => Ok []
  | WHealth _ | WApplyTopology _ _ | WReserveSlot _ _ | WStartSandbox _ _ | WStopSandbox _ _ | WReleaseSlot _ _ => None
  | WCreateSnapshot _ _ => Err (Plain "unused")
  | WRestoreFromSnapshot _ _ | WDeleteSnapshotObjects _ _ => None
  | SAssign _ => Ok assigned
  | SRestore _ | SRelease _ => None
  | SUpdateWorker _ | SRemoveWorker _ => tt
  | Now => 0%Z
  end.
Definition serve (s : Sandbox) (e : ControllerE) : Sandbox * answer e := (store s (existT e (answers s e)), answers s e).

Definition history : trace ControllerE := (run serve (runs 3 "team" "box") box []).1.2.

Lemma history_cooperative : cooperative box history.
Proof. vm_compute. repeat split; try (eexists; by repeat split). Qed.

Lemma eventually_running_witness :
  ss_Phase (sb_Status (held box history)) = SandboxPhaseRunning /\
  is_Some (ss_Assignment (sb_Status (held box history))).
Proof.
  pose proof (wp_run serve (runs 3 "team" "box") _ box []
    (@eventually_running _ KubeRef.api KubeRef.laws "team" "box" box 3 ltac:(by vm_compute) (le_n 3))) as H.
  change history with (run serve (runs 3 "team" "box") box []).1.2 in *.
  pose proof history_cooperative as Hc. unfold history in Hc.
  destruct (run serve (runs 3 "team" "box") box []) as [[s t] rs]. cbn in *.
  destruct (H Hc) as (H1 & H2 & _). by split.
Defined.
End LivenessWitness.
