(* ===== verification/SnapshotController.v ===== *)
(** * The SandboxSnapshot controller (internal/controller/snapshot_controller.go)

    [Reconcile] takes a snapshot of a Running parent once, and deletes the stored objects when
    no Sandbox refers to the snapshot any more. *)

From S2P Require Import Prelude Prog Strings Slot Runtime Scheduler Api Kube Controller.

(* go: internal/controller/snapshot_controller.go snapshotRetryInterval *)
Definition snapshotRetryInterval : Z := 2 * Second.

Section SnapshotController.
Context {QA : QuantityApi} {KA : KubeApi}.

Definition sn_name (s : SandboxSnapshot) : string := om_Name (sn_Meta s).
Definition sn_ns (s : SandboxSnapshot) : string := om_Namespace (sn_Meta s).

(** Since the code sets the transition time itself, the helper's own clock is not read. *)
(* go: internal/controller/snapshot_controller.go setSnapshotCondition *)
Definition setSnapshotCondition (conditionType : string) (status : ConditionStatus)
    (reason message : string) (snap : SandboxSnapshot) : prog ControllerE SandboxSnapshot :=
  call! now := trigger Now in
  let condition := mkCondition conditionType status (om_Generation (sn_Meta snap)) now reason message in
  let st := sn_Status snap in
  Ret (set_sn_Status (set_ns_Conditions (SetStatusCondition now (ns_Conditions st) condition) st) snap).

(* go: internal/controller/snapshot_controller.go SnapshotReconciler.syncStatus *)
Definition syncStatus (snap : SandboxSnapshot) : prog ControllerE (result SandboxSnapshot) :=
  on_error (wrap_prefix "update SandboxSnapshot status")
    (trigger (UpdateSnapshotStatus
      (set_sn_Status (set_ns_ObservedGeneration (om_Generation (sn_Meta snap)) (sn_Status snap)) snap))).

Definition finish (snap : SandboxSnapshot) (result : Result) : prog ControllerE Result :=
  let! _ := syncStatus snap in Ret result.

(* go: internal/controller/snapshot_controller.go SnapshotReconciler.fail *)
Definition fail (snap : SandboxSnapshot) (reason message : string) : prog ControllerE Result :=
  let snap := set_sn_Status (set_ns_Message message (set_ns_Phase SnapshotPhaseFailed (sn_Status snap))) snap in
  call! snap := setSnapshotCondition ConditionReady ConditionFalse reason message snap in
  finish snap no_requeue.

(** The same text as the Sandbox controller's method. *)
(* go: internal/controller/snapshot_controller.go SnapshotReconciler.resolveWorkerEndpoint *)
Definition resolveWorkerEndpoint (namespace name : string) : prog ControllerE (result string) :=
  let! pod := on_error (wrap_prefix ("get Worker Pod " +:+ quote name)) (trigger (GetPod namespace name)) in
  trigger (Endpoint pod).

(** The first Pod with an endpoint, in the order of the list. *)
Fixpoint first_endpoint (pods : list Pod) : prog ControllerE (result string) :=
  match pods with
  | [] => Ret (Err (Plain "no Worker available to delete snapshot objects"))
  | pod :: pods' =>
      call! resolved := trigger (Endpoint pod) in
      match resolved : result string with
      | Ok endpoint => if bool_decide (endpoint = "") then first_endpoint pods' else Ret (Ok endpoint)
      | Err _ => first_endpoint pods'
      end
  end.

(* go: internal/controller/snapshot_controller.go SnapshotReconciler.pickWorkerEndpoint *)
Definition pickWorkerEndpoint (namespace : string) (pool : SandboxPool) (preferredWorker : string) : prog ControllerE (result string) :=
  call! preferred := (if bool_decide (preferredWorker = "") then Ret (Err (Plain "no preferred Worker"))
                      else resolveWorkerEndpoint namespace preferredWorker) in
  match preferred : result string with
  | Ok endpoint => Ret (Ok endpoint)
  | Err _ =>
      let! pods := trigger (ListPods namespace (poolLabels (om_Name (po_Meta pool)))) in
      first_endpoint pods
  end.

(** The status of a snapshot whose bytes are in storage. *)
(* go: internal/controller/snapshot_controller.go 130-137 SnapshotReconciler.syncCreate *)
Definition ready_status (res : CreateSnapshotResult) (worker : string) (st : SnapshotStatus) : SnapshotStatus :=
  mkSnapshotStatus (ns_ObservedGeneration st) SnapshotPhaseReady (cs_StoragePath res) (cs_SnapshotFiles res)
    (cs_Runtime res) (cs_FormatVersion res) (cs_SizeBytes res) worker "" (ns_Conditions st).

(** The call to the Worker and what its outcome means. *)
(* go: internal/controller/snapshot_controller.go 102-142 SnapshotReconciler.syncCreate *)
Definition create_on_worker (snap : SandboxSnapshot) (parent : Sandbox) (a : SandboxAssignment)
    (pool : SandboxPool) (storage : ObjectStorageConfig) (endpoint : string) : prog ControllerE Result :=
  let storagePath := if bool_decide (ns_StoragePath (sn_Status snap) = "")
    then "snapshots/" +:+ om_Name (sb_Meta parent) +:+ "/" +:+ sn_name snap +:+ "/"
    else ns_StoragePath (sn_Status snap) in
  let container := default no_container (sp_Container (sb_Spec parent)) in
  call! created := trigger (WCreateSnapshot endpoint (mkCreateSnapshot (sa_SlotID a) (sandboxIdentity parent)
    storagePath storage (poolRuntime pool) (np_Pool (sn_Spec snap)) container)) in
  match created : result CreateSnapshotResult with
  | Err err =>
      call! _ := trigger (WDeleteSnapshotObjects endpoint (mkDeleteObjects storagePath [] storage)) in
      fail snap "CreateFailed" (error_text err)
  | Ok res =>
      let snap := set_sn_Status (ready_status res (sa_Worker a) (sn_Status snap)) snap in
      call! snap := setSnapshotCondition ConditionReady ConditionTrue "Ready" "snapshot uploaded to object storage" snap in
      finish snap no_requeue
  end.

(** The assignment of a parent that can be snapshotted. *)
Definition running_assignment (parent : Sandbox) : option SandboxAssignment :=
  if bool_decide (ss_Phase (sb_Status parent) = SandboxPhaseRunning)
  then ss_Assignment (sb_Status parent) else None.

(* go: internal/controller/snapshot_controller.go SnapshotReconciler.syncCreate *)
Definition syncCreate (snap : SandboxSnapshot) : prog ControllerE Result :=
  call! got := trigger (GetSandbox (sn_ns snap) (np_SourceSandbox (sn_Spec snap))) in
  match got : result Sandbox with
  | Err err => if IsNotFound err then fail snap "ParentNotFound" (error_text err) else Ret (Err err)
  | Ok parent =>
      match running_assignment parent with
      | None =>
          call! snap := setSnapshotCondition ConditionReady ConditionFalse "ParentNotReady"
            "source Sandbox is not Running" snap in
          finish (set_sn_Status (set_ns_Phase SnapshotPhasePending (sn_Status snap)) snap) (Ok snapshotRetryInterval)
      | Some a =>
          if negb (bool_decide (sp_PoolRef (sb_Spec parent) = np_Pool (sn_Spec snap))) then
            fail snap "PoolMismatch" ("parent poolRef " +:+ quote (sp_PoolRef (sb_Spec parent)) +:+
              " != snapshot pool " +:+ quote (np_Pool (sn_Spec snap)))
          else
            let! pool := on_error (wrap_prefix "get SandboxPool") (trigger (GetPool (sn_ns snap) (np_Pool (sn_Spec snap)))) in
            call! storage := snapshotStorageConfig pool in
            match storage : result ObjectStorageConfig with
            | Err err => fail snap "StorageConfig" (error_text err)
            | Ok storage =>
                call! resolved := resolveWorkerEndpoint (sn_ns snap) (sa_Worker a) in
                match resolved : result string with
                | Err err =>
                    call! snap := setSnapshotCondition ConditionReady ConditionFalse "WorkerUnavailable" (error_text err) snap in
                    finish snap (Ok snapshotRetryInterval)
                | Ok endpoint => create_on_worker snap parent a pool storage endpoint
                end
            end
      end
  end.

(** Ask a Worker to delete the objects; every failure but that of reading the Pool is ignored. *)
(* go: internal/controller/snapshot_controller.go 164-180 SnapshotReconciler.syncDelete *)
Definition delete_objects (snap : SandboxSnapshot) : prog ControllerE (result unit) :=
  let st := sn_Status snap in
  if bool_decide (ns_StoragePath st = "") then Ret (Ok tt)
  else
    call! got := trigger (GetPool (sn_ns snap) (np_Pool (sn_Spec snap))) in
    match got : result SandboxPool with
    | Err err => if negb (IsNotFound err) then Ret (Err err) else Ret (Ok tt)
    | Ok pool =>
        call! storage := snapshotStorageConfig pool in
        match storage : result ObjectStorageConfig with
        | Err _ => Ret (Ok tt)
        | Ok storage =>
            call! picked := pickWorkerEndpoint (sn_ns snap) pool (ns_SourceWorker st) in
            match picked : result string with
            | Err _ => Ret (Ok tt)
            | Ok endpoint =>
                call! _ := trigger (WDeleteSnapshotObjects endpoint
                  (mkDeleteObjects (ns_StoragePath st) (ns_SnapshotFiles st) storage)) in
                Ret (Ok tt)
            end
        end
    end.

(* go: internal/controller/snapshot_controller.go SnapshotReconciler.syncDelete *)
Definition syncDelete (snap : SandboxSnapshot) : prog ControllerE Result :=
  if negb (ContainsFinalizer (om_Finalizers (sn_Meta snap)) SandboxSnapshotFinalizer) then Ret no_requeue
  else
    let! sandboxes := trigger (ListSandboxes (sn_ns snap)) in
    match List.find (fun sb => bool_decide (sp_FromSnapshot (sb_Spec sb) = sn_name snap)) sandboxes with
    | Some sb =>
        let message := "still referenced by Sandbox " +:+ quote (om_Name (sb_Meta sb)) in
        call! snap := setSnapshotCondition ConditionReady ConditionFalse "InUse" message
          (set_sn_Status (set_ns_Message message (sn_Status snap)) snap) in
        call! _ := syncStatus snap in
        Ret (Ok snapshotRetryInterval)
    | None =>
        let! _ := delete_objects snap in
        let m := set_Finalizers (RemoveFinalizer (om_Finalizers (sn_Meta snap)) SandboxSnapshotFinalizer) (sn_Meta snap) in
        let! _ := on_error (wrap_prefix "remove SandboxSnapshot finalizer") (trigger (UpdateSnapshot (set_sn_Meta m snap))) in
        Ret no_requeue
    end.

(* go: internal/controller/snapshot_controller.go SnapshotReconciler.Reconcile *)
Definition Reconcile (namespace name : string) : prog ControllerE Result :=
  call! got := trigger (GetSnapshot namespace name) in
  match got : result SandboxSnapshot with
  | Err err => Ret (if IsNotFound err then no_requeue else Err err)
  | Ok snap =>
      if om_Deleted (sn_Meta snap) then syncDelete snap
      else if negb (ContainsFinalizer (om_Finalizers (sn_Meta snap)) SandboxSnapshotFinalizer) then
        let m := set_Finalizers (AddFinalizer (om_Finalizers (sn_Meta snap)) SandboxSnapshotFinalizer) (sn_Meta snap) in
        let! _ := on_error (wrap_prefix "add SandboxSnapshot finalizer") (trigger (UpdateSnapshot (set_sn_Meta m snap))) in
        Ret no_requeue
      else match ns_Phase (sn_Status snap) with
      | SnapshotPhaseReady | SnapshotPhaseFailed => Ret no_requeue
      | _ => syncCreate snap
      end
  end.
End SnapshotController.
