(* ===== verification/SnapshotControllerFacts.v ===== *)
(** * Correctness of the SandboxSnapshot controller

    When [Reconcile] may take a snapshot, call it ready, wipe its objects, and let it go. *)

From S2P Require Import Prelude Prog Strings Slot Runtime Scheduler Api Kube Controller SnapshotController.

Section SnapshotFacts.
Context {QA : QuantityApi} {KA : KubeApi}.
Implicit Types (tr : trace ControllerE) (e : ControllerE).

(** The run read the snapshot [s] first. *)
Definition read_snapshot namespace name (s : SandboxSnapshot) tr : Prop :=
  exists tl, tr = existT (P := answer) (GetSnapshot namespace name) (Ok s) :: tl.

(** The run listed the Sandboxes of the namespace and none is started from the snapshot. *)
Definition unreferenced (s : SandboxSnapshot) tr : Prop :=
  exists sandboxes, existT (P := answer) (ListSandboxes (sn_ns s)) (Ok sandboxes) ∈ tr /\
    forall sb, sb ∈ sandboxes -> sp_FromSnapshot (sb_Spec sb) <> sn_name s.

(** Looking for a Worker only asks for endpoints. *)
Lemma wpg_first_endpoint G pods (Q : trace ControllerE -> result string -> Prop) tr :
  (forall t p, G t (Endpoint p)) -> (forall t r, Q (tr ++ t) r) ->
  wpg G (first_endpoint pods) Q tr.
Proof.
  intros HG. revert tr. induction pods as [|p pods IH]; intros tr HQ; cbn [first_endpoint].
  - apply wpg_ret. specialize (HQ [] (Err (Plain "no Worker available to delete snapshot objects"))).
    by rewrite app_nil_r in HQ.
  - assert (Hstep : forall t r, Q ((tr ++ [t]) ++ r) = Q (tr ++ ([t] ++ r))) by (intros; by rewrite <- app_assoc).
    wpg_step; [apply HG|..].
    all: try (apply IH; intros t r0; rewrite Hstep; apply HQ). apply HQ.
Qed.

Ltac wpg_hook ::= apply wpg_first_endpoint; [intros ? ?; exact I|intros ? ?; cbv beta].

Lemma find_none_forall {A} (f : A -> bool) l : List.find f l = None -> forall x, x ∈ l -> f x = false.
Proof. intros H x Hx%list_elem_of_In. by apply (List.find_none f l). Qed.

(** Objects are deleted for a snapshot that is going away unreferenced, or to clean up after
    its own failed creation; the finalizer goes only with the former. *)
Definition deletion_guard namespace name tr e : Prop :=
  match e with
  | UpdateSnapshot s =>
      ContainsFinalizer (om_Finalizers (sn_Meta s)) SandboxSnapshotFinalizer = false ->
      exists s0, read_snapshot namespace name s0 tr /\ om_Deleted (sn_Meta s0) = true /\ unreferenced s0 tr
  | WDeleteSnapshotObjects _ req =>
      exists s0, read_snapshot namespace name s0 tr /\
        ((om_Deleted (sn_Meta s0) = true /\ unreferenced s0 tr /\
            do_StoragePath req = ns_StoragePath (sn_Status s0)) \/
         (exists endpoint create err,
            existT (P := answer) (WCreateSnapshot endpoint create) (Err err) ∈ tr /\
            cq_StoragePath create = do_StoragePath req))
  | _ => True
  end.

Lemma unreferenced_intro s sandboxes tr :
  List.find (fun sb => bool_decide (sp_FromSnapshot (sb_Spec sb) = sn_name s)) sandboxes = None ->
  existT (P := answer) (ListSandboxes (sn_ns s)) (Ok sandboxes) ∈ tr -> unreferenced s tr.
Proof.
  intros Hf Hin. exists sandboxes. split; [done|]. intros sb Hsb He.
  pose proof (find_none_forall _ _ Hf sb Hsb) as Hb. simpl in Hb. by rewrite bool_decide_true in Hb.
Qed.

Ltac was_read := eexists; split; [by eexists|].
Ltac not_referenced := eapply unreferenced_intro; [eassumption|in_trace].

(** C20. A snapshot outlives its users: [Reconcile] removes its finalizer, and asks a Worker to
    delete the objects it recorded, only when the snapshot is being deleted and a list of the
    namespace's Sandboxes taken in the same run has none that starts from it. The only other
    deletion is the cleanup of its own failed creation, of the path that creation was given. *)
Theorem snapshot_kept_while_referenced `{!KubeLaws} namespace name :
  safe (deletion_guard namespace name) (Reconcile namespace name).
Proof.
  wpg_auto; try exact I; cbn [deletion_guard].
  all: try (intros Hf; cbn in Hf; by rewrite contains_add in Hf).
  all: first [ intros _; was_read; split; [done|not_referenced]
             | was_read; first [ left; split; [done|]; split; [not_referenced|done]
                               | right; eexists _, _, _; split; [in_trace|done] ] ].
Qed.

Lemma or_default_nonempty s d : d <> "" -> (if bool_decide (s = "") then d else s) <> "".
Proof. intros Hd. by case_bool_decide. Qed.

Lemma running_assignment_Some parent a :
  running_assignment parent = Some a ->
  ss_Phase (sb_Status parent) = SandboxPhaseRunning /\ ss_Assignment (sb_Status parent) = Some a.
Proof. unfold running_assignment. by case_bool_decide. Qed.

(** What a creation needs, and what a Ready status says. *)
Definition creation_guard namespace name tr e : Prop :=
  match e with
  | WCreateSnapshot _ req =>
      exists s0 parent a, read_snapshot namespace name s0 tr /\
        om_Deleted (sn_Meta s0) = false /\
        ns_Phase (sn_Status s0) <> SnapshotPhaseReady /\ ns_Phase (sn_Status s0) <> SnapshotPhaseFailed /\
        existT (P := answer) (GetSandbox (sn_ns s0) (np_SourceSandbox (sn_Spec s0))) (Ok parent) ∈ tr /\
        ss_Phase (sb_Status parent) = SandboxPhaseRunning /\ ss_Assignment (sb_Status parent) = Some a /\
        sp_PoolRef (sb_Spec parent) = np_Pool (sn_Spec s0) /\
        cq_SlotID req = sa_SlotID a /\ cq_Identity req = sandboxIdentity parent /\ cq_StoragePath req <> ""
  | UpdateSnapshotStatus s =>
      ns_Phase (sn_Status s) = SnapshotPhaseReady ->
      exists s0, read_snapshot namespace name s0 tr /\
        (ns_Phase (sn_Status s0) = SnapshotPhaseReady \/
         exists endpoint req res,
           existT (P := answer) (WCreateSnapshot endpoint req) (Ok res) ∈ tr /\
           ns_StoragePath (sn_Status s) = cs_StoragePath res /\
           ns_SnapshotFiles (sn_Status s) = cs_SnapshotFiles res /\
           ns_Runtime (sn_Status s) = cs_Runtime res)
  | _ => True
  end.

(** C21. A snapshot is taken once and is Ready only when it is stored: a Worker is asked to create
    it only if the snapshot read is neither deleted nor Ready nor Failed, for the Slot and
    identity of a parent read as Running in the same Pool; and a status with phase Ready, unless
    it was read so, follows that call's success and records the path, files and runtime it
    answered. *)
Theorem snapshot_ready_after_upload namespace name :
  safe (creation_guard namespace name) (Reconcile namespace name).
Proof.
  wpg_auto; try exact I; cbn [creation_guard]; try (by intros ?).
  all: try (intros Hr; was_read; first [by left | right; eexists _, _, _; split; [in_trace|done]]).
  all: match goal with H : running_assignment _ = Some _ |- _ => apply running_assignment_Some in H as [Hrun Ha] end.
  all: match goal with H : negb (bool_decide (_ = _)) = false |- _ => apply negb_false_iff, bool_decide_eq_true in H end.
  all: eexists _, _, _; split; [by eexists|]; split_and!; try done; try congruence; [in_trace|].
  all: by apply or_default_nonempty.
Qed.
End SnapshotFacts.

Module SnapshotWitness.
#[local] Existing Instance ZQuantity.
#[local] Existing Instance KubeRef.api.
#[local] Existing Instance KubeRef.laws.

Definition snap (deleted : bool) (phase : SnapshotPhase) : SandboxSnapshot :=
  mkSnapshot (mkMeta "snap" "team" "uid-s" 1 "7" [SandboxSnapshotFinalizer] deleted ∅ None)
    (mkSnapshotSpec "box" "pool")
    (mkSnapshotStatus 1 phase (if deleted then "snapshots/box/snap/" else "") [] "kata" "v1" 0 "w-0" "" []).
Definition box : Sandbox :=
  mkSandbox (mkMeta "box" "team" "uid-b" 1 "9" [] false ∅ None) (mkSandboxSpec "pool" "small" None "")
    (mkSandboxStatus 1 SandboxPhaseRunning (Some (mkSandboxAssignment "w-0" 0 "small")) []).
Definition pool : SandboxPool :=
  mkPool (mkMeta "pool" "team" "uid-p" 1 "3" [] false ∅ None)
    (mkPoolSpec (mkRuntimeConfig "cri" (Some (mkCRI "kata" "kata" []))) (Some (Some (mkS3Storage "" "b" "" "creds"))) [] [])
    (mkPoolStatus 1 1 1 1 0 [] [] []).
Definition pod : Pod := mkPod (mkMeta "w-0" "team" "uid-w" 1 "4" [] false ∅ None) "10.0.0.1" [] [].
Definition creds : Secret := {["accessKeyID" := "a"; "secretAccessKey" := "s"]}.
Definition stored : CreateSnapshotResult := mkSnapshotResult "snapshots/box/snap/" ["memory.img"] "" 10 "v1" "kata".

(** An API server and a Worker: [status_ok] says whether status updates succeed, [creates] how
    many snapshots the Worker can still take (taking one ends the parent's VM), [deletes]
    whether it can delete objects. *)
Record world := mkWorld { w_snap : SandboxSnapshot; w_status_ok : bool; w_creates : nat; w_deletes : bool }.

Definition serve (w : world) (e : ControllerE) : world * answer e :=
  (match e with
   | WCreateSnapshot _ _ => mkWorld (w_snap w) (w_status_ok w) (pred (w_creates w)) (w_deletes w)
   | _ => w
   end,
   match e as e0 return answer e0 with
   | GetSandbox _ _ => Ok box
   | UpdateSandbox s | UpdateSandboxStatus s => Ok s
   | ListSandboxes _ => Ok []
   | GetPool _ _ => Ok pool
   | UpdatePoolStatus p => Ok p
   | GetSnapshot _ _ => Ok (w_snap w)
   | UpdateSnapshot s => Ok s
   | UpdateSnapshotStatus s => if w_status_ok w then Ok s else Err (Plain "the object has been modified")
   | GetPod _ _ => Ok pod
   | ListPods _ _ => Ok [pod]
   | GetSecret _ _ => Ok creds
   | GetService _ _ | GetStatefulSet _ _ => Err (KubeNotFound "not found")
   | CreateService _ | CreateStatefulSet _ | UpdateStatefulSet _ => None
   | Endpoint _ => Ok "http://10.0.0.1:8090"
   | WListSlots _ => Ok []
   | WHealth _ | WApplyTopology _ _ | WReserveSlot _ _ | WStartSandbox _ _ | WStopSandbox _ _
   | WReleaseSlot _ _ | WRestoreFromSnapshot _ _ => None
   | WCreateSnapshot _ _ => match w_creates w with O => Err (WorkerAPIError 409 "SlotConflict" "slot 0 is not running") | S _ => Ok stored end
   | WDeleteSnapshotObjects _ _ => if w_deletes w then None else Some (WorkerAPIError 500 "RuntimeError" "access denied")
   | SAssign _ => Err ErrNoCapacity
   | SRestore _ | SRelease _ => None
   | SUpdateWorker _ | SRemoveWorker _ => tt
   | Now => 0%Z
   end).

Definition reconcile (w : world) : world * trace ControllerE * Result := run serve (Reconcile "team" "snap") w [].

Lemma snapshot_kept_while_referenced_witness :
  safe (deletion_guard "team" "snap") (Reconcile "team" "snap").
Proof. apply (@snapshot_kept_while_referenced _ KubeRef.api KubeRef.laws "team" "snap"). Defined.

(** Tests on the calls of a run. *)
Definition stored_ok (ev : event ControllerE) : bool :=
  match ev with
  | existT (WCreateSnapshot _ _) (Ok res) => bool_decide (cs_StoragePath res = cs_StoragePath stored)
  | _ => false
  end.
Definition wipes (path : string) (e : ControllerE) : bool :=
  match e with WDeleteSnapshotObjects _ req => bool_decide (do_StoragePath req = path) | _ => false end.
Definition reports (phase : SnapshotPhase) (e : ControllerE) : bool :=
  match e with UpdateSnapshotStatus s => bool_decide (ns_Phase (sn_Status s) = phase) | _ => false end.
Definition delete_failed (ev : event ControllerE) : bool :=
  match ev with existT (WDeleteSnapshotObjects _ _) (Some _) => true | _ => false end.
Definition lets_go (e : ControllerE) : bool :=
  match e with UpdateSnapshot s => bool_decide (om_Finalizers (sn_Meta s) = []) | _ => false end.

(** A creation whose status update is lost is run again; the second attempt fails because the
    parent's VM went with the first, and its cleanup asks the Worker to delete the path of the
    first, complete snapshot, which is then reported as Failed. *)
Example lost_status_update_wipes_snapshot :
  let w := mkWorld (snap false SnapshotPhasePending) false 1 true in
  let '(w1, t1, r1) := reconcile w in
  let '(_, t2, r2) := reconcile (mkWorld (w_snap w1) true (w_creates w1) (w_deletes w1)) in
  (is_ok r1, existsb stored_ok t1, existsb (wipes (cs_StoragePath stored)) (calls t2),
   existsb (reports SnapshotPhaseFailed) (calls t2), r2) = (false, true, true, true, Ok 0%Z).
Proof. by vm_compute. Qed.

(** The finalizer goes even when the Worker could not delete the objects: they stay behind. *)
Example deletion_leaves_objects :
  let '(_, t, r) := reconcile (mkWorld (snap true SnapshotPhaseReady) true 0 false) in
  (r, existsb delete_failed t, existsb lets_go (calls t)) = (Ok 0%Z, true, true).
Proof. by vm_compute. Qed.
End SnapshotWitness.
