(* ===== verification/ControllerManager.v ===== *)
(** * The controller manager, and the fleet (cmd/controller-manager)

    The reconcilers with what their program gives them: the in-memory Scheduler with bin packing, the
    resolver of Pod addresses, and the HTTP client of the Workers. One Worker is modelled down to its
    host; the others, and the API server, answer as they like. *)

From S2P Require Import Prelude Prog Compose Strings Slot Topology Scheduler Runtime Api WorkerEnv SnapshotStore Manager.
From S2P Require Import Url Json ApiJson WorkerServer WorkerClient WorkerHttp WorkerProcess.
From S2P Require Import Cri Host Snapshotters GVisor KataData Vmm Guest Kata WorkerProgram.
From S2P Require Import Kube Controller Workload PoolController SandboxController SnapshotController.

(** The calls that leave the fleet: below the Worker, and to the API server and the other Workers. *)
Notation FleetE := (((CriE + SysE) + WorkerE) + ControllerE)%type.

(** ** The program *)

(** The flags that reach a reconciler, with their defaults. *)
(* go: cmd/controller-manager/main.go 25-33 main *)
Record ManagerFlags := mkManagerFlags {
  mg_workerImage : string;
  mg_workerPort : Z;
}.
(* go: cmd/controller-manager/main.go 25-33 main *)
Definition default_flags : ManagerFlags := mkManagerFlags "sandboxfleet-worker-gvisor:latest" 8090.

(** What the queues of the manager hand to a reconciler. *)
Inductive ReconcileRequest :=
  | ForPool (namespace name : string)
  | ForSandbox (namespace name : string)
  | ForSnapshot (namespace name : string).

(** The state of the fleet: the Scheduler of the manager, and the Slots of the Worker. *)
Record fleet `{QuantityApi} := mkFleet {
  ft_scheduler : memoryScheduler BinPackStrategy;
  ft_worker : SlotManager;
}.
Arguments mkFleet {_} _ _.

Section Fleet.
Context {QA : QuantityApi} {QEq : EqDecision Quantity} {QV : QuantityValues QA} {QP : QuantityParse QA} {KJ : K8sJson QA}.
Context {KA : KubeApi} `{ManifestJson} `{ZstdApi} {HE : HostEnv} {JT : JsonText} {IA : ImageApi} {KL : KataLibs}.
Context (DeepEqual : ResourceRequirements -> ResourceRequirements -> bool).

(* go: cmd/controller-manager/main.go 54-78 main *)
Definition reconcile (flags : ManagerFlags) (r : ReconcileRequest) : prog ControllerE Result :=
  let port := wrap32 (mg_workerPort flags) in
  match r with
  | ForPool namespace name =>
      PoolController.Reconcile (WB := StatefulSetBuilder_Build (mkBuilder port (mg_workerImage flags) ∅)) port namespace name
  | ForSandbox namespace name => SandboxController.Reconcile namespace name
  | ForSnapshot namespace name => SnapshotController.Reconcile namespace name
  end.

Definition set_scheduler sch (s : fleet) : fleet := mkFleet sch (ft_worker s).
Definition set_worker m (s : fleet) : fleet := mkFleet (ft_scheduler s) m.

(** A call of the Worker at [endpoint], through its client and its server, down to its host. *)
Definition over_http {A} (b : backend) (endpoint : string) (call : string -> prog HttpE A) (s : fleet) :
    prog FleetE (fleet * A) :=
  bind (fun r => Ret (set_worker r.1 s, r.2))
    (lift_left (interp (adapter b) (interpS (serve DeepEqual) (remote endpoint (call endpoint)) (ft_worker s)))).

(** A call of the Scheduler: one operation on its state, under its mutex. *)
Definition scheduled {A} (s : fleet) (r : memoryScheduler BinPackStrategy * A) : prog FleetE (fleet * A) :=
  Ret (set_scheduler r.1 s, r.2).

(** The calls of a reconciler, served. *)
(* go: cmd/controller-manager/main.go 51-53 main *)
Definition controller_call (flags : ManagerFlags) (b : backend) (endpoint : string) (e : ControllerE) (s : fleet) :
    prog FleetE (fleet * answer e) :=
  let to {A} (ep : string) (call : string -> prog HttpE A) (other : prog FleetE (fleet * A)) :=
    if bool_decide (ep = endpoint) then over_http b endpoint call s else other in
  match e as e0 return prog FleetE (fleet * ControllerE_effect e0) -> prog FleetE (fleet * ControllerE_effect e0) with
  | Endpoint pod => fun _ => Ret (s, PodIPResolver_Endpoint (wrap32 (mg_workerPort flags)) pod)
  | WHealth ep => to ep Health
  | WListSlots ep => to ep ListSlots
  | WApplyTopology ep configs => to ep (fun ep => ApplyTopology ep configs)
  | WReserveSlot ep ref => to ep (fun ep => ReserveSlot ep ref)
  | WStartSandbox ep req => to ep (fun ep => StartSandbox ep req)
  | WStopSandbox ep ref => to ep (fun ep => StopSandbox ep ref)
  | WReleaseSlot ep ref => to ep (fun ep => ReleaseSlot ep ref)
  | WCreateSnapshot ep req => to ep (fun ep => CreateSnapshot ep req)
  | WRestoreFromSnapshot ep req => to ep (fun ep => RestoreFromSnapshot ep req)
  | WDeleteSnapshotObjects ep req => to ep (fun ep => DeleteSnapshotObjects ep req)
  | SAssign req => fun _ =>
      match Assign req (ft_scheduler s) with
      | Some r => scheduled s r
      | None => Ret (s, Err (Plain "assignment to entry in nil map"))
      end
  | SRestore a => fun _ => scheduled s (Restore a (ft_scheduler s))
  | SRelease uid => fun _ => scheduled s (Release uid (ft_scheduler s), None)
  | SUpdateWorker w => fun _ => scheduled s (UpdateWorker w (ft_scheduler s), tt)
  | SRemoveWorker key => fun _ => scheduled s (RemoveWorker key (ft_scheduler s), tt)
  | _ => fun call => call
  end (bind (fun r => Ret (s, r)) (trigger (inr e : FleetE))).

(** One run of a reconciler in the fleet. *)
Definition fleet_run flags b endpoint (r : ReconcileRequest) (s : fleet) : prog FleetE (fleet * Result) :=
  interpS (controller_call flags b endpoint) (reconcile flags r) s.
End Fleet.
