(* ===== verification/FleetFacts.v ===== *)
(** * The fleet does what a deletion promises

    From the object of a deleted Sandbox down to the host of its Worker: the Sandbox controller, the
    Scheduler, the HTTP client and server, the Slot manager and the adapter, in one run. *)

From S2P Require Import Prelude Prog Compose Strings Slot Topology Scheduler SchedulerFacts Runtime Api WorkerEnv SnapshotStore.
From S2P Require Import Manager ManagerFacts TopologyApply Url Json ApiJson WorkerServer WorkerClient WorkerHttp WorkerProcess WorkerProcessFacts.
From S2P Require Import Cri Host Snapshotters GVisor KataData Vmm Guest Kata WorkerProgram.
From S2P Require Import Kube Controller Workload PoolController SandboxController SnapshotController ControllerManager.

Section FleetFacts.
Context {QA : QuantityApi} {QEq : EqDecision Quantity} {QV : QuantityValues QA} {QP : QuantityParse QA} {KJ : K8sJson QA}.
Context {KA : KubeApi} `{ManifestJson} `{ZstdApi} {HE : HostEnv} {JT : JsonText} {IA : ImageApi} {KL : KataLibs}.
Context (DeepEqual : ResourceRequirements -> ResourceRequirements -> bool).

(** ** A Slot while its Sandbox is stopped and released *)

(** A free Slot stays free, and the runtime a Slot held is still held, or was deleted. *)
Definition kept (gone : bool * ID -> Prop) (s s' : managedSlot) : Prop :=
  (ms_state s = StateFree -> ms_state s' = StateFree) /\
  forall id, ms_runtimeRef s = Some id ->
    (ms_runtimeRef s' = Some id /\ ms_restored s' = ms_restored s) \/ gone (ms_restored s, id).

Lemma kept_refl gone s : kept gone s s.
Proof. split; [done|]. by left. Qed.
Lemma kept_trans gone s1 s2 s3 : kept gone s1 s2 -> kept gone s2 s3 -> kept gone s1 s3.
Proof.
  intros [F1 K1] [F2 K2]. split; [by auto|]. intros id Hid. destruct (K1 id Hid) as [[Hid2 Hr]|?]; [|by right].
  rewrite <- Hr. by apply K2.
Qed.
Lemma kept_mono (gone gone' : bool * ID -> Prop) s s' : (forall x, gone x -> gone' x) -> kept gone s s' -> kept gone' s s'.
Proof. intros Hg [F K]. split; [done|]. intros id Hid. destruct (K id Hid); auto. Qed.

Definition deleted_in (t : trace WorkerE) (x : bool * ID) : Prop := x ∈ omap saw_deletion t.

Lemma deleted_ok_in restored id t : deleted_ok restored id t -> deleted_in t (restored, id).
Proof.
  intros Hd. apply list_elem_of_omap. unfold deleted_ok in Hd. destruct restored; [destruct Hd as [snap Hin]|]; by eexists.
Qed.

Lemma clearRestoreDir_later s Q tr :
  (forall t, tr `prefix_of` t -> Q t (set_restoreDir "" s)) -> wp (clearRestoreDir s) Q tr.
Proof.
  intros HQ. unfold clearRestoreDir. case_bool_decide as Hd; wp_step; [|apply HQ; by eexists].
  specialize (HQ tr (reflexivity _)). destruct s. simpl in *. by subst.
Qed.

Lemma StopSandbox_kept registry handler ref s :
  wp (StopSandbox_locked registry handler ref s) (fun t r => kept (deleted_in t) s r.1) [].
Proof.
  unfold StopSandbox_locked. destruct (decide (ms_state s = StateFree)) as [|Hf]; [apply kept_refl|].
  destruct (decide _); [apply kept_refl|]. destruct (decide _); [apply kept_refl|]. cbn [ms_runtimeRef set_state ms_restored].
  assert (Hsame : forall st t, kept (deleted_in t) s (set_state st s)) by (intros st t; split; [done|by left]).
  destruct (ms_runtimeRef s) as [id|] eqn:Hid; [|apply Hsame]. destruct (ms_restored s) eqn:Hr.
  - destruct (For registry handler) as [snap|err]; [|apply Hsame].
    apply wp_mbind. unfold trigger. cbn [wp]. intros [err|]; [apply Hsame|]. apply wp_mbind.
    apply clearRestoreDir_later. intros t Hp. split; [done|]. intros id' Hid'. right.
    assert (id' = id) as -> by congruence. rewrite Hr. apply deleted_ok_in. exists snap. eapply elem_of_prefix; [|exact Hp]. by left.
  - apply wp_mbind. unfold trigger. cbn [wp]. intros [err|]; apply Hsame.
Qed.

Lemma ReleaseSlot_kept registry handler ref s :
  wp (ReleaseSlot_locked registry handler ref s) (fun t r => kept (deleted_in t) s r.1 /\ (r.2 = None -> ms_state r.1 = StateFree)) [].
Proof.
  destruct (decide (ms_state s = StateFree)) as [Hf|Hf].
  { unfold ReleaseSlot_locked. rewrite decide_True by done. split; [apply kept_refl|done]. }
  destruct (decide (id_UID (ms_sandbox s) = id_UID (ref_Identity ref))) as [Hown|Hown].
  2: { unfold ReleaseSlot_locked. rewrite decide_False, decide_True by done. split; [apply kept_refl|done]. }
  eapply wp_mono; [by apply ReleaseSlot_outcome|]. intros t [s' [err|]]; cbn.
  { intros ->. split; [|done]. split; [done|]. by left. }
  intros [-> Hd]. split; [|done]. split; [done|]. intros id Hid. right. by apply deleted_ok_in, Hd.
Qed.

(** ** The Worker while it stops and releases *)

Definition all_kept (gone : bool * ID -> Prop) (m m' : SlotManager) : Prop :=
  forall n s, slot_at m n s -> exists s', slot_at m' n s' /\ kept gone s s'.
Definition freed (m : SlotManager) (n : Z) : Prop := exists s, slot_at m n s /\ ms_state s = StateFree.

Lemma all_kept_refl gone m : all_kept gone m m.
Proof. intros n s Hs. exists s. split; [done|apply kept_refl]. Qed.
Lemma all_kept_trans gone m1 m2 m3 : all_kept gone m1 m2 -> all_kept gone m2 m3 -> all_kept gone m1 m3.
Proof.
  intros H1 H2 n s Hs. destruct (H1 n s Hs) as (s2 & Hs2 & K1). destruct (H2 n s2 Hs2) as (s3 & Hs3 & K2).
  exists s3. split; [done|]. by eapply kept_trans.
Qed.
Lemma all_kept_mono (gone gone' : bool * ID -> Prop) m m' : (forall x, gone x -> gone' x) -> all_kept gone m m' -> all_kept gone' m m'.
Proof. intros Hg Hk n s Hs. destruct (Hk n s Hs) as (s' & Hs' & K). exists s'. split; [done|]. by eapply kept_mono. Qed.
Lemma freed_kept gone m m' n : all_kept gone m m' -> freed m n -> freed m' n.
Proof. intros Hk (s & Hs & Hf). destruct (Hk n s Hs) as (s' & Hs' & Hf' & _). exists s'. auto. Qed.

(** What one call of the Manager does, when it is one of the two. *)
Definition cleans (m : SlotManager) (e : ManagerE) (r : answer e) (m' : SlotManager) (t : trace WorkerE) : Prop :=
  worker_ok m' /\
  match e as e return answer e -> Prop with
  | MStopSandbox _ => fun _ => all_kept (deleted_in t) m m'
  | MReleaseSlot ref => fun r => all_kept (deleted_in t) m m' /\ (r = None -> freed m' (ref_SlotID ref))
  | _ => fun _ => True
  end r.

(** A request on one Slot: it fails and changes nothing, or does what it does to that Slot. *)
Lemma with_slot_updates n (f : managedSlot -> prog WorkerE (managedSlot * option error)) Q m :
  (forall s, wp (f s) (Q s) []) ->
  wp (with_slot Some n f m) (fun t r =>
    (r.1 = m /\ r.2 <> None) \/
    exists a s s', sm_slots m !! n = Some a /\ sm_heap m !! a = Some s /\ Q s t (s', r.2) /\ r.1 = set_slot a s' m) [].
Proof.
  intros Hf. unfold with_slot, getSlot, deref.
  destruct (sm_slots m !! n) as [a|] eqn:Ha; [|by left]. destruct (sm_heap m !! a) as [s|] eqn:Hs; [|by left].
  apply wp_mbind. eapply wp_mono; [apply Hf|]. intros t [s' r] HQ. right. by exists a, s, s'.
Qed.

Lemma with_slot_kept ref (f : managedSlot -> prog WorkerE (managedSlot * option error)) (P : option error -> managedSlot -> Prop) m :
  manager_ok m ->
  (forall s, wp (f s) (fun t r => kept (deleted_in t) s r.1 /\ P r.2 r.1) []) ->
  wp (with_slot Some (ref_SlotID ref) f m) (fun t r => all_kept (deleted_in t) m r.1 /\
    (r.2 = None -> exists s, slot_at r.1 (ref_SlotID ref) s /\ P None s)) [].
Proof.
  intros Hm Hf. eapply wp_mono; [apply (with_slot_updates _ _ _ _ Hf)|].
  intros t [m' r] [[-> Hr]|(a & s & s' & Ha & Hs & [Hk HP] & ->)]; cbn [fst snd] in *; [split; [apply all_kept_refl|done]|].
  pose proof (set_slot_at m _ a s' Hm Ha) as Hat. split; [|intros ->; exists s'; split; [apply Hat; auto|done]].
  intros n s0 Hs0. destruct (decide (n = ref_SlotID ref)) as [->|Hne]; [|exists s0; split; [apply Hat; auto|apply kept_refl]].
  destruct Hs0 as (a0 & Ha0 & Hs0). simplify_eq. exists s'. split; [apply Hat; auto|done].
Qed.

Lemma wp_request {Q} identity m k :
  (forall err, Q [] (m, Some err)) -> wp k Q [] -> wp (request identity m k) Q [].
Proof. intros HQ Hk. unfold request. destruct (validateIdentity identity) as [err|]; [apply HQ|exact Hk]. Qed.

Lemma serve_cleans e m : worker_ok m -> wp (serve DeepEqual e m) (fun t r => cleans m e r.2 r.1 t) [].
Proof.
  intros Hm. eapply wp_mono; [apply wp_conj; [by apply serve_keeps|]|intros t r [[Hok _] Hc]; split; [exact Hok|exact Hc]].
  cbv beta. destruct e as [ref|req|ref|ref|ref|req|req|req|req|req|req|req|req content| |configs]; try (eapply wp_mono; [apply wp_true|done]).
  - cbn [serve]. unfold Manager.StopSandbox. apply wp_request; [intros err; cbn; apply all_kept_refl|].
    eapply wp_mono; [apply (with_slot_kept ref _ (fun _ _ => True)); [apply Hm|]|by intros t r [? _]].
    intros s. eapply wp_mono; [apply StopSandbox_kept|done].
  - cbn [serve]. unfold Manager.ReleaseSlot. apply wp_request; [intros err; cbn; split; [apply all_kept_refl|done]|].
    eapply wp_mono; [apply (with_slot_kept ref _ (fun r s => r = None -> ms_state s = StateFree)); [apply Hm|]|].
    + intros s. apply ReleaseSlot_kept.
    + intros t r [Hk Hr]. split; [done|]. intros Hn. destruct (Hr Hn) as (s & Hs & Hf). exists s. auto.
Qed.

(** ** The same over HTTP, and down to the host *)

(** A client's call that is one call [e] of the Manager, and succeeds only when that does. *)
Definition is_call endpoint (p : prog HttpE (option error)) (e : ManagerE) (R : option error -> answer e -> Prop) : Prop :=
  always (remote endpoint p) (fun t r => exists a, t = [existT e a] /\ R r a).

(** The caller sees success only when the Manager answered it. *)
Definition accepted (r a : option error) : Prop := r = None -> a = None.

Lemma stop_is_call endpoint ref :
  sendable (MStopSandbox ref) ->
  is_call endpoint (StopSandbox endpoint ref) (MStopSandbox ref) accepted.
Proof.
  intros [Hid Hv]. eapply wp_mono.
  - apply (remote_slot_success ref_SlotID ref endpoint "stop" Hv Hid eq_refl (fun q => trigger (MStopSandbox q))
      (fun t a => t = [existT (P := answer) (MStopSandbox ref) a])); [by intros []|done].
  - intros t r (a & Ht & Ha). by exists a.
Qed.
Lemma release_is_call endpoint ref :
  sendable (MReleaseSlot ref) ->
  is_call endpoint (ReleaseSlot endpoint ref) (MReleaseSlot ref) accepted.
Proof.
  intros [Hid Hv]. eapply wp_mono.
  - apply (remote_slot_success ref_SlotID ref endpoint "release" Hv Hid eq_refl (fun q => trigger (MReleaseSlot q))
      (fun t a => t = [existT (P := answer) (MReleaseSlot ref) a])); [by intros []|done].
  - intros t r (a & Ht & Ha). by exists a.
Qed.

(** One call, over HTTP, does what the Manager does for it. *)
Lemma call_serves endpoint p e R m (Q : trace WorkerE -> SlotManager -> event ManagerE -> Prop) :
  is_call endpoint p e R -> (forall e', wp (serve DeepEqual e' m) (fun t r => Q t r.1 (existT e' r.2)) []) ->
  wp (interpS (serve DeepEqual) (remote endpoint p) m) (fun t r => exists a, R r.2 a /\ Q t r.1 (existT e a)) [].
Proof.
  intros Hp Hserve. eapply wp_mono.
  - apply (wpg_interpS _ (fun m' t1 t2 => match t1 with
      | [] => m' = m /\ t2 = []
      | [ev] => Q t2 m' ev
      | _ => True
      end) (fun _ _ => True) _ (fun t r => exists a, t = [existT e a] /\ R r a) m [] []).
    + intros e' m' t1 t2 _ HI. destruct t1 as [|ev [|ev' t1]]; cbn [app].
      * destruct HI as [-> ->]. apply Hserve.
      * apply wp_true.
      * eapply wp_mono; [apply wp_true|done].
    + apply wp_wpg, Hp.
    + done.
  - intros t [m' r] (t1 & HI & a & -> & HR). by exists a.
Qed.

(** The deletion of a runtime, below the Worker. *)
Definition carried_out_below (b : backend) (t : trace FleetE) (x : bool * ID) : Prop := deletion_carried_out b x.1 x.2 (left_part t).

Lemma gone_later b t t' x : t `prefix_of` t' -> carried_out_below b t x -> carried_out_below b t' x.
Proof. intros Hp. by apply deletion_carried_out_prefix, left_part_prefix. Qed.

(** A stop or a release at the Worker. *)
Definition worker_cleans (b : backend) (s : fleet) (e : ManagerE) (a : answer e) (t : trace FleetE) (s' : fleet) : Prop :=
  ft_scheduler s' = ft_scheduler s /\ worker_ok (ft_worker s') /\
  match e as e return answer e -> Prop with
  | MStopSandbox _ => fun _ => all_kept (carried_out_below b t) (ft_worker s) (ft_worker s')
  | MReleaseSlot ref => fun r =>
      all_kept (carried_out_below b t) (ft_worker s) (ft_worker s') /\ (r = None -> freed (ft_worker s') (ref_SlotID ref))
  | _ => fun _ => True
  end a.

(** A call of the Worker, down to its host: what it did above the adapter, and what went below. *)
Lemma over_http_serves {A} b endpoint (call : string -> prog HttpE A) Q s t0 :
  wp (interpS (serve DeepEqual) (remote endpoint (call endpoint)) (ft_worker s)) Q [] ->
  wp (over_http DeepEqual b endpoint call s) (fun t r => ft_scheduler r.1 = ft_scheduler s /\
    exists t1, Q t1 (ft_worker r.1, r.2) /\ forall x, deleted_in t1 x -> carried_out_below b t x) t0.
Proof.
  intros Hq. unfold over_http. apply wp_bind. eapply wp_mono.
  - eapply (wp_lift_left _ (fun t r => exists t1, Q t1 r /\ forall x, x ∈ omap saw_deletion t1 -> deletion_carried_out b x.1 x.2 t)).
    apply (wp_interp_marks (adapter b) saw_deletion (fun x t => deletion_carried_out b x.1 x.2 t)); [|apply adapter_deletions|exact Hq].
    intros x t t'. apply deletion_carried_out_prefix.
  - cbv beta. intros t [m' r] (t1 & HQ & Hgone). cbn [wp fst snd]. split; [done|]. by exists t1.
Qed.

Lemma over_http_cleans b endpoint call e R s t0 :
  is_call endpoint (call endpoint) e R -> worker_ok (ft_worker s) ->
  wp (over_http DeepEqual b endpoint call s) (fun t r => exists a, R r.2 a /\ worker_cleans b s e a t r.1) t0.
Proof.
  intros Hp Hm. eapply wp_mono; [apply over_http_serves, (call_serves _ _ e R _ (fun t m' ev =>
      let '(existT e a) := ev in cleans (ft_worker s) e a m' t) Hp); intros e'; by apply serve_cleans|].
  cbv beta. intros t [s' r] (Hs & t1 & (a & HR & Hok & Hc) & Hgone). cbn [fst snd] in *.
  exists a. split; [done|]. split; [done|]. split; [exact Hok|].
  assert (Hk : forall m m', all_kept (deleted_in t1) m m' -> all_kept (carried_out_below b t) m m').
  { intros m1 m2. apply all_kept_mono. intros x Hx. by apply Hgone. }
  destruct e; try done; [by apply Hk|]. destruct Hc as [Hc Hf]. split; [by apply Hk|done].
Qed.

(** ** A run of the Sandbox controller that deletes *)

Implicit Types (tr : trace ControllerE).

(** The run read a Sandbox that is being deleted. *)
Definition being_deleted tr : bool :=
  match tr with
  | existT (GetSandbox _ _) (Ok s0) :: _ => om_Deleted (sb_Meta s0)
  | _ => false
  end.

(** It gives no more work to anybody. *)
Definition clean_call (e : ControllerE) : Prop :=
  match e with
  | GetSandbox _ _ | UpdateSandbox _ | UpdateSandboxStatus _ | GetPod _ _ | Endpoint _ | WStopSandbox _ _ | WReleaseSlot _ _
  | SRelease _ | Now => True
  | _ => False
  end.
Definition cleans_only tr (e : ControllerE) : Prop := being_deleted tr = true -> clean_call e.

(** What it asked Workers to stop and release. *)
Definition asked (ev : event ControllerE) : option SandboxSlotRef :=
  match projT1 ev with WStopSandbox _ ref | WReleaseSlot _ ref => Some ref | _ => None end.

Definition asked_refs tr : list SandboxSlotRef := omap asked tr.

(** The Worker that [sb] is assigned to is reached at [endpoint]. *)
Definition reached (sb : Sandbox) (a : SandboxAssignment) endpoint tr : Prop :=
  exists pod, existT (P := answer) (GetPod (sb_ns sb) (sa_Worker a)) (Ok pod) ∈ tr /\
    existT (P := answer) (Endpoint pod) (Ok endpoint) ∈ tr.

(** A Sandbox written without its finalizer: one being deleted, that the Scheduler has dropped, and
    whose Worker, if it ever had one, has released its Slot. *)
Definition deletion_done namespace name tr (sb : Sandbox) : Prop :=
  being_deleted tr = true /\ existT (P := answer) (SRelease (om_UID (sb_Meta sb))) None ∈ tr /\
  exists s0, head tr = Some (existT (P := answer) (GetSandbox namespace name) (Ok s0)) /\
    (ss_Assignment (sb_Status s0) = None \/
     exists a endpoint, let ref := mkRef (sa_SlotID a) (sandboxIdentity sb) in
       ss_Assignment (sb_Status sb) = Some a /\ reached sb a endpoint tr /\
       existT (P := answer) (WReleaseSlot endpoint ref) None ∈ tr /\ asked_refs tr = [ref; ref]).

Definition gives_up (ev : event ControllerE) (sb : Sandbox) : Prop :=
  projT1 ev = UpdateSandbox sb /\ ContainsFinalizer (om_Finalizers (sb_Meta sb)) SandboxFinalizer = false.

Ltac only_cleans := intros Hd; first [exact I | by cbn in Hd; congruence].
(** The events of a concrete history, one by one: only a write of the Sandbox is of interest. *)
Ltac writes Hin Hev Hf :=
  repeat first [ apply elem_of_app in Hin as [Hin|Hin] | by apply elem_of_nil in Hin | apply list_elem_of_singleton in Hin as -> ];
  cbn in Hev; try discriminate Hev; injection Hev as <-; try (by cbn in Hf; rewrite contains_add in Hf).

Lemma deletion_run `{!KubeLaws} namespace name :
  wpg cleans_only (SandboxController.Reconcile namespace name)
    (fun t _ => forall ev sb, ev ∈ t -> gives_up ev sb -> deletion_done namespace name t sb) [].
Proof.
  wpg_auto; lazymatch goal with
  | |- cleans_only _ _ => only_cleans
  | |- _ => intros ev sb Hin [Hev Hf]; writes Hin Hev Hf
  end.
  all: split; [done|]; split; [in_trace|]; eexists; (split; [reflexivity|]).
  all: first [by left | right; do 2 eexists; split; [eassumption|]; split; [eexists; split; in_trace|]; split; [in_trace|reflexivity]].
Qed.

(** ** The run, all the way down *)

Section Run.
Context (flags : ManagerFlags) (b : backend) (endpoint : string).
Implicit Types (s : fleet) (t : trace FleetE).

(** The calls that are served inside the fleet. *)
Definition served (e : ControllerE) : bool :=
  match e with
  | Endpoint _ | SAssign _ | SRestore _ | SRelease _ | SUpdateWorker _ | SRemoveWorker _ => true
  | WHealth ep | WListSlots ep | WApplyTopology ep _ | WReserveSlot ep _ | WStartSandbox ep _ | WStopSandbox ep _
  | WReleaseSlot ep _ | WCreateSnapshot ep _ | WRestoreFromSnapshot ep _ | WDeleteSnapshotObjects ep _ => bool_decide (ep = endpoint)
  | _ => false
  end.
Definition outside (ev : event ControllerE) : option (event ControllerE) := if served (projT1 ev) then None else Some ev.
Definition outside_part tr : trace ControllerE := omap outside tr.

Lemma outside_snoc tr ev : outside_part (tr ++ [ev]) = outside_part tr ++ option_list (outside ev).
Proof. unfold outside_part. rewrite omap_app. cbn. by destruct (outside ev). Qed.

(** What the controller saw of the outside is what was seen there, and Pods resolve to their IPs. *)
Definition resolves (ev : event ControllerE) : Prop :=
  match ev with
  | existT (Endpoint pod) r => r = PodIPResolver_Endpoint (wrap32 (mg_workerPort flags)) pod
  | _ => True
  end.
Definition faithful tr t : Prop := right_part t = outside_part tr /\ Forall resolves tr.

Lemma faithful_snoc tr t t' ev :
  faithful tr t -> right_part t' = right_part t ++ option_list (outside ev) -> resolves ev -> faithful (tr ++ [ev]) t'.
Proof.
  intros [Hout Hend] Ht Hev. split; [by rewrite outside_snoc, <- Hout|]. apply Forall_app. split; [done|by constructor].
Qed.

Lemma over_http_right {A} (call : string -> prog HttpE A) s t :
  wp (over_http DeepEqual b endpoint call s) (fun t' _ => right_part t' = right_part t) t.
Proof. unfold over_http. apply wp_bind. eapply wp_mono; [apply lift_left_right|]. by intros t' r Ht. Qed.

Lemma controller_call_faithful e s tr t :
  faithful tr t ->
  wp (controller_call DeepEqual flags b endpoint e s) (fun t' r => faithful (tr ++ [existT e r.2]) t') t.
Proof.
  intros Hf.
  assert (Hhere : forall t' r, right_part t' = right_part t -> served e = true -> resolves (existT e r) ->
      faithful (tr ++ [existT e r]) t').
  { intros t' r Ht Hs Hr. eapply faithful_snoc; [exact Hf| |done]. unfold outside. cbn [projT1]. by rewrite Hs, app_nil_r. }
  assert (Hthere : served e = false -> (forall r, resolves (existT e r)) ->
      wp (bind (fun r => Ret (s, r)) (trigger (inr e : FleetE))) (fun t' r => faithful (tr ++ [existT e r.2]) t') t).
  { intros Hs Hr. unfold trigger. cbn [bind wp]. intros r. eapply faithful_snoc; [exact Hf| |done].
    etransitivity; [apply right_part_snoc|]. unfold outside. cbn [projT1]. by rewrite Hs. }
  destruct e; cbn [controller_call served resolves] in *; try (by apply Hthere).
  all: try (destruct (bool_decide _) eqn:Hb; [|by apply Hthere]; eapply wp_mono; [apply over_http_right|]; intros t' r Ht; by apply Hhere).
  all: try (by apply Hhere).
  destruct (Assign req (ft_scheduler s)); by apply Hhere.
Qed.

(** What is promised while the run only cleans: the Scheduler forgets what it was told to release,
    the Worker lets go of no runtime without its deletion, and a released Slot is free. *)
Definition cleaning tr : Prop := tr = [] \/ being_deleted tr = true.
Definition dropped (ev : event ControllerE) : option UID := match projT1 ev with SRelease uid => Some uid | _ => None end.
Definition released_here (ev : event ControllerE) : option SandboxSlotRef :=
  match ev with
  | existT (WReleaseSlot ep ref) None => if bool_decide (ep = endpoint) then Some ref else None
  | _ => None
  end.

Record promise_kept (s0 : fleet) tr t s : Prop := {
  pk_dropped : Forall (fun uid => Scheduler.Get uid (ft_scheduler s) = None) (omap dropped tr);
  pk_worker : Forall (fun ref => sendable (MReleaseSlot ref)) (asked_refs tr) ->
    worker_ok (ft_worker s) /\ all_kept (carried_out_below b t) (ft_worker s0) (ft_worker s) /\
    Forall (fun ref => freed (ft_worker s) (ref_SlotID ref)) (omap released_here tr);
}.
Definition promise s0 tr t s : Prop := cleaning tr -> promise_kept s0 tr t s.

Lemma cleaning_before tr ev : cleaning (tr ++ [ev]) -> cleaning tr.
Proof. intros [Hn|Hd]; [by destruct tr|]. destruct tr as [|ev' tr]; [by left|by right]. Qed.

Lemma cleaning_call tr e r : cleans_only tr e -> cleaning (tr ++ [existT e r]) -> clean_call e.
Proof. intros Hc [Hn|Hd]; [by destruct tr|]. destruct tr as [|ev tr]; [by destruct e|by apply Hc]. Qed.

(** A call that leaves the Worker alone. *)
Lemma promise_snoc s0 tr t t' s s' ev :
  promise s0 tr t s -> t `prefix_of` t' -> ft_worker s' = ft_worker s ->
  (forall uid, Scheduler.Get uid (ft_scheduler s) = None -> Scheduler.Get uid (ft_scheduler s') = None) ->
  (forall uid, dropped ev = Some uid -> Scheduler.Get uid (ft_scheduler s') = None) -> released_here ev = None ->
  promise s0 (tr ++ [ev]) t' s'.
Proof.
  intros Hp Ht Hw Hs Hd Hr Hc. destruct (Hp (cleaning_before _ _ Hc)) as [H1 H2]. split.
  - rewrite omap_app. apply Forall_app. split; [by eapply Forall_impl|]. cbn. destruct (dropped ev); [|constructor].
    constructor; [by apply Hd|constructor].
  - unfold asked_refs. rewrite !omap_app. intros [Hask _]%Forall_app. destruct (H2 Hask) as (Hok & Hk & Hf). rewrite Hw.
    split; [done|]. split; [eapply all_kept_mono, Hk; intros x; by apply gone_later|].
    cbn. by rewrite Hr, app_nil_r.
Qed.

(** A stop or a release here. *)
Lemma over_http_keeps {A} (call : string -> prog HttpE A) s t :
  wp (over_http DeepEqual b endpoint call s) (fun t' r => t `prefix_of` t' /\ ft_scheduler r.1 = ft_scheduler s) t.
Proof. unfold over_http. apply wp_bind. eapply wp_mono; [apply wp_prefix|]. by intros t' r Ht. Qed.

Lemma promise_cleans s0 tr t t' s s' ev :
  promise s0 tr t s -> t `prefix_of` t' /\ ft_scheduler s' = ft_scheduler s -> dropped ev = None ->
  (cleaning tr /\ Forall (fun ref => sendable (MReleaseSlot ref)) (asked_refs (tr ++ [ev])) ->
     worker_ok (ft_worker s') /\ all_kept (carried_out_below b t') (ft_worker s) (ft_worker s') /\
     forall ref, released_here ev = Some ref -> freed (ft_worker s') (ref_SlotID ref)) ->
  promise s0 (tr ++ [ev]) t' s'.
Proof.
  intros Hp [Ht Hs] Hd Hw Hc. pose proof (cleaning_before _ _ Hc) as Hc'. destruct (Hp Hc') as [H1 H2]. split.
  - rewrite omap_app, Hs. cbn. by rewrite Hd, app_nil_r.
  - intros Hask. destruct (Hw (conj Hc' Hask)) as (Hok' & Hk' & Hr). clear Hw. unfold asked_refs in Hask. rewrite omap_app in Hask.
    apply Forall_app in Hask as [Hask _]. destruct (H2 Hask) as (Hok & Hk & Hf). split; [done|]. split.
    + eapply all_kept_trans, Hk'. eapply all_kept_mono, Hk. intros x. by apply gone_later.
    + rewrite omap_app. apply Forall_app. split; [eapply Forall_impl; [exact Hf|]; intros ref; by eapply freed_kept|].
      cbn. destruct (released_here ev) as [ref|]; [|constructor]. constructor; [by apply Hr|constructor].
Qed.

(** The call made here, when what went before allows to say anything. *)
Lemma clean_here_wp s0 tr t s call (m : ManagerE) (R : option error -> answer m -> Prop) ref :
  promise s0 tr t s ->
  (sendable (MReleaseSlot ref) -> is_call endpoint (call endpoint) m R) ->
  wp (over_http DeepEqual b endpoint call s) (fun t' r => (t `prefix_of` t' /\ ft_scheduler r.1 = ft_scheduler s) /\
    (cleaning tr /\ Forall (fun ref => sendable (MReleaseSlot ref)) (asked_refs tr ++ [ref]) ->
      exists a, R r.2 a /\ worker_cleans b s m a t' r.1)) t.
Proof.
  intros Hp Hcall. apply wp_conj; [apply over_http_keeps|]. apply wp_imp. intros [Hc [Hs1 Hs2]%Forall_app].
  destruct (Hp Hc) as [_ Hw]. destruct (Hw Hs1) as (Hok & _). apply Forall_inv in Hs2.
  eapply wp_mono; [apply (over_http_cleans b endpoint call m R s t); [exact (Hcall Hs2)|exact Hok]|]. by intros t' r Ha.
Qed.

Lemma controller_call_promise s0 e s tr t :
  cleans_only tr e -> promise s0 tr t s ->
  wp (controller_call DeepEqual flags b endpoint e s) (fun t' r => promise s0 (tr ++ [existT e r.2]) t' r.1) t.
Proof.
  intros Hc Hp.
  assert (Hother : ~ clean_call e -> wp (controller_call DeepEqual flags b endpoint e s) (fun t' r => promise s0 (tr ++ [existT e r.2]) t' r.1) t).
  { intros Hn. eapply wp_mono; [apply wp_true|]. intros t' r _ Hcl. by apply cleaning_call in Hcl. }
  assert (Hpass : (forall r, dropped (existT e r) = None /\ released_here (existT e r) = None) ->
      wp (bind (fun r => Ret (s, r)) (trigger (inr e : FleetE))) (fun t' r => promise s0 (tr ++ [existT e r.2]) t' r.1) t).
  { intros He. unfold trigger. cbn [bind wp]. intros r. destruct (He r) as [Hd Hr].
    eapply promise_snoc; [exact Hp|by eexists|done|done|intros uid Hu; by pose proof (eq_trans (eq_sym Hd) Hu)|exact Hr]. }
  destruct e; try (by apply Hother; intros []); try (by apply Hpass);
    cbn [controller_call]; clear Hother.
  - cbn [wp]. by eapply promise_snoc; [exact Hp|..].
  - destruct (bool_decide (endpoint0 = endpoint)) eqn:Hb; [|by apply Hpass]. clear Hpass.
    eapply wp_mono; [apply (clean_here_wp s0 tr t s _ (MStopSandbox ref) accepted ref Hp), stop_is_call|].
    intros t' [s' r] [Hkeeps Hcl]. eapply promise_cleans; [exact Hp|exact Hkeeps|done|].
    unfold asked_refs in *. rewrite omap_app. intros Hask. destruct (Hcl Hask) as (a & _ & _ & Hok & Hk). by split.
  - destruct (bool_decide (endpoint0 = endpoint)) eqn:Hb.
    2: { apply Hpass. intros [err|]; (split; [done|]); cbn; [done|by rewrite Hb]. }
    clear Hpass. eapply wp_mono; [apply (clean_here_wp s0 tr t s _ (MReleaseSlot ref) accepted ref Hp), release_is_call|].
    intros t' [s' r] [Hkeeps Hcl]. eapply promise_cleans; [exact Hp|exact Hkeeps|done|].
    unfold asked_refs in *. rewrite omap_app. intros Hask. destruct (Hcl Hask) as (a & Ha & _ & Hok & Hk & Hf).
    split; [done|]. split; [done|]. intros ref' Hr. cbn [fst snd] in *. destruct (r : option error) as [err|]; [done|].
    cbn in Hr. rewrite Hb in Hr. injection Hr as <-. by apply Hf, Ha.
  - cbn [wp]. eapply promise_snoc; [exact Hp|reflexivity|done| | |done]; unfold Scheduler.Get; cbn [set_scheduler ft_scheduler fst snd];
      rewrite Release_assignments.
    + intros uid' Hn. by apply lookup_delete_None; right.
    + intros uid' [= <-]. by apply lookup_delete_None; left.
Qed.

(** What was seen outside was seen by the controller, in the same place. *)
Lemma outside_seen tr t e r : faithful tr t -> existT (inr e : FleetE) r ∈ t -> existT e r ∈ tr.
Proof.
  intros [Hout _] Hin. assert (Hright : existT e r ∈ right_part t) by (apply list_elem_of_omap; by eexists).
  rewrite Hout in Hright. apply list_elem_of_omap in Hright as (ev & Hev & Ho). unfold outside in Ho.
  by destruct (served (projT1 ev)); [|injection Ho as <-].
Qed.
(** A call that left the fleet, as the fleet saw it. *)
Definition from_outside (ev : event ControllerE) : event FleetE := let '(existT e r) := ev in existT (inr e : FleetE) r.
Lemma seen_outside tr t e r : faithful tr t -> served e = false -> existT e r ∈ tr -> existT (inr e : FleetE) r ∈ t.
Proof.
  intros [Hout _] Hs Hin. assert (Hright : existT e r ∈ outside_part tr).
  { apply list_elem_of_omap. exists (existT e r). split; [done|]. unfold outside. cbn [projT1]. by rewrite Hs. }
  rewrite <- Hout in Hright. apply list_elem_of_omap in Hright as ([e' r'] & Hev & Ho).
  destruct e' as [e'|e']; cbn in Ho; [done|].
  apply (f_equal (fun o => match o with Some ev => from_outside ev | None => existT (inr e : FleetE) r end)) in Ho.
  cbn in Ho. by rewrite <- Ho.
Qed.

(** The run of a Sandbox's reconciler, as the controller and as the fleet saw it. *)
Lemma sandbox_run `{!KubeLaws} namespace name s :
  worker_ok (ft_worker s) ->
  always (fleet_run DeepEqual flags b endpoint (ForSandbox namespace name) s) (fun t r => exists tr,
    faithful tr t /\ promise s tr t r.1 /\
    forall ev sb, ev ∈ tr -> gives_up ev sb -> deletion_done namespace name tr sb).
Proof.
  intros Hok. unfold always, fleet_run. cbn [reconcile]. eapply wp_mono.
  - apply (wpg_interpS _ (fun s' tr t => faithful tr t /\ promise s tr t s') cleans_only _
      (fun tr _ => forall ev sb, ev ∈ tr -> gives_up ev sb -> deletion_done namespace name tr sb) s [] []).
    + intros e s' tr t Hc [Hf Hp]. apply wp_conj; [by apply controller_call_faithful|by apply controller_call_promise].
    + apply deletion_run.
    + split; [by split|]. intros _. split; [constructor|]. intros _. split; [done|]. split; [apply all_kept_refl|constructor].
  - cbv beta. intros t [s' r] (tr & [Hf Hp] & Hd). by exists tr.
Qed.

(** The Worker of an assignment, as the API server and the resolver gave it. *)
Definition worker_at (sb : Sandbox) (a : SandboxAssignment) (worker : string) t : Prop :=
  exists pod, from_outside (existT (P := answer) (GetPod (sb_ns sb) (sa_Worker a)) (Ok pod)) ∈ t /\
    PodIPResolver_Endpoint (wrap32 (mg_workerPort flags)) pod = Ok worker.

(** The Sandbox was never assigned a Slot when the run read it. *)
Definition never_assigned namespace name t : Prop :=
  exists sb0, from_outside (existT (P := answer) (GetSandbox namespace name) (Ok sb0)) ∈ t /\
    om_Deleted (sb_Meta sb0) = true /\ ss_Assignment (sb_Status sb0) = None.

Lemma freed_gone s tr t s' n old id :
  worker_ok (ft_worker s') -> all_kept (carried_out_below b t) (ft_worker s) (ft_worker s') -> freed (ft_worker s') n ->
  slot_at (ft_worker s) n old -> ms_runtimeRef old = Some id -> deletion_carried_out b (ms_restored old) id (left_part t).
Proof.
  clear tr. intros Hok Hk (new & Hnew & Hfree) Hold Hid. destruct (Hk n old Hold) as (new' & Hnew' & _ & Hr).
  rewrite (slot_at_unique _ _ _ _ Hnew' Hnew) in Hr. destruct (Hr id Hid) as [[Hheld _]|Hgone]; [|exact Hgone].
  destruct (wo_slots _ Hok n new Hnew) as [Hs _]. destruct (ok_free new Hs Hfree) as (_ & Hnone & _). congruence.
Qed.

(** C3. A deleted Sandbox is cleaned up before its object may go: in a run of its reconciler over the
    real Scheduler and a real Worker - its HTTP client and server, Slot manager and adapter, which
    serve nothing else meanwhile - while everything else answers as it likes, whenever the Sandbox is
    written without its finalizer, the Scheduler has forgotten it; and unless it was read without an
    assignment, its Worker was resolved from its Pod, and if that is the Worker at [endpoint], the
    Slot's number fits an API path and the identity is valid UTF-8, then its Slot there is free and
    the deletion of the runtime this Slot still referred to was carried out below the Worker:
    containerd removed the pod sandbox, or knows none, or listed no container of it; runsc deleted
    every container on the list found for a restored one; for a virtual machine, everything its
    record speaks of was asked to go, if that record could be read - else nothing more is said, nor
    of a runtime the Slot had stopped referring to. *)
Theorem deleted_sandbox_is_cleaned_up `{!KubeLaws} namespace name s :
  reachable DeepEqual (ft_worker s) ->
  always (fleet_run DeepEqual flags b endpoint (ForSandbox namespace name) s) (fun t r =>
    forall sb written, from_outside (existT (P := answer) (UpdateSandbox sb) written) ∈ t ->
      ContainsFinalizer (om_Finalizers (sb_Meta sb)) SandboxFinalizer = false ->
      Scheduler.Get (om_UID (sb_Meta sb)) (ft_scheduler r.1) = None /\
      (never_assigned namespace name t \/
       exists a worker, ss_Assignment (sb_Status sb) = Some a /\ worker_at sb a worker t /\
         (worker = endpoint -> slot_path_ok (sa_SlotID a) -> valid (sandboxIdentity sb) ->
            freed (ft_worker r.1) (sa_SlotID a) /\
            forall old id, slot_at (ft_worker s) (sa_SlotID a) old -> ms_runtimeRef old = Some id ->
              deletion_carried_out b (ms_restored old) id (left_part t)))).
Proof.
  intros Hreach%reachable_ok. eapply wp_mono; [by apply sandbox_run|]. cbv beta. intros t r (tr & Hf & Hp & Hd) sb written Hin Hno.
  destruct (Hd _ sb (outside_seen _ _ _ _ Hf Hin) (conj eq_refl Hno)) as (Hdel & Hrel & s0 & Hhead & Hcase).
  destruct (Hp (or_intror Hdel)) as [Hdrop Hworker]. split.
  { rewrite Forall_forall in Hdrop. apply Hdrop, list_elem_of_omap. by eexists. }
  destruct Hcase as [Hnone|(a & worker & Ha & (pod & Hpod & Hep) & Hrelease & Hasked)].
  - left. exists s0. destruct tr as [|ev tr]; [done|]. cbn in Hhead. injection Hhead as ->.
    split; [eapply seen_outside; [exact Hf|done|by left]|done].
  - right. exists a, worker. split; [done|]. split.
    { exists pod. split; [by eapply seen_outside|]. destruct Hf as [_ Hres]. rewrite Forall_forall in Hres.
      symmetry. exact (Hres _ Hep). }
    intros -> Hslot Hv. destruct Hworker as (Hok & Hk & Hfree).
    { assert (sendable (MReleaseSlot (mkRef (sa_SlotID a) (sandboxIdentity sb)))).
      { split; [done|]. split; [|done]. unfold slot_path_ok, in_int32, int32_min in *. cbn. lia. }
      by rewrite Hasked, !Forall_cons. }
    assert (Hfr : freed (ft_worker r.1) (sa_SlotID a)).
    { rewrite Forall_forall in Hfree. apply (Hfree (mkRef (sa_SlotID a) (sandboxIdentity sb))), list_elem_of_omap.
      eexists. split; [exact Hrelease|]. cbn. by rewrite bool_decide_true. }
    split; [done|]. intros old id. by eapply freed_gone.
Qed.
End Run.
End FleetFacts.
