(* ===== verification/FleetRunning.v ===== *)
(** * Running means running

    A Sandbox that its controller calls Running runs on its Worker: the run that says so ended its
    dealings with the Worker with a start that succeeded, through the HTTP client and server and down
    to the Slot manager, whose Slot runs and is held by this Sandbox. *)

From S2P Require Import Prelude Prog Compose Strings Slot Topology Scheduler Runtime Api WorkerEnv SnapshotStore.
From S2P Require Import Manager ManagerFacts TopologyApply Url Json ApiJson WorkerServer WorkerClient WorkerHttp WorkerProcess WorkerProcessFacts.
From S2P Require Import Cri Host Snapshotters GVisor KataData Vmm Guest Kata WorkerProgram.
From S2P Require Import Kube Controller Workload PoolController SandboxController SnapshotController ControllerManager FleetFacts.

Section FleetRunning.
Context {QA : QuantityApi} {QEq : EqDecision Quantity} {QV : QuantityValues QA} {QP : QuantityParse QA} {KJ : K8sJson QA}.
Context {KA : KubeApi} `{ManifestJson} `{ZstdApi} {HE : HostEnv} {JT : JsonText} {IA : ImageApi} {KL : KataLibs}.
Context (DeepEqual : ResourceRequirements -> ResourceRequirements -> bool).

(** ** A Slot that was started *)

Definition running_for (uid : UID) (s : managedSlot) : Prop := ms_state s = StateRunning /\ id_UID (ms_sandbox s) = uid.

Lemma StartSandbox_runs req s :
  wp (StartSandbox_locked req s) (fun _ r => r.2 = None -> running_for (id_UID (sr_Identity req)) r.1) [].
Proof.
  destruct (decide (id_UID (ms_sandbox s) = id_UID (sr_Identity req))) as [Hown|Hown].
  2: { unfold StartSandbox_locked. by rewrite decide_True. }
  eapply wp_mono; [apply wp_conj; [apply start_success_is_running|apply StartSandbox_sandbox]|].
  intros t r [Hs Hsb] Hr. destruct (Hs Hr) as [Hst _]. split; [done|by rewrite Hsb].
Qed.

Lemma RestoreFromSnapshot_runs snap handler req s :
  wp (RestoreFromSnapshot_locked snap handler req s) (fun _ r => r.2 = None -> running_for (id_UID (rs_Identity req)) r.1) [].
Proof.
  destruct (decide (id_UID (ms_sandbox s) = id_UID (rs_Identity req))) as [Hown|Hown].
  2: { unfold RestoreFromSnapshot_locked. by rewrite decide_True. }
  eapply wp_mono; [apply restore_outcome|]. cbv beta. intros t [s' [err|]] Hr; [done|]. destruct Hr as (Hst & Hsb & _).
  intros _. split; [done|]. cbn in Hsb |- *. by rewrite Hsb.
Qed.

(** ** The Worker that starts *)

(** The Slot [n] runs, for the Sandbox [uid], on a runtime. *)
Definition runs_on (m : SlotManager) (n : Z) (uid : UID) : Prop :=
  exists s, slot_at m n s /\ running_for uid s /\ ms_runtimeRef s <> None.

(** What a start promises of the Slot it names. *)
Definition started_slot (m : SlotManager) (e : ManagerE) : Prop :=
  match e with
  | MStartSandbox req => runs_on m (sr_SlotID req) (id_UID (sr_Identity req))
  | MRestoreFromSnapshot req => runs_on m (rs_SlotID req) (id_UID (rs_Identity req))
  | _ => True
  end.
Definition starts (e : ManagerE) (r : answer e) (m' : SlotManager) : Prop :=
  worker_ok m' /\
  match e as e return answer e -> Prop with
  | MStartSandbox req => fun r => r = None -> started_slot m' (MStartSandbox req)
  | MRestoreFromSnapshot req => fun r => r = None -> started_slot m' (MRestoreFromSnapshot req)
  | _ => fun _ => True
  end r.

Lemma with_slot_runs n uid (f : managedSlot -> prog WorkerE (managedSlot * option error)) m :
  manager_ok m -> (forall s, wp (f s) (fun _ r => r.2 = None -> running_for uid r.1) []) ->
  wp (with_slot Some n f m) (fun _ r => worker_ok r.1 -> r.2 = None -> runs_on r.1 n uid) [].
Proof.
  intros Hm Hf. eapply wp_mono; [apply (with_slot_updates _ _ _ _ Hf)|].
  intros t [m' r] [[-> Hr]|(a & s & s' & Ha & Hs & HP & ->)] Hok Hn; cbn [fst snd] in *; [done|].
  assert (Hat : slot_at (set_slot a s' m) n s') by (apply (set_slot_at m _ a s' Hm Ha); auto).
  exists s'. split; [exact Hat|]. split; [by apply HP|]. destruct (wo_slots _ Hok _ _ Hat) as [Hs' _].
  apply (ok_running _ Hs'). by apply HP.
Qed.

Lemma serve_starts e m : worker_ok m -> wp (serve DeepEqual e m) (fun _ r => starts e r.2 r.1) [].
Proof.
  intros Hm. eapply wp_mono with (Q := fun t r => keeps m t r.1 /\ (worker_ok r.1 -> starts e r.2 r.1)).
  2: { intros t r [[Hok _] Hs]. by apply Hs. }
  apply wp_conj; [by apply serve_keeps|].
  destruct e as [ref|req|ref|ref|ref|req|req|req|req|req|req|req|req content| |configs]; try (eapply wp_mono; [apply wp_true|done]).
  - cbn [serve]. unfold Manager.StartSandbox. apply wp_request; [by intros err|].
    eapply wp_mono; [apply with_slot_runs; [apply Hm|intros s; apply StartSandbox_runs]|]. intros t r Hr Hok. split; [done|by apply Hr].
  - cbn [serve]. unfold Manager.RestoreFromSnapshot. apply wp_request; [by intros err|].
    destruct (_ || _); [by cbn|]. cbv zeta. destruct (_ && _); [by cbn|]. destruct (For _ _) as [snap|err]; [|by cbn].
    eapply wp_mono; [apply with_slot_runs; [apply Hm|intros s; apply RestoreFromSnapshot_runs]|]. intros t r Hr Hok. split; [done|by apply Hr].
Qed.

Lemma start_is_call endpoint req :
  sendable (MStartSandbox req) -> is_call endpoint (WorkerClient.StartSandbox endpoint req) (MStartSandbox req) accepted.
Proof.
  intros [Hid Hv]. eapply wp_mono.
  - apply (remote_slot_success sr_SlotID req endpoint "start" Hv Hid eq_refl (fun q => trigger (MStartSandbox q))
      (fun t a => t = [existT (P := answer) (MStartSandbox req) a])); [by intros []|done].
  - intros t r (a & Ht & Ha). by exists a.
Qed.
Lemma restore_is_call endpoint req :
  sendable (MRestoreFromSnapshot req) ->
  is_call endpoint (WorkerClient.RestoreFromSnapshot endpoint req) (MRestoreFromSnapshot req) accepted.
Proof.
  intros [Hid Hv]. eapply wp_mono.
  - apply (remote_slot_success rs_SlotID req endpoint "restoreFromSnapshot" Hv Hid eq_refl (fun q => trigger (MRestoreFromSnapshot q))
      (fun t a => t = [existT (P := answer) (MRestoreFromSnapshot req) a])); [by intros []|done].
  - intros t r (a & Ht & Ha). by exists a.
Qed.

(** Whatever is asked of it, the Worker stays well formed. *)
Lemma over_http_ok {A} b endpoint (call : string -> prog HttpE A) s t0 :
  worker_ok (ft_worker s) ->
  wp (over_http DeepEqual b endpoint call s) (fun _ r => worker_ok (ft_worker r.1)) t0.
Proof.
  intros Hok. eapply wp_mono; [apply (over_http_serves _ _ _ _ (fun _ r => worker_ok r.1))|].
  - eapply wp_mono; [apply (wpg_interpS _ (fun m _ _ => worker_ok m) (fun _ _ => True) _ (fun _ _ => True) (ft_worker s) [] [])|].
    + intros e m t1 t2 _ Hm. apply wp_frame. eapply wp_mono; [by apply serve_starts|]. by intros t r [? _].
    + apply wp_wpg, wp_true.
    + done.
    + by intros t r (t1 & Hm & _).
  - by intros t r (_ & t1 & Hm & _).
Qed.

Lemma over_http_starts b endpoint call e R s t0 :
  is_call endpoint (call endpoint) e R -> worker_ok (ft_worker s) ->
  wp (over_http DeepEqual b endpoint call s) (fun _ r => exists a, R r.2 a /\ starts e a (ft_worker r.1)) t0.
Proof.
  intros Hp Hm. eapply wp_mono; [apply over_http_serves, (call_serves _ _ _ e R _ (fun _ m' ev =>
      let '(existT e a) := ev in starts e a m') Hp); intros e'; by apply serve_starts|].
  cbv beta. intros t r (_ & t1 & Ha & _). exact Ha.
Qed.

(** ** A run of the Sandbox controller *)

Implicit Types (tr : trace ControllerE).

Definition worker_call (e : ControllerE) : bool :=
  match e with
  | WHealth _ | WListSlots _ | WApplyTopology _ _ | WReserveSlot _ _ | WStartSandbox _ _ | WStopSandbox _ _ | WReleaseSlot _ _
  | WCreateSnapshot _ _ | WRestoreFromSnapshot _ _ | WDeleteSnapshotObjects _ _ => true
  | _ => false
  end.

(** The start that succeeded, when it is the last that was asked of any Worker. *)
Definition note (last : option (string * ManagerE)) (ev : event ControllerE) : option (string * ManagerE) :=
  match ev with
  | existT (WStartSandbox ep req) None => Some (ep, MStartSandbox req)
  | existT (WRestoreFromSnapshot ep req) None => Some (ep, MRestoreFromSnapshot req)
  | existT e _ => if worker_call e then None else last
  end.
Definition last_started tr : option (string * ManagerE) := foldl note None tr.

(** The call that starts [sb] on the Slot of [a]: from its container, or from the snapshot it names,
    which was [seen] to be ready and of its pool. *)
Definition start_of (seen : event ControllerE -> Prop) (sb : Sandbox) (a : SandboxAssignment) (e : ManagerE) : Prop :=
  match e with
  | MStartSandbox req =>
      sp_FromSnapshot (sb_Spec sb) = "" /\
      exists c, sp_Container (sb_Spec sb) = Some c /\ req = mkStart (sa_SlotID a) (sandboxIdentity sb) c
  | MRestoreFromSnapshot req =>
      sp_FromSnapshot (sb_Spec sb) <> "" /\ rs_SlotID req = sa_SlotID a /\ rs_Identity req = sandboxIdentity sb /\
      exists snap pool, seen (existT (P := answer) (GetSnapshot (sb_ns sb) (sp_FromSnapshot (sb_Spec sb))) (Ok snap)) /\
        seen (existT (P := answer) (GetPool (sb_ns sb) (sp_PoolRef (sb_Spec sb))) (Ok pool)) /\
        ns_Phase (sn_Status snap) = SnapshotPhaseReady /\ np_Pool (sn_Spec snap) = sp_PoolRef (sb_Spec sb) /\
        rs_StoragePath req = ns_StoragePath (sn_Status snap) /\
        rs_Runtime req = (if bool_decide (ns_Runtime (sn_Status snap) = "") then poolRuntime pool else ns_Runtime (sn_Status snap))
  | _ => False
  end.

Lemma start_of_seen (seen seen' : event ControllerE -> Prop) sb a e :
  (forall namespace name r, seen (existT (GetSnapshot namespace name) r) -> seen' (existT (GetSnapshot namespace name) r)) ->
  (forall namespace name r, seen (existT (GetPool namespace name) r) -> seen' (existT (GetPool namespace name) r)) ->
  start_of seen sb a e -> start_of seen' sb a e.
Proof.
  intros Hs Hp. destruct e; try done. cbn. intros (? & ? & ? & snap & pool & Hin & Hpool & ?). split_and!; try done. exists snap, pool. auto.
Qed.

(** The calls of Workers in a history, and the successful call that a start is. *)
Definition worker_calls tr : trace ControllerE := omap (fun ev => if worker_call (projT1 ev) then Some ev else None) tr.
Definition start_call (endpoint : string) (e : ManagerE) : option (event ControllerE) :=
  match e with
  | MStartSandbox req => Some (existT (P := answer) (WStartSandbox endpoint req) None)
  | MRestoreFromSnapshot req => Some (existT (P := answer) (WRestoreFromSnapshot endpoint req) None)
  | _ => None
  end.

Lemma worker_calls_snoc tr ev : worker_calls (tr ++ [ev]) = worker_calls tr ++ if worker_call (projT1 ev) then [ev] else [].
Proof. unfold worker_calls. rewrite omap_app. cbn. by destruct (worker_call _). Qed.

Lemma last_started_call tr endpoint e : last_started tr = Some (endpoint, e) -> last (worker_calls tr) = start_call endpoint e.
Proof.
  unfold last_started. induction tr as [|[e0 r0] tr IH] using rev_ind; [done|]. rewrite foldl_app, worker_calls_snoc. cbn [foldl projT1].
  intros Hn. destruct e0; cbn [note worker_call] in *; rewrite ?app_nil_r, ?last_snoc; try done; try (by apply IH).
  all: destruct (r0 : option error); [done|]; by injection Hn as <- <-.
Qed.

(** Why a status says Running: the Sandbox was read so, or was just started. *)
Definition running_explained namespace name tr (sb : Sandbox) : Prop :=
  exists s0, head tr = Some (existT (P := answer) (GetSandbox namespace name) (Ok s0)) /\
    (ss_Phase (sb_Status s0) = SandboxPhaseRunning \/
     exists a endpoint e, ss_Assignment (sb_Status s0) = Some a /\ ss_Assignment (sb_Status sb) = Some a /\
       reached s0 a endpoint tr /\ start_of (.∈ tr) s0 a e /\ last_started tr = Some (endpoint, e)).

Definition says_running (ev : event ControllerE) (sb : Sandbox) : Prop :=
  projT1 ev = UpdateSandboxStatus sb /\ ss_Phase (sb_Status sb) = SandboxPhaseRunning.

(** The events of a concrete history, one by one: only a write of the status is of interest. *)
Ltac status_writes Hin Hev Hf :=
  repeat first [ apply elem_of_app in Hin as [Hin|Hin] | by apply elem_of_nil in Hin | apply list_elem_of_singleton in Hin as -> ];
  cbn in Hev; try discriminate Hev; injection Hev as <-; cbn in Hf; try discriminate Hf.

Lemma running_run namespace name :
  wpg (fun _ _ => True) (SandboxController.Reconcile namespace name)
    (fun t _ => forall ev sb, ev ∈ t -> says_running ev sb -> running_explained namespace name t sb) [].
Proof.
  wpg_auto; try exact I; intros ev sb Hin [Hev Hf]; status_writes Hin Hev Hf.
  all: eexists; (split; [reflexivity|]); first [by left | right].
  all: do 3 eexists; (split; [eassumption|]); (split; [cbn; eassumption|]).
  all: (split; [eexists; split; in_trace|]); apply and_comm; (split; [reflexivity|]).
  all: repeat match goal with
    | H : negb (bool_decide _) = true |- _ => apply negb_true_iff, bool_decide_eq_false in H
    | H : negb (bool_decide _) = false |- _ => apply negb_false_iff, bool_decide_eq_true in H
    end.
  all: split; [done|]; first [by eexists | split_and!; try done; do 2 eexists; split_and!; try reflexivity; first [in_trace|done]].
Qed.

(** ** The run, down to the Slots *)

Section Run.
Context (flags : ManagerFlags) (b : backend) (endpoint : string).
Implicit Types (s : fleet) (t : trace FleetE).

Record started_here tr s : Prop := {
  sh_ok : worker_ok (ft_worker s);
  sh_started : forall e, last_started tr = Some (endpoint, e) -> sendable e -> started_slot (ft_worker s) e;
}.

Lemma last_started_snoc tr ev : last_started (tr ++ [ev]) = note (last_started tr) ev.
Proof. unfold last_started. by rewrite foldl_app. Qed.

(** A call that leaves the Worker alone, and one that does not. *)
Lemma started_elsewhere tr s s' ev :
  started_here tr s -> ft_worker s' = ft_worker s ->
  (forall last e, note last ev = Some (endpoint, e) -> last = Some (endpoint, e)) -> started_here (tr ++ [ev]) s'.
Proof.
  intros [Hok Hs] Hw Hn. split; [by rewrite Hw|]. intros e. rewrite last_started_snoc, Hw. intros He. by apply Hs, Hn.
Qed.
Lemma started_at tr s' ev :
  worker_ok (ft_worker s') ->
  (forall last e, note last ev = Some (endpoint, e) -> sendable e -> started_slot (ft_worker s') e) -> started_here (tr ++ [ev]) s'.
Proof. intros Hok Hn. split; [done|]. intros e. rewrite last_started_snoc. apply Hn. Qed.

(** A start that is made here. *)
Lemma start_here_wp s t call (m : ManagerE) R :
  worker_ok (ft_worker s) -> (sendable m -> is_call endpoint (call endpoint) m R) ->
  wp (over_http DeepEqual b endpoint call s) (fun _ r => worker_ok (ft_worker r.1) /\
    (sendable m -> exists a, R r.2 a /\ starts m a (ft_worker r.1))) t.
Proof.
  intros Hok Hcall. apply wp_conj; [by apply over_http_ok|]. apply wp_imp. intros Hs. apply over_http_starts; [by apply Hcall|done].
Qed.

Ltac start_here m is_call :=
  match goal with Hok : worker_ok (ft_worker ?s) |- wp _ _ ?t =>
    eapply wp_mono; [apply (start_here_wp s t _ m accepted Hok), is_call|]
  end;
  intros t' [s' r] [Hok' Hs]; apply started_at; [done|]; intros last m' Hn Hv; cbn in Hn, Hs;
  destruct (r : option error) as [err|]; [done|]; injection Hn as <-;
  destruct (Hs Hv) as (x & Hx & _ & Hrun); by apply Hrun, Hx.

Lemma controller_call_started e s tr t :
  started_here tr s ->
  wp (controller_call DeepEqual flags b endpoint e s) (fun _ r => started_here (tr ++ [existT e r.2]) r.1) t.
Proof.
  intros Hst. pose proof (sh_ok _ _ Hst) as Hok.
  assert (Hpass : (forall r last m, note last (existT e r) = Some (endpoint, m) -> last = Some (endpoint, m)) ->
      wp (bind (fun r => Ret (s, r)) (trigger (inr e : FleetE))) (fun _ r => started_here (tr ++ [existT e r.2]) r.1) t).
  { intros Hn. unfold trigger. cbn [bind wp]. intros r. eapply started_elsewhere; [exact Hst|done|apply Hn]. }
  destruct e; try (by apply Hpass); cbn [controller_call];
    try (by eapply started_elsewhere; [exact Hst|done|]);
    try (destruct (bool_decide _) eqn:Hb; [apply bool_decide_eq_true in Hb; subst|apply bool_decide_eq_false in Hb; apply Hpass; try done]);
    try (eapply wp_mono; [by apply over_http_ok|]; intros t' r Hr; by apply started_at).
  - start_here (MStartSandbox req) start_is_call.
  - intros r last m Hn. cbn in Hn. by destruct (r : option error); simplify_eq.
  - start_here (MRestoreFromSnapshot req) restore_is_call.
  - intros r last m Hn. cbn in Hn. by destruct (r : option error); simplify_eq.
  - destruct (Assign req (ft_scheduler s)); by eapply started_elsewhere.
Qed.

(** The first thing that the run saw outside. *)
Definition first_seen t : option (event ControllerE) := head (right_part t).

(** A run of a reconciler in the fleet which also gives the calls that the reconciler made. *)
Definition logged_run (r : ReconcileRequest) s : prog FleetE ((fleet * trace ControllerE) * Result) :=
  interpS (logged (controller_call DeepEqual flags b endpoint)) (reconcile flags r) (s, []).

Lemma logged_run_is_fleet_run r s Q :
  always (logged_run r s) (fun t x => Q t (x.1.1, x.2)) <-> always (fleet_run DeepEqual flags b endpoint r s) Q.
Proof. apply wp_logged. Qed.

(** C4. A Sandbox that is called Running runs: in a run of its reconciler over the real Scheduler, and
    over a real Worker through its HTTP client, server and Slot manager, which serve nothing else
    meanwhile - while the API server, the host and the runtimes answer as they like - whenever a status is written that says Running, of a
    Sandbox that was not read as Running, the Sandbox was assigned a Slot of a Worker that was resolved
    from its Pod; the last call that the reconciler made of any Worker was to that Worker, succeeded,
    and was the start of this Sandbox in that Slot from its own container, or its restore there
    from the path of the snapshot that it names, which was read, in this run, as Ready and of the
    Sandbox's pool; and if that is the Worker at [endpoint], and the request has an encoding that the
    server reads back, then at the end of the run that Slot there is Running, is held by this
    Sandbox, and has a runtime. *)
Theorem running_sandbox_runs namespace name s :
  reachable DeepEqual (ft_worker s) ->
  always (logged_run (ForSandbox namespace name) s) (fun t r =>
    let '(s', log, _) := r in
    forall sb written, from_outside (existT (P := answer) (UpdateSandboxStatus sb) written) ∈ t ->
      ss_Phase (sb_Status sb) = SandboxPhaseRunning ->
      exists sb0, first_seen t = Some (existT (P := answer) (GetSandbox namespace name) (Ok sb0)) /\
        (ss_Phase (sb_Status sb0) = SandboxPhaseRunning \/
         exists a worker e start, ss_Assignment (sb_Status sb0) = Some a /\ ss_Assignment (sb_Status sb) = Some a /\
           worker_at flags sb0 a worker t /\ start_of (fun ev => from_outside ev ∈ t) sb0 a e /\
           start_call worker e = Some start /\ last (worker_calls log) = Some start /\
           (worker = endpoint -> sendable e -> runs_on (ft_worker s') (sa_SlotID a) (om_UID (sb_Meta sb0))))).
Proof.
  intros Hreach%reachable_ok. unfold always, logged_run. cbn [reconcile]. eapply wp_mono.
  - apply (wpg_logged _ (fun s' tr t => faithful flags endpoint tr t /\ started_here tr s') (fun _ _ => True) _
      (fun tr _ => forall ev sb, ev ∈ tr -> says_running ev sb -> running_explained namespace name tr sb) s [] []).
    + intros e s' tr t _ [Hf Hs]. apply wp_conj; [by apply controller_call_faithful|by apply controller_call_started].
    + apply running_run.
    + split; [by split|]. by split.
  - cbv beta. intros t [[s' tr] r] [[Hf Hs] Hrun] sb written Hin Hph. cbn [fst snd] in *.
    destruct (Hrun _ sb (outside_seen _ _ _ _ _ _ Hf Hin) (conj eq_refl Hph)) as (s0 & Hhead & Hcase). exists s0. split.
    { destruct tr as [|ev tr]; [done|]. cbn in Hhead. injection Hhead as ->. unfold first_seen. destruct Hf as [-> _]. done. }
    destruct Hcase as [?|(a & worker & e & Ha0 & Ha & (pod & Hpod & Hep) & Hstart & Hlast)]; [by left|right].
    assert (Hcall : exists start, start_call worker e = Some start).
    { destruct e; try done; by eexists. }
    destruct Hcall as [start Hcall]. exists a, worker, e, start. split; [done|]. split; [done|]. split.
    { exists pod. split; [by eapply seen_outside|]. destruct Hf as [_ Hres]. rewrite Forall_forall in Hres.
      symmetry. exact (Hres _ Hep). }
    split. { eapply start_of_seen; [| |exact Hstart]; intros ns n r0; by apply (seen_outside _ _ _ _ _ _ Hf). }
    split; [done|]. split; [by rewrite (last_started_call _ _ _ Hlast)|].
    intros -> Hsend. pose proof (sh_started _ _ Hs e Hlast Hsend) as Hslot. destruct e; try done; cbn in Hstart, Hslot.
    + destruct Hstart as (_ & c & _ & ->). exact Hslot.
    + destruct Hstart as (_ & Hid & Hsb & _). by rewrite <- Hid, Hsb in *.
Qed.
End Run.
End FleetRunning.
