(* ===== verification/FleetRuns.v ===== *)
(** * A Sandbox's life, from its object to its virtual machine

    A concrete fleet: an API server that stores what it is given, the Scheduler, a Worker with one
    Slot, and a host with files and processes. A new Sandbox is reconciled until it runs and again
    after it is deleted; at the end nothing of it is left. *)

From S2P Require Import Prelude Prog Compose Strings Slot Topology Scheduler Runtime Api WorkerEnv SnapshotStore.
From S2P Require Import Manager ManagerFacts TopologyApply Url Json ApiJson WorkerServer WorkerClient WorkerHttp WorkerProcess WorkerProcessFacts.
From S2P Require Import Cri CriFacts Host Snapshotters GVisor KataData Vmm Guest Kata KataHost WorkerProgram.
From S2P Require Import Kube Controller Workload PoolController SandboxController SandboxLiveness SnapshotController ControllerManager FleetFacts FleetRunning.

Module FleetWitness.
#[local] Existing Instance ZQuantity.
#[local] Existing Instances KubeRef.api KubeRef.laws HttpWitness.codecs ApplyWitness.resources_eq_dec CriWitness.values.
#[local] Existing Instances ManagerWitness.json ManagerWitness.zstd.
#[local] Existing Instances HostWitness.env HostWitness.images KataHost.KataHost.text_codec KataHost.KataHost.libs.
#[local] Instance quantity_eq_dec : EqDecision (Quantity (QuantityApi := ZQuantity)) := Z.eq_dec.
#[local] Instance parse_2Gi : QuantityParse ZQuantity := fun _ => 2147483648%Z.

(** ** The world around the fleet *)

Record world := mkWorld {
  w_sandbox : Sandbox;
  w_host : KataHost.KataHost.host;
}.

Definition serve_world (w : world) (e : FleetE) : world * answer e :=
  match e as e return world * answer e with
  | inl (inl (inl e)) => (w, (CriWitness.containerd tt e).2)
  | inl (inl (inr e)) => let '(h, r) := KataHost.KataHost.serve_host (w_host w) e in (mkWorld (w_sandbox w) h, r)
  | inl (inr e) => (w, (ManagerWitness.happy tt e).2)
  | inr e =>
      let r := LivenessWitness.answers (w_sandbox w) e in
      (mkWorld (store (w_sandbox w) (existT e r)) (w_host w), r)
  end.

Definition endpoint : string := "http://10.0.0.1:8090".
Definition kata_flags : Flags := mkFlags "w-0" "team" "pool" "kata" "kata" "".
Definition put : HttpRequest := mkRequest "PUT" "/v1/topology" "" (JsonBody (enc [ApplyWitness.cfg 0 "small"])).
Definition worker : SlotManager :=
  (run ManagerWitness.happy (handle ApplyWitness.same_resources put (initial_manager kata_flags WorkerProcess.Kata)) tt []).2.1.
Definition ready : fleet :=
  mkFleet (UpdateWorker (mkWorkerState (mkWorkerKey "team" "pool" "w-0") true 0 {[0%Z := mkInfo 0 "small" StateFree ""]}) (New mkBinPack)) worker.

Definition reconciled (x : world * fleet) : world * fleet :=
  let '(w, _, (s, _)) := run serve_world (fleet_run ApplyWitness.same_resources default_flags (KataBackend KataHost.KataHost.k) endpoint
    (ForSandbox "team" "box") x.2) x.1 [] in (w, s).

(** ** A life *)

Definition born : world * fleet := (mkWorld LivenessWitness.box KataHost.KataHost.fresh, ready).
Definition running : world * fleet := Nat.iter 3 reconciled born.
(** The user deletes the object: it stays until its finalizer is removed. *)
Definition marked (x : world * fleet) : world * fleet :=
  let sb := w_sandbox x.1 in
  let m := sb_Meta sb in
  (mkWorld (mkSandbox (mkMeta (om_Name m) (om_Namespace m) (om_UID m) (om_Generation m) (om_ResourceVersion m) (om_Finalizers m)
                         true (om_Labels m) (om_Owner m)) (sb_Spec sb) (sb_Status sb)) (w_host x.1), x.2).
Definition ended : world * fleet := reconciled (marked running).

(** The phase, the finalizers, the processes of the host, the Slots of the Worker, and the Slot in the
    Scheduler. *)
Definition observe (x : world * fleet) :=
  (ss_Phase (sb_Status (w_sandbox x.1)), om_Finalizers (sb_Meta (w_sandbox x.1)), fst <$> KataHost.KataHost.h_procs (w_host x.1),
   (fun i => (info_ID i, info_State i, info_SandboxUID i)) <$> Manager.ListSlots (ft_worker x.2),
   as_SlotID <$> Scheduler.Get "uid-b" (ft_scheduler x.2)).

(** A new Sandbox gets its finalizer, a Slot and a machine; when its object is deleted, the machine
    is stopped, the Slot is free, the Scheduler forgets it and the finalizer goes. *)
Example a_life :
  observe born = (SandboxPhaseNone, [], [], [(0%Z, StateFree, "")], None) /\
  observe (reconciled born) = (SandboxPhaseNone, [SandboxFinalizer], [], [(0%Z, StateFree, "")], None) /\
  observe (Nat.iter 2 reconciled born) = (SandboxPhaseStarting, [SandboxFinalizer], [], [(0%Z, StateFree, "")], Some 0%Z) /\
  observe running = (SandboxPhaseRunning, [SandboxFinalizer], [100; 101]%Z, [(0%Z, StateRunning, "uid-b")], Some 0%Z) /\
  observe ended = (SandboxPhaseStopping, [], [], [(0%Z, StateFree, "")], None).
Proof. by vm_compute. Qed.

(** ** The running Worker is one that a Worker's own requests reach *)

Definition worker_says (s : unit) (e : WorkerE) : unit * answer e :=
  (s, match e as e0 return WorkerE_effect e0 with
      | RtCreate _ => Ok (mkID "kata:box-uid-b")
      | e0 => (ManagerWitness.happy tt e0).2
      end).
Definition told (m : SlotManager) (r : HttpRequest) : SlotManager := (run worker_says (handle ApplyWitness.same_resources r m) tt []).2.1.
Definition me : SandboxIdentity := mkIdentity "team" "box" "uid-b".
Definition requests : list HttpRequest :=
  [put; ProcessWitness.post "reserve" (enc (mkRef 0 me)); ProcessWitness.post "start" (enc (mkStart 0 me LivenessWitness.container))].

Lemma requests_reachable rs : reachable ApplyWitness.same_resources (foldl told (initial_manager kata_flags WorkerProcess.Kata) rs).
Proof.
  assert (Hstart : reachable ApplyWitness.same_resources (initial_manager kata_flags WorkerProcess.Kata)).
  { destruct (run_returns (ProcessWitness.host []) (main kata_flags) tt []) as (t & _ & Hret).
    assert (Hs : (run (ProcessWitness.host []) (main kata_flags) tt []).2 = Serving (initial_manager kata_flags WorkerProcess.Kata)) by by vm_compute.
    rewrite Hs in Hret. exact (reachable_started _ _ _ _ Hret). }
  revert Hstart. generalize (initial_manager kata_flags WorkerProcess.Kata). induction rs as [|r rs IH]; intros m Hm; [done|].
  apply IH. unfold told. destruct (run_returns worker_says (handle ApplyWitness.same_resources r m) tt []) as (t & _ & Hret).
  destruct (run _ _ _ _).2 as [m' resp]. by eapply reachable_served.
Qed.

Lemma running_reachable : reachable ApplyWitness.same_resources (ft_worker running.2).
Proof.
  assert (ft_worker running.2 = foldl told (initial_manager kata_flags WorkerProcess.Kata) requests) as -> by by vm_compute.
  apply requests_reachable.
Qed.

(** The state before the run that starts the Sandbox. *)
Definition assigned : world * fleet := Nat.iter 2 reconciled born.

Lemma assigned_reachable : reachable ApplyWitness.same_resources (ft_worker assigned.2).
Proof.
  assert (ft_worker assigned.2 = foldl told (initial_manager kata_flags WorkerProcess.Kata) [put]) as -> by by vm_compute.
  apply requests_reachable.
Qed.

Definition start_run : prog FleetE ((fleet * trace ControllerE) * Result) :=
  logged_run ApplyWitness.same_resources default_flags (KataBackend KataHost.KataHost.k) endpoint (ForSandbox "team" "box") assigned.2.

(** On this fleet, the run writes Running, and the theorem applies to it. *)
Definition start_history : trace FleetE := (run serve_world start_run assigned.1 []).1.2.
Definition written_running (ev : event FleetE) : bool :=
  match ev with
  | existT (inr (UpdateSandboxStatus sb)) _ => bool_decide (ss_Phase (sb_Status sb) = SandboxPhaseRunning)
  | _ => false
  end.

Lemma running_sandbox_runs_witness :
  existsb written_running start_history = true /\
  always start_run (fun t r =>
    let '(s', log, _) := r in
    forall sb written, from_outside (existT (P := answer) (UpdateSandboxStatus sb) written) ∈ t ->
      ss_Phase (sb_Status sb) = SandboxPhaseRunning ->
      exists sb0, first_seen t = Some (existT (P := answer) (GetSandbox "team" "box") (Ok sb0)) /\
        (ss_Phase (sb_Status sb0) = SandboxPhaseRunning \/
         exists a worker e start, ss_Assignment (sb_Status sb0) = Some a /\ ss_Assignment (sb_Status sb) = Some a /\
           worker_at default_flags sb0 a worker t /\ start_of (fun ev => from_outside ev ∈ t) sb0 a e /\
           start_call worker e = Some start /\ last (worker_calls log) = Some start /\
           (worker = endpoint -> sendable e -> runs_on (ft_worker s') (sa_SlotID a) (om_UID (sb_Meta sb0))))).
Proof.
  split; [by vm_compute|].
  exact (running_sandbox_runs ApplyWitness.same_resources default_flags (KataBackend KataHost.KataHost.k) endpoint
    "team" "box" assigned.2 assigned_reachable).
Defined.

(** The run that ends the life. *)
Definition last_run : prog FleetE (fleet * Result) :=
  fleet_run ApplyWitness.same_resources default_flags (KataBackend KataHost.KataHost.k) endpoint (ForSandbox "team" "box") running.2.

Lemma deleted_sandbox_is_cleaned_up_witness :
  always last_run (fun t r =>
    forall sb written, from_outside (existT (P := answer) (UpdateSandbox sb) written) ∈ t ->
      ContainsFinalizer (om_Finalizers (sb_Meta sb)) SandboxFinalizer = false ->
      Scheduler.Get (om_UID (sb_Meta sb)) (ft_scheduler r.1) = None /\
      (never_assigned "team" "box" t \/
       exists a at_, ss_Assignment (sb_Status sb) = Some a /\ worker_at default_flags sb a at_ t /\
         (at_ = endpoint -> slot_path_ok (sa_SlotID a) -> valid (sandboxIdentity sb) ->
            freed (ft_worker r.1) (sa_SlotID a) /\
            forall old id, slot_at (ft_worker running.2) (sa_SlotID a) old -> ms_runtimeRef old = Some id ->
              deletion_carried_out (KataBackend KataHost.KataHost.k) (ms_restored old) id (left_part t)))).
Proof.
  exact (deleted_sandbox_is_cleaned_up ApplyWitness.same_resources default_flags (KataBackend KataHost.KataHost.k) endpoint
    "team" "box" running.2 running_reachable).
Defined.
End FleetWitness.
