(* ===== verification/GoClient.v ===== *)
(** * The Go client (clients/go/sandboxfleet)

    The SDK: creating, reading, awaiting and deleting Sandboxes and snapshots, forking, and open
    sessions to a Worker. The Kubernetes client, the timer and the Worker's HTTP API are effects.
    A loop that polls runs on fuel, one unit per poll; [None] is the run that is still polling. *)

From S2P Require Import Prelude Prog Compose Strings Slot Runtime Scheduler Api Kube Controller.
From S2P Require Import Url Json ApiJson WorkerServer WorkerClient.

(* go: clients/go/sandboxfleet/client.go 22-25 defaultPollInterval *)
Definition defaultPollInterval : Z := 200 * 1000000.
(* go: clients/go/sandboxfleet/client.go 22-25 defaultWorkerPort *)
Definition defaultWorkerPort : Z := 8090.

(** The Kubernetes client - a created object comes back as the server stored it -, the wait of
    one poll, which answers the error of the context when that ends first, and the cleanup of a
    connection. *)
Inductive SdkE :=
  | KGetSandbox (namespace name : string)
  | KCreateSandbox (s : Sandbox)
  | KDeleteSandbox (s : Sandbox)
  | KGetSnapshot (namespace name : string)
  | KCreateSnapshot (s : SandboxSnapshot)
  | KDeleteSnapshot (s : SandboxSnapshot)
  | KGetPod (namespace name : string)
  | Wait (duration : Z)
  | Cleanup.

#[export] Instance SdkE_effect {QA : QuantityApi} : Effect SdkE := fun e =>
  match e with
  | KGetSandbox _ _ | KCreateSandbox _ => result Sandbox
  | KGetSnapshot _ _ | KCreateSnapshot _ => result SandboxSnapshot
  | KDeleteSandbox _ | KDeleteSnapshot _ => option error
  | KGetPod _ _ => result Pod
  | Wait _ => option error
  | Cleanup => unit
  end.

(* go: clients/go/sandboxfleet/client.go CreateOptions *)
Record CreateOptions := mkCreateOptions {
  op_Namespace : string;
  op_Name : string;
  op_PoolRef : string;
  op_SlotProfile : string;
  op_Container : ContainerSpec;
}.

(* go: clients/go/sandboxfleet/client.go ExecOptions *)
Record ExecOptions := mkExecOptions {
  eo_Command : list string;
  eo_Timeout : Z;
}.

(* go: clients/go/sandboxfleet/fork.go SnapshotOptions *)
Record SnapshotOptions := mkSnapshotOptions {
  so_Namespace : string;
  so_Name : string;
  so_SourceSandbox : string;
  so_Pool : string;
}.

(* go: clients/go/sandboxfleet/fork.go ForkOptions *)
Record ForkOptions := mkForkOptions {
  fk_ParentNamespace : string;
  fk_ParentName : string;
  fk_Count : Z;
  fk_ChildNames : list string;
  fk_SnapshotName : string;
  fk_SlotProfile : string;
}.

(* go: clients/go/sandboxfleet/fork.go ForkResult *)
Record ForkResult := mkForkResult {
  fr_Snapshot : SandboxSnapshot;
  fr_Children : list Sandbox;
}.

(* go: clients/go/sandboxfleet/client.go SandboxFailedError.Error *)
Definition SandboxFailedError (namespace name message : string) : error :=
  Plain ("Sandbox " +:+ namespace +:+ "/" +:+ name +:+ " failed: " +:+ message).

Definition phase_string (p : SandboxPhase) : string :=
  match p with
  | SandboxPhaseNone => ""
  | SandboxPhasePending => "Pending"
  | SandboxPhaseStarting => "Starting"
  | SandboxPhaseRunning => "Running"
  | SandboxPhaseStopping => "Stopping"
  | SandboxPhaseFailed => "Failed"
  end.

Definition named (namespace name : string) : ObjectMeta := mkMeta name namespace "" 0 "" [] false ∅ None.
Definition new_sandbox_status : SandboxStatus := mkSandboxStatus 0 SandboxPhaseNone None [].
Definition new_snapshot_status : SnapshotStatus := mkSnapshotStatus 0 SnapshotPhaseNone "" [] "" "" 0 "" "" [].

(** ** Polling *)

Section Polling.
Context {QA : QuantityApi}.

(** The loop of every Wait function: check, and unless that decides, wait and check again. *)
Fixpoint poll {A} (fuel : nat) (interval : Z) (check : prog SdkE (option (result A))) : prog SdkE (option (result A)) :=
  match fuel with
  | O => Ret None
  | S fuel =>
      call! decided := check in
      match decided with
      | Some r => Ret (Some r)
      | None =>
          call! ended := trigger (Wait interval) in
          match ended : option error with
          | Some err => Ret (Some (Err err))
          | None => poll fuel interval check
          end
      end
  end.

End Polling.

(** Go on with what a loop gave; [None] stays [None]. *)
Definition then_ {E A B} `{!Effect E} (p : prog E (option (result A))) (k : A -> prog E (option (result B)))
    : prog E (option (result B)) :=
  bind (fun r => match r with
                 | None => Ret None
                 | Some (Err err) => Ret (Some (Err err))
                 | Some (Ok a) => k a
                 end) p.
Definition finishes {E A} `{!Effect E} (p : prog E (result A)) : prog E (option (result A)) :=
  bind (fun r => Ret (Some r)) p.

Section Client.
Context {QA : QuantityApi} {KA : KubeApi} (pollInterval : Z).

(* go: clients/go/sandboxfleet/client.go sdkClient.GetSandbox *)
Definition Client_GetSandbox (namespace name : string) : prog SdkE (result Sandbox) :=
  trigger (KGetSandbox namespace name).

(* go: clients/go/sandboxfleet/client.go sdkClient.CreateSandbox *)
Definition Client_CreateSandbox (opts : CreateOptions) : prog SdkE (result Sandbox) :=
  if bool_decide (op_Namespace opts = "") || bool_decide (op_Name opts = "") || bool_decide (op_PoolRef opts = "") ||
     bool_decide (op_SlotProfile opts = "") || bool_decide (cs_Image (op_Container opts) = "") then
    Ret (Err (Plain "namespace, name, poolRef, slotProfile, and container image are required"))
  else
    trigger (KCreateSandbox (mkSandbox (named (op_Namespace opts) (op_Name opts))
      (mkSandboxSpec (op_PoolRef opts) (op_SlotProfile opts) (Some (op_Container opts)) "") new_sandbox_status)).

(* go: clients/go/sandboxfleet/client.go conditionMessage *)
Definition conditionMessage (conditions : list Condition) : string :=
  match FindStatusCondition conditions ConditionReady with
  | Some ready => if bool_decide (cn_Message ready = "") then "the controller could not make progress" else cn_Message ready
  | None => "the controller could not make progress"
  end.

(** What one poll makes of the Sandbox it read. *)
(* go: clients/go/sandboxfleet/client.go 164-175 sdkClient.WaitSandboxReady *)
Definition sandbox_decided (namespace name : string) (sandbox : Sandbox) : option (result Sandbox) :=
  let status := sb_Status sandbox in
  if bool_decide (ss_Phase status = SandboxPhaseFailed) then
    Some (Err (SandboxFailedError namespace name (conditionMessage (ss_Conditions status))))
  else
    match FindStatusCondition (ss_Conditions status) ConditionReady with
    | None => None
    | Some ready =>
        if bool_decide (cn_Status ready = ConditionTrue) then Some (Ok sandbox)
        else if bool_decide (cn_Status ready = ConditionFalse) &&
                (bool_decide (cn_Reason ready = "RestoreFailed") || bool_decide (cn_Reason ready = "StartFailed") ||
                 bool_decide (cn_Reason ready = "InvalidSpec")) then
          Some (Err (SandboxFailedError namespace name (cn_Message ready)))
        else None
    end.

(* go: clients/go/sandboxfleet/client.go sdkClient.WaitSandboxReady *)
Definition WaitSandboxReady (fuel : nat) (namespace name : string) : prog SdkE (option (result Sandbox)) :=
  poll fuel pollInterval
    (call! read := Client_GetSandbox namespace name in
     Ret (match read : result Sandbox with
          | Err err => Some (Err err)
          | Ok sandbox => sandbox_decided namespace name sandbox
          end)).

(* go: clients/go/sandboxfleet/client.go sdkClient.DeleteSandbox *)
Definition DeleteSandbox (namespace name : string) : prog SdkE (option error) :=
  call! read := Client_GetSandbox namespace name in
  match read : result Sandbox return prog SdkE (option error) with
  | Err err => Ret (if IsNotFound err then None else Some err)
  | Ok sandbox => trigger (KDeleteSandbox sandbox)
  end.

(** A poll that waits for an object to be gone. *)
Definition gone {A} (read : result A) : option (result unit) :=
  match read with
  | Ok _ => None
  | Err err => if IsNotFound err then Some (Ok tt) else Some (Err err)
  end.

(* go: clients/go/sandboxfleet/client.go sdkClient.WaitSandboxDeleted *)
Definition WaitSandboxDeleted (fuel : nat) (namespace name : string) : prog SdkE (option (result unit)) :=
  poll fuel pollInterval (call! read := Client_GetSandbox namespace name in Ret (gone (read : result Sandbox))).

(** ** Snapshots and forks *)

(* go: clients/go/sandboxfleet/fork.go sdkClient.CreateSnapshot *)
Definition Client_CreateSnapshot (opts : SnapshotOptions) : prog SdkE (result SandboxSnapshot) :=
  if bool_decide (so_Namespace opts = "") || bool_decide (so_SourceSandbox opts = "") || bool_decide (so_Pool opts = "") then
    Ret (Err (Plain "namespace, sourceSandbox, and pool are required"))
  else
    let! name := (if bool_decide (so_Name opts = "") then
                    let! parent := Client_GetSandbox (so_Namespace opts) (so_SourceSandbox opts) in
                    Ret (Ok (so_SourceSandbox opts +:+ "-snap-" +:+ take_bytes 8 (om_UID (sb_Meta parent))))
                  else Ret (Ok (so_Name opts))) in
    trigger (KCreateSnapshot (mkSnapshot (named (so_Namespace opts) name)
      (mkSnapshotSpec (so_SourceSandbox opts) (so_Pool opts)) new_snapshot_status)).

(* go: clients/go/sandboxfleet/fork.go sdkClient.GetSnapshot *)
Definition Client_GetSnapshot (namespace name : string) : prog SdkE (result SandboxSnapshot) :=
  trigger (KGetSnapshot namespace name).

(* go: clients/go/sandboxfleet/fork.go 88-95 sdkClient.WaitSnapshotReady *)
Definition snapshot_decided (namespace name : string) (snap : SandboxSnapshot) : option (result SandboxSnapshot) :=
  let status := sn_Status snap in
  if bool_decide (ns_Phase status = SnapshotPhaseFailed) then
    Some (Err (Plain ("SandboxSnapshot " +:+ namespace +:+ "/" +:+ name +:+ " failed: " +:+ ns_Message status)))
  else if bool_decide (ns_Phase status = SnapshotPhaseReady) && conditionTrue (ns_Conditions status) ConditionReady then
    Some (Ok snap)
  else None.

(* go: clients/go/sandboxfleet/fork.go sdkClient.WaitSnapshotReady *)
Definition WaitSnapshotReady (fuel : nat) (namespace name : string) : prog SdkE (option (result SandboxSnapshot)) :=
  poll fuel pollInterval
    (call! read := Client_GetSnapshot namespace name in
     Ret (match read : result SandboxSnapshot with
          | Err err => Some (Err err)
          | Ok snap => snapshot_decided namespace name snap
          end)).

(* go: clients/go/sandboxfleet/fork.go sdkClient.DeleteSnapshot *)
Definition DeleteSnapshot (namespace name : string) : prog SdkE (option error) :=
  call! read := Client_GetSnapshot namespace name in
  match read : result SandboxSnapshot return prog SdkE (option error) with
  | Err err => Ret (if IsNotFound err then None else Some err)
  | Ok snap => trigger (KDeleteSnapshot snap)
  end.

(* go: clients/go/sandboxfleet/fork.go sdkClient.WaitSnapshotDeleted *)
Definition WaitSnapshotDeleted (fuel : nat) (namespace name : string) : prog SdkE (option (result unit)) :=
  poll fuel pollInterval (call! read := Client_GetSnapshot namespace name in Ret (gone (read : result SandboxSnapshot))).

(** The child restores from the snapshot: it has no container of its own. *)
(* go: clients/go/sandboxfleet/fork.go sdkClient.CreateSandboxFromSnapshot *)
Definition CreateSandboxFromSnapshot (opts : CreateOptions) (snapshotName : string) : prog SdkE (result Sandbox) :=
  if bool_decide (op_Namespace opts = "") || bool_decide (op_Name opts = "") || bool_decide (op_PoolRef opts = "") ||
     bool_decide (op_SlotProfile opts = "") || bool_decide (snapshotName = "") then
    Ret (Err (Plain "namespace, name, poolRef, slotProfile, and snapshotName are required"))
  else
    trigger (KCreateSandbox (mkSandbox (named (op_Namespace opts) (op_Name opts))
      (mkSandboxSpec (op_PoolRef opts) (op_SlotProfile opts) None snapshotName) new_sandbox_status)).

(** The names asked for, or numbered ones. *)
(* go: clients/go/sandboxfleet/fork.go 179-185 sdkClient.Fork *)
Definition child_names (opts : ForkOptions) : list string :=
  match fk_ChildNames opts with
  | [] => (fun i => fk_ParentName opts +:+ "-fork-" +:+ itoa (Z.of_nat i)) <$> seq 0 (Z.to_nat (fk_Count opts))
  | names => names
  end.

(* go: clients/go/sandboxfleet/fork.go 190-202 sdkClient.Fork *)
Fixpoint create_children (opts : ForkOptions) (poolRef slotProfile snapshot : string) (names : list string)
    : prog SdkE (result (list Sandbox)) :=
  match names with
  | [] => Ret (Ok [])
  | name :: rest =>
      let! child := CreateSandboxFromSnapshot
        (mkCreateOptions (fk_ParentNamespace opts) name poolRef slotProfile no_container) snapshot in
      let! children := create_children opts poolRef slotProfile snapshot rest in
      Ret (Ok (child :: children))
  end.

(* go: clients/go/sandboxfleet/fork.go sdkClient.Fork *)
Definition Fork (fuel : nat) (opts : ForkOptions) : prog SdkE (option (result ForkResult)) :=
  if bool_decide (fk_ParentNamespace opts = "") || bool_decide (fk_ParentName opts = "") || (fk_Count opts <? 1)%Z then
    Ret (Some (Err (Plain "parentNamespace, parentName, and count>=1 are required")))
  else
    then_ (WaitSandboxReady fuel (fk_ParentNamespace opts) (fk_ParentName opts)) (fun parent =>
    let slotProfile := if bool_decide (fk_SlotProfile opts = "") then sp_SlotProfile (sb_Spec parent) else fk_SlotProfile opts in
    then_ (finishes (Client_CreateSnapshot (mkSnapshotOptions (fk_ParentNamespace opts) (fk_SnapshotName opts)
             (fk_ParentName opts) (sp_PoolRef (sb_Spec parent))))) (fun snap =>
    then_ (WaitSnapshotReady fuel (om_Namespace (sn_Meta snap)) (om_Name (sn_Meta snap))) (fun snap =>
    let names := child_names opts in
    if negb (Z.of_nat (length names) =? fk_Count opts)%Z then Ret (Some (Err (Plain "childNames length must equal count")))
    else
      then_ (finishes (create_children opts (sp_PoolRef (sb_Spec parent)) slotProfile (om_Name (sn_Meta snap)) names))
        (fun children => Ret (Some (Ok (mkForkResult snap children))))))).
End Client.

(** ** Sessions *)

(** How the SDK reaches a Worker; [directPodIPReachability] is the default. *)
(* go: clients/go/sandboxfleet/reachability.go WorkerReachability *)
Class WorkerReachability {QA : QuantityApi} := ReachWorker : string -> string -> Z -> prog SdkE (result string).

(* go: clients/go/sandboxfleet/reachability.go directPodIPReachability.ReachWorker *)
Definition directPodIPReachability {QA : QuantityApi} : WorkerReachability := fun namespace workerName port =>
  let! pod := on_error (wrap_prefix ("get Worker Pod " +:+ quote workerName)) (trigger (KGetPod namespace workerName)) in
  if bool_decide (pod_IP pod = "") then Ret (Err (Plain ("Worker Pod " +:+ quote workerName +:+ " has no IP")))
  else Ret (Ok ("http://" +:+ JoinHostPort (pod_IP pod) (itoa port))).

(** An open session; [se_cleanup] says that its cleanup has not run. *)
(* go: clients/go/sandboxfleet/sandbox.go Sandbox *)
Record Session := mkSession {
  se_object : Sandbox;
  se_endpoint : string;
  se_cleanup : bool;
}.

Section Session.
Context {QA : QuantityApi} {KJ : K8sJson QA} {KA : KubeApi} {WR : WorkerReachability (QA := QA)}.
Context (pollInterval : Z) (workerPort : Z).

(* go: clients/go/sandboxfleet/sandbox.go sdkClient.OpenSandbox *)
Definition OpenSandbox (namespace name : string) : prog SdkE (result Session) :=
  let! sandbox := Client_GetSandbox namespace name in
  let prefix := "Sandbox " +:+ namespace +:+ "/" +:+ name in
  match ss_Assignment (sb_Status sandbox) with
  | None => Ret (Err (Plain (prefix +:+ " has no assignment")))
  | Some assignment =>
      if negb (bool_decide (ss_Phase (sb_Status sandbox) = SandboxPhaseRunning)) then
        Ret (Err (Plain (prefix +:+ " is not Running (phase=" +:+ phase_string (ss_Phase (sb_Status sandbox)) +:+ ")")))
      else
        let! endpoint := ReachWorker (om_Namespace (sb_Meta sandbox)) (sa_Worker assignment) workerPort in
        Ret (Ok (mkSession sandbox endpoint true))
  end.

(* go: clients/go/sandboxfleet/sandbox.go sdkClient.OpenSandboxReady *)
Definition OpenSandboxReady (fuel : nat) (namespace name : string) : prog SdkE (option (result Session)) :=
  then_ (WaitSandboxReady pollInterval fuel namespace name) (fun _ => finishes (OpenSandbox namespace name)).

(** The session after [Close]; a nil session stays nil. *)
(* go: clients/go/sandboxfleet/sandbox.go Sandbox.Close *)
Definition Close (s : option Session) : prog SdkE (option Session) :=
  match s with
  | None => Ret None
  | Some s =>
      if se_cleanup s then call! _ := trigger Cleanup in Ret (Some (mkSession (se_object s) (se_endpoint s) false))
      else Ret (Some s)
  end.

(** The Slot of the session's object: reading through a nil assignment panics, which [OpenSandbox]
    excludes. *)
Definition session_slot (s : Session) : option Z := sa_SlotID <$> ss_Assignment (sb_Status (se_object s)).
Definition panic : error := Plain "invalid memory address or nil pointer dereference".
Definition session_closed : error := Plain "sandbox session is closed".

(** What the methods of a session share: the check that there is one - [client] is set in every
    session [OpenSandbox] makes - and the Slot. *)
Definition on_session {A} (s : option Session) (inj : error -> A) (k : Session -> Z -> prog HttpE A) : prog HttpE A :=
  match s with
  | None => Ret (inj session_closed)
  | Some s => match session_slot s with
              | None => Ret (inj panic)
              | Some slotID => k s slotID
              end
  end.

(** A fractional second of the timeout is dropped. *)
(* go: clients/go/sandboxfleet/sandbox.go Sandbox.Exec *)
Definition Session_Exec (s : option Session) (opts : ExecOptions) : prog HttpE (result ExecResult) :=
  match s with
  | None => Ret (Err session_closed)
  | Some _ =>
      if bool_decide (eo_Command opts = []) then Ret (Err (Plain "command is required"))
      else
        on_session s Err (fun s slotID =>
          on_error (wrap_prefix "exec on Worker")
            (ExecSandbox (se_endpoint s) (mkExecSandbox slotID (sandboxIdentity (se_object s)) (eo_Command opts)
               (if (0 <? eo_Timeout opts)%Z then Z.quot (eo_Timeout opts) Second else 0))))
  end.

Definition file_request (s : Session) (slotID : Z) (path : string) : SandboxFileRequest :=
  mkFileRequest slotID (sandboxIdentity (se_object s)) path.

(* go: clients/go/sandboxfleet/sandbox.go Sandbox.WriteSandboxFile *)
Definition Session_WriteSandboxFile (s : option Session) (path content : string) : prog HttpE (option error) :=
  on_session s Some (fun s slotID =>
    on_failure (wrap_prefix "write on Worker") (WriteSandboxFile (se_endpoint s) (file_request s slotID path) content)).

(* go: clients/go/sandboxfleet/sandbox.go Sandbox.ReadSandboxFile *)
Definition Session_ReadSandboxFile (s : option Session) (path : string) : prog HttpE (result string) :=
  on_session s Err (fun s slotID =>
    on_error (wrap_prefix "read on Worker") (ReadSandboxFile (se_endpoint s) (file_request s slotID path))).

(* go: clients/go/sandboxfleet/sandbox.go Sandbox.ListSandboxFiles *)
Definition Session_ListSandboxFiles (s : option Session) (path : string) : prog HttpE (result (list FileEntry)) :=
  on_session s Err (fun s slotID =>
    on_error (wrap_prefix "list on Worker") (ListSandboxFiles (se_endpoint s) (file_request s slotID path))).

(* go: clients/go/sandboxfleet/sandbox.go Sandbox.ExistsSandboxFile *)
Definition Session_ExistsSandboxFile (s : option Session) (path : string) : prog HttpE (result bool) :=
  on_session s Err (fun s slotID =>
    on_error (wrap_prefix "exists on Worker") (ExistsSandboxFile (se_endpoint s) (file_request s slotID path))).
End Session.
