(* ===== verification/GoClientFacts.v ===== *)
(** * Correctness of the Go client

    Polling ends as soon as the context does; a fork creates the children asked for, from the
    snapshot that it created and read as ready; a session is about a running Sandbox. *)

From S2P Require Import Prelude Prog Compose Strings Slot Runtime Scheduler Api Kube Controller SandboxController SandboxLiveness.
From S2P Require Import Url Json ApiJson WorkerServer WorkerClient WorkerHttp GoClient.

Section ClientFacts.
Context {QA : QuantityApi} {KA : KubeApi} (pollInterval : Z).

(** ** Polling *)

(** The waits that ran to their end. *)
Definition waited (ev : event SdkE) : option unit :=
  match ev with existT (Wait _) None => Some tt | _ => None end.
Definition waits (t : trace SdkE) : nat := length (omap waited t).

Lemma waits_app t1 t2 : waits (t1 ++ t2) = waits t1 + waits t2.
Proof. unfold waits. by rewrite omap_app, length_app. Qed.

(** A check that waits for nothing. *)
Definition instant {A} (check : prog SdkE A) : Prop := forall tr, wp check (fun t _ => waits t = waits tr) tr.

Lemma poll_waits {A} fuel (check : prog SdkE (option (result A))) tr :
  instant check ->
  wp (poll fuel pollInterval check) (fun t r =>
    waits t <= waits tr + fuel /\ (r = None -> waits t = waits tr + fuel)) tr.
Proof.
  intros Hc. revert tr. induction fuel as [|n IH]; intros tr; cbn [poll]; [cbn; lia|].
  apply wp_bind. eapply wp_mono; [apply Hc|]. intros t [r|] Ht; [cbn; split; [lia|done]|].
  apply wp_bind. unfold trigger. cbn [wp]. intros [err|].
  - cbn [wp]. rewrite waits_app. cbn. split; [lia|done].
  - eapply wp_mono; [apply IH|]. intros t' r. rewrite waits_app. cbn. intros [Hle Heq]. split; [lia|]. intros Hr. specialize (Heq Hr). lia.
Qed.

(** The rule of a poll: [J] holds until the check decides, [Q] of what it gives. *)
Lemma poll_rule {A} G (J : trace SdkE -> Prop) (Q : trace SdkE -> result A -> Prop) fuel (check : prog SdkE (option (result A))) tr :
  (forall t, J t -> wpg G check (fun t' r => match r with None => J t' | Some x => Q t' x end) t) ->
  (forall t, J t -> G t (Wait pollInterval)) ->
  (forall t (ended : option error), J t -> J (t ++ [existT (P := answer) (Wait pollInterval) ended])) ->
  (forall t err, J t -> Q t (Err err)) -> J tr ->
  wpg G (poll fuel pollInterval check) (fun t r => match r with None => J t | Some x => Q t x end) tr.
Proof.
  intros Hc Hg Hw Hq. revert tr. induction fuel as [|n IH]; intros tr Hj; cbn [poll]; [done|].
  apply wpg_bind. eapply wpg_mono; [by apply Hc|]. intros t [x|] Ht; [done|].
  apply wpg_bind. unfold trigger. apply wpg_call; [by apply Hg|]. intros [err|]; [apply Hq|apply IH]; by apply Hw.
Qed.

(** C37. Waiting ends. Whatever the API server answers, a wait polls at most [fuel] times, and is
    still undecided only when the context let [fuel] waits run to their end: with a context that
    ends within [n] polls, [n + 1] units of fuel always give a result - for Sandboxes and
    snapshots, to be ready or to be gone. *)
Theorem waiting_ends fuel namespace name :
  let ends {A} (p : prog SdkE (option A)) :=
    always p (fun t r => waits t <= fuel /\ (r = None -> waits t = fuel)) in
  ends (WaitSandboxReady pollInterval fuel namespace name) /\
  ends (WaitSandboxDeleted pollInterval fuel namespace name) /\
  ends (WaitSnapshotReady pollInterval fuel namespace name) /\
  ends (WaitSnapshotDeleted pollInterval fuel namespace name).
Proof.
  cbv zeta. unfold always.
  split_and!; (eapply wp_mono; [apply poll_waits|by intros t r; rewrite ?Nat.add_0_l]);
    intros tr; apply wp_bind; unfold Client_GetSandbox, Client_GetSnapshot, trigger; cbn [wp]; intros r;
    rewrite waits_app; cbn; lia.
Qed.

(** ** Forks *)

Definition child_asked (ev : event SdkE) : option Sandbox :=
  match ev with existT (KCreateSandbox s) _ => Some s | _ => None end.
Definition snapshot_asked (ev : event SdkE) : option SandboxSnapshot :=
  match ev with existT (KCreateSnapshot s) _ => Some s | _ => None end.
(** The Sandboxes and snapshots the API server was asked to create. *)
Definition children_asked (t : trace SdkE) : list Sandbox := omap child_asked t.
Definition snapshots_asked (t : trace SdkE) : list SandboxSnapshot := omap snapshot_asked t.
Definition created (t : trace SdkE) : list Sandbox * list SandboxSnapshot := (children_asked t, snapshots_asked t).

Lemma created_step t ev :
  created (t ++ [ev]) = (children_asked t ++ omap child_asked [ev], snapshots_asked t ++ omap snapshot_asked [ev]).
Proof. unfold created, children_asked, snapshots_asked. by rewrite !omap_app. Qed.
Lemma created_quiet t ev : child_asked ev = None -> snapshot_asked ev = None -> created (t ++ [ev]) = created t.
Proof. intros Hc Hs. rewrite created_step. cbn [omap list_omap]. by rewrite Hc, Hs, !app_nil_r. Qed.

(** Ready, as the waits read it. *)
Definition is_ready (snap : SandboxSnapshot) : Prop :=
  ns_Phase (sn_Status snap) = SnapshotPhaseReady /\ conditionTrue (ns_Conditions (sn_Status snap)) ConditionReady = true.
Definition runs (sandbox : Sandbox) : Prop :=
  ss_Phase (sb_Status sandbox) <> SandboxPhaseFailed /\ conditionTrue (ss_Conditions (sb_Status sandbox)) ConditionReady = true.

Lemma snapshot_decided_ready namespace name snap snap' :
  snapshot_decided namespace name snap = Some (Ok snap') -> snap' = snap /\ is_ready snap.
Proof.
  unfold snapshot_decided. case_bool_decide; [done|].
  destruct (_ && _) eqn:Hr; [|done]. apply andb_true_iff in Hr as [Hp Hc]. apply bool_decide_eq_true in Hp.
  by intros [= <-].
Qed.
Lemma sandbox_decided_runs namespace name sandbox sandbox' :
  sandbox_decided namespace name sandbox = Some (Ok sandbox') -> sandbox' = sandbox /\ runs sandbox.
Proof.
  unfold sandbox_decided, runs, conditionTrue. case_bool_decide; [done|]. destruct (FindStatusCondition _ _) as [c|]; [|done].
  destruct (bool_decide (cn_Status c = ConditionTrue)); [by intros [= <-]|]. by destruct (_ && _).
Qed.

(** The parent as it was read, running. *)
Definition parent_read (opts : ForkOptions) (parent : Sandbox) (t : trace SdkE) : Prop :=
  existT (P := answer) (KGetSandbox (fk_ParentNamespace opts) (fk_ParentName opts)) (Ok parent) ∈ t /\ runs parent.

(** The name of the snapshot: the one asked for, or made from the UID of the parent. *)
Definition names_snapshot (opts : ForkOptions) (name : string) (t : trace SdkE) : Prop :=
  (fk_SnapshotName opts <> "" /\ name = fk_SnapshotName opts) \/
  (fk_SnapshotName opts = "" /\ exists parent,
     existT (P := answer) (KGetSandbox (fk_ParentNamespace opts) (fk_ParentName opts)) (Ok parent) ∈ t /\
     name = fk_ParentName opts +:+ "-snap-" +:+ take_bytes 8 (om_UID (sb_Meta parent))).
Definition snapshot_of (opts : ForkOptions) (parent : Sandbox) (name : string) : SandboxSnapshot :=
  mkSnapshot (named (fk_ParentNamespace opts) name) (mkSnapshotSpec (fk_ParentName opts) (sp_PoolRef (sb_Spec parent))) new_snapshot_status.

(** The snapshot that the API server made of the parent, and then, read back under the name and the
    namespace that it was made with, showed as Ready. *)
Definition snapshot_made (opts : ForkOptions) (parent : Sandbox) (made : SandboxSnapshot) (t : trace SdkE) : Prop :=
  exists name, names_snapshot opts name t /\ snapshots_asked t = [snapshot_of opts parent name] /\
    existT (P := answer) (KCreateSnapshot (snapshot_of opts parent name)) (Ok made) ∈ t.
Definition snapshot_shown (made ready : SandboxSnapshot) (t : trace SdkE) : Prop :=
  is_ready ready /\ exists asked before after, t = before ++ after /\
    existT (P := answer) (KCreateSnapshot asked) (Ok made) ∈ before /\
    existT (P := answer) (KGetSnapshot (om_Namespace (sn_Meta made)) (om_Name (sn_Meta made))) (Ok ready) ∈ after.

(** The children of a fork, in the order of their names. *)
Definition fork_profile (opts : ForkOptions) (parent : Sandbox) : string :=
  if bool_decide (fk_SlotProfile opts = "") then sp_SlotProfile (sb_Spec parent) else fk_SlotProfile opts.
Definition fork_child (opts : ForkOptions) (parent : Sandbox) (ready : SandboxSnapshot) (name : string) : Sandbox :=
  mkSandbox (named (fk_ParentNamespace opts) name)
    (mkSandboxSpec (sp_PoolRef (sb_Spec parent)) (fork_profile opts parent) None (om_Name (sn_Meta ready))) new_sandbox_status.
Definition fork_children (opts : ForkOptions) (parent : Sandbox) (ready : SandboxSnapshot) : list Sandbox :=
  fork_child opts parent ready <$> child_names opts.

(** The point from which children may be asked for. *)
Definition can_fork (opts : ForkOptions) (parent : Sandbox) (ready : SandboxSnapshot) (t : trace SdkE) : Prop :=
  parent_read opts parent t /\ Z.of_nat (length (child_names opts)) = fk_Count opts /\
  exists made, snapshot_made opts parent made t /\ snapshot_shown made ready t.

(** What a fork may ask for, and when. *)
Definition forks (opts : ForkOptions) (t : trace SdkE) (e : SdkE) : Prop :=
  match e with
  | KCreateSnapshot snap => created t = ([], []) /\ exists parent name,
      parent_read opts parent t /\ names_snapshot opts name t /\ snap = snapshot_of opts parent name
  | KCreateSandbox child => exists parent ready,
      can_fork opts parent ready t /\ children_asked t ++ [child] `prefix_of` fork_children opts parent ready
  | KDeleteSandbox _ | KDeleteSnapshot _ => False
  | _ => True
  end.

(** The objects that the API server answered with. *)
Definition answered (t : trace SdkE) (child asked : Sandbox) : Prop := existT (P := answer) (KCreateSandbox asked) (Ok child) ∈ t.

Definition forked (opts : ForkOptions) (t : trace SdkE) (r : option (result ForkResult)) : Prop :=
  forall res, r = Some (Ok res) -> exists parent,
    can_fork opts parent (fr_Snapshot res) t /\ children_asked t = fork_children opts parent (fr_Snapshot res) /\
    Forall2 (answered t) (fr_Children res) (children_asked t).

(** *** The facts outlive the calls that follow *)

Lemma in_longer (t : trace SdkE) s ev : ev ∈ t -> ev ∈ t ++ s.
Proof. intros. apply elem_of_app. by left. Qed.
Lemma in_last (t : trace SdkE) ev : ev ∈ t ++ [ev].
Proof. apply elem_of_app. right. left. Qed.
#[local] Hint Resolve in_longer in_last : core.

Lemma parent_read_longer opts parent t s : parent_read opts parent t -> parent_read opts parent (t ++ s).
Proof. intros []. split; auto. Qed.
Lemma names_snapshot_longer opts name t s : names_snapshot opts name t -> names_snapshot opts name (t ++ s).
Proof. intros [?|(? & parent & ? & ?)]; [by left|right]. split; [done|]. exists parent. auto. Qed.
#[local] Hint Resolve parent_read_longer names_snapshot_longer : core.
Lemma snapshot_made_longer opts parent made t s :
  omap snapshot_asked s = [] -> snapshot_made opts parent made t -> snapshot_made opts parent made (t ++ s).
Proof.
  intros Hs (name & Hn & Ha & Hin). exists name. split; [auto|]. split; [|auto]. unfold snapshots_asked in *. by rewrite omap_app, Ha, Hs.
Qed.
Lemma snapshot_shown_longer made ready t s : snapshot_shown made ready t -> snapshot_shown made ready (t ++ s).
Proof.
  intros (Hr & asked & before & after & -> & Hb & Ha). split; [done|]. exists asked, before, (after ++ s). rewrite app_assoc. auto.
Qed.
Lemma can_fork_longer opts parent ready t s : omap snapshot_asked s = [] -> can_fork opts parent ready t -> can_fork opts parent ready (t ++ s).
Proof.
  intros Hs (Hp & Hn & made & Hm & Hr). split; [auto|]. split; [done|]. exists made.
  split; [by apply snapshot_made_longer|by apply snapshot_shown_longer].
Qed.
Lemma answered_longer t s children asked : Forall2 (answered t) children asked -> Forall2 (answered (t ++ s)) children asked.
Proof. intros HF. eapply Forall2_impl; [exact HF|]. intros child a. unfold answered. auto. Qed.

(** *** The parts of a fork *)

Lemma wpg_then {G A B} (p : prog SdkE (option (result A))) (k : A -> prog SdkE (option (result B))) Q tr :
  wpg G (then_ p k) Q tr <->
  wpg G p (fun t r => match r with None => Q t None | Some (Err e) => Q t (Some (Err e)) | Some (Ok a) => wpg G (k a) Q t end) tr.
Proof. unfold then_. rewrite wpg_bind. split; intros H; (eapply wpg_mono; [exact H|]); by intros t [[a|e]|]. Qed.
Lemma wpg_finishes {G A} (p : prog SdkE (result A)) (Q : trace SdkE -> option (result A) -> Prop) tr :
  wpg G (finishes p) Q tr <-> wpg G p (fun t r => Q t (Some r)) tr.
Proof. unfold finishes. by rewrite wpg_bind. Qed.
Lemma wpg_try {G A B} (p : prog SdkE (result A)) (k : A -> prog SdkE (result B)) Q tr :
  wpg G (try_bind p k) Q tr <-> wpg G p (fun t r => match r with Ok a => wpg G (k a) Q t | Err e => Q t (Err e) end) tr.
Proof. unfold try_bind. rewrite wpg_bind. split; intros H; (eapply wpg_mono; [exact H|]); by intros t [a|e]. Qed.

(** While a wait reads the parent, nothing is created. *)
Lemma wait_parent fuel opts tr :
  created tr = ([], []) ->
  wpg (forks opts) (WaitSandboxReady pollInterval fuel (fk_ParentNamespace opts) (fk_ParentName opts)) (fun t r =>
    forall parent, r = Some (Ok parent) -> created t = ([], []) /\ parent_read opts parent t) tr.
Proof.
  intros Htr. eapply wpg_mono; [apply (poll_rule (forks opts) (fun t => created t = ([], []))
    (fun t x => forall parent, x = Ok parent -> created t = ([], []) /\ parent_read opts parent t))|by intros t [x|] H parent; [intros [= ->]; by apply H|]].
  - intros t Ht. unfold Client_GetSandbox. cbn [bind trigger]. apply wpg_call; [exact I|]. intros r.
    apply wpg_ret. set (ev := existT _ r). assert (Hq : created (t ++ [ev]) = ([], [])) by (by rewrite created_quiet). unfold ev in *.
    destruct r as [sandbox|err]; [|by intros parent]. destruct (sandbox_decided _ _ sandbox) as [x|] eqn:Hd; [|done].
    intros parent ->. apply sandbox_decided_runs in Hd as [-> Hr]. split; [done|]. split; [auto|done].
  - done.
  - intros t ended Ht. by rewrite created_quiet.
  - by intros t err Ht parent.
  - done.
Qed.

Lemma create_snapshot_wpg opts parent tr :
  created tr = ([], []) -> parent_read opts parent tr ->
  wpg (forks opts) (Client_CreateSnapshot (mkSnapshotOptions (fk_ParentNamespace opts) (fk_SnapshotName opts)
        (fk_ParentName opts) (sp_PoolRef (sb_Spec parent)))) (fun t r =>
    forall made, r = Ok made -> children_asked t = [] /\ parent_read opts parent t /\ snapshot_made opts parent made t) tr.
Proof.
  intros Htr Hp. unfold Client_CreateSnapshot. cbn [so_Namespace so_Name so_SourceSandbox so_Pool]. destruct (_ || _); [done|].
  assert (Hask : forall t name, created t = ([], []) -> parent_read opts parent t -> names_snapshot opts name t ->
    wpg (forks opts) (trigger (KCreateSnapshot (snapshot_of opts parent name))) (fun t r =>
      forall made, r = Ok made -> children_asked t = [] /\ parent_read opts parent t /\ snapshot_made opts parent made t) t).
  { intros t name Ht Hpt Hn. apply wpg_call; [split; [done|]; by exists parent, name|]. intros r. apply wpg_ret. intros made ->.
    set (ev := existT _ _). pose proof (created_step t ev) as Hc. injection Ht as Hct Hst. rewrite Hct, Hst in Hc. injection Hc as Hc Hs.
    split; [done|]. split; [auto|]. exists name. auto. }
  apply wpg_try. destruct (bool_decide _) eqn:Hname.
  - apply bool_decide_eq_true in Hname. apply wpg_try. unfold Client_GetSandbox. apply wpg_call; [exact I|]. intros r.
    apply wpg_ret. destruct r as [read|err]; [|done]. apply Hask; [by rewrite created_quiet|auto|].
    right. split; [done|]. exists read. auto.
  - apply bool_decide_eq_false in Hname. apply wpg_ret. apply Hask; [done|done|]. by left.
Qed.

Lemma wait_snapshot fuel opts parent made tr :
  children_asked tr = [] -> parent_read opts parent tr -> snapshot_made opts parent made tr ->
  wpg (forks opts) (WaitSnapshotReady pollInterval fuel (om_Namespace (sn_Meta made)) (om_Name (sn_Meta made))) (fun t r =>
    forall ready, r = Some (Ok ready) -> children_asked t = [] /\ parent_read opts parent t /\
      snapshot_made opts parent made t /\ snapshot_shown made ready t) tr.
Proof.
  intros Hc Hp Hm. set (J t := exists s, t = tr ++ s /\ created t = created tr).
  assert (HJ : forall t ev, child_asked ev = None -> snapshot_asked ev = None -> J t -> J (t ++ [ev])).
  { intros t ev H1 H2 (s & -> & Hs). exists (s ++ [ev]). split; [by rewrite app_assoc|]. by rewrite created_quiet. }
  set (Q t (x : result SandboxSnapshot) := forall ready, x = Ok ready -> children_asked t = [] /\ parent_read opts parent t /\
      snapshot_made opts parent made t /\ snapshot_shown made ready t).
  eapply wpg_mono; [apply (poll_rule (forks opts) J Q)|by intros t [x|] H ready; [intros [= ->]; by apply H|]].
  - intros t Ht. unfold Client_GetSnapshot. cbn [bind trigger]. apply wpg_call; [exact I|]. intros r. apply wpg_ret.
    pose proof (HJ t (existT (P := answer) (KGetSnapshot (om_Namespace (sn_Meta made)) (om_Name (sn_Meta made))) r) eq_refl eq_refl Ht) as HJ'.
    destruct r as [snap|err]; [|by intros ready]. destruct (snapshot_decided _ _ snap) as [x|] eqn:Hd; [|done].
    intros ready ->. apply snapshot_decided_ready in Hd as [-> Hr]. destruct Ht as (s & -> & Hs), HJ' as (s' & Heq & Hs').
    injection Hs' as Hsc Hss. assert (Hquiet : omap snapshot_asked s' = []).
    { rewrite Heq in Hss. unfold snapshots_asked in Hss. rewrite omap_app in Hss. by apply (app_inv_head (omap snapshot_asked tr)); rewrite app_nil_r. }
    split; [etrans; [exact Hsc|done]|]. split; [auto|]. split; [refine (eq_ind_r (snapshot_made opts parent made) _ Heq); by apply snapshot_made_longer|].
    split; [done|]. destruct Hm as (name & _ & _ & Hin). exists (snapshot_of opts parent name), tr, s'. split; [exact Heq|].
    split; [done|]. rewrite <- app_assoc in Heq. apply (app_inv_head tr) in Heq as <-. auto.
  - done.
  - intros t ended Ht. by apply HJ.
  - by intros t err Ht ready.
  - exists []. by rewrite app_nil_r.
Qed.
(** The children still to be asked for, when some were. *)
Lemma create_children_wpg opts parent ready names asked tr :
  can_fork opts parent ready tr -> children_asked tr = asked ->
  fork_children opts parent ready = asked ++ (fork_child opts parent ready <$> names) ->
  wpg (forks opts) (create_children opts (sp_PoolRef (sb_Spec parent)) (fork_profile opts parent) (om_Name (sn_Meta ready)) names)
    (fun t r => forall children, r = Ok children -> can_fork opts parent ready t /\
       exists more, children_asked t = asked ++ more /\ fork_children opts parent ready = asked ++ more /\ Forall2 (answered t) children more) tr.
Proof.
  revert asked tr. induction names as [|name names IH]; intros asked tr Hcan Hasked Hall; cbn [create_children].
  { intros ? [= <-]. split; [done|]. exists []. rewrite app_nil_r. cbn in Hall. by rewrite app_nil_r in Hall. }
  apply wpg_try. unfold CreateSandboxFromSnapshot. destruct (_ || _); [done|].
  cbn [op_Namespace op_Name op_PoolRef op_SlotProfile]. rewrite fmap_cons in Hall. fold (fork_child opts parent ready name).
  set (child := fork_child opts parent ready name) in *. apply wpg_call.
  { exists parent, ready. split; [done|]. rewrite Hasked, Hall. exists (fork_child opts parent ready <$> names). by rewrite <- app_assoc. }
  intros r. apply wpg_ret. destruct r as [made|err]; [|done]. set (t1 := tr ++ _).
  apply wpg_try. eapply wpg_mono; [apply wpg_extends, (IH (asked ++ [child]))|].
  - by apply can_fork_longer.
  - unfold t1, children_asked. rewrite omap_app. cbn. by fold (children_asked tr); rewrite Hasked.
  - by rewrite <- app_assoc.
  - cbv beta. intros t [children|err] [Hr Hp]; [|done]. intros all [= <-]. destruct (Hr children eq_refl) as (Hc & more & Ha & Hf & HF).
    split; [done|]. exists (child :: more). rewrite <- app_assoc in Ha, Hf. split; [done|]. split; [done|]. constructor; [|done].
    destruct Hp as [s ->]. unfold answered, t1. auto.
Qed.

(** C36. What a fork does, whatever the API server answers. It asks for one snapshot at most, of the
    parent, once it has read that the parent runs, with the parent's pool and under the name asked
    for or one made from the parent's UID. It asks for a child only after the API server made that
    snapshot and afterwards, read by the namespace and the name it was made with, showed it as
    Ready, and only when it knows as many names as children were asked for; the children come in
    the order of the names, each restoring from that snapshot, in the parent's pool and the slot
    profile asked for or the parent's. It deletes nothing. When it succeeds it asked for exactly one
    snapshot and exactly those children, and returns what the API server answered for each. *)
Theorem fork_outcome fuel opts : wpg (forks opts) (Fork pollInterval fuel opts) (forked opts) [].
Proof.
  unfold Fork. destruct (_ || _); [done|].
  apply wpg_then. eapply wpg_mono; [by apply wait_parent|]. intros t1 [[parent|err]|] H1; [|done|done].
  destruct (H1 parent eq_refl) as [Hc1 Hp1]. cbv zeta. fold (fork_profile opts parent).
  apply wpg_then, wpg_finishes. eapply wpg_mono; [by apply create_snapshot_wpg|]. intros t2 [made|err] H2; [|done].
  destruct (H2 made eq_refl) as (Hc2 & Hp2 & Hm2).
  apply wpg_then. eapply wpg_mono; [by apply wait_snapshot|]. intros t3 [[ready|err]|] H3; [|done|done].
  destruct (H3 ready eq_refl) as (Hc3 & Hp3 & Hm3 & Hr3).
  destruct (Z.eqb_spec (Z.of_nat (length (child_names opts))) (fk_Count opts)) as [Hn|]; [|done]. cbn [negb].
  apply wpg_then, wpg_finishes. eapply wpg_mono; [apply (create_children_wpg _ parent ready _ [])|].
  - split; [done|]. split; [done|]. by exists made.
  - done.
  - done.
  - intros t [children|err] H; [|done]. destruct (H children eq_refl) as (Hcan & more & Ha & Hf & HF).
    apply wpg_ret. intros res [= <-]. exists parent. cbn [fr_Snapshot fr_Children]. cbn [app] in Ha, Hf. by rewrite Ha, Hf.
Qed.
End ClientFacts.

(** ** Sessions *)

Section SessionFacts.
Context {QA : QuantityApi} {KJ : K8sJson QA} {KA : KubeApi} {WR : WorkerReachability (QA := QA)}.
Context (workerPort : Z).

(** A session is about a running Sandbox: [OpenSandbox] succeeds only for a Sandbox that the
    API server showed Running and assigned, and then every call of the session goes to the Worker
    address it resolved, to the Slot of the assignment, with the Sandbox's identity - never
    through a nil assignment. *)
Theorem session_calls_own_slot namespace name command timeout path :
  command <> [] ->
  always (OpenSandbox workerPort namespace name) (fun _ r =>
    forall s, r = Ok s -> exists a,
      ss_Phase (sb_Status (se_object s)) = SandboxPhaseRunning /\ ss_Assignment (sb_Status (se_object s)) = Some a /\
      always (Session_Exec (Some s) (mkExecOptions command timeout)) (fun t _ => exists body answer,
        t = [existT (HttpDo "POST" (slotURL (se_endpoint s) (sa_SlotID a) "exec") (JsonBody body)) answer] /\
        exists seconds, body = enc (mkExecSandbox (sa_SlotID a) (sandboxIdentity (se_object s)) command seconds)) /\
      always (Session_ReadSandboxFile (Some s) path) (fun t _ => exists answer,
        t = [existT (HttpDo "GET" (fileURL (se_endpoint s) (sa_SlotID a) "content"
          (mkFileRequest (sa_SlotID a) (sandboxIdentity (se_object s)) path)) NoBody) answer])).
Proof.
  intros Hc. unfold always, OpenSandbox. apply wp_try_bind. unfold Client_GetSandbox, trigger. cbn [wp].
  intros [sandbox|err]; [|done]. cbv zeta. destruct (ss_Assignment (sb_Status sandbox)) as [a|] eqn:Ha; [|done].
  destruct (bool_decide _) eqn:Hp; [|done]. cbn [negb]. apply bool_decide_eq_true in Hp.
  apply wp_try_bind. eapply wp_mono; [apply wp_true|]. intros t [endpoint|err] _; [|done].
  intros s [= <-]. exists a. cbn [se_object se_endpoint]. split; [done|]. split; [done|]. split.
  - unfold Session_Exec. cbn [eo_Command eo_Timeout]. rewrite bool_decide_false by done.
    unfold on_session, session_slot. cbn [se_object]. rewrite Ha. cbn [fmap option_fmap option_map].
    apply wp_on_error. unfold ExecSandbox, do. apply wp_mbind. unfold trigger. cbn [wp]. intros r.
    unfold mret, prog_ret. cbn [wp]. destruct (do_answer _ _); eexists _, _; (split; [reflexivity|]); by eexists.
  - unfold Session_ReadSandboxFile, on_session, session_slot. cbn [se_object]. rewrite Ha. cbn [fmap option_fmap option_map].
    apply wp_on_error. unfold ReadSandboxFile. apply wp_mbind. unfold trigger. cbn [wp]. intros r.
    unfold mret, prog_ret. cbn [wp]. by destruct (match r with Answered _ _ => _ | BuildFailed _ => _ | CallFailed _ => _ end); eexists.
Qed.
End SessionFacts.

(** ** Concrete runs *)

Module ClientWitness.
#[local] Existing Instance ZQuantity.
#[local] Existing Instances HttpWitness.codecs KubeRef.api.
#[local] Instance reach : WorkerReachability (QA := ZQuantity) := directPodIPReachability.

Definition ready : Condition := mkCondition ConditionReady ConditionTrue 1 0 "Running" "the Sandbox is running".
Definition meta : ObjectMeta := mkMeta "box" "team" "0123456789" 1 "7" [] false ∅ None.
Definition parent : Sandbox := mkSandbox meta (mkSandboxSpec "pool" "small" None "")
  (mkSandboxStatus 1 SandboxPhaseRunning (Some (mkSandboxAssignment "worker-0" 3 "small")) [ready]).
Definition snapshot : SandboxSnapshot := mkSnapshot (named "team" "box-snap-01234567") (mkSnapshotSpec "box" "pool")
  (mkSnapshotStatus 1 SnapshotPhaseReady "path" [] "runsc" "v1" 1 "worker-0" "" [ready]).

(** An API server with a running parent, on which every creation succeeds. *)
Definition server (s : unit) (e : SdkE) : unit * answer e :=
  (s, match e as e return SdkE_effect e with
      | KGetSandbox _ _ => Ok parent
      | KCreateSandbox child => Ok child
      | KGetSnapshot _ _ | KCreateSnapshot _ => Ok snapshot
      | KDeleteSandbox _ | KDeleteSnapshot _ | Wait _ => None
      | KGetPod _ _ => Ok (mkPod (named "team" "worker-0") "10.0.0.7" [] [])
      | Cleanup => tt
      end).

Definition fork_two : ForkOptions := mkForkOptions "team" "box" 2 [] "" "".
Example forks_two_children :
  let '(_, t, r) := run server (Fork defaultPollInterval 1 fork_two) tt [] in
  (fun s => (om_Name (sb_Meta s), sp_FromSnapshot (sb_Spec s))) <$> children_asked t =
    [("box-fork-0", "box-snap-01234567"); ("box-fork-1", "box-snap-01234567")] /\
  match r with Some (Ok res) => length (fr_Children res) = 2 | _ => False end.
Proof. vm_compute. by split. Qed.

(** The number of names is compared with the count only after the snapshot: a fork that is
    refused for its names has already saved (and, with Kata, stopped) the parent. *)
Theorem fork_snapshots_before_it_checks :
  let '(_, t, r) := run server (Fork defaultPollInterval 1 (mkForkOptions "team" "box" 2 ["only-one"] "" "")) tt [] in
  r = Some (Err (Plain "childNames length must equal count")) /\ length (snapshots_asked t) = 1.
Proof. vm_compute. by split. Qed.

Lemma session_calls_own_slot_witness :
  always (OpenSandbox defaultWorkerPort "team" "box") (fun _ r =>
    forall s, r = Ok s -> exists a,
      ss_Phase (sb_Status (se_object s)) = SandboxPhaseRunning /\ ss_Assignment (sb_Status (se_object s)) = Some a /\
      always (Session_Exec (Some s) (mkExecOptions ["true"] 0)) (fun t _ => exists body answer,
        t = [existT (HttpDo "POST" (slotURL (se_endpoint s) (sa_SlotID a) "exec") (JsonBody body)) answer] /\
        exists seconds, body = enc (mkExecSandbox (sa_SlotID a) (sandboxIdentity (se_object s)) ["true"] seconds)) /\
      always (Session_ReadSandboxFile (Some s) "out.txt") (fun t _ => exists answer,
        t = [existT (HttpDo "GET" (fileURL (se_endpoint s) (sa_SlotID a) "content"
          (mkFileRequest (sa_SlotID a) (sandboxIdentity (se_object s)) "out.txt")) NoBody) answer])).
Proof. by apply (session_calls_own_slot defaultWorkerPort "team" "box" ["true"] 0 "out.txt"). Defined.

Definition session : Session := mkSession parent "http://10.0.0.7:8090" true.
Example opens_session : (run server (OpenSandbox defaultWorkerPort "team" "box") tt []).2 = Ok session.
Proof. vm_compute. reflexivity. Qed.

(** The URLs a program calls on a Worker that answers nothing, and the timeouts it asks for. *)
Definition silent (s : unit) (e : HttpE) : unit * answer e := (s, CallFailed (Plain "timeout")).
Definition urls {A} (p : prog HttpE A) : list string :=
  (fun ev : event HttpE => match ev with existT (HttpDo _ url _) _ => url end) <$> (run silent p tt []).1.2.

(** [Close] leaves the session's client in place, so a closed session still calls its Worker and
    never answers that it is closed. *)
Theorem closed_session_still_calls :
  match (run server (Close (Some session)) tt []).2 with
  | Some closed => se_cleanup closed = false /\
      urls (Session_Exec (Some closed) (mkExecOptions ["true"] 0)) = ["http://10.0.0.7:8090/v1/slots/3/exec"]
  | None => False
  end.
Proof. vm_compute. by split. Qed.

(** A timeout below a second is sent as 0, which the Worker takes for its default. *)
Example subsecond_timeout_is_default :
  Session_Exec (Some session) (mkExecOptions ["true"] (Second / 2)) = Session_Exec (Some session) (mkExecOptions ["true"] 0).
Proof. reflexivity. Qed.

(** The client takes a failed start for permanent, while the controller retries it: after an error
    of the Worker that can be retried the Sandbox is not Failed and its next run is scheduled, but
    a client that waits for it gives up. *)
Definition overloaded : error := WorkerAPIError 503 "Unavailable" "try again".
Theorem client_gives_up_on_retry :
  let box := LivenessWitness.box in
  let '(stored, _, r) := run LivenessWitness.serve
    (handleWorkerError box "StartFailed" overloaded) box [] in
  r = Ok sandboxRetryInterval /\ ss_Phase (sb_Status stored) <> SandboxPhaseFailed /\
  exists message, sandbox_decided "team" "box" stored = Some (Err (SandboxFailedError "team" "box" message)).
Proof. vm_compute. split; [done|]. split; [done|]. by eexists. Qed.
End ClientWitness.
